(* ===== verification/_CoqProject ===== *)
-Q . S2P
Prelude.v
GoStrings.v
Sha256.v
Filepath.v
KubeTypes.v
Api.v
Net.v
Client.v
System.v
Labels.v
Monitoring.v
Operator.v
Status.v
Component.v
Credentials.v
Reconcilers.v
Memory.v
Copies.v
DeepCopy.v
SharedLabels.v
PodManager.v
Waiter.v
Defaults.v
Builder.v
FluentbitBuilder.v
FluentdBuilder.v
EventsReaderBuilder.v
HABuilder.v
GraylogBuilder.v
GraylogStreams.v
Files.v
Templates.v
Quiet.v
ComponentRun.v
Certificates.v
Rest.v
GraylogRest.v
GraylogContent.v
GraylogUploads.v
GraylogRequests.v
GraylogManaged.v
FluentbitController.v
FluentdController.v
EventsReaderController.v
HAController.v
GraylogController.v
GraylogRun.v
SecretWatcher.v
Watchers.v
Rotations.v
Overlap.v
Controller.v
Cycle.v
Startup.v
Scheme.v
PipelineTest.v
ParserContracts.v
PipelineTools.v
Golden.v
