(* ===== verification/Prelude.v ===== *)
(** * Verification of the qubership-logging-operator

    The operator is a controller for the custom resource LoggingService: it deploys
    Graylog, FluentD, FluentBit (on its own, or as forwarders before an aggregator) and a
    reader of the cloud's events, configures Graylog over its REST API, and reports what it
    did in the conditions of the custom resource's status.  This library is a model of its
    Go code, one definition per function, and theorems about that model.  Names are those of
    the code; a record's field is [Struct_Field], a method that several components have
    carries the component's name ([fluentbit_Run], [ha_Run]).

    ** How the model runs

    A Go function that has effects is a state transformer [M S A] (Prelude): from a state it
    gives a state and an outcome, which is a value, an error, or the end of the goroutine (a
    panic, or [log.Fatalln]).  [wp m Q E s] says that [m] never panics from [s], that a value
    satisfies [Q] and an error [E]; [runs R E m] that the states before and after are related
    by [R], or by [E] after an error; [steps R m] that they are related however [m] ends.
    [m ≡ m'] says that two computations do the same from every state.  There is no other
    failure: a theorem about [wp] is a theorem that the code returns.

    The outside is reached through type classes over a world [W]:
    - [KubeClient] (Client) is the cluster, the clock and [wait.Poll]; [KubeClientLaws] is
      what its documentation promises (a read object is the stored one, a written one is
      stored as the API server stores it, an error changes nothing but what others change);
      [SpecStable] says that nobody edits the custom resource's spec during a cycle;
    - [System] (System) is files, archives, HTTP exchanges and the range over a map, whose
      order is not determined; [SystemLaws] is their documented behaviour and [Observed] the
      record of what was exchanged and written; [BodiesRead] says that the body of a response
      can be read, which the code needs not to be ended by [log.Fatalln];
    - [Encodings] (Net) is net/url, encoding/json, base64 and the parsers of certificates;
    - [Externals] (ComponentRun) is the embedded configuration files, the template engine,
      [resource.ParseQuantity] and the clock of the templates;
    - [MonitoringClient] (Monitoring) is the discovery client and the client of PodMonitors;
      [ManagerRuntime] (Startup) the manager of controller-runtime, [ManagerObserved] the
      calls made to it; [WatchClient] (Watchers) the watch of client-go;
    - [ReachableServer] (Rotations) is a server that answers: a call fails only because the
      object is not there or the update was made from another version of it.
    [Mem] (Client, System) is a cluster and a system in memory that satisfies the laws: the
    witnesses of the theorems run the code on it; [Host] (Startup) is one with a manager.

    The state of a cycle is [op W] (Operator): the world, the custom resource that all
    reconcilers share and change, and the list of the components to wait for.

    ** The files

    Foundations: Prelude; GoStrings, Sha256, Filepath (the parts of Go's library that the
    code computes with, defined and not assumed); KubeTypes (k8s.io/api); Net; Client;
    System.

    - Api: api/v1/loggingservice_types.go; Certificates: its methods that read Secrets.
    - Labels, Status, Component, Credentials, PodManager, Waiter, Files, Templates, Rest,
      Monitoring: internal/utils (labels.go; status.go; common.go and config_secret.go;
      output_credentials.go; pod_manager.go; waiter.go; files.go in the next three;
      service-monitor.go, predicate.go and logger.go).
    - Reconcilers: internal/reconcilers/reconcilers.go.
    - Memory: the heap of Go, where pointers, slices and maps share cells, for what the other
      files pass as values; Copies: the idioms of generated copies and the contract that they
      keep; DeepCopy: api/v1/zz_generated.deepcopy.go; SharedLabels: the labels of an object
      and of its pod template, as maps in memory.
    - Defaults, Builder, FluentbitBuilder, FluentdBuilder, EventsReaderBuilder, HABuilder,
      GraylogBuilder: internal/defaults and internal/builder.
    - ComponentRun: what the reconcilers share; FluentbitController, FluentdController,
      EventsReaderController, HAController, GraylogController: a package of
      internal/controllers each; GraylogRun: the order in which Graylog's [Run] works, with
      Quiet: what sends no request.
    - GraylogStreams, GraylogRest, GraylogContent, GraylogUploads: the connector and the
      managers of internal/controllers/graylog/utils; GraylogRequests: the requests that
      they send; GraylogManaged: what Graylog answered to them.
    - SecretWatcher: watch-secret.go there, as the goroutine that runs it; Watchers: the same
      code in steps of one call of the client each, and [watchSecret], which starts it;
      Rotations: any number of watchers on one server, in any interleaving; Overlap: these
      and any number of reconciles in [handleConfigMap], in steps of one call too.
    - Operator: the state of a cycle, and the names of internal/utils/vars.go.
    - Controller: internal/controllers/loggingservice_controller.go, which calls them all;
      Cycle: what a whole cycle does.
    - Startup: cmd/operator/main.go and internal/manager/manager.go; Scheme: the types that
      api/v1/groupversion_info.go registers, before that.
    - PipelineTest, ParserContracts, PipelineTools: test/fluent-pipeline, the program that
      renders the operator's templates, feeds fixtures to an agent and compares its output
      with what is expected.  Golden: internal/builder/buildertest/golden.go, which compares
      the built objects with files.

    ** What the theorems show

    - The controller: a cycle never fails, runs every component whatever the others return,
      reports the error of each that failed, and succeeds exactly when none did and the wait
      for them ended well; after it the components are deployed together, none of them undone
      by a later one, and the aggregator was applied before its start was waited for; the
      cycle's outcome is reported, and a failure backs off within 64 bits; the container runtime that it detects; which custom
      resources a Secret wakes.
    - The components: a run that succeeds leaves the configuration, the pods and the
      Services that the builders describe and the templates render; what a run that fails
      leaves untouched; an uninstallation never fails.
    - Graylog: the credentials and the hash of the root password; the connection and its
      TLS configuration; no request before the replicas are ready; the index sets, streams
      and rules that it has afterwards; under "only-create" no request changes or deletes what the
      administrator has, but for the views that the files of the administrator replace; a
      request that is refused fails the cycle, the probes and reads that the code goes on
      after aside; the streams are resumed;
      a watcher that sees a new password leaves the configuration and the Secret with it,
      and when it stops; the steps of a watcher are its code; a password that all watchers
      see last reaches the configuration and the Secret in every interleaving, in a bounded
      number of steps, while a rotation of the user with it can be lost; reconciles that
      read the Secret after its last change do not disturb this, while one that has read it
      before can undo the work of the watchers.
    - The start: which calls the manager gets, in which order, for every command line.
    - The pipeline test: a check passes exactly when the output is one-to-one with the
      expected records; what a parser's contract demands of it; the test renders what the
      operator renders.
    - The built objects: names, mounts, selectors and probes are consistent, and the pods
      hardened.
    - Memory: a deep copy of the custom resource, or of any part of it, shares nothing with
      the original; the labels of a workload are new maps, so that the custom resource, which
      the label code is given by reference, is not written to.  This is what makes it right to
      pass these values as values everywhere else.
    - The shared parts: an invariant of the status conditions under every operation of the
      updater; a configuration Secret that converges; fields of existing objects that a
      reconcile keeps; credentials that are resolved, validated and quoted unambiguously;
      archives that are unpacked inside their directory; labels that Kubernetes accepts; the
      waits end, with what their result means.

    ** Bounds and fuel

    The wait for the components polls every [Interval] for [ComponentPendingTimeout]:
    [pending_fuel] rounds are enough because each takes [Interval] of the clock at least
    (Waiter proves that it does not run out).  [WaitForHostActive] dials four times.  A watcher
    takes at most eight steps for an event ([steps_left]).  SHA-256
    works on the blocks of the message, computed beforehand.  Integers are [Z]; where the code
    computes with a fixed width the wrap-around is written out ([int32], [int64]).  A line of
    Graylog's configuration is at most [MaxScanTokenSize], as for Go's scanner.

    ** Not modelled

    - Memory in the other files: the custom resource, the defaults and the built objects are
      values there.  The deep copies of the types of k8s.io are parameters.
    - The template engine and the network: parameters.  The text of the configuration files
      is data of the engine and does not appear.
    - The interleaving of a watcher with the rest of the cycle that started it, which has the
      same custom resource, and with the parts of later cycles other than [handleConfigMap].
    - The cache of the manager's client: a read is a read of the stored object.
    - Log messages; the helpers that only feed them ([ToString], [ToJSON]).
    - What the pipeline test prints, its HTTP server and certificate; the golden files of the
      unit tests. *)

From stdpp Require Export prelude gmap strings list fin_maps pretty.
From Stdlib Require Import ZArith Lia.

(** ** Zero values

    A composite literal [T{f: v}] gives every field it does not name the zero
    value of its type: [zero <| f := v |>]. *)

Class GoZero (A : Type) := zero : A.

#[export] Instance zero_string : GoZero string := EmptyString.
#[export] Instance zero_Z : GoZero Z := 0%Z.
#[export] Instance zero_bool : GoZero bool := false.
#[export] Instance zero_pointer A : GoZero (option A) := (@None A).
#[export] Instance zero_slice A : GoZero (list A) := (@nil A).
#[export] Instance zero_map A : GoZero (gmap string A) := (∅ : gmap string A).

(** ** Field updates

    [x <| f := v |>] is [x] with the field [f] set to [v], and
    [x <| f ::= g |>] applies [g] to the field.  A record that is updated has
    an [Eta] instance, which rebuilds it from its fields; the setter of a field
    abstracts that field in it. *)

Class Eta (R : Type) := eta : R → R.

Definition Setter {R E : Type} (getter : R → E) : Type := (E → E) → R → R.
Existing Class Setter.

Ltac find_setter R E getter :=
  let eta := constr:(_ : Eta R) in
  let f := constr:(λ (g : E → E) (x : R),
    ltac:(let e := eval hnf in eta in
          let body := eval cbv beta in (e x) in
          let body := eval pattern (getter x) in body in
          match body with ?F (getter x) => let r := eval cbv beta in (F (g (getter x))) in exact r end))
  in exact f.

#[global] Hint Extern 1 (@Setter ?R ?E ?getter) => find_setter R E getter : typeclass_instances.

Definition update {R E : Type} (getter : R → E) {s : Setter getter} : (E → E) → R → R := s.
Arguments update {R E} getter {s} g x /.

Notation "x <| f ::= g |>" := (update f g x)
  (at level 1, left associativity, f at level 10, format "x  <| f  ::=  g |>").
Notation "x <| f := v |>" := (update f (λ _, v) x)
  (at level 1, left associativity, f at level 10, format "x  <| f  :=  v |>").

(** ** Go errors

    The code classifies an error only with [errors.IsNotFound],
    [errors.IsAlreadyExists], [wait.Interrupted] and [os.IsNotExist]; the first three look
    through the wrapping that
    [fmt.Errorf("...: %w", err)] adds.  An error is therefore its reason and
    its message, and wrapping keeps the reason. *)

Inductive reason : Type :=
| NotFound
| AlreadyExists
| Conflict
| Interrupted
| NotExist
| OtherReason.

Record error : Type := mkError {
  err_reason : reason;
  err_msg : string;
}.

#[global] Instance reason_eq_dec : EqDecision reason.
Proof. solve_decision. Defined.

#[global] Instance error_eq_dec : EqDecision error.
Proof. solve_decision. Defined.

Definition IsNotFound (e : error) : bool := bool_decide (err_reason e = NotFound).

Definition IsAlreadyExists (e : error) : bool := bool_decide (err_reason e = AlreadyExists).

(** [wait.Interrupted(err)]: a poll ended because its time was over. *)
Definition wait_Interrupted (e : error) : bool := bool_decide (err_reason e = Interrupted).

(** [os.IsNotExist(err)]: a file is not there. *)
Definition os_IsNotExist (e : error) : bool := bool_decide (err_reason e = NotExist).

(** [errors.New(msg)] and [fmt.Errorf(msg)] without a wrapped error. *)
Definition errors_New (msg : string) : error := mkError OtherReason msg.

(** [fmt.Errorf("<msg>: %w", e)]. *)
Definition errorf_wrap (msg : string) (e : error) : error :=
  mkError (err_reason e) (msg +:+ ": " +:+ err_msg e).

(** [fmt.Errorf] with [%w] elsewhere in the format. *)
Definition errorf (msg : string) (e : error) : error := mkError (err_reason e) msg.

(** A double quote, and [%q] of a text that needs no escape. *)
Definition DQ : string := String (Ascii.Ascii false true false false false true false false) "".

Definition quoted (s : string) : string := DQ +:+ s +:+ DQ.

Lemma IsNotFound_wrap msg e : IsNotFound (errorf_wrap msg e) = IsNotFound e.
Proof. done. Qed.

Lemma IsNotFound_true e : IsNotFound e = true ↔ err_reason e = NotFound.
Proof. apply bool_decide_eq_true. Qed.

Lemma IsAlreadyExists_true e : IsAlreadyExists e = true ↔ err_reason e = AlreadyExists.
Proof. apply bool_decide_eq_true. Qed.

(** ** The operator monad

    A Go function that may return an error, and that reads and writes the
    state [St], is a computation [M St A].  [Panic] is a run-time panic (a nil
    dereference, an index out of range); nothing recovers from it. *)

Inductive outcome (A : Type) : Type :=
| Ret (a : A)
| Fail (e : error)
| Panic.

Arguments Ret {_} _.
Arguments Fail {_} _.
Arguments Panic {_}.

Definition M (St A : Type) : Type := St → St * outcome A.

#[global] Instance M_ret St : MRet (M St) := λ A a s, (s, Ret a).

#[global] Instance M_bind St : MBind (M St) := λ A B k m s,
  match m s with
  | (s', Ret a) => k a s'
  | (s', Fail e) => (s', Fail e)
  | (s', Panic) => (s', Panic)
  end.

Section operations.
Context {St : Type}.

Definition fail {A} (e : error) : M St A := λ s, (s, Fail e).

Definition panic {A} : M St A := λ s, (s, Panic).

Definition gets {A} (f : St → A) : M St A := λ s, (s, Ret (f s)).

Definition modify (f : St → St) : M St unit := λ s, (f s, Ret tt).

(** [err := f()] followed by code that inspects [err]. *)
Definition attempt {A} (m : M St A) : M St (error + A) := λ s,
  match m s with
  | (s', Ret a) => (s', Ret (inr a))
  | (s', Fail e) => (s', Ret (inl e))
  | (s', Panic) => (s', Panic)
  end.

(** [if err := f(); err != nil { log.Error(err, ...) }]: the error is logged
    and dropped. *)
Definition logged {A} (m : M St A) : M St unit :=
  r ← attempt m; mret tt.

Definition when (b : bool) (m : M St unit) : M St unit :=
  if b then m else mret tt.

(** [if err != nil { return err }] on an already computed result. *)
Definition of_sum {A} (r : error + A) : M St A :=
  match r with inl e => fail e | inr a => mret a end.

(** [*p] for a pointer that may be nil. *)
Definition deref {A} (p : option A) : M St A :=
  match p with Some a => mret a | None => panic end.

(** [for _, x := range xs { if err := f(x); err != nil { return err } }]. *)
Fixpoint for_each {X} (xs : list X) (f : X → M St unit) : M St unit :=
  match xs with
  | [] => mret tt
  | x :: xs' => f x;; for_each xs' f
  end.
End operations.

(** ** Weakest preconditions

    [wp m Q E s]: started in [s], the computation does not panic, a normal
    return satisfies [Q] and an error return satisfies [E]. *)

Definition wp {St A} (m : M St A) (Q : A → St → Prop) (E : error → St → Prop) (s : St) : Prop :=
  match m s with
  | (s', Ret a) => Q a s'
  | (s', Fail e) => E e s'
  | (_, Panic) => False
  end.

Section wp.
Context {St : Type}.
Implicit Types (s : St).

Lemma wp_ret {A} (a : A) Q E s : wp (mret a) Q E s ↔ Q a s.
Proof. done. Qed.

Lemma wp_bind {A B} (m : M St A) (k : A → M St B) Q E s :
  wp (m ≫= k) Q E s ↔ wp m (λ a, wp (k a) Q E) E s.
Proof. unfold wp, mbind, M_bind. by destruct (m s) as [s' [a|e|]]. Qed.

Lemma wp_fail {A} e (Q : A → St → Prop) E s : wp (fail e) Q E s ↔ E e s.
Proof. done. Qed.

Lemma wp_gets {A} (f : St → A) Q E s : wp (gets f) Q E s ↔ Q (f s) s.
Proof. done. Qed.

Lemma wp_modify f (Q : unit → St → Prop) E s : wp (modify f) Q E s ↔ Q tt (f s).
Proof. done. Qed.

Lemma wp_attempt {A} (m : M St A) Q E s :
  wp (attempt m) Q E s ↔ wp m (λ a, Q (inr a)) (λ e, Q (inl e)) s.
Proof. unfold wp, attempt. by destruct (m s) as [s' [a|e|]]. Qed.

Lemma wp_logged {A} (m : M St A) Q E s :
  wp (logged m) Q E s ↔ wp m (λ _, Q tt) (λ _, Q tt) s.
Proof. unfold logged. by rewrite wp_bind, wp_attempt. Qed.

Lemma wp_when b (m : M St unit) Q E s :
  wp (when b m) Q E s ↔ if b then wp m Q E s else Q tt s.
Proof. by destruct b. Qed.

Lemma wp_of_sum {A} (r : error + A) Q E s :
  wp (of_sum r) Q E s ↔ match r with inl e => E e s | inr a => Q a s end.
Proof. by destruct r. Qed.

Lemma wp_deref {A} (a : A) Q E s : wp (deref (Some a)) Q E s ↔ Q a s.
Proof. done. Qed.

Lemma wp_mono {A} (m : M St A) (Q Q' : A → St → Prop) (E E' : error → St → Prop) s :
  wp m Q E s → (∀ a s', Q a s' → Q' a s') → (∀ e s', E e s' → E' e s') → wp m Q' E' s.
Proof. unfold wp. destruct (m s) as [s' [a|e|]]; naive_solver. Qed.

Lemma wp_conj {A} (m : M St A) (Q Q' : A → St → Prop) (E E' : error → St → Prop) s :
  wp m Q E s → wp m Q' E' s →
  wp m (λ a s', Q a s' ∧ Q' a s') (λ e s', E e s' ∧ E' e s') s.
Proof. unfold wp. destruct (m s) as [s' [a|e|]]; naive_solver. Qed.

(** An invariant of the loop body is an invariant of the loop. *)
Lemma wp_for_each {X} (I : St → Prop) E (xs : list X) (f : X → M St unit) s :
  I s → (∀ x s', x ∈ xs → I s' → wp (f x) (λ _, I) E s') →
  wp (for_each xs f) (λ _, I) E s.
Proof.
  revert s. induction xs as [|x xs IH]; intros s HI Hf; [done|].
  cbn [for_each]. apply wp_bind. eapply wp_mono; [by apply Hf; [left|]| |done].
  intros ? s' HI'. apply IH; [done|]. intros y s'' Hy. apply Hf. by right.
Qed.

(** The postcondition may name the run itself. *)
Lemma wp_self {A} (m : M St A) Q E s :
  wp m Q E s → wp m (λ a s', m s = (s', Ret a) ∧ Q a s') E s.
Proof. unfold wp. by destruct (m s) as [s' [a|e|]]. Qed.

(** What a computation returns, from its weakest precondition. *)
Lemma wp_run {A} (m : M St A) Q E s s' a : wp m Q E s → m s = (s', Ret a) → Q a s'.
Proof. intros Hwp Hr. unfold wp in Hwp. by rewrite Hr in Hwp. Qed.

(** The same on a concrete run, by evaluation. *)
Lemma wp_eval {A} (m : M St A) Q E s a : wp m Q E s → (m s).2 = Ret a → Q a (m s).1.
Proof. unfold wp. destruct (m s) as [s' [a'|e|]]; cbn; naive_solver. Qed.

Lemma wp_no_panic {A} (m : M St A) Q E s : wp m Q E s → (m s).2 ≠ Panic.
Proof. unfold wp. by destruct (m s) as [s' [a|e|]]. Qed.
End wp.

Create Rewrite HintDb wp_db.
#[export] Hint Rewrite @wp_ret @wp_bind @wp_fail @wp_gets @wp_modify @wp_attempt @wp_logged
  @wp_when @wp_of_sum @wp_deref : wp_db.

(** Rewrite a [wp] goal to the precondition of its first effects. *)
Ltac wp_simpl := repeat (autorewrite with wp_db; cbn beta iota).

(** Case analysis on the scrutinee of the first [match] or [if] of the goal. *)
Ltac case_goal :=
  match goal with
  | |- context [match ?x with _ => _ end] => destruct x eqn:?
  end.

(** The same in the hypothesis that a run ended in a given result. *)
Ltac case_hyp H :=
  match type of H with
  | context [match ?x with _ => _ end] => destruct x eqn:?
  end.

(** ** Relations that a computation keeps

    [runs R E m]: [m] does not panic; from the state it starts in to the one it ends in
    [R] holds when it returns and [E] when it fails.  For relations as in
    [OutcomeRelations], [runs] is kept by every construct of the monad, so that it holds
    of a computation when it holds of the calls in it. *)

Definition runs {St A} (R E : relation St) (m : M St A) : Prop :=
  ∀ s, wp m (λ _, R s) (λ _, E s) s.

Class OutcomeRelations {St} (R E : relation St) : Prop := {
  outcome_preorder : PreOrder R;
  outcome_sub s s' : R s s' → E s s';
  outcome_seq s1 s2 s3 : R s1 s2 → E s2 s3 → E s1 s3;
}.

#[export] Instance outcome_same {St} (R : relation St) : PreOrder R → OutcomeRelations R R.
Proof. intros HR. split; [done|done|]. intros s1 s2 s3 H1 H2. exact (transitivity H1 H2). Qed.

Section runs.
Context {St : Type} {R E : relation St} `{HRE : !OutcomeRelations R E}.

#[local] Instance runs_preorder : PreOrder R := outcome_preorder.

Lemma runs_ret {A} (a : A) : runs R E (mret a).
Proof. intros s. rewrite wp_ret. reflexivity. Qed.

Lemma runs_fail {A} e : runs R E (fail (A:=A) e).
Proof. intros s. rewrite wp_fail. by apply outcome_sub. Qed.

Lemma runs_gets {A} (f : St → A) : runs R E (gets f).
Proof. intros s. rewrite wp_gets. reflexivity. Qed.

Lemma runs_bind {A B} (m : M St A) (k : A → M St B) :
  runs R E m → (∀ a, runs R E (k a)) → runs R E (m ≫= k).
Proof.
  intros Hm Hk s. rewrite wp_bind. eapply wp_mono; [apply Hm| |done].
  intros a s1 H1. eapply wp_mono; [apply Hk| |].
  - intros b s2 H2. exact (transitivity H1 H2).
  - intros e s2 H2. exact (outcome_seq _ _ _ H1 H2).
Qed.

Lemma runs_attempt {A} (m : M St A) : runs R R m → runs R E (attempt m).
Proof. intros Hm s. rewrite wp_attempt. eapply wp_mono; [apply Hm|done|done]. Qed.

Lemma runs_logged {A} (m : M St A) : runs R R m → runs R E (logged m).
Proof. intros Hm s. rewrite wp_logged. eapply wp_mono; [apply Hm|done|done]. Qed.

Lemma runs_when b (m : M St unit) : (b = true → runs R E m) → runs R E (when b m).
Proof. destruct b; [by auto|]. intros _. apply runs_ret. Qed.

Lemma runs_of_sum {A} (r : error + A) : runs R E (of_sum r).
Proof. destruct r; [apply runs_fail|apply runs_ret]. Qed.

Lemma runs_for_each {X} (xs : list X) (f : X → M St unit) :
  (∀ x, x ∈ xs → runs R E (f x)) → runs R E (for_each xs f).
Proof.
  induction xs as [|x xs IH]; intros Hf; cbn [for_each]; [apply runs_ret|].
  apply runs_bind; [apply Hf; left|]. intros _. apply IH. intros y Hy. apply Hf. by right.
Qed.
End runs.

Lemma runs_mono {St A} (R E R' E' : relation St) (m : M St A) :
  (∀ s s', R s s' → R' s s') → (∀ s s', E s s' → E' s s') → runs R E m → runs R' E' m.
Proof.
  intros HR HE Hm s. eapply wp_mono; [apply Hm| |].
  - intros a s'. apply HR.
  - intros e s'. apply HE.
Qed.

Create HintDb runs.
#[export] Hint Resolve runs_ret runs_fail runs_gets runs_of_sum : runs.
#[export] Hint Extern 0 (OutcomeRelations _ _) => typeclasses eauto : runs.

(** Go through the constructs of a computation; the hints of [runs] close its calls. *)
Ltac runs_step :=
  match goal with
  | |- runs _ _ _ => solve [eauto with runs]
  | |- ∀ _, runs _ _ _ => intros ?
  | |- runs _ _ (_ ≫= _) => apply runs_bind
  | |- runs _ _ (attempt _) => apply runs_attempt
  | |- runs _ _ (logged _) => apply runs_logged
  | |- runs _ _ (when _ _) => apply runs_when; intros ?
  | |- runs _ _ (for_each _ _) => apply runs_for_each; intros ? ?
  | |- runs _ _ (match ?x with _ => _ end) => destruct x eqn:?
  end.
Ltac runs := repeat runs_step.

(** [steps R m]: [R] holds from the state that [m] starts in to the one it leaves, however
    it ends. *)
Definition steps {St A} (R : relation St) (m : M St A) : Prop := ∀ s, R s (m s).1.

Lemma wp_steps {St A} (R : relation St) (m : M St A) Q E s :
  steps R m → wp m Q E s → wp m (λ a s', R s s' ∧ Q a s') (λ e s', R s s' ∧ E e s') s.
Proof. intros Hm. specialize (Hm s). unfold wp. by destruct (m s) as [s' [a|e|]]. Qed.

Lemma runs_steps {St A} (R : relation St) (m : M St A) : runs R R m → steps R m.
Proof. intros Hm s. specialize (Hm s). unfold wp in Hm. by destruct (m s) as [s' [a|e|]]. Qed.

Section steps.
Context {St : Type} {R : relation St} `{HR : !PreOrder R}.

Lemma steps_ret {A} (a : A) : steps R (mret a).
Proof. intros s. reflexivity. Qed.

Lemma steps_fail {A} e : steps R (fail (A:=A) e).
Proof. intros s. reflexivity. Qed.

Lemma steps_panic {A} : steps R (panic (A:=A)).
Proof. intros s. reflexivity. Qed.

Lemma steps_gets {A} (f : St → A) : steps R (gets f).
Proof. intros s. reflexivity. Qed.

Lemma steps_deref {A} (p : option A) : steps R (deref p).
Proof. intros s. by destruct p. Qed.

Lemma steps_of_sum {A} (r : error + A) : steps R (of_sum r).
Proof. intros s. by destruct r. Qed.

Lemma steps_modify f : (∀ s, R s (f s)) → steps R (modify f).
Proof. intros Hf s. apply Hf. Qed.

Lemma steps_bind {A B} (m : M St A) (k : A → M St B) :
  steps R m → (∀ a, steps R (k a)) → steps R (m ≫= k).
Proof.
  intros Hm Hk s. specialize (Hm s). unfold mbind, M_bind.
  destruct (m s) as [s1 [a|e|]]; cbn in *; [|done..]. etrans; [exact Hm|apply Hk].
Qed.

Lemma steps_attempt {A} (m : M St A) : steps R m → steps R (attempt m).
Proof. intros Hm s. specialize (Hm s). unfold attempt. by destruct (m s) as [s1 [a|e|]]. Qed.

Lemma steps_logged {A} (m : M St A) : steps R m → steps R (logged m).
Proof. intros Hm. apply steps_bind; [by apply steps_attempt|]. intros a. apply steps_ret. Qed.

Lemma steps_when b (m : M St unit) : steps R m → steps R (when b m).
Proof. intros Hm. by destruct b; [|apply steps_ret]. Qed.

Lemma steps_for_each {X} (xs : list X) (f : X → M St unit) :
  (∀ x, steps R (f x)) → steps R (for_each xs f).
Proof.
  intros Hf. induction xs as [|x xs IH]; cbn [for_each]; [apply steps_ret|].
  apply steps_bind; [apply Hf|]. intros _. apply IH.
Qed.
End steps.

Create HintDb steps.
#[export] Hint Resolve steps_ret steps_fail steps_panic steps_gets steps_deref steps_of_sum : steps.
#[export] Hint Extern 0 (PreOrder _) => typeclasses eauto : steps.

Ltac steps_step :=
  match goal with
  | |- steps _ _ => solve [eauto with steps]
  | |- ∀ _, steps _ _ => intros ?
  | |- steps _ (_ ≫= _) => apply steps_bind
  | |- steps _ (attempt _) => apply steps_attempt
  | |- steps _ (logged _) => apply steps_logged
  | |- steps _ (when _ _) => apply steps_when
  | |- steps _ (for_each _ _) => apply steps_for_each
  | |- steps _ (match ?x with _ => _ end) => destruct x
  end.
Ltac steps := repeat steps_step.

(** ** Equal computations

    [m ≡ m'] when they do the same from every state; what is composed of equal
    computations is equal. *)

Variant same_run {St A} (m m' : M St A) : Prop := SameRun (_ : ∀ s, m s = m' s).

#[export] Instance M_equiv {St A} : Equiv (M St A) := same_run.

Lemma run_equiv {St A} (m m' : M St A) s : m ≡ m' → m s = m' s.
Proof. by intros [Hm]. Qed.

#[export] Instance M_equivalence {St A} : Equivalence (≡@{M St A}).
Proof.
  split; [by intros m; split|by intros m m' [Hm]; split|].
  intros m1 m2 m3 [H1] [H2]. split. intros s. by rewrite H1.
Qed.

#[export] Instance bind_proper {St A B} :
  Proper (pointwise_relation A (≡) ==> (≡) ==> (≡)) (mbind (M := M St) (A := A) (B := B)).
Proof.
  intros k k' Hk m m' [Hm]. split. intros s. unfold mbind, M_bind. rewrite Hm.
  destruct (m' s) as [s' [a|e|]]; [|done..]. by destruct (Hk a).
Qed.

#[export] Instance attempt_proper {St A} : Proper ((≡) ==> (≡)) (@attempt St A).
Proof. intros m m' [Hm]. split. intros s. unfold attempt. by rewrite Hm. Qed.

#[export] Instance logged_proper {St A} : Proper ((≡) ==> (≡)) (@logged St A).
Proof. intros m m' Hm. unfold logged. by rewrite Hm. Qed.

Section equal.
Context {St : Type}.

Lemma bind_ext {A B} (m : M St A) (k k' : A → M St B) : (∀ a, k a ≡ k' a) → m ≫= k ≡ m ≫= k'.
Proof. intros Hk. by apply bind_proper. Qed.

Lemma bind_assoc {A B C} (m : M St A) (k : A → M St B) (h : B → M St C) :
  (m ≫= k) ≫= h ≡ m ≫= λ a, k a ≫= h.
Proof. split. intros s. unfold mbind, M_bind. by destruct (m s) as [s' [a|e|]]. Qed.

(** What is logged is split at an effect: after its failure nothing more is done. *)
Lemma logged_bind {A B} (m : M St A) (k : A → M St B) :
  logged (m ≫= k) ≡ (r ← attempt m; match r with inl _ => mret tt | inr a => logged (k a) end).
Proof. split. intros s. unfold logged, attempt, mbind, M_bind. by destruct (m s) as [s' [a|e|]]. Qed.

Lemma logged_ret_r {A} (m : M St A) : logged (m ≫= λ _, mret tt) ≡ logged m.
Proof. split. intros s. unfold logged, attempt, mbind, M_bind. by destruct (m s) as [s' [a|e|]]. Qed.
End equal.

(** ** Machine integers *)

(** The value of [z] as a two's complement integer of [w] bits. *)
Definition wrap (w : Z) (z : Z) : Z :=
  let m := (z mod 2 ^ w)%Z in
  if (m <? 2 ^ (w - 1))%Z then m else (m - 2 ^ w)%Z.

Definition int32 (z : Z) : Z := wrap 32 z.

Definition int64 (z : Z) : Z := wrap 64 z.

Lemma wrap_id w z : (0 < w)%Z → (- 2 ^ (w - 1) ≤ z < 2 ^ (w - 1))%Z → wrap w z = z.
Proof.
  intros Hw Hz. unfold wrap.
  assert (Hpow : (2 ^ w = 2 * 2 ^ (w - 1))%Z).
  { rewrite <- Z.pow_succ_r by lia. f_equal. lia. }
  destruct (decide (0 ≤ z)%Z).
  - rewrite Z.mod_small by lia. destruct (Z.ltb_spec z (2 ^ (w - 1))); lia.
  - replace (z mod 2 ^ w)%Z with (z + 2 ^ w)%Z.
    + destruct (Z.ltb_spec (z + 2 ^ w) (2 ^ (w - 1))); lia.
    + rewrite <- (Z.mod_small (z + 2 ^ w) (2 ^ w)) by lia.
      rewrite <- (Z.mul_1_l (2 ^ w)) at 1. by rewrite Z_mod_plus_full.
Qed.

Lemma wrap_bounds w z : (0 < w)%Z → (- 2 ^ (w - 1) ≤ wrap w z < 2 ^ (w - 1))%Z.
Proof.
  intros Hw. unfold wrap.
  assert (Hpow : (2 ^ w = 2 * 2 ^ (w - 1))%Z).
  { rewrite <- Z.pow_succ_r by lia. f_equal. lia. }
  assert (0 < 2 ^ (w - 1))%Z by (apply Z.pow_pos_nonneg; lia).
  pose proof (Z.mod_pos_bound z (2 ^ w) ltac:(lia)).
  destruct (Z.ltb_spec (z mod 2 ^ w) (2 ^ (w - 1))); lia.
Qed.

(** ** Maps

    A Go [map[string]string] is nil or a map.  Reading a nil map is reading the
    empty map. *)

Abbreviation smap := (gmap string string).
Abbreviation gomap := (option (gmap string string)).

Definition contents (m : gomap) : smap := match m with Some m => m | None => ∅ end.

(** [maps.Copy(dst, src)]: every pair of [src] overwrites [dst]. *)
Definition maps_Copy (dst src : smap) : smap := src ∪ dst.

Lemma lookup_maps_Copy (dst src : smap) k :
  maps_Copy dst src !! k = match src !! k with Some v => Some v | None => dst !! k end.
Proof. unfold maps_Copy. rewrite lookup_union. by destruct (src !! k), (dst !! k). Qed.

(** ** Lists *)

(** [xs[len(xs)-1]] moved to index [i], then the last element dropped: how the
    code removes an element without keeping the order. *)
Definition swap_remove {A} (i : nat) (xs : list A) : list A :=
  match last xs with
  | Some x => take (length xs - 1) (<[i := x]> xs)
  | None => xs
  end.

Lemma length_filter_bool {A} (f : A → bool) (xs : list A) :
  length (filter (λ x, f x = true) xs) + length (filter (λ x, f x = false) xs) = length xs.
Proof.
  induction xs as [|x xs IH]; [done|]. rewrite !filter_cons.
  destruct (f x) eqn:Hx; cbn; rewrite ?Hx; repeat case_decide; try done; cbn; lia.
Qed.

Lemma NoDup_take {A} n (xs : list A) : NoDup xs → NoDup (take n xs).
Proof. rewrite <- (take_drop n xs) at 1. intros Hnd. by apply NoDup_app in Hnd as [? _]. Qed.

Lemma filter_all {A} (P : A → Prop) `{∀ x, Decision (P x)} (xs : list A) :
  Forall P xs → filter P xs = xs.
Proof. induction 1; [done|]. rewrite filter_cons_True by done. congruence. Qed.

Lemma filter_none {A} (P : A → Prop) `{∀ x, Decision (P x)} (xs : list A) :
  Forall (λ x, ¬ P x) xs → filter P xs = [].
Proof. induction 1 as [|x xs Hx _ IH]; [done|]. by rewrite filter_cons, decide_False. Qed.

Lemma last_snoc_inv {A} (xs : list A) : xs ≠ [] → ∃ ys y, xs = ys ++ [y].
Proof.
  intros Hne. destruct (last xs) as [y|] eqn:Hl.
  - apply last_Some in Hl as [ys ->]. eauto.
  - by apply last_None in Hl.
Qed.

(** [swap_remove] removes exactly the element at [i], up to order. *)
Lemma swap_remove_perm {A} i (xs : list A) x :
  xs !! i = Some x → xs ≡ₚ x :: swap_remove i xs.
Proof.
  intros Hi. unfold swap_remove.
  destruct (last_snoc_inv xs) as (ys & y & ->); [by intros ->|].
  rewrite last_snoc, length_app. cbn [length].
  replace (length ys + 1 - 1) with (length ys) by lia.
  destruct (decide (i < length ys)) as [Hlt|Hge].
  - rewrite lookup_app_l in Hi by done.
    rewrite insert_app_l, take_app_length' by (rewrite ?length_insert; done).
    rewrite insert_take_drop by done.
    rewrite <- (take_drop_middle ys i x) at 1 by done. solve_Permutation.
  - rewrite lookup_app_r in Hi by lia. apply list_lookup_singleton_Some in Hi as [Hi <-].
    rewrite insert_app_r_alt, take_app_length' by (lia || done).
    solve_Permutation.
Qed.

Lemma swap_remove_length {A} i (xs : list A) : length (swap_remove i xs) = length xs - 1.
Proof.
  unfold swap_remove. destruct (last xs) eqn:Hl.
  - rewrite length_take, length_insert. lia.
  - apply last_None in Hl as ->. done.
Qed.

(** The elements below [i] keep their places. *)
Lemma swap_remove_lookup_lt {A} i j (xs : list A) :
  j < i → i < length xs → swap_remove i xs !! j = xs !! j.
Proof.
  intros Hj Hi. unfold swap_remove. destruct (last xs) eqn:Hl; [|done].
  rewrite lookup_take_lt by lia. by apply list_lookup_insert_ne; lia.
Qed.

Lemma swap_remove_take {A} i (xs : list A) : i < length xs → take i (swap_remove i xs) = take i xs.
Proof.
  intros Hi. apply list_eq. intros j. destruct (decide (j < i)).
  - rewrite !lookup_take_lt by done. by apply swap_remove_lookup_lt.
  - by rewrite !lookup_take_ge by lia.
Qed.

(** Behind the place, [swap_remove] leaves what was behind it, up to order. *)
Lemma swap_remove_drop_perm {A} i (xs : list A) x :
  xs !! i = Some x → drop i (swap_remove i xs) ≡ₚ drop (S i) xs.
Proof.
  intros Hi. apply (Permutation_app_inv_l (take i xs)).
  rewrite <- (swap_remove_take i xs) at 1 by eauto using lookup_lt_Some.
  rewrite take_drop. apply (Permutation_cons_inv (a := x)).
  rewrite <- (swap_remove_perm i xs x Hi), Permutation_middle.
  by rewrite take_drop_middle.
Qed.

(** [run_theorem thm a H]: [thm] is a [wp] of a concrete run that returns [a]; [H]
    becomes its postcondition there. *)
Ltac run_theorem thm a H :=
  pose proof (wp_eval _ _ _ _ a thm) as H;
  match type of H with
  | ?P → _ => let Hp := fresh in assert (Hp : P) by (vm_compute; reflexivity); specialize (H Hp)
  end.
