(* ===== verification/GoStrings.v ===== *)
(** * The functions of Go's [strings] package that the operator uses

    A Go string is a sequence of bytes, modelled as a [string] of 8-bit
    characters.  The functions below are the ones the operator calls, with
    their behaviour on every argument the operator can pass. *)

From Stdlib Require Import Strings.Ascii.
From stdpp Require Import sorting.
From S2P Require Import Prelude.

Open Scope string_scope.
Open Scope list_scope.
Open Scope nat_scope.

#[global] Arguments String.append !_ _ : simpl nomatch.

(** [len(s)] *)
Abbreviation len := String.length.

(** [s[n:]] and [s[:n]] for [n <= len(s)]. *)
Fixpoint slice_from (n : nat) (s : string) : string :=
  match n, s with
  | O, _ => s
  | S n', String _ s' => slice_from n' s'
  | S _, EmptyString => EmptyString
  end.

Fixpoint slice_to (n : nat) (s : string) : string :=
  match n, s with
  | O, _ => EmptyString
  | S n', String c s' => String c (slice_to n' s')
  | S _, EmptyString => EmptyString
  end.

(** [strings.HasPrefix(s, p)] *)
Fixpoint HasPrefix (s p : string) {struct p} : bool :=
  match p, s with
  | EmptyString, _ => true
  | String a p', String b s' => bool_decide (a = b) && HasPrefix s' p'
  | String _ _, EmptyString => false
  end.

(** [strings.HasSuffix(s, p)] *)
Definition HasSuffix (s p : string) : bool :=
  (len p <=? len s)%nat && bool_decide (slice_from (len s - len p) s = p).

(** [strings.Contains(s, sub)] *)
Fixpoint Contains (s sub : string) : bool :=
  HasPrefix s sub || match s with String _ s' => Contains s' sub | EmptyString => false end.

(** [strings.ContainsAny(s, chars)] for ASCII [chars]. *)
Fixpoint ContainsAny (s chars : string) : bool :=
  match s with
  | String c s' => Contains chars (String c EmptyString) || ContainsAny s' chars
  | EmptyString => false
  end.

(** [strings.ReplaceAll(s, old, new)] for a non-empty [old]: the leftmost
    occurrences that do not overlap.  [skip] counts the bytes of an occurrence
    that are still to be dropped. *)
Fixpoint replace_from (skip : nat) (old new s : string) : string :=
  match s with
  | EmptyString => EmptyString
  | String c s' =>
      match skip with
      | S n => replace_from n old new s'
      | O => if HasPrefix s old then new +:+ replace_from (len old - 1) old new s'
             else String c (replace_from O old new s')
      end
  end.

Definition ReplaceAll (s old new : string) : string := replace_from O old new s.

(** [strings.Cut(s, sep)]: what precedes and what follows the first [sep]. *)
Fixpoint Cut (s sep : string) : string * string * bool :=
  if HasPrefix s sep then (EmptyString, slice_from (len sep) s, true)
  else match s with
       | EmptyString => (EmptyString, EmptyString, false)
       | String c s' => let '(before, after, found) := Cut s' sep in
                        (String c before, after, found)
       end.

(** [strings.Split(s, sep)] for a non-empty [sep]. *)
Fixpoint split_from (skip : nat) (sep s : string) : list string :=
  match s with
  | EmptyString => [EmptyString]
  | String c s' =>
      match skip with
      | S n => split_from n sep s'
      | O => if HasPrefix s sep then EmptyString :: split_from (len sep - 1) sep s'
             else match split_from O sep s' with
                  | part :: parts => String c part :: parts
                  | [] => [String c EmptyString]
                  end
      end
  end.

Definition Split (s sep : string) : list string := split_from O sep s.

(** [strings.Join(parts, sep)] *)
Fixpoint Join (parts : list string) (sep : string) : string :=
  match parts with
  | [] => EmptyString
  | [p] => p
  | p :: ps => p +:+ sep +:+ Join ps sep
  end.

(** [strings.TrimSuffix]. *)
Definition TrimSuffix (s suffix : string) : string :=
  if HasSuffix s suffix then slice_to (len s - len suffix) s else s.

(** [sort.Strings]. *)
Definition string_le : relation string := λ a b, String.leb a b = true.

#[global] Instance string_le_dec : RelDecision string_le.
Proof. intros a b. unfold string_le. apply _. Defined.

Definition sort_Strings (ss : list string) : list string := merge_sort string_le ss.

(** [strings.Trim(s, cutset)] for a cutset of one ASCII character. *)
Fixpoint TrimLeft (c : Ascii.ascii) (s : string) : string :=
  match s with
  | String a s' => if bool_decide (a = c) then TrimLeft c s' else s
  | EmptyString => EmptyString
  end.

Fixpoint TrimRight (c : Ascii.ascii) (s : string) : string :=
  match s with
  | EmptyString => EmptyString
  | String a s' =>
      let t := TrimRight c s' in
      if bool_decide (a = c) && bool_decide (t = EmptyString) then EmptyString else String a t
  end.

Definition Trim (c : Ascii.ascii) (s : string) : string := TrimRight c (TrimLeft c s).

(** The UTF-8 encodings of the code points that Go's [unicode.IsSpace] accepts:
    U+0009 to U+000D, U+0020, U+0085, U+00A0, U+1680, U+2000 to U+200A, U+2028,
    U+2029, U+202F, U+205F and U+3000. *)
Definition utf8 (bytes : list nat) : string :=
  foldr (λ n s, String (Ascii.ascii_of_nat n) s) EmptyString bytes.

Definition spaces : list string :=
  map (λ n, utf8 [n]) [9; 10; 11; 12; 13; 32]
  ++ map (λ n, utf8 [194; n]) [133; 160]
  ++ [utf8 [225; 154; 128]]
  ++ map (λ n, utf8 [226; 128; n])
       [128; 129; 130; 131; 132; 133; 134; 135; 136; 137; 138; 168; 169; 175]
  ++ [utf8 [226; 129; 159]; utf8 [227; 128; 128]].

(** [strings.TrimSpace(s) == ""]: [s] is a sequence of white-space code
    points. *)
Fixpoint blank_from (fuel : nat) (s : string) : bool :=
  match fuel, s with
  | _, EmptyString => true
  | O, _ => false
  | S f, _ => match filter (λ sp, HasPrefix s sp) spaces with
              | sp :: _ => blank_from f (slice_from (len sp) s)
              | [] => false
              end
  end.

Definition is_blank (s : string) : bool := blank_from (len s) s.

(** [strings.EqualFold(s, t)] for an ASCII [t]: besides the two cases of each letter,
    the long s (U+017F) folds to "s" and the Kelvin sign (U+212A) to "k". *)
Definition ToLowerASCII (c : Ascii.ascii) : Ascii.ascii :=
  let n := Ascii.nat_of_ascii c in
  if (65 <=? n) && (n <=? 90) then Ascii.ascii_of_nat (n + 32) else c.

Fixpoint EqualFold (s t : string) {struct t} : bool :=
  match t with
  | EmptyString => String.eqb s ""
  | String b t =>
      let b := ToLowerASCII b in
      match s with
      | EmptyString => false
      | String a s' =>
          if bool_decide (ToLowerASCII a = b) then EqualFold s' t
          else if bool_decide (b = "s"%char) && HasPrefix s (utf8 [197; 191]) then EqualFold (slice_from 2 s) t
          else if bool_decide (b = "k"%char) && HasPrefix s (utf8 [226; 132; 170]) then EqualFold (slice_from 3 s) t
          else false
      end
  end.

(** [strings.TrimSpace(s)] *)
Fixpoint TrimSpaceLeft (fuel : nat) (s : string) : string :=
  match fuel, filter (λ sp, HasPrefix s sp) spaces with
  | S f, sp :: _ => TrimSpaceLeft f (slice_from (len sp) s)
  | _, _ => s
  end.

Fixpoint TrimSpaceRight (s : string) : string :=
  if is_blank s then EmptyString
  else match s with
       | EmptyString => EmptyString
       | String a s' => String a (TrimSpaceRight s')
       end.

Definition TrimSpace (s : string) : string := TrimSpaceRight (TrimSpaceLeft (len s) s).

(** ["\n"] *)
Definition newline : string := String (Ascii.Ascii false true false true false false false false) "".

(** [strconv.Itoa(z)] *)
Definition Itoa (z : Z) : string := pretty z.

(** ** Facts *)

Section facts.
Implicit Types (s t p : string).

Lemma length_append s t : len (s +:+ t) = len s + len t.
Proof. induction s as [|c s IH]; cbn; [done|]. by rewrite IH. Qed.

#[export] Instance append_assoc : Assoc (=) String.append.
Proof. intros s t u. induction s as [|c s IH]; [done|]. cbn. by rewrite IH. Qed.

Lemma append_empty_r s : s +:+ "" = s.
Proof. induction s as [|c s IH]; cbn; [done|]. by rewrite IH. Qed.

Lemma HasPrefix_spec s p : HasPrefix s p = true ↔ ∃ t, s = p +:+ t.
Proof.
  revert s. induction p as [|a p IH]; intros s; cbn.
  - destruct s; split; eauto.
  - destruct s as [|b s]; [split; [done|by intros [t [=]]]|].
    cbn. rewrite andb_true_iff, IH, bool_decide_eq_true.
    split; [intros [-> [t ->]]; by exists t|intros [t [= -> ->]]; eauto].
Qed.

Lemma HasPrefix_append p t : HasPrefix (p +:+ t) p = true.
Proof. apply HasPrefix_spec. by exists t. Qed.

Lemma slice_from_append p t : slice_from (len p) (p +:+ t) = t.
Proof. induction p as [|c p IH]; cbn; done. Qed.

Lemma slice_to_append p t : slice_to (len p) (p +:+ t) = p.
Proof. induction p as [|c p IH]; [by destruct t|]. cbn. by rewrite IH. Qed.

Lemma HasSuffix_append t p : HasSuffix (t +:+ p) p = true.
Proof.
  unfold HasSuffix. rewrite length_append. apply andb_true_iff. split; [apply Nat.leb_le; lia|].
  apply bool_decide_eq_true. replace (len t + len p - len p) with (len t) by lia. apply slice_from_append.
Qed.

Lemma length_slice_to n s : len (slice_to n s) ≤ n.
Proof. revert s. induction n as [|n IH]; intros [|c s]; cbn; [lia..|]. specialize (IH s). lia. Qed.

Lemma Contains_cons c s sub :
  Contains (String c s) sub = HasPrefix (String c s) sub || Contains s sub.
Proof. done. Qed.

Lemma Contains_nil sub : Contains "" sub = HasPrefix "" sub.
Proof. apply orb_false_r. Qed.

(** [Contains] finds a substring wherever it stands. *)
Lemma Contains_spec s sub : Contains s sub = true ↔ ∃ a b, s = a +:+ sub +:+ b.
Proof.
  induction s as [|c s IH].
  - rewrite Contains_nil, HasPrefix_spec. split.
    + intros [t Ht]. exists "", t. done.
    + intros (a & b & H). destruct a; [by exists b|done].
  - rewrite Contains_cons, orb_true_iff, IH, HasPrefix_spec. split.
    + intros [[t ->]|(a & b & ->)]; [by exists "", t|by exists (String c a), b].
    + intros (a & b & H). destruct a as [|d a]; cbn in H; [left; by exists b|].
      injection H as -> ->. right. eauto.
Qed.

(** *** Trimming *)

Lemma TrimLeft_length c s : len (TrimLeft c s) ≤ len s.
Proof. induction s as [|a s IH]; cbn; [done|]. case_bool_decide; cbn; lia. Qed.

Lemma TrimRight_length c s : len (TrimRight c s) ≤ len s.
Proof.
  induction s as [|a s IH]; cbn; [done|].
  destruct (bool_decide _ && bool_decide _); cbn; lia.
Qed.

Lemma Trim_length c s : len (Trim c s) ≤ len s.
Proof. unfold Trim. etrans; [apply TrimRight_length|apply TrimLeft_length]. Qed.

(** [s] does not begin, or does not end, with [c]. *)
Definition no_leading (c : Ascii.ascii) (s : string) : Prop := ∀ t, s ≠ String c t.

Definition no_trailing (c : Ascii.ascii) (s : string) : Prop := ∀ t, s ≠ t +:+ String c "".

Lemma TrimLeft_no_leading c s : no_leading c (TrimLeft c s).
Proof.
  induction s as [|a s IH]; cbn; [by intros t|]. case_bool_decide; [done|].
  intros t [= -> ->]. done.
Qed.

Lemma TrimRight_no_trailing c s : no_trailing c (TrimRight c s).
Proof.
  induction s as [|a s IH]; cbn; [by intros []|].
  destruct (bool_decide (a = c)) eqn:Ha; cbn.
  - destruct (bool_decide (TrimRight c s = "")) eqn:Ht; [by intros []|].
    apply bool_decide_eq_false in Ht. intros [|b t] [= Hb Hs]; [done|]. by apply (IH t).
  - apply bool_decide_eq_false in Ha. intros [|b t] [= Hb Hs]; [done|]. by apply (IH t).
Qed.

Lemma TrimRight_no_leading c s : no_leading c s → no_leading c (TrimRight c s).
Proof.
  destruct s as [|a s]; cbn; [done|]. intros Hl t.
  destruct (bool_decide (a = c)) eqn:Ha; cbn.
  - apply bool_decide_eq_true in Ha as ->. by destruct (Hl s).
  - intros [= -> _]. by destruct (Hl s).
Qed.

Lemma Trim_no_dash_ends c s : no_leading c (Trim c s) ∧ no_trailing c (Trim c s).
Proof.
  split; [apply TrimRight_no_leading, TrimLeft_no_leading|apply TrimRight_no_trailing].
Qed.

Lemma TrimLeft_id c s : no_leading c s → TrimLeft c s = s.
Proof.
  destruct s as [|a s]; cbn; [done|]. intros Hl. case_bool_decide; [|done].
  subst. by destruct (Hl s).
Qed.

Lemma TrimRight_id c s : no_trailing c s → TrimRight c s = s.
Proof.
  induction s as [|a s IH]; cbn; [done|]. intros Ht.
  assert (no_trailing c s) as Hs by (intros t ->; by apply (Ht (String a t))).
  rewrite IH by done. destruct (bool_decide (a = c)) eqn:Ha; cbn; [|done].
  apply bool_decide_eq_true in Ha as ->.
  destruct (bool_decide (s = "")) eqn:He; [|done].
  apply bool_decide_eq_true in He as ->. by destruct (Ht "").
Qed.

Lemma Trim_id c s : no_leading c s → no_trailing c s → Trim c s = s.
Proof. intros Hl Ht. unfold Trim. by rewrite TrimLeft_id, TrimRight_id. Qed.

Lemma Trim_idemp c s : Trim c (Trim c s) = Trim c s.
Proof. apply Trim_id; apply Trim_no_dash_ends. Qed.

(** *** Replacement of a single character *)

Lemma ReplaceAll_char_cons (c : Ascii.ascii) new a s :
  ReplaceAll (String a s) (String c "") new =
  if bool_decide (c = a) then new +:+ ReplaceAll s (String c "") new
  else String a (ReplaceAll s (String c "") new).
Proof.
  unfold ReplaceAll. cbn [replace_from HasPrefix len Nat.sub].
  rewrite andb_true_r. by destruct (bool_decide _).
Qed.

(** *** Splitting *)

Lemma split_from_ne skip sep s : split_from skip sep s ≠ [].
Proof.
  revert skip. induction s as [|c s IH]; intros skip; cbn; [done|].
  destruct skip; [|apply IH]. destruct (HasPrefix _ _); [done|].
  by destruct (split_from 0 sep s).
Qed.

(** A string without the character [c]. *)
Definition char_free (c : Ascii.ascii) (s : string) : Prop := Contains s (String c "") = false.

Lemma char_free_cons c a s : char_free c (String a s) ↔ c ≠ a ∧ char_free c s.
Proof.
  unfold char_free. rewrite Contains_cons. cbn [HasPrefix]. rewrite andb_true_r, orb_false_iff.
  by rewrite bool_decide_eq_false.
Qed.

Lemma Cut_char_free c s : char_free c s → Cut s (String c "") = (s, "", false).
Proof.
  induction s as [|a s IH]; [done|]. rewrite char_free_cons. intros [Hne Hs].
  cbn [Cut HasPrefix]. rewrite bool_decide_eq_false_2 by done. cbn [andb]. by rewrite IH.
Qed.

Lemma Cut_char_app c a b : char_free c a → Cut (a +:+ String c b) (String c "") = (a, b, true).
Proof.
  induction a as [|x a IH]; cbn [String.append].
  - intros _. cbn [Cut HasPrefix]. by rewrite bool_decide_eq_true_2.
  - rewrite char_free_cons. intros [Hne Ha].
    cbn [Cut HasPrefix]. rewrite bool_decide_eq_false_2 by done. cbn [andb]. by rewrite IH.
Qed.

Lemma Split_char_free c s : char_free c s → Split s (String c "") = [s].
Proof.
  unfold Split. induction s as [|a s IH]; [done|]. rewrite char_free_cons. intros [Hne Hs].
  cbn [split_from HasPrefix]. rewrite bool_decide_eq_false_2 by done. cbn [andb]. by rewrite IH.
Qed.

(** What follows the last separator is the last part. *)
Lemma Split_char_last c a b :
  char_free c b → ∃ p parts, Split (a +:+ String c b) (String c "") = p :: parts ++ [b].
Proof.
  intros Hb. unfold Split. induction a as [|x a (p & parts & IH)]; cbn [String.append].
  - exists "", []. cbn [split_from HasPrefix]. rewrite bool_decide_eq_true_2 by done.
    cbn. f_equal. by apply Split_char_free.
  - cbn [split_from HasPrefix]. destruct (bool_decide (c = x)); cbn [andb].
    + exists "", (p :: parts). cbn. by f_equal.
    + rewrite IH. by exists (String x p), parts.
Qed.
(** A separator separates: its two sides are split each on its own. *)
Lemma Split_char_cons c a s :
  Split (String a s) (String c "") =
  if bool_decide (c = a) then "" :: Split s (String c "")
  else match Split s (String c "") with
       | part :: parts => String a part :: parts
       | [] => [String a ""]
       end.
Proof.
  unfold Split. cbn [split_from HasPrefix len Nat.sub]. rewrite andb_true_r.
  by destruct (bool_decide _).
Qed.

Lemma Split_char_app c a b :
  Split (a +:+ String c b) (String c "") = Split a (String c "") ++ Split b (String c "").
Proof.
  induction a as [|x a IH]; cbn [String.append]; rewrite Split_char_cons.
  - by rewrite bool_decide_eq_true_2.
  - rewrite (Split_char_cons c x a), IH. destruct (bool_decide _); [done|].
    destruct (Split a (String c "")) as [|p ps] eqn:Hs; [|done].
    by destruct (split_from_ne 0 (String c "") a).
Qed.

Lemma Split_parts_free c s : Forall (char_free c) (Split s (String c "")).
Proof.
  induction s as [|a s IH]; [by constructor|]. rewrite Split_char_cons.
  case_bool_decide as Hc; [by constructor|].
  destruct IH as [|p ps Hp Hps]; [by repeat constructor; apply char_free_cons|].
  constructor; [|done]. by apply char_free_cons.
Qed.

(** Splitting undoes joining. *)
Lemma Split_Join c parts :
  parts ≠ [] → Forall (char_free c) parts → Split (Join parts (String c "")) (String c "") = parts.
Proof.
  intros Hne Hf. induction Hf as [|p ps Hp Hps IH]; [done|]. destruct ps as [|q ps].
  - by apply Split_char_free.
  - change (Join (p :: q :: ps) (String c "")) with (p +:+ String c (Join (q :: ps) (String c ""))).
    rewrite Split_char_app, (Split_char_free _ _ Hp), IH by done. done.
Qed.

(** Joining two lists of parts. *)
Lemma Join_app sep xs ys :
  xs ≠ [] → ys ≠ [] → Join (xs ++ ys) sep = Join xs sep +:+ sep +:+ Join ys sep.
Proof.
  intros Hx Hy. induction xs as [|x xs IH]; [done|]. destruct xs as [|x' xs].
  - by destruct ys.
  - change (Join ((x :: x' :: xs) ++ ys) sep) with (x +:+ sep +:+ Join ((x' :: xs) ++ ys) sep).
    rewrite IH by done. change (Join (x :: x' :: xs) sep) with (x +:+ sep +:+ Join (x' :: xs) sep).
    by rewrite <- !(assoc String.append).
Qed.

Lemma Join_Split c s : Join (Split s (String c "")) (String c "") = s.
Proof.
  induction s as [|a s IH]; [done|]. rewrite Split_char_cons. case_bool_decide as Hc.
  - subst a. pose proof (split_from_ne 0 (String c "") s) as Hne. fold (Split s (String c "")) in Hne.
    destruct (Split s (String c "")) as [|p ps]; [done|].
    change (Join ("" :: p :: ps) (String c "")) with (String c (Join (p :: ps) (String c ""))). by rewrite IH.
  - pose proof (split_from_ne 0 (String c "") s) as Hne. fold (Split s (String c "")) in Hne.
    destruct (Split s (String c "")) as [|p ps]; [done|]. rewrite <- IH. by destruct ps.
Qed.
End facts.

Create HintDb go_strings.
#[export] Hint Resolve Trim_length TrimLeft_no_leading TrimRight_no_trailing
  TrimRight_no_leading HasPrefix_append : go_strings.
