(* ===== verification/Sha256.v ===== *)
(** * SHA-256 and hexadecimal: crypto/sha256 and encoding/hex

    The two functions of Go's standard library with which the operator derives Graylog's
    root password hash (FIPS 180-4).  Words are integers below [2 ^ 32]; a
    [[]byte] is the string of its bytes. *)

From Stdlib Require Import Strings.Ascii.
From S2P Require Import Prelude GoStrings.

(** ** Words *)

Local Open Scope Z_scope.

Definition word (z : Z) : Z := z mod 2 ^ 32.

Definition add32 (xs : list Z) : Z := word (foldr Z.add 0 xs).

Definition rotr (n x : Z) : Z := Z.lor (Z.shiftr x n) (word (Z.shiftl x (32 - n))).

Definition Ch (x y z : Z) : Z := Z.lxor (Z.land x y) (Z.land (Z.lxor x (2 ^ 32 - 1)) z).

Definition Maj (x y z : Z) : Z := Z.lxor (Z.lxor (Z.land x y) (Z.land x z)) (Z.land y z).

Definition BigSigma0 (x : Z) : Z := Z.lxor (Z.lxor (rotr 2 x) (rotr 13 x)) (rotr 22 x).
Definition BigSigma1 (x : Z) : Z := Z.lxor (Z.lxor (rotr 6 x) (rotr 11 x)) (rotr 25 x).
Definition sigma0 (x : Z) : Z := Z.lxor (Z.lxor (rotr 7 x) (rotr 18 x)) (Z.shiftr x 3).
Definition sigma1 (x : Z) : Z := Z.lxor (Z.lxor (rotr 17 x) (rotr 19 x)) (Z.shiftr x 10).

(** The constants of the standard are the first 32 bits of the fractional parts of
    roots of the first primes: [root_fraction k p] is that of the [k]-th root of [p],
    found bit by bit. *)
Definition root_fraction (k p : Z) : Z :=
  word (foldl (λ r i, let r' := r + 2 ^ i in if r' ^ k <=? p * 2 ^ (32 * k) then r' else r) 0
          (Z.sub 40 <$> seqZ 1 40)).

Definition primes : list Z :=
  let prime p := forallb (λ d, negb (p mod d =? 0)) (seqZ 2 (p - 2)) in
  filter (λ p, prime p = true) (seqZ 2 310).

Definition K256 : list Z := Eval vm_compute in root_fraction 3 <$> take 64 primes.

Definition H256 : list Z := Eval vm_compute in root_fraction 2 <$> take 8 primes.

(** ** Padding and blocks *)

Definition bytes_of (s : string) : list Z :=
  (λ c, Z.of_nat (nat_of_ascii c)) <$> String.list_ascii_of_string s.

(** The low [n] bytes of [z], the most significant first. *)
Fixpoint big_endian (n : nat) (z : Z) : list Z :=
  match n with
  | O => []
  | S n => Z.shiftr z (8 * Z.of_nat n) mod 256 :: big_endian n z
  end.

(** One bit, zeros up to 8 bytes below a multiple of 64, and the length in bits. *)
Definition pad (message : list Z) : list Z :=
  let n := Z.of_nat (length message) in
  message ++ 0x80 :: replicate (Z.to_nat ((55 - n) mod 64)) 0 ++ big_endian 8 (8 * n).

Fixpoint words (bytes : list Z) : list Z :=
  match bytes with
  | a :: b :: c :: d :: bytes =>
      (Z.shiftl a 24 + Z.shiftl b 16 + Z.shiftl c 8 + d) :: words bytes
  | _ => []
  end.

(** The blocks of 16 words; [fuel] bounds their number. *)
Fixpoint blocks (fuel : nat) (ws : list Z) : list (list Z) :=
  match fuel, ws with
  | S fuel, _ :: _ => take 16 ws :: blocks fuel (drop 16 ws)
  | _, _ => []
  end.

(** ** Compression *)

(** The last 16 words of the schedule, the newest first, give the next one. *)
Definition next_word (recent : list Z) : Z :=
  let w i := default 0 (recent !! i) in
  add32 [sigma1 (w 1%nat); w 6%nat; sigma0 (w 14%nat); w 15%nat].

Fixpoint schedule (n : nat) (recent : list Z) : list Z :=
  match n with
  | O => rev recent
  | S n => schedule n (next_word recent :: recent)
  end.

Definition round (st : list Z) (kw : Z * Z) : list Z :=
  match st with
  | [a; b; c; d; e; f; g; h] =>
      let T1 := add32 [h; BigSigma1 e; Ch e f g; kw.1; kw.2] in
      let T2 := add32 [BigSigma0 a; Maj a b c] in
      [add32 [T1; T2]; a; b; c; add32 [d; T1]; e; f; g]
  | _ => st
  end.

Definition compress (st block : list Z) : list Z :=
  zip_with (λ a b, add32 [a; b]) st
    (foldl round st (zip K256 (schedule 48 (rev block)))).

Definition sha256_words (message : list Z) : list Z :=
  let ws := words (pad message) in foldl compress H256 (blocks (length ws) ws).

(** [sha256.Sum256]. *)
Definition Sum256 (message : list Z) : list Z := sha256_words message ≫= big_endian 4.

(** [hex.EncodeToString]. *)
Definition hex_digit (z : Z) : ascii :=
  ascii_of_nat (if z <? 10 then Z.to_nat (48 + z) else Z.to_nat (87 + z)).

Definition EncodeToString (bytes : list Z) : string :=
  String.string_of_list_ascii (bytes ≫= λ b, [hex_digit (Z.shiftr b 4); hex_digit (Z.land b 15)]).

(** [sum := sha256.Sum256([]byte(s)); hex.EncodeToString(sum[:])]. *)
Definition sha256_hex (s : string) : string := EncodeToString (Sum256 (bytes_of s)).

(** The examples of FIPS 180-4, and an empty message. *)
Example sha256_empty :
  sha256_hex "" = "e3b0c44298fc1c149afbf4c8996fb92427ae41e4649b934ca495991b7852b855"%string.
Proof. by vm_compute. Qed.

Example sha256_abc :
  sha256_hex "abc" = "ba7816bf8f01cfea414140de5dae2223b00361a396177a9cb410ff61f20015ad"%string.
Proof. by vm_compute. Qed.

Example sha256_two_blocks :
  sha256_hex "abcdbcdecdefdefgefghfghighijhijkijkljklmklmnlmnomnopnopq"
  = "248d6a61d20638b8e5c026930c3e6039a33ce45964ff2167f6ecedd419db06c1"%string.
Proof. by vm_compute. Qed.

(** ** The result is made of hexadecimal digits *)

Local Open Scope nat_scope.

Definition is_hex (c : ascii) : bool :=
  let n := nat_of_ascii c in (48 <=? n) && (n <=? 57) || (97 <=? n) && (n <=? 102).

(** A string of hexadecimal digits. *)
Definition hex_string (s : string) : Prop := Forall (λ c, is_hex c = true) (String.list_ascii_of_string s).

Lemma hex_digit_hex z : (0 ≤ z < 16)%Z → is_hex (hex_digit z) = true.
Proof.
  intros Hz. assert (Hn : ∃ n, n < 16 ∧ z = Z.of_nat n) by (exists (Z.to_nat z); lia).
  destruct Hn as (n & Hn & ->). clear Hz.
  do 16 (destruct n as [|n]; [by vm_compute|]). lia.
Qed.

Lemma big_endian_bytes n z : Forall (λ b, (0 ≤ b < 256)%Z) (big_endian n z).
Proof. induction n as [|n IH]; constructor; [apply Z.mod_pos_bound; lia|done]. Qed.

Lemma EncodeToString_hex bytes : Forall (λ b, (0 ≤ b < 256)%Z) bytes → hex_string (EncodeToString bytes).
Proof.
  unfold hex_string, EncodeToString. rewrite String.list_ascii_of_string_of_list_ascii.
  induction 1 as [|b bytes Hb Hbs IH]; cbn; [done|].
  repeat constructor; [..|exact IH]; apply hex_digit_hex.
  - rewrite Z.shiftr_div_pow2 by lia. split; [apply Z.div_pos; lia|apply Z.div_lt_upper_bound; lia].
  - change 15%Z with (Z.ones 4). rewrite Z.land_ones by lia. apply Z.mod_pos_bound. lia.
Qed.

Lemma sha256_hex_digits s : hex_string (sha256_hex s).
Proof.
  apply EncodeToString_hex. unfold Sum256. generalize (sha256_words (bytes_of s)). intros ws.
  induction ws as [|w ws IH]; [done|].
  rewrite bind_cons, Forall_app. split; [apply big_endian_bytes|done].
Qed.

(** ** Its length *)

Lemma foldl_keeps {A B} (f : A → B → A) (P : A → Prop) (xs : list B) a :
  (∀ a b, P a → P (f a b)) → P a → P (foldl f a xs).
Proof. intros Hf. revert a. induction xs as [|x xs IH]; intros a Ha; [done|]. cbn. auto. Qed.

Lemma round_length st kw : length st = 8 → length (round st kw) = 8.
Proof. intros Hl. by do 9 (destruct st as [|? st]; try done). Qed.

Lemma sha256_words_length message : length (sha256_words message) = 8.
Proof.
  apply (foldl_keeps compress (λ st, length st = 8)); [|done]. intros st block Hst. unfold compress.
  rewrite length_zip_with, Hst.
  rewrite (foldl_keeps round (λ st, length st = 8) _ st); [done|apply round_length|done].
Qed.

Lemma big_endian_length n z : length (big_endian n z) = n.
Proof. induction n as [|n IH]; [done|]. cbn. by rewrite IH. Qed.

Lemma EncodeToString_length bytes : len (EncodeToString bytes) = 2 * length bytes.
Proof. unfold EncodeToString. induction bytes as [|b bytes IH]; [done|]. cbn in *. rewrite IH. lia. Qed.

Lemma sha256_hex_length s : len (sha256_hex s) = 64.
Proof.
  unfold sha256_hex. rewrite EncodeToString_length. unfold Sum256.
  enough (∀ ws, length (ws ≫= big_endian 4) = 4 * length ws) as Hl by by rewrite Hl, sha256_words_length.
  induction ws as [|w ws IH]; [done|]. rewrite bind_cons, length_app, big_endian_length, IH. cbn. lia.
Qed.

(** Hexadecimal digits are not white space. *)
Lemma hex_no_space c s : is_hex c = true → filter (λ sp, HasPrefix (String c s) sp) spaces = [].
Proof. by destruct c as [[] [] [] [] [] [] [] []]. Qed.

Lemma TrimSpace_hex s : hex_string s → TrimSpace s = s.
Proof.
  intros Hs. unfold TrimSpace.
  assert (Hl : TrimSpaceLeft (len s) s = s).
  { destruct s as [|c s]; [done|]. apply Forall_cons in Hs as [Hc _]. cbn [TrimSpaceLeft len].
    by rewrite hex_no_space. }
  rewrite Hl. clear Hl. induction s as [|c s IH]; [done|]. apply Forall_cons in Hs as [Hc Hs].
  cbn [TrimSpaceRight]. unfold is_blank. cbn [len blank_from]. rewrite hex_no_space by done.
  by rewrite IH.
Qed.
