(* ===== verification/Filepath.v ===== *)
(** * File paths: the functions of Go's path/filepath that the operator uses

    [Clean], [Join], [Base] and [Dir] on Unix, where path and path/filepath agree. *)

From Stdlib Require Import Strings.Ascii.
From S2P Require Import Prelude GoStrings.

Definition rooted (path : string) : bool := HasPrefix path "/".

(** One element of a path; [stack] is what was kept of those before it, the last one
    first.  A ".." drops the element before it, and at the root it is dropped itself. *)
Definition clean_step (root : bool) (stack : list string) (elem : string) : list string :=
  if String.eqb elem "" || String.eqb elem "." then stack
  else if String.eqb elem ".." then
    match stack with
    | top :: rest => if String.eqb top ".." then elem :: stack else rest
    | [] => if root then [] else [elem]
    end
  else elem :: stack.

(** The elements of [Clean(path)]. *)
Definition clean_elems (path : string) : list string :=
  reverse (foldl (clean_step (rooted path)) [] (Split path "/")).

Definition Clean (path : string) : string :=
  let elems := clean_elems path in
  if rooted path then "/" +:+ GoStrings.Join elems "/"
  else if bool_decide (elems = []) then "." else GoStrings.Join elems "/".

(** [filepath.Join(elems...)]: the empty elements at the front are ignored. *)
Fixpoint Join (elems : list string) : string :=
  match elems with
  | [] => ""
  | e :: rest => if String.eqb e "" then Join rest else Clean (GoStrings.Join elems "/")
  end.

Definition Base (path : string) : string :=
  if String.eqb path "" then "."
  else let trimmed := TrimRight "/" path in
       if String.eqb trimmed "" then "/" else default "" (last (Split trimmed "/")).

(** The directory part, with its slash, cleaned. *)
Definition Dir (path : string) : string :=
  Clean (GoStrings.Join (removelast (Split path "/") ++ [""]) "/").

(** ** Facts *)

(** A rooted path, cleaned, has no "..", no "." and no empty element after its root. *)
Definition plain (elem : string) : Prop := elem ≠ "" ∧ elem ≠ "." ∧ elem ≠ "..".

Lemma clean_step_plain stack elem :
  Forall plain stack → Forall plain (clean_step true stack elem).
Proof.
  intros Hs. unfold clean_step, plain in *.
  destruct (String.eqb_spec elem ""), (String.eqb_spec elem "."); cbn [orb]; [done..|].
  destruct (String.eqb_spec elem "..").
  - destruct Hs as [|top rest [_ [_ Ht]] Hr]; [done|]. by destruct (String.eqb_spec top "..").
  - by constructor.
Qed.

Lemma clean_elems_plain path : rooted path = true → Forall plain (clean_elems path).
Proof.
  intros Hr. unfold clean_elems. rewrite Hr. apply Forall_reverse.
  assert (Hg : ∀ es stack, Forall plain stack → Forall plain (foldl (clean_step true) stack es)).
  { induction es as [|e es IH]; intros stack Hs; [done|]. by apply IH, clean_step_plain. }
  apply Hg. constructor.
Qed.

Lemma clean_elems_free path : Forall (char_free "/") (clean_elems path).
Proof.
  unfold clean_elems. apply Forall_reverse.
  assert (Hg : ∀ es stack, Forall (char_free "/") es → Forall (char_free "/") stack →
    Forall (char_free "/") (foldl (clean_step (rooted path)) stack es)).
  { induction es as [|e es IH]; intros stack He Hs; [done|]. inversion He; subst.
    apply IH; [done|]. unfold clean_step. repeat case_match; try done; try by constructor.
    by inversion Hs. }
  apply Hg; [apply Split_parts_free|constructor].
Qed.

(** The elements of a cleaned rooted path after its root. *)
Lemma Split_Clean path :
  rooted path = true → Split (Clean path) "/" = "" :: (if bool_decide (clean_elems path = []) then [""] else clean_elems path).
Proof.
  intros Hr. unfold Clean. rewrite Hr.
  change ("/" +:+ GoStrings.Join (clean_elems path) "/")
    with ("" +:+ String "/" (GoStrings.Join (clean_elems path) "/")).
  rewrite Split_char_app. cbn [Split split_from app]. f_equal.
  case_bool_decide as He; [by rewrite He|]. by apply Split_Join, clean_elems_free.
Qed.

(** [p] is in the directory [dir]: below it, and no element leads back up. *)
Definition inside (dir p : string) : Prop :=
  ∃ rest, p = dir +:+ "/" +:+ rest ∧ ".." ∉ Split rest "/".

(** [p] is one of the directories that [dir] is in. *)
Definition above (p dir : string) : Prop := ∃ rest, dir = p +:+ "/" +:+ rest.

(** Two ways to cut a path at a separator. *)
Lemma cut_twice p q x y :
  p +:+ "/" +:+ x = q +:+ "/" +:+ y →
  above p q ∨ p = q ∨ ∃ z, p = q +:+ "/" +:+ z ∧ y = z +:+ "/" +:+ x.
Proof.
  revert q. induction p as [|c p IH]; intros [|d q] Heq.
  - right. by left.
  - left. exists q. cbn in Heq |- *. by injection Heq as <- _.
  - right. right. exists p. cbn in Heq |- *. injection Heq as -> <-. done.
  - cbn in Heq. injection Heq as -> Heq. destruct (IH _ Heq) as [[r ->]|[->|(z & -> & ->)]].
    + left. by exists r.
    + right. by left.
    + right. right. by exists z.
Qed.

(** What a directory inside [dir], or [dir] itself, is in. *)
Lemma above_inside p q dir : inside dir q → above p q → above p dir ∨ p = dir ∨ inside dir p.
Proof.
  intros (rest & -> & Hr) [x Hx]. destruct (cut_twice _ _ _ _ (eq_sym Hx)) as [Ha|[->|(z & -> & ->)]]; auto.
  right. right. exists z. split; [done|]. intros Hz. apply Hr.
  change ("/" +:+ x) with (String "/" x). rewrite Split_char_app. apply elem_of_app. by left.
Qed.

Lemma above_trans p q dir : above p q → above q dir → above p dir.
Proof.
  intros [x ->] [y ->]. exists (x +:+ "/" +:+ y). by rewrite <- !(assoc String.append).
Qed.

(** What is below a directory by its name is inside it once cleaned. *)
Lemma Clean_inside dir path :
  rooted path = true → HasPrefix (Clean path) (dir +:+ "/") = true → inside dir (Clean path).
Proof.
  intros Hr [rest Hrest]%HasPrefix_spec. exists rest. rewrite <- assoc in Hrest by apply _.
  split; [done|]. intros Hin.
  assert (Hall : ".." ∈ Split (Clean path) "/").
  { rewrite Hrest. change ("/" +:+ rest) with (String "/" rest). rewrite Split_char_app.
    apply elem_of_app. by right. }
  rewrite Split_Clean in Hall by done. apply elem_of_cons in Hall as [|Hall]; [done|].
  case_bool_decide; [by apply list_elem_of_singleton in Hall|].
  pose proof (clean_elems_plain path Hr) as Hp. rewrite Forall_forall in Hp.
  by destruct (Hp _ Hall) as (_ & _ & []).
Qed.

Lemma Join_rooted dir name :
  rooted dir = true → Join [dir; name] = Clean (dir +:+ "/" +:+ name) ∧ rooted (dir +:+ "/" +:+ name) = true.
Proof. by destruct dir as [|c dir]. Qed.

(** Elements that are plain or empty are kept in their order. *)
Lemma clean_plain root es stack :
  Forall (λ e, e = "" ∨ plain e) es →
  foldl (clean_step root) stack es = reverse (filter (λ e, e ≠ "") es) ++ stack.
Proof.
  revert stack. induction es as [|e es IH]; intros stack He; [done|].
  inversion He as [|? ? Hp Hes]; subst. cbn [foldl]. rewrite IH by done.
  destruct (decide (e = "")) as [->|Hne].
  - rewrite filter_cons_False by auto. done.
  - destruct Hp as [|(_ & Hd & Hdd)]; [done|]. rewrite filter_cons_True by done.
    unfold clean_step. rewrite (proj2 (String.eqb_neq _ _) Hne), (proj2 (String.eqb_neq _ _) Hd),
      (proj2 (String.eqb_neq _ _) Hdd). cbn [orb]. by rewrite reverse_cons, <- app_assoc.
Qed.

Lemma filter_plain es : Forall plain es → filter (λ e, e ≠ "") es = es.
Proof. intros He. apply filter_all. eapply Forall_impl; [exact He|]. by intros e []. Qed.

(** A rooted path whose elements are plain is cleaned to them. *)
Lemma Clean_plain es :
  es ≠ [] → Forall plain es → Forall (char_free "/") es →
  Clean ("/" +:+ GoStrings.Join (es ++ [""]) "/") = "/" +:+ GoStrings.Join es "/" ∧
  Clean ("/" +:+ GoStrings.Join es "/") = "/" +:+ GoStrings.Join es "/".
Proof.
  intros Hne Hp Hf.
  assert (Hgen : ∀ tail, Forall (λ e, e = "") tail →
    Clean ("/" +:+ GoStrings.Join (es ++ tail) "/") = "/" +:+ GoStrings.Join es "/").
  { intros tail Ht. unfold Clean, clean_elems. cbn [rooted HasPrefix String.append].
    rewrite bool_decide_eq_true_2 by done. cbn [andb]. do 2 f_equal.
    change (String "/" (GoStrings.Join (es ++ tail) "/"))
      with ("" +:+ String "/" (GoStrings.Join (es ++ tail) "/")).
    rewrite Split_char_app, Split_Join.
    - rewrite clean_plain.
      + cbn [Split split_from app]. rewrite filter_cons_False by auto.
        rewrite filter_app, filter_plain by done.
        replace (filter (λ e, e ≠ "") tail) with (@nil string)
          by (symmetry; apply filter_none; eapply Forall_impl; [exact Ht|]; auto).
        by rewrite !app_nil_r, reverse_involutive.
      + cbn. constructor; [by left|]. apply Forall_app. split.
        * eapply Forall_impl; [exact Hp|]. auto.
        * eapply Forall_impl; [exact Ht|]. auto.
    - by destruct es.
    - apply Forall_app. split; [done|]. eapply Forall_impl; [exact Ht|]. by intros ? ->. }
  split; [apply Hgen; by constructor|]. rewrite <- (app_nil_r es) at 1. by apply Hgen.
Qed.

(** The elements of what is below a cleaned directory. *)
Lemma below_elems dest path rest :
  rooted dest = true → rooted path = true → Clean path = Clean dest +:+ "/" +:+ rest →
  clean_elems dest ≠ [] ∧ clean_elems path = clean_elems dest ++ Split rest "/".
Proof.
  intros Hd Hp Hrest. apply (f_equal (λ s, Split s "/")) in Hrest.
  change ("/" +:+ rest) with (String "/" rest) in Hrest.
  rewrite Split_char_app, !Split_Clean in Hrest by done. cbn [app] in Hrest. injection Hrest as Hrest.
  pose proof (split_from_ne 0 "/" rest) as Hne. fold (Split rest "/") in Hne.
  pose proof (clean_elems_plain path Hp) as Hplain.
  destruct (decide (clean_elems dest = [])) as [He|He].
  - rewrite (bool_decide_eq_true_2 _ He) in Hrest. case_bool_decide.
    + cbn in Hrest. injection Hrest as Hr. by destruct (Split rest "/").
    + rewrite Hrest in Hplain. inversion Hplain as [|? ? []]. done.
  - rewrite (bool_decide_eq_false_2 _ He) in Hrest. split; [done|]. case_bool_decide; [|done].
    apply (f_equal length) in Hrest. rewrite length_app in Hrest. cbn in Hrest.
    destruct (clean_elems dest), (Split rest "/"); cbn in Hrest; done || lia.
Qed.

(** The directory of what is below a cleaned directory is that one or inside it. *)
Lemma Dir_inside dest path :
  rooted dest = true → rooted path = true → HasPrefix (Clean path) (Clean dest +:+ "/") = true →
  Dir (Clean path) = Clean dest ∨ inside (Clean dest) (Dir (Clean path)).
Proof.
  intros Hd Hp [rest Hrest]%HasPrefix_spec. rewrite <- (assoc String.append) in Hrest.
  destruct (below_elems dest path rest Hd Hp Hrest) as [Hne Hes].
  pose proof (clean_elems_plain path Hp) as Hplain. pose proof (clean_elems_free path) as Hfree.
  pose proof (split_from_ne 0 "/" rest) as Hr. fold (Split rest "/") in Hr.
  set (ds := clean_elems dest) in *. set (rs := Split rest "/") in *.
  rewrite Hes in Hplain, Hfree. apply Forall_app in Hplain as [Hpd Hpr].
  apply Forall_app in Hfree as [Hfd Hfr].
  assert (Hrm : ∀ (Q : string → Prop), Forall Q rs → Forall Q (removelast rs)).
  { intros Q HQ. pose proof (app_removelast_last "" Hr) as He. rewrite He in HQ.
    by apply Forall_app in HQ as [HQ _]. }
  unfold Dir. rewrite Split_Clean by done. rewrite bool_decide_eq_false_2, Hes.
  2: { rewrite Hes. by destruct ds. }
  change ("" :: ds ++ rs) with (("" :: ds) ++ rs). rewrite removelast_app by done.
  change ((("" :: ds) ++ removelast rs) ++ [""]) with ([""] ++ (ds ++ removelast rs) ++ [""]).
  rewrite Join_app by (by destruct ds). cbn [GoStrings.Join].
  change ("" +:+ "/" +:+ ?x) with ("/" +:+ x).
  assert (Hpx : Forall plain (ds ++ removelast rs)) by (apply Forall_app; auto).
  assert (Hfx : Forall (char_free "/") (ds ++ removelast rs)) by (apply Forall_app; auto).
  destruct (Clean_plain (ds ++ removelast rs)) as [-> _]; [by destruct ds|done|done|].
  assert (HD : Clean dest = "/" +:+ GoStrings.Join ds "/") by (unfold Clean; by rewrite Hd).
  destruct (decide (removelast rs = [])) as [->|Hrn]; [left; by rewrite app_nil_r|]. right.
  exists (GoStrings.Join (removelast rs) "/"). split.
  - rewrite HD, Join_app by done. by rewrite <- !(assoc String.append).
  - rewrite Split_Join by (done || by apply Hrm). intros Hin. specialize (Hrm _ Hpr).
    rewrite Forall_forall in Hrm. by destruct (Hrm _ Hin) as (_ & _ & []).
Qed.
