(* ===== verification/KubeTypes.v ===== *)
(** * The Kubernetes API types the operator reads and writes

    The types come from k8s.io/api.  Each record has the fields the operator
    sets or reads, with their Go names prefixed by the struct's name; a pointer
    is an [option], a slice a [list], a map that may be nil a [gomap].  Values
    the operator only copies from the custom resource to an object
    ([Affinity], [EnvFromSource], ...) are opaque. *)

From S2P Require Import Prelude GoStrings.

(** An API value the operator copies without looking inside. *)
Record Opaque : Type := mkOpaque { Opaque_raw : string }.

#[export] Instance zero_Opaque : GoZero Opaque := mkOpaque zero.
#[export] Instance eta_Opaque : Eta Opaque := λ x, mkOpaque (Opaque_raw x).

(** A [resource.Quantity], by the text it was parsed from. *)
Record Quantity : Type := mkQuantity { Quantity_text : string }.

#[export] Instance zero_Quantity : GoZero Quantity := mkQuantity zero.
#[export] Instance eta_Quantity : Eta Quantity := λ x, mkQuantity (Quantity_text x).

(** ** Metadata *)

Record ObjectMeta : Type := mkObjectMeta {
  ObjectMeta_Name : string;
  ObjectMeta_Namespace : string;
  ObjectMeta_Labels : gomap;
  ObjectMeta_Annotations : gomap;
  ObjectMeta_ResourceVersion : string;
  ObjectMeta_Generation : Z;
  ObjectMeta_OwnerReferences : list string;
}.

#[export] Instance zero_ObjectMeta : GoZero ObjectMeta := mkObjectMeta zero zero zero zero zero
  zero zero.
#[export] Instance eta_ObjectMeta : Eta ObjectMeta := λ x, mkObjectMeta (ObjectMeta_Name x)
  (ObjectMeta_Namespace x) (ObjectMeta_Labels x) (ObjectMeta_Annotations x)
  (ObjectMeta_ResourceVersion x) (ObjectMeta_Generation x) (ObjectMeta_OwnerReferences x).

Definition named (name namespace : string) : ObjectMeta :=
  mkObjectMeta name namespace None None "" 0 [].

Definition SetLabels (l : gomap) (m : ObjectMeta) : ObjectMeta :=
  m <| ObjectMeta_Labels := l |>.

Definition SetResourceVersion (v : string) (m : ObjectMeta) : ObjectMeta :=
  m <| ObjectMeta_ResourceVersion := v |>.

Definition SetOwnerReferences (r : list string) (m : ObjectMeta) : ObjectMeta :=
  m <| ObjectMeta_OwnerReferences := r |>.

Definition SetName (n : string) (m : ObjectMeta) : ObjectMeta :=
  m <| ObjectMeta_Name := n |>.

(** ** Pods *)

Record SecretKeySelector : Type := mkSecretKeySelector {
  SecretKeySelector_Name : string;
  SecretKeySelector_Key : string;
}.

#[export] Instance zero_SecretKeySelector : GoZero SecretKeySelector := mkSecretKeySelector zero
  zero.
#[export] Instance eta_SecretKeySelector : Eta SecretKeySelector := λ x, mkSecretKeySelector
  (SecretKeySelector_Name x) (SecretKeySelector_Key x).

Record ResourceRequirements : Type := mkResourceRequirements {
  ResourceRequirements_Requests : gmap string Quantity;
  ResourceRequirements_Limits : gmap string Quantity;
}.

#[export] Instance zero_ResourceRequirements : GoZero ResourceRequirements := mkResourceRequirements
  zero zero.
#[export] Instance eta_ResourceRequirements : Eta ResourceRequirements := λ x, mkResourceRequirements
  (ResourceRequirements_Requests x) (ResourceRequirements_Limits x).

Inductive IntOrString : Type := FromInt32 (z : Z) | FromString (s : string).

#[export] Instance zero_IntOrString : GoZero IntOrString := FromInt32 0.

Record Probe : Type := mkProbe {
  Probe_Path : string;
  Probe_Port : IntOrString;
  Probe_Scheme : string;
  Probe_InitialDelaySeconds : Z;
  Probe_TimeoutSeconds : Z;
  Probe_PeriodSeconds : Z;
  Probe_SuccessThreshold : Z;
  Probe_FailureThreshold : Z;
}.

#[export] Instance zero_Probe : GoZero Probe := mkProbe zero zero zero zero zero zero zero zero.
#[export] Instance eta_Probe : Eta Probe := λ x, mkProbe (Probe_Path x) (Probe_Port x)
  (Probe_Scheme x) (Probe_InitialDelaySeconds x) (Probe_TimeoutSeconds x) (Probe_PeriodSeconds x)
  (Probe_SuccessThreshold x) (Probe_FailureThreshold x).

Inductive EnvVarSource : Type :=
| FieldRef (path : string)
| SecretKeyRef (sel : SecretKeySelector).

Record EnvVar : Type := mkEnvVar {
  EnvVar_Name : string;
  EnvVar_Value : string;
  EnvVar_ValueFrom : option EnvVarSource;
}.

#[export] Instance zero_EnvVar : GoZero EnvVar := mkEnvVar zero zero zero.
#[export] Instance eta_EnvVar : Eta EnvVar := λ x, mkEnvVar (EnvVar_Name x) (EnvVar_Value x)
  (EnvVar_ValueFrom x).

Record ContainerPort : Type := mkContainerPort {
  ContainerPort_Name : string;
  ContainerPort_ContainerPort : Z;
  ContainerPort_Protocol : string;
}.

#[export] Instance zero_ContainerPort : GoZero ContainerPort := mkContainerPort zero zero zero.
#[export] Instance eta_ContainerPort : Eta ContainerPort := λ x, mkContainerPort
  (ContainerPort_Name x) (ContainerPort_ContainerPort x) (ContainerPort_Protocol x).

Record VolumeMount : Type := mkVolumeMount {
  VolumeMount_Name : string;
  VolumeMount_MountPath : string;
  VolumeMount_SubPath : string;
  VolumeMount_ReadOnly : bool;
}.

#[export] Instance zero_VolumeMount : GoZero VolumeMount := mkVolumeMount zero zero zero zero.
#[export] Instance eta_VolumeMount : Eta VolumeMount := λ x, mkVolumeMount (VolumeMount_Name x)
  (VolumeMount_MountPath x) (VolumeMount_SubPath x) (VolumeMount_ReadOnly x).

Record KeyToPath : Type := mkKeyToPath { KeyToPath_Key : string; KeyToPath_Path : string }.

#[export] Instance zero_KeyToPath : GoZero KeyToPath := mkKeyToPath zero zero.
#[export] Instance eta_KeyToPath : Eta KeyToPath := λ x, mkKeyToPath (KeyToPath_Key x)
  (KeyToPath_Path x).

(** A volume source has one field set; [OtherSource] is one that only a custom
    resource can name. *)
Inductive VolumeSource : Type :=
| HostPath (path : string) (type : string)
| EmptyDir (medium : string) (sizeLimit : option Quantity)
| SecretSource (secretName : string) (items : list KeyToPath) (defaultMode : Z)
| ConfigMapSource (name : string) (items : list KeyToPath) (defaultMode : Z)
| PersistentVolumeClaimSource (claimName : string)
| OtherSource (raw : Opaque).

#[export] Instance zero_VolumeSource : GoZero VolumeSource := OtherSource zero.

Record Volume : Type := mkVolume { Volume_Name : string; Volume_Source : VolumeSource }.

#[export] Instance zero_Volume : GoZero Volume := mkVolume zero zero.
#[export] Instance eta_Volume : Eta Volume := λ x, mkVolume (Volume_Name x) (Volume_Source x).

Record Capabilities : Type := mkCapabilities {
  Capabilities_Add : list string;
  Capabilities_Drop : list string;
}.

#[export] Instance zero_Capabilities : GoZero Capabilities := mkCapabilities zero zero.
#[export] Instance eta_Capabilities : Eta Capabilities := λ x, mkCapabilities (Capabilities_Add x)
  (Capabilities_Drop x).

Record SecurityContext : Type := mkSecurityContext {
  SecurityContext_Capabilities : option Capabilities;
  SecurityContext_Privileged : option bool;
  SecurityContext_RunAsUser : option Z;
  SecurityContext_RunAsGroup : option Z;
  SecurityContext_RunAsNonRoot : option bool;
  SecurityContext_ReadOnlyRootFilesystem : option bool;
  SecurityContext_AllowPrivilegeEscalation : option bool;
}.

#[export] Instance zero_SecurityContext : GoZero SecurityContext := mkSecurityContext zero zero
  zero zero zero zero zero.
#[export] Instance eta_SecurityContext : Eta SecurityContext := λ x, mkSecurityContext
  (SecurityContext_Capabilities x) (SecurityContext_Privileged x) (SecurityContext_RunAsUser x)
  (SecurityContext_RunAsGroup x) (SecurityContext_RunAsNonRoot x)
  (SecurityContext_ReadOnlyRootFilesystem x) (SecurityContext_AllowPrivilegeEscalation x).

Record PodSecurityContext : Type := mkPodSecurityContext {
  PodSecurityContext_SELinuxType : option string;
  PodSecurityContext_RunAsUser : option Z;
  PodSecurityContext_RunAsGroup : option Z;
  PodSecurityContext_RunAsNonRoot : option bool;
  PodSecurityContext_FSGroup : option Z;
  PodSecurityContext_FSGroupChangePolicy : option string;
  PodSecurityContext_SeccompType : option string;
}.

#[export] Instance zero_PodSecurityContext : GoZero PodSecurityContext := mkPodSecurityContext
  zero zero zero zero zero zero zero.
#[export] Instance eta_PodSecurityContext : Eta PodSecurityContext := λ x, mkPodSecurityContext
  (PodSecurityContext_SELinuxType x) (PodSecurityContext_RunAsUser x)
  (PodSecurityContext_RunAsGroup x) (PodSecurityContext_RunAsNonRoot x)
  (PodSecurityContext_FSGroup x) (PodSecurityContext_FSGroupChangePolicy x)
  (PodSecurityContext_SeccompType x).

Record Container : Type := mkContainer {
  Container_Name : string;
  Container_Image : string;
  Container_ImagePullPolicy : string;
  Container_Command : list string;
  Container_Args : list string;
  Container_Env : list EnvVar;
  Container_EnvFrom : list Opaque;
  Container_Ports : list ContainerPort;
  Container_Resources : ResourceRequirements;
  Container_VolumeMounts : list VolumeMount;
  Container_LivenessProbe : option Probe;
  Container_ReadinessProbe : option Probe;
  Container_StartupProbe : option Probe;
  Container_SecurityContext : option SecurityContext;
  Container_Lifecycle : option Opaque;
  Container_TerminationMessagePath : string;
  Container_TerminationMessagePolicy : string;
}.

#[export] Instance zero_Container : GoZero Container := mkContainer zero zero zero zero zero zero
  zero zero zero zero zero zero zero zero zero zero zero.
#[export] Instance eta_Container : Eta Container := λ x, mkContainer (Container_Name x)
  (Container_Image x) (Container_ImagePullPolicy x) (Container_Command x) (Container_Args x)
  (Container_Env x) (Container_EnvFrom x) (Container_Ports x) (Container_Resources x)
  (Container_VolumeMounts x) (Container_LivenessProbe x) (Container_ReadinessProbe x)
  (Container_StartupProbe x) (Container_SecurityContext x) (Container_Lifecycle x)
  (Container_TerminationMessagePath x) (Container_TerminationMessagePolicy x).

Record Toleration : Type := mkToleration {
  Toleration_Key : string;
  Toleration_Operator : string;
  Toleration_Value : string;
  Toleration_Effect : string;
}.

#[export] Instance zero_Toleration : GoZero Toleration := mkToleration zero zero zero zero.
#[export] Instance eta_Toleration : Eta Toleration := λ x, mkToleration (Toleration_Key x)
  (Toleration_Operator x) (Toleration_Value x) (Toleration_Effect x).

Record PodSpec : Type := mkPodSpec {
  PodSpec_Volumes : list Volume;
  PodSpec_InitContainers : list Container;
  PodSpec_Containers : list Container;
  PodSpec_TerminationGracePeriodSeconds : option Z;
  PodSpec_ServiceAccountName : string;
  PodSpec_DeprecatedServiceAccount : string;
  PodSpec_SecurityContext : option PodSecurityContext;
  PodSpec_SchedulerName : string;
  PodSpec_NodeSelector : gomap;
  PodSpec_Tolerations : list Toleration;
  PodSpec_Affinity : option Opaque;
  PodSpec_PriorityClassName : string;
}.

#[export] Instance zero_PodSpec : GoZero PodSpec := mkPodSpec zero zero zero zero zero zero zero
  zero zero zero zero zero.
#[export] Instance eta_PodSpec : Eta PodSpec := λ x, mkPodSpec (PodSpec_Volumes x)
  (PodSpec_InitContainers x) (PodSpec_Containers x) (PodSpec_TerminationGracePeriodSeconds x)
  (PodSpec_ServiceAccountName x) (PodSpec_DeprecatedServiceAccount x) (PodSpec_SecurityContext x)
  (PodSpec_SchedulerName x) (PodSpec_NodeSelector x) (PodSpec_Tolerations x) (PodSpec_Affinity x)
  (PodSpec_PriorityClassName x).

Record PodTemplateSpec : Type := mkPodTemplateSpec {
  PodTemplateSpec_ObjectMeta : ObjectMeta;
  PodTemplateSpec_Spec : PodSpec;
}.

#[export] Instance zero_PodTemplateSpec : GoZero PodTemplateSpec := mkPodTemplateSpec zero zero.
#[export] Instance eta_PodTemplateSpec : Eta PodTemplateSpec := λ x, mkPodTemplateSpec
  (PodTemplateSpec_ObjectMeta x) (PodTemplateSpec_Spec x).

Record Pod : Type := mkPod { Pod_ObjectMeta : ObjectMeta }.

#[export] Instance zero_Pod : GoZero Pod := mkPod zero.
#[export] Instance eta_Pod : Eta Pod := λ x, mkPod (Pod_ObjectMeta x).

Record Node : Type := mkNode { Node_ContainerRuntimeVersion : string }.

#[export] Instance zero_Node : GoZero Node := mkNode zero.
#[export] Instance eta_Node : Eta Node := λ x, mkNode (Node_ContainerRuntimeVersion x).

(** ** Objects *)

Record ConfigMap : Type := mkConfigMap {
  ConfigMap_ObjectMeta : ObjectMeta;
  ConfigMap_Data : gomap;
  ConfigMap_BinaryData : gomap;
}.

#[export] Instance zero_ConfigMap : GoZero ConfigMap := mkConfigMap zero zero zero.
#[export] Instance eta_ConfigMap : Eta ConfigMap := λ x, mkConfigMap (ConfigMap_ObjectMeta x)
  (ConfigMap_Data x) (ConfigMap_BinaryData x).

Record Secret : Type := mkSecret {
  Secret_ObjectMeta : ObjectMeta;
  Secret_Type : string;
  Secret_Data : gomap;
}.

#[export] Instance zero_Secret : GoZero Secret := mkSecret zero zero zero.
#[export] Instance eta_Secret : Eta Secret := λ x, mkSecret (Secret_ObjectMeta x) (Secret_Type x)
  (Secret_Data x).

Record ServicePort : Type := mkServicePort {
  ServicePort_Name : string;
  ServicePort_Port : Z;
  ServicePort_Protocol : string;
  ServicePort_TargetPort : IntOrString;
}.

#[export] Instance zero_ServicePort : GoZero ServicePort := mkServicePort zero zero zero zero.
#[export] Instance eta_ServicePort : Eta ServicePort := λ x, mkServicePort (ServicePort_Name x)
  (ServicePort_Port x) (ServicePort_Protocol x) (ServicePort_TargetPort x).

Record Service : Type := mkService {
  Service_ObjectMeta : ObjectMeta;
  Service_Type : string;
  Service_ClusterIP : string;
  Service_Ports : list ServicePort;
  Service_Selector : gomap;
  Service_IPFamilies : list string;
  Service_IPFamilyPolicy : option string;
}.

#[export] Instance zero_Service : GoZero Service := mkService zero zero zero zero zero zero zero.
#[export] Instance eta_Service : Eta Service := λ x, mkService (Service_ObjectMeta x)
  (Service_Type x) (Service_ClusterIP x) (Service_Ports x) (Service_Selector x)
  (Service_IPFamilies x) (Service_IPFamilyPolicy x).

Record ServiceAccount : Type := mkServiceAccount { ServiceAccount_ObjectMeta : ObjectMeta }.

#[export] Instance zero_ServiceAccount : GoZero ServiceAccount := mkServiceAccount zero.
#[export] Instance eta_ServiceAccount : Eta ServiceAccount := λ x, mkServiceAccount
  (ServiceAccount_ObjectMeta x).

(** A rolling update of a workload: its type and its limits. *)
Record UpdateStrategy : Type := mkUpdateStrategy {
  UpdateStrategy_Type : string;
  UpdateStrategy_MaxSurge : option IntOrString;
  UpdateStrategy_MaxUnavailable : option IntOrString;
}.

#[export] Instance zero_UpdateStrategy : GoZero UpdateStrategy := mkUpdateStrategy zero zero zero.
#[export] Instance eta_UpdateStrategy : Eta UpdateStrategy := λ x, mkUpdateStrategy
  (UpdateStrategy_Type x) (UpdateStrategy_MaxSurge x) (UpdateStrategy_MaxUnavailable x).

Record DaemonSet : Type := mkDaemonSet {
  DaemonSet_ObjectMeta : ObjectMeta;
  DaemonSet_Selector : gomap;
  DaemonSet_MinReadySeconds : Z;
  DaemonSet_UpdateStrategy : UpdateStrategy;
  DaemonSet_Template : PodTemplateSpec;
  DaemonSet_NumberAvailable : Z;
  DaemonSet_DesiredNumberScheduled : Z;
  DaemonSet_UpdatedNumberScheduled : Z;
}.

#[export] Instance zero_DaemonSet : GoZero DaemonSet := mkDaemonSet zero zero zero zero zero zero
  zero zero.
#[export] Instance eta_DaemonSet : Eta DaemonSet := λ x, mkDaemonSet (DaemonSet_ObjectMeta x)
  (DaemonSet_Selector x) (DaemonSet_MinReadySeconds x) (DaemonSet_UpdateStrategy x)
  (DaemonSet_Template x) (DaemonSet_NumberAvailable x) (DaemonSet_DesiredNumberScheduled x)
  (DaemonSet_UpdatedNumberScheduled x).

Record Deployment : Type := mkDeployment {
  Deployment_ObjectMeta : ObjectMeta;
  Deployment_Replicas : option Z;
  Deployment_Selector : gomap;
  Deployment_Strategy : UpdateStrategy;
  Deployment_Template : PodTemplateSpec;
  Deployment_AvailableReplicas : Z;
  Deployment_UpdatedReplicas : Z;
}.

#[export] Instance zero_Deployment : GoZero Deployment := mkDeployment zero zero zero zero zero
  zero zero.
#[export] Instance eta_Deployment : Eta Deployment := λ x, mkDeployment (Deployment_ObjectMeta x)
  (Deployment_Replicas x) (Deployment_Selector x) (Deployment_Strategy x) (Deployment_Template x)
  (Deployment_AvailableReplicas x) (Deployment_UpdatedReplicas x).

Record PersistentVolumeClaim : Type := mkPersistentVolumeClaim {
  PersistentVolumeClaim_ObjectMeta : ObjectMeta;
  PersistentVolumeClaim_AccessModes : list string;
  PersistentVolumeClaim_Requests : gmap string Quantity;
  PersistentVolumeClaim_StorageClassName : option string;
}.

#[export] Instance zero_PersistentVolumeClaim : GoZero PersistentVolumeClaim := mkPersistentVolumeClaim
  zero zero zero zero.
#[export] Instance eta_PersistentVolumeClaim : Eta PersistentVolumeClaim := λ x, mkPersistentVolumeClaim
  (PersistentVolumeClaim_ObjectMeta x) (PersistentVolumeClaim_AccessModes x)
  (PersistentVolumeClaim_Requests x) (PersistentVolumeClaim_StorageClassName x).

Record StatefulSet : Type := mkStatefulSet {
  StatefulSet_ObjectMeta : ObjectMeta;
  StatefulSet_Replicas : option Z;
  StatefulSet_ServiceName : string;
  StatefulSet_Selector : gomap;
  StatefulSet_PodManagementPolicy : string;
  StatefulSet_UpdateStrategy : UpdateStrategy;
  StatefulSet_Template : PodTemplateSpec;
  StatefulSet_VolumeClaimTemplates : list PersistentVolumeClaim;
  StatefulSet_RevisionHistoryLimit : option Z;
  StatefulSet_StatusReplicas : Z;
  StatefulSet_ReadyReplicas : Z;
}.

#[export] Instance zero_StatefulSet : GoZero StatefulSet := mkStatefulSet zero zero zero zero zero
  zero zero zero zero zero zero.
#[export] Instance eta_StatefulSet : Eta StatefulSet := λ x, mkStatefulSet
  (StatefulSet_ObjectMeta x) (StatefulSet_Replicas x) (StatefulSet_ServiceName x)
  (StatefulSet_Selector x) (StatefulSet_PodManagementPolicy x) (StatefulSet_UpdateStrategy x)
  (StatefulSet_Template x) (StatefulSet_VolumeClaimTemplates x)
  (StatefulSet_RevisionHistoryLimit x) (StatefulSet_StatusReplicas x)
  (StatefulSet_ReadyReplicas x).

Record Job : Type := mkJob { Job_ObjectMeta : ObjectMeta }.

#[export] Instance zero_Job : GoZero Job := mkJob zero.
#[export] Instance eta_Job : Eta Job := λ x, mkJob (Job_ObjectMeta x).

(** ** Objects of any kind

    [client.Object] is an interface; [Object] is the sum of the kinds the
    operator handles. *)

Inductive Kind : Type :=
| KConfigMap | KSecret | KService | KServiceAccount | KDaemonSet | KStatefulSet
| KDeployment | KJob | KPersistentVolumeClaim.

#[global] Instance Kind_eq_dec : EqDecision Kind.
Proof. solve_decision. Defined.

Definition Kind_code (k : Kind) : nat :=
  match k with
  | KConfigMap => 0 | KSecret => 1 | KService => 2 | KServiceAccount => 3 | KDaemonSet => 4
  | KStatefulSet => 5 | KDeployment => 6 | KJob => 7 | KPersistentVolumeClaim => 8
  end.

Definition Kind_decode (n : nat) : option Kind :=
  [KConfigMap; KSecret; KService; KServiceAccount; KDaemonSet; KStatefulSet; KDeployment; KJob;
   KPersistentVolumeClaim] !! n.

#[global] Instance Kind_countable : Countable Kind.
Proof. apply (inj_countable Kind_code Kind_decode). by intros []. Defined.

Inductive Object : Type :=
| OConfigMap (o : ConfigMap)
| OSecret (o : Secret)
| OService (o : Service)
| OServiceAccount (o : ServiceAccount)
| ODaemonSet (o : DaemonSet)
| OStatefulSet (o : StatefulSet)
| ODeployment (o : Deployment)
| OJob (o : Job)
| OPersistentVolumeClaim (o : PersistentVolumeClaim).

Definition object_kind (o : Object) : Kind :=
  match o with
  | OConfigMap _ => KConfigMap
  | OSecret _ => KSecret
  | OService _ => KService
  | OServiceAccount _ => KServiceAccount
  | ODaemonSet _ => KDaemonSet
  | OStatefulSet _ => KStatefulSet
  | ODeployment _ => KDeployment
  | OJob _ => KJob
  | OPersistentVolumeClaim _ => KPersistentVolumeClaim
  end.

(** A Go type that implements [client.Object]: its kind, its metadata and its
    place in the sum. *)
Class K8sObject (T : Type) := {
  kind_of : Kind;
  to_object : T → Object;
  of_object : Object → option T;
  get_meta : T → ObjectMeta;
  set_meta : ObjectMeta → T → T;
}.
Arguments kind_of T {_}.

#[export] Instance K8sObject_ConfigMap : K8sObject ConfigMap := {|
  kind_of := KConfigMap;
  to_object := OConfigMap;
  of_object o := match o with OConfigMap x => Some x | _ => None end;
  get_meta := ConfigMap_ObjectMeta;
  set_meta m x := x <| ConfigMap_ObjectMeta := m |>;
|}.

#[export] Instance K8sObject_Secret : K8sObject Secret := {|
  kind_of := KSecret;
  to_object := OSecret;
  of_object o := match o with OSecret x => Some x | _ => None end;
  get_meta := Secret_ObjectMeta;
  set_meta m x := x <| Secret_ObjectMeta := m |>;
|}.

#[export] Instance K8sObject_Service : K8sObject Service := {|
  kind_of := KService;
  to_object := OService;
  of_object o := match o with OService x => Some x | _ => None end;
  get_meta := Service_ObjectMeta;
  set_meta m x := x <| Service_ObjectMeta := m |>;
|}.

#[export] Instance K8sObject_ServiceAccount : K8sObject ServiceAccount := {|
  kind_of := KServiceAccount;
  to_object := OServiceAccount;
  of_object o := match o with OServiceAccount x => Some x | _ => None end;
  get_meta := ServiceAccount_ObjectMeta;
  set_meta m x := x <| ServiceAccount_ObjectMeta := m |>;
|}.

#[export] Instance K8sObject_DaemonSet : K8sObject DaemonSet := {|
  kind_of := KDaemonSet;
  to_object := ODaemonSet;
  of_object o := match o with ODaemonSet x => Some x | _ => None end;
  get_meta := DaemonSet_ObjectMeta;
  set_meta m x := x <| DaemonSet_ObjectMeta := m |>;
|}.

#[export] Instance K8sObject_Deployment : K8sObject Deployment := {|
  kind_of := KDeployment;
  to_object := ODeployment;
  of_object o := match o with ODeployment x => Some x | _ => None end;
  get_meta := Deployment_ObjectMeta;
  set_meta m x := x <| Deployment_ObjectMeta := m |>;
|}.

#[export] Instance K8sObject_StatefulSet : K8sObject StatefulSet := {|
  kind_of := KStatefulSet;
  to_object := OStatefulSet;
  of_object o := match o with OStatefulSet x => Some x | _ => None end;
  get_meta := StatefulSet_ObjectMeta;
  set_meta m x := x <| StatefulSet_ObjectMeta := m |>;
|}.

#[export] Instance K8sObject_Job : K8sObject Job := {|
  kind_of := KJob;
  to_object := OJob;
  of_object o := match o with OJob x => Some x | _ => None end;
  get_meta := Job_ObjectMeta;
  set_meta m x := x <| Job_ObjectMeta := m |>;
|}.

#[export] Instance K8sObject_PersistentVolumeClaim : K8sObject PersistentVolumeClaim := {|
  kind_of := KPersistentVolumeClaim;
  to_object := OPersistentVolumeClaim;
  of_object o := match o with OPersistentVolumeClaim x => Some x | _ => None end;
  get_meta := PersistentVolumeClaim_ObjectMeta;
  set_meta m x := x <| PersistentVolumeClaim_ObjectMeta := m |>;
|}.

(** The metadata of an object of any kind. *)
Definition object_meta (o : Object) : ObjectMeta :=
  match o with
  | OConfigMap x => get_meta x
  | OSecret x => get_meta x
  | OService x => get_meta x
  | OServiceAccount x => get_meta x
  | ODaemonSet x => get_meta x
  | OStatefulSet x => get_meta x
  | ODeployment x => get_meta x
  | OJob x => get_meta x
  | OPersistentVolumeClaim x => get_meta x
  end.

Definition set_object_meta (m : ObjectMeta) (o : Object) : Object :=
  match o with
  | OConfigMap x => OConfigMap (set_meta m x)
  | OSecret x => OSecret (set_meta m x)
  | OService x => OService (set_meta m x)
  | OServiceAccount x => OServiceAccount (set_meta m x)
  | ODaemonSet x => ODaemonSet (set_meta m x)
  | OStatefulSet x => OStatefulSet (set_meta m x)
  | ODeployment x => ODeployment (set_meta m x)
  | OJob x => OJob (set_meta m x)
  | OPersistentVolumeClaim x => OPersistentVolumeClaim (set_meta m x)
  end.

Lemma object_meta_set m o : object_meta (set_object_meta m o) = m.
Proof. by destruct o. Qed.

Lemma object_kind_set m o : object_kind (set_object_meta m o) = object_kind o.
Proof. by destruct o. Qed.

Class K8sObjectLaws (T : Type) `{K8sObject T} : Prop := {
  of_to_object (x : T) : of_object (to_object x) = Some x;
  to_of_object (o : Object) (x : T) : of_object o = Some x → o = to_object x;
  of_object_kind (o : Object) : object_kind o = kind_of T → is_Some (of_object o);
  kind_to_object (x : T) : object_kind (to_object x) = kind_of T;
  meta_to_object (x : T) : object_meta (to_object x) = get_meta x;
  set_meta_to_object m (x : T) : set_object_meta m (to_object x) = to_object (set_meta m x);
  get_set_meta m (x : T) : get_meta (set_meta m x) = m;
}.

Ltac k8s_laws :=
  constructor;
  [ done
  | by intros [] x; cbn; intros [= ->]
  | by intros []; cbn; intros [=]; eexists
  | done
  | done
  | done
  | by intros m [] ].

#[export] Instance K8sObjectLaws_ConfigMap : K8sObjectLaws ConfigMap.
Proof. k8s_laws. Qed.
#[export] Instance K8sObjectLaws_Secret : K8sObjectLaws Secret.
Proof. k8s_laws. Qed.
#[export] Instance K8sObjectLaws_Service : K8sObjectLaws Service.
Proof. k8s_laws. Qed.
#[export] Instance K8sObjectLaws_ServiceAccount : K8sObjectLaws ServiceAccount.
Proof. k8s_laws. Qed.
#[export] Instance K8sObjectLaws_DaemonSet : K8sObjectLaws DaemonSet.
Proof. k8s_laws. Qed.
#[export] Instance K8sObjectLaws_Deployment : K8sObjectLaws Deployment.
Proof. k8s_laws. Qed.
#[export] Instance K8sObjectLaws_StatefulSet : K8sObjectLaws StatefulSet.
Proof. k8s_laws. Qed.
#[export] Instance K8sObjectLaws_Job : K8sObjectLaws Job.
Proof. k8s_laws. Qed.
#[export] Instance K8sObjectLaws_PersistentVolumeClaim : K8sObjectLaws PersistentVolumeClaim.
Proof. k8s_laws. Qed.

(** [client.ObjectKeyFromObject] together with the kind: where an object lives. *)
Record ObjectKey : Type := mkObjectKey {
  ObjectKey_Kind : Kind;
  ObjectKey_Namespace : string;
  ObjectKey_Name : string;
}.

#[global] Instance ObjectKey_eq_dec : EqDecision ObjectKey.
Proof. solve_decision. Defined.

#[global] Instance ObjectKey_countable : Countable ObjectKey.
Proof.
  apply (inj_countable' (λ k, (ObjectKey_Kind k, ObjectKey_Namespace k, ObjectKey_Name k))
           (λ t, mkObjectKey t.1.1 t.1.2 t.2)).
  by intros [].
Defined.

Definition object_key (o : Object) : ObjectKey :=
  mkObjectKey (object_kind o) (ObjectMeta_Namespace (object_meta o)) (ObjectMeta_Name (object_meta o)).

(** The key of a typed object. *)
Definition key_of {T} `{K8sObject T} (x : T) : ObjectKey :=
  mkObjectKey (kind_of T) (ObjectMeta_Namespace (get_meta x)) (ObjectMeta_Name (get_meta x)).

Lemma object_key_to_object {T} `{K8sObjectLaws T} (x : T) : object_key (to_object x) = key_of x.
Proof. unfold object_key, key_of. by rewrite meta_to_object, kind_to_object. Qed.
