(* ===== verification/Api.v ===== *)
(** * The custom resource: api/v1/loggingservice_types.go

    One record per struct of the API, with the struct's fields in the order of
    the source; the API's own [Volume] is [ApiVolume], since k8s.io/api has a
    [Volume] too.  An [int] is a [Z] (its width matters nowhere in this file).
    After the data come the methods of these types that need no cluster. *)

From S2P Require Import Prelude GoStrings KubeTypes.

(** ** The structs *)

Record MongoDBUpgrade : Type := mkMongoDBUpgrade {
  MongoDBUpgrade_MongoDBImage40 : string;
  MongoDBUpgrade_MongoDBImage42 : string;
  MongoDBUpgrade_MongoDBImage44 : string;
}.

#[export] Instance zero_MongoDBUpgrade : GoZero MongoDBUpgrade := mkMongoDBUpgrade zero zero zero.
#[export] Instance eta_MongoDBUpgrade : Eta MongoDBUpgrade := λ x, mkMongoDBUpgrade
  (MongoDBUpgrade_MongoDBImage40 x) (MongoDBUpgrade_MongoDBImage42 x)
  (MongoDBUpgrade_MongoDBImage44 x).

Record CA : Type := mkCA {
  CA_SecretName : string;
  CA_SecretKey : string;
}.

#[export] Instance zero_CA : GoZero CA := mkCA zero zero.
#[export] Instance eta_CA : Eta CA := λ x, mkCA (CA_SecretName x) (CA_SecretKey x).

Record Cert : Type := mkCert {
  Cert_SecretName : string;
  Cert_SecretKey : string;
}.

#[export] Instance zero_Cert : GoZero Cert := mkCert zero zero.
#[export] Instance eta_Cert : Eta Cert := λ x, mkCert (Cert_SecretName x) (Cert_SecretKey x).

Record Key : Type := mkKey {
  Key_SecretName : string;
  Key_SecretKey : string;
}.

#[export] Instance zero_Key : GoZero Key := mkKey zero zero.
#[export] Instance eta_Key : Eta Key := λ x, mkKey (Key_SecretName x) (Key_SecretKey x).

Record AuthProxy : Type := mkAuthProxy {
  AuthProxy_Resources : option ResourceRequirements;
  AuthProxy_BindPasswordSecret : option SecretKeySelector;
  AuthProxy_CA : CA;
  AuthProxy_Cert : Cert;
  AuthProxy_Key : Key;
  AuthProxy_Image : string;
  AuthProxy_Install : bool;
}.

#[export] Instance zero_AuthProxy : GoZero AuthProxy := mkAuthProxy zero zero zero zero zero zero
  zero.
#[export] Instance eta_AuthProxy : Eta AuthProxy := λ x, mkAuthProxy (AuthProxy_Resources x)
  (AuthProxy_BindPasswordSecret x) (AuthProxy_CA x) (AuthProxy_Cert x) (AuthProxy_Key x)
  (AuthProxy_Image x) (AuthProxy_Install x).

Record GenerateCerts : Type := mkGenerateCerts {
  GenerateCerts_SecretName : string;
  GenerateCerts_Enabled : bool;
}.

#[export] Instance zero_GenerateCerts : GoZero GenerateCerts := mkGenerateCerts zero zero.
#[export] Instance eta_GenerateCerts : Eta GenerateCerts := λ x, mkGenerateCerts
  (GenerateCerts_SecretName x) (GenerateCerts_Enabled x).

Record HTTPGraylogTLS : Type := mkHTTPGraylogTLS {
  HTTPGraylogTLS_GenerateCerts : option GenerateCerts;
  HTTPGraylogTLS_Cert : option Cert;
  HTTPGraylogTLS_Key : option Key;
  HTTPGraylogTLS_CACerts : string;
  HTTPGraylogTLS_KeyFilePassword : string;
  HTTPGraylogTLS_Enabled : bool;
  HTTPGraylogTLS_InsecureSkipVerify : bool;
}.

#[export] Instance zero_HTTPGraylogTLS : GoZero HTTPGraylogTLS := mkHTTPGraylogTLS zero zero zero
  zero zero zero zero.
#[export] Instance eta_HTTPGraylogTLS : Eta HTTPGraylogTLS := λ x, mkHTTPGraylogTLS
  (HTTPGraylogTLS_GenerateCerts x) (HTTPGraylogTLS_Cert x) (HTTPGraylogTLS_Key x)
  (HTTPGraylogTLS_CACerts x) (HTTPGraylogTLS_KeyFilePassword x) (HTTPGraylogTLS_Enabled x)
  (HTTPGraylogTLS_InsecureSkipVerify x).

Record Certificates : Type := mkCertificates {
  Certificates_CA : option CA;
  Certificates_Cert : option Cert;
  Certificates_Key : option Key;
}.

#[export] Instance zero_Certificates : GoZero Certificates := mkCertificates zero zero zero.
#[export] Instance eta_Certificates : Eta Certificates := λ x, mkCertificates (Certificates_CA x)
  (Certificates_Cert x) (Certificates_Key x).

Record TLS : Type := mkTLS {
  TLS_GenerateCerts : option GenerateCerts;
  TLS_Certificates : Certificates;
}.

#[export] Instance zero_TLS : GoZero TLS := mkTLS zero zero.
#[export] Instance eta_TLS : Eta TLS := λ x, mkTLS (TLS_GenerateCerts x) (TLS_Certificates x).

Record InputGraylogTLS : Type := mkInputGraylogTLS {
  InputGraylogTLS_TLS : TLS;
  InputGraylogTLS_KeyFilePassword : string;
  InputGraylogTLS_Enabled : bool;
  InputGraylogTLS_InsecureSkipVerify : bool;
}.

#[export] Instance zero_InputGraylogTLS : GoZero InputGraylogTLS := mkInputGraylogTLS zero zero
  zero zero.
#[export] Instance eta_InputGraylogTLS : Eta InputGraylogTLS := λ x, mkInputGraylogTLS
  (InputGraylogTLS_TLS x) (InputGraylogTLS_KeyFilePassword x) (InputGraylogTLS_Enabled x)
  (InputGraylogTLS_InsecureSkipVerify x).

Record GraylogTLS : Type := mkGraylogTLS {
  GraylogTLS_HTTP : option HTTPGraylogTLS;
  GraylogTLS_Input : option InputGraylogTLS;
}.

#[export] Instance zero_GraylogTLS : GoZero GraylogTLS := mkGraylogTLS zero zero.
#[export] Instance eta_GraylogTLS : Eta GraylogTLS := λ x, mkGraylogTLS (GraylogTLS_HTTP x)
  (GraylogTLS_Input x).

Record Credentials : Type := mkCredentials {
  Credentials_User : option SecretKeySelector;
  Credentials_Password : option SecretKeySelector;
}.

#[export] Instance zero_Credentials : GoZero Credentials := mkCredentials zero zero.
#[export] Instance eta_Credentials : Eta Credentials := λ x, mkCredentials (Credentials_User x)
  (Credentials_Password x).

Record TLSConfig : Type := mkTLSConfig {
  TLSConfig_CA : option SecretKeySelector;
  TLSConfig_Cert : option SecretKeySelector;
  TLSConfig_Key : option SecretKeySelector;
  TLSConfig_InsecureSkipVerify : bool;
}.

#[export] Instance zero_TLSConfig : GoZero TLSConfig := mkTLSConfig zero zero zero zero.
#[export] Instance eta_TLSConfig : Eta TLSConfig := λ x, mkTLSConfig (TLSConfig_CA x)
  (TLSConfig_Cert x) (TLSConfig_Key x) (TLSConfig_InsecureSkipVerify x).

Record HTTPConfig : Type := mkHTTPConfig {
  HTTPConfig_Credentials : option Credentials;
  HTTPConfig_TLSConfig : option TLSConfig;
}.

#[export] Instance zero_HTTPConfig : GoZero HTTPConfig := mkHTTPConfig zero zero.
#[export] Instance eta_HTTPConfig : Eta HTTPConfig := λ x, mkHTTPConfig (HTTPConfig_Credentials x)
  (HTTPConfig_TLSConfig x).

Record OpenSearch : Type := mkOpenSearch {
  OpenSearch_HTTPConfig : option HTTPConfig;
  OpenSearch_Host : string;
}.

#[export] Instance zero_OpenSearch : GoZero OpenSearch := mkOpenSearch zero zero.
#[export] Instance eta_OpenSearch : Eta OpenSearch := λ x, mkOpenSearch (OpenSearch_HTTPConfig x)
  (OpenSearch_Host x).

Record ContentPackPathHTTPConfig : Type := mkContentPackPathHTTPConfig {
  ContentPackPathHTTPConfig_HTTPConfig : option HTTPConfig;
  ContentPackPathHTTPConfig_URL : string;
}.

#[export] Instance zero_ContentPackPathHTTPConfig : GoZero ContentPackPathHTTPConfig := mkContentPackPathHTTPConfig
  zero zero.
#[export] Instance eta_ContentPackPathHTTPConfig : Eta ContentPackPathHTTPConfig := λ x, mkContentPackPathHTTPConfig
  (ContentPackPathHTTPConfig_HTTPConfig x) (ContentPackPathHTTPConfig_URL x).

Record Stream : Type := mkStream {
  Stream_Name : string;
  Stream_RotationStrategy : string;
  Stream_RotationPeriod : string;
  Stream_MaxSize : Z;
  Stream_MaxNumberOfIndices : Z;
  Stream_Install : bool;
}.

#[export] Instance zero_Stream : GoZero Stream := mkStream zero zero zero zero zero zero.
#[export] Instance eta_Stream : Eta Stream := λ x, mkStream (Stream_Name x)
  (Stream_RotationStrategy x) (Stream_RotationPeriod x) (Stream_MaxSize x)
  (Stream_MaxNumberOfIndices x) (Stream_Install x).

Record Graylog : Type := mkGraylog {
  Graylog_GraylogResources : option ResourceRequirements;
  Graylog_MongoResources : option ResourceRequirements;
  Graylog_InitResources : option ResourceRequirements;
  Graylog_MongoDBUpgrade : option MongoDBUpgrade;
  Graylog_AuthProxy : option AuthProxy;
  Graylog_TLS : option GraylogTLS;
  Graylog_OpenSearch : option OpenSearch;
  Graylog_Affinity : option Opaque;
  Graylog_Annotations : gomap;
  Graylog_Labels : gomap;
  Graylog_NodeSelectorValue : string;
  Graylog_PathRepo : string;
  Graylog_PriorityClassName : string;
  Graylog_DockerImage : string;
  Graylog_MongoDBImage : string;
  Graylog_LogLevel : string;
  Graylog_ContentDeployPolicy : string;
  Graylog_JavaOpts : string;
  Graylog_ContentPackPaths : string;
  Graylog_CustomPluginsPaths : string;
  Graylog_Host : string;
  Graylog_InitSetupImage : string;
  Graylog_User : string;
  Graylog_Password : string;
  Graylog_ElasticsearchHost : string;
  Graylog_NodeSelectorKey : string;
  Graylog_InitContainerDockerImage : string;
  Graylog_GraylogSecretName : string;
  Graylog_ContentPacks : option (list (option ContentPackPathHTTPConfig));
  Graylog_Streams : list Stream;
  Graylog_ProcessbufferProcessors : Z;
  Graylog_OutputbufferProcessorThreadsMaxPoolSize : Z;
  Graylog_RingSize : Z;
  Graylog_ElasticsearchMaxTotalConnectionsPerRoute : Z;
  Graylog_ElasticsearchMaxTotalConnections : Z;
  Graylog_OutputBatchSize : Z;
  Graylog_InputbufferRingSize : Z;
  Graylog_OutputbufferProcessors : Z;
  Graylog_MaxSize : Z;
  Graylog_InputbufferProcessors : Z;
  Graylog_StartupTimeout : Z;
  Graylog_IndexShards : option Z;
  Graylog_IndexReplicas : option Z;
  Graylog_MaxNumberOfIndices : Z;
  Graylog_LogsRotationSizeGb : Z;
  Graylog_InputPort : Z;
  Graylog_Replicas : option Z;
  Graylog_S3Archive : bool;
}.

#[export] Instance zero_Graylog : GoZero Graylog := mkGraylog zero zero zero zero zero zero zero
  zero zero zero zero zero zero zero zero zero zero zero zero zero zero zero zero zero zero zero
  zero zero zero zero zero zero zero zero zero zero zero zero zero zero zero zero zero zero zero
  zero zero zero.
#[export] Instance eta_Graylog : Eta Graylog := λ x, mkGraylog (Graylog_GraylogResources x)
  (Graylog_MongoResources x) (Graylog_InitResources x) (Graylog_MongoDBUpgrade x)
  (Graylog_AuthProxy x) (Graylog_TLS x) (Graylog_OpenSearch x) (Graylog_Affinity x)
  (Graylog_Annotations x) (Graylog_Labels x) (Graylog_NodeSelectorValue x) (Graylog_PathRepo x)
  (Graylog_PriorityClassName x) (Graylog_DockerImage x) (Graylog_MongoDBImage x)
  (Graylog_LogLevel x) (Graylog_ContentDeployPolicy x) (Graylog_JavaOpts x)
  (Graylog_ContentPackPaths x) (Graylog_CustomPluginsPaths x) (Graylog_Host x)
  (Graylog_InitSetupImage x) (Graylog_User x) (Graylog_Password x) (Graylog_ElasticsearchHost x)
  (Graylog_NodeSelectorKey x) (Graylog_InitContainerDockerImage x) (Graylog_GraylogSecretName x)
  (Graylog_ContentPacks x) (Graylog_Streams x) (Graylog_ProcessbufferProcessors x)
  (Graylog_OutputbufferProcessorThreadsMaxPoolSize x) (Graylog_RingSize x)
  (Graylog_ElasticsearchMaxTotalConnectionsPerRoute x)
  (Graylog_ElasticsearchMaxTotalConnections x) (Graylog_OutputBatchSize x)
  (Graylog_InputbufferRingSize x) (Graylog_OutputbufferProcessors x) (Graylog_MaxSize x)
  (Graylog_InputbufferProcessors x) (Graylog_StartupTimeout x) (Graylog_IndexShards x)
  (Graylog_IndexReplicas x) (Graylog_MaxNumberOfIndices x) (Graylog_LogsRotationSizeGb x)
  (Graylog_InputPort x) (Graylog_Replicas x) (Graylog_S3Archive x).

Record ConfigmapReload : Type := mkConfigmapReload {
  ConfigmapReload_DockerImage : string;
  ConfigmapReload_Resources : option ResourceRequirements;
}.

#[export] Instance zero_ConfigmapReload : GoZero ConfigmapReload := mkConfigmapReload zero zero.
#[export] Instance eta_ConfigmapReload : Eta ConfigmapReload := λ x, mkConfigmapReload
  (ConfigmapReload_DockerImage x) (ConfigmapReload_Resources x).

Record FluentdTLSParams : Type := mkFluentdTLSParams {
  FluentdTLSParams_Version : string;
  FluentdTLSParams_Enabled : bool;
  FluentdTLSParams_NoDefaultCA : bool;
  FluentdTLSParams_AllCiphers : bool;
  FluentdTLSParams_RescueSslErrors : bool;
  FluentdTLSParams_NoVerify : bool;
}.

#[export] Instance zero_FluentdTLSParams : GoZero FluentdTLSParams := mkFluentdTLSParams zero zero
  zero zero zero zero.
#[export] Instance eta_FluentdTLSParams : Eta FluentdTLSParams := λ x, mkFluentdTLSParams
  (FluentdTLSParams_Version x) (FluentdTLSParams_Enabled x) (FluentdTLSParams_NoDefaultCA x)
  (FluentdTLSParams_AllCiphers x) (FluentdTLSParams_RescueSslErrors x)
  (FluentdTLSParams_NoVerify x).

Record FluentdTLS : Type := mkFluentdTLS {
  FluentdTLS_TLS : TLS;
  FluentdTLS_FluentdTLSParams : FluentdTLSParams;
}.

#[export] Instance zero_FluentdTLS : GoZero FluentdTLS := mkFluentdTLS zero zero.
#[export] Instance eta_FluentdTLS : Eta FluentdTLS := λ x, mkFluentdTLS (FluentdTLS_TLS x)
  (FluentdTLS_FluentdTLSParams x).

Record Auth : Type := mkAuth {
  Auth_Token : option SecretKeySelector;
  Auth_User : option SecretKeySelector;
  Auth_Password : option SecretKeySelector;
}.

#[export] Instance zero_Auth : GoZero Auth := mkAuth zero zero zero.
#[export] Instance eta_Auth : Eta Auth := λ x, mkAuth (Auth_Token x) (Auth_User x)
  (Auth_Password x).

Record FluentdLokiTLS : Type := mkFluentdLokiTLS {
  FluentdLokiTLS_Certificates : Certificates;
  FluentdLokiTLS_FluentdTLSParams : FluentdTLSParams;
}.

#[export] Instance zero_FluentdLokiTLS : GoZero FluentdLokiTLS := mkFluentdLokiTLS zero zero.
#[export] Instance eta_FluentdLokiTLS : Eta FluentdLokiTLS := λ x, mkFluentdLokiTLS
  (FluentdLokiTLS_Certificates x) (FluentdLokiTLS_FluentdTLSParams x).

Record LokiFluentd : Type := mkLokiFluentd {
  LokiFluentd_Enabled : bool;
  LokiFluentd_Host : string;
  LokiFluentd_Tenant : string;
  LokiFluentd_Auth : option Auth;
  LokiFluentd_StaticLabels : string;
  LokiFluentd_LabelsMapping : string;
  LokiFluentd_TLS : option FluentdLokiTLS;
  LokiFluentd_ExtraParams : string;
}.

#[export] Instance zero_LokiFluentd : GoZero LokiFluentd := mkLokiFluentd zero zero zero zero zero
  zero zero zero.
#[export] Instance eta_LokiFluentd : Eta LokiFluentd := λ x, mkLokiFluentd (LokiFluentd_Enabled x)
  (LokiFluentd_Host x) (LokiFluentd_Tenant x) (LokiFluentd_Auth x) (LokiFluentd_StaticLabels x)
  (LokiFluentd_LabelsMapping x) (LokiFluentd_TLS x) (LokiFluentd_ExtraParams x).

Record FluentdHTTPRouting : Type := mkFluentdHTTPRouting {
  FluentdHTTPRouting_Enabled : bool;
  FluentdHTTPRouting_LogCategoryHeader : string;
}.

#[export] Instance zero_FluentdHTTPRouting : GoZero FluentdHTTPRouting := mkFluentdHTTPRouting
  zero zero.
#[export] Instance eta_FluentdHTTPRouting : Eta FluentdHTTPRouting := λ x, mkFluentdHTTPRouting
  (FluentdHTTPRouting_Enabled x) (FluentdHTTPRouting_LogCategoryHeader x).

Record FluentdHttpTLSParams : Type := mkFluentdHttpTLSParams {
  FluentdHttpTLSParams_Enabled : bool;
  FluentdHttpTLSParams_VerifyMode : string;
  FluentdHttpTLSParams_Version : string;
  FluentdHttpTLSParams_Ciphers : string;
}.

#[export] Instance zero_FluentdHttpTLSParams : GoZero FluentdHttpTLSParams := mkFluentdHttpTLSParams
  zero zero zero zero.
#[export] Instance eta_FluentdHttpTLSParams : Eta FluentdHttpTLSParams := λ x, mkFluentdHttpTLSParams
  (FluentdHttpTLSParams_Enabled x) (FluentdHttpTLSParams_VerifyMode x)
  (FluentdHttpTLSParams_Version x) (FluentdHttpTLSParams_Ciphers x).

Record FluentdHttpTLS : Type := mkFluentdHttpTLS {
  FluentdHttpTLS_Certificates : Certificates;
  FluentdHttpTLS_FluentdHttpTLSParams : FluentdHttpTLSParams;
}.

#[export] Instance zero_FluentdHttpTLS : GoZero FluentdHttpTLS := mkFluentdHttpTLS zero zero.
#[export] Instance eta_FluentdHttpTLS : Eta FluentdHttpTLS := λ x, mkFluentdHttpTLS
  (FluentdHttpTLS_Certificates x) (FluentdHttpTLS_FluentdHttpTLSParams x).

Record HttpFluentd : Type := mkHttpFluentd {
  HttpFluentd_Enabled : bool;
  HttpFluentd_Routing : FluentdHTTPRouting;
  HttpFluentd_Host : string;
  HttpFluentd_Path : string;
  HttpFluentd_Compress : string;
  HttpFluentd_Headers : gomap;
  HttpFluentd_Auth : option Auth;
  HttpFluentd_TLS : option FluentdHttpTLS;
  HttpFluentd_ExtraParams : string;
}.

#[export] Instance zero_HttpFluentd : GoZero HttpFluentd := mkHttpFluentd zero zero zero zero zero
  zero zero zero zero.
#[export] Instance eta_HttpFluentd : Eta HttpFluentd := λ x, mkHttpFluentd (HttpFluentd_Enabled x)
  (HttpFluentd_Routing x) (HttpFluentd_Host x) (HttpFluentd_Path x) (HttpFluentd_Compress x)
  (HttpFluentd_Headers x) (HttpFluentd_Auth x) (HttpFluentd_TLS x) (HttpFluentd_ExtraParams x).

Record OutputFluentd : Type := mkOutputFluentd {
  OutputFluentd_Loki : option LokiFluentd;
  OutputFluentd_Http : option HttpFluentd;
}.

#[export] Instance zero_OutputFluentd : GoZero OutputFluentd := mkOutputFluentd zero zero.
#[export] Instance eta_OutputFluentd : Eta OutputFluentd := λ x, mkOutputFluentd
  (OutputFluentd_Loki x) (OutputFluentd_Http x).

Record Fluentd : Type := mkFluentd {
  Fluentd_Resources : option ResourceRequirements;
  Fluentd_Annotations : gomap;
  Fluentd_Labels : gomap;
  Fluentd_ExtraFields : gomap;
  Fluentd_CustomFilterConf : string;
  Fluentd_SystemLogType : string;
  Fluentd_CloudEventsReaderFormat : string;
  Fluentd_GraylogHost : string;
  Fluentd_DockerImage : string;
  Fluentd_ConfigmapReload : option ConfigmapReload;
  Fluentd_GraylogProtocol : string;
  Fluentd_PriorityClassName : string;
  Fluentd_MultilineFirstLineRegexp : string;
  Fluentd_LogLevel : string;
  Fluentd_TotalLimitSize : string;
  Fluentd_CustomInputConf : string;
  Fluentd_NodeSelectorKey : string;
  Fluentd_CustomOutputConf : string;
  Fluentd_NodeSelectorValue : string;
  Fluentd_TLS : FluentdTLS;
  Fluentd_AdditionalVolumeMounts : list VolumeMount;
  Fluentd_ExcludePath : list string;
  Fluentd_AdditionalVolumes : list Volume;
  Fluentd_Tolerations : option (list Toleration);
  Fluentd_Affinity : option Opaque;
  Fluentd_QueueLimitLength : Z;
  Fluentd_GraylogPort : Z;
  Fluentd_BillCycleConf : bool;
  Fluentd_SystemLogging : bool;
  Fluentd_SystemAuditLogging : bool;
  Fluentd_KubeAuditLogging : bool;
  Fluentd_KubeApiserverAuditLogging : bool;
  Fluentd_ContainerLogging : bool;
  Fluentd_WatchKubernetesMetadata : bool;
  Fluentd_SecurityContextPrivileged : bool;
  Fluentd_FileStorage : bool;
  Fluentd_GraylogOutput : bool;
  Fluentd_GraylogBufferFlushInterval : string;
  Fluentd_Compress : string;
  Fluentd_MockKubeData : bool;
  Fluentd_Output : option OutputFluentd;
}.

#[export] Instance zero_Fluentd : GoZero Fluentd := mkFluentd zero zero zero zero zero zero zero
  zero zero zero zero zero zero zero zero zero zero zero zero zero zero zero zero zero zero zero
  zero zero zero zero zero zero zero zero zero zero zero zero zero zero zero.
#[export] Instance eta_Fluentd : Eta Fluentd := λ x, mkFluentd (Fluentd_Resources x)
  (Fluentd_Annotations x) (Fluentd_Labels x) (Fluentd_ExtraFields x) (Fluentd_CustomFilterConf x)
  (Fluentd_SystemLogType x) (Fluentd_CloudEventsReaderFormat x) (Fluentd_GraylogHost x)
  (Fluentd_DockerImage x) (Fluentd_ConfigmapReload x) (Fluentd_GraylogProtocol x)
  (Fluentd_PriorityClassName x) (Fluentd_MultilineFirstLineRegexp x) (Fluentd_LogLevel x)
  (Fluentd_TotalLimitSize x) (Fluentd_CustomInputConf x) (Fluentd_NodeSelectorKey x)
  (Fluentd_CustomOutputConf x) (Fluentd_NodeSelectorValue x) (Fluentd_TLS x)
  (Fluentd_AdditionalVolumeMounts x) (Fluentd_ExcludePath x) (Fluentd_AdditionalVolumes x)
  (Fluentd_Tolerations x) (Fluentd_Affinity x) (Fluentd_QueueLimitLength x)
  (Fluentd_GraylogPort x) (Fluentd_BillCycleConf x) (Fluentd_SystemLogging x)
  (Fluentd_SystemAuditLogging x) (Fluentd_KubeAuditLogging x)
  (Fluentd_KubeApiserverAuditLogging x) (Fluentd_ContainerLogging x)
  (Fluentd_WatchKubernetesMetadata x) (Fluentd_SecurityContextPrivileged x)
  (Fluentd_FileStorage x) (Fluentd_GraylogOutput x) (Fluentd_GraylogBufferFlushInterval x)
  (Fluentd_Compress x) (Fluentd_MockKubeData x) (Fluentd_Output x).

Record ApiVolume : Type := mkApiVolume {
  ApiVolume_StorageClassName : string;
  ApiVolume_StorageSize : string;
  ApiVolume_Bind : bool;
}.

#[export] Instance zero_ApiVolume : GoZero ApiVolume := mkApiVolume zero zero zero.
#[export] Instance eta_ApiVolume : Eta ApiVolume := λ x, mkApiVolume
  (ApiVolume_StorageClassName x) (ApiVolume_StorageSize x) (ApiVolume_Bind x).

Record FluentbitTLSParams : Type := mkFluentbitTLSParams {
  FluentbitTLSParams_KeyPasswd : string;
  FluentbitTLSParams_Enabled : bool;
  FluentbitTLSParams_Verify : bool;
}.

#[export] Instance zero_FluentbitTLSParams : GoZero FluentbitTLSParams := mkFluentbitTLSParams
  zero zero zero.
#[export] Instance eta_FluentbitTLSParams : Eta FluentbitTLSParams := λ x, mkFluentbitTLSParams
  (FluentbitTLSParams_KeyPasswd x) (FluentbitTLSParams_Enabled x) (FluentbitTLSParams_Verify x).

Record FluentbitTLS : Type := mkFluentbitTLS {
  FluentbitTLS_TLS : TLS;
  FluentbitTLS_FluentbitTLSParams : FluentbitTLSParams;
}.

#[export] Instance zero_FluentbitTLS : GoZero FluentbitTLS := mkFluentbitTLS zero zero.
#[export] Instance eta_FluentbitTLS : Eta FluentbitTLS := λ x, mkFluentbitTLS (FluentbitTLS_TLS x)
  (FluentbitTLS_FluentbitTLSParams x).

Record FluentbitLokiTLS : Type := mkFluentbitLokiTLS {
  FluentbitLokiTLS_Certificates : Certificates;
  FluentbitLokiTLS_FluentbitTLSParams : FluentbitTLSParams;
}.

#[export] Instance zero_FluentbitLokiTLS : GoZero FluentbitLokiTLS := mkFluentbitLokiTLS zero zero.
#[export] Instance eta_FluentbitLokiTLS : Eta FluentbitLokiTLS := λ x, mkFluentbitLokiTLS
  (FluentbitLokiTLS_Certificates x) (FluentbitLokiTLS_FluentbitTLSParams x).

Record LokiFluentbit : Type := mkLokiFluentbit {
  LokiFluentbit_Enabled : bool;
  LokiFluentbit_Host : string;
  LokiFluentbit_Tenant : string;
  LokiFluentbit_Auth : option Auth;
  LokiFluentbit_StaticLabels : string;
  LokiFluentbit_LabelsMapping : string;
  LokiFluentbit_TLS : option FluentbitLokiTLS;
  LokiFluentbit_ExtraParams : string;
}.

#[export] Instance zero_LokiFluentbit : GoZero LokiFluentbit := mkLokiFluentbit zero zero zero
  zero zero zero zero zero.
#[export] Instance eta_LokiFluentbit : Eta LokiFluentbit := λ x, mkLokiFluentbit
  (LokiFluentbit_Enabled x) (LokiFluentbit_Host x) (LokiFluentbit_Tenant x) (LokiFluentbit_Auth x)
  (LokiFluentbit_StaticLabels x) (LokiFluentbit_LabelsMapping x) (LokiFluentbit_TLS x)
  (LokiFluentbit_ExtraParams x).

Record FluentbitHTTPRouting : Type := mkFluentbitHTTPRouting {
  FluentbitHTTPRouting_Enabled : bool;
  FluentbitHTTPRouting_HeaderTag : string;
}.

#[export] Instance zero_FluentbitHTTPRouting : GoZero FluentbitHTTPRouting := mkFluentbitHTTPRouting
  zero zero.
#[export] Instance eta_FluentbitHTTPRouting : Eta FluentbitHTTPRouting := λ x, mkFluentbitHTTPRouting
  (FluentbitHTTPRouting_Enabled x) (FluentbitHTTPRouting_HeaderTag x).

Record FluentbitHttpTLS : Type := mkFluentbitHttpTLS {
  FluentbitHttpTLS_Certificates : Certificates;
  FluentbitHttpTLS_FluentbitTLSParams : FluentbitTLSParams;
}.

#[export] Instance zero_FluentbitHttpTLS : GoZero FluentbitHttpTLS := mkFluentbitHttpTLS zero zero.
#[export] Instance eta_FluentbitHttpTLS : Eta FluentbitHttpTLS := λ x, mkFluentbitHttpTLS
  (FluentbitHttpTLS_Certificates x) (FluentbitHttpTLS_FluentbitTLSParams x).

Record HttpFluentbit : Type := mkHttpFluentbit {
  HttpFluentbit_Enabled : bool;
  HttpFluentbit_Routing : option FluentbitHTTPRouting;
  HttpFluentbit_Host : string;
  HttpFluentbit_Port : Z;
  HttpFluentbit_Uri : string;
  HttpFluentbit_Auth : option Auth;
  HttpFluentbit_Compress : string;
  HttpFluentbit_TLS : option FluentbitHttpTLS;
  HttpFluentbit_JsonDateFormat : string;
  HttpFluentbit_Format : string;
  HttpFluentbit_ExtraParams : string;
}.

#[export] Instance zero_HttpFluentbit : GoZero HttpFluentbit := mkHttpFluentbit zero zero zero
  zero zero zero zero zero zero zero zero.
#[export] Instance eta_HttpFluentbit : Eta HttpFluentbit := λ x, mkHttpFluentbit
  (HttpFluentbit_Enabled x) (HttpFluentbit_Routing x) (HttpFluentbit_Host x)
  (HttpFluentbit_Port x) (HttpFluentbit_Uri x) (HttpFluentbit_Auth x) (HttpFluentbit_Compress x)
  (HttpFluentbit_TLS x) (HttpFluentbit_JsonDateFormat x) (HttpFluentbit_Format x)
  (HttpFluentbit_ExtraParams x).

Record OtelFluentbit : Type := mkOtelFluentbit {
  OtelFluentbit_Enabled : bool;
  OtelFluentbit_Host : string;
  OtelFluentbit_Port : Z;
  OtelFluentbit_LogsUri : string;
  OtelFluentbit_Target : string;
  OtelFluentbit_LogSuppressInterval : Z;
  OtelFluentbit_Auth : option Auth;
  OtelFluentbit_Compress : string;
  OtelFluentbit_TLS : option FluentbitHttpTLS;
  OtelFluentbit_ExtraParams : string;
}.

#[export] Instance zero_OtelFluentbit : GoZero OtelFluentbit := mkOtelFluentbit zero zero zero
  zero zero zero zero zero zero zero.
#[export] Instance eta_OtelFluentbit : Eta OtelFluentbit := λ x, mkOtelFluentbit
  (OtelFluentbit_Enabled x) (OtelFluentbit_Host x) (OtelFluentbit_Port x)
  (OtelFluentbit_LogsUri x) (OtelFluentbit_Target x) (OtelFluentbit_LogSuppressInterval x)
  (OtelFluentbit_Auth x) (OtelFluentbit_Compress x) (OtelFluentbit_TLS x)
  (OtelFluentbit_ExtraParams x).

Record OutputFluentbit : Type := mkOutputFluentbit {
  OutputFluentbit_Loki : option LokiFluentbit;
  OutputFluentbit_Http : option HttpFluentbit;
  OutputFluentbit_Otel : option OtelFluentbit;
}.

#[export] Instance zero_OutputFluentbit : GoZero OutputFluentbit := mkOutputFluentbit zero zero
  zero.
#[export] Instance eta_OutputFluentbit : Eta OutputFluentbit := λ x, mkOutputFluentbit
  (OutputFluentbit_Loki x) (OutputFluentbit_Http x) (OutputFluentbit_Otel x).

Record FluentbitAggregator : Type := mkFluentbitAggregator {
  FluentbitAggregator_Labels : gomap;
  FluentbitAggregator_Volume : option ApiVolume;
  FluentbitAggregator_Resources : option ResourceRequirements;
  FluentbitAggregator_Annotations : gomap;
  FluentbitAggregator_ExtraFields : gomap;
  FluentbitAggregator_MemBufLimit : string;
  FluentbitAggregator_DockerImage : string;
  FluentbitAggregator_ConfigmapReload : option ConfigmapReload;
  FluentbitAggregator_NodeSelectorValue : string;
  FluentbitAggregator_MultilineOtherLinesRegexp : string;
  FluentbitAggregator_GraylogHost : string;
  FluentbitAggregator_MultilineFirstLineRegexp : string;
  FluentbitAggregator_GraylogProtocol : string;
  FluentbitAggregator_NodeSelectorKey : string;
  FluentbitAggregator_PriorityClassName : string;
  FluentbitAggregator_TotalLimitSize : string;
  FluentbitAggregator_StorageSizeLimit : string;
  FluentbitAggregator_CustomFilterConf : string;
  FluentbitAggregator_CustomOutputConf : string;
  FluentbitAggregator_CustomLuaScriptConf : gomap;
  FluentbitAggregator_TLS : FluentbitTLS;
  FluentbitAggregator_Tolerations : option (list Toleration);
  FluentbitAggregator_Affinity : option Opaque;
  FluentbitAggregator_StartupTimeout : Z;
  FluentbitAggregator_Replicas : Z;
  FluentbitAggregator_GraylogPort : Z;
  FluentbitAggregator_Install : bool;
  FluentbitAggregator_SecurityContextPrivileged : bool;
  FluentbitAggregator_GraylogOutput : bool;
  FluentbitAggregator_Output : option OutputFluentbit;
  FluentbitAggregator_InputMemBufLimit : string;
}.

#[export] Instance zero_FluentbitAggregator : GoZero FluentbitAggregator := mkFluentbitAggregator
  zero zero zero zero zero zero zero zero zero zero zero zero zero zero zero zero zero zero zero
  zero zero zero zero zero zero zero zero zero zero zero zero.
#[export] Instance eta_FluentbitAggregator : Eta FluentbitAggregator := λ x, mkFluentbitAggregator
  (FluentbitAggregator_Labels x) (FluentbitAggregator_Volume x) (FluentbitAggregator_Resources x)
  (FluentbitAggregator_Annotations x) (FluentbitAggregator_ExtraFields x)
  (FluentbitAggregator_MemBufLimit x) (FluentbitAggregator_DockerImage x)
  (FluentbitAggregator_ConfigmapReload x) (FluentbitAggregator_NodeSelectorValue x)
  (FluentbitAggregator_MultilineOtherLinesRegexp x) (FluentbitAggregator_GraylogHost x)
  (FluentbitAggregator_MultilineFirstLineRegexp x) (FluentbitAggregator_GraylogProtocol x)
  (FluentbitAggregator_NodeSelectorKey x) (FluentbitAggregator_PriorityClassName x)
  (FluentbitAggregator_TotalLimitSize x) (FluentbitAggregator_StorageSizeLimit x)
  (FluentbitAggregator_CustomFilterConf x) (FluentbitAggregator_CustomOutputConf x)
  (FluentbitAggregator_CustomLuaScriptConf x) (FluentbitAggregator_TLS x)
  (FluentbitAggregator_Tolerations x) (FluentbitAggregator_Affinity x)
  (FluentbitAggregator_StartupTimeout x) (FluentbitAggregator_Replicas x)
  (FluentbitAggregator_GraylogPort x) (FluentbitAggregator_Install x)
  (FluentbitAggregator_SecurityContextPrivileged x) (FluentbitAggregator_GraylogOutput x)
  (FluentbitAggregator_Output x) (FluentbitAggregator_InputMemBufLimit x).

Record FluentbitDB : Type := mkFluentbitDB {
  FluentbitDB_Enabled : option bool;
  FluentbitDB_JournalMode : string;
  FluentbitDB_Sync : string;
  FluentbitDB_Locking : option bool;
}.

#[export] Instance zero_FluentbitDB : GoZero FluentbitDB := mkFluentbitDB zero zero zero zero.
#[export] Instance eta_FluentbitDB : Eta FluentbitDB := λ x, mkFluentbitDB (FluentbitDB_Enabled x)
  (FluentbitDB_JournalMode x) (FluentbitDB_Sync x) (FluentbitDB_Locking x).

Record Fluentbit : Type := mkFluentbit {
  Fluentbit_Resources : option ResourceRequirements;
  Fluentbit_Annotations : gomap;
  Fluentbit_Labels : gomap;
  Fluentbit_ExtraFields : gomap;
  Fluentbit_Aggregator : option FluentbitAggregator;
  Fluentbit_MemBufLimit : string;
  Fluentbit_SystemLogType : string;
  Fluentbit_GraylogHost : string;
  Fluentbit_NodeSelectorValue : string;
  Fluentbit_GraylogProtocol : string;
  Fluentbit_DockerImage : string;
  Fluentbit_ConfigmapReload : option ConfigmapReload;
  Fluentbit_PriorityClassName : string;
  Fluentbit_TotalLimitSize : string;
  Fluentbit_CustomInputConf : string;
  Fluentbit_CustomFilterConf : string;
  Fluentbit_CustomOutputConf : string;
  Fluentbit_CustomLuaScriptConf : gomap;
  Fluentbit_LogLevel : string;
  Fluentbit_MultilineFirstLineRegexp : string;
  Fluentbit_NodeSelectorKey : string;
  Fluentbit_MultilineOtherLinesRegexp : string;
  Fluentbit_TLS : FluentbitTLS;
  Fluentbit_AdditionalVolumes : list Volume;
  Fluentbit_AdditionalVolumeMounts : list VolumeMount;
  Fluentbit_Tolerations : option (list Toleration);
  Fluentbit_Affinity : option Opaque;
  Fluentbit_GraylogPort : Z;
  Fluentbit_SecurityContextPrivileged : bool;
  Fluentbit_WatchKubernetesMetadata : bool;
  Fluentbit_MockKubeData : bool;
  Fluentbit_SystemLogging : bool;
  Fluentbit_BillCycleConf : bool;
  Fluentbit_GraylogOutput : bool;
  Fluentbit_SystemAuditLogging : bool;
  Fluentbit_KubeAuditLogging : bool;
  Fluentbit_KubeApiserverAuditLogging : bool;
  Fluentbit_ContainerLogging : bool;
  Fluentbit_ExcludePath : string;
  Fluentbit_SelfLogging : bool;
  Fluentbit_Output : option OutputFluentbit;
  Fluentbit_Flush : Z;
  Fluentbit_StorageProfile : string;
  Fluentbit_MemoryOnlyStateSizeLimit : string;
  Fluentbit_InputMemBufLimit : string;
  Fluentbit_DB : FluentbitDB;
}.

#[export] Instance zero_Fluentbit : GoZero Fluentbit := mkFluentbit zero zero zero zero zero zero
  zero zero zero zero zero zero zero zero zero zero zero zero zero zero zero zero zero zero zero
  zero zero zero zero zero zero zero zero zero zero zero zero zero zero zero zero zero zero zero
  zero zero.
#[export] Instance eta_Fluentbit : Eta Fluentbit := λ x, mkFluentbit (Fluentbit_Resources x)
  (Fluentbit_Annotations x) (Fluentbit_Labels x) (Fluentbit_ExtraFields x)
  (Fluentbit_Aggregator x) (Fluentbit_MemBufLimit x) (Fluentbit_SystemLogType x)
  (Fluentbit_GraylogHost x) (Fluentbit_NodeSelectorValue x) (Fluentbit_GraylogProtocol x)
  (Fluentbit_DockerImage x) (Fluentbit_ConfigmapReload x) (Fluentbit_PriorityClassName x)
  (Fluentbit_TotalLimitSize x) (Fluentbit_CustomInputConf x) (Fluentbit_CustomFilterConf x)
  (Fluentbit_CustomOutputConf x) (Fluentbit_CustomLuaScriptConf x) (Fluentbit_LogLevel x)
  (Fluentbit_MultilineFirstLineRegexp x) (Fluentbit_NodeSelectorKey x)
  (Fluentbit_MultilineOtherLinesRegexp x) (Fluentbit_TLS x) (Fluentbit_AdditionalVolumes x)
  (Fluentbit_AdditionalVolumeMounts x) (Fluentbit_Tolerations x) (Fluentbit_Affinity x)
  (Fluentbit_GraylogPort x) (Fluentbit_SecurityContextPrivileged x)
  (Fluentbit_WatchKubernetesMetadata x) (Fluentbit_MockKubeData x) (Fluentbit_SystemLogging x)
  (Fluentbit_BillCycleConf x) (Fluentbit_GraylogOutput x) (Fluentbit_SystemAuditLogging x)
  (Fluentbit_KubeAuditLogging x) (Fluentbit_KubeApiserverAuditLogging x)
  (Fluentbit_ContainerLogging x) (Fluentbit_ExcludePath x) (Fluentbit_SelfLogging x)
  (Fluentbit_Output x) (Fluentbit_Flush x) (Fluentbit_StorageProfile x)
  (Fluentbit_MemoryOnlyStateSizeLimit x) (Fluentbit_InputMemBufLimit x) (Fluentbit_DB x).

Record CloudEventsReader : Type := mkCloudEventsReader {
  CloudEventsReader_Resources : option ResourceRequirements;
  CloudEventsReader_DockerImage : string;
  CloudEventsReader_PriorityClassName : string;
  CloudEventsReader_NodeSelectorKey : string;
  CloudEventsReader_NodeSelectorValue : string;
  CloudEventsReader_Affinity : option Opaque;
  CloudEventsReader_Labels : gomap;
  CloudEventsReader_Annotations : gomap;
  CloudEventsReader_Args : option (list string);
  CloudEventsReader_Install : bool;
}.

#[export] Instance zero_CloudEventsReader : GoZero CloudEventsReader := mkCloudEventsReader zero
  zero zero zero zero zero zero zero zero zero.
#[export] Instance eta_CloudEventsReader : Eta CloudEventsReader := λ x, mkCloudEventsReader
  (CloudEventsReader_Resources x) (CloudEventsReader_DockerImage x)
  (CloudEventsReader_PriorityClassName x) (CloudEventsReader_NodeSelectorKey x)
  (CloudEventsReader_NodeSelectorValue x) (CloudEventsReader_Affinity x)
  (CloudEventsReader_Labels x) (CloudEventsReader_Annotations x) (CloudEventsReader_Args x)
  (CloudEventsReader_Install x).

Record MonitoringAgentLoggingPlugin : Type := mkMonitoringAgentLoggingPlugin {
  MonitoringAgentLoggingPlugin_Resources : option ResourceRequirements;
  MonitoringAgentLoggingPlugin_Annotations : gomap;
  MonitoringAgentLoggingPlugin_Labels : gomap;
  MonitoringAgentLoggingPlugin_InfluxDBName : string;
  MonitoringAgentLoggingPlugin_InfluxDBSecretName : string;
  MonitoringAgentLoggingPlugin_InfluxDBHost : string;
  MonitoringAgentLoggingPlugin_NodeSelectorKey : string;
  MonitoringAgentLoggingPlugin_NodeSelectorValue : string;
  MonitoringAgentLoggingPlugin_SaSecret : string;
  MonitoringAgentLoggingPlugin_SaSecretVolume : string;
  MonitoringAgentLoggingPlugin_PriorityClassName : string;
  MonitoringAgentLoggingPlugin_DockerImage : string;
  MonitoringAgentLoggingPlugin_InfluxDBPort : Z;
  MonitoringAgentLoggingPlugin_InfluxDBMode : bool;
}.

#[export] Instance zero_MonitoringAgentLoggingPlugin : GoZero MonitoringAgentLoggingPlugin := mkMonitoringAgentLoggingPlugin
  zero zero zero zero zero zero zero zero zero zero zero zero zero zero.
#[export] Instance eta_MonitoringAgentLoggingPlugin : Eta MonitoringAgentLoggingPlugin := λ x, mkMonitoringAgentLoggingPlugin
  (MonitoringAgentLoggingPlugin_Resources x) (MonitoringAgentLoggingPlugin_Annotations x)
  (MonitoringAgentLoggingPlugin_Labels x) (MonitoringAgentLoggingPlugin_InfluxDBName x)
  (MonitoringAgentLoggingPlugin_InfluxDBSecretName x)
  (MonitoringAgentLoggingPlugin_InfluxDBHost x) (MonitoringAgentLoggingPlugin_NodeSelectorKey x)
  (MonitoringAgentLoggingPlugin_NodeSelectorValue x) (MonitoringAgentLoggingPlugin_SaSecret x)
  (MonitoringAgentLoggingPlugin_SaSecretVolume x)
  (MonitoringAgentLoggingPlugin_PriorityClassName x) (MonitoringAgentLoggingPlugin_DockerImage x)
  (MonitoringAgentLoggingPlugin_InfluxDBPort x) (MonitoringAgentLoggingPlugin_InfluxDBMode x).

Record LoggingServiceSpec : Type := mkLoggingServiceSpec {
  LoggingServiceSpec_Graylog : option Graylog;
  LoggingServiceSpec_Fluentd : option Fluentd;
  LoggingServiceSpec_Fluentbit : option Fluentbit;
  LoggingServiceSpec_CloudEventsReader : option CloudEventsReader;
  LoggingServiceSpec_MonitoringAgentLoggingPlugin : option MonitoringAgentLoggingPlugin;
  LoggingServiceSpec_CloudURL : string;
  LoggingServiceSpec_OSKind : string;
  LoggingServiceSpec_ContainerRuntimeType : string;
  LoggingServiceSpec_Ipv6 : bool;
  LoggingServiceSpec_OpenshiftDeploy : bool;
}.

#[export] Instance zero_LoggingServiceSpec : GoZero LoggingServiceSpec := mkLoggingServiceSpec
  zero zero zero zero zero zero zero zero zero zero.
#[export] Instance eta_LoggingServiceSpec : Eta LoggingServiceSpec := λ x, mkLoggingServiceSpec
  (LoggingServiceSpec_Graylog x) (LoggingServiceSpec_Fluentd x) (LoggingServiceSpec_Fluentbit x)
  (LoggingServiceSpec_CloudEventsReader x) (LoggingServiceSpec_MonitoringAgentLoggingPlugin x)
  (LoggingServiceSpec_CloudURL x) (LoggingServiceSpec_OSKind x)
  (LoggingServiceSpec_ContainerRuntimeType x) (LoggingServiceSpec_Ipv6 x)
  (LoggingServiceSpec_OpenshiftDeploy x).

Record LoggingServiceCondition : Type := mkLoggingServiceCondition {
  LoggingServiceCondition_Type : string;
  LoggingServiceCondition_Reason : string;
  LoggingServiceCondition_Message : string;
  LoggingServiceCondition_LastTransitionTime : string;
  LoggingServiceCondition_Status : bool;
}.

#[export] Instance zero_LoggingServiceCondition : GoZero LoggingServiceCondition := mkLoggingServiceCondition
  zero zero zero zero zero.
#[export] Instance eta_LoggingServiceCondition : Eta LoggingServiceCondition := λ x, mkLoggingServiceCondition
  (LoggingServiceCondition_Type x) (LoggingServiceCondition_Reason x)
  (LoggingServiceCondition_Message x) (LoggingServiceCondition_LastTransitionTime x)
  (LoggingServiceCondition_Status x).

Record LoggingServiceStatus : Type := mkLoggingServiceStatus {
  LoggingServiceStatus_Conditions : list LoggingServiceCondition;
}.

#[export] Instance zero_LoggingServiceStatus : GoZero LoggingServiceStatus := mkLoggingServiceStatus
  zero.
#[export] Instance eta_LoggingServiceStatus : Eta LoggingServiceStatus := λ x, mkLoggingServiceStatus
  (LoggingServiceStatus_Conditions x).

Record LoggingService : Type := mkLoggingService {
  LoggingService_ObjectMeta : ObjectMeta;
  LoggingService_Spec : LoggingServiceSpec;
  LoggingService_Status : LoggingServiceStatus;
}.

#[export] Instance zero_LoggingService : GoZero LoggingService := mkLoggingService zero zero zero.
#[export] Instance eta_LoggingService : Eta LoggingService := λ x, mkLoggingService
  (LoggingService_ObjectMeta x) (LoggingService_Spec x) (LoggingService_Status x).

Record LoggingServiceList : Type := mkLoggingServiceList {
  LoggingServiceList_Items : list LoggingService;
}.

#[export] Instance zero_LoggingServiceList : GoZero LoggingServiceList := mkLoggingServiceList
  zero.
#[export] Instance eta_LoggingServiceList : Eta LoggingServiceList := λ x, mkLoggingServiceList
  (LoggingServiceList_Items x).

Record Release : Type := mkRelease {
  Release_Namespace : string;
}.

#[export] Instance zero_Release : GoZero Release := mkRelease zero.
#[export] Instance eta_Release : Eta Release := λ x, mkRelease (Release_Namespace x).

Record LoggingServiceParameters : Type := mkLoggingServiceParameters {
  LoggingServiceParameters_Release : Release;
  LoggingServiceParameters_Values : LoggingServiceSpec;
}.

#[export] Instance zero_LoggingServiceParameters : GoZero LoggingServiceParameters := mkLoggingServiceParameters
  zero zero.
#[export] Instance eta_LoggingServiceParameters : Eta LoggingServiceParameters := λ x, mkLoggingServiceParameters
  (LoggingServiceParameters_Release x) (LoggingServiceParameters_Values x).
#[global] Instance LoggingServiceCondition_eq_dec : EqDecision LoggingServiceCondition.
Proof. solve_decision. Defined.

(** ** Methods *)

(** [FluentbitDB.IsEnabled]. *)
Definition FluentbitDB_IsEnabled (db : FluentbitDB) : bool :=
  match FluentbitDB_Enabled db with None => true | Some b => b end.

(** [FluentbitDB.IsLocking]. *)
Definition FluentbitDB_IsLocking (db : FluentbitDB) : bool :=
  match FluentbitDB_Locking db with None => true | Some b => b end.

Definition FluentbitStorageProfileMemoryOnly : string := "memory-only".
Definition FluentbitStorageProfilePersistentOffsets : string := "persistent-offsets".
Definition FluentbitStorageProfileNodePersistent : string := "node-persistent".
Definition FluentbitDefaultMemoryOnlyStateSizeLimit : string := "32Mi".
Definition FluentbitAggregatorDefaultStorageSizeLimit : string := "2Gi".

Definition EffectiveStorageProfile (fb : Fluentbit) : string :=
  if negb (String.eqb (Fluentbit_StorageProfile fb) "") then Fluentbit_StorageProfile fb
  else FluentbitStorageProfileMemoryOnly.

Definition UsesPersistentOffsets (fb : Fluentbit) : bool :=
  negb (String.eqb (EffectiveStorageProfile fb) FluentbitStorageProfileMemoryOnly).

Definition UsesFilesystemBuffer (fb : Fluentbit) : bool :=
  String.eqb (EffectiveStorageProfile fb) FluentbitStorageProfileNodePersistent.

Definition EffectiveMemoryOnlyStateSizeLimit (fb : Fluentbit) : string :=
  if negb (String.eqb (Fluentbit_MemoryOnlyStateSizeLimit fb) "")
  then Fluentbit_MemoryOnlyStateSizeLimit fb
  else FluentbitDefaultMemoryOnlyStateSizeLimit.

Definition EffectiveStorageSizeLimit (agg : FluentbitAggregator) : string :=
  if negb (String.eqb (FluentbitAggregator_StorageSizeLimit agg) "")
  then FluentbitAggregator_StorageSizeLimit agg
  else FluentbitAggregatorDefaultStorageSizeLimit.

Definition ToParams (cr : LoggingService) : LoggingServiceParameters :=
  mkLoggingServiceParameters
    (mkRelease (ObjectMeta_Namespace (LoggingService_ObjectMeta cr)))
    (LoggingService_Spec cr).

Definition IsForceUpdate (g : Graylog) : bool :=
  String.eqb (Graylog_ContentDeployPolicy g) "force-update".

Definition IsOnlyCreate (g : Graylog) : bool :=
  String.eqb (Graylog_ContentDeployPolicy g) "only-create".

(** The [IsInstall] methods have pointer receivers: a section that is absent
    from the custom resource is not installed. *)
Definition Graylog_IsInstall (g : option Graylog) : bool := bool_decide (is_Some g).

Definition Fluentd_IsInstall (f : option Fluentd) : bool := bool_decide (is_Some f).

Definition Fluentbit_IsInstall (f : option Fluentbit) : bool := bool_decide (is_Some f).

Definition CloudEventsReader_IsInstall (e : option CloudEventsReader) : bool :=
  bool_decide (is_Some e).

Definition MonitoringAgentLoggingPlugin_IsInstall (m : option MonitoringAgentLoggingPlugin) : bool :=
  match m with
  | None => false
  | Some m => MonitoringAgentLoggingPlugin_InfluxDBMode m
  end.

(** The exclusion pattern of one collector, by the container runtime. *)
Definition collector_log_path (namespace runtime name : string) : list string :=
  if bool_decide (runtime = "containerd" ∨ runtime = "cri-o") then
    ["/var/log/pods/" +:+ namespace +:+ "_" +:+ name +:+ "-*_*/" +:+ name +:+ "/*.log"]
  else if bool_decide (runtime = "docker") then
    ["/var/log/containers/" +:+ name +:+ "-*_" +:+ namespace +:+ "_" +:+ name +:+ "-*.log"]
  else [].

(** The collectors whose own logs are excluded. *)
Definition collector_names (fb : Fluentbit) : list string :=
  match Fluentbit_Aggregator fb with
  | Some agg =>
      if FluentbitAggregator_Install agg
      then ["logging-fluentbit-forwarder"; "logging-fluentbit-aggregator"]
      else ["logging-fluentbit"]
  | None => ["logging-fluentbit"]
  end.

Definition ContainerLogExcludePath (fb : Fluentbit) (namespace runtime : string) : string :=
  if Fluentbit_SelfLogging fb then Fluentbit_ExcludePath fb
  else
    let paths :=
      if negb (String.eqb (Fluentbit_ExcludePath fb) "") then [Fluentbit_ExcludePath fb] else [] in
    Join (paths ++ (collector_names fb ≫= collector_log_path namespace runtime)) ",".
