(* ===== verification/Net.v ===== *)
(** * Requests, responses and encodings

    The data of Go's net/http, crypto/tls, net/url, archive/zip and encoding/json, by
    the fields that the operator uses, and the class [Encodings] of the pure functions
    that it calls on them.  What the source does with the decoded values is modelled in
    the components. *)

From S2P Require Import Prelude GoStrings.

(** ** Data *)

(** A [tls.Config], by the fields that the code sets: a pool of PEM certificates and a
    client certificate with its key. *)
Record TLSConf : Type := mkTLSConf {
  TLSConf_InsecureSkipVerify : bool;
  TLSConf_RootCAs : option (list string);
  TLSConf_Certificates : option (string * string);
}.

(** An [http.Client]: the TLS configuration of its transport (nil is the default), its
    timeout (0 is none), and whether its [CheckRedirect] makes the URL of a redirect
    opaque. *)
Record HTTPClient : Type := mkHTTPClient {
  HTTPClient_TLSClientConfig : option TLSConf;
  HTTPClient_Timeout : Z;
  HTTPClient_OpaqueRedirect : bool;
}.

Record HTTPRequest : Type := mkHTTPRequest {
  HTTPRequest_Method : string;
  HTTPRequest_URL : string;
  HTTPRequest_Header : list (string * string);
  HTTPRequest_Body : string;
}.

#[export] Instance eta_HTTPRequest : Eta HTTPRequest := λ x, mkHTTPRequest
  (HTTPRequest_Method x) (HTTPRequest_URL x) (HTTPRequest_Header x) (HTTPRequest_Body x).

(** A response, with what reading its body gives. *)
Record HTTPResponse : Type := mkHTTPResponse {
  HTTPResponse_StatusCode : Z;
  HTTPResponse_Body : error + string;
}.

(** The status codes of net/http that the code names. *)
Definition StatusOK : Z := 200.
Definition StatusCreated : Z := 201.
Definition StatusNoContent : Z := 204.
Definition StatusNotFound : Z := 404.

(** A request with its response, or the error of the exchange. *)
Abbreviation exchange := (HTTPRequest * (error + HTTPResponse))%type.

(** A file of an archive: its name, whether it is a directory, and what opening it and
    reading it give. *)
Record ZipFile : Type := mkZipFile {
  ZipFile_Name : string;
  ZipFile_IsDir : bool;
  ZipFile_Content : error + string;
}.

(** A [url.URL], its user with the password ("" when there is none). *)
Record URL : Type := mkURL {
  URL_Scheme : string;
  URL_Opaque : string;
  URL_User : option (string * string);
  URL_Host : string;
  URL_Path : string;
  URL_RawPath : string;
  URL_OmitHost : bool;
  URL_ForceQuery : bool;
  URL_RawQuery : string;
  URL_Fragment : string;
  URL_RawFragment : string;
}.

#[export] Instance zero_URL : GoZero URL := mkURL zero zero zero zero zero zero zero zero zero zero zero.
#[export] Instance eta_URL : Eta URL := λ x, mkURL (URL_Scheme x) (URL_Opaque x) (URL_User x)
  (URL_Host x) (URL_Path x) (URL_RawPath x) (URL_OmitHost x) (URL_ForceQuery x) (URL_RawQuery x)
  (URL_Fragment x) (URL_RawFragment x).

(** A JSON value: the members of an object in their order, and a number by its text. *)
Inductive JSON : Type :=
| JNull
| JBool (b : bool)
| JNumber (n : string)
| JString (s : string)
| JArray (vs : list JSON)
| JObject (ms : list (string * JSON)).

#[global] Instance JSON_eq_dec : EqDecision JSON.
Proof.
  refine (fix go v1 v2 : Decision (v1 = v2) :=
    let _ : EqDecision JSON := @go in
    match v1, v2 with
    | JNull, JNull => left eq_refl
    | JBool a, JBool b => cast_if (decide (a = b))
    | JNumber a, JNumber b => cast_if (decide (a = b))
    | JString a, JString b => cast_if (decide (a = b))
    | JArray a, JArray b => cast_if (decide (a = b))
    | JObject a, JObject b => cast_if (decide (a = b))
    | _, _ => right _
    end); abstract congruence.
Defined.

(** ** The encodings of the standard library *)

Class Encodings := {
  (** [url.Parse], [String] and [ResolveReference] of net/url, and [url.JoinPath]. *)
  url_Parse : string → error + URL;
  URL_String : URL → string;
  ResolveReference : URL → URL → URL;
  url_JoinPath : string → string → error + string;
  (** encoding/json between a text and its value, and the text of a number once it was
      decoded as a float64, if it is one. *)
  json_Unmarshal : string → error + JSON;
  json_Marshal : JSON → string;
  json_float64 : string → error + string;
  (** [base64.StdEncoding.EncodeToString]. *)
  base64_EncodeToString : string → string;
  (** [AppendCertsFromPEM] and [tls.X509KeyPair]: whether they accept the text. *)
  AppendCertsFromPEM : string → bool;
  X509KeyPair : string → string → option error;
}.
