(* ===== verification/Client.v ===== *)
(** * The cluster, as the operator sees it

    The operator's only access to Kubernetes and to time is a client.  Its
    operations are the class [KubeClient]; what the code relies on about them,
    the documented behaviour of the API server and of k8s.io/apimachinery's
    [wait], is the class [KubeClientLaws], stated on an abstract view of the
    cluster ([objects]) and of time ([now]).  The components are verified
    against the class.  [Mem] is a cluster in memory that satisfies the laws: the
    concrete client of the witnesses. *)

From S2P Require Import Prelude GoStrings KubeTypes Api Net.

(** Nanoseconds: [time.Duration]. *)
Definition Second : Z := 1000000000.
Definition Minute : Z := 60 * Second.

Class KubeClient (W : Type) := {
  (** [client.Get(ctx, key, obj)]. *)
  client_Get : ObjectKey → M W Object;
  (** [client.Create(ctx, obj)]. *)
  client_Create : Object → M W unit;
  (** [client.Update(ctx, obj)]. *)
  client_Update : Object → M W unit;
  (** [client.Delete(ctx, obj)]. *)
  client_Delete : ObjectKey → M W unit;
  (** [client.List] of the pods of a namespace with all of the given labels. *)
  client_ListPods : string → smap → M W (list Pod);
  (** [client.Delete] of a pod. *)
  client_DeletePod : Pod → M W unit;
  client_ListNodes : M W (list Node);
  (** [client.Get] and [client.List] of the custom resources. *)
  client_GetLoggingService : string → string → M W LoggingService;
  client_ListLoggingServices : string → M W (list LoggingService);
  (** [client.Status().Patch(ctx, resource, {"status": resource.status})]; the
      result is the resource with the server's answer decoded into it. *)
  client_PatchStatus : LoggingService → M W LoggingService;
  (** [controllerutil.SetControllerReference(cr, obj, scheme)]: the owner
      references it gives [obj]. *)
  SetControllerReference : LoggingService → Object → error + list string;
  (** [time.Now()], [meta.Now().String()] and [time.Sleep]. *)
  time_Now : W → Z;
  meta_Now_String : W → string;
  time_Sleep : Z → W → W;
  (** [wait.PollUntilContextTimeout(ctx, interval, timeout, true, condition)];
      [B] is the type of the variables the condition shares with its caller. *)
  PollUntilContextTimeout : ∀ B, Z → Z → M (W * B) bool → M (W * B) unit;
}.

(** What a poll may do: evaluate the condition at least once, and stop at the
    first [true], at the first error, or, after a [false], when the time is
    over.  Between two evaluations only the world changes. *)
Inductive poll_run {W B : Type} (cond : M (W * B) bool) : W * B → W * B → outcome unit → Prop :=
| poll_done s s' : cond s = (s', Ret true) → poll_run cond s s' (Ret tt)
| poll_error s s' e : cond s = (s', Fail e) → poll_run cond s s' (Fail e)
| poll_panic s s' : cond s = (s', Panic) → poll_run cond s s' Panic
| poll_timeout s w' b w'' e :
    cond s = ((w', b), Ret false) → wait_Interrupted e = true →
    poll_run cond s (w'', b) (Fail e)
| poll_again s w' b w'' s3 r :
    cond s = ((w', b), Ret false) → poll_run cond (w'', b) s3 r → poll_run cond s s3 r.

(** The server fills in the number of replicas. *)
Definition replicas_set (o : Object) : Prop :=
  match o with
  | ODeployment d => Deployment_Replicas d ≠ None
  | OStatefulSet d => StatefulSet_Replicas d ≠ None
  | _ => True
  end.

#[global] Instance replicas_set_dec o : Decision (replicas_set o).
Proof. destruct o; apply _. Defined.

(** The server stores an object as [stored] says: it sets the version and may
    default what the request leaves open, but it keeps the key, the labels and
    the owner, and the data of a Secret or of a ConfigMap. *)
Class KubeClientLaws (W : Type) `{KubeClient W} := {
  objects : W → gmap ObjectKey Object;
  stored : W → Object → Object;

  stored_key w o : object_key (stored w o) = object_key o;
  stored_labels w o : ObjectMeta_Labels (object_meta (stored w o)) = ObjectMeta_Labels (object_meta o);
  stored_owner w o :
    ObjectMeta_OwnerReferences (object_meta (stored w o)) = ObjectMeta_OwnerReferences (object_meta o);
  (** The data as they were sent.  (A real server gives an empty map back as a nil one; the
      operator sends no empty map: its configuration has a file, and the Secret of Graylog
      has the hash.) *)
  stored_secret w (s : Secret) :
    ∃ s', stored w (OSecret s) = OSecret s' ∧ Secret_Data s' = Secret_Data s;
  stored_configmap w (c : ConfigMap) :
    ∃ c', stored w (OConfigMap c) = OConfigMap c' ∧ ConfigMap_Data c' = ConfigMap_Data c ∧
      ConfigMap_BinaryData c' = ConfigMap_BinaryData c;

  (** Every kind the operator handles is namespaced. *)
  objects_keyed w k o : objects w !! k = Some o → object_key o = k ∧ ObjectKey_Namespace k ≠ "";
  objects_replicas w k o : objects w !! k = Some o → replicas_set o;

  client_Get_spec k w :
    wp (client_Get k)
      (λ o w', objects w' = objects w ∧ (time_Now w ≤ time_Now w')%Z ∧ objects w !! k = Some o)
      (λ e w', objects w' = objects w ∧ (time_Now w ≤ time_Now w')%Z ∧
        (IsNotFound e = true → objects w !! k = None)) w;
  client_Create_spec o w :
    wp (client_Create o)
      (λ _ w', objects w !! object_key o = None ∧
        objects w' = <[object_key o := stored w o]> (objects w) ∧ (time_Now w ≤ time_Now w')%Z)
      (λ e w', objects w' = objects w ∧ (time_Now w ≤ time_Now w')%Z ∧
        (IsAlreadyExists e = true → is_Some (objects w !! object_key o))) w;
  client_Update_spec o w :
    wp (client_Update o)
      (λ _ w', is_Some (objects w !! object_key o) ∧
        objects w' = <[object_key o := stored w o]> (objects w) ∧ (time_Now w ≤ time_Now w')%Z)
      (λ e w', objects w' = objects w ∧ (time_Now w ≤ time_Now w')%Z) w;
  client_Delete_spec k w :
    wp (client_Delete k)
      (λ _ w', is_Some (objects w !! k) ∧ objects w' = delete k (objects w) ∧
        (time_Now w ≤ time_Now w')%Z)
      (λ e w', objects w' = objects w ∧ (time_Now w ≤ time_Now w')%Z) w;
  client_ListPods_spec ns sel w :
    wp (client_ListPods ns sel)
      (λ _ w', objects w' = objects w ∧ (time_Now w ≤ time_Now w')%Z)
      (λ _ w', objects w' = objects w ∧ (time_Now w ≤ time_Now w')%Z) w;
  client_DeletePod_spec p w :
    wp (client_DeletePod p)
      (λ _ w', objects w' = objects w ∧ (time_Now w ≤ time_Now w')%Z)
      (λ _ w', objects w' = objects w ∧ (time_Now w ≤ time_Now w')%Z) w;
  client_ListNodes_spec w :
    wp client_ListNodes
      (λ _ w', objects w' = objects w ∧ (time_Now w ≤ time_Now w')%Z)
      (λ _ w', objects w' = objects w ∧ (time_Now w ≤ time_Now w')%Z) w;
  client_PatchStatus_spec cr w :
    wp (client_PatchStatus cr)
      (λ cr' w', objects w' = objects w ∧ (time_Now w ≤ time_Now w')%Z ∧
        LoggingService_Status cr' = LoggingService_Status cr ∧
        ObjectMeta_Name (LoggingService_ObjectMeta cr')
          = ObjectMeta_Name (LoggingService_ObjectMeta cr) ∧
        ObjectMeta_Namespace (LoggingService_ObjectMeta cr')
          = ObjectMeta_Namespace (LoggingService_ObjectMeta cr))
      (λ _ w', objects w' = objects w ∧ (time_Now w ≤ time_Now w')%Z) w;
  time_Sleep_spec d w : (0 ≤ d)%Z → (time_Now w + d ≤ time_Now (time_Sleep d w))%Z;
  PollUntilContextTimeout_spec B interval timeout (cond : M (W * B) bool) s s' r :
    PollUntilContextTimeout B interval timeout cond s = (s', r) → poll_run cond s s' r;
}.

(** No edit of the custom resource's spec reaches the operator while it
    reconciles: the server answers a status patch with the spec it was sent. *)
Class SpecStable (W : Type) `{KubeClient W} : Prop :=
  patch_spec_stable cr w w' cr' :
    client_PatchStatus cr w = (w', Ret cr') → LoggingService_Spec cr' = LoggingService_Spec cr.

(** ** A cluster in memory

    Calls on the keys of [Mem_broken] fail, status patches fail when
    [Mem_patch_fails], and an object of [Mem_arrivals] is stored once its time
    has come: what other controllers do while the operator sleeps.  An update that names no
    version is made whatever the stored one is.  The last five fields
    are the files, the servers that answer requests, and what was observed of both. *)

Record Mem : Type := mkMem {
  Mem_objects : gmap ObjectKey Object;
  Mem_now : Z;
  Mem_version : Z;
  Mem_broken : list ObjectKey;
  Mem_patch_fails : bool;
  Mem_arrivals : list (Z * Object);
  Mem_pods : list Pod;
  Mem_nodes : list Node;
  Mem_services : list LoggingService;
  Mem_files : smap;
  Mem_archives : string → option (list ZipFile);
  Mem_reply : HTTPRequest → error + HTTPResponse;
  Mem_exchanged : list exchange;
  Mem_written : list string;
}.

#[export] Instance zero_Mem : GoZero Mem := mkMem ∅ zero zero zero zero zero zero zero zero ∅
  (λ _, None) (λ _, inl (errors_New "connection refused")) zero zero.
#[export] Instance eta_Mem : Eta Mem := λ x, mkMem (Mem_objects x) (Mem_now x) (Mem_version x)
  (Mem_broken x) (Mem_patch_fails x) (Mem_arrivals x) (Mem_pods x) (Mem_nodes x) (Mem_services x)
  (Mem_files x) (Mem_archives x) (Mem_reply x) (Mem_exchanged x) (Mem_written x).

(** The objects stored under their own key, in a namespace, as the server
    completes them. *)
Definition mem_view (w : Mem) : gmap ObjectKey Object :=
  filter (λ p, object_key p.2 = p.1 ∧ ObjectKey_Namespace p.1 ≠ "" ∧ replicas_set p.2)
    (Mem_objects w).

Definition mem_stored (w : Mem) (o : Object) : Object :=
  let o := set_object_meta (SetResourceVersion (Itoa (Mem_version w)) (object_meta o)) o in
  match o with
  | OService s =>
      if String.eqb (Service_ClusterIP s) "" then OService (s <| Service_ClusterIP := "10.0.0.1" |>)
      else o
  | ODeployment d =>
      if decide (Deployment_Replicas d = None) then ODeployment (d <| Deployment_Replicas := Some 1%Z |>)
      else o
  | OStatefulSet d =>
      if decide (StatefulSet_Replicas d = None)
      then OStatefulSet (d <| StatefulSet_Replicas := Some 1%Z |>) else o
  | _ => o
  end.

Definition mem_store (o : Object) (w : Mem) : Mem :=
  w <| Mem_objects ::= <[object_key o := o]> |> <| Mem_version ::= Z.succ |>.

Definition mem_guard {A} (k : ObjectKey) (m : M Mem A) : M Mem A := λ w,
  if bool_decide (k ∈ Mem_broken w ∨ ObjectKey_Namespace k = "") then (w, Fail (errors_New "connection refused")) else m w.

Definition mem_Get (k : ObjectKey) : M Mem Object := mem_guard k (λ w,
  match mem_view w !! k with
  | Some o => (w, Ret o)
  | None => (w, Fail (mkError NotFound "not found"))
  end).

Definition mem_Create (o : Object) : M Mem unit := mem_guard (object_key o) (λ w,
  match mem_view w !! object_key o with
  | Some _ => (w, Fail (mkError AlreadyExists "already exists"))
  | None => (mem_store (mem_stored w o) w, Ret tt)
  end).

Definition mem_Update (o : Object) : M Mem unit := mem_guard (object_key o) (λ w,
  match mem_view w !! object_key o with
  | None => (w, Fail (mkError NotFound "not found"))
  | Some old =>
      if bool_decide (ObjectMeta_ResourceVersion (object_meta o) = "" ∨
                      ObjectMeta_ResourceVersion (object_meta o) = ObjectMeta_ResourceVersion (object_meta old))
      then (mem_store (mem_stored w o) w, Ret tt)
      else (w, Fail (mkError Conflict "the object has been modified"))
  end).

Definition mem_Delete (k : ObjectKey) : M Mem unit := mem_guard k (λ w,
  match mem_view w !! k with
  | None => (w, Fail (mkError NotFound "not found"))
  | Some _ => (w <| Mem_objects ::= delete k |>, Ret tt)
  end).

Definition mem_ListPods (ns : string) (sel : smap) : M Mem (list Pod) := gets (λ w,
  filter (λ p, ObjectMeta_Namespace (Pod_ObjectMeta p) = ns ∧
               sel ⊆ contents (ObjectMeta_Labels (Pod_ObjectMeta p))) (Mem_pods w)).

Definition mem_DeletePod (p : Pod) : M Mem unit := modify (λ w,
  w <| Mem_pods ::= filter (λ q,
    ObjectMeta_Name (Pod_ObjectMeta q) ≠ ObjectMeta_Name (Pod_ObjectMeta p)) |>).

Definition mem_ListNodes : M Mem (list Node) := gets Mem_nodes.

Definition mem_GetLoggingService (ns name : string) : M Mem LoggingService := λ w,
  match list_find (λ cr, ObjectMeta_Namespace (LoggingService_ObjectMeta cr) = ns ∧
                         ObjectMeta_Name (LoggingService_ObjectMeta cr) = name) (Mem_services w) with
  | Some (_, cr) => (w, Ret cr)
  | None => (w, Fail (mkError NotFound "not found"))
  end.

Definition mem_ListLoggingServices (ns : string) : M Mem (list LoggingService) := gets (λ w,
  filter (λ cr, ObjectMeta_Namespace (LoggingService_ObjectMeta cr) = ns) (Mem_services w)).

Definition mem_PatchStatus (cr : LoggingService) : M Mem LoggingService := λ w,
  if Mem_patch_fails w then (w, Fail (errors_New "connection refused")) else (w, Ret cr).

Definition mem_SetControllerReference (cr : LoggingService) (o : Object) : error + list string :=
  if bool_decide (ObjectMeta_Namespace (object_meta o)
                  = ObjectMeta_Namespace (LoggingService_ObjectMeta cr))
  then inr [ObjectMeta_Name (LoggingService_ObjectMeta cr)]
  else inl (errors_New "cross-namespace owner references are disallowed").

(** The arrivals up to the given time. *)
Definition mem_arrive (w : Mem) : Mem :=
  foldl (λ w' a, if (a.1 <=? Mem_now w')%Z then mem_store a.2 w' else w') w (Mem_arrivals w).

Definition mem_Sleep (d : Z) (w : Mem) : Mem := mem_arrive (w <| Mem_now ::= Z.add (Z.max 0 d) |>).

Fixpoint mem_poll {B} (fuel : nat) (interval : Z) (cond : M (Mem * B) bool) (s : Mem * B) :
    (Mem * B) * outcome unit :=
  match cond s with
  | (s', Ret true) => (s', Ret tt)
  | (s', Fail e) => (s', Fail e)
  | (s', Panic) => (s', Panic)
  | ((w, b), Ret false) =>
      match fuel with
      | O => ((w, b), Fail (mkError Interrupted "context deadline exceeded"))
      | S fuel => mem_poll fuel interval cond (mem_Sleep interval w, b)
      end
  end.

#[export] Instance KubeClient_Mem : KubeClient Mem := {|
  client_Get := mem_Get;
  client_Create := mem_Create;
  client_Update := mem_Update;
  client_Delete := mem_Delete;
  client_ListPods := mem_ListPods;
  client_DeletePod := mem_DeletePod;
  client_ListNodes := mem_ListNodes;
  client_GetLoggingService := mem_GetLoggingService;
  client_ListLoggingServices := mem_ListLoggingServices;
  client_PatchStatus := mem_PatchStatus;
  SetControllerReference := mem_SetControllerReference;
  time_Now := Mem_now;
  meta_Now_String w := Itoa (Mem_now w);
  time_Sleep := mem_Sleep;
  PollUntilContextTimeout B interval timeout cond :=
    mem_poll (Z.to_nat (timeout / interval)) interval cond;
|}.

Lemma object_key_set_meta m o :
  ObjectMeta_Name m = ObjectMeta_Name (object_meta o) →
  ObjectMeta_Namespace m = ObjectMeta_Namespace (object_meta o) →
  object_key (set_object_meta m o) = object_key o.
Proof.
  intros Hn Hns. unfold object_key. by rewrite object_meta_set, object_kind_set, Hn, Hns.
Qed.

Lemma mem_stored_key w o : object_key (mem_stored w o) = object_key o.
Proof. destruct o; cbn; by repeat case_match. Qed.

Lemma mem_stored_replicas w o : replicas_set (mem_stored w o).
Proof. destruct o; cbn; by repeat case_match. Qed.

Lemma mem_view_store w o :
  ObjectKey_Namespace (object_key o) ≠ "" → replicas_set o →
  mem_view (mem_store o w) = <[object_key o := o]> (mem_view w).
Proof. intros Hns Hr. unfold mem_view. cbn. by rewrite map_filter_insert_True. Qed.

Lemma mem_view_delete w k : mem_view (w <| Mem_objects ::= delete k |>) = delete k (mem_view w).
Proof. unfold mem_view. cbn. by rewrite map_filter_delete. Qed.

Lemma mem_view_keyed w k o :
  mem_view w !! k = Some o → object_key o = k ∧ ObjectKey_Namespace k ≠ "" ∧ replicas_set o.
Proof. unfold mem_view. intros Hk. by apply map_lookup_filter_Some in Hk as [_ ?]. Qed.

Lemma mem_store_now o w : Mem_now (mem_store o w) = Mem_now w.
Proof. done. Qed.

Lemma mem_arrive_now w : Mem_now (mem_arrive w) = Mem_now w.
Proof.
  unfold mem_arrive. generalize (Mem_arrivals w). intros l. revert w.
  induction l as [|a l IH]; intros w; [done|]. cbn [foldl]. rewrite IH. by case_match.
Qed.

Lemma mem_poll_run {B} fuel interval (cond : M (Mem * B) bool) s s' r :
  mem_poll fuel interval cond s = (s', r) → poll_run cond s s' r.
Proof.
  revert s. induction fuel as [|fuel IH]; intros s; cbn [mem_poll];
    destruct (cond s) as [[w b] [[|]|e|]] eqn:Hc; intros Hr; simplify_eq;
    try by econstructor.
  eapply poll_again; [done|]. by apply IH.
Qed.

(** Unfold a call of the in-memory client and go through its branches. *)
Ltac mem_call :=
  unfold wp; cbn; unfold mem_Get, mem_Create, mem_Update, mem_Delete, mem_PatchStatus, mem_guard;
  repeat case_match; simplify_eq;
  repeat match goal with
  | Hg : bool_decide (_ ∨ _) = false |- _ => apply bool_decide_eq_false in Hg
  end;
  rewrite ?mem_view_delete, ?mem_view_store, ?mem_stored_key by (rewrite ?mem_stored_key; first [apply mem_stored_replicas|tauto]);
  try naive_solver (done || lia).

#[export] Program Instance KubeClientLaws_Mem : KubeClientLaws Mem := {|
  objects := mem_view;
  stored := mem_stored;
|}.
Next Obligation. apply mem_stored_key. Qed.
Next Obligation. intros w []; cbn; by repeat case_match. Qed.
Next Obligation. intros w []; cbn; by repeat case_match. Qed.
Next Obligation. intros w s. by eexists. Qed.
Next Obligation. intros w c. by eexists. Qed.
Next Obligation. intros w k o Hk. by apply mem_view_keyed in Hk as (? & ? & _). Qed.
Next Obligation. intros w k o Hk. by apply mem_view_keyed in Hk as (_ & _ & ?). Qed.
Next Obligation. intros k w. mem_call. Qed.
Next Obligation. intros o w. mem_call. Qed.
Next Obligation. intros o w. mem_call. Qed.
Next Obligation. intros k w. mem_call. Qed.
Next Obligation. intros ns sel w. mem_call. Qed.
Next Obligation. intros p w. mem_call. Qed.
Next Obligation. intros w. mem_call. Qed.
Next Obligation. intros cr w. mem_call. Qed.
Next Obligation.
  intros d w Hd.
  change (Mem_now w + d ≤ Mem_now (mem_arrive (w <| Mem_now ::= Z.add (Z.max 0 d) |>)))%Z.
  rewrite mem_arrive_now. cbn. lia.
Qed.
Next Obligation. intros B interval timeout cond s s' r. apply mem_poll_run. Qed.

#[export] Instance SpecStable_Mem : SpecStable Mem.
Proof. intros cr w w' cr'. cbn. unfold mem_PatchStatus. by case_match; intros [=]; subst. Qed.
