(* ===== verification/System.v ===== *)
(** * The process's environment: files and HTTP

    The effects that the operator has through Go's os, archive/zip, net and net/http
    packages are the class [System]; [SystemLaws] says what the code relies on about them
    with two observations of the world: what was [exchanged] with servers and the paths
    that were [written].

    [extends P] and [wrote P] are the relations that the components' theorems use: the
    world grew by exchanges, or by paths, that all satisfy [P]. *)

From S2P Require Import Prelude GoStrings Filepath KubeTypes Api Net Client.

(** ** The effects *)

Class System (W : Type) := {
  (** [os.TempDir()], when the process started. *)
  dataDir : string;
  (** [os.ReadFile], [os.ReadDir] (the names), [os.Stat], [os.Remove]. *)
  os_ReadFile : string → M W string;
  os_ReadDir : string → M W (list string);
  os_Stat : string → M W unit;
  os_Remove : string → M W unit;
  (** [os.Create], or [os.OpenFile] to write; [os.MkdirAll]; and [io.Copy] of a content
      into an opened file. *)
  os_Create : string → M W unit;
  os_MkdirAll : string → M W unit;
  io_Copy : string → string → M W unit;
  (** [zip.OpenReader]: the files of the archive. *)
  zip_OpenReader : string → M W (list ZipFile);
  (** [client.Do(request)]. *)
  http_Do : HTTPClient → HTTPRequest → M W HTTPResponse;
  (** [net.DialTimeout("tcp", address, timeout)], closed at once. *)
  net_DialTimeout : string → Z → M W unit;
  (** The order in which [range] goes through a map: any, and not always the same. *)
  range_map : gomap → M W (list (string * string));
}.

(** Two observations of the world: everything the process has exchanged, and the paths it
    has created. *)
Class Observed (W : Type) := {
  exchanged : W → list exchange;
  written : W → list string;
}.

Section observed.
Context {W : Type} `{Observed W}.
Implicit Types (w : W).

Record undisturbed w w' : Prop := mkUndisturbed {
  undisturbed_exchanged : exchanged w' = exchanged w;
  undisturbed_written : written w' = written w;
}.

#[export] Instance undisturbed_preorder : PreOrder undisturbed.
Proof. split; [done|]. intros w1 w2 w3 [??] [??]. split; congruence. Qed.

(** The same of a poll, whose state has the variables of the condition. *)
Definition poll_undisturbed (B : Type) : relation (W * B) := λ s s', undisturbed s.1 s'.1.

#[export] Instance poll_undisturbed_preorder B : PreOrder (poll_undisturbed B).
Proof.
  split; [intros s; by unfold poll_undisturbed|]. intros s1 s2 s3 H1 H2.
  exact (transitivity (R:=undisturbed) H1 H2).
Qed.

(** What was exchanged, and what was written, since [w]. *)
Definition extends (P : exchange → Prop) w w' : Prop :=
  ∃ xs, exchanged w' = exchanged w ++ xs ∧ Forall P xs.

Definition wrote (P : string → Prop) w w' : Prop :=
  ∃ ps, written w' = written w ++ ps ∧ Forall P ps.

#[export] Instance extends_preorder P : PreOrder (extends P).
Proof.
  split; [intros w; exists []; by rewrite app_nil_r|].
  intros w1 w2 w3 (xs & Hx & HP) (ys & Hy & HP'). exists (xs ++ ys).
  by rewrite Hy, Hx, app_assoc, Forall_app.
Qed.

#[export] Instance wrote_preorder P : PreOrder (wrote P).
Proof.
  split; [intros w; exists []; by rewrite app_nil_r|].
  intros w1 w2 w3 (xs & Hx & HP) (ys & Hy & HP'). exists (xs ++ ys).
  by rewrite Hy, Hx, app_assoc, Forall_app.
Qed.

(** What was exchanged since [w] is a sequence of groups that all satisfy [P]; and the same
    when the last group may also be one of [Q]. *)
Definition grows_by (P : list exchange → Prop) w w' : Prop :=
  ∃ xss, exchanged w' = exchanged w ++ concat xss ∧ Forall P xss.

Definition breaks_off (P Q : list exchange → Prop) w w' : Prop :=
  ∃ xss ys, exchanged w' = exchanged w ++ concat xss ++ ys ∧ Forall P xss ∧ (ys = [] ∨ Q ys).

(** A group of one exchange. *)
Definition single (P : exchange → Prop) (xs : list exchange) : Prop := ∃ x, xs = [x] ∧ P x.

#[export] Instance grows_by_preorder P : PreOrder (grows_by P).
Proof.
  split; [intros w; exists []; by rewrite app_nil_r|].
  intros w1 w2 w3 (xs & Hx & HP) (ys & Hy & HP'). exists (xs ++ ys).
  by rewrite Hy, Hx, concat_app, app_assoc, Forall_app.
Qed.

#[export] Instance breaks_off_outcome P Q : OutcomeRelations (grows_by P) (breaks_off P Q).
Proof.
  split; [apply _|..].
  - intros w w' (xss & Hx & HP). exists xss, []. rewrite app_nil_r. auto.
  - intros w1 w2 w3 (xss & Hx & HP) (yss & ys & Hy & HP' & HQ). exists (xss ++ yss), ys.
    by rewrite Hy, Hx, concat_app, <- !app_assoc, Forall_app.
Qed.

Lemma grows_by_group (P : list exchange → Prop) w w' xs : exchanged w' = exchanged w ++ xs → P xs → grows_by P w w'.
Proof. intros Hx HP. exists [xs]. cbn. by rewrite app_nil_r, Forall_singleton. Qed.

Lemma breaks_off_group (P Q : list exchange → Prop) w w' xs :
  exchanged w' = exchanged w ++ xs → Q xs → breaks_off P Q w w'.
Proof. intros Hx HQ. exists [], xs. auto. Qed.

Lemma grows_by_mono (P Q : list exchange → Prop) w w' : (∀ xs, P xs → Q xs) → grows_by P w w' → grows_by Q w w'.
Proof. intros HPQ (xss & Hx & HP). exists xss. split; [done|]. by eapply Forall_impl. Qed.

Lemma breaks_off_mono (P Q P' Q' : list exchange → Prop) w w' :
  (∀ xs, P xs → P' xs) → (∀ xs, Q xs → Q' xs) → breaks_off P Q w w' → breaks_off P' Q' w w'.
Proof.
  intros HP HQ (xss & ys & Hx & HPs & Hys). exists xss, ys. split; [done|].
  split; [by eapply Forall_impl|]. destruct Hys; auto.
Qed.

Lemma grows_by_none P w w' : exchanged w' = exchanged w → grows_by P w w'.
Proof. intros Hx. exists []. by rewrite app_nil_r. Qed.

Lemma undisturbed_grows_by P w w' : undisturbed w w' → grows_by P w w'.
Proof. intros [Hx _]. by apply grows_by_none. Qed.

(** Of single groups, the exchanges one by one. *)
Lemma grows_by_extends (P : list exchange → Prop) (Q : exchange → Prop) w w' :
  (∀ xs, P xs → Forall Q xs) → grows_by P w w' → extends Q w w'.
Proof.
  intros HPQ (xss & Hx & HP). exists (concat xss). split; [done|]. clear Hx.
  induction HP as [|xs xss HP _ IH]; cbn; [done|]. apply Forall_app. auto.
Qed.

Lemma breaks_off_extends (P Q : list exchange → Prop) (R : exchange → Prop) w w' :
  (∀ xs, P xs → Forall R xs) → (∀ xs, Q xs → Forall R xs) → breaks_off P Q w w' → extends R w w'.
Proof.
  intros HP HQ (xss & ys & Hx & HPs & Hys). exists (concat xss ++ ys). split; [done|]. apply Forall_app. split.
  - clear Hx. induction HPs as [|xs xss HPxs _ IH]; cbn; [done|]. apply Forall_app. auto.
  - destruct Hys as [->|Hys]; auto.
Qed.

Lemma extends_mono (P Q : exchange → Prop) w w' :
  (∀ x, P x → Q x) → extends P w w' → extends Q w w'.
Proof. intros HPQ (xs & Hx & HP). exists xs. split; [done|]. by eapply Forall_impl. Qed.

Lemma undisturbed_extends P w w' : undisturbed w w' → extends P w w'.
Proof. intros [Hx _]. exists []. by rewrite app_nil_r. Qed.

Lemma undisturbed_wrote P w w' : undisturbed w w' → wrote P w w'.
Proof. intros [_ Hw]. exists []. by rewrite app_nil_r. Qed.

(** All exchanges satisfy [Q], and when the computation returns also [P]. *)
#[export] Instance extends_outcome P Q : OutcomeRelations (extends (λ x, P x ∧ Q x)) (extends Q).
Proof.
  assert (Hsub : ∀ w w', extends (λ x, P x ∧ Q x) w w' → extends Q w w').
  { intros w w'. apply extends_mono. naive_solver. }
  split; [apply _|done|]. intros w1 w2 w3 H1%Hsub H2. exact (transitivity H1 H2).
Qed.
End observed.

(** What [os.MkdirAll(p)] may create. *)
Definition makes (p q : string) : Prop := q = p ∨ above q p.

Class SystemLaws (W : Type) `{System W, KubeClient W, Observed W} : Prop := {
  os_ReadFile_quiet p : runs undisturbed undisturbed (os_ReadFile p);
  os_ReadDir_quiet p : runs undisturbed undisturbed (os_ReadDir p);
  os_Stat_quiet p : runs undisturbed undisturbed (os_Stat p);
  os_Remove_quiet p : runs undisturbed undisturbed (os_Remove p);
  io_Copy_quiet p content : runs undisturbed undisturbed (io_Copy p content);
  zip_OpenReader_quiet p : runs undisturbed undisturbed (zip_OpenReader p);
  net_DialTimeout_quiet a timeout : runs undisturbed undisturbed (net_DialTimeout a timeout);
  (** The client of the cluster has a connection of its own, and a poll does what its
      condition does. *)
  client_Get_quiet k : runs undisturbed undisturbed (client_Get k);
  client_Create_quiet o : runs undisturbed undisturbed (client_Create o);
  client_Update_quiet o : runs undisturbed undisturbed (client_Update o);
  client_Delete_quiet k : runs undisturbed undisturbed (client_Delete k);
  client_ListPods_quiet ns sel : runs undisturbed undisturbed (client_ListPods ns sel);
  client_DeletePod_quiet p : runs undisturbed undisturbed (client_DeletePod p);
  client_PatchStatus_quiet cr : runs undisturbed undisturbed (client_PatchStatus cr);
  time_Sleep_quiet d w : undisturbed w (time_Sleep d w);
  Poll_quiet B interval timeout cond :
    steps (poll_undisturbed B) cond →
    steps (poll_undisturbed B) (PollUntilContextTimeout B interval timeout cond);
  os_Create_spec p w :
    wp (os_Create p) (λ _ w', exchanged w' = exchanged w ∧ written w' = written w ++ [p])
      (λ _ w', undisturbed w w') w;
  (** The directory and the directories it is in, as far as they are missing; one that
      cannot be created may have got some of its parents. *)
  os_MkdirAll_spec p w :
    wp (os_MkdirAll p) (λ _ w', exchanged w' = exchanged w ∧ wrote (makes p) w w')
      (λ _ w', exchanged w' = exchanged w ∧ wrote (makes p) w w') w;
  (** The request with the response that the client gives in the end. *)
  http_Do_spec c r w :
    wp (http_Do c r)
      (λ resp w', exchanged w' = exchanged w ++ [(r, inr resp)] ∧ written w' = written w)
      (λ e w', exchanged w' = exchanged w ++ [(r, inl e)] ∧ written w' = written w) w;
  range_map_spec m w :
    wp (range_map m) (λ kvs w', undisturbed w w' ∧ kvs ≡ₚ map_to_list (contents m)) (λ _ _, False) w;
}.

(** The body of a response can be read to its end. *)
Class BodiesRead (W : Type) `{System W} : Prop :=
  body_read c r w : wp (http_Do c r) (λ resp _, ∃ b, HTTPResponse_Body resp = inr b) (λ _ _, True) w.

(** ** The calls that the relations see nothing of *)

Section laws.
Context {W : Type} `{SystemLaws W}.

Lemma runs_range_map m : runs undisturbed undisturbed (range_map m).
Proof. intros w. eapply wp_mono; [apply range_map_spec|by intros kvs w' []|done]. Qed.

(** A call that disturbs nothing satisfies every pair of relations on exchanges, and on
    written paths. *)
Lemma quiet_extends P Q {A} (m : M W A) :
  runs undisturbed undisturbed m → runs (extends P) (extends Q) m.
Proof. apply runs_mono; intros w w'; apply undisturbed_extends. Qed.

Lemma quiet_grows P Q {A} (m : M W A) :
  runs undisturbed undisturbed m → runs (grows_by P) (breaks_off P Q) m.
Proof.
  apply runs_mono; intros w w' Hu; [by apply undisturbed_grows_by|].
  by apply outcome_sub, undisturbed_grows_by.
Qed.

Lemma quiet_grows_same P {A} (m : M W A) :
  runs undisturbed undisturbed m → runs (grows_by P) (grows_by P) m.
Proof. apply runs_mono; intros w w'; apply undisturbed_grows_by. Qed.

Lemma quiet_wrote P Q {A} (m : M W A) :
  runs undisturbed undisturbed m → runs (wrote P) (wrote Q) m.
Proof. apply runs_mono; intros w w'; apply undisturbed_wrote. Qed.

Lemma os_Create_extends P Q p : runs (extends P) (extends Q) (os_Create p).
Proof.
  intros w. eapply wp_mono; [apply os_Create_spec| |].
  - intros _ w' [Hx _]. exists []. by rewrite app_nil_r.
  - intros e w' Hu. by apply undisturbed_extends.
Qed.

Lemma os_MkdirAll_extends P Q p : runs (extends P) (extends Q) (os_MkdirAll p).
Proof.
  intros w. eapply wp_mono; [apply os_MkdirAll_spec| |];
    intros ? w' [Hx _]; exists []; by rewrite app_nil_r.
Qed.

Lemma os_Create_grows P Q p : runs (grows_by P) (breaks_off P Q) (os_Create p).
Proof.
  intros w. eapply wp_mono; [apply os_Create_spec| |].
  - intros _ w' [Hx _]. by apply grows_by_none.
  - intros e w' Hu. by apply outcome_sub, undisturbed_grows_by.
Qed.

Lemma os_MkdirAll_grows P Q p : runs (grows_by P) (breaks_off P Q) (os_MkdirAll p).
Proof.
  intros w. eapply wp_mono; [apply os_MkdirAll_spec| |]; intros ? w' [Hx _];
    [|apply outcome_sub]; by apply grows_by_none.
Qed.

Lemma http_Do_wrote P Q c r : runs (wrote P) (wrote Q) (http_Do c r).
Proof.
  intros w. eapply wp_mono; [apply http_Do_spec| |];
    intros ? w' [_ Hx]; exists []; by rewrite app_nil_r.
Qed.

Lemma os_Create_wrote (P : string → Prop) p : P p → runs (wrote P) (wrote P) (os_Create p).
Proof.
  intros HP w. eapply wp_mono; [apply os_Create_spec| |].
  - intros _ w' [_ Hx]. exists [p]. by rewrite Forall_singleton.
  - intros e w' Hu. by apply undisturbed_wrote.
Qed.

Lemma os_MkdirAll_wrote (P : string → Prop) p :
  (∀ q, makes p q → P q) → runs (wrote P) (wrote P) (os_MkdirAll p).
Proof.
  intros HP w. eapply wp_mono; [apply os_MkdirAll_spec| |];
    intros ? w' [_ (ps & Hps & Hf)]; exists ps; (split; [done|by eapply Forall_impl]).
Qed.
End laws.

#[export] Hint Resolve os_ReadFile_quiet os_ReadDir_quiet os_Stat_quiet os_Remove_quiet io_Copy_quiet
  zip_OpenReader_quiet net_DialTimeout_quiet client_Get_quiet client_Create_quiet client_Update_quiet
  client_Delete_quiet client_ListPods_quiet client_DeletePod_quiet client_PatchStatus_quiet
  runs_range_map : runs.
#[export] Hint Resolve quiet_extends quiet_grows quiet_grows_same quiet_wrote os_Create_extends os_MkdirAll_extends
  os_Create_grows os_MkdirAll_grows
  http_Do_wrote os_Create_wrote os_MkdirAll_wrote : runs.

(** ** The world in memory *)

Definition mem_names (dir : string) (w : Mem) : list string :=
  omap (λ p : string * string, if HasPrefix p.1 (dir +:+ "/") then Some (slice_from (S (len dir)) p.1) else None)
    (map_to_list (Mem_files w)).

Definition mem_missing {A} (w : Mem) : Mem * outcome A :=
  (w, Fail (mkError NotExist "no such file or directory")).

Definition mem_ReadFile (p : string) : M Mem string := λ w,
  match Mem_files w !! p with Some content => (w, Ret content) | None => mem_missing w end.

Definition mem_ReadDir (p : string) : M Mem (list string) := λ w,
  match mem_names p w with [] => mem_missing w | names => (w, Ret names) end.

Definition mem_Stat (p : string) : M Mem unit := λ w,
  if bool_decide (is_Some (Mem_files w !! p) ∨ mem_names p w ≠ []) then (w, Ret tt) else mem_missing w.

Definition mem_Remove (p : string) : M Mem unit := modify (λ w, w <| Mem_files ::= delete p |>).

Definition mem_os_Create (p : string) : M Mem unit := modify (λ w,
  w <| Mem_files ::= <[p := ""]> |> <| Mem_written ::= λ ps, ps ++ [p] |>).

(** The directories that [p] is in, the outermost first. *)
Fixpoint parents (p : string) : list string :=
  match p with
  | EmptyString => []
  | String c p' => (if String.eqb (String c EmptyString) "/" then [""] else []) ++ (String c <$> parents p')
  end.

(** A directory is there when it was created, or when a file is in it. *)
Definition mem_is_dir (w : Mem) (p : string) : bool :=
  bool_decide (p = "" ∨ p ∈ Mem_written w ∨ mem_names p w ≠ []).

Definition mem_MkdirAll (p : string) : M Mem unit := modify (λ w,
  w <| Mem_written ::= λ ps, ps ++ filter (λ q, mem_is_dir w q = false) (parents p ++ [p]) |>).

Definition mem_Copy (p content : string) : M Mem unit := modify (λ w, w <| Mem_files ::= <[p := content]> |>).

Definition mem_OpenReader (p : string) : M Mem (list ZipFile) := λ w,
  match Mem_archives w p with Some files => (w, Ret files) | None => mem_missing w end.

(** A response whose body cannot be read is an error of the exchange. *)
Definition mem_Do (c : HTTPClient) (r : HTTPRequest) : M Mem HTTPResponse := λ w,
  let reply := match Mem_reply w r with
               | inr (mkHTTPResponse code (inl e)) => inl e
               | reply => reply
               end in
  (w <| Mem_exchanged ::= λ xs, xs ++ [(r, reply)] |>,
   match reply with inl e => Fail e | inr resp => Ret resp end).

#[export] Instance System_Mem : System Mem := {|
  dataDir := "/tmp";
  os_ReadFile := mem_ReadFile;
  os_ReadDir := mem_ReadDir;
  os_Stat := mem_Stat;
  os_Remove := mem_Remove;
  os_Create := mem_os_Create;
  os_MkdirAll := mem_MkdirAll;
  io_Copy := mem_Copy;
  zip_OpenReader := mem_OpenReader;
  http_Do := mem_Do;
  net_DialTimeout _ _ := mret tt;
  range_map m := gets (λ _, map_to_list (contents m));
|}.

#[export] Instance Observed_Mem : Observed Mem := {| exchanged := Mem_exchanged; written := Mem_written |}.

Lemma mem_Sleep_quiet d w : undisturbed w (mem_Sleep d w).
Proof.
  unfold mem_Sleep, mem_arrive. set (w0 := w <| Mem_now ::= _ |>).
  assert (H0 : undisturbed w w0) by done. clearbody w0.
  generalize (Mem_arrivals w0). intros l. revert w0 H0.
  induction l as [|a l IH]; intros w0 H0; cbn [foldl]; [done|]. apply IH.
  destruct (a.1 <=? Mem_now w0)%Z; [|done]. destruct H0 as [Hx Hw]. by split.
Qed.

Lemma parents_above p q : q ∈ parents p → above q p.
Proof.
  revert q. induction p as [|c p IH]; intros q; cbn [parents]; [by intros ?%elem_of_nil|].
  intros [Hq|(q' & -> & Hq')%list_elem_of_fmap]%elem_of_app.
  - destruct (String.eqb_spec (String c EmptyString) "/") as [[= ->]|]; [|by apply elem_of_nil in Hq].
    apply list_elem_of_singleton in Hq as ->. by exists p.
  - destruct (IH _ Hq') as [r ->]. by exists r.
Qed.

Lemma mem_MkdirAll_makes p w :
  wp (mem_MkdirAll p) (λ _ w', Mem_exchanged w' = Mem_exchanged w ∧ wrote (makes p) w w') (λ _ _, False) w.
Proof.
  unfold mem_MkdirAll. rewrite wp_modify. split; [done|]. eexists. split; [done|].
  apply Forall_forall. intros q [_ Hq]%list_elem_of_filter.
  apply elem_of_app in Hq as [Hq| ->%list_elem_of_singleton]; [right; by apply parents_above|by left].
Qed.

Lemma mem_poll_quiet B fuel interval cond :
  steps (poll_undisturbed B) cond → steps (poll_undisturbed B) (mem_poll fuel interval cond).
Proof.
  intros Hc. induction fuel as [|fuel IH]; intros s; specialize (Hc s); cbn [mem_poll];
    destruct (cond s) as [[w b] [[|]|e|]]; try exact Hc.
  assert (Hs : poll_undisturbed B (w, b) (mem_Sleep interval w, b)) by apply mem_Sleep_quiet.
  exact (transitivity Hc (transitivity Hs (IH _))).
Qed.

#[export] Instance SystemLaws_Mem : SystemLaws Mem.
Proof.
  split; intros; try apply mem_Sleep_quiet; try (by apply mem_poll_quiet);
    try (by eapply wp_mono; [apply mem_MkdirAll_makes|auto|]);
    try intros w; unfold wp; cbn;
    unfold mem_ReadFile, mem_ReadDir, mem_Stat, mem_OpenReader, mem_missing, mem_Do, mem_Get, mem_Create,
      mem_Update, mem_Delete, mem_PatchStatus, mem_guard;
    repeat case_match; simplify_eq; done.
Qed.

#[export] Instance BodiesRead_Mem : BodiesRead Mem.
Proof.
  intros c r w. unfold wp. cbn. unfold mem_Do.
  destruct (Mem_reply w r) as [e|[code [e|body]]]; [done|done|]. by exists body.
Qed.
