(* ===== verification/Labels.v ===== *)
(** * Labels of operator-managed objects: internal/utils/labels.go *)

From Stdlib Require Import Strings.Ascii.
From S2P Require Import Prelude GoStrings KubeTypes.

Definition PartOfLogging : string := "logging-service".
Definition ManagedByOperator : string := "operator".
Definition OperatorDeploymentName : string := "logging-operator".
Definition ComponentBackend : string := "backend".
Definition ComponentOperator : string := "operator".
Definition ComponentMonitoring : string := "monitoring".

Definition CommonLabels : smap :=
  {[ "app.kubernetes.io/part-of" := PartOfLogging;
     "app.kubernetes.io/managed-by" := ManagedByOperator;
     "app.kubernetes.io/managed-by-operator" := OperatorDeploymentName ]}.

(** A nil map is skipped: copying it is copying the empty map. *)
Definition MergeLabels (mapsToMerge : list gomap) : smap :=
  foldl (λ out m, match m with None => out | Some m => maps_Copy out m end) ∅ mapsToMerge.

Definition MergeInto (dst : smap) (src : gomap) : smap :=
  match src with None => dst | Some src => maps_Copy dst src end.

Definition ResourceLabels (name component : string) : smap :=
  MergeLabels
    [ Some {[ "name" := name;
              "app.kubernetes.io/name" := name;
              "app.kubernetes.io/component" := component ]};
      Some CommonLabels ].

Definition TruncLabel (label : string) : string :=
  if bool_decide (63 ≤ len label) then Trim "-"%char (slice_to 63 label)
  else Trim "-"%char label.

Definition GetInstanceLabel (name namespace : string) : string :=
  TruncLabel (name +:+ "-" +:+ namespace).

Record LabelInput : Type := mkLabelInput {
  LabelInput_Name : string;
  LabelInput_Component : string;
  LabelInput_Instance : string;
  LabelInput_Version : string;
  LabelInput_Technology : string;
  LabelInput_ComponentLabels : gomap;
}.

#[export] Instance zero_LabelInput : GoZero LabelInput := mkLabelInput zero zero zero zero zero zero.
#[export] Instance eta_LabelInput : Eta LabelInput := λ x,
  mkLabelInput (LabelInput_Name x) (LabelInput_Component x) (LabelInput_Instance x)
    (LabelInput_Version x) (LabelInput_Technology x) (LabelInput_ComponentLabels x).

(** [if v != "" { m[key] = v }]. *)
Definition set_nonempty (key v : string) (m : smap) : smap :=
  if negb (String.eqb v "") then <[key := v]> m else m.

Definition instanceVersionTechnologyMap (inp : LabelInput) : smap :=
  let m := ∅ in
  let m := set_nonempty "app.kubernetes.io/instance" (LabelInput_Instance inp) m in
  let m := set_nonempty "app.kubernetes.io/version" (LabelInput_Version inp) m in
  set_nonempty "app.kubernetes.io/technology" (LabelInput_Technology inp) m.

Definition resourceLabelsFromBase (inp : LabelInput) (baseMaps : list gomap) : smap :=
  MergeInto (MergeLabels baseMaps) (LabelInput_ComponentLabels inp).

Definition resourceLabels (inp : LabelInput) (existing : gomap) : smap :=
  resourceLabelsFromBase inp
    [ existing;
      Some (ResourceLabels (LabelInput_Name inp) (LabelInput_Component inp));
      Some (instanceVersionTechnologyMap inp) ].

Definition templateLabels (inp : LabelInput) (existing : gomap) : smap :=
  MergeLabels
    [ existing;
      Some (ResourceLabels (LabelInput_Name inp) (LabelInput_Component inp));
      Some (instanceVersionTechnologyMap inp) ].

(** The labels of an object of any kind. *)
Definition GetLabels {T} `{K8sObject T} (obj : T) : gomap := ObjectMeta_Labels (get_meta obj).

Definition SetLabelsForResource {T} `{K8sObject T} (inp : LabelInput) (existing : gomap)
    (obj : T) : T :=
  let initial := match existing with None => GetLabels obj | Some _ => existing end in
  set_meta (SetLabels (Some (resourceLabels inp initial)) (get_meta obj)) obj.

(** [templateLabels *map[string]string] points into [obj]; [tmpl] and
    [set_tmpl] read and write what it points to. *)
Definition SetLabelsForWorkload {T} `{K8sObject T} (tmpl : T → gomap) (set_tmpl : gomap → T → T)
    (inp : LabelInput) (obj : T) : T :=
  let obj := SetLabelsForResource inp None obj in
  set_tmpl (Some (templateLabels inp (tmpl obj))) obj.

Definition PodTemplateLabels (name component instance version technology : string) : smap :=
  templateLabels (mkLabelInput name component instance version technology None) None.

(** ** What the merges compute *)

(** The value of the last layer that has the key. *)
Definition layered (layers : list gomap) (k : string) : option string :=
  foldl (λ acc m, match contents m !! k with Some v => Some v | None => acc end) None layers.

Lemma lookup_MergeLabels_from layers acc k :
  foldl (λ out m, match m with None => out | Some m => maps_Copy out m end) acc layers !! k =
  foldl (λ acc m, match contents m !! k with Some v => Some v | None => acc end) (acc !! k) layers.
Proof.
  revert acc. induction layers as [|[m|] layers IH]; intros acc; cbn [foldl]; [done| |].
  - rewrite IH. f_equal. apply lookup_maps_Copy.
  - rewrite IH. by cbn [contents default]; rewrite lookup_empty.
Qed.

Lemma lookup_MergeLabels layers k : MergeLabels layers !! k = layered layers k.
Proof. unfold MergeLabels, layered. by rewrite lookup_MergeLabels_from, lookup_empty. Qed.

Lemma lookup_MergeInto dst src k :
  MergeInto dst src !! k = match contents src !! k with Some v => Some v | None => dst !! k end.
Proof. destruct src; cbn; [apply lookup_maps_Copy|by rewrite lookup_empty]. Qed.

Lemma lookup_resourceLabels inp existing k :
  resourceLabels inp existing !! k =
  layered [ existing; Some (ResourceLabels (LabelInput_Name inp) (LabelInput_Component inp));
            Some (instanceVersionTechnologyMap inp); LabelInput_ComponentLabels inp ] k.
Proof.
  unfold resourceLabels, resourceLabelsFromBase. by rewrite lookup_MergeInto, lookup_MergeLabels.
Qed.

Lemma lookup_templateLabels inp existing k :
  templateLabels inp existing !! k =
  layered [ existing; Some (ResourceLabels (LabelInput_Name inp) (LabelInput_Component inp));
            Some (instanceVersionTechnologyMap inp) ] k.
Proof. apply lookup_MergeLabels. Qed.

(** Instance, version and technology touch only their own three keys. *)
Lemma instanceVersionTechnologyMap_None inp k :
  k ∉ ["app.kubernetes.io/instance"; "app.kubernetes.io/version"; "app.kubernetes.io/technology"] →
  instanceVersionTechnologyMap inp !! k = None.
Proof.
  rewrite !not_elem_of_cons. intros (? & ? & ? & _).
  unfold instanceVersionTechnologyMap, set_nonempty.
  repeat case_match; rewrite ?lookup_insert_ne by congruence; apply lookup_empty.
Qed.

(** The identity labels of a pod template are those of the component, whatever
    the object carried before: the selectors that name them keep matching. *)
Lemma templateLabels_identity inp existing k :
  k ∈ ["name"; "app.kubernetes.io/name"; "app.kubernetes.io/component"] →
  templateLabels inp existing !! k =
  ResourceLabels (LabelInput_Name inp) (LabelInput_Component inp) !! k.
Proof.
  intros Hk. rewrite lookup_templateLabels. unfold layered. cbn [foldl contents].
  rewrite !elem_of_cons, elem_of_nil in Hk.
  destruct Hk as [->|[->|[->|[]]]];
    (rewrite instanceVersionTechnologyMap_None; [done|];
     rewrite !not_elem_of_cons; repeat split; [done..|apply not_elem_of_nil]).
Qed.

(** ** Properties *)



(** The labels of a workload the operator manages.  On the object, a key has
    the value of the last of these layers that has it: the labels it carried,
    the resource labels, instance/version/technology, the component's labels of
    the custom resource.  On the pod template the component's labels take no
    part, so that the identity labels cannot be overridden there: [name],
    [app.kubernetes.io/name] and [app.kubernetes.io/component] always name the
    component. *)
Theorem SetLabelsForWorkload_layers {T} `{K8sObjectLaws T} (tmpl : T → gomap)
    (set_tmpl : gomap → T → T) inp (obj : T) :
  (∀ l x, tmpl (set_tmpl l x) = l) →
  (∀ l x, get_meta (set_tmpl l x) = get_meta x) →
  (∀ m x, tmpl (set_meta m x) = tmpl x) →
  let obj' := SetLabelsForWorkload tmpl set_tmpl inp obj in
  let base := Some (ResourceLabels (LabelInput_Name inp) (LabelInput_Component inp)) in
  let ivt := Some (instanceVersionTechnologyMap inp) in
  (∀ k, contents (GetLabels obj') !! k =
        layered [GetLabels obj; base; ivt; LabelInput_ComponentLabels inp] k) ∧
  (∀ k, contents (tmpl obj') !! k = layered [tmpl obj; base; ivt] k) ∧
  contents (tmpl obj') !! "name" = Some (LabelInput_Name inp) ∧
  contents (tmpl obj') !! "app.kubernetes.io/name" = Some (LabelInput_Name inp) ∧
  contents (tmpl obj') !! "app.kubernetes.io/component" = Some (LabelInput_Component inp).
Proof.
  intros Hget Hmeta Htmpl obj' base ivt.
  assert (Hobj : tmpl obj' = Some (templateLabels inp (tmpl obj))).
  { unfold obj', SetLabelsForWorkload. rewrite Hget. unfold SetLabelsForResource.
    by rewrite Htmpl. }
  split_and!.
  - intros k. unfold obj', SetLabelsForWorkload, SetLabelsForResource, GetLabels.
    rewrite Hmeta, get_set_meta. cbn [ObjectMeta_Labels SetLabels update contents].
    apply lookup_resourceLabels.
  - intros k. rewrite Hobj. apply lookup_templateLabels.
  - rewrite Hobj. cbn [contents]. by rewrite templateLabels_identity by set_solver.
  - rewrite Hobj. cbn [contents]. by rewrite templateLabels_identity by set_solver.
  - rewrite Hobj. cbn [contents]. by rewrite templateLabels_identity by set_solver.
Qed.

Lemma SetLabelsForWorkload_layers_witness :
  let tmpl ds := ObjectMeta_Labels (PodTemplateSpec_ObjectMeta (DaemonSet_Template ds)) in
  let set_tmpl l ds := ds <| DaemonSet_Template ::=
    λ t, t <| PodTemplateSpec_ObjectMeta ::= SetLabels l |> |> in
  let inp := zero <| LabelInput_Name := "logging-fluentd" |>
                  <| LabelInput_Component := ComponentBackend |>
                  <| LabelInput_ComponentLabels := Some {[ "name" := "mine" ]} |> in
  let ds := SetLabelsForWorkload tmpl set_tmpl inp (zero : DaemonSet) in
  contents (GetLabels ds) !! "name" = Some "mine" ∧
  contents (tmpl ds) !! "name" = Some "logging-fluentd".
Proof.
  intros tmpl set_tmpl inp ds.
  destruct (SetLabelsForWorkload_layers tmpl set_tmpl inp (zero : DaemonSet))
    as (Hl & _ & Ht & _); [done..|].
  split; [|exact Ht]. exact (eq_trans (Hl "name") eq_refl).
Defined.
