(* ===== verification/Monitoring.v ===== *)
(** * Monitoring of the operator and its events: internal/utils, internal/manager

    The PodMonitor of the operator ([service-monitor.go], [ResourceExists] of common.go and
    [createMetricsPodMonitor] of manager.go), the event predicate ([predicate.go]) and
    the level of the log ([logger.go]). *)

From S2P Require Import Prelude GoStrings KubeTypes Api Labels.

(** ** PodMonitors *)

(** A [PodMonitor] and its endpoints, by the fields that the code sets. *)
Record PodMetricsEndpoint : Type := mkPodMetricsEndpoint {
  PodMetricsEndpoint_Port : string;
  PodMetricsEndpoint_Interval : string;
  PodMetricsEndpoint_ScrapeTimeout : string;
}.

Record PodMonitor : Type := mkPodMonitor {
  PodMonitor_ObjectMeta : ObjectMeta;
  PodMonitor_MatchLabels : smap;
  PodMonitor_PodMetricsEndpoints : list PodMetricsEndpoint;
}.

(** An [APIResourceList], with the kinds of its resources. *)
Record APIResourceList : Type := mkAPIResourceList {
  APIResourceList_GroupVersion : string;
  APIResourceList_Kinds : list string;
}.

(** The discovery client and the client of the PodMonitors. *)
Class MonitoringClient (W : Type) := {
  ServerGroupsAndResources : M W (list APIResourceList);
  PodMonitors_Create : string → PodMonitor → M W unit;
}.

Definition SelectorLabels : smap := {[ "name" := "logging-operator" ]}.

Definition ErrPodMonitorNotPresent : error := errors_New "no PodMonitor registered with the API".

Definition populateEndpointsFromServicePorts (s : Service) (sInterval sTimeout : string) :
    list PodMetricsEndpoint :=
  (λ port, mkPodMetricsEndpoint (ServicePort_Name port) sInterval sTimeout) <$> Service_Ports s.

Definition GeneratePodMonitor (s : Service) (sInterval sTimeout : string) : PodMonitor :=
  let name := ObjectMeta_Name (Service_ObjectMeta s) in
  let namespace := ObjectMeta_Namespace (Service_ObjectMeta s) in
  mkPodMonitor
    ((named name namespace) <| ObjectMeta_Labels := Some (MergeLabels
       [ Some (ResourceLabels name ComponentMonitoring);
         Some {[ "app.kubernetes.io/instance" := GetInstanceLabel name namespace ]} ]) |>)
    SelectorLabels (populateEndpointsFromServicePorts s sInterval sTimeout).

Section monitors.
Context {W : Type} `{MonitoringClient W}.

Definition ResourceExists (apiGroupVersion kind : string) : M W bool :=
  apiLists ← ServerGroupsAndResources;
  mret (existsb (λ apiList,
    String.eqb (APIResourceList_GroupVersion apiList) apiGroupVersion &&
    existsb (String.eqb kind) (APIResourceList_Kinds apiList)) apiLists).

Definition hasPodMonitor : M W bool := ResourceExists "monitoring.coreos.com/v1" "PodMonitor".

(** The loop over the Services; a PodMonitor that is already there ends it without an
    error. *)
Fixpoint create_monitors (ns : string) (services : list (option Service)) (sInterval sTimeout : string) :
    M W unit :=
  match services with
  | [] => mret tt
  | None :: services => create_monitors ns services sInterval sTimeout
  | Some s :: services =>
      r ← attempt (PodMonitors_Create ns (GeneratePodMonitor s sInterval sTimeout));
      match r with
      | inl err => if IsAlreadyExists err then mret tt else fail err
      | inr _ => create_monitors ns services sInterval sTimeout
      end
  end.

Definition CreatePodMonitors (ns : string) (services : list (option Service)) (sInterval sTimeout : string) :
    M W unit :=
  exists_ ← hasPodMonitor;
  if negb (exists_ : bool) then fail ErrPodMonitorNotPresent
  else create_monitors ns services sInterval sTimeout.

Definition metricsPort : Z := 8080.

(** [createMetricsPodMonitor]; [env] is [os.Getenv]. *)
Definition createMetricsPodMonitor (env : string → string) (namespace : string) : M W unit :=
  if String.eqb (env "SKIP_METRICS_SERVICE") "true" then mret tt
  else
    let serviceName := "logging-operator-metrics" in
    let labels := MergeLabels
      [ Some (ResourceLabels serviceName "logging-operator");
        Some {[ "app.kubernetes.io/instance" := GetInstanceLabel serviceName namespace ]} ] in
    let service := zero
      <| Service_ObjectMeta := (named serviceName namespace) <| ObjectMeta_Labels := Some labels |> |>
      <| Service_Ports := [mkServicePort "http-metrics" metricsPort "TCP" (FromInt32 metricsPort)] |>
      <| Service_Selector := Some labels |> in
    logged (CreatePodMonitors namespace [Some service] (env "SCRAPE_INTERVAL") (env "SCRAPE_TIMEOUT")).
End monitors.

(** ** predicate.go *)

(** An object of an event: a custom resource, or any other. *)
Inductive EventObject : Type :=
| LoggingServiceObject (cr : LoggingService)
| OtherObject.

Section predicate.
(** [reflect.DeepEqual] of two specs. *)
Context `{!EqDecision LoggingServiceSpec}.

Definition IsStatusUpdated (oldInstance newInstance : EventObject) : bool :=
  match oldInstance, newInstance with
  | LoggingServiceObject oldLoggingService, LoggingServiceObject newLoggingService =>
      bool_decide (LoggingService_Spec oldLoggingService = LoggingService_Spec newLoggingService)
  | _, _ => false
  end.

(** Which events reach the controller: all but an update that leaves the spec. *)
Definition Predicate_Create (object : EventObject) : bool := true.
Definition Predicate_Delete (object : EventObject) : bool := true.
Definition Predicate_Update (objectOld objectNew : EventObject) : bool :=
  negb (IsStatusUpdated objectOld objectNew).
Definition Predicate_Generic (object : EventObject) : bool := true.
End predicate.

(** ** logger.go *)

Inductive Level : Type := DebugLevel | InfoLevel | WarnLevel | ErrorLevel.

(** [strings.ToLower] of an ASCII text. *)
Fixpoint ToLower (s : string) : string :=
  match s with
  | EmptyString => EmptyString
  | String c s => String (ToLowerASCII c) (ToLower s)
  end.

Definition GetLogLevel (env : string → string) : Level :=
  let level := ToLower (env "LOG_LEVEL") in
  if String.eqb level "debug" then DebugLevel
  else if String.eqb level "error" then ErrorLevel
  else if String.eqb level "warn" then WarnLevel
  else InfoLevel.

(** [zap.Config] by the fields that the code sets, and what [Logger] names it. *)
Record LoggerConfig : Type := mkLoggerConfig {
  Logger_Name : string;
  Logger_Encoding : string;
  Logger_Level : Level;
  Logger_OutputPaths : list string;
  Logger_ErrorOutputPaths : list string;
  Logger_DisableStacktrace : bool;
  Logger_MessageKey : string;
  Logger_NameKey : string;
  Logger_LevelKey : string;
  Logger_TimeKey : string;
  Logger_StacktraceKey : string;
  Logger_TimeFormat : string;
}.

Definition Logger (env : string → string) (name : string) : LoggerConfig := {|
  Logger_Name := name;
  Logger_Encoding := "json";
  Logger_Level := GetLogLevel env;
  Logger_OutputPaths := ["stdout"];
  Logger_ErrorOutputPaths := ["stderr"];
  Logger_DisableStacktrace := false;
  Logger_MessageKey := "message";
  Logger_NameKey := "logger";
  Logger_LevelKey := "level";
  Logger_TimeKey := "time";
  Logger_StacktraceKey := "stacktrace";
  Logger_TimeFormat := "2006-01-02T15:04:05.999";
|}.

(** ** Lemmas *)

(** Every port of the Service is scraped. *)
Lemma GeneratePodMonitor_ports s sInterval sTimeout :
  PodMetricsEndpoint_Port <$> PodMonitor_PodMetricsEndpoints (GeneratePodMonitor s sInterval sTimeout)
  = ServicePort_Name <$> Service_Ports s.
Proof. cbn. unfold populateEndpointsFromServicePorts. by rewrite <- list_fmap_compose. Qed.

(** The start-up goes on whatever happens to the PodMonitor. *)
Lemma createMetricsPodMonitor_succeeds {W} `{MonitoringClient W} env namespace (w : W) :
  (∀ w', wp ServerGroupsAndResources (λ _ _, True) (λ _ _, True) w') →
  (∀ ns pm w', wp (PodMonitors_Create ns pm) (λ _ _, True) (λ _ _, True) w') →
  wp (createMetricsPodMonitor env namespace) (λ _ _, True) (λ _ _, False) w.
Proof.
  intros Hs Hc. unfold createMetricsPodMonitor. destruct (String.eqb _ _); [done|].
  rewrite wp_logged. unfold CreatePodMonitors, hasPodMonitor, ResourceExists. rewrite wp_bind, wp_bind.
  eapply wp_mono; [apply Hs| |done]. intros apiLists w1 _. rewrite wp_ret.
  destruct (existsb _ _); [|done]. cbn [negb create_monitors]. rewrite wp_bind, wp_attempt.
  eapply wp_mono; [apply Hc|done|]. intros e w2 _. by destruct (IsAlreadyExists e).
Qed.
