(* ===== verification/Operator.v ===== *)
(** * The operator's state, and the names of its components

    All the reconcilers of a cycle share three things: the client, the custom
    resource ([*LoggingService], which they read, patch and write in place) and
    the list of components that still have to start ([*[]util.Component]).  They
    are the state [op W] of the operator's monad.  The constants are those of
    internal/utils/vars.go, status.go and waiter.go. *)

From S2P Require Import Prelude GoStrings KubeTypes Api Client.

(** [util.Component]. *)
Record Component : Type := mkComponent {
  Component_ComponentName : string;
  Component_StatusName : string;
}.

#[global] Instance Component_eq_dec : EqDecision Component.
Proof. solve_decision. Defined.

Record op (W : Type) : Type := mkOp {
  op_world : W;
  op_cr : LoggingService;
  op_pending : list Component;
}.
Arguments mkOp {_} _ _ _.
Arguments op_world {_} _.
Arguments op_cr {_} _.
Arguments op_pending {_} _.

#[export] Instance eta_op W : Eta (op W) := λ s, mkOp (op_world s) (op_cr s) (op_pending s).

(** A call of the client. *)
Definition lift {W A} (m : M W A) : M (op W) A := λ s,
  let (w', r) := m (op_world s) in (s <| op_world := w' |>, r).

Definition the_cr {W} : M (op W) LoggingService := gets op_cr.

Definition GetNamespace (cr : LoggingService) : string :=
  ObjectMeta_Namespace (LoggingService_ObjectMeta cr).

Definition GetName (cr : LoggingService) : string :=
  ObjectMeta_Name (LoggingService_ObjectMeta cr).

Definition conditions {W} (s : op W) : list LoggingServiceCondition :=
  LoggingServiceStatus_Conditions (LoggingService_Status (op_cr s)).

(** [resource.Status.Conditions = c]. *)
Definition set_conditions {W} (c : list LoggingServiceCondition) : op W → op W := λ s,
  s <| op_cr ::= λ cr, cr <| LoggingService_Status := mkLoggingServiceStatus c |> |>.

(** [cr.Spec = f cr.Spec]. *)
Definition update_spec {W} (f : LoggingServiceSpec → LoggingServiceSpec) : op W → op W := λ s,
  s <| op_cr ::= λ cr, cr <| LoggingService_Spec ::= f |> |>.

Lemma wp_lift {W A} (m : M W A) Q E (s : op W) :
  wp (lift m) Q E s ↔
  wp m (λ a w', Q a (s <| op_world := w' |>)) (λ e w', E e (s <| op_world := w' |>)) (op_world s).
Proof. unfold wp, lift. by destruct (m (op_world s)) as [w' [a|e|]]. Qed.

#[export] Hint Rewrite @wp_lift : wp_db.

(** A relation of worlds, between states. *)
Definition in_world {W} (R : relation W) : relation (op W) := λ s s', R (op_world s) (op_world s').

#[export] Instance in_world_preorder {W} (R : relation W) : PreOrder R → PreOrder (in_world R).
Proof.
  intros HR. split; [intros s; unfold in_world; reflexivity|].
  intros s1 s2 s3 H1 H2. exact (transitivity (R:=R) H1 H2).
Qed.

Lemma steps_lift {W A} (R : relation W) (m : M W A) : steps R m → steps (in_world R) (lift m).
Proof. intros Hm s. specialize (Hm (op_world s)). unfold lift, in_world. by destruct (m (op_world s)). Qed.

Lemma steps_same_world {W} (R : relation W) (f : op W → op W) :
  PreOrder R → (∀ s, op_world (f s) = op_world s) → steps (in_world R) (modify f).
Proof. intros HR Hf. apply steps_modify. intros s. unfold in_world. by rewrite Hf. Qed.

#[export] Hint Resolve steps_lift : steps.
#[export] Hint Extern 1 (steps (in_world _) (modify _)) =>
  apply steps_same_world; [typeclasses eauto|done] : steps.

Lemma conditions_set {W} c (s : op W) : conditions (set_conditions c s) = c.
Proof. done. Qed.

(** ** Names *)

Definition InProgress : string := "In Progress".
Definition Success : string := "Successful".
Definition Failed : string := "Failed".

Definition LoggingServiceStatusReason : string := "ReconcileCycleStatus".
Definition FluentdComponentName : string := "logging-fluentd".
Definition FluentdStatus : string := "ReconcileFluentdStatus".
Definition FluentdConfigMapDirectory : string := "fluentd.configmap/conf.d".
Definition FluentbitComponentName : string := "logging-fluentbit".
Definition FluentbitStatus : string := "ReconcileFluentbitStatus".
Definition ForwarderFluentbitComponentName : string := "logging-fluentbit-forwarder".
Definition HAFluentStatus : string := "ReconcileHAFluentStatus".
Definition AggregatorFluentbitComponentName : string := "logging-fluentbit-aggregator".
Definition ForwarderFluentbitConfigMapDirectory : string := "forwarder.configmap/conf.d".
Definition AggregatorFluentbitConfigMapDirectory : string := "aggregator.configmap/conf.d".
Definition FluentbitConfigMapDirectory : string := "fluentbit.configmap/conf.d".
Definition EventsReaderComponentName : string := "events-reader".
Definition EventsReaderStatus : string := "ReconcileEventsReaderStatus".
Definition MonitoringAgentStatus : string := "ReconcileMonitoringAgentLoggingPluginStatus".
Definition GraylogComponentName : string := "graylog-service".
Definition GraylogServiceAccountName : string := "logging-graylog".
Definition GraylogStatefulsetName : string := "graylog".
Definition GraylogClaimName : string := "graylog-claim".
Definition MongoClaimName : string := "mongo-claim".
Definition GraylogStatus : string := "ReconcileGraylogStatus".
Definition GraylogLabels : smap := {[ "name" := "graylog" ]}.
Definition GraylogMongoUpgradeOrderedJobs : list string :=
  ["mongo-upgrade-job-40"; "mongo-upgrade-job-42"; "mongo-upgrade-job-44"; "mongo-upgrade-job-50"].
Definition GraylogStartupTimeout : Z := 10 * Minute.
Definition ComponentPendingStatus : string := "ComponentPendingStatus".
Definition ComponentPendingTimeout : Z := 5 * Minute.
Definition FluentbitAggregatorPendingTimeout : Z := 8 * Minute.
Definition InitialDelay : Z := 5 * Second.
Definition Interval : Z := 10 * Second.
Definition TerminatingPodTimeout : Z := 2 * Minute.

(** ** What a status update leaves alone *)

Section frame.
Context `{KubeClientLaws W}.

(** From [s] to [s'] only the status of the custom resource changed, and time may
    have passed. *)
Record cr_frame (s s' : op W) : Prop := mkCrFrame {
  frame_objects : objects (op_world s') = objects (op_world s);
  frame_now : (time_Now (op_world s) ≤ time_Now (op_world s'))%Z;
  frame_pending : op_pending s' = op_pending s;
  frame_namespace : GetNamespace (op_cr s') = GetNamespace (op_cr s);
  frame_name : GetName (op_cr s') = GetName (op_cr s);
  frame_spec : SpecStable W → LoggingService_Spec (op_cr s') = LoggingService_Spec (op_cr s);
}.

#[export] Instance cr_frame_refl : Reflexive cr_frame.
Proof. by intros s. Qed.

#[export] Instance cr_frame_trans : Transitive cr_frame.
Proof.
  intros s1 s2 s3 [????? Hs] [????? Hs']. split; try congruence; [lia|].
  intros Hst. by rewrite Hs', Hs.
Qed.

Lemma cr_frame_set_conditions c s : cr_frame s (set_conditions c s).
Proof. done. Qed.

(** From [s] to [s'] only the cluster changed: in [quiet] not even its objects. *)
Record cluster_only (s s' : op W) : Prop := mkClusterOnly {
  cluster_only_now : (time_Now (op_world s) ≤ time_Now (op_world s'))%Z;
  cluster_only_cr : op_cr s' = op_cr s;
  cluster_only_pending : op_pending s' = op_pending s;
}.

Record quiet (s s' : op W) : Prop := mkQuiet {
  quiet_cluster_only : cluster_only s s';
  quiet_objects : objects (op_world s') = objects (op_world s);
}.

#[export] Instance cluster_only_preorder : PreOrder cluster_only.
Proof.
  split; [done|]. intros s1 s2 s3 [???] [???]. split; [lia|congruence..].
Qed.

#[export] Instance quiet_preorder : PreOrder quiet.
Proof.
  split; [by intros s; split|]. intros s1 s2 s3 [H1 ?] [H2 ?].
  split; [by etrans|congruence].
Qed.

End frame.

#[export] Hint Extern 2 (cluster_only ?s ?s') =>
  match goal with Hq : quiet s s' |- _ => exact (quiet_cluster_only _ _ Hq) end : core.
#[export] Hint Extern 3 (cluster_only _ _) => solve [split; cbn; done] : core.
#[export] Hint Extern 3 (quiet _ _) => solve [split; [split|]; cbn; done] : core.

