(* ===== verification/Status.v ===== *)
(** * The status of the custom resource: internal/utils/status.go

    [Status.Conditions] holds at most one condition per reason, and a reason is a
    component of the operator (or the reconcile cycle itself). *)

From S2P Require Import Prelude GoStrings KubeTypes Api Client Operator.

(** [updater.GetCondition(reason)]: the index and the value of the first
    condition with the reason. *)
Definition GetCondition (conds : list LoggingServiceCondition) (newConditionReason : string) :
    option (nat * LoggingServiceCondition) :=
  if bool_decide (len newConditionReason ≠ 0 ∧ length conds ≠ 0)
  then list_find (λ c, LoggingServiceCondition_Reason c = newConditionReason) conds
  else None.

(** [IsStatusEqual] compares everything but the time of the last transition. *)
Definition IsStatusEqual (source target : LoggingServiceCondition) : bool :=
  bool_decide
    (source <| LoggingServiceCondition_LastTransitionTime :=
         LoggingServiceCondition_LastTransitionTime target |> = target).

(** Which conditions [RemoveTemporaryStatuses] means to keep. *)
Definition keeps_condition (spec : LoggingServiceSpec) (c : LoggingServiceCondition) : bool :=
  let reason := LoggingServiceCondition_Reason c in
  if String.eqb reason LoggingServiceStatusReason then true
  else if String.eqb (LoggingServiceCondition_Type c) Failed then
    if String.eqb reason GraylogStatus && Graylog_IsInstall (LoggingServiceSpec_Graylog spec) then true
    else if String.eqb reason FluentdStatus && Fluentd_IsInstall (LoggingServiceSpec_Fluentd spec)
    then true
    else if String.eqb reason FluentbitStatus && Fluentbit_IsInstall (LoggingServiceSpec_Fluentbit spec)
    then true
    else if String.eqb reason EventsReaderStatus
            && CloudEventsReader_IsInstall (LoggingServiceSpec_CloudEventsReader spec)
    then true
    else if String.eqb reason MonitoringAgentStatus
            && MonitoringAgentLoggingPlugin_IsInstall
                 (LoggingServiceSpec_MonitoringAgentLoggingPlugin spec)
    then true
    else String.eqb reason ComponentPendingStatus
  else false.

(** The loop of [RemoveTemporaryStatuses]: [n] is [i + 1], [None] an index out of
    range.  A condition that is not kept makes the code drop the last one. *)
Fixpoint remove_temporary (spec : LoggingServiceSpec) (n : nat)
    (conds : list LoggingServiceCondition) (isStatusChanged : bool) :
    option (list LoggingServiceCondition * bool) :=
  match n with
  | O => Some (conds, isStatusChanged)
  | S i =>
      match conds !! i with
      | None => None
      | Some c =>
          if keeps_condition spec c then remove_temporary spec i conds isStatusChanged
          else remove_temporary spec i (take (length conds - 1) conds) true
      end
  end.

Section StatusUpdater.
Context {W : Type} `{KubeClient W}.

(** [updater.patch()]. *)
Definition patch : M (op W) unit :=
  cr ← the_cr;
  cr' ← lift (client_PatchStatus cr);
  modify (λ s, s <| op_cr := cr' |>).

Definition RemoveStatus (reason : string) : M (op W) bool :=
  conds ← gets conditions;
  match GetCondition conds reason with
  | Some (index, _) =>
      modify (set_conditions (swap_remove index conds));;
      logged patch;;
      mret true
  | None => mret false
  end.

Definition UpdateStatus (reason statusType : string) (status : bool) (message : string) :
    M (op W) unit :=
  time ← gets (λ s, meta_Now_String (op_world s));
  let newCondition := mkLoggingServiceCondition statusType reason message time status in
  conds ← gets conditions;
  match GetCondition conds reason with
  | Some (index, oldCondition) =>
      if String.eqb statusType Failed && IsStatusEqual newCondition oldCondition then mret tt
      else modify (set_conditions (<[index := newCondition]> conds));; logged patch
  | None => modify (set_conditions (conds ++ [newCondition]));; logged patch
  end.

Definition RemoveTemporaryStatuses : M (op W) unit :=
  conds ← gets conditions;
  spec ← gets (λ s, LoggingService_Spec (op_cr s));
  '(conds', isStatusChanged) ← deref (remove_temporary spec (length conds) conds false);
  modify (set_conditions conds');;
  when isStatusChanged (logged patch).

Definition IsStatusFailed (conditionReason : string) : M (op W) bool :=
  conds ← gets conditions;
  mret match GetCondition conds conditionReason with
       | Some (_, condition) => String.eqb (LoggingServiceCondition_Type condition) Failed
       | None => false
       end.
End StatusUpdater.

(** ** Lemmas *)

(** The updater reaches the world by its patches only. *)
Section steps.
Context {W : Type} `{KubeClient W} (R : relation W) `{!PreOrder R}.
Hypothesis patch_steps : ∀ cr, steps R (client_PatchStatus cr).

Lemma steps_patch : steps (in_world R) patch.
Proof. unfold patch, the_cr. steps. Qed.
#[local] Hint Resolve steps_patch : steps.

Lemma steps_UpdateStatus reason t st msg : steps (in_world R) (UpdateStatus reason t st msg).
Proof. unfold UpdateStatus. steps. Qed.

Lemma steps_RemoveStatus reason : steps (in_world R) (RemoveStatus reason).
Proof. unfold RemoveStatus. steps. Qed.

Lemma steps_IsStatusFailed reason : steps (in_world R) (IsStatusFailed (W:=W) reason).
Proof. unfold IsStatusFailed. steps. Qed.
End steps.

Lemma GetCondition_Some conds reason i c :
  GetCondition conds reason = Some (i, c) ↔
  reason ≠ "" ∧ conds !! i = Some c ∧ LoggingServiceCondition_Reason c = reason ∧
  ∀ j y, conds !! j = Some y → j < i → LoggingServiceCondition_Reason y ≠ reason.
Proof.
  unfold GetCondition. case_bool_decide as Hd.
  - rewrite list_find_Some. split; [|naive_solver].
    intros (? & ? & ?). split_and!; [|done..]. by intros ->; destruct Hd as [[] _].
  - split; [done|]. intros (Hr & Hi & _). destruct Hd. split.
    + by destruct reason.
    + by destruct conds.
Qed.

Lemma GetCondition_None conds reason :
  GetCondition conds reason = None ↔
  reason = "" ∨ Forall (λ c, LoggingServiceCondition_Reason c ≠ reason) conds.
Proof.
  unfold GetCondition. case_bool_decide as Hd.
  - rewrite list_find_None. split; [by right|]. intros [->|?]; [|done]. by destruct Hd as [[] _].
  - split; [|done]. intros _.
    destruct reason; [by left|]. right. destruct conds as [|c conds]; [done|].
    destruct Hd. by split.
Qed.

(** The reasons that occur, each once. *)
Definition reasons (conds : list LoggingServiceCondition) : list string :=
  LoggingServiceCondition_Reason <$> conds.

Lemma remove_temporary_take spec n conds b :
  n ≤ length conds →
  remove_temporary spec n conds b =
  Some (take (length conds - length (filter (λ c, keeps_condition spec c = false) (take n conds)))
             conds,
        b || negb (bool_decide (Forall (λ c, keeps_condition spec c = true) (take n conds)))).
Proof.
  revert conds b. induction n as [|i IH]; intros conds b Hn; cbn [remove_temporary].
  - cbn. rewrite Nat.sub_0_r, take_ge by done. by rewrite orb_false_r.
  - destruct (lookup_lt_is_Some_2 conds i ltac:(lia)) as [c Hc]. rewrite Hc.
    rewrite (take_S_r _ _ c), filter_app, length_app by done.
    destruct (keeps_condition spec c) eqn:Hk.
    + rewrite IH by lia. do 2 f_equal.
      * rewrite (filter_cons_False _ c []) by congruence. cbn. by rewrite Nat.add_0_r.
      * f_equal. f_equal. apply bool_decide_ext. rewrite Forall_app, Forall_singleton. tauto.
    + rewrite IH by (rewrite length_take; lia).
      rewrite (filter_cons_True _ c []) by done.
      rewrite length_take, take_take, (take_take conds i).
      replace (i `min` (length conds - 1)) with i by lia. do 2 f_equal.
      * rewrite length_cons. cbn [length filter list_filter].
        pose proof (length_filter (λ c, keeps_condition spec c = false) (take i conds)) as Hf.
        rewrite length_take in Hf. f_equal. lia.
      * cbn. rewrite bool_decide_eq_false_2; [by destruct b|].
        rewrite Forall_app, Forall_singleton. intros [_ ?]. congruence.
Qed.

Section status_lemmas.
Context `{KubeClientLaws W}.
Implicit Types (s : op W).

Lemma patch_wp s :
  wp patch (λ _ s', cr_frame s s' ∧ conditions s' = conditions s)
    (λ _ s', cr_frame s s' ∧ conditions s' = conditions s) s.
Proof.
  unfold patch, the_cr. wp_simpl.
  pose proof (client_PatchStatus_spec (op_cr s) (op_world s)) as Hp.
  unfold wp in *.
  destruct (client_PatchStatus (op_cr s) (op_world s)) as [w' [cr'|e|]] eqn:Hr; [| |done].
  - destruct Hp as (Ho & Hnow & Hst & Hname & Hns). split; [|by unfold conditions; rewrite <- Hst].
    split; try done. intros Hstable. by apply (patch_spec_stable _ _ _ _ Hr).
  - by destruct Hp.
Qed.

Lemma logged_patch_wp s :
  wp (logged patch) (λ _ s', cr_frame s s' ∧ conditions s' = conditions s) (λ _ _, False) s.
Proof. rewrite wp_logged. apply (wp_mono _ _ _ _ _ _ (patch_wp s)); naive_solver. Qed.

(** Writing conditions and patching them: the server's answer has them. *)
Lemma set_and_patch_wp c s :
  wp (modify (set_conditions c);; logged patch)
    (λ _ s', cr_frame s s' ∧ conditions s' = c) (λ _ _, False) s.
Proof.
  rewrite wp_bind, wp_modify. eapply wp_mono; [apply logged_patch_wp| |done].
  cbn. intros _ s' [Hf Hc]. split; [|by rewrite Hc].
  etrans; [apply cr_frame_set_conditions|exact Hf].
Qed.

Lemma RemoveStatus_wp reason s :
  wp (RemoveStatus reason)
    (λ removed s', cr_frame s s' ∧
      match GetCondition (conditions s) reason with
      | Some (i, c) => removed = true ∧ conditions s' = swap_remove i (conditions s)
      | None => removed = false ∧ conditions s' = conditions s
      end) (λ _ _, False) s.
Proof.
  unfold RemoveStatus. rewrite wp_bind, wp_gets.
  destruct (GetCondition (conditions s) reason) as [[i c]|]; [|by wp_simpl].
  apply wp_bind, wp_modify, wp_bind.
  pose proof (set_and_patch_wp (swap_remove i (conditions s)) s) as Hp.
  rewrite wp_bind, wp_modify in Hp.
  apply (wp_mono _ _ _ _ _ _ Hp); [|done]. intros _ s' [Hf Hc]. by apply wp_ret.
Qed.

(** The conditions after [UpdateStatus]. *)
Definition updated_conditions (conds : list LoggingServiceCondition)
    (c : LoggingServiceCondition) : list LoggingServiceCondition :=
  match GetCondition conds (LoggingServiceCondition_Reason c) with
  | Some (i, old) =>
      if String.eqb (LoggingServiceCondition_Type c) Failed && IsStatusEqual c old then conds
      else <[i := c]> conds
  | None => conds ++ [c]
  end.

Lemma UpdateStatus_wp reason t st msg s :
  wp (UpdateStatus reason t st msg)
    (λ _ s', cr_frame s s' ∧
      conditions s' = updated_conditions (conditions s)
        (mkLoggingServiceCondition t reason msg (meta_Now_String (op_world s)) st))
    (λ _ _, False) s.
Proof.
  unfold UpdateStatus, updated_conditions. rewrite wp_bind, wp_gets, wp_bind, wp_gets.
  cbn [LoggingServiceCondition_Reason LoggingServiceCondition_Type].
  destruct (GetCondition (conditions s) reason) as [[i old]|];
    [destruct (String.eqb t Failed && IsStatusEqual _ old)|].
  - by wp_simpl.
  - apply set_and_patch_wp.
  - apply set_and_patch_wp.
Qed.

Lemma RemoveTemporaryStatuses_wp s :
  wp RemoveTemporaryStatuses
    (λ _ s', cr_frame s s' ∧
      conditions s' =
        take (length (filter (λ c, keeps_condition (LoggingService_Spec (op_cr s)) c = true)
                        (conditions s))) (conditions s)) (λ _ _, False) s.
Proof.
  unfold RemoveTemporaryStatuses. rewrite wp_bind, wp_gets, wp_bind, wp_gets.
  rewrite remove_temporary_take, (take_ge _ (length (conditions s))) by lia.
  set (kept := λ c, keeps_condition (LoggingService_Spec (op_cr s)) c).
  pose proof (length_filter_bool kept (conditions s)) as Hlen.
  replace (length (conditions s) - _) with (length (filter (λ c, kept c = true) (conditions s)))
    by (unfold kept in *; lia).
  rewrite wp_bind, wp_deref. cbn beta iota. rewrite wp_bind, wp_modify, wp_when.
  case_bool_decide as Hall; cbn [orb negb].
  - done.
  - eapply wp_mono; [apply logged_patch_wp| |done]. cbn. intros _ s' [Hf Hc].
    split; [by etrans; [apply cr_frame_set_conditions|exact Hf]|done].
Qed.

Lemma IsStatusFailed_wp reason s Q E :
  wp (IsStatusFailed reason) Q E s ↔
  Q match GetCondition (conditions s) reason with
    | Some (_, c) => String.eqb (LoggingServiceCondition_Type c) Failed
    | None => false
    end s.
Proof. unfold IsStatusFailed. by wp_simpl. Qed.

End status_lemmas.

(** ** At most one condition per reason *)

Lemma reasons_insert_same conds i c old :
  conds !! i = Some old → LoggingServiceCondition_Reason c = LoggingServiceCondition_Reason old →
  reasons (<[i := c]> conds) = reasons conds.
Proof.
  intros Hi Heq. unfold reasons. rewrite list_fmap_insert, Heq.
  apply list_insert_id. by rewrite list_lookup_fmap, Hi.
Qed.

Lemma updated_conditions_NoDup conds c :
  LoggingServiceCondition_Reason c ≠ "" →
  NoDup (reasons conds) → NoDup (reasons (updated_conditions conds c)).
Proof.
  intros Hne Hnd. unfold updated_conditions.
  destruct (GetCondition conds _) as [[i old]|] eqn:Hg.
  - apply GetCondition_Some in Hg as (_ & Hi & Hr & _). case_match; [done|].
    by rewrite (reasons_insert_same _ _ _ old).
  - apply GetCondition_None in Hg as [?|Hall]; [done|].
    unfold reasons. rewrite fmap_app. apply NoDup_app. split_and!; [done| |apply NoDup_singleton].
    intros r Hr%list_elem_of_fmap [= ->]%list_elem_of_singleton.
    destruct Hr as (c' & Heq & Hin). rewrite Forall_forall in Hall. by apply (Hall c' Hin).
Qed.

(** Another reason's conditions are the same before and after. *)
Lemma updated_conditions_other conds c c' :
  LoggingServiceCondition_Reason c' ≠ LoggingServiceCondition_Reason c →
  c' ∈ updated_conditions conds c ↔ c' ∈ conds.
Proof.
  intros Hne. unfold updated_conditions. destruct (GetCondition conds _) as [[i old]|] eqn:Hg.
  - apply GetCondition_Some in Hg as (_ & Hi & Hr & _). case_match; [done|].
    rewrite !list_elem_of_lookup. split; intros [j Hj]; exists j;
      (destruct (decide (i = j)) as [<-|Hij]; [|by rewrite list_lookup_insert_ne in * by done]).
    + rewrite list_lookup_insert_eq in Hj by eauto using lookup_lt_Some. congruence.
    + congruence.
  - rewrite elem_of_app, list_elem_of_singleton. split; [|by left]. intros [?| ->]; done.
Qed.

(** The reason's condition says what was reported. *)
Lemma updated_conditions_self conds c :
  LoggingServiceCondition_Reason c ≠ "" →
  ∃ c', c' ∈ updated_conditions conds c ∧
    c' <| LoggingServiceCondition_LastTransitionTime :=
      LoggingServiceCondition_LastTransitionTime c |> = c ∧
    (LoggingServiceCondition_Type c ≠ Failed → c' = c).
Proof.
  intros Hne. unfold updated_conditions. destruct (GetCondition conds _) as [[i old]|] eqn:Hg.
  - apply GetCondition_Some in Hg as (_ & Hi & Hr & _).
    destruct (String.eqb_spec (LoggingServiceCondition_Type c) Failed) as [Hf|Hf]; cbn [andb].
    + destruct (IsStatusEqual c old) eqn:Heq.
      * exists old. split_and!; [by eapply list_elem_of_lookup_2| |done].
        apply bool_decide_eq_true in Heq. rewrite <- Heq. by destruct c.
      * exists c. split_and!; [|by destruct c|done].
        apply list_elem_of_lookup. exists i.
        apply list_lookup_insert_eq. by eapply lookup_lt_Some.
    + exists c. split_and!; [|by destruct c|done].
      apply list_elem_of_lookup. exists i.
      apply list_lookup_insert_eq. by eapply lookup_lt_Some.
  - exists c. split_and!; [|by destruct c|done]. rewrite elem_of_app, list_elem_of_singleton. by right.
Qed.

(** What is new is there as it was reported. *)
Lemma updated_conditions_new conds c :
  (LoggingServiceCondition_Type c = Failed → ∀ i c',
     GetCondition conds (LoggingServiceCondition_Reason c) = Some (i, c') →
     c' <| LoggingServiceCondition_LastTransitionTime := LoggingServiceCondition_LastTransitionTime c |> ≠ c) →
  c ∈ updated_conditions conds c.
Proof.
  intros Hnew. unfold updated_conditions. destruct (GetCondition conds _) as [[i old]|] eqn:Hg.
  - apply GetCondition_Some in Hg as Hi. destruct Hi as (_ & Hi & _).
    assert (Hin : c ∈ <[i := c]> conds).
    { apply list_elem_of_lookup. exists i. apply list_lookup_insert_eq. by eapply lookup_lt_Some. }
    destruct (String.eqb_spec (LoggingServiceCondition_Type c) Failed) as [Hf|Hf]; [|done]. cbn [andb].
    destruct (IsStatusEqual c old) eqn:Heq; [|done]. exfalso. apply (Hnew Hf i old eq_refl).
    apply bool_decide_eq_true in Heq. rewrite <- Heq. by destruct c.
  - apply elem_of_app. right. by apply list_elem_of_singleton.
Qed.

Lemma swap_remove_reasons_NoDup conds i c :
  conds !! i = Some c → NoDup (reasons conds) →
  NoDup (reasons (swap_remove i conds)) ∧
  LoggingServiceCondition_Reason c ∉ reasons (swap_remove i conds).
Proof.
  intros Hi Hnd. unfold reasons in *. rewrite (swap_remove_perm i conds c Hi) in Hnd.
  cbn in Hnd. apply NoDup_cons in Hnd. tauto.
Qed.

(** The operations on the status, as steps. *)
Inductive status_step `{KubeClient W} : op W → op W → Prop :=
| step_UpdateStatus s s' reason t st msg :
    reason ≠ "" → UpdateStatus reason t st msg s = (s', Ret tt) → status_step s s'
| step_RemoveStatus s s' reason b :
    RemoveStatus reason s = (s', Ret b) → status_step s s'
| step_RemoveTemporaryStatuses s s' :
    RemoveTemporaryStatuses s = (s', Ret tt) → status_step s s'.

(** ** Properties *)

Section properties.
Context `{KubeClientLaws W}.

(** C21: however many status operations a reconcile cycle performs, and whether
    the patches reach the server or not, no reason ever has two conditions; and
    the operations touch nothing but the status: every object of the cluster, the
    pending components and the identity of the custom resource stay. *)
Theorem status_reachable_invariant (s s' : op W) :
  rtc status_step s s' → NoDup (reasons (conditions s)) →
  NoDup (reasons (conditions s')) ∧ cr_frame s s'.
Proof.
  induction 1 as [s|s1 s2 s3 Hstep _ IH]; intros Hnd; [done|].
  assert (NoDup (reasons (conditions s2)) ∧ cr_frame s1 s2) as [Hnd2 Hf].
  { destruct Hstep as [s s' reason t st msg Hne Hr|s s' reason b Hr|s s' Hr].
    - destruct (wp_run _ _ _ _ _ _ (UpdateStatus_wp reason t st msg s) Hr) as [Hf ->].
      split; [by apply updated_conditions_NoDup|done].
    - destruct (wp_run _ _ _ _ _ _ (RemoveStatus_wp reason s) Hr) as [Hf Hc]. split; [|done].
      destruct (GetCondition _ _) as [[i c]|] eqn:Hg; destruct Hc as [_ ->]; [|done].
      apply GetCondition_Some in Hg as (_ & Hi & _). by eapply swap_remove_reasons_NoDup.
    - destruct (wp_run _ _ _ _ _ _ (RemoveTemporaryStatuses_wp s) Hr) as [Hf ->].
      split; [|done]. unfold reasons in *. rewrite fmap_take. by apply NoDup_take. }
  destruct (IH Hnd2). split; [done|]. by etrans.
Qed.

(** What is reported again is not written. *)
Lemma UpdateStatus_unwritten reason t st msg (s : op W) :
  wp (UpdateStatus reason t st msg) (λ _ s',
    t = Failed → ∀ i c', GetCondition (conditions s) reason = Some (i, c') →
      c' <| LoggingServiceCondition_LastTransitionTime := meta_Now_String (op_world s) |>
        = mkLoggingServiceCondition t reason msg (meta_Now_String (op_world s)) st → s' = s) (λ _ _, True) s.
Proof.
  eapply wp_mono; [apply wp_self, UpdateStatus_wp| |done]. intros [] s' [Hrun _] -> i c' Hc Heq.
  unfold UpdateStatus, gets, mbind, M_bind in Hrun. rewrite Hc in Hrun. cbn [fst snd] in Hrun.
  rewrite String.eqb_refl in Hrun. cbn [andb] in Hrun.
  unfold IsStatusEqual in Hrun. rewrite bool_decide_eq_true_2 in Hrun.
  - by injection Hrun.
  - rewrite <- Heq. by destruct c'.
Qed.

(** C22: reporting a status.  [UpdateStatus] never fails or panics; afterwards the
    reason has a condition with exactly the reported type, message and status
    and a new time, except that when a [Failed] status is reported and the reason has an
    identical condition, the time aside, nothing is written and nothing changes at all;
    and the conditions of all other reasons are those that were there.  The reason is not
    empty. *)
Theorem UpdateStatus_reports reason t st msg (s : op W) :
  reason ≠ "" →
  wp (UpdateStatus reason t st msg) (λ _ s',
    let c := mkLoggingServiceCondition t reason msg (meta_Now_String (op_world s)) st in
    cr_frame s s' ∧
    (∃ c', c' ∈ conditions s' ∧
      c' <| LoggingServiceCondition_LastTransitionTime := meta_Now_String (op_world s) |> = c ∧
      (t ≠ Failed → c' = c)) ∧
    (t = Failed → ∀ i c', GetCondition (conditions s) reason = Some (i, c') →
      c' <| LoggingServiceCondition_LastTransitionTime := meta_Now_String (op_world s) |> = c → s' = s) ∧
    ((t = Failed → ∀ i c', GetCondition (conditions s) reason = Some (i, c') →
       c' <| LoggingServiceCondition_LastTransitionTime := meta_Now_String (op_world s) |> ≠ c) →
     c ∈ conditions s') ∧
    (∀ c', LoggingServiceCondition_Reason c' ≠ reason → c' ∈ conditions s' ↔ c' ∈ conditions s))
    (λ _ _, False) s.
Proof.
  intros Hne. eapply wp_mono; [apply wp_conj; [apply UpdateStatus_wp|apply UpdateStatus_unwritten]| |by intros e s' [[] _]].
  intros _ s' [[Hf Hc] Hsame] c. rewrite Hc. split_and!; [done| |done| |].
  - by apply (updated_conditions_self (conditions s) c).
  - intros Hnew. by apply updated_conditions_new.
  - intros c' Hc'. by apply (updated_conditions_other (conditions s) c).
Qed.

(** C23: [RemoveTemporaryStatuses] never runs out of range and keeps as many
    conditions as the custom resource still needs, but by position: what remains
    is the prefix of that length.  When every condition is needed the status is
    not even written. *)
Theorem RemoveTemporaryStatuses_prefix (s : op W) :
  let kept c := keeps_condition (LoggingService_Spec (op_cr s)) c = true in
  wp RemoveTemporaryStatuses (λ _ s',
    cr_frame s s' ∧
    conditions s' = take (length (filter kept (conditions s))) (conditions s))
    (λ _ _, False) s ∧
  (Forall kept (conditions s) → (RemoveTemporaryStatuses s).1 = s).
Proof.
  intros kept. split; [apply RemoveTemporaryStatuses_wp|].
  intros Hall. unfold RemoveTemporaryStatuses, gets, mbind, M_bind.
  rewrite remove_temporary_take, (take_ge _ (length (conditions s))) by lia.
  cbn [deref mret M_ret fst].
  assert (Hnil : filter (λ c, keeps_condition (LoggingService_Spec (op_cr s)) c = false)
                   (conditions s) = []).
  { apply filter_none. eapply Forall_impl; [exact Hall|]. unfold kept. cbn. congruence. }
  rewrite Hnil, bool_decide_eq_true_2 by done. cbn.
  rewrite Nat.sub_0_r, take_ge by lia. by destruct s as [? [? ? []] ?].
Qed.

(** Removing a status.  When the reason has a condition [RemoveStatus] says so
    and removes that condition and no other (their order may change), so that none
    with the reason remains; otherwise it changes nothing. *)
Theorem RemoveStatus_removes reason (s : op W) :
  NoDup (reasons (conditions s)) →
  wp (RemoveStatus reason) (λ removed s',
    cr_frame s s' ∧
    if removed
    then (∃ c, LoggingServiceCondition_Reason c = reason ∧ conditions s ≡ₚ c :: conditions s') ∧
         GetCondition (conditions s') reason = None
    else GetCondition (conditions s) reason = None ∧ conditions s' = conditions s)
    (λ _ _, False) s.
Proof.
  intros Hnd. eapply wp_mono; [apply RemoveStatus_wp| |done].
  intros removed s' [Hf Hc]. split; [done|].
  destruct (GetCondition (conditions s) reason) as [[i c]|] eqn:Hg; destruct Hc as [-> Hc]; [|done].
  apply GetCondition_Some in Hg as (_ & Hi & Hr & _). rewrite Hc. split.
  - exists c. split; [done|]. by apply swap_remove_perm.
  - apply GetCondition_None. right. apply Forall_forall. intros c' Hin Hr'.
    destruct (swap_remove_reasons_NoDup (conditions s) i c Hi Hnd) as [_ Hnin].
    apply Hnin. rewrite Hr, <- Hr'. unfold reasons. by apply list_elem_of_fmap_2.
Qed.
End properties.

(** ** Witnesses *)

(** A condition of the given reason and type, and a state with given conditions in
    an empty cluster whose status patches may fail. *)
Definition example_condition (reason t : string) : LoggingServiceCondition :=
  zero <| LoggingServiceCondition_Reason := reason |> <| LoggingServiceCondition_Type := t |>.

Definition example_status (patch_fails : bool) (c : list LoggingServiceCondition) : op Mem :=
  set_conditions c (mkOp (zero <| Mem_patch_fails := patch_fails |>) zero []).

Lemma status_reachable_invariant_witness :
  let s := example_status true [example_condition GraylogStatus Failed] in
  let s' := (UpdateStatus FluentdStatus InProgress false "x" s).1 in
  rtc status_step s s' ∧ NoDup (reasons (conditions s)) ∧ NoDup (reasons (conditions s')).
Proof.
  intros s s'.
  assert (Hs : rtc status_step s s').
  { apply rtc_once. by eapply (step_UpdateStatus _ _ FluentdStatus InProgress false "x"). }
  assert (Hnd : NoDup (reasons (conditions s))) by apply NoDup_singleton.
  split_and!; [done|done|]. exact (proj1 (status_reachable_invariant s s' Hs Hnd)).
Defined.

Lemma UpdateStatus_reports_witness :
  let s := example_status true [example_condition GraylogStatus Failed] in
  FluentdStatus ≠ "" ∧
  example_condition GraylogStatus Failed ∈ conditions (UpdateStatus FluentdStatus Failed false "x" s).1.
Proof.
  intros s. split; [done|].
  destruct (wp_eval _ _ _ _ tt (UpdateStatus_reports FluentdStatus Failed false "x" s ltac:(done))
              eq_refl) as (_ & _ & Ho).
  apply Ho; [done|left].
Defined.

(** The condition of the reconcile cycle, which is to be kept, is dropped when it
    comes after a temporary one, and the temporary one stays. *)
Lemma RemoveTemporaryStatuses_prefix_witness :
  let s := example_status false [example_condition FluentbitStatus InProgress;
                                 example_condition LoggingServiceStatusReason Failed] in
  conditions (RemoveTemporaryStatuses s).1 = [example_condition FluentbitStatus InProgress].
Proof.
  intros s. destruct (RemoveTemporaryStatuses_prefix s) as [Hw _].
  destruct (wp_eval _ _ _ _ tt Hw eq_refl) as [_ Hc]. exact Hc.
Defined.

Lemma RemoveStatus_removes_witness :
  let s := example_status false [example_condition GraylogStatus Failed;
                                 example_condition FluentdStatus InProgress] in
  NoDup (reasons (conditions s)) ∧
  GetCondition (conditions (RemoveStatus GraylogStatus s).1) GraylogStatus = None.
Proof.
  intros s.
  assert (Hnd : NoDup (reasons (conditions s))).
  { apply NoDup_cons. split; [|apply NoDup_singleton]. by intros ?%list_elem_of_singleton. }
  split; [exact Hnd|].
  exact (proj2 (proj2 (wp_eval _ _ _ _ true (RemoveStatus_removes GraylogStatus s Hnd) eq_refl))).
Defined.
