(* ===== verification/Component.v ===== *)
(** * Access to the cluster shared by the reconcilers

    internal/utils/common.go ([ComponentReconciler]) and config_secret.go.  A Go
    function that changes the object it is given and returns an error returns
    here the object as it is after the call together with the error. *)

From Stdlib Require Import Strings.Ascii.
From S2P Require Import Prelude GoStrings KubeTypes Api Client Labels Operator.

(** [GetTagFromImage]: the tag of an image, its digest cut off. *)
Definition GetTagFromImage (image : string) : string :=
  let '(imageWithoutDigest, _, _) := Cut image "@" in
  let partsOfImage := Split imageWithoutDigest ":" in
  default "" (partsOfImage !! (length partsOfImage - 1)).

(** [GetAggregatorIds(num)]: 0, 1, ..., num-1; [make] panics on a negative length. *)
Definition GetAggregatorIds (num : Z) : option (list Z) :=
  if bool_decide (num < 0)%Z then None else Some (Z.of_nat <$> seq 0 (Z.to_nat num)).

(** The errors of [SetControllerReference] that [CreateResource] tolerates. *)
Definition owner_not_allowed (e : error) : bool :=
  Contains (err_msg e) "cluster-scoped resource must not have a namespace-scoped owner"
  || Contains (err_msg e) "cross-namespace owner references are disallowed".

Section ComponentReconciler.
Context {W : Type} `{KubeClient W}.
Context {T : Type} `{K8sObject T}.

(** [controllerutil.SetControllerReference(cr, o, scheme)], with the errors that
    the callers tolerate. *)
Definition set_controller_reference (cr : LoggingService) (o : T) : error + T :=
  match SetControllerReference cr (to_object o) with
  | inr refs => inr (set_meta (SetOwnerReferences refs (get_meta o)) o)
  | inl e => if owner_not_allowed e then inr o else inl e
  end.

Definition CreateResource (o : T) (setRef : bool) : M (op W) (T * option error) :=
  cr ← the_cr;
  match (if setRef then set_controller_reference cr o else inr o) with
  | inl e => mret (o, Some e)
  | inr o =>
      r ← attempt (lift (client_Create (to_object o)));
      mret (o, match r with inl e => Some e | inr _ => None end)
  end.

(** The object the client decodes into a variable of type [T]. *)
Definition get_typed (k : ObjectKey) : M (op W) T :=
  o ← lift (client_Get k);
  deref (of_object o).

Definition GetResource (o : T) : M (op W) T :=
  let objectKey := key_of o in
  r ← attempt (get_typed objectKey);
  match r with
  | inr x => mret x
  | inl e =>
      if IsNotFound e then
        r2 ← attempt (get_typed (mkObjectKey (ObjectKey_Kind objectKey) "" (ObjectKey_Name objectKey)));
        match r2 with inr x => mret x | inl _ => fail e end
      else fail e
  end.

Definition UpdateResource (o : T) : M (op W) unit := lift (client_Update (to_object o)).

Definition DeleteResource (o : T) : M (op W) unit := lift (client_Delete (key_of o)).

(** The body shared by the [delete...] functions of the handlers: read the object,
    treat its absence as success, delete it. *)
Definition delete_existing (e : T) : M (op W) unit :=
  r ← attempt (GetResource e);
  match r with
  | inl err => if IsNotFound err then mret tt else fail err
  | inr e => DeleteResource e
  end.
End ComponentReconciler.

(** ** Configuration Secrets *)

(** [cmp.Equal] distinguishes a nil map from an empty one. *)
Definition EqualConfigSecret (source target : Secret) : bool :=
  bool_decide (Secret_Data source = Secret_Data target)
  && bool_decide (GetLabels source = GetLabels target).

Section config_secret.
Context {W : Type} `{KubeClient W}.

Definition CreateOrUpdateConfigSecret (secret : Secret) : M (op W) bool :=
  '(secret, err) ← CreateResource secret true;
  match err with
  | None => mret true
  | Some e =>
      if negb (IsAlreadyExists e) then fail e
      else
        existingSecret ← GetResource (zero <| Secret_ObjectMeta := Secret_ObjectMeta secret |>);
        if EqualConfigSecret existingSecret secret then mret false
        else
          let version := ObjectMeta_ResourceVersion (Secret_ObjectMeta existingSecret) in
          UpdateResource (secret <| Secret_ObjectMeta ::= SetResourceVersion version |>);;
          mret true
  end.

Definition DeleteLegacyConfigMap (namespace name : string) : M (op W) unit :=
  delete_existing (zero <| ConfigMap_ObjectMeta := named name namespace |>).
End config_secret.

(** ** Lemmas *)

Section component_lemmas.
Context {W : Type} `{KubeClientLaws W}.
Context {T : Type} `{K8sObjectLaws T}.
Implicit Types (s : op W) (o : T).

(** What is stored under a key of the kind of [T] is a [T]. *)
Lemma objects_typed w k obj :
  ObjectKey_Kind k = kind_of T → objects w !! k = Some obj →
  ∃ x : T, of_object obj = Some x ∧ obj = to_object x ∧ key_of x = k.
Proof.
  intros Hkind Hk. pose proof (objects_keyed _ _ _ Hk) as [Hkey _].
  destruct (of_object_kind obj) as [x Hx].
  { rewrite <- Hkind, <- Hkey. done. }
  exists x. pose proof (to_of_object _ _ Hx) as ->. split_and!; [done..|].
  by rewrite <- Hkey, object_key_to_object.
Qed.

Lemma get_typed_wp k s :
  ObjectKey_Kind k = kind_of T →
  wp (get_typed k)
    (λ (x : T) s', quiet s s' ∧ objects (op_world s) !! k = Some (to_object x))
    (λ e s', quiet s s' ∧ (IsNotFound e = true → objects (op_world s) !! k = None)) s.
Proof.
  intros Hkind. unfold get_typed. rewrite wp_bind, wp_lift.
  eapply wp_mono; [apply client_Get_spec| |].
  - intros obj w' (Ho & Hnow & Hk). destruct (objects_typed _ _ _ Hkind Hk) as (x & Hx & -> & _).
    rewrite Hx, wp_deref. auto.
  - intros e w' (Ho & Hnow & Hk). auto.
Qed.

(** The second attempt of [GetResource] finds nothing: no object is outside a
    namespace. *)
Lemma GetResource_wp o s :
  wp (GetResource o)
    (λ (x : T) s', quiet s s' ∧ objects (op_world s) !! key_of o = Some (to_object x))
    (λ e s', quiet s s' ∧ (IsNotFound e = true → objects (op_world s) !! key_of o = None)) s.
Proof.
  unfold GetResource. rewrite wp_bind, wp_attempt.
  eapply wp_mono; [by apply (get_typed_wp (key_of o))| |].
  - intros x s' [Hq Hk]. by rewrite wp_ret.
  - intros e s' [Hq Hk]. destruct (IsNotFound e) eqn:He; [|rewrite wp_fail; split; [done|congruence]].
    rewrite wp_bind, wp_attempt. eapply wp_mono; [by apply get_typed_wp| |].
    + intros x s'' [Hq' Hx]. by apply objects_keyed in Hx as [_ []].
    + intros e' s'' [Hq' _]. rewrite wp_fail. split; [by etrans|auto].
Qed.

(** [delete_existing] leaves the object absent, or fails and changes nothing. *)
Lemma delete_existing_wp o s :
  wp (delete_existing o)
    (λ _ s', cluster_only s s' ∧ objects (op_world s') = delete (key_of o) (objects (op_world s)))
    (λ _ s', quiet s s') s.
Proof.
  unfold delete_existing. rewrite wp_bind, wp_attempt.
  eapply wp_mono; [apply GetResource_wp| |]; intros r s' [Hq Hr].
  - pose proof (objects_keyed _ _ _ Hr) as [Hkey _]. rewrite object_key_to_object in Hkey.
    unfold DeleteResource. rewrite wp_lift, Hkey.
    eapply wp_mono; [apply client_Delete_spec| |]; destruct Hq as [[Hn Hc Hp] Ho].
    + intros _ w' (_ & Hd & Hnow). split; [split; cbn; [lia|done..]|cbn; by rewrite Hd, Ho].
    + intros e w' (Ho' & Hnow). split; [split; cbn; [lia|done..]|cbn; congruence].
  - destruct (IsNotFound r) eqn:He; [|by rewrite wp_fail].
    rewrite wp_ret. split; [auto|]. cbn. rewrite (quiet_objects _ _ Hq). symmetry.
    by apply delete_id, Hr.
Qed.

Lemma set_controller_reference_key cr o o' :
  set_controller_reference cr o = inr o' →
  key_of o' = key_of o ∧ GetLabels o' = GetLabels o ∧
  ∃ refs, o' = o ∨ o' = set_meta (SetOwnerReferences refs (get_meta o)) o.
Proof.
  unfold set_controller_reference, key_of, GetLabels.
  case_match; [case_match|]; intros [= <-]; rewrite ?get_set_meta.
  - split_and!; [done..|]. exists []. by left.
  - split_and!; [done..|]. eexists. by right.
Qed.

(** The object as [CreateResource] sends it. *)
Definition owned (setRef : bool) (cr : LoggingService) (o : T) : T :=
  if setRef then match set_controller_reference cr o with inr o' => o' | inl _ => o end else o.

Lemma owned_key setRef cr o : key_of (owned setRef cr o) = key_of o.
Proof.
  unfold owned. destruct setRef; [|done]. case_match eqn:Hs; [done|].
  by apply set_controller_reference_key in Hs as [-> _].
Qed.

Lemma owned_labels setRef cr o : GetLabels (owned setRef cr o) = GetLabels o.
Proof.
  unfold owned. destruct setRef; [|done]. case_match eqn:Hs; [done|].
  by apply set_controller_reference_key in Hs as (_ & -> & _).
Qed.

Lemma CreateResource_wp o setRef s :
  wp (CreateResource o setRef)
    (λ r s', cluster_only s s' ∧ r.1 = owned setRef (op_cr s) o ∧
      match r.2 with
      | None =>
          objects (op_world s) !! key_of o = None ∧
          objects (op_world s') = <[key_of o := stored (op_world s) (to_object r.1)]> (objects (op_world s))
      | Some e =>
          quiet s s' ∧ (IsAlreadyExists e = true →
            is_Some (objects (op_world s) !! key_of o) ∨ set_controller_reference (op_cr s) o = inl e)
      end)
    (λ _ _, False) s.
Proof.
  unfold CreateResource, the_cr. rewrite wp_bind, wp_gets.
  assert (Hsend : wp (r ← attempt (lift (client_Create (to_object (owned setRef (op_cr s) o))));
                      mret (owned setRef (op_cr s) o, match r with inl e => Some e | inr _ => None end))
    (λ r s', cluster_only s s' ∧ r.1 = owned setRef (op_cr s) o ∧
      match r.2 with
      | None =>
          objects (op_world s) !! key_of o = None ∧
          objects (op_world s') = <[key_of o := stored (op_world s) (to_object r.1)]> (objects (op_world s))
      | Some e =>
          quiet s s' ∧ (IsAlreadyExists e = true →
            is_Some (objects (op_world s) !! key_of o) ∨ set_controller_reference (op_cr s) o = inl e)
      end) (λ _ _, False) s).
  { rewrite wp_bind, wp_attempt, wp_lift. eapply wp_mono; [apply client_Create_spec| |];
      rewrite object_key_to_object, owned_key.
    - intros _ w' (Hk & Ho & Hnow). rewrite wp_ret. cbn. split_and!; auto.
    - intros e w' (Ho & Hnow & Hk). rewrite wp_ret. cbn. split_and!; auto. }
  unfold owned in *. destruct setRef; [|exact Hsend].
  destruct (set_controller_reference (op_cr s) o) as [e|o'] eqn:Hs; [|exact Hsend].
  rewrite wp_ret. cbn. auto 10.
Qed.
End component_lemmas.

(** ** Properties *)

Section config_secret_properties.
Context {W : Type} `{KubeClientLaws W}.
Implicit Types (s : op W).

(** The configuration stored under a Secret's key is the desired one. *)
Definition has_config (secret : Secret) (m : gmap ObjectKey Object) : Prop :=
  ∃ st, m !! key_of secret = Some (OSecret st) ∧
    Secret_Data st = Secret_Data secret ∧ GetLabels st = GetLabels secret.

Lemma has_config_stored w (secret : Secret) m :
  has_config secret (<[key_of secret := stored w (OSecret secret)]> m).
Proof.
  destruct (stored_secret w secret) as (st & Hst & Hd). exists st.
  rewrite lookup_insert_eq, Hst. split_and!; [done|done|].
  pose proof (stored_labels w (OSecret secret)) as Hl. by rewrite Hst in Hl.
Qed.

Lemma Secret_data_owned setRef cr (secret : Secret) :
  Secret_Data (owned setRef cr secret) = Secret_Data secret.
Proof.
  unfold owned. destruct setRef; [|done]. case_match eqn:Hs; [done|].
  apply set_controller_reference_key in Hs as (_ & _ & refs & [->| ->]); done.
Qed.

Lemma has_config_owned setRef cr secret m :
  has_config (owned setRef cr secret) m ↔ has_config secret m.
Proof. unfold has_config. by rewrite owned_key, Secret_data_owned, owned_labels. Qed.

Lemma has_config_versioned v secret m :
  has_config (secret <| Secret_ObjectMeta ::= SetResourceVersion v |>) m ↔ has_config secret m.
Proof. done. Qed.

Lemma EqualConfigSecret_true source target :
  EqualConfigSecret source target = true ↔
  Secret_Data source = Secret_Data target ∧ GetLabels source = GetLabels target.
Proof. unfold EqualConfigSecret. by rewrite andb_true_iff, !bool_decide_eq_true. Qed.

(** Every branch of [CreateOrUpdateConfigSecret]. *)
Lemma CreateOrUpdateConfigSecret_wp secret s :
  wp (CreateOrUpdateConfigSecret secret)
    (λ changed s', cluster_only s s' ∧
      has_config secret (objects (op_world s')) ∧
      (∀ k, k ≠ key_of secret → objects (op_world s') !! k = objects (op_world s) !! k) ∧
      (changed = false → quiet s s') ∧
      (has_config secret (objects (op_world s)) → changed = false))
    (λ _ s', quiet s s') s.
Proof.
  unfold CreateOrUpdateConfigSecret. rewrite wp_bind.
  eapply wp_mono; [apply CreateResource_wp| |done].
  intros [sec err] s1. cbn [fst snd]. intros (Hc & -> & Hr). cbn beta iota.
  set (sec := owned true (op_cr s) secret) in *.
  assert (Hkey : key_of sec = key_of secret) by apply owned_key.
  destruct err as [e|].
  - destruct Hr as [Hq _]. destruct (IsAlreadyExists e); cbn [negb]; [|by rewrite wp_fail].
    rewrite wp_bind. eapply wp_mono; [apply GetResource_wp| |]; cbn beta.
    2:{ intros e' s2 [Hq2 _]. by etrans. }
    intros old s2 [Hq2 Hold]. assert (Hq12 : quiet s s2) by by etrans.
    change (key_of _) with (key_of sec) in Hold. rewrite Hkey, (quiet_objects _ _ Hq) in Hold.
    destruct (EqualConfigSecret old sec) eqn:Heq.
    + rewrite wp_ret. apply EqualConfigSecret_true in Heq as [Hd Hl].
      split_and!; [auto| | |done|done].
      * rewrite (quiet_objects _ _ Hq12). exists old.
        unfold sec in *. by rewrite Hd, Hl, owned_labels, Secret_data_owned.
      * intros k _. by rewrite (quiet_objects _ _ Hq12).
    + rewrite wp_bind. unfold UpdateResource. rewrite wp_lift.
      eapply wp_mono; [apply client_Update_spec| |].
      * rewrite object_key_to_object. change (key_of (update _ _ sec)) with (key_of sec).
        rewrite Hkey. intros _ w' (_ & Ho & Hnow). rewrite wp_ret. cbn [op_world update].
        rewrite Ho, (quiet_objects _ _ Hq12). split_and!.
        -- etrans; [apply (quiet_cluster_only _ _ Hq12)|auto].
        -- rewrite <- (has_config_owned true (op_cr s)). fold sec.
           rewrite <- (has_config_versioned (ObjectMeta_ResourceVersion (Secret_ObjectMeta old))).
           rewrite <- Hkey. set (new := sec <| Secret_ObjectMeta ::= _ |>).
           exact (has_config_stored _ new _).
        -- intros k Hk. by rewrite lookup_insert_ne.
        -- done.
        -- intros (st & Hst & Hd & Hl). rewrite Hold in Hst. injection Hst as <-.
           enough (EqualConfigSecret old sec = true) by congruence.
           apply EqualConfigSecret_true.
           unfold sec. by rewrite Secret_data_owned, owned_labels.
      * intros e' w' (Ho & Hnow). etrans; [exact Hq12|]. auto.
  - destruct Hr as [Hnone Ho]. rewrite wp_ret, Ho. split_and!; [done| | |done|].
    + rewrite <- (has_config_owned true (op_cr s)), <- Hkey. apply has_config_stored.
    + intros k Hk. by rewrite lookup_insert_ne.
    + intros (st & Hst & _). congruence.
Qed.

(** C18: after [CreateOrUpdateConfigSecret] the cluster has the rendered
    configuration with the desired labels under the Secret's key, every other
    object is untouched, and the result says whether anything was written.  It is
    idempotent: a second call right after a successful one finds nothing to
    change.  When it fails, nothing but possibly that one Secret has changed. *)
Theorem CreateOrUpdateConfigSecret_converges secret s :
  wp (changed ← CreateOrUpdateConfigSecret secret;
      world ← gets op_world;
      again ← CreateOrUpdateConfigSecret secret;
      mret (changed, world, again))
    (λ '(changed, world, again) s',
      has_config secret (objects world) ∧
      (∀ k, k ≠ key_of secret → objects world !! k = objects (op_world s) !! k) ∧
      (changed = false → objects world = objects (op_world s)) ∧
      again = false ∧ objects (op_world s') = objects world ∧ op_cr s' = op_cr s)
    (λ _ s', ∀ k, k ≠ key_of secret → objects (op_world s') !! k = objects (op_world s) !! k)
    s.
Proof.
  rewrite wp_bind. eapply wp_mono; [apply CreateOrUpdateConfigSecret_wp| |].
  - intros changed s1 (Hc1 & Hhas & Hother & Hsame & _). rewrite wp_bind, wp_gets, wp_bind.
    eapply wp_mono; [apply CreateOrUpdateConfigSecret_wp| |].
    + intros again s2 (Hc2 & _ & _ & Hsame2 & Hagain).
      rewrite wp_ret. specialize (Hagain Hhas). destruct (Hsame2 Hagain) as [_ Ho].
      split_and!; [done|done| |done|done|].
      * intros Hch. by destruct (Hsame Hch).
      * by rewrite (cluster_only_cr _ _ Hc2), (cluster_only_cr _ _ Hc1).
    + intros e s2 [_ ->]. done.
  - intros e s1 [_ ->]. done.
Qed.

(** [DeleteLegacyConfigMap] leaves no ConfigMap of that name in the namespace,
    whether or not there was one, and deletes nothing else; when it fails the
    cluster is as it was. *)
Theorem DeleteLegacyConfigMap_absent namespace name s :
  let k := mkObjectKey KConfigMap namespace name in
  wp (DeleteLegacyConfigMap namespace name)
    (λ _ s', objects (op_world s') = delete k (objects (op_world s)) ∧ op_cr s' = op_cr s)
    (λ _ s', objects (op_world s') = objects (op_world s) ∧ op_cr s' = op_cr s) s.
Proof.
  intros k. unfold DeleteLegacyConfigMap. eapply wp_mono; [apply delete_existing_wp| |].
  - intros _ s' [[_ Hcr _] Ho]. by split.
  - intros _ s' [[_ Hcr _] Ho]. by split.
Qed.
End config_secret_properties.

(** The version label of a component is its image's tag: a registry with a
    port before it and a digest after it do not disturb it. *)
Theorem GetTagFromImage_tag name tag digest :
  char_free "@" name → char_free "@" tag → char_free ":" tag →
  GetTagFromImage (name +:+ ":" +:+ tag) = tag ∧
  GetTagFromImage (name +:+ ":" +:+ tag +:+ "@" +:+ digest) = tag.
Proof.
  intros Hname Htag Htag'.
  assert (Hfree : char_free "@" (name +:+ ":" +:+ tag)).
  { clear Htag'. induction name as [|c name IH]; cbn [String.append].
    - by apply char_free_cons.
    - apply char_free_cons in Hname as [? ?]. apply char_free_cons. auto. }
  assert (Hsplit : ∀ parts p, default "" ((p :: parts ++ [tag]) !!
                     (length (p :: parts ++ [tag]) - 1)) = tag).
  { intros parts p. change (p :: parts ++ [tag]) with ((p :: parts) ++ [tag]).
    rewrite length_app, Nat.add_sub, list_lookup_middle; done. }
  destruct (Split_char_last ":" name tag Htag') as (p & parts & Hs).
  unfold GetTagFromImage. split.
  - rewrite Cut_char_free by done. cbn beta iota zeta. change (":" +:+ tag) with (String ":" tag).
    rewrite Hs. apply Hsplit.
  - replace (name +:+ ":" +:+ tag +:+ "@" +:+ digest)
      with ((name +:+ ":" +:+ tag) +:+ String "@" digest)
      by by rewrite <- !(assoc_L String.append).
    rewrite Cut_char_app by done. cbn beta iota zeta. change (":" +:+ tag) with (String ":" tag).
    rewrite Hs. apply Hsplit.
Qed.

(** ** Witnesses *)

Lemma GetTagFromImage_tag_witness :
  GetTagFromImage "registry:5000/fluent/fluent-bit:v3.2@sha256:0a" = "v3.2".
Proof. by apply (GetTagFromImage_tag "registry:5000/fluent/fluent-bit" "v3.2" "sha256:0a"). Defined.

(** A run in the in-memory cluster: an outdated Secret is brought up to date. *)
Lemma CreateOrUpdateConfigSecret_converges_witness :
  let meta := named "logging-fluentd" "ns" in
  let old := OSecret (mkSecret meta "Opaque" (Some {[ "a.conf" := "1" ]})) in
  let s := mkOp (mem_store old zero) (zero <| LoggingService_ObjectMeta := named "cr" "ns" |>) [] in
  let new := mkSecret meta "Opaque" (Some {[ "a.conf" := "2" ]}) in
  (CreateOrUpdateConfigSecret new s).2 = Ret true ∧
  wp (changed ← CreateOrUpdateConfigSecret new;
      again ← CreateOrUpdateConfigSecret new; mret again) (λ again _, again = false) (λ _ _, True) s.
Proof.
  intros meta old s new. split; [by vm_compute|].
  pose proof (CreateOrUpdateConfigSecret_converges new s) as Hw.
  rewrite !wp_bind in *. eapply wp_mono; [exact Hw| |done].
  intros changed s1. rewrite !wp_bind, wp_gets, wp_bind. intros Hw1.
  eapply wp_mono; [exact Hw1| |done]. intros again s2. rewrite !wp_ret. tauto.
Defined.

Lemma DeleteLegacyConfigMap_absent_witness :
  let cm := OConfigMap (mkConfigMap (named "logging-fluentd" "ns") None None) in
  let s := mkOp (mem_store cm zero) zero [] in
  objects (op_world s) !! object_key cm = Some cm ∧
  objects (op_world (DeleteLegacyConfigMap "ns" "logging-fluentd" s).1) !! object_key cm = None.
Proof.
  intros cm s. split; [by vm_compute|].
  run_theorem (DeleteLegacyConfigMap_absent "ns" "logging-fluentd" s) tt Hw.
  rewrite (proj1 Hw). apply lookup_delete_eq.
Defined.
