(* ===== verification/Credentials.v ===== *)
(** * Credentials of the outputs: internal/utils/output_credentials.go

    The credentials an output's [Auth] block points at are read from Secrets and
    rendered into the component's configuration.  What must not happen is that a
    credential ends its line or its literal and becomes configuration. *)

From Stdlib Require Import Strings.Ascii.
From S2P Require Import Prelude GoStrings KubeTypes Api Client Operator Component.

Record AuthValues : Type := mkAuthValues {
  AuthValues_Token : string;
  AuthValues_User : string;
  AuthValues_Password : string;
}.

#[export] Instance zero_AuthValues : GoZero AuthValues := mkAuthValues zero zero zero.
#[export] Instance eta_AuthValues : Eta AuthValues := λ x,
  mkAuthValues (AuthValues_Token x) (AuthValues_User x) (AuthValues_Password x).

(** [Values] is what the destination holds, [None] a nil pointer. *)
Record OutputAuth : Type := mkOutputAuth {
  OutputAuth_Values : option AuthValues;
  OutputAuth_Enabled : bool;
  OutputAuth_Auth : option Auth;
}.

#[export] Instance eta_OutputAuth : Eta OutputAuth := λ x,
  mkOutputAuth (OutputAuth_Values x) (OutputAuth_Enabled x) (OutputAuth_Auth x).

(** A [[]byte] is the string of its bytes, so the copy keeps every value. *)
Definition StringMapToByteMap (inp : smap) : smap := (λ value, value) <$> inp.

Definition CR : string := String "013"%char "".
Definition LF : string := String "010"%char "".
Definition NUL : string := String "000"%char "".

Definition credentialValidator : Type := string → option error.

Definition validateSingleLineValue : credentialValidator := λ value,
  if ContainsAny value (CR +:+ LF +:+ NUL)
  then Some (errors_New "must not contain a line break or a NUL byte") else None.

Definition validateFluentbitValue : credentialValidator := λ value,
  match validateSingleLineValue value with
  | Some e => Some e
  | None =>
      if Contains value "${"
      then Some (errors_New ("must not contain " +:+ quoted "${" +:+
                   " because Fluent Bit expands it as an environment variable reference"))
      else None
  end.

Definition FluentdQuote (value : string) : string :=
  let escaped := ReplaceAll value "\" "\\" in
  let escaped := ReplaceAll escaped "'" "\'" in
  "'" +:+ escaped +:+ "'".

Section credentials.
Context {W : Type} `{KubeClient W}.

Definition ResolveSecretKeyValue (namespace : string) (selector : option SecretKeySelector) :
    M (op W) string :=
  match selector with
  | None => mret ""
  | Some selector =>
      let name := SecretKeySelector_Name selector in
      r ← attempt (get_typed (mkObjectKey KSecret namespace name) : M (op W) Secret);
      match r with
      | inl e =>
          fail (errorf_wrap ("cannot read secret " +:+ quoted name +:+ " in namespace "
                             +:+ quoted namespace) e)
      | inr secret =>
          let not_found := errors_New ("key " +:+ quoted (SecretKeySelector_Key selector)
            +:+ " not found or empty in secret " +:+ quoted name
            +:+ " in namespace " +:+ quoted namespace) in
          match contents (Secret_Data secret) !! SecretKeySelector_Key selector with
          | Some value => if bool_decide (len value = 0) then fail not_found else mret value
          | None => fail not_found
          end
      end
  end.

(** One turn of the loop of [resolveAuthValues]: the value for one field. *)
Definition resolve_field (namespace : string) (validate : credentialValidator)
    (selector : option SecretKeySelector) : M (op W) string :=
  match selector with
  | None => mret ""
  | Some sel =>
      value ← ResolveSecretKeyValue namespace selector;
      match validate value with
      | Some e =>
          fail (errorf ("key " +:+ quoted (SecretKeySelector_Key sel) +:+ " in secret "
                        +:+ quoted (SecretKeySelector_Name sel) +:+ " in namespace "
                        +:+ quoted namespace +:+ " " +:+ err_msg e) e)
      | None => mret value
      end
  end.

Definition resolveAuthValues (namespace : string) (auth : Auth) (validate : credentialValidator) :
    M (op W) AuthValues :=
  token ← resolve_field namespace validate (Auth_Token auth);
  user ← resolve_field namespace validate (Auth_User auth);
  password ← resolve_field namespace validate (Auth_Password auth);
  mret (mkAuthValues token user password).

(** The outputs with what their destinations hold after the loop.  (After an
    error the callers discard every destination.) *)
Fixpoint resolveOutputAuth (namespace : string) (validate : credentialValidator)
    (outputs : list OutputAuth) : M (op W) (list OutputAuth) :=
  match outputs with
  | [] => mret []
  | output :: outputs =>
      output' ←
        match OutputAuth_Enabled output, OutputAuth_Auth output, OutputAuth_Values output with
        | true, Some auth, Some _ =>
            values ← resolveAuthValues namespace auth validate;
            mret (output <| OutputAuth_Values := Some values |>)
        | _, _, _ => mret output
        end;
      outputs' ← resolveOutputAuth namespace validate outputs;
      mret (output' :: outputs')
  end.

Definition ResolveFluentdOutputAuth (namespace : string) (outputs : list OutputAuth) :
    M (op W) (list OutputAuth) :=
  resolveOutputAuth namespace validateSingleLineValue outputs.

Definition ResolveFluentbitOutputAuth (namespace : string) (outputs : list OutputAuth) :
    M (op W) (list OutputAuth) :=
  resolveOutputAuth namespace validateFluentbitValue outputs.
End credentials.

(** ** Quoting *)

(** The escaping of one character. *)
Definition quote_char (c : ascii) : string :=
  if decide (c = "\"%char) then "\\" else if decide (c = "'"%char) then "\'" else String c "".

Fixpoint quote_chars (s : string) : string :=
  match s with EmptyString => "" | String c s' => quote_char c +:+ quote_chars s' end.

Lemma FluentdQuote_chars v :
  ReplaceAll (ReplaceAll v "\" "\\") "'" "\'" = quote_chars v.
Proof.
  induction v as [|c v IH]; [done|]. rewrite ReplaceAll_char_cons. cbn [quote_chars].
  unfold quote_char. case_bool_decide as Hb.
  - subst c. rewrite decide_True by done. cbn [String.append].
    rewrite !ReplaceAll_char_cons, !bool_decide_eq_false_2 by done. by rewrite IH.
  - rewrite decide_False by congruence. rewrite ReplaceAll_char_cons.
    case_bool_decide as Hq; [rewrite decide_True by done|rewrite decide_False by congruence];
      by rewrite IH.
Qed.

(** No escaped character is the beginning of another one, or of the quote that ends the
    literal. *)
Lemma quote_char_inj c c' s s' : quote_char c +:+ s = quote_char c' +:+ s' → c = c' ∧ s = s'.
Proof.
  unfold quote_char. repeat case_decide; subst; cbn; intros Heq; injection Heq; intros; subst; done.
Qed.

Lemma quote_char_end c s s' : quote_char c +:+ s ≠ String "'" s'.
Proof. unfold quote_char. repeat case_decide; subst; cbn; intros Heq; injection Heq; intros; subst; done. Qed.

Lemma quote_chars_inj v v' r r' :
  quote_chars v +:+ String "'" r = quote_chars v' +:+ String "'" r' → v = v' ∧ r = r'.
Proof.
  revert v'. induction v as [|c v IH]; intros [|c' v']; cbn [quote_chars]; rewrite <- ?(assoc_L String.append).
  - by intros [= ->].
  - intros Heq. symmetry in Heq. by apply quote_char_end in Heq.
  - intros Heq. by apply quote_char_end in Heq.
  - intros [-> [-> ->]%IH]%quote_char_inj. done.
Qed.

Lemma ContainsAny_app s t chars : ContainsAny (s +:+ t) chars = ContainsAny s chars || ContainsAny t chars.
Proof. induction s as [|c s IH]; [done|]. cbn. by rewrite IH, orb_assoc. Qed.

(** Quoting adds no line break and hides none. *)
Lemma ContainsAny_quote v : ContainsAny (FluentdQuote v) (CR +:+ LF +:+ NUL) = ContainsAny v (CR +:+ LF +:+ NUL).
Proof.
  unfold FluentdQuote. rewrite FluentdQuote_chars, !ContainsAny_app, (orb_false_r (ContainsAny (quote_chars v) _)).
  change (ContainsAny "'" _) with false. rewrite orb_false_l.
  induction v as [|c v IH]; [done|]. cbn [quote_chars ContainsAny]. rewrite ContainsAny_app, IH. f_equal.
  unfold quote_char. repeat case_decide; subst; [done|done|]. cbn [ContainsAny]. by rewrite orb_false_r.
Qed.

(** ** What the resolution returns *)

Section resolve_lemmas.
Context {W : Type} `{KubeClientLaws W}.
Implicit Types (s : op W).

(** The value a selector points at in the cluster. *)
Definition secret_value (m : gmap ObjectKey Object) (namespace : string) (sel : SecretKeySelector) :
    option string :=
  match m !! mkObjectKey KSecret namespace (SecretKeySelector_Name sel) with
  | Some (OSecret st) => contents (Secret_Data st) !! SecretKeySelector_Key sel
  | _ => None
  end.

(** A field of [AuthValues] as it must be: empty without a selector, else the
    non-empty valid value the selector points at. *)
Definition field_resolved (validate : credentialValidator) (m : gmap ObjectKey Object)
    (namespace : string) (selector : option SecretKeySelector) (v : string) : Prop :=
  match selector with
  | None => v = ""
  | Some sel => secret_value m namespace sel = Some v ∧ v ≠ "" ∧ validate v = None
  end.

Definition auth_resolved validate m namespace (auth : Auth) (v : AuthValues) : Prop :=
  field_resolved validate m namespace (Auth_Token auth) (AuthValues_Token v) ∧
  field_resolved validate m namespace (Auth_User auth) (AuthValues_User v) ∧
  field_resolved validate m namespace (Auth_Password auth) (AuthValues_Password v).

(** The output that takes part in the resolution. *)
Definition resolvable (output : OutputAuth) : option Auth :=
  match OutputAuth_Enabled output, OutputAuth_Auth output, OutputAuth_Values output with
  | true, Some auth, Some _ => Some auth
  | _, _, _ => None
  end.

Definition output_resolved validate m namespace (output output' : OutputAuth) : Prop :=
  match resolvable output with
  | Some auth => ∃ v, output' = output <| OutputAuth_Values := Some v |> ∧
                      auth_resolved validate m namespace auth v
  | None => output' = output
  end.

Lemma resolve_field_wp validate namespace selector s :
  wp (resolve_field namespace validate selector)
    (λ v s', quiet s s' ∧ field_resolved validate (objects (op_world s)) namespace selector v)
    (λ _ s', quiet s s') s.
Proof.
  destruct selector as [sel|]; cbn [resolve_field field_resolved]; [|by rewrite wp_ret].
  rewrite wp_bind. unfold ResolveSecretKeyValue, secret_value.
  rewrite wp_bind, wp_attempt. eapply wp_mono; [by apply get_typed_wp| |].
  - intros secret s' [Hq Hk]. rewrite Hk. cbn [to_object K8sObject_Secret].
    destruct (contents (Secret_Data secret) !! _) as [value|]; [|by rewrite wp_fail].
    case_bool_decide as Hlen; [by rewrite wp_fail|]. rewrite wp_ret.
    destruct (validate value) eqn:Hv; [by rewrite wp_fail|]. rewrite wp_ret.
    split_and!; [done|done| |done]. by intros ->.
  - intros e s' [Hq _]. by rewrite wp_fail.
Qed.

Lemma resolveAuthValues_wp validate namespace auth s :
  wp (resolveAuthValues namespace auth validate)
    (λ v s', quiet s s' ∧ auth_resolved validate (objects (op_world s)) namespace auth v)
    (λ _ s', quiet s s') s.
Proof.
  unfold resolveAuthValues, auth_resolved.
  rewrite wp_bind. eapply wp_mono; [apply resolve_field_wp| |done]. intros token s1 [Hq1 H1].
  rewrite wp_bind. eapply wp_mono; [apply resolve_field_wp| |intros e s2 Hq2; by etrans].
  intros user s2 [Hq2 H2]. rewrite (quiet_objects _ _ Hq1) in H2.
  assert (Hq12 : quiet s s2) by by etrans.
  rewrite wp_bind. eapply wp_mono; [apply resolve_field_wp| |intros e s3 Hq3; by etrans].
  intros password s3 [Hq3 H3]. rewrite (quiet_objects _ _ Hq12) in H3.
  rewrite wp_ret. split; [by etrans|done].
Qed.

Lemma resolveOutputAuth_wp validate namespace outputs s :
  wp (resolveOutputAuth namespace validate outputs)
    (λ outputs' s', quiet s s' ∧
      Forall2 (output_resolved validate (objects (op_world s)) namespace) outputs outputs')
    (λ _ s', quiet s s') s.
Proof.
  revert s. induction outputs as [|output outputs IH]; intros s; cbn [resolveOutputAuth].
  { rewrite wp_ret. done. }
  rewrite wp_bind.
  assert (Hone : wp
    match OutputAuth_Enabled output, OutputAuth_Auth output, OutputAuth_Values output with
    | true, Some auth, Some _ =>
        values ← resolveAuthValues namespace auth validate;
        mret (output <| OutputAuth_Values := Some values |>)
    | _, _, _ => mret output
    end
    (λ o s', quiet s s' ∧ output_resolved validate (objects (op_world s)) namespace output o)
    (λ _ s', quiet s s') s).
  { unfold output_resolved, resolvable. repeat case_match; try by rewrite wp_ret.
    rewrite wp_bind. eapply wp_mono; [apply resolveAuthValues_wp| |done].
    intros v s' [Hq Hv]. rewrite wp_ret. eauto. }
  eapply wp_mono; [exact Hone| |done]. intros o s1 [Hq1 Ho].
  rewrite wp_bind. eapply wp_mono; [apply IH| |intros e s2 Hq2; by etrans].
  intros outputs' s2 [Hq2 Hos]. rewrite wp_ret. split; [by etrans|].
  rewrite (quiet_objects _ _ Hq1) in Hos. by constructor.
Qed.
End resolve_lemmas.

Lemma validateFluentbitValue_None v :
  validateFluentbitValue v = None ↔
  ContainsAny v (CR +:+ LF +:+ NUL) = false ∧ Contains v "${" = false.
Proof.
  unfold validateFluentbitValue, validateSingleLineValue.
  destruct (ContainsAny v _); [naive_solver|]. destruct (Contains v _); naive_solver.
Qed.

(** ** Properties *)

(** C20: the literal of a credential.  [FluentdQuote] puts the credential between single
    quotes with a backslash before each quote and each backslash of it, and nothing else
    changed; so whatever two credentials are and whatever follows their literals, the two
    texts are equal only when the credentials are equal and what follows them is too: no
    credential, with what follows it, can be taken for another one.  And the literal has a
    line break or a NUL byte exactly when the credential has one: it is on one line exactly
    for the credentials that [validateSingleLineValue] lets through. *)
Theorem FluentdQuote_unambiguous v v' rest rest' :
  FluentdQuote v = "'" +:+ quote_chars v +:+ "'" ∧
  (FluentdQuote v +:+ rest = FluentdQuote v' +:+ rest' ↔ v = v' ∧ rest = rest') ∧
  (ContainsAny (FluentdQuote v) (CR +:+ LF +:+ NUL) = false ↔ validateSingleLineValue v = None).
Proof.
  split_and!.
  - unfold FluentdQuote. by rewrite FluentdQuote_chars.
  - split; [|by intros [-> ->]]. unfold FluentdQuote. rewrite !FluentdQuote_chars. cbn [String.append].
    rewrite <- !(assoc_L String.append). intros [= Heq]. by apply quote_chars_inj.
  - rewrite ContainsAny_quote. unfold validateSingleLineValue. by destruct (ContainsAny v _).
Qed.

(** C19: the credentials of the Fluent Bit outputs.  [ResolveFluentbitOutputAuth]
    changes nothing in the cluster.  When it succeeds, every enabled output with
    an [Auth] block has received, for each selector it has, the non-empty value
    stored under the selector's key, and empty strings for the rest; the value has
    no line break, no NUL byte and no Fluent Bit variable reference.  Disabled
    outputs and outputs without [Auth] are as they were.  In particular it fails
    when a selector's Secret or key is missing or its value is unusable. *)
Theorem ResolveFluentbitOutputAuth_values {W} `{KubeClientLaws W} namespace outputs (s : op W) :
  let m := objects (op_world s) in
  let field sel v := match sel with
    | None => v = ""
    | Some sel => secret_value m namespace sel = Some v ∧ v ≠ "" ∧
        ContainsAny v (CR +:+ LF +:+ NUL) = false ∧ Contains v "${" = false
    end in
  wp (ResolveFluentbitOutputAuth namespace outputs)
    (λ outputs' s', quiet s s' ∧
      Forall2 (λ output output', match resolvable output with
        | Some auth => ∃ v, output' = output <| OutputAuth_Values := Some v |> ∧
            field (Auth_Token auth) (AuthValues_Token v) ∧
            field (Auth_User auth) (AuthValues_User v) ∧
            field (Auth_Password auth) (AuthValues_Password v)
        | None => output' = output
        end) outputs outputs')
    (λ _ s', quiet s s') s.
Proof.
  intros m field.
  assert (Hfield : ∀ sel v, field_resolved validateFluentbitValue m namespace sel v → field sel v).
  { intros [sel|] v; [|done]. cbn. by rewrite validateFluentbitValue_None. }
  eapply wp_mono; [apply resolveOutputAuth_wp| |done]. intros outputs' s' [Hq Hall].
  split; [done|]. eapply Forall2_impl; [exact Hall|]. intros o o'. unfold output_resolved.
  destruct (resolvable o) as [auth|]; [|done].
  intros (v & Hv & Ht & Hu & Hp). exists v. auto.
Qed.

(** ** Witness: a value with a variable reference is refused *)

Definition example_secret_world (value : string) : op Mem :=
  mkOp (mem_store (OSecret (mkSecret (named "creds" "ns") "Opaque" (Some {[ "token" := value ]})))
          zero) zero [].

Definition example_output : OutputAuth :=
  mkOutputAuth (Some zero) true
    (Some (zero <| Auth_Token := Some (mkSecretKeySelector "creds" "token") |>)).

Lemma ResolveFluentbitOutputAuth_values_witness :
  (∃ e, (ResolveFluentbitOutputAuth "ns" [example_output] (example_secret_world "a${B}")).2 = Fail e) ∧
  wp (ResolveFluentbitOutputAuth "ns" [example_output]) (λ outputs' s', ∃ v,
    outputs' = [example_output <| OutputAuth_Values := Some v |>] ∧ AuthValues_Token v = "t0k")
    (λ _ _, True) (example_secret_world "t0k").
Proof.
  split; [by eexists; vm_compute|].
  eapply wp_mono; [apply ResolveFluentbitOutputAuth_values| |done].
  cbn. intros outputs' s' [_ Hall]. apply Forall2_cons_inv_l in Hall as (o & os & Ho & Hos & ->).
  apply Forall2_nil_inv_l in Hos as ->. destruct Ho as (v & -> & [Ht _] & _).
  exists v. split; [done|]. vm_compute in Ht. by injection Ht.
Defined.
