(* ===== verification/Reconcilers.v ===== *)
(** * Creating and updating built objects: internal/reconcilers/reconcilers.go

    An object built from the custom resource is created; when it exists already,
    the fields the operator owns are written into the live copy and everything
    else of it is kept. *)

From S2P Require Import Prelude GoStrings KubeTypes Api Client Labels Operator Component.

(** [fmt.Sprintf("%T", desired)]. *)
Definition type_name (k : Kind) : string :=
  match k with
  | KConfigMap => "*v1.ConfigMap" | KSecret => "*v1.Secret" | KService => "*v1.Service"
  | KServiceAccount => "*v1.ServiceAccount" | KDaemonSet => "*v1.DaemonSet"
  | KStatefulSet => "*v1.StatefulSet" | KDeployment => "*v1.Deployment" | KJob => "*v1.Job"
  | KPersistentVolumeClaim => "*v1.PersistentVolumeClaim"
  end.

(** Nil labels are replaced; [maps.Copy(existing, desired)] otherwise. *)
Definition mergeLabels (existing desired : gomap) : gomap :=
  match existing with
  | None => desired
  | Some existing => Some (maps_Copy existing (contents desired))
  end.

Section reconcilers.
Context {W : Type} `{KubeClient W}.

Section generic.
Context {T : Type} `{K8sObject T}.

(** [scheme] says whether the scheme is there; no caller passes a nil one. *)
Definition setOwner (cr : option LoggingService) (obj : T) (scheme : bool) : error + T :=
  match cr with
  | None => inr obj
  | Some cr =>
      if negb scheme then inr obj
      else match SetControllerReference cr (to_object obj) with
           | inr refs => inr (set_meta (SetOwnerReferences refs (get_meta obj)) obj)
           | inl err =>
               if owner_not_allowed err then inr obj
               else inl (errorf_wrap ("set owner reference on "
                           +:+ ObjectMeta_Namespace (get_meta obj) +:+ "/"
                           +:+ ObjectMeta_Name (get_meta obj)) err)
           end
  end.

Definition createOrUpdate (desired : T) (mutate : T → T) : M (op W) unit :=
  cr ← the_cr;
  desired ← of_sum (setOwner (Some cr) desired true);
  let place := type_name (kind_of T) +:+ " " +:+ ObjectMeta_Namespace (get_meta desired) +:+ "/"
               +:+ ObjectMeta_Name (get_meta desired) in
  r ← attempt (lift (client_Create (to_object desired)));
  match r with
  | inr _ => mret tt
  | inl err =>
      if negb (IsAlreadyExists err) then fail (errorf_wrap ("create " +:+ place) err)
      else
        r ← attempt (get_typed (key_of desired) : M (op W) T);
        match r with
        | inl err => fail (errorf_wrap ("get " +:+ place) err)
        | inr existing =>
            r ← attempt (lift (client_Update (to_object (mutate existing))));
            match r with
            | inl err => fail (errorf_wrap ("update " +:+ place) err)
            | inr _ => mret tt
            end
        end
  end.
End generic.

(** The labels of an object and of its pod template, and the pod spec. *)
Definition set_labels {T} `{K8sObject T} (l : gomap) (x : T) : T :=
  set_meta (SetLabels l (get_meta x)) x.

Definition update_template (desired : PodTemplateSpec) (t : PodTemplateSpec) : PodTemplateSpec :=
  t <| PodTemplateSpec_ObjectMeta ::=
         SetLabels (ObjectMeta_Labels (PodTemplateSpec_ObjectMeta desired)) |>
    <| PodTemplateSpec_Spec := PodTemplateSpec_Spec desired |>.

Definition update_DaemonSet (desired existing : DaemonSet) : DaemonSet :=
  (set_labels (mergeLabels (GetLabels existing) (GetLabels desired)) existing)
    <| DaemonSet_Template ::= update_template (DaemonSet_Template desired) |>.

Definition update_Deployment (desired existing : Deployment) : Deployment :=
  (set_labels (mergeLabels (GetLabels existing) (GetLabels desired)) existing)
    <| Deployment_Selector := Deployment_Selector desired |>
    <| Deployment_Template ::= update_template (Deployment_Template desired) |>.

Definition update_StatefulSet (desired existing : StatefulSet) : StatefulSet :=
  (set_labels (mergeLabels (GetLabels existing) (GetLabels desired)) existing)
    <| StatefulSet_Replicas := StatefulSet_Replicas desired |>
    <| StatefulSet_Template ::= update_template (StatefulSet_Template desired) |>.

Definition update_Service (desired existing : Service) : Service :=
  (set_labels (GetLabels desired) existing)
    <| Service_Ports := Service_Ports desired |>
    <| Service_Selector := Service_Selector desired |>.

Definition update_ServiceAccount (desired existing : ServiceAccount) : ServiceAccount :=
  set_labels (GetLabels desired) existing.

Definition reconcile_DaemonSet (desired : DaemonSet) : M (op W) unit :=
  createOrUpdate desired (update_DaemonSet desired).

Definition reconcile_Deployment (desired : Deployment) : M (op W) unit :=
  createOrUpdate desired (update_Deployment desired).

Definition reconcile_StatefulSet (desired : StatefulSet) : M (op W) unit :=
  createOrUpdate desired (update_StatefulSet desired).

Definition reconcile_Service (desired : Service) : M (op W) unit :=
  createOrUpdate desired (update_Service desired).

Definition reconcile_ServiceAccount (desired : ServiceAccount) : M (op W) unit :=
  createOrUpdate desired (update_ServiceAccount desired).
End reconcilers.

(** ** Lemmas *)

Lemma contents_mergeLabels existing desired k :
  contents (mergeLabels existing desired) !! k =
  match contents desired !! k with Some v => Some v | None => contents existing !! k end.
Proof.
  destruct existing as [m|]; cbn [mergeLabels contents]; [apply lookup_maps_Copy|].
  rewrite lookup_empty. by destruct (contents desired !! k).
Qed.

Section reconcile_lemmas.
Context {W : Type} `{KubeClientLaws W}.
Context {T : Type} `{K8sObjectLaws T}.
Implicit Types (s : op W).

(** The abstract operation: insert the desired object under its key, or apply
    [mutate] to the one that is there; nothing else changes.  [desired'] is the
    desired object with its owner. *)
Definition upserted (desired : T) (mutate : T → T) (m m' : gmap ObjectKey Object) : Prop :=
  ∃ w, m' = <[key_of desired := stored w (to_object
    match m !! key_of desired ≫= of_object with
    | Some existing => mutate existing
    | None => desired
    end)]> m.

Lemma setOwner_key cr (obj obj' : T) scheme :
  setOwner cr obj scheme = inr obj' →
  key_of obj' = key_of obj ∧ ∃ refs, obj' = obj ∨
    obj' = set_meta (SetOwnerReferences refs (get_meta obj)) obj.
Proof.
  assert (Hsame : key_of obj = key_of obj ∧ ∃ refs, obj = obj ∨
    obj = set_meta (SetOwnerReferences refs (get_meta obj)) obj)
    by (split; [done|by exists []; left]).
  unfold setOwner. destruct cr as [cr|]; [|by intros [= <-]].
  destruct scheme; cbn [negb]; [|by intros [= <-]].
  destruct (SetControllerReference cr _) as [e|refs].
  - destruct (owner_not_allowed e); [by intros [= <-]|done].
  - intros [= <-]. unfold key_of. rewrite get_set_meta. split; [done|]. exists refs. by right.
Qed.

(** What [createOrUpdate] does on every path. *)
Lemma createOrUpdate_wp (desired : T) mutate s :
  (∀ x, key_of (mutate x) = key_of x) →
  wp (createOrUpdate desired mutate)
    (λ _ s', cluster_only s s' ∧ ∃ desired', setOwner (Some (op_cr s)) desired true = inr desired' ∧
      upserted desired' mutate (objects (op_world s)) (objects (op_world s')))
    (λ _ s', quiet s s') s.
Proof.
  intros Hmut. unfold createOrUpdate, the_cr. rewrite wp_bind, wp_gets, wp_bind, wp_of_sum.
  destruct (setOwner (Some (op_cr s)) desired true) as [e|d] eqn:Hown; [done|].
  rewrite wp_bind, wp_attempt, wp_lift. unfold upserted.
  eapply wp_mono; [apply client_Create_spec| |]; rewrite object_key_to_object.
  - intros _ w1 (Hnone & Ho & Hnow). rewrite wp_ret. cbn [op_world update]. split; [auto|].
    exists d. split; [done|]. exists (op_world s). by rewrite Hnone, Ho.
  - intros e w1 (Ho & Hnow & _). set (s1 := s <| op_world := w1 |>).
    assert (Hq1 : quiet s s1) by auto.
    destruct (IsAlreadyExists e); cbn [negb]; [|by rewrite wp_fail].
    rewrite wp_bind, wp_attempt. eapply wp_mono; [by apply get_typed_wp| |].
    2:{ intros e2 s2 [Hq2 _]. rewrite wp_fail. by etrans. }
    intros ex s2 [Hq2 Hex]. assert (Hq12 : quiet s s2) by by etrans.
    rewrite (quiet_objects _ _ Hq1) in Hex.
    destruct (objects_keyed _ _ _ Hex) as [Hkex _]. rewrite object_key_to_object in Hkex.
    rewrite wp_bind, wp_attempt, wp_lift.
    eapply wp_mono; [apply client_Update_spec| |].
    + rewrite object_key_to_object, Hmut, Hkex. intros _ w3 (_ & Ho3 & Hnow3).
      rewrite wp_ret. split; [etrans; [exact (quiet_cluster_only _ _ Hq12)|auto]|].
      exists d. split; [done|]. exists (op_world s2). cbn [op_world update].
      rewrite Ho3, (quiet_objects _ _ Hq12), Hex. cbn. by rewrite of_to_object.
    + intros e3 w3 (Ho3 & Hnow3). rewrite wp_fail. etrans; [exact Hq12|auto].
Qed.
End reconcile_lemmas.

Lemma key_of_set_labels {T} `{K8sObjectLaws T} l (x : T) : key_of (set_labels l x) = key_of x.
Proof. unfold key_of, set_labels. by rewrite get_set_meta. Qed.

Lemma GetLabels_set_labels {T} `{K8sObjectLaws T} l (x : T) : GetLabels (set_labels l x) = l.
Proof. unfold GetLabels, set_labels. by rewrite get_set_meta. Qed.

(** ** Properties *)

Section properties.
Context {W : Type} `{KubeClientLaws W}.
Implicit Types (s : op W).

(** C24: [reconcilers.DaemonSet] creates the DaemonSet, or rewrites exactly what
    the operator owns of the one that exists: the pod spec and the pod template's
    labels are the desired ones, the object's labels are the desired ones over
    those it has, and its annotations, the template's annotations (a rollout
    restart), the selector, the update strategy and the version are kept.  Nothing
    else in the cluster changes, and on an error nothing changes at all. *)
Theorem reconcile_DaemonSet_owned_fields (desired : DaemonSet) s :
  wp (reconcile_DaemonSet desired)
    (λ _ s', cluster_only s s' ∧
      (∀ k, k ≠ key_of desired → objects (op_world s') !! k = objects (op_world s) !! k) ∧
      ∃ w d, objects (op_world s') !! key_of desired = Some (stored w (ODaemonSet d)) ∧
        DaemonSet_Template d = match objects (op_world s) !! key_of desired with
          | Some (ODaemonSet ex) =>
              mkPodTemplateSpec
                (SetLabels (ObjectMeta_Labels (PodTemplateSpec_ObjectMeta (DaemonSet_Template desired)))
                   (PodTemplateSpec_ObjectMeta (DaemonSet_Template ex)))
                (PodTemplateSpec_Spec (DaemonSet_Template desired))
          | _ => DaemonSet_Template desired
          end ∧
        ∀ ex, objects (op_world s) !! key_of desired = Some (ODaemonSet ex) →
          (∀ k, contents (GetLabels d) !! k =
             match contents (GetLabels desired) !! k with
             | Some v => Some v | None => contents (GetLabels ex) !! k end) ∧
          SetLabels None (get_meta d) = SetLabels None (get_meta ex) ∧
          DaemonSet_Selector d = DaemonSet_Selector ex ∧
          DaemonSet_UpdateStrategy d = DaemonSet_UpdateStrategy ex ∧
          DaemonSet_MinReadySeconds d = DaemonSet_MinReadySeconds ex)
    (λ _ s', quiet s s') s.
Proof.
  eapply wp_mono; [by apply createOrUpdate_wp| |done].
  intros _ s' (Hc & d & Hd & w & Ho). apply setOwner_key in Hd as [Hkey (refs & Hd)].
  rewrite Hkey in Ho. split_and!; [done|by intros k Hk; rewrite Ho, lookup_insert_ne|].
  rewrite Ho. setoid_rewrite lookup_insert_eq.
  destruct (objects (op_world s) !! key_of desired) as [obj|] eqn:Hk.
  - destruct (objects_typed (T:=DaemonSet) _ (key_of desired) _ eq_refl Hk) as (ex & _ & -> & _).
    exists w, (update_DaemonSet desired ex). cbn -[mergeLabels]. split_and!; [done..|].
    intros ex' [= <-]. split_and!; try done. intros k. apply contents_mergeLabels.
  - exists w, d. split_and!; [done| |done]. by destruct Hd as [->| ->].
Qed.

(** C25: [reconcilers.Service] never changes the cluster IP, the type or the IP
    families of a Service that exists, and gives it the desired labels, ports and
    selector; a Service that does not exist is created as desired. *)
Theorem reconcile_Service_keeps_allocation (desired : Service) s :
  wp (reconcile_Service desired)
    (λ _ s', cluster_only s s' ∧
      (∀ k, k ≠ key_of desired → objects (op_world s') !! k = objects (op_world s) !! k) ∧
      ∃ w d, objects (op_world s') !! key_of desired = Some (stored w (OService d)) ∧
        GetLabels d = GetLabels desired ∧
        Service_Ports d = Service_Ports desired ∧
        Service_Selector d = Service_Selector desired ∧
        let allocated := match objects (op_world s) !! key_of desired with
                         | Some (OService ex) => ex | _ => desired end in
        Service_ClusterIP d = Service_ClusterIP allocated ∧
        Service_Type d = Service_Type allocated ∧
        Service_IPFamilies d = Service_IPFamilies allocated ∧
        Service_IPFamilyPolicy d = Service_IPFamilyPolicy allocated)
    (λ _ s', quiet s s') s.
Proof.
  eapply wp_mono; [by apply createOrUpdate_wp| |done].
  intros _ s' (Hc & d & Hd & w & Ho). apply setOwner_key in Hd as [Hkey (refs & Hd)].
  rewrite Hkey in Ho. split_and!; [done|by intros k Hk; rewrite Ho, lookup_insert_ne|].
  rewrite Ho. setoid_rewrite lookup_insert_eq.
  destruct (objects (op_world s) !! key_of desired) as [obj|] eqn:Hk.
  - destruct (objects_typed (T:=Service) _ (key_of desired) _ eq_refl Hk) as (ex & _ & -> & _).
    by exists w, (update_Service desired ex).
  - exists w, d. by destruct Hd as [->| ->].
Qed.

(** An update of a StatefulSet leaves what Kubernetes forbids to change (its
    selector, service name and volume claim templates) as it is, and sets the
    replicas and the pod spec; applying it twice is applying it once. *)
Theorem update_StatefulSet_immutable (desired existing : StatefulSet) :
  let d := update_StatefulSet desired existing in
  StatefulSet_Selector d = StatefulSet_Selector existing ∧
  StatefulSet_ServiceName d = StatefulSet_ServiceName existing ∧
  StatefulSet_VolumeClaimTemplates d = StatefulSet_VolumeClaimTemplates existing ∧
  StatefulSet_Replicas d = StatefulSet_Replicas desired ∧
  PodTemplateSpec_Spec (StatefulSet_Template d) = PodTemplateSpec_Spec (StatefulSet_Template desired) ∧
  update_StatefulSet desired d = d.
Proof.
  intros d. split_and!; try done.
  assert (Hl : mergeLabels (mergeLabels (GetLabels existing) (GetLabels desired)) (GetLabels desired)
               = mergeLabels (GetLabels existing) (GetLabels desired)).
  { unfold mergeLabels. destruct (GetLabels existing) as [m|].
    - f_equal. apply map_eq. intros k. rewrite !lookup_maps_Copy.
      by destruct (contents (GetLabels desired) !! k).
    - destruct (GetLabels desired) as [m|]; [|done].
      cbn [contents]. f_equal. apply map_eq. intros k. rewrite lookup_maps_Copy.
      by destruct (m !! k). }
  unfold d, update_StatefulSet. cbn -[mergeLabels]. by rewrite Hl.
Qed.
End properties.

(** ** Witnesses: an object that exists already, in the in-memory cluster *)

Definition example_op (o : Object) : op Mem :=
  mkOp (mem_store o zero) (zero <| LoggingService_ObjectMeta := named "cr" "ns" |>) [].

Lemma reconcile_DaemonSet_owned_fields_witness :
  let ds labels := (zero : DaemonSet) <| DaemonSet_ObjectMeta := SetLabels labels (named "d" "ns") |> in
  let s := example_op (ODaemonSet (ds (Some {[ "a" := "1" ]}))) in
  let s' := (reconcile_DaemonSet (ds (Some {[ "b" := "2" ]})) s).1 in
  ∃ w d, objects (op_world s') !! mkObjectKey KDaemonSet "ns" "d" = Some (stored w (ODaemonSet d)) ∧
    contents (GetLabels d) !! "a" = Some "1".
Proof.
  intros ds s s'.
  run_theorem (reconcile_DaemonSet_owned_fields (ds (Some {[ "b" := "2" ]})) s) tt Hw.
  destruct Hw as (_ & _ & w & d & Hk & _ & Hex).
  exists w, d. split; [exact Hk|].
  assert (Hold : objects (op_world s) !! key_of (ds (Some {[ "b" := "2" ]}))
                 = Some (ODaemonSet (ds (Some {[ "a" := "1" ]})))) by (vm_compute; reflexivity).
  by rewrite (proj1 (Hex _ Hold)).
Defined.

Lemma reconcile_Service_keeps_allocation_witness :
  let svc ip := (zero : Service) <| Service_ObjectMeta := named "svc" "ns" |>
                                  <| Service_ClusterIP := ip |> in
  let s := example_op (OService (svc "10.1.2.3")) in
  let s' := (reconcile_Service (svc "") s).1 in
  ∃ w d, objects (op_world s') !! mkObjectKey KService "ns" "svc" = Some (stored w (OService d)) ∧
    Service_ClusterIP d = "10.1.2.3".
Proof.
  intros svc s s'.
  run_theorem (reconcile_Service_keeps_allocation (svc "") s) tt Hw.
  destruct Hw as (_ & _ & w & d & Hk & _ & _ & _ & Hip & _).
  exists w, d. split; [exact Hk|]. rewrite Hip. by vm_compute.
Defined.
