(* ===== verification/Memory.v ===== *)
(** * Memory: the values of Go as a program shares them

    The rest of the library passes the custom resource as a value.  This file has what that
    leaves out: cells that several pointers name, slices and maps that two values share, and
    writes through them.  A heap gives a cell for a location; an address is a location and a
    path to a field or an element inside the value that is there ([&in.Token],
    [&( *in)[i]]).  [read] follows a value to the tree that a program sees in it and to the
    cells that it went through, its footprint; two values that share no cell of their
    footprints cannot be changed through each other ([read_frame]).  The operations are the
    statements of Go.  Copies has the contract of a function that copies a value. *)

From S2P Require Import Prelude.

(** ** Values, cells and addresses *)

Abbreviation loc := positive.

Inductive step : Type :=
| Field (f : string)
| Elem (k : nat).

Record addr : Type := mkAddr { addr_loc : loc; addr_path : list step }.

(** A slice is the cell of its array, its first element and its length. *)
Inductive val : Type :=
| VString (s : string)
| VInt (z : Z)
| VBool (b : bool)
| VStruct (fs : list (string * val))
| VArray (vs : list val)
| VPtr (p : option addr)
| VMap (p : option loc)
| VSlice (p : option (loc * nat * nat)).

Inductive cell : Type :=
| CVal (v : val)
| CMap (m : gmap string val).

Abbreviation heap := (gmap loc cell).

(** [&x.f], [&x[k]]. *)
Definition field_addr (a : addr) (f : string) : addr := mkAddr (addr_loc a) (addr_path a ++ [Field f]).
Definition elem_addr (a : addr) (k : nat) : addr := mkAddr (addr_loc a) (addr_path a ++ [Elem k]).
Definition cell_addr (l : loc) : addr := mkAddr l [].

Fixpoint field (f : string) (fs : list (string * val)) : option val :=
  match fs with
  | [] => None
  | (g, v) :: fs' => if decide (g = f) then Some v else field f fs'
  end.

Fixpoint set_field (f : string) (w : val) (fs : list (string * val)) : list (string * val) :=
  match fs with
  | [] => []
  | (g, v) :: fs' => if decide (g = f) then (g, w) :: fs' else (g, v) :: set_field f w fs'
  end.

(** The value at a path, and the value with another one there. *)
Fixpoint get (v : val) (p : list step) : option val :=
  match p with
  | [] => Some v
  | Field f :: p' => match v with VStruct fs => field f fs ≫= λ u, get u p' | _ => None end
  | Elem k :: p' => match v with VArray vs => vs !! k ≫= λ u, get u p' | _ => None end
  end.

Fixpoint put (v : val) (p : list step) (w : val) : option val :=
  match p with
  | [] => Some w
  | Field f :: p' =>
      match v with
      | VStruct fs => u ← field f fs; u' ← put u p' w; Some (VStruct (set_field f u' fs))
      | _ => None
      end
  | Elem k :: p' =>
      match v with
      | VArray vs => u ← vs !! k; u' ← put u p' w; Some (VArray (<[k := u']> vs))
      | _ => None
      end
  end.

Definition hget (h : heap) (a : addr) : option val :=
  match h !! addr_loc a with Some (CVal c) => get c (addr_path a) | _ => None end.

Definition hput (h : heap) (a : addr) (w : val) : option heap :=
  match h !! addr_loc a with
  | Some (CVal c) => c' ← put c (addr_path a) w; Some (<[addr_loc a := CVal c']> h)
  | _ => None
  end.

(** ** What a program sees

    The tree below a value, and the cells on the way; [n] bounds the depth. *)

(** The three kinds of nil. *)
Inductive nil_kind : Type := NilPtr | NilMap | NilSlice.

Inductive tree : Type :=
| NString (s : string)
| NInt (z : Z)
| NBool (b : bool)
| NStruct (names : list string) (ts : list tree)
| NArray (ts : list tree)
| NNil (k : nil_kind)
| NRef (t : tree)
| NMap (keys : list string) (ts : list tree)
| NSlice (ts : list tree).

Fixpoint read (n : nat) (h : heap) (v : val) : option (tree * list loc) :=
  match n with
  | 0 => None
  | S n =>
      match v with
      | VString s => Some (NString s, [])
      | VInt z => Some (NInt z, [])
      | VBool b => Some (NBool b, [])
      | VStruct fs =>
          rs ← mapM (read n h) fs.*2; Some (NStruct fs.*1 rs.*1, concat rs.*2)
      | VArray vs => rs ← mapM (read n h) vs; Some (NArray rs.*1, concat rs.*2)
      | VPtr None => Some (NNil NilPtr, [])
      | VMap None => Some (NNil NilMap, [])
      | VSlice None => Some (NNil NilSlice, [])
      | VPtr (Some a) => u ← hget h a; r ← read n h u; Some (NRef r.1, addr_loc a :: r.2)
      | VMap (Some l) =>
          match h !! l with
          | Some (CMap m) =>
              rs ← mapM (read n h) (map_to_list m).*2;
              Some (NMap (map_to_list m).*1 rs.*1, l :: concat rs.*2)
          | _ => None
          end
      | VSlice (Some (l, off, len)) =>
          match h !! l with
          | Some (CVal (VArray vs)) =>
              if decide (off + len ≤ length vs) then
                rs ← mapM (read n h) (take len (drop off vs));
                Some (NSlice rs.*1, l :: concat rs.*2)
              else None
          | _ => None
          end
      end
  end.

(** ** Types *)

Inductive ty : Type :=
| TyString
| TyInt
| TyBool
| TyStruct (fs : list (string * ty))
| TyPtr (t : ty)
| TyMap (t : ty)
| TySlice (t : ty).

Fixpoint zero_val (τ : ty) : val :=
  match τ with
  | TyString => VString ""
  | TyInt => VInt 0
  | TyBool => VBool false
  | TyStruct fs => VStruct (map (λ fτ, (fτ.1, zero_val fτ.2)) fs)
  | TyPtr _ => VPtr None
  | TyMap _ => VMap None
  | TySlice _ => VSlice None
  end.

(** No pointer, map or slice in it: an assignment copies all of it. *)
Fixpoint flat (τ : ty) : bool :=
  match τ with
  | TyString | TyInt | TyBool => true
  | TyStruct fs => forallb (λ fτ, flat fτ.2) fs
  | TyPtr _ | TyMap _ | TySlice _ => false
  end.

(** A tree of the type. *)
Fixpoint has_type (τ : ty) (t : tree) : bool :=
  match τ, t with
  | TyString, NString _ | TyInt, NInt _ | TyBool, NBool _ => true
  | TyStruct fs, NStruct names ts =>
      bool_decide (names = map fst fs) &&
      (fix go (fs : list (string * ty)) (ts : list tree) : bool :=
         match fs, ts with
         | [], [] => true
         | fτ :: fs', t :: ts' => has_type fτ.2 t && go fs' ts'
         | _, _ => false
         end) fs ts
  | TyPtr _, NNil NilPtr | TyMap _, NNil NilMap | TySlice _, NNil NilSlice => true
  | TyPtr τ, NRef t => has_type τ t
  | TyMap τ, NMap _ ts => forallb (has_type τ) ts
  | TySlice τ, NSlice ts => forallb (has_type τ) ts
  | _, _ => false
  end.

(** ** The statements *)

Definition is_nil (v : val) : bool :=
  match v with VPtr None | VMap None | VSlice None => true | _ => false end.

Definition nil_val (k : nil_kind) : val :=
  match k with NilPtr => VPtr None | NilMap => VMap None | NilSlice => VSlice None end.

(** [*a] *)
Definition load (a : addr) : M heap val :=
  v ← gets (λ h, hget h a); deref v.

(** [*a = v] *)
Definition store (a : addr) (v : val) : M heap unit :=
  h ← gets (λ h, hput h a v); h' ← deref h; modify (λ _, h').

(** [*o = *i] *)
Definition assign (i o : addr) : M heap unit := v ← load i; store o v.

Definition alloc (c : cell) : M heap loc :=
  l ← gets (λ h : heap, fresh (dom h)); modify (insert l c);; mret l.

(** [new(T)] *)
Definition new (τ : ty) : M heap loc := alloc (CVal (zero_val τ)).

(** The pointer, the slice or the map stored at an address; nil panics where it is used. *)
Definition load_ptr (a : addr) : M heap addr :=
  v ← load a; match v with VPtr (Some p) => mret p | _ => panic end.

Definition load_slice (a : addr) : M heap (loc * nat * nat) :=
  v ← load a; match v with VSlice (Some s) => mret s | _ => panic end.

Definition load_map (a : addr) : M heap (loc * gmap string val) :=
  v ← load a;
  match v with
  | VMap (Some l) =>
      c ← gets (λ h : heap, h !! l);
      match c with Some (CMap m) => mret (l, m) | _ => panic end
  | _ => panic
  end.

(** [&( *a)[k]] *)
Definition index (a : addr) (k : nat) : M heap addr :=
  s ← load_slice a;
  let '(l, off, len) := s in
  if decide (k < len) then mret (elem_addr (cell_addr l) (off + k)) else panic.

(** [( *a)[key] = v] *)
Definition map_set (a : addr) (key : string) (v : val) : M heap unit :=
  s ← load_map a; modify (insert s.1 (CMap (<[key := v]> s.2))).

(** [if *i != nil { body }] *)
Definition unless_nil (i : addr) (body : M heap unit) : M heap unit :=
  v ← load i; if is_nil v then mret tt else body.

(** ** Paths *)

Lemma field_set_field_eq f u w fs : field f fs = Some u → field f (set_field f w fs) = Some w.
Proof. induction fs as [|[g v] fs IH]; cbn; [done|]. case_decide; cbn; by case_decide; auto. Qed.

Lemma set_field_set_field f w w' fs :
  set_field f w' (set_field f w fs) = set_field f w' fs.
Proof.
  induction fs as [|[g v] fs IH]; cbn; [done|].
  case_decide; cbn; case_decide; [done..|]. by rewrite IH.
Qed.

Lemma set_field_same f v fs : field f fs = Some v → set_field f v fs = fs.
Proof.
  induction fs as [|[g u] fs IH]; cbn; [done|].
  case_decide as Hf; [by intros [= ->]|]. intros Hfs. by rewrite IH.
Qed.

Lemma set_field_names f w fs : (set_field f w fs).*1 = fs.*1.
Proof. induction fs as [|[g v] fs IH]; cbn; [done|]. case_decide; cbn; by rewrite ?IH. Qed.

Lemma get_app v p q : get v (p ++ q) = get v p ≫= λ u, get u q.
Proof.
  revert v. induction p as [|[f|k] p IH]; intros v; [done|..]; destruct v; cbn; try done.
  - destruct (field f fs); cbn; auto.
  - destruct (vs !! k); cbn; auto.
Qed.

Lemma put_total v p u w : get v p = Some u → is_Some (put v p w).
Proof.
  revert v. induction p as [|[f|k] p IH]; intros v Hg; [by eexists|..]; destruct v; try done.
  all: apply bind_Some in Hg as (x & Hx & Hg); apply IH in Hg as [x' Hx'];
    eexists; cbn; by rewrite Hx; cbn; rewrite Hx'.
Qed.

Lemma put_get v p u : get v p = Some u → put v p u = Some v.
Proof.
  revert v. induction p as [|[f|k] p IH]; intros v Hg; [cbn in *; congruence|..];
    destruct v; try done; apply bind_Some in Hg as (x & Hx & Hg); cbn;
    rewrite Hx; cbn; rewrite (IH _ Hg); cbn.
  - by rewrite set_field_same.
  - by rewrite list_insert_id.
Qed.

Lemma get_put v p w v' : put v p w = Some v' → get v' p = Some w.
Proof.
  revert v v'. induction p as [|[f|k] p IH]; intros v v' Hp; [cbn in *; congruence|..];
    destruct v; try done; apply bind_Some in Hp as (x & Hx & Hp);
    apply bind_Some in Hp as (x' & Hx' & [= <-]); cbn.
  - rewrite (field_set_field_eq _ _ _ _ Hx). cbn. eauto.
  - rewrite list_lookup_insert_eq by (eapply lookup_lt_Some; eauto). cbn. eauto.
Qed.

(** A write inside a value that was just written is a write of the changed value. *)
Lemma put_put v p q w w1 v1 u :
  put v p w = Some v1 → put w q u = Some w1 → put v1 (p ++ q) u = put v p w1.
Proof.
  revert v v1. induction p as [|[f|k] p IH]; intros v v1 Hp Hq; [cbn in *; congruence|..];
    destruct v; try done; apply bind_Some in Hp as (x & Hx & Hp);
    apply bind_Some in Hp as (x' & Hx' & [= <-]); cbn; rewrite Hx; cbn.
  - rewrite (field_set_field_eq _ _ _ _ Hx). cbn. rewrite (IH _ _ Hx' Hq).
    destruct (put x p w1); [|done]. cbn. by rewrite set_field_set_field.
  - rewrite list_lookup_insert_eq by (eapply lookup_lt_Some; eauto). cbn.
    rewrite (IH _ _ Hx' Hq). destruct (put x p w1); [|done]. cbn. by rewrite list_insert_insert_eq.
Qed.

(** Paths that part at some field. *)
Definition diverge (p q : list step) : Prop :=
  ∃ r f g p' q', p = r ++ Field f :: p' ∧ q = r ++ Field g :: q' ∧ f ≠ g.

Lemma field_set_field_ne f g w fs : f ≠ g → field g (set_field f w fs) = field g fs.
Proof.
  intros Hfg. induction fs as [|[k v] fs IH]; cbn; [done|].
  case_decide; cbn; repeat case_decide; congruence.
Qed.

Lemma get_put_diverge v p q w v' : diverge p q → put v p w = Some v' → get v' q = get v q.
Proof.
  intros (r & f & g & p' & q' & -> & -> & Hfg). revert v v'.
  induction r as [|[k|k] r IH]; intros v v'; cbn; destruct v; try done; intros Hp;
    apply bind_Some in Hp as (x & Hx & Hp); apply bind_Some in Hp as (x' & Hx' & [= <-]); cbn.
  - by rewrite field_set_field_ne.
  - rewrite (field_set_field_eq _ _ _ _ Hx), Hx. cbn. eauto.
  - rewrite list_lookup_insert_eq by (eapply lookup_lt_Some; eauto). rewrite Hx. cbn. eauto.
Qed.

(** ** Heaps *)

Lemma hget_dom h a v : hget h a = Some v → addr_loc a ∈ dom h.
Proof. unfold hget. intros H. apply elem_of_dom. by destruct (h !! addr_loc a). Qed.

Lemma hget_agree h h' a : h' !! addr_loc a = h !! addr_loc a → hget h' a = hget h a.
Proof. intros H. unfold hget. by rewrite H. Qed.

Lemma hget_sub h h' a v : h ⊆ h' → hget h a = Some v → hget h' a = Some v.
Proof.
  unfold hget. intros Hs H. destruct (h !! addr_loc a) eqn:Ha; [|done].
  by rewrite (lookup_weaken _ _ _ _ Ha Hs).
Qed.

Lemma hget_path h a p : hget h (mkAddr (addr_loc a) (addr_path a ++ p)) = hget h a ≫= λ u, get u p.
Proof. unfold hget. cbn. destruct (h !! addr_loc a) as [[c|m]|]; [apply get_app|done..]. Qed.

Lemma hget_field h a f fs : hget h a = Some (VStruct fs) → hget h (field_addr a f) = field f fs.
Proof. intros H. unfold field_addr. rewrite hget_path, H. cbn. by destruct (field f fs). Qed.

Lemma hget_elem h a k vs : hget h a = Some (VArray vs) → hget h (elem_addr a k) = vs !! k.
Proof. intros H. unfold elem_addr. rewrite hget_path, H. cbn. by destruct (vs !! k). Qed.

Lemma hput_total h a v w : hget h a = Some v → ∃ h', hput h a w = Some h'.
Proof.
  unfold hget, hput. destruct (h !! addr_loc a) as [[c|m]|]; [|done..]. intros H.
  destruct (put_total _ _ _ w H) as [c' ->]. by eexists.
Qed.

Lemma hput_same h a v : hget h a = Some v → hput h a v = Some h.
Proof.
  unfold hget, hput. destruct (h !! addr_loc a) as [[c|m]|] eqn:Ha; [|done..]. intros H.
  rewrite (put_get _ _ _ H). cbn. by rewrite insert_id.
Qed.

Lemma hput_inv h a w h' :
  hput h a w = Some h' → ∃ c c', h !! addr_loc a = Some (CVal c) ∧ put c (addr_path a) w = Some c' ∧
    h' = <[addr_loc a := CVal c']> h.
Proof.
  unfold hput. destruct (h !! addr_loc a) as [[c|m]|]; [|done..]. intros H.
  apply bind_Some in H as (c' & Hc' & [= <-]). eauto.
Qed.

Lemma hget_hput h a w h' : hput h a w = Some h' → hget h' a = Some w.
Proof.
  intros (c & c' & Hc & Hp & ->)%hput_inv. unfold hget. rewrite lookup_insert_eq.
  by apply get_put in Hp.
Qed.

Lemma hput_dom h a w h' : hput h a w = Some h' → dom h' = dom h.
Proof.
  intros (c & c' & Hc & Hp & ->)%hput_inv. apply dom_insert_lookup_L. by eexists.
Qed.

Lemma hput_ne h a w h' l : hput h a w = Some h' → l ≠ addr_loc a → h' !! l = h !! l.
Proof. intros (c & c' & Hc & Hp & ->)%hput_inv Hl. by rewrite lookup_insert_ne. Qed.

(** Two addresses such that a write to one is not seen at the other. *)
Definition apart (a b : addr) : Prop := addr_loc a ≠ addr_loc b ∨ diverge (addr_path a) (addr_path b).

Lemma hget_hput_apart h a b w h' : apart a b → hput h a w = Some h' → hget h' b = hget h b.
Proof.
  intros Hab (c & c' & Hc & Hp & ->)%hput_inv. unfold hget.
  destruct (decide (addr_loc a = addr_loc b)) as [Heq|Hne]; [|by rewrite lookup_insert_ne].
  destruct Hab as [?|Hd]; [done|]. rewrite <- Heq, lookup_insert_eq, Hc. by eapply get_put_diverge.
Qed.

(** Two writes, of which the second may see more cells. *)
Lemma hput_hput h a w q u w1 h1 h2 h3 :
  hput h a w = Some h1 → h1 ⊆ h2 → put w q u = Some w1 →
  hput h2 (mkAddr (addr_loc a) (addr_path a ++ q)) u = Some h3 →
  ∃ h', hput h a w1 = Some h' ∧ h' ⊆ h3.
Proof.
  intros (c & c' & Hc & Hp & ->)%hput_inv Hs Hw H3.
  apply hput_inv in H3 as (c2 & c3 & Hc2 & Hp2 & ->). cbn in *.
  assert (c2 = c') as ->.
  { pose proof (lookup_weaken _ _ _ _ (lookup_insert_eq h (addr_loc a) (CVal c')) Hs). congruence. }
  rewrite (put_put _ _ _ _ _ _ _ Hp Hw) in Hp2.
  exists (<[addr_loc a := CVal c3]> h). split; [unfold hput; by rewrite Hc, Hp2|].
  apply (insert_mono _ _ (addr_loc a) (CVal c3)) in Hs. by rewrite insert_insert_eq in Hs.
Qed.

Lemma hput_insert h a w l c h' :
  hput h a w = Some h' → l ∉ dom h → hput (<[l := c]> h) a w = Some (<[l := c]> h').
Proof.
  intros (c0 & c1 & Hc & Hp & ->)%hput_inv Hl. unfold hput.
  assert (l ≠ addr_loc a) by (intros ->; apply Hl, elem_of_dom; by eexists).
  rewrite lookup_insert_ne, Hc, Hp by done. cbn. by rewrite insert_insert_ne.
Qed.

(** ** Reading *)

Lemma reads_spec n h vs rs :
  mapM (read n h) vs = Some rs ↔ Forall2 (λ v r, read n h v = Some r) vs rs.
Proof. apply mapM_Some. Qed.

(** Reading goes through allocated cells, and depends on them only. *)
Lemma read_dom n h v t fp : read n h v = Some (t, fp) → Forall (.∈ dom h) fp.
Proof.
  revert v t fp. induction n as [|n IH]; intros v t fp; [done|].
  assert (∀ vs rs, mapM (read n h) vs = Some rs → Forall (.∈ dom h) (concat rs.*2)) as Hs.
  { intros vs rs Hrs%reads_spec. induction Hrs as [|v' [t' fp'] vs rs Hv _ IHrs]; cbn; [done|].
    apply Forall_app. eauto. }
  destruct v as [s|z|b|fs|vs|[a|]|[l|]|[[[l off] len]|]]; cbn; intros H; try (by simplify_eq).
  - apply bind_Some in H as (rs & Hrs & [= <- <-]). eauto.
  - apply bind_Some in H as (rs & Hrs & [= <- <-]). eauto.
  - apply bind_Some in H as (u & Hu & H). apply bind_Some in H as ([t' fp'] & Hr & [= <- <-]).
    constructor; [by eapply hget_dom|eauto].
  - destruct (h !! l) as [[c|m]|] eqn:Hl; try done.
    apply bind_Some in H as (rs & Hrs & [= <- <-]).
    constructor; [apply elem_of_dom; by eexists|eauto].
  - destruct (h !! l) as [[[| | | |vs| | |]|m]|] eqn:Hl; try done. case_decide; [|done].
    apply bind_Some in H as (rs & Hrs & [= <- <-]).
    constructor; [apply elem_of_dom; by eexists|eauto].
Qed.

Lemma read_frame n h h' v t fp :
  read n h v = Some (t, fp) → Forall (λ l, h' !! l = h !! l) fp → read n h' v = Some (t, fp).
Proof.
  revert v t fp. induction n as [|n IH]; intros v t fp; [done|].
  assert (∀ vs rs, mapM (read n h) vs = Some rs →
    Forall (λ l, h' !! l = h !! l) (concat rs.*2) → mapM (read n h') vs = Some rs) as Hs.
  { intros vs rs Hrs%reads_spec Hfp. apply reads_spec.
    induction Hrs as [|v' [t' fp'] vs rs Hv _ IHrs]; cbn in *; [done|].
    apply Forall_app in Hfp as [??]. eauto. }
  destruct v as [s|z|b|fs|vs|[a|]|[l|]|[[[l off] len]|]]; cbn; intros H Hfp; try done.
  - apply bind_Some in H as (rs & Hrs & [= <- <-]). by rewrite (Hs _ _ Hrs Hfp).
  - apply bind_Some in H as (rs & Hrs & [= <- <-]). by rewrite (Hs _ _ Hrs Hfp).
  - apply bind_Some in H as (u & Hu & H). apply bind_Some in H as ([t' fp'] & Hr & [= <- <-]).
    apply Forall_cons in Hfp as [Ha Hfp]. rewrite (hget_agree h), Hu by done. cbn.
    by rewrite (IH _ _ _ Hr Hfp).
  - destruct (h !! l) as [[c|m]|] eqn:Hl; try done.
    apply bind_Some in H as (rs & Hrs & [= <- <-]). apply Forall_cons in Hfp as [-> Hfp].
    rewrite Hl. by rewrite (Hs _ _ Hrs Hfp).
  - destruct (h !! l) as [[[| | | |vs| | |]|m]|] eqn:Hl; try done. case_decide; [|done].
    apply bind_Some in H as (rs & Hrs & [= <- <-]). apply Forall_cons in Hfp as [-> Hfp].
    rewrite Hl, decide_True by done. by rewrite (Hs _ _ Hrs Hfp).
Qed.

(** The value below a tree. *)
Lemma read_inv n h v t fp :
  read n h v = Some (t, fp) → ∃ n', n = S n' ∧
  let sees vs ts cs := ∃ rs, Forall2 (λ v r, read n' h v = Some r) vs rs ∧ ts = rs.*1 ∧ cs = concat rs.*2 in
  match t with
  | NString s => v = VString s ∧ fp = []
  | NInt z => v = VInt z ∧ fp = []
  | NBool b => v = VBool b ∧ fp = []
  | NStruct names ts => ∃ fs, v = VStruct fs ∧ names = fs.*1 ∧ sees fs.*2 ts fp
  | NArray ts => ∃ vs, v = VArray vs ∧ sees vs ts fp
  | NNil k => v = nil_val k ∧ fp = []
  | NRef t' => ∃ a u fp', v = VPtr (Some a) ∧ hget h a = Some u ∧ read n' h u = Some (t', fp') ∧
      fp = addr_loc a :: fp'
  | NMap keys ts => ∃ l m cs, v = VMap (Some l) ∧ h !! l = Some (CMap m) ∧ keys = (map_to_list m).*1 ∧
      sees (map_to_list m).*2 ts cs ∧ fp = l :: cs
  | NSlice ts => ∃ l off len vs cs, v = VSlice (Some (l, off, len)) ∧ h !! l = Some (CVal (VArray vs)) ∧
      off + len ≤ length vs ∧ sees (take len (drop off vs)) ts cs ∧ fp = l :: cs
  end.
Proof.
  destruct n as [|n]; [done|]. intros H. exists n. split; [done|].
  destruct v as [s|z|b|fs|vs|[a|]|[l|]|[[[l off] len]|]]; cbn in H; try (by simplify_eq).
  - apply bind_Some in H as (rs & Hrs%reads_spec & [= <- <-]). naive_solver.
  - apply bind_Some in H as (rs & Hrs%reads_spec & [= <- <-]). naive_solver.
  - apply bind_Some in H as (u & Hu & H). apply bind_Some in H as ([t' fp'] & Hr & [= <- <-]).
    naive_solver.
  - destruct (h !! l) as [[c|m]|] eqn:Hl; try done.
    apply bind_Some in H as (rs & Hrs%reads_spec & [= <- <-]).
    exists l, m, (concat rs.*2). split_and!; eauto.
  - destruct (h !! l) as [[[| | | |vs| | |]|m]|] eqn:Hl; try done. case_decide; [|done].
    apply bind_Some in H as (rs & Hrs%reads_spec & [= <- <-]).
    exists l, off, len, vs, (concat rs.*2). split_and!; eauto.
Qed.

(** The same, from the parts to the whole. *)
Section read_intro.
Context (n : nat) (h : heap).
Let sees vs rs := Forall2 (λ v r, read n h v = Some r) vs rs.

Lemma read_struct fs rs :
  sees fs.*2 rs → read (S n) h (VStruct fs) = Some (NStruct fs.*1 rs.*1, concat rs.*2).
Proof. intros Hrs%reads_spec. cbn. by rewrite Hrs. Qed.

Lemma read_ptr a u t fp :
  hget h a = Some u → read n h u = Some (t, fp) →
  read (S n) h (VPtr (Some a)) = Some (NRef t, addr_loc a :: fp).
Proof. intros Hu Hr. cbn. rewrite Hu. cbn. by rewrite Hr. Qed.

Lemma read_map l m rs :
  h !! l = Some (CMap m) → sees (map_to_list m).*2 rs →
  read (S n) h (VMap (Some l)) = Some (NMap (map_to_list m).*1 rs.*1, l :: concat rs.*2).
Proof. intros Hl Hrs%reads_spec. cbn. rewrite Hl. by rewrite Hrs. Qed.

Lemma read_slice l vs rs :
  h !! l = Some (CVal (VArray vs)) → sees vs rs →
  read (S n) h (VSlice (Some (l, 0, length vs))) = Some (NSlice rs.*1, l :: concat rs.*2).
Proof.
  intros Hl Hrs%reads_spec. cbn. rewrite Hl, decide_True by done. by rewrite drop_0, firstn_all, Hrs.
Qed.
End read_intro.
