(* ===== verification/Copies.v ===== *)
(** * Copies: the idioms of generated deep copies, and their contract

    Generated copies are built from a handful of statements: the assignment of the whole
    struct, then, for every field that refers to something, a statement that gives the copy
    cells of its own.  Each idiom is a definition over the memory of Memory.v; [copies τ f]
    says what a copying function of the type [τ] promises, and every idiom keeps the promise
    when the functions that it calls do.  For a struct, every field that is not flat must have
    its statement ([struct_copies]). *)

From S2P Require Import Prelude Memory.

(** ** The idioms *)

Definition copier : Type := addr → addr → M heap unit.

(** [*out = *in], then a statement for each of the fields listed. *)
Definition struct_copy (fixes : list (string * copier)) : copier := λ i o,
  assign i o;;
  for_each fixes (λ fk, fk.2 (field_addr i fk.1) (field_addr o fk.1)).

(** [if *in != nil { *out = new(T); ( *in).DeepCopyInto( *out) }], and with [assign] for the
    last call [**out = **in]. *)
Definition ptr_copy (τ : ty) (into : copier) : copier := λ i o,
  unless_nil i (
    l ← new τ;
    store o (VPtr (Some (cell_addr l)));;
    p ← load_ptr i; q ← load_ptr o; into p q).

(** [for i := range *in { ( *in)[i].DeepCopyInto(&( *out)[i]) }], over [n] elements. *)
Definition elements (n : nat) (into : copier) : copier := λ i o,
  for_each (seq 0 n) (λ k, p ← index i k; q ← index o k; into p q).

(** [copy( *out, *in)], for arrays that do not overlap. *)
Definition copy_elements : copier := λ i o,
  d ← load_slice o; s ← load_slice i; elements (d.2 `min` s.2) assign i o.

(** [if *in != nil { *out = make([]T, len( *in)); ... }], where the elements are copied by the
    loop, or by [copy]. *)
Definition make_slice (τ : ty) (body : nat → copier) : copier := λ i o,
  unless_nil i (
    s ← load_slice i;
    l ← alloc (CVal (VArray (replicate s.2 (zero_val τ))));
    store o (VSlice (Some (l, 0, s.2)));;
    body s.2 i o).

Definition slice_copy (τ : ty) (into : copier) : copier := make_slice τ (λ n, elements n into).
Definition slice_assign (τ : ty) : copier := make_slice τ (λ _, copy_elements).

(** [if *in != nil { *out = make(map[string]T, len( *in)); for key, val := range *in { ... } }]. *)
Definition map_copy : copier := λ i o,
  unless_nil i (
    m ← load_map i;
    l ← alloc (CMap ∅);
    store o (VMap (Some l));;
    for_each (map_to_list m.2) (λ kv, map_set o kv.1 kv.2)).

(** [DeepCopy]: nil, or a new value that is copied into. *)
Definition deep_copy (τ : ty) (into : copier) (i : option addr) : M heap (option addr) :=
  match i with
  | None => mret None
  | Some i =>
      l ← new τ;
      into i (cell_addr l);;
      mret (Some (cell_addr l))
  end.

(** ** The contract *)

(** Whatever the copier is given that reads as a tree of the type, and wherever it may write
    outside of it, it returns; it wrote the cell of [o] and new cells only ([h1 ⊆ h']); the
    value that it left reads as the same tree, through new cells only. *)
Definition copies (τ : ty) (into : copier) : Prop :=
  ∀ n h i o v w t fp,
    hget h i = Some v → read n h v = Some (t, fp) → has_type τ t →
    addr_loc i ≠ addr_loc o → addr_loc o ∉ fp →
    hget h o = Some w → (is_nil v → w = v) →
    wp (into i o) (λ _ h', ∃ v' fp' h1,
      hput h o v' = Some h1 ∧ h1 ⊆ h' ∧
      read n h' v' = Some (t, fp') ∧ Forall (.∉ dom h) fp') (λ _ _, False) h.

(** ** Types and trees *)

Lemma has_type_struct fs t :
  has_type (TyStruct fs) t → ∃ ts, t = NStruct fs.*1 ts ∧ Forall2 (λ τ t, has_type τ t) fs.*2 ts.
Proof.
  destruct t; try done. cbn. intros [Hn Hgo]%andb_prop_elim.
  apply bool_decide_unpack in Hn as ->. exists ts. split; [done|].
  revert ts Hgo. induction fs as [|fτ fs IH]; intros [|t ts]; try done.
  intros [Ht Hgo]%andb_prop_elim. cbn. constructor; auto.
Qed.

Lemma concat_nil {X} (rs : list (tree * list X)) :
  Forall (λ r, r.2 = []) rs → concat rs.*2 = [].
Proof. induction 1 as [|r rs Hr _ IH]; cbn; [done|]. by rewrite Hr. Qed.

(** A value of a flat type has no footprint. *)
Lemma flat_footprint n h τ v t fp :
  flat τ → has_type τ t → read n h v = Some (t, fp) → fp = [].
Proof.
  revert τ v t fp. induction n as [|n IH]; intros τ v t fp Hf Ht Hr; [done|].
  destruct τ as [| | |fs| | |]; try done.
  1-3: destruct t; try done; by apply read_inv in Hr as (? & _ & _ & ->).
  apply has_type_struct in Ht as (ts & -> & Hts).
  apply read_inv in Hr as (n' & [= <-] & gs & -> & _ & rs & Hrs & -> & ->). apply concat_nil.
  cbn in Hf. revert fs Hf Hts. induction Hrs as [|v [t fp] vs rs Hr Hrs IHrs]; intros fs Hf Hts; [done|].
  destruct fs as [|fτ fs]; [by inversion Hts|]. cbn in *. apply andb_prop_elim in Hf as [Hf Hfs].
  apply Forall2_cons in Hts as [Ht Hts]. constructor; [by eapply IH|by eapply IHrs].
Qed.

(** Values of a flat type read the same in every heap. *)
Lemma flat_reads n h h' τ vs rs :
  flat τ → forallb (has_type τ) rs.*1 → Forall2 (λ v r, read n h v = Some r) vs rs →
  Forall2 (λ v r, read n h' v = Some r) vs rs ∧ concat rs.*2 = [].
Proof.
  intros Hf Ht Hrs. induction Hrs as [|v [t fp] vs rs Hr _ IH]; cbn in *; [by repeat constructor|].
  apply andb_prop_elim in Ht as [Ht Hts]. destruct (IH Hts) as [IH1 IH2].
  pose proof (flat_footprint _ _ _ _ _ _ Hf Ht Hr) as ->. split; [|by rewrite IH2].
  constructor; [by eapply read_frame|done].
Qed.

Lemma zero_nil n h τ v t fp : has_type τ t → read n h v = Some (t, fp) → is_nil v → zero_val τ = v.
Proof.
  intros Ht Hr Hn. destruct n; [done|].
  destruct v as [| | | | |[?|]|[?|]|[?|]]; try done; cbn in Hr; simplify_eq; by destruct τ.
Qed.

(** ** The statements *)

Section statements.
Context {E : error → heap → Prop}.
Implicit Types (h : heap) (a i o : addr) (l : loc).

Lemma wp_load h a v Q : hget h a = Some v → Q v h → wp (load a) Q E h.
Proof. intros Hv HQ. unfold load. wp_simpl. by rewrite Hv. Qed.

Lemma wp_store h a v h' Q : hput h a v = Some h' → Q tt h' → wp (store a v) Q E h.
Proof. intros Hv HQ. unfold store. wp_simpl. rewrite Hv. by wp_simpl. Qed.

Lemma wp_alloc h c Q : (∀ l, l ∉ dom h → Q l (<[l := c]> h)) → wp (alloc c) Q E h.
Proof. intros HQ. unfold alloc. wp_simpl. apply HQ, is_fresh. Qed.

Lemma wp_load_ptr h a p Q : hget h a = Some (VPtr (Some p)) → Q p h → wp (load_ptr a) Q E h.
Proof. intros Hv HQ. unfold load_ptr. wp_simpl. by eapply wp_load. Qed.

Lemma wp_load_slice h a s Q : hget h a = Some (VSlice (Some s)) → Q s h → wp (load_slice a) Q E h.
Proof. intros Hv HQ. unfold load_slice. wp_simpl. by eapply wp_load. Qed.

Lemma wp_load_map h a l m Q :
  hget h a = Some (VMap (Some l)) → h !! l = Some (CMap m) → Q (l, m) h → wp (load_map a) Q E h.
Proof.
  intros Hv Hm HQ. unfold load_map. wp_simpl. eapply wp_load; [done|]. wp_simpl. by rewrite Hm.
Qed.

Lemma wp_index h a l off len k Q :
  hget h a = Some (VSlice (Some (l, off, len))) → k < len →
  Q (elem_addr (cell_addr l) (off + k)) h → wp (index a k) Q E h.
Proof.
  intros Hv Hk HQ. unfold index. wp_simpl. eapply wp_load_slice; [done|]. cbn.
  rewrite decide_True by done. by wp_simpl.
Qed.

Lemma wp_unless_nil h i v body Q :
  hget h i = Some v → (is_nil v = true → Q tt h) → (is_nil v = false → wp body Q E h) →
  wp (unless_nil i body) Q E h.
Proof.
  intros Hv Hn Hb. unfold unless_nil. wp_simpl. eapply wp_load; [done|].
  destruct (is_nil v); [by apply Hn|by apply Hb].
Qed.
End statements.

(** ** The idioms keep the contract *)

Lemma Forall_fresh_mono {X : gset loc} {Y fp} : X ⊆ Y → Forall (.∉ Y) fp → Forall (.∉ X) fp.
Proof. intros HX Hf. eapply Forall_impl; [done|]. set_solver. Qed.

(** A nil is copied by leaving the copy alone. *)
Lemma nil_copied n (h : heap) o v w t fp :
  hget h o = Some w → (is_nil v → w = v) → is_nil v = true → read n h v = Some (t, fp) →
  ∃ v' fp' h1, hput h o v' = Some h1 ∧ h1 ⊆ h ∧ read n h v' = Some (t, fp') ∧ Forall (.∉ dom h) fp'.
Proof.
  intros Ho Hw Hn Hr. rewrite (Hw (Is_true_true_2 _ Hn)) in Ho.
  exists v, [], h. split_and!; [by apply hput_same|done| |done].
  destruct n; [done|]. destruct v as [| | | | |[?|]|[?|]|[?|]]; try done; cbn in *; by simplify_eq.
Qed.

Lemma assign_copies τ : flat τ → copies τ assign.
Proof.
  intros Hf n h i o v w t fp Hi Hr Ht _ _ Ho _. unfold assign. wp_simpl.
  eapply wp_load; [done|]. destruct (hput_total _ _ _ v Ho) as [h1 Hh1].
  eapply wp_store; [done|]. rewrite (flat_footprint _ _ _ _ _ _ Hf Ht Hr) in Hr.
  exists v, [], h1. split_and!; [done..| |done]. by eapply read_frame.
Qed.

(** What was read before is still read after a write elsewhere and allocations. *)
Lemma read_written n h o u h1 h' v t fp :
  hput h o u = Some h1 → h1 ⊆ h' → read n h v = Some (t, fp) → addr_loc o ∉ fp →
  read n h' v = Some (t, fp).
Proof.
  intros Hu Hs Hr Ho. eapply read_frame; [done|].
  apply read_dom in Hr as Hd. apply Forall_forall. intros l Hl.
  rewrite Forall_forall in Hd. specialize (Hd l Hl). apply elem_of_dom in Hd as [c Hc].
  rewrite Hc. eapply lookup_weaken; [|done]. rewrite (hput_ne _ _ _ _ _ Hu); [done|]. congruence.
Qed.

Lemma hget_written h o u h1 h' a v :
  hput h o u = Some h1 → h1 ⊆ h' → hget h a = Some v → addr_loc a ≠ addr_loc o → hget h' a = Some v.
Proof.
  intros Hu Hs Ha Hne. eapply hget_sub; [done|]. rewrite (hget_agree h); [done|].
  by apply (hput_ne _ _ _ _ _ Hu).
Qed.

(** A cell that was added and written is as if it had been added later. *)
Lemma fresh_written (h h2 : heap) l c u h3 h' :
  h2 = <[l := c]> h → l ∉ dom h → hput h2 (cell_addr l) u = Some h3 → h3 ⊆ h' → h ⊆ h'.
Proof.
  intros -> Hl (c0 & c1 & _ & _ & ->)%hput_inv Hs. cbn in Hs. rewrite insert_insert_eq in Hs.
  etrans; [|done]. apply insert_subseteq. by apply not_elem_of_dom.
Qed.

Lemma ptr_copies τ into : copies τ into → copies (TyPtr τ) (ptr_copy τ into).
Proof.
  intros Hinto n h i o v w t fp Hi Hr Ht Hne Hfp Ho Hw. unfold ptr_copy.
  eapply wp_unless_nil; [done|intros Hn; by eapply nil_copied|intros Hn].
  destruct t as [| | | | |[]|t| |]; try done; apply read_inv in Hr as (n' & -> & Hr);
    [by destruct Hr as [-> _]|].
  destruct Hr as (a & u & fpu & -> & Hu & Hr & ->). apply not_elem_of_cons in Hfp as [Hoa Hfp].
  unfold new. wp_simpl. apply wp_alloc. intros l Hl. wp_simpl.
  destruct (hput_total _ _ _ (VPtr (Some (cell_addr l))) Ho) as [h1 Hh1].
  assert (l ≠ addr_loc o) by (intros ->; apply hget_dom in Ho; done).
  assert (l ≠ addr_loc i) by (intros ->; apply hget_dom in Hi; done).
  assert (l ≠ addr_loc a) by (intros ->; apply hget_dom in Hu; done).
  assert (l ∉ dom h1) as Hl1 by by rewrite (hput_dom _ _ _ _ Hh1).
  assert (h1 ⊆ <[l := CVal (zero_val τ)]> h1) as Hs1
    by by apply insert_subseteq, not_elem_of_dom.
  eapply wp_store; [by apply hput_insert|]. wp_simpl.
  eapply wp_load_ptr; [by eapply hget_written|]. wp_simpl.
  eapply wp_load_ptr; [by eapply hget_sub, hget_hput|].
  eapply wp_mono; [eapply Hinto| |done].
  - by eapply hget_written.
  - by eapply read_written.
  - done.
  - done.
  - apply read_dom in Hr. rewrite Forall_forall in Hr. intros Hx. by apply Hl, Hr.
  - unfold hget. cbn. by rewrite lookup_insert_eq.
  - intros Hnil. by eapply zero_nil.
  - intros [] h' (v' & fp' & h3 & Hput & Hs3 & Hr' & Hfp').
    exists (VPtr (Some (cell_addr l))), (l :: fp'), h1. split_and!; [done| | |].
    + by eapply fresh_written.
    + by eapply read_ptr; [eapply hget_sub, hget_hput|].
    + constructor; [done|]. eapply Forall_fresh_mono; [|done].
      rewrite dom_insert_L, (hput_dom _ _ _ _ Hh1). set_solver.
Qed.

(** *** Maps *)

(** The loop that fills a map, in whatever order the entries come. *)
Lemma map_fill E h o l (es : list (string * val)) acc Q :
  hget h o = Some (VMap (Some l)) → addr_loc o ≠ l → h !! l = Some (CMap acc) → NoDup es.*1 →
  Q tt (<[l := CMap (list_to_map es ∪ acc)]> h) →
  wp (for_each es (λ kv, map_set o kv.1 kv.2)) Q E h.
Proof.
  revert h acc. induction es as [|[k v] es IH]; intros h acc Ho Hol Hl Hnd HQ; cbn [for_each].
  - wp_simpl. cbn in HQ. rewrite (left_id_L ∅ (∪)), insert_id in HQ by done. done.
  - apply NoDup_cons in Hnd as [Hk Hnd]. unfold map_set. wp_simpl.
    eapply wp_load_map; [done..|]. wp_simpl. cbn.
    apply (IH _ (<[k := v]> acc)); [|done|by rewrite lookup_insert_eq|done|].
    + rewrite (hget_agree h); [done|]. by rewrite lookup_insert_ne.
    + rewrite insert_insert_eq. cbn in HQ.
      rewrite <- insert_union_l, insert_union_r in HQ; [done|].
      by apply not_elem_of_list_to_map.
Qed.

(** The order of the range over the map does not matter. *)
Lemma map_fill_order E h o l (es : list (string * val)) m Q :
  hget h o = Some (VMap (Some l)) → addr_loc o ≠ l → h !! l = Some (CMap ∅) →
  es ≡ₚ map_to_list m → Q tt (<[l := CMap m]> h) →
  wp (for_each es (λ kv, map_set o kv.1 kv.2)) Q E h.
Proof.
  intros Ho Hol Hl Hes HQ.
  assert (NoDup es.*1) as Hnd by (rewrite Hes; apply NoDup_fst_map_to_list).
  eapply map_fill; [done..|]. rewrite (right_id_L ∅ (∪)).
  by rewrite (list_to_map_proper _ _ Hnd Hes), list_to_map_to_list.
Qed.

Lemma map_copies τ : flat τ → copies (TyMap τ) map_copy.
Proof.
  intros Hf n h i o v w t fp Hi Hr Ht Hne Hfp Ho Hw. unfold map_copy.
  eapply wp_unless_nil; [done|intros Hn; by eapply nil_copied|intros Hn].
  destruct t as [| | | | |[]| |keys ts|]; try done; apply read_inv in Hr as (n' & -> & Hr);
    [by destruct Hr as [-> _]|].
  destruct Hr as (l0 & m & cs & -> & Hl0 & -> & (rs & Hrs & -> & ->) & ->).
  apply not_elem_of_cons in Hfp as [Hol Hfp].
  wp_simpl. eapply wp_load_map; [done..|]. wp_simpl. apply wp_alloc. intros l Hl. wp_simpl.
  destruct (hput_total _ _ _ (VMap (Some l)) Ho) as [h1 Hh1].
  assert (l ≠ addr_loc o) by (intros ->; apply hget_dom in Ho; done).
  assert (l ∉ dom h1) as Hl1 by by rewrite (hput_dom _ _ _ _ Hh1).
  assert (h1 !! l = None) as Hl1' by by apply not_elem_of_dom.
  eapply wp_store; [by apply hput_insert|]. cbn [fst snd].
  eapply (map_fill_order _ _ _ l); [|done|by rewrite lookup_insert_eq|done|].
  { eapply hget_sub; [by apply insert_subseteq|by eapply hget_hput]. }
  rewrite insert_insert_eq.
  destruct (flat_reads n' h (<[l := CMap m]> h1) τ _ _ Hf Ht Hrs) as [Hrs' Hnil].
  exists (VMap (Some l)), [l], h1. split_and!; [done|by apply insert_subseteq| |by constructor].
  rewrite (read_map n' (<[l := CMap m]> h1) l m rs); [by rewrite Hnil|by rewrite lookup_insert_eq|done].
Qed.

(** *** Parts that are copied one after the other *)

(** The part [u] of the copy, which lies in the cell [l], has cells of its own. *)
Definition copied (n : nat) (h : heap) (l : loc) (h' : heap) (u : val) (r : tree * list loc) : Prop :=
  ∃ fp, read n h' u = Some (r.1, fp) ∧ Forall (.∉ dom h) fp ∧ l ∉ fp.

(** It keeps them when another part is written. *)
Lemma copied_written n h q l h1 w h2 h' u r :
  hput h1 q w = Some h2 → h2 ⊆ h' → addr_loc q = l → copied n h l h1 u r → copied n h l h' u r.
Proof.
  intros Hput Hs <- (fp & Hr & Hfp & Hl). exists fp. split_and!; [|done..]. by eapply read_written.
Qed.

Lemma copied_parts n h l h' us rs :
  Forall2 (copied n h l h') us rs →
  ∃ rs', Forall2 (λ u r, read n h' u = Some r) us rs' ∧ rs'.*1 = rs.*1 ∧ Forall (.∉ dom h) (concat rs'.*2).
Proof.
  induction 1 as [|u r us rs (fp & Hr & Hfp & _) _ (rs' & Hrs' & Ht & Hf)]; [by exists []|].
  exists ((r.1, fp) :: rs'). cbn. split_and!; [by constructor|by f_equal|by apply Forall_app].
Qed.

(** *** Slices *)

Section slice_loop.
Context (n : nat) (h h1 : heap) (i o : addr) (l0 l : loc) (off : nat) (arr : list val).
Context (vs : list val) (rs : list (tree * list loc)) (τ : ty) (into : copier).
Hypothesis (Hinto : copies τ into).
Hypothesis (Hi : hget h i = Some (VSlice (Some (l0, off, length vs)))) (Hl0 : h !! l0 = Some (CVal (VArray arr))).
Hypothesis (Harr : ∀ k v, vs !! k = Some v → arr !! (off + k) = Some v).
Hypothesis (Hrs : Forall2 (λ v r, read n h v = Some r) vs rs) (Hts : forallb (has_type τ) rs.*1).
Hypothesis (Hne : addr_loc i ≠ addr_loc o) (Hol : l0 ≠ addr_loc o).
Hypothesis (Hfp : addr_loc o ∉ concat rs.*2).
Hypothesis (Hh1 : hput h o (VSlice (Some (l, 0, length vs))) = Some h1) (Hl : l ∉ dom h).

Lemma slice_fresh : l ≠ addr_loc o.
Proof. intros ->. apply Hl. rewrite <- (hput_dom _ _ _ _ Hh1). by eapply hget_dom, hget_hput. Qed.

(** What the copier of the elements is called with. *)
Lemma slice_element k : k < length vs →
  ∃ v t fp, vs !! k = Some v ∧ rs !! k = Some (t, fp) ∧ read n h v = Some (t, fp) ∧ has_type τ t ∧
    addr_loc o ∉ fp ∧ l ∉ fp.
Proof.
  intros [v Hv]%lookup_lt_is_Some.
  destruct (Forall2_lookup_l _ _ _ _ _ Hrs Hv) as ([t fp] & Hr & Hread).
  exists v, t, fp. split_and!; [done..| | |].
  - apply forallb_True in Hts. rewrite Forall_fmap in Hts. by apply (Forall_lookup_1 _ _ _ _ Hts Hr).
  - intros Hin. apply Hfp, list_elem_of_In, in_concat. exists fp. split; [|by apply list_elem_of_In].
    apply in_map_iff. exists (t, fp). split; [done|]. eapply list_elem_of_In, list_elem_of_lookup_2, Hr.
  - apply read_dom in Hread. rewrite Forall_forall in Hread. intros Hin. by apply Hl, Hread.
Qed.

(** The first elements are copied, [m] are left. *)
Definition slice_inv (us : list val) (m : nat) (hk : heap) : Prop :=
  h1 ⊆ hk ∧ hk !! l = Some (CVal (VArray (us ++ replicate m (zero_val τ)))) ∧
  Forall2 (copied n h l hk) us (take (length us) rs).

Lemma slice_step us m hk v' t fp0 fp' h3 h' :
  slice_inv us (S m) hk → rs !! length us = Some (t, fp0) →
  hput hk (elem_addr (cell_addr l) (length us)) v' = Some h3 → h3 ⊆ h' →
  read n h' v' = Some (t, fp') → Forall (.∉ dom hk) fp' → slice_inv (us ++ [v']) m h'.
Proof.
  intros (Hs & Hk & Hcp) Hr Hput Hs3 Hr' Hfp'. split_and!.
  - etrans; [|exact Hs3]. apply hput_inv in Hput as (c & c' & _ & _ & ->). cbn.
    apply insert_subseteq_r; [|done]. apply not_elem_of_dom. by rewrite (hput_dom _ _ _ _ Hh1).
  - eapply lookup_weaken; [|done]. apply hput_inv in Hput as (c & c' & Hc & Hp & ->). cbn in *.
    rewrite Hk in Hc. injection Hc as <-. rewrite lookup_insert_eq. cbn in Hp.
    rewrite lookup_app_r, Nat.sub_diag in Hp by lia. cbn in Hp. injection Hp as <-.
    by rewrite insert_app_r_alt, Nat.sub_diag, <- app_assoc by lia.
  - rewrite length_app, Nat.add_1_r, (take_S_r _ _ _ Hr). apply Forall2_app.
    { eapply Forall2_impl; [done|]. intros u r Hu. by eapply copied_written. }
    constructor; [|done]. exists fp'. split_and!; [done| |].
    + eapply Forall_fresh_mono; [|done]. rewrite <- (hput_dom _ _ _ _ Hh1). by apply subseteq_dom.
    + rewrite Forall_forall in Hfp'. intros Hin. apply (Hfp' _ Hin), elem_of_dom. by eexists.
Qed.

Lemma slice_loop m us hk :
  length us + m = length vs → slice_inv us m hk →
  wp (for_each (seq (length us) m) (λ k, p ← index i k; q ← index o k; into p q))
    (λ _ h', ∃ us, length us = length vs ∧ slice_inv us 0 h') (λ _ _, False) hk.
Proof.
  revert us hk. induction m as [|m IH]; intros us hk Hkm Hinv; cbn [seq for_each].
  - wp_simpl. exists us. split; [lia|done].
  - destruct (slice_element (length us) ltac:(lia)) as (v & t & fp & Hv & Hr & Hread & Ht & Hofp & Hlfp).
    pose proof slice_fresh as Hlo. pose proof Hinv as (Hs & Hk & _).
    wp_simpl. eapply wp_index; [by eapply hget_written|lia|]. wp_simpl.
    eapply wp_index; [by eapply hget_sub, hget_hput|lia|].
    eapply wp_mono; [eapply (Hinto n hk _ _ v (zero_val τ))| |done].
    + unfold hget. cbn. erewrite lookup_weaken; [|rewrite (hput_ne _ _ _ _ _ Hh1); done|done].
      cbn. by rewrite (Harr _ _ Hv).
    + by eapply read_written.
    + done.
    + cbn. intros ->. apply Hl, elem_of_dom. by eexists.
    + done.
    + unfold hget. cbn. rewrite Hk. cbn. by rewrite lookup_app_r, Nat.sub_diag by lia.
    + intros Hnil. by eapply zero_nil.
    + intros [] h' (v' & fp' & h3 & Hput & Hs3 & Hr' & Hfp'). wp_simpl.
      pose proof (slice_step _ _ _ _ _ _ _ _ _ Hinv Hr Hput Hs3 Hr' Hfp') as Hinv'.
      specialize (IH (us ++ [v']) h'). rewrite length_app, Nat.add_1_r in IH. apply IH; [lia|done].
Qed.
End slice_loop.

(** The loop may be written in any way that goes over the elements. *)
Lemma make_slice_copies τ into body :
  copies τ into →
  (∀ h i o s s' Q E, hget h i = Some (VSlice (Some s)) → hget h o = Some (VSlice (Some s')) →
     s'.2 = s.2 → wp (elements s.2 into i o) Q E h → wp (body s.2 i o) Q E h) →
  copies (TySlice τ) (make_slice τ body).
Proof.
  intros Hinto Hbody n h i o v w t fp Hi Hr Ht Hne Hfp Ho Hw. unfold make_slice.
  eapply wp_unless_nil; [done|intros Hn; by eapply nil_copied|intros Hn].
  destruct t as [| | | | |[]| | |ts]; try done; apply read_inv in Hr as (n' & -> & Hr);
    [by destruct Hr as [-> _]|].
  destruct Hr as (l0 & off & len & arr & cs & -> & Hl0 & Hlen & (rs & Hrs & -> & ->) & ->).
  apply not_elem_of_cons in Hfp as [Hol Hfp].
  assert (length (take len (drop off arr)) = len) as Hvs by (rewrite length_take, length_drop; lia).
  wp_simpl. eapply wp_load_slice; [done..|]. wp_simpl. apply wp_alloc. intros l Hl. cbn [snd]. wp_simpl.
  destruct (hput_total _ _ _ (VSlice (Some (l, 0, len))) Ho) as [h1 Hh1].
  assert (l ∉ dom h1) as Hl1%not_elem_of_dom by by rewrite (hput_dom _ _ _ _ Hh1).
  eapply wp_store; [by apply hput_insert|].
  eapply (Hbody _ _ _ (l0, off, len) (l, 0, len)).
  { eapply hget_written; [done|by apply insert_subseteq|done|done]. }
  { eapply hget_sub; [by apply insert_subseteq|by eapply hget_hput]. }
  { done. }
  cbn [snd]. set (vs := take len (drop off arr)) in *. rewrite <- Hvs in Hi, Hh1 |- *. unfold elements.
  eapply wp_mono; [eapply (slice_loop n' h h1 i o l0 l off arr vs rs τ into) with (us := [])| |done];
    try done.
  - intros k x Hx. unfold vs in Hx. apply lookup_take_Some in Hx as [Hx _]. by rewrite lookup_drop in Hx.
  - split_and!; [by apply insert_subseteq|by rewrite lookup_insert_eq|done].
  - intros [] h' (us & Hus & Hs & Hk & Hcp). rewrite app_nil_r in Hk.
    rewrite take_ge in Hcp by (apply Forall2_length in Hrs; lia).
    apply copied_parts in Hcp as (rs' & Hrs' & Hts & Hfr).
    exists (VSlice (Some (l, 0, length vs))), (l :: concat rs'.*2), h1. split_and!; [done..| |].
    + rewrite <- Hus, <- Hts. by apply read_slice.
    + by constructor.
Qed.

Lemma slice_copies τ into : copies τ into → copies (TySlice τ) (slice_copy τ into).
Proof. intros Hinto. by apply (make_slice_copies _ into). Qed.

Lemma slice_assign_copies τ : flat τ → copies (TySlice τ) (slice_assign τ).
Proof.
  intros Hf. apply (make_slice_copies _ assign); [by apply assign_copies|].
  intros h i o s s' Q E Hi Ho Hs Hwp. unfold copy_elements. wp_simpl.
  eapply wp_load_slice; [done|]. wp_simpl. eapply wp_load_slice; [done|].
  by rewrite Hs, Nat.min_id.
Qed.

(** *** Structs *)

Lemma named_lookup {A B} (l : list (A * B)) j a : l.*1 !! j = Some a → ∃ b, l !! j = Some (a, b).
Proof. rewrite list_lookup_fmap. destruct (l !! j) as [[??]|]; cbn; [|done]. intros [= ->]. eauto. Qed.

Lemma pair_elem {A B} (l : list (A * B)) j a b : l.*1 !! j = Some a → l.*2 !! j = Some b → (a, b) ∈ l.
Proof.
  intros [b' Hj]%named_lookup. rewrite list_lookup_fmap, Hj. intros [= ->].
  by eapply list_elem_of_lookup_2.
Qed.

(** The statement of a field, if it has one. *)
Fixpoint fix_of (f : string) (fixes : list (string * copier)) : option copier :=
  match fixes with
  | [] => None
  | (g, k) :: fixes' => if String.eqb g f then Some k else fix_of f fixes'
  end.

Lemma field_lookup fs j f v : NoDup fs.*1 → fs !! j = Some (f, v) → field f fs = Some v.
Proof.
  revert j. induction fs as [|[g u] fs IH]; intros j Hnd Hj; [done|].
  apply NoDup_cons in Hnd as [Hg Hnd]. destruct j as [|j]; cbn in *; case_decide; simplify_eq; eauto.
  exfalso. apply Hg. apply (list_elem_of_fmap_2 fst _ (f, v)). by eapply list_elem_of_lookup_2.
Qed.

Lemma set_field_lookup fs j f v w : NoDup fs.*1 → fs !! j = Some (f, v) → set_field f w fs = <[j := (f, w)]> fs.
Proof.
  revert j. induction fs as [|[g u] fs IH]; intros j Hnd Hj; [done|].
  apply NoDup_cons in Hnd as [Hg Hnd]. destruct j as [|j]; cbn in *; case_decide; simplify_eq; try done.
  - exfalso. apply Hg. apply (list_elem_of_fmap_2 fst _ (f, v)). by eapply list_elem_of_lookup_2.
  - f_equal. eauto.
Qed.

Lemma fix_of_elem f k fixes : NoDup fixes.*1 → (f, k) ∈ fixes → fix_of f fixes = Some k.
Proof.
  induction fixes as [|[g k'] fixes IH]; intros Hnd Hin; [by apply not_elem_of_nil in Hin|].
  apply NoDup_cons in Hnd as [Hg Hnd]. cbn. apply elem_of_cons in Hin as [[= <- <-]|Hin]; [by rewrite String.eqb_refl|].
  destruct (String.eqb_spec g f) as [->|]; [|by auto]. exfalso. apply Hg. by apply (list_elem_of_fmap_2 fst _ (f, k)).
Qed.

Lemma fix_of_None f fixes : fix_of f fixes = None ↔ f ∉ fixes.*1.
Proof.
  induction fixes as [|[g k] fixes IH]; cbn; [by split; [intros _ ?%not_elem_of_nil|]|].
  rewrite not_elem_of_cons. destruct (String.eqb_spec g f); naive_solver.
Qed.

Section struct_loop.
Context (n : nat) (h : heap) (i o : addr) (τs : list (string * ty)) (fixes : list (string * copier)).
Context (vs : list (string * val)) (rs : list (tree * list loc)).
Hypothesis (Hnames : vs.*1 = τs.*1) (Hnd : NoDup vs.*1) (Hfnd : NoDup fixes.*1) (Hsub : fixes.*1 ⊆ vs.*1).
Hypothesis (Hi : hget h i = Some (VStruct vs)).
Hypothesis (Hrs : Forall2 (λ v r, read n h v = Some r) vs.*2 rs).
Hypothesis (Hts : Forall2 (λ τ t, has_type τ t) τs.*2 rs.*1).
Hypothesis (Hne : addr_loc i ≠ addr_loc o) (Hfp : addr_loc o ∉ concat rs.*2).
Hypothesis (Hfix : ∀ f τ, (f, τ) ∈ τs →
  match fix_of f fixes with Some k => copies τ k | None => flat τ end).

(** The fields that no statement has dealt with are shared, the others are copied. *)
Definition struct_inv (todo : list (string * copier)) (hk : heap) : Prop :=
  ∃ gs h1, hput h o (VStruct gs) = Some h1 ∧ h1 ⊆ hk ∧ gs.*1 = vs.*1 ∧
  ∀ j f v u r, vs !! j = Some (f, v) → gs !! j = Some (f, u) → rs !! j = Some r →
    if decide (f ∈ todo.*1 ∨ f ∉ fixes.*1) then u = v else copied n h (addr_loc o) hk u r.

(** What the statement of a field is called with. *)
Lemma struct_field f k : (f, k) ∈ fixes →
  ∃ j v τ t fp, vs !! j = Some (f, v) ∧ rs !! j = Some (t, fp) ∧ read n h v = Some (t, fp) ∧
    has_type τ t ∧ addr_loc o ∉ fp ∧ copies τ k.
Proof.
  intros Hin. assert (f ∈ vs.*1) as Hf by by apply Hsub, (list_elem_of_fmap_2 fst _ (f, k)).
  apply list_elem_of_lookup in Hf as [j [v Hj]%named_lookup].
  assert (vs.*2 !! j = Some v) as Hv by by rewrite list_lookup_fmap, Hj.
  destruct (Forall2_lookup_l _ _ _ _ _ Hrs Hv) as ([t fp] & Hr & Hread).
  assert (rs.*1 !! j = Some t) as Ht by by rewrite list_lookup_fmap, Hr.
  destruct (Forall2_lookup_r _ _ _ _ _ Hts Ht) as (τ & Hτ & Htyp).
  exists j, v, τ, t, fp. split_and!; [done..| |].
  - intros Hin'. apply Hfp, list_elem_of_In, in_concat. exists fp. split; [|by apply list_elem_of_In].
    apply in_map_iff. exists (t, fp). split; [done|]. eapply list_elem_of_In, list_elem_of_lookup_2, Hr.
  - specialize (Hfix f τ). rewrite (fix_of_elem _ _ _ Hfnd Hin) in Hfix. apply Hfix.
    apply (pair_elem _ j); [by rewrite <- Hnames, list_lookup_fmap, Hj|done].
Qed.

Lemma struct_inv_step f k todo hk gs h1 v' fp' h' h3 h4 j v t fp :
  (f, k) ∈ fixes → f ∉ todo.*1 →
  hput h o (VStruct gs) = Some h1 → h1 ⊆ hk → gs.*1 = vs.*1 →
  (∀ j f' v u r, vs !! j = Some (f', v) → gs !! j = Some (f', u) → rs !! j = Some r →
    if decide (f' ∈ f :: todo.*1 ∨ f' ∉ fixes.*1) then u = v else copied n h (addr_loc o) hk u r) →
  vs !! j = Some (f, v) → gs !! j = Some (f, v) → rs !! j = Some (t, fp) →
  hput hk (field_addr o f) v' = Some h3 → h3 ⊆ h' → read n h' v' = Some (t, fp') → Forall (.∉ dom hk) fp' →
  hput h o (VStruct (set_field f v' gs)) = Some h4 → h4 ⊆ h' → struct_inv todo h'.
Proof.
  intros Hin Htodo Hh1 Hs Hgs Hparts Hv Hu Hr Hput Hs3 Hr' Hfp' Hh4 Hs4.
  assert (f ∈ fixes.*1) as Hffix by by apply (list_elem_of_fmap_2 fst _ (f, k)).
  assert (NoDup gs.*1) as Hgnd by by rewrite Hgs.
  assert (dom h ⊆ dom hk) as Hdom.
  { rewrite <- (hput_dom _ _ _ _ Hh1). by apply subseteq_dom. }
  exists (set_field f v' gs), h4. split_and!; [done|done|by rewrite set_field_names|].
  rewrite (set_field_lookup _ _ _ _ _ Hgnd Hu). intros j' f' v1 u1 r1 Hv1 Hu1 Hr1.
  destruct (decide (j' = j)) as [->|Hj].
  - rewrite list_lookup_insert_eq in Hu1 by by eapply lookup_lt_Some. simplify_eq.
    rewrite decide_False by naive_solver. exists fp'. split_and!; [done|by eapply Forall_fresh_mono|].
    rewrite Forall_forall in Hfp'. intros Hin'. apply (Hfp' _ Hin'), Hdom.
    apply hput_inv in Hh1 as (c & ? & Hc & _). apply elem_of_dom. by eexists.
  - rewrite list_lookup_insert_ne in Hu1 by done. specialize (Hparts _ _ _ _ _ Hv1 Hu1 Hr1).
    assert (f' ≠ f) as Hf'.
    { intros ->. apply Hj, (NoDup_lookup vs.*1 _ _ f); [done|..]; by rewrite list_lookup_fmap, ?Hv1, ?Hv. }
    case_decide as H1; case_decide as H2; [done| | |by eapply (copied_written _ _ _ _ _ _ _ _ _ _ Hput)].
    all: exfalso; rewrite elem_of_cons in *; naive_solver.
Qed.

Lemma struct_step f k todo hk :
  (f, k) ∈ fixes → f ∉ todo.*1 → struct_inv ((f, k) :: todo) hk →
  wp (k (field_addr i f) (field_addr o f)) (λ _, struct_inv todo) (λ _ _, False) hk.
Proof.
  intros Hin Htodo (gs & h1 & Hh1 & Hs & Hgs & Hparts).
  destruct (struct_field f k Hin) as (j & v & τ & t & fp & Hv & Hr & Hread & Ht & Hofp & Hk).
  assert (gs.*1 !! j = Some f) as Hg by by rewrite Hgs, list_lookup_fmap, Hv.
  apply named_lookup in Hg as [u Hu].
  assert (u = v) as ->.
  { specialize (Hparts j f v u _ Hv Hu Hr). rewrite decide_True in Hparts; [done|]. left. by left. }
  assert (NoDup gs.*1) as Hgnd by by rewrite Hgs.
  assert (hget hk o = Some (VStruct gs)) as Hok by by eapply hget_sub, hget_hput.
  eapply wp_mono; [eapply (Hk n hk _ _ v v t fp)| |done].
  - rewrite (hget_field _ _ _ vs); [by eapply field_lookup|by eapply hget_written].
  - by eapply read_written.
  - done.
  - done.
  - done.
  - rewrite (hget_field _ _ _ gs); [by eapply field_lookup|done].
  - done.
  - intros [] h' (v' & fp' & h3 & Hput & Hs3 & Hr' & Hfp').
    assert (put (VStruct gs) [Field f] v' = Some (VStruct (set_field f v' gs))) as Hp
      by (cbn; by rewrite (field_lookup _ _ _ _ Hgnd Hu)).
    destruct (hput_hput _ _ _ _ _ _ _ _ _ Hh1 Hs Hp Hput) as (h4 & Hh4 & Hs4).
    eapply (struct_inv_step f k todo hk gs h1 v' fp' h' h3 h4 j v t fp); try done. by transitivity h3.
Qed.

Lemma struct_loop todo hk :
  todo ⊆ fixes → NoDup todo.*1 → struct_inv todo hk →
  wp (for_each todo (λ fk, fk.2 (field_addr i fk.1) (field_addr o fk.1)))
    (λ _, struct_inv []) (λ _ _, False) hk.
Proof.
  revert hk. induction todo as [|[f k] todo IH]; intros hk Hin Htnd Hinv; cbn [for_each]; [by wp_simpl|].
  apply NoDup_cons in Htnd as [Hf Htnd]. wp_simpl. cbn.
  eapply wp_mono; [eapply struct_step; [apply Hin; by left|done|done]| |done].
  intros [] h' Hinv'. apply IH; [|done|done]. intros x Hx. apply Hin. by right.
Qed.

(** A field without a statement is flat: shared or copied, it has no cells. *)
Lemma struct_done h' : struct_inv [] h' →
  ∃ gs h1, hput h o (VStruct gs) = Some h1 ∧ h1 ⊆ h' ∧ gs.*1 = vs.*1 ∧
    Forall2 (copied n h (addr_loc o) h') gs.*2 rs.
Proof.
  intros (gs & h1 & Hh1 & Hs & Hgs & Hparts). exists gs, h1. split_and!; [done..|].
  assert (length gs = length vs) as Hlen by by rewrite <- (length_fmap fst gs), Hgs, length_fmap.
  apply Forall2_same_length_lookup. split.
  { apply Forall2_length in Hrs. rewrite length_fmap in *. lia. }
  intros j u r Hu Hr. rewrite list_lookup_fmap in Hu. apply fmap_Some in Hu as ([f u'] & Hu & ->).
  assert (vs.*1 !! j = Some f) as Hv by by rewrite <- Hgs, list_lookup_fmap, Hu.
  apply named_lookup in Hv as [v Hv]. cbn in *.
  specialize (Hparts _ _ _ _ _ Hv Hu Hr). case_decide as Hd; [subst u'|done].
  destruct Hd as [Hd%not_elem_of_nil|Hd%fix_of_None]; [done|].
  assert (vs.*2 !! j = Some v) as Hv2 by by rewrite list_lookup_fmap, Hv.
  pose proof (Forall2_lookup_lr _ _ _ _ _ _ Hrs Hv2 Hr) as Hread.
  assert (rs.*1 !! j = Some r.1) as Ht by by rewrite list_lookup_fmap, Hr.
  destruct (Forall2_lookup_r _ _ _ _ _ Hts Ht) as (τ & Hτ & Htyp).
  assert ((f, τ) ∈ τs) as Hin
    by (apply (pair_elem _ j); [by rewrite <- Hnames, list_lookup_fmap, Hv|done]).
  specialize (Hfix _ _ Hin). rewrite Hd in Hfix. destruct r as [t fp]. cbn in *.
  pose proof (flat_footprint _ _ _ _ _ _ Hfix Htyp Hread) as ->.
  exists []. split_and!; [by eapply read_frame|done|by apply not_elem_of_nil].
Qed.
End struct_loop.

(** The fields with statements are fields, each once. *)
Definition fields_listed (τs : list (string * ty)) (fixes : list (string * copier)) : bool :=
  bool_decide (NoDup τs.*1) && bool_decide (NoDup fixes.*1) &&
  bool_decide (Forall (.∈ τs.*1) fixes.*1).

(** Every field that is not flat has a statement that copies it. *)
Lemma struct_copies τs fixes :
  fields_listed τs fixes = true →
  Forall (λ fτ, match fix_of fτ.1 fixes with Some k => copies fτ.2 k | None => flat fτ.2 end) τs →
  copies (TyStruct τs) (struct_copy fixes).
Proof.
  intros [[Hnd%bool_decide_eq_true Hfnd%bool_decide_eq_true]%andb_prop Hsub%bool_decide_eq_true]%andb_prop Hfix.
  rewrite Forall_forall in Hsub. rewrite Forall_forall in Hfix.
  intros n h i o v w t fp Hi Hr Ht Hne Hfp Ho _. unfold struct_copy. wp_simpl.
  apply has_type_struct in Ht as (ts & -> & Hts).
  apply read_inv in Hr as (n' & -> & vs & -> & Hnames & rs & Hrs & -> & ->).
  rewrite Hnames in Hnd, Hsub. unfold assign. wp_simpl. eapply wp_load; [done|].
  destruct (hput_total _ _ _ (VStruct vs) Ho) as [h1 Hh1]. eapply wp_store; [done|].
  assert (∀ f τ, (f, τ) ∈ τs → match fix_of f fixes with Some k => copies τ k | None => flat τ end) as Hfix'
    by (intros f τ; apply Hfix).
  eapply wp_mono; [eapply (struct_loop n' h i o τs fixes vs rs)| |done]; try done.
  - exists vs, h1. split_and!; [done..|]. intros j f v u r Hv Hu _. rewrite Hv in Hu. simplify_eq.
    rewrite decide_True; [done|]. destruct (decide (f ∈ fixes.*1)); [by left|by right].
  - intros [] h' Hinv.
    eapply (struct_done n' h i o τs fixes vs rs) in Hinv as (gs & h2 & Hh2 & Hs & Hgs & Hcp); try done.
    apply copied_parts in Hcp as (rs' & Hrs' & <- & Hfr).
    exists (VStruct gs), (concat rs'.*2), h2. split_and!; [done..| |done].
    rewrite Hnames, <- Hgs. by apply read_struct.
Qed.

(** ** What [DeepCopy] promises *)

(** [p] points to a new cell of [h'], which reads as [t]; neither can be changed through the
    other: whatever is written outside of the cells of the original, it reads as before, and
    so does the copy, whatever is written to the cells that were there before the call. *)
Definition independent_copy (n : nat) (h : heap) (a : addr) (t : tree) (p : option addr) (h' : heap) : Prop :=
  ∃ l, p = Some (cell_addr l) ∧ l ∉ dom h ∧ h ⊆ h' ∧
  (∀ h2, (∀ x, x ∈ dom h → h2 !! x = h' !! x) →
     ∃ v fp, hget h2 a = Some v ∧ read n h2 v = Some (t, fp)) ∧
  (∀ h2, (∀ x, x ∉ dom h → h2 !! x = h' !! x) →
     ∃ v fp, hget h2 (cell_addr l) = Some v ∧ read n h2 v = Some (t, fp)).

Definition copies_apart (τ : ty) (f : option addr → M heap (option addr)) : Prop :=
  (∀ h, f None h = (h, Ret None)) ∧
  ∀ n h a v t fp, hget h a = Some v → read n h v = Some (t, fp) → has_type τ t →
    wp (f (Some a)) (independent_copy n h a t) (λ _ _, False) h.

Lemma deep_copy_apart τ into : copies τ into → copies_apart τ (deep_copy τ into).
Proof.
  intros Hinto. split; [done|]. intros n h a v t fp Ha Hr Ht. unfold deep_copy, new. wp_simpl.
  apply wp_alloc. intros l Hl. assert (h !! l = None) as Hln by by apply not_elem_of_dom.
  assert (h ⊆ <[l := CVal (zero_val τ)]> h) as Hs by by apply insert_subseteq.
  assert (∀ l, l ∈ fp → l ∈ dom h) as Hfp by by apply read_dom in Hr; rewrite Forall_forall in Hr.
  assert (∀ (g g' : heap) x, g ⊆ g' → x ∈ dom g → g' !! x = g !! x) as Hsub.
  { intros g g' x Hg [c Hc]%elem_of_dom. rewrite Hc. by eapply lookup_weaken. }
  wp_simpl. eapply wp_mono; [eapply (Hinto n _ a (cell_addr l) v (zero_val τ))| |done].
  - by eapply hget_sub.
  - eapply read_frame; [done|]. apply Forall_forall. intros x Hx%Hfp. by apply Hsub.
  - done.
  - cbn. intros <-. by apply hget_dom in Ha.
  - by intros ?%Hfp.
  - unfold hget. cbn. by rewrite lookup_insert_eq.
  - intros Hn. by eapply zero_nil.
  - intros [] h' (v' & fp' & h1 & Hput & Hs1 & Hr' & Hfr). wp_simpl.
    assert (h ⊆ h') as Hsh by by eapply fresh_written.
    exists l. split_and!; [done..| |].
    + intros h2 Hh2. exists v, fp. split.
      * rewrite (hget_agree h); [done|]. apply hget_dom in Ha. rewrite Hh2 by done. by apply Hsub.
      * eapply read_frame; [done|]. apply Forall_forall. intros x Hx%Hfp. rewrite Hh2 by done. by apply Hsub.
    + intros h2 Hh2. exists v', fp'. split.
      * rewrite (hget_agree h'); [exact (hget_sub _ _ _ _ Hs1 (hget_hput _ _ _ _ Hput))|]. by apply Hh2.
      * eapply read_frame; [done|]. eapply Forall_impl; [done|]. intros x Hx. apply Hh2.
        intros Hx'. apply Hx. rewrite dom_insert_L. set_solver.
Qed.
