(* ===== verification/DeepCopy.v ===== *)
(** * DeepCopy: api/v1/zz_generated.deepcopy.go

    The generated copies of the custom resource's types, one definition per function, over
    the memory of Memory.v: a statement of the code is an entry of [struct_copy], with the
    idiom of Copies.v that it is an instance of.  The types are those of Api, here with what
    refers to something told apart from what does not.  The types of k8s.io that occur in
    them, and their copies, are the parameters [KubeCopies]; [KubeCopiesLaws] is what
    k8s.io documents of every DeepCopyInto.

    controller-runtime's cache hands out objects through [DeepCopyObject]: the operator
    changes the custom resource that it was given (defaults, conditions) and must not reach
    the cached one.  [DeepCopy_independent] is that promise, for every type. *)

From S2P Require Import Prelude Memory Copies.

(** ** k8s.io *)

Class KubeCopies : Type := {
  TypeMeta_ty : ty;
  ObjectMeta_ty : ty;
  ListMeta_ty : ty;
  ResourceRequirements_ty : ty;
  Affinity_ty : ty;
  Toleration_ty : ty;
  corev1_Volume_ty : ty;
  VolumeMount_ty : ty;
  SecretKeySelector_ty : ty;
  ObjectMeta_DeepCopyInto : copier;
  ListMeta_DeepCopyInto : copier;
  ResourceRequirements_DeepCopyInto : copier;
  Affinity_DeepCopyInto : copier;
  Toleration_DeepCopyInto : copier;
  corev1_Volume_DeepCopyInto : copier;
  VolumeMount_DeepCopyInto : copier;
  SecretKeySelector_DeepCopyInto : copier;
}.

Class KubeCopiesLaws (K : KubeCopies) : Prop := {
  TypeMeta_flat : flat TypeMeta_ty;
  ObjectMeta_copies : copies ObjectMeta_ty ObjectMeta_DeepCopyInto;
  ListMeta_copies : copies ListMeta_ty ListMeta_DeepCopyInto;
  ResourceRequirements_copies : copies ResourceRequirements_ty ResourceRequirements_DeepCopyInto;
  Affinity_copies : copies Affinity_ty Affinity_DeepCopyInto;
  Toleration_copies : copies Toleration_ty Toleration_DeepCopyInto;
  corev1_Volume_copies : copies corev1_Volume_ty corev1_Volume_DeepCopyInto;
  VolumeMount_copies : copies VolumeMount_ty VolumeMount_DeepCopyInto;
  SecretKeySelector_copies : copies SecretKeySelector_ty SecretKeySelector_DeepCopyInto;
}.

(** [runtime.Object]: the nil interface, or a pointer with its type, which may itself be nil. *)
Inductive runtime_Object : Type :=
| NilObject
| PtrObject (type : string) (p : option addr).

Section deepcopy.
Context `{K : KubeCopies}.

(** ** The structs of loggingservice_types.go *)

Definition Auth_ty : ty := TyStruct [
  ("Token", TyPtr SecretKeySelector_ty); ("User", TyPtr SecretKeySelector_ty);
  ("Password", TyPtr SecretKeySelector_ty)].

Definition CA_ty : ty := TyStruct [
  ("SecretName", TyString); ("SecretKey", TyString)].

Definition Cert_ty : ty := TyStruct [
  ("SecretName", TyString); ("SecretKey", TyString)].

Definition Key_ty : ty := TyStruct [
  ("SecretName", TyString); ("SecretKey", TyString)].

Definition AuthProxy_ty : ty := TyStruct [
  ("Resources", TyPtr ResourceRequirements_ty);
  ("BindPasswordSecret", TyPtr SecretKeySelector_ty); ("CA", CA_ty); ("Cert", Cert_ty);
  ("Key", Key_ty); ("Image", TyString); ("Install", TyBool)].

Definition Certificates_ty : ty := TyStruct [
  ("CA", TyPtr CA_ty); ("Cert", TyPtr Cert_ty); ("Key", TyPtr Key_ty)].

Definition CloudEventsReader_ty : ty := TyStruct [
  ("Resources", TyPtr ResourceRequirements_ty); ("DockerImage", TyString);
  ("PriorityClassName", TyString); ("NodeSelectorKey", TyString);
  ("NodeSelectorValue", TyString); ("Affinity", TyPtr Affinity_ty); ("Labels", TyMap TyString);
  ("Annotations", TyMap TyString); ("Args", TySlice TyString); ("Install", TyBool)].

Definition ConfigmapReload_ty : ty := TyStruct [
  ("DockerImage", TyString); ("Resources", TyPtr ResourceRequirements_ty)].

Definition Credentials_ty : ty := TyStruct [
  ("User", TyPtr SecretKeySelector_ty); ("Password", TyPtr SecretKeySelector_ty)].

Definition TLSConfig_ty : ty := TyStruct [
  ("CA", TyPtr SecretKeySelector_ty); ("Cert", TyPtr SecretKeySelector_ty);
  ("Key", TyPtr SecretKeySelector_ty); ("InsecureSkipVerify", TyBool)].

Definition HTTPConfig_ty : ty := TyStruct [
  ("Credentials", TyPtr Credentials_ty); ("TLSConfig", TyPtr TLSConfig_ty)].

Definition ContentPackPathHTTPConfig_ty : ty := TyStruct [
  ("HTTPConfig", TyPtr HTTPConfig_ty); ("URL", TyString)].

Definition Volume_ty : ty := TyStruct [
  ("StorageClassName", TyString); ("StorageSize", TyString); ("Bind", TyBool)].

Definition GenerateCerts_ty : ty := TyStruct [
  ("SecretName", TyString); ("Enabled", TyBool)].

Definition TLS_ty : ty := TyStruct [
  ("GenerateCerts", TyPtr GenerateCerts_ty); ("Certificates", Certificates_ty)].

Definition FluentbitTLSParams_ty : ty := TyStruct [
  ("KeyPasswd", TyString); ("Enabled", TyBool); ("Verify", TyBool)].

Definition FluentbitTLS_ty : ty := TyStruct [
  ("TLS", TLS_ty); ("FluentbitTLSParams", FluentbitTLSParams_ty)].

Definition FluentbitLokiTLS_ty : ty := TyStruct [
  ("Certificates", Certificates_ty); ("FluentbitTLSParams", FluentbitTLSParams_ty)].

Definition LokiFluentbit_ty : ty := TyStruct [
  ("Enabled", TyBool); ("Host", TyString); ("Tenant", TyString); ("Auth", TyPtr Auth_ty);
  ("StaticLabels", TyString); ("LabelsMapping", TyString); ("TLS", TyPtr FluentbitLokiTLS_ty);
  ("ExtraParams", TyString)].

Definition FluentbitHTTPRouting_ty : ty := TyStruct [
  ("Enabled", TyBool); ("HeaderTag", TyString)].

Definition FluentbitHttpTLS_ty : ty := TyStruct [
  ("Certificates", Certificates_ty); ("FluentbitTLSParams", FluentbitTLSParams_ty)].

Definition HttpFluentbit_ty : ty := TyStruct [
  ("Enabled", TyBool); ("Routing", TyPtr FluentbitHTTPRouting_ty); ("Host", TyString);
  ("Port", TyInt); ("Uri", TyString); ("Auth", TyPtr Auth_ty); ("Compress", TyString);
  ("TLS", TyPtr FluentbitHttpTLS_ty); ("JsonDateFormat", TyString); ("Format", TyString);
  ("ExtraParams", TyString)].

Definition OtelFluentbit_ty : ty := TyStruct [
  ("Enabled", TyBool); ("Host", TyString); ("Port", TyInt); ("LogsUri", TyString);
  ("Target", TyString); ("LogSuppressInterval", TyInt); ("Auth", TyPtr Auth_ty);
  ("Compress", TyString); ("TLS", TyPtr FluentbitHttpTLS_ty); ("ExtraParams", TyString)].

Definition OutputFluentbit_ty : ty := TyStruct [
  ("Loki", TyPtr LokiFluentbit_ty); ("Http", TyPtr HttpFluentbit_ty);
  ("Otel", TyPtr OtelFluentbit_ty)].

Definition FluentbitAggregator_ty : ty := TyStruct [
  ("Labels", TyMap TyString); ("Volume", TyPtr Volume_ty);
  ("Resources", TyPtr ResourceRequirements_ty); ("Annotations", TyMap TyString);
  ("ExtraFields", TyMap TyString); ("MemBufLimit", TyString); ("DockerImage", TyString);
  ("ConfigmapReload", TyPtr ConfigmapReload_ty); ("NodeSelectorValue", TyString);
  ("MultilineOtherLinesRegexp", TyString); ("GraylogHost", TyString);
  ("MultilineFirstLineRegexp", TyString); ("GraylogProtocol", TyString);
  ("NodeSelectorKey", TyString); ("PriorityClassName", TyString); ("TotalLimitSize", TyString);
  ("StorageSizeLimit", TyString); ("CustomFilterConf", TyString);
  ("CustomOutputConf", TyString); ("CustomLuaScriptConf", TyMap TyString);
  ("TLS", FluentbitTLS_ty); ("Tolerations", TySlice Toleration_ty);
  ("Affinity", TyPtr Affinity_ty); ("StartupTimeout", TyInt); ("Replicas", TyInt);
  ("GraylogPort", TyInt); ("Install", TyBool); ("SecurityContextPrivileged", TyBool);
  ("GraylogOutput", TyBool); ("Output", TyPtr OutputFluentbit_ty);
  ("InputMemBufLimit", TyString)].

Definition FluentbitDB_ty : ty := TyStruct [
  ("Enabled", TyPtr TyBool); ("JournalMode", TyString); ("Sync", TyString);
  ("Locking", TyPtr TyBool)].

Definition Fluentbit_ty : ty := TyStruct [
  ("Resources", TyPtr ResourceRequirements_ty); ("Annotations", TyMap TyString);
  ("Labels", TyMap TyString); ("ExtraFields", TyMap TyString);
  ("Aggregator", TyPtr FluentbitAggregator_ty); ("MemBufLimit", TyString);
  ("SystemLogType", TyString); ("GraylogHost", TyString); ("NodeSelectorValue", TyString);
  ("GraylogProtocol", TyString); ("DockerImage", TyString);
  ("ConfigmapReload", TyPtr ConfigmapReload_ty); ("PriorityClassName", TyString);
  ("TotalLimitSize", TyString); ("CustomInputConf", TyString); ("CustomFilterConf", TyString);
  ("CustomOutputConf", TyString); ("CustomLuaScriptConf", TyMap TyString);
  ("LogLevel", TyString); ("MultilineFirstLineRegexp", TyString); ("NodeSelectorKey", TyString);
  ("MultilineOtherLinesRegexp", TyString); ("TLS", FluentbitTLS_ty);
  ("AdditionalVolumes", TySlice corev1_Volume_ty);
  ("AdditionalVolumeMounts", TySlice VolumeMount_ty); ("Tolerations", TySlice Toleration_ty);
  ("Affinity", TyPtr Affinity_ty); ("GraylogPort", TyInt);
  ("SecurityContextPrivileged", TyBool); ("WatchKubernetesMetadata", TyBool);
  ("MockKubeData", TyBool); ("SystemLogging", TyBool); ("BillCycleConf", TyBool);
  ("GraylogOutput", TyBool); ("SystemAuditLogging", TyBool); ("KubeAuditLogging", TyBool);
  ("KubeApiserverAuditLogging", TyBool); ("ContainerLogging", TyBool);
  ("ExcludePath", TyString); ("SelfLogging", TyBool); ("Output", TyPtr OutputFluentbit_ty);
  ("Flush", TyInt); ("StorageProfile", TyString); ("MemoryOnlyStateSizeLimit", TyString);
  ("InputMemBufLimit", TyString); ("DB", FluentbitDB_ty)].

Definition FluentdTLSParams_ty : ty := TyStruct [
  ("Version", TyString); ("Enabled", TyBool); ("NoDefaultCA", TyBool); ("AllCiphers", TyBool);
  ("RescueSslErrors", TyBool); ("NoVerify", TyBool)].

Definition FluentdTLS_ty : ty := TyStruct [
  ("TLS", TLS_ty); ("FluentdTLSParams", FluentdTLSParams_ty)].

Definition FluentdLokiTLS_ty : ty := TyStruct [
  ("Certificates", Certificates_ty); ("FluentdTLSParams", FluentdTLSParams_ty)].

Definition LokiFluentd_ty : ty := TyStruct [
  ("Enabled", TyBool); ("Host", TyString); ("Tenant", TyString); ("Auth", TyPtr Auth_ty);
  ("StaticLabels", TyString); ("LabelsMapping", TyString); ("TLS", TyPtr FluentdLokiTLS_ty);
  ("ExtraParams", TyString)].

Definition FluentdHTTPRouting_ty : ty := TyStruct [
  ("Enabled", TyBool); ("LogCategoryHeader", TyString)].

Definition FluentdHttpTLSParams_ty : ty := TyStruct [
  ("Enabled", TyBool); ("VerifyMode", TyString); ("Version", TyString); ("Ciphers", TyString)].

Definition FluentdHttpTLS_ty : ty := TyStruct [
  ("Certificates", Certificates_ty); ("FluentdHttpTLSParams", FluentdHttpTLSParams_ty)].

Definition HttpFluentd_ty : ty := TyStruct [
  ("Enabled", TyBool); ("Routing", FluentdHTTPRouting_ty); ("Host", TyString);
  ("Path", TyString); ("Compress", TyString); ("Headers", TyMap TyString);
  ("Auth", TyPtr Auth_ty); ("TLS", TyPtr FluentdHttpTLS_ty); ("ExtraParams", TyString)].

Definition OutputFluentd_ty : ty := TyStruct [
  ("Loki", TyPtr LokiFluentd_ty); ("Http", TyPtr HttpFluentd_ty)].

Definition Fluentd_ty : ty := TyStruct [
  ("Resources", TyPtr ResourceRequirements_ty); ("Annotations", TyMap TyString);
  ("Labels", TyMap TyString); ("ExtraFields", TyMap TyString); ("CustomFilterConf", TyString);
  ("SystemLogType", TyString); ("CloudEventsReaderFormat", TyString); ("GraylogHost", TyString);
  ("DockerImage", TyString); ("ConfigmapReload", TyPtr ConfigmapReload_ty);
  ("GraylogProtocol", TyString); ("PriorityClassName", TyString);
  ("MultilineFirstLineRegexp", TyString); ("LogLevel", TyString); ("TotalLimitSize", TyString);
  ("CustomInputConf", TyString); ("NodeSelectorKey", TyString); ("CustomOutputConf", TyString);
  ("NodeSelectorValue", TyString); ("TLS", FluentdTLS_ty);
  ("AdditionalVolumeMounts", TySlice VolumeMount_ty); ("ExcludePath", TySlice TyString);
  ("AdditionalVolumes", TySlice corev1_Volume_ty); ("Tolerations", TySlice Toleration_ty);
  ("Affinity", TyPtr Affinity_ty); ("QueueLimitLength", TyInt); ("GraylogPort", TyInt);
  ("BillCycleConf", TyBool); ("SystemLogging", TyBool); ("SystemAuditLogging", TyBool);
  ("KubeAuditLogging", TyBool); ("KubeApiserverAuditLogging", TyBool);
  ("ContainerLogging", TyBool); ("WatchKubernetesMetadata", TyBool);
  ("SecurityContextPrivileged", TyBool); ("FileStorage", TyBool); ("GraylogOutput", TyBool);
  ("GraylogBufferFlushInterval", TyString); ("Compress", TyString); ("MockKubeData", TyBool);
  ("Output", TyPtr OutputFluentd_ty)].

Definition MongoDBUpgrade_ty : ty := TyStruct [
  ("MongoDBImage40", TyString); ("MongoDBImage42", TyString); ("MongoDBImage44", TyString)].

Definition HTTPGraylogTLS_ty : ty := TyStruct [
  ("GenerateCerts", TyPtr GenerateCerts_ty); ("Cert", TyPtr Cert_ty); ("Key", TyPtr Key_ty);
  ("CACerts", TyString); ("KeyFilePassword", TyString); ("Enabled", TyBool);
  ("InsecureSkipVerify", TyBool)].

Definition InputGraylogTLS_ty : ty := TyStruct [
  ("TLS", TLS_ty); ("KeyFilePassword", TyString); ("Enabled", TyBool);
  ("InsecureSkipVerify", TyBool)].

Definition GraylogTLS_ty : ty := TyStruct [
  ("HTTP", TyPtr HTTPGraylogTLS_ty); ("Input", TyPtr InputGraylogTLS_ty)].

Definition OpenSearch_ty : ty := TyStruct [
  ("HTTPConfig", TyPtr HTTPConfig_ty); ("Host", TyString)].

Definition Stream_ty : ty := TyStruct [
  ("Name", TyString); ("RotationStrategy", TyString); ("RotationPeriod", TyString);
  ("MaxSize", TyInt); ("MaxNumberOfIndices", TyInt); ("Install", TyBool)].

Definition Graylog_ty : ty := TyStruct [
  ("GraylogResources", TyPtr ResourceRequirements_ty);
  ("MongoResources", TyPtr ResourceRequirements_ty);
  ("InitResources", TyPtr ResourceRequirements_ty); ("MongoDBUpgrade", TyPtr MongoDBUpgrade_ty);
  ("AuthProxy", TyPtr AuthProxy_ty); ("TLS", TyPtr GraylogTLS_ty);
  ("OpenSearch", TyPtr OpenSearch_ty); ("Affinity", TyPtr Affinity_ty);
  ("Annotations", TyMap TyString); ("Labels", TyMap TyString); ("NodeSelectorValue", TyString);
  ("PathRepo", TyString); ("PriorityClassName", TyString); ("DockerImage", TyString);
  ("MongoDBImage", TyString); ("LogLevel", TyString); ("ContentDeployPolicy", TyString);
  ("JavaOpts", TyString); ("ContentPackPaths", TyString); ("CustomPluginsPaths", TyString);
  ("Host", TyString); ("InitSetupImage", TyString); ("User", TyString); ("Password", TyString);
  ("ElasticsearchHost", TyString); ("NodeSelectorKey", TyString);
  ("InitContainerDockerImage", TyString); ("GraylogSecretName", TyString);
  ("ContentPacks", TySlice (TyPtr ContentPackPathHTTPConfig_ty));
  ("Streams", TySlice Stream_ty); ("ProcessbufferProcessors", TyInt);
  ("OutputbufferProcessorThreadsMaxPoolSize", TyInt); ("RingSize", TyInt);
  ("ElasticsearchMaxTotalConnectionsPerRoute", TyInt);
  ("ElasticsearchMaxTotalConnections", TyInt); ("OutputBatchSize", TyInt);
  ("InputbufferRingSize", TyInt); ("OutputbufferProcessors", TyInt); ("MaxSize", TyInt);
  ("InputbufferProcessors", TyInt); ("StartupTimeout", TyInt); ("IndexShards", TyPtr TyInt);
  ("IndexReplicas", TyPtr TyInt); ("MaxNumberOfIndices", TyInt); ("LogsRotationSizeGb", TyInt);
  ("InputPort", TyInt); ("Replicas", TyPtr TyInt); ("S3Archive", TyBool)].

Definition MonitoringAgentLoggingPlugin_ty : ty := TyStruct [
  ("Resources", TyPtr ResourceRequirements_ty); ("Annotations", TyMap TyString);
  ("Labels", TyMap TyString); ("InfluxDBName", TyString); ("InfluxDBSecretName", TyString);
  ("InfluxDBHost", TyString); ("NodeSelectorKey", TyString); ("NodeSelectorValue", TyString);
  ("SaSecret", TyString); ("SaSecretVolume", TyString); ("PriorityClassName", TyString);
  ("DockerImage", TyString); ("InfluxDBPort", TyInt); ("InfluxDBMode", TyBool)].

Definition LoggingServiceSpec_ty : ty := TyStruct [
  ("Graylog", TyPtr Graylog_ty); ("Fluentd", TyPtr Fluentd_ty);
  ("Fluentbit", TyPtr Fluentbit_ty); ("CloudEventsReader", TyPtr CloudEventsReader_ty);
  ("MonitoringAgentLoggingPlugin", TyPtr MonitoringAgentLoggingPlugin_ty);
  ("CloudURL", TyString); ("OSKind", TyString); ("ContainerRuntimeType", TyString);
  ("Ipv6", TyBool); ("OpenshiftDeploy", TyBool)].

Definition LoggingServiceCondition_ty : ty := TyStruct [
  ("Type", TyString); ("Reason", TyString); ("Message", TyString);
  ("LastTransitionTime", TyString); ("Status", TyBool)].

Definition LoggingServiceStatus_ty : ty := TyStruct [
  ("Conditions", TySlice LoggingServiceCondition_ty)].

Definition LoggingService_ty : ty := TyStruct [
  ("TypeMeta", TypeMeta_ty); ("ObjectMeta", ObjectMeta_ty); ("Spec", LoggingServiceSpec_ty);
  ("Status", LoggingServiceStatus_ty)].

Definition LoggingServiceList_ty : ty := TyStruct [
  ("TypeMeta", TypeMeta_ty); ("ListMeta", ListMeta_ty); ("Items", TySlice LoggingService_ty)].

Definition Release_ty : ty := TyStruct [
  ("Namespace", TyString)].

Definition LoggingServiceParameters_ty : ty := TyStruct [
  ("Release", Release_ty); ("Values", LoggingServiceSpec_ty)].

(** ** The functions *)

Definition Auth_DeepCopyInto : copier := struct_copy [
  ("Token", ptr_copy SecretKeySelector_ty SecretKeySelector_DeepCopyInto);
  ("User", ptr_copy SecretKeySelector_ty SecretKeySelector_DeepCopyInto);
  ("Password", ptr_copy SecretKeySelector_ty SecretKeySelector_DeepCopyInto)].

Definition Auth_DeepCopy := deep_copy Auth_ty Auth_DeepCopyInto.

Definition CA_DeepCopyInto : copier := struct_copy [].

Definition CA_DeepCopy := deep_copy CA_ty CA_DeepCopyInto.

Definition Cert_DeepCopyInto : copier := struct_copy [].

Definition Cert_DeepCopy := deep_copy Cert_ty Cert_DeepCopyInto.

Definition Key_DeepCopyInto : copier := struct_copy [].

Definition Key_DeepCopy := deep_copy Key_ty Key_DeepCopyInto.

Definition AuthProxy_DeepCopyInto : copier := struct_copy [
  ("Resources", ptr_copy ResourceRequirements_ty ResourceRequirements_DeepCopyInto);
  ("BindPasswordSecret", ptr_copy SecretKeySelector_ty SecretKeySelector_DeepCopyInto);
  ("CA", assign);
  ("Cert", assign);
  ("Key", assign)].

Definition AuthProxy_DeepCopy := deep_copy AuthProxy_ty AuthProxy_DeepCopyInto.

Definition Certificates_DeepCopyInto : copier := struct_copy [
  ("CA", ptr_copy CA_ty assign);
  ("Cert", ptr_copy Cert_ty assign);
  ("Key", ptr_copy Key_ty assign)].

Definition Certificates_DeepCopy := deep_copy Certificates_ty Certificates_DeepCopyInto.

Definition CloudEventsReader_DeepCopyInto : copier := struct_copy [
  ("Resources", ptr_copy ResourceRequirements_ty ResourceRequirements_DeepCopyInto);
  ("Affinity", ptr_copy Affinity_ty Affinity_DeepCopyInto);
  ("Labels", map_copy);
  ("Annotations", map_copy);
  ("Args", slice_assign TyString)].

Definition CloudEventsReader_DeepCopy := deep_copy CloudEventsReader_ty CloudEventsReader_DeepCopyInto.

Definition ConfigmapReload_DeepCopyInto : copier := struct_copy [
  ("Resources", ptr_copy ResourceRequirements_ty ResourceRequirements_DeepCopyInto)].

Definition ConfigmapReload_DeepCopy := deep_copy ConfigmapReload_ty ConfigmapReload_DeepCopyInto.

Definition Credentials_DeepCopyInto : copier := struct_copy [
  ("User", ptr_copy SecretKeySelector_ty SecretKeySelector_DeepCopyInto);
  ("Password", ptr_copy SecretKeySelector_ty SecretKeySelector_DeepCopyInto)].

Definition Credentials_DeepCopy := deep_copy Credentials_ty Credentials_DeepCopyInto.

Definition TLSConfig_DeepCopyInto : copier := struct_copy [
  ("CA", ptr_copy SecretKeySelector_ty SecretKeySelector_DeepCopyInto);
  ("Cert", ptr_copy SecretKeySelector_ty SecretKeySelector_DeepCopyInto);
  ("Key", ptr_copy SecretKeySelector_ty SecretKeySelector_DeepCopyInto)].

Definition TLSConfig_DeepCopy := deep_copy TLSConfig_ty TLSConfig_DeepCopyInto.

Definition HTTPConfig_DeepCopyInto : copier := struct_copy [
  ("Credentials", ptr_copy Credentials_ty Credentials_DeepCopyInto);
  ("TLSConfig", ptr_copy TLSConfig_ty TLSConfig_DeepCopyInto)].

Definition HTTPConfig_DeepCopy := deep_copy HTTPConfig_ty HTTPConfig_DeepCopyInto.

Definition ContentPackPathHTTPConfig_DeepCopyInto : copier := struct_copy [
  ("HTTPConfig", ptr_copy HTTPConfig_ty HTTPConfig_DeepCopyInto)].

Definition ContentPackPathHTTPConfig_DeepCopy := deep_copy ContentPackPathHTTPConfig_ty ContentPackPathHTTPConfig_DeepCopyInto.

Definition Volume_DeepCopyInto : copier := struct_copy [].

Definition Volume_DeepCopy := deep_copy Volume_ty Volume_DeepCopyInto.

Definition GenerateCerts_DeepCopyInto : copier := struct_copy [].

Definition GenerateCerts_DeepCopy := deep_copy GenerateCerts_ty GenerateCerts_DeepCopyInto.

Definition TLS_DeepCopyInto : copier := struct_copy [
  ("GenerateCerts", ptr_copy GenerateCerts_ty assign);
  ("Certificates", Certificates_DeepCopyInto)].

Definition TLS_DeepCopy := deep_copy TLS_ty TLS_DeepCopyInto.

Definition FluentbitTLSParams_DeepCopyInto : copier := struct_copy [].

Definition FluentbitTLSParams_DeepCopy := deep_copy FluentbitTLSParams_ty FluentbitTLSParams_DeepCopyInto.

Definition FluentbitTLS_DeepCopyInto : copier := struct_copy [
  ("TLS", TLS_DeepCopyInto);
  ("FluentbitTLSParams", assign)].

Definition FluentbitTLS_DeepCopy := deep_copy FluentbitTLS_ty FluentbitTLS_DeepCopyInto.

Definition FluentbitLokiTLS_DeepCopyInto : copier := struct_copy [
  ("Certificates", Certificates_DeepCopyInto);
  ("FluentbitTLSParams", assign)].

Definition FluentbitLokiTLS_DeepCopy := deep_copy FluentbitLokiTLS_ty FluentbitLokiTLS_DeepCopyInto.

Definition LokiFluentbit_DeepCopyInto : copier := struct_copy [
  ("Auth", ptr_copy Auth_ty Auth_DeepCopyInto);
  ("TLS", ptr_copy FluentbitLokiTLS_ty FluentbitLokiTLS_DeepCopyInto)].

Definition LokiFluentbit_DeepCopy := deep_copy LokiFluentbit_ty LokiFluentbit_DeepCopyInto.

Definition FluentbitHTTPRouting_DeepCopyInto : copier := struct_copy [].

Definition FluentbitHTTPRouting_DeepCopy := deep_copy FluentbitHTTPRouting_ty FluentbitHTTPRouting_DeepCopyInto.

Definition FluentbitHttpTLS_DeepCopyInto : copier := struct_copy [
  ("Certificates", Certificates_DeepCopyInto);
  ("FluentbitTLSParams", assign)].

Definition FluentbitHttpTLS_DeepCopy := deep_copy FluentbitHttpTLS_ty FluentbitHttpTLS_DeepCopyInto.

Definition HttpFluentbit_DeepCopyInto : copier := struct_copy [
  ("Routing", ptr_copy FluentbitHTTPRouting_ty assign);
  ("Auth", ptr_copy Auth_ty Auth_DeepCopyInto);
  ("TLS", ptr_copy FluentbitHttpTLS_ty FluentbitHttpTLS_DeepCopyInto)].

Definition HttpFluentbit_DeepCopy := deep_copy HttpFluentbit_ty HttpFluentbit_DeepCopyInto.

Definition OtelFluentbit_DeepCopyInto : copier := struct_copy [
  ("Auth", ptr_copy Auth_ty Auth_DeepCopyInto);
  ("TLS", ptr_copy FluentbitHttpTLS_ty FluentbitHttpTLS_DeepCopyInto)].

Definition OtelFluentbit_DeepCopy := deep_copy OtelFluentbit_ty OtelFluentbit_DeepCopyInto.

Definition OutputFluentbit_DeepCopyInto : copier := struct_copy [
  ("Loki", ptr_copy LokiFluentbit_ty LokiFluentbit_DeepCopyInto);
  ("Http", ptr_copy HttpFluentbit_ty HttpFluentbit_DeepCopyInto);
  ("Otel", ptr_copy OtelFluentbit_ty OtelFluentbit_DeepCopyInto)].

Definition OutputFluentbit_DeepCopy := deep_copy OutputFluentbit_ty OutputFluentbit_DeepCopyInto.

Definition FluentbitAggregator_DeepCopyInto : copier := struct_copy [
  ("Labels", map_copy);
  ("Volume", ptr_copy Volume_ty assign);
  ("Resources", ptr_copy ResourceRequirements_ty ResourceRequirements_DeepCopyInto);
  ("Annotations", map_copy);
  ("ExtraFields", map_copy);
  ("ConfigmapReload", ptr_copy ConfigmapReload_ty ConfigmapReload_DeepCopyInto);
  ("CustomLuaScriptConf", map_copy);
  ("TLS", FluentbitTLS_DeepCopyInto);
  ("Tolerations", slice_copy Toleration_ty Toleration_DeepCopyInto);
  ("Affinity", ptr_copy Affinity_ty Affinity_DeepCopyInto);
  ("Output", ptr_copy OutputFluentbit_ty OutputFluentbit_DeepCopyInto)].

Definition FluentbitAggregator_DeepCopy := deep_copy FluentbitAggregator_ty FluentbitAggregator_DeepCopyInto.

Definition FluentbitDB_DeepCopyInto : copier := struct_copy [
  ("Enabled", ptr_copy TyBool assign);
  ("Locking", ptr_copy TyBool assign)].

Definition FluentbitDB_DeepCopy := deep_copy FluentbitDB_ty FluentbitDB_DeepCopyInto.

Definition Fluentbit_DeepCopyInto : copier := struct_copy [
  ("Resources", ptr_copy ResourceRequirements_ty ResourceRequirements_DeepCopyInto);
  ("Annotations", map_copy);
  ("Labels", map_copy);
  ("ExtraFields", map_copy);
  ("Aggregator", ptr_copy FluentbitAggregator_ty FluentbitAggregator_DeepCopyInto);
  ("ConfigmapReload", ptr_copy ConfigmapReload_ty ConfigmapReload_DeepCopyInto);
  ("CustomLuaScriptConf", map_copy);
  ("TLS", FluentbitTLS_DeepCopyInto);
  ("AdditionalVolumes", slice_copy corev1_Volume_ty corev1_Volume_DeepCopyInto);
  ("AdditionalVolumeMounts", slice_copy VolumeMount_ty VolumeMount_DeepCopyInto);
  ("Tolerations", slice_copy Toleration_ty Toleration_DeepCopyInto);
  ("Affinity", ptr_copy Affinity_ty Affinity_DeepCopyInto);
  ("Output", ptr_copy OutputFluentbit_ty OutputFluentbit_DeepCopyInto);
  ("DB", FluentbitDB_DeepCopyInto)].

Definition Fluentbit_DeepCopy := deep_copy Fluentbit_ty Fluentbit_DeepCopyInto.

Definition FluentdTLSParams_DeepCopyInto : copier := struct_copy [].

Definition FluentdTLSParams_DeepCopy := deep_copy FluentdTLSParams_ty FluentdTLSParams_DeepCopyInto.

Definition FluentdTLS_DeepCopyInto : copier := struct_copy [
  ("TLS", TLS_DeepCopyInto);
  ("FluentdTLSParams", assign)].

Definition FluentdTLS_DeepCopy := deep_copy FluentdTLS_ty FluentdTLS_DeepCopyInto.

Definition FluentdLokiTLS_DeepCopyInto : copier := struct_copy [
  ("Certificates", Certificates_DeepCopyInto);
  ("FluentdTLSParams", assign)].

Definition FluentdLokiTLS_DeepCopy := deep_copy FluentdLokiTLS_ty FluentdLokiTLS_DeepCopyInto.

Definition LokiFluentd_DeepCopyInto : copier := struct_copy [
  ("Auth", ptr_copy Auth_ty Auth_DeepCopyInto);
  ("TLS", ptr_copy FluentdLokiTLS_ty FluentdLokiTLS_DeepCopyInto)].

Definition LokiFluentd_DeepCopy := deep_copy LokiFluentd_ty LokiFluentd_DeepCopyInto.

Definition FluentdHTTPRouting_DeepCopyInto : copier := struct_copy [].

Definition FluentdHTTPRouting_DeepCopy := deep_copy FluentdHTTPRouting_ty FluentdHTTPRouting_DeepCopyInto.

Definition FluentdHttpTLSParams_DeepCopyInto : copier := struct_copy [].

Definition FluentdHttpTLSParams_DeepCopy := deep_copy FluentdHttpTLSParams_ty FluentdHttpTLSParams_DeepCopyInto.

Definition FluentdHttpTLS_DeepCopyInto : copier := struct_copy [
  ("Certificates", Certificates_DeepCopyInto);
  ("FluentdHttpTLSParams", assign)].

Definition FluentdHttpTLS_DeepCopy := deep_copy FluentdHttpTLS_ty FluentdHttpTLS_DeepCopyInto.

Definition HttpFluentd_DeepCopyInto : copier := struct_copy [
  ("Routing", assign);
  ("Headers", map_copy);
  ("Auth", ptr_copy Auth_ty Auth_DeepCopyInto);
  ("TLS", ptr_copy FluentdHttpTLS_ty FluentdHttpTLS_DeepCopyInto)].

Definition HttpFluentd_DeepCopy := deep_copy HttpFluentd_ty HttpFluentd_DeepCopyInto.

Definition OutputFluentd_DeepCopyInto : copier := struct_copy [
  ("Loki", ptr_copy LokiFluentd_ty LokiFluentd_DeepCopyInto);
  ("Http", ptr_copy HttpFluentd_ty HttpFluentd_DeepCopyInto)].

Definition OutputFluentd_DeepCopy := deep_copy OutputFluentd_ty OutputFluentd_DeepCopyInto.

Definition Fluentd_DeepCopyInto : copier := struct_copy [
  ("Resources", ptr_copy ResourceRequirements_ty ResourceRequirements_DeepCopyInto);
  ("Annotations", map_copy);
  ("Labels", map_copy);
  ("ExtraFields", map_copy);
  ("ConfigmapReload", ptr_copy ConfigmapReload_ty ConfigmapReload_DeepCopyInto);
  ("TLS", FluentdTLS_DeepCopyInto);
  ("AdditionalVolumeMounts", slice_copy VolumeMount_ty VolumeMount_DeepCopyInto);
  ("ExcludePath", slice_assign TyString);
  ("AdditionalVolumes", slice_copy corev1_Volume_ty corev1_Volume_DeepCopyInto);
  ("Tolerations", slice_copy Toleration_ty Toleration_DeepCopyInto);
  ("Affinity", ptr_copy Affinity_ty Affinity_DeepCopyInto);
  ("Output", ptr_copy OutputFluentd_ty OutputFluentd_DeepCopyInto)].

Definition Fluentd_DeepCopy := deep_copy Fluentd_ty Fluentd_DeepCopyInto.

Definition MongoDBUpgrade_DeepCopyInto : copier := struct_copy [].

Definition MongoDBUpgrade_DeepCopy := deep_copy MongoDBUpgrade_ty MongoDBUpgrade_DeepCopyInto.

Definition HTTPGraylogTLS_DeepCopyInto : copier := struct_copy [
  ("GenerateCerts", ptr_copy GenerateCerts_ty assign);
  ("Cert", ptr_copy Cert_ty assign);
  ("Key", ptr_copy Key_ty assign)].

Definition HTTPGraylogTLS_DeepCopy := deep_copy HTTPGraylogTLS_ty HTTPGraylogTLS_DeepCopyInto.

Definition InputGraylogTLS_DeepCopyInto : copier := struct_copy [
  ("TLS", TLS_DeepCopyInto)].

Definition InputGraylogTLS_DeepCopy := deep_copy InputGraylogTLS_ty InputGraylogTLS_DeepCopyInto.

Definition GraylogTLS_DeepCopyInto : copier := struct_copy [
  ("HTTP", ptr_copy HTTPGraylogTLS_ty HTTPGraylogTLS_DeepCopyInto);
  ("Input", ptr_copy InputGraylogTLS_ty InputGraylogTLS_DeepCopyInto)].

Definition GraylogTLS_DeepCopy := deep_copy GraylogTLS_ty GraylogTLS_DeepCopyInto.

Definition OpenSearch_DeepCopyInto : copier := struct_copy [
  ("HTTPConfig", ptr_copy HTTPConfig_ty HTTPConfig_DeepCopyInto)].

Definition OpenSearch_DeepCopy := deep_copy OpenSearch_ty OpenSearch_DeepCopyInto.

Definition Stream_DeepCopyInto : copier := struct_copy [].

Definition Stream_DeepCopy := deep_copy Stream_ty Stream_DeepCopyInto.

Definition Graylog_DeepCopyInto : copier := struct_copy [
  ("GraylogResources", ptr_copy ResourceRequirements_ty ResourceRequirements_DeepCopyInto);
  ("MongoResources", ptr_copy ResourceRequirements_ty ResourceRequirements_DeepCopyInto);
  ("InitResources", ptr_copy ResourceRequirements_ty ResourceRequirements_DeepCopyInto);
  ("MongoDBUpgrade", ptr_copy MongoDBUpgrade_ty assign);
  ("AuthProxy", ptr_copy AuthProxy_ty AuthProxy_DeepCopyInto);
  ("TLS", ptr_copy GraylogTLS_ty GraylogTLS_DeepCopyInto);
  ("OpenSearch", ptr_copy OpenSearch_ty OpenSearch_DeepCopyInto);
  ("Affinity", ptr_copy Affinity_ty Affinity_DeepCopyInto);
  ("Annotations", map_copy);
  ("Labels", map_copy);
  ("ContentPacks", slice_copy (TyPtr ContentPackPathHTTPConfig_ty) (ptr_copy ContentPackPathHTTPConfig_ty ContentPackPathHTTPConfig_DeepCopyInto));
  ("Streams", slice_assign Stream_ty);
  ("IndexShards", ptr_copy TyInt assign);
  ("IndexReplicas", ptr_copy TyInt assign);
  ("Replicas", ptr_copy TyInt assign)].

Definition Graylog_DeepCopy := deep_copy Graylog_ty Graylog_DeepCopyInto.

Definition MonitoringAgentLoggingPlugin_DeepCopyInto : copier := struct_copy [
  ("Resources", ptr_copy ResourceRequirements_ty ResourceRequirements_DeepCopyInto);
  ("Annotations", map_copy);
  ("Labels", map_copy)].

Definition MonitoringAgentLoggingPlugin_DeepCopy := deep_copy MonitoringAgentLoggingPlugin_ty MonitoringAgentLoggingPlugin_DeepCopyInto.

Definition LoggingServiceSpec_DeepCopyInto : copier := struct_copy [
  ("Graylog", ptr_copy Graylog_ty Graylog_DeepCopyInto);
  ("Fluentd", ptr_copy Fluentd_ty Fluentd_DeepCopyInto);
  ("Fluentbit", ptr_copy Fluentbit_ty Fluentbit_DeepCopyInto);
  ("CloudEventsReader", ptr_copy CloudEventsReader_ty CloudEventsReader_DeepCopyInto);
  ("MonitoringAgentLoggingPlugin", ptr_copy MonitoringAgentLoggingPlugin_ty MonitoringAgentLoggingPlugin_DeepCopyInto)].

Definition LoggingServiceSpec_DeepCopy := deep_copy LoggingServiceSpec_ty LoggingServiceSpec_DeepCopyInto.

Definition LoggingServiceCondition_DeepCopyInto : copier := struct_copy [].

Definition LoggingServiceCondition_DeepCopy := deep_copy LoggingServiceCondition_ty LoggingServiceCondition_DeepCopyInto.

Definition LoggingServiceStatus_DeepCopyInto : copier := struct_copy [
  ("Conditions", slice_assign LoggingServiceCondition_ty)].

Definition LoggingServiceStatus_DeepCopy := deep_copy LoggingServiceStatus_ty LoggingServiceStatus_DeepCopyInto.

Definition LoggingService_DeepCopyInto : copier := struct_copy [
  ("TypeMeta", assign);
  ("ObjectMeta", ObjectMeta_DeepCopyInto);
  ("Spec", LoggingServiceSpec_DeepCopyInto);
  ("Status", LoggingServiceStatus_DeepCopyInto)].

Definition LoggingService_DeepCopy := deep_copy LoggingService_ty LoggingService_DeepCopyInto.

Definition LoggingServiceList_DeepCopyInto : copier := struct_copy [
  ("TypeMeta", assign);
  ("ListMeta", ListMeta_DeepCopyInto);
  ("Items", slice_copy LoggingService_ty LoggingService_DeepCopyInto)].

Definition LoggingServiceList_DeepCopy := deep_copy LoggingServiceList_ty LoggingServiceList_DeepCopyInto.

Definition Release_DeepCopyInto : copier := struct_copy [].

Definition Release_DeepCopy := deep_copy Release_ty Release_DeepCopyInto.

Definition LoggingServiceParameters_DeepCopyInto : copier := struct_copy [
  ("Release", assign);
  ("Values", LoggingServiceSpec_DeepCopyInto)].

Definition LoggingServiceParameters_DeepCopy := deep_copy LoggingServiceParameters_ty LoggingServiceParameters_DeepCopyInto.

Definition LoggingService_DeepCopyObject (i : option addr) : M heap runtime_Object :=
  c ← LoggingService_DeepCopy i;
  match c with Some _ => mret (PtrObject "LoggingService" c) | None => mret NilObject end.

Definition LoggingServiceList_DeepCopyObject (i : option addr) : M heap runtime_Object :=
  c ← LoggingServiceList_DeepCopy i;
  match c with Some _ => mret (PtrObject "LoggingServiceList" c) | None => mret NilObject end.

(** Every [DeepCopy] of the file, with its type. *)
Definition api_deep_copies : list (ty * (option addr → M heap (option addr))) := [
  (Auth_ty, Auth_DeepCopy);
  (CA_ty, CA_DeepCopy);
  (Cert_ty, Cert_DeepCopy);
  (Key_ty, Key_DeepCopy);
  (AuthProxy_ty, AuthProxy_DeepCopy);
  (Certificates_ty, Certificates_DeepCopy);
  (CloudEventsReader_ty, CloudEventsReader_DeepCopy);
  (ConfigmapReload_ty, ConfigmapReload_DeepCopy);
  (Credentials_ty, Credentials_DeepCopy);
  (TLSConfig_ty, TLSConfig_DeepCopy);
  (HTTPConfig_ty, HTTPConfig_DeepCopy);
  (ContentPackPathHTTPConfig_ty, ContentPackPathHTTPConfig_DeepCopy);
  (Volume_ty, Volume_DeepCopy);
  (GenerateCerts_ty, GenerateCerts_DeepCopy);
  (TLS_ty, TLS_DeepCopy);
  (FluentbitTLSParams_ty, FluentbitTLSParams_DeepCopy);
  (FluentbitTLS_ty, FluentbitTLS_DeepCopy);
  (FluentbitLokiTLS_ty, FluentbitLokiTLS_DeepCopy);
  (LokiFluentbit_ty, LokiFluentbit_DeepCopy);
  (FluentbitHTTPRouting_ty, FluentbitHTTPRouting_DeepCopy);
  (FluentbitHttpTLS_ty, FluentbitHttpTLS_DeepCopy);
  (HttpFluentbit_ty, HttpFluentbit_DeepCopy);
  (OtelFluentbit_ty, OtelFluentbit_DeepCopy);
  (OutputFluentbit_ty, OutputFluentbit_DeepCopy);
  (FluentbitAggregator_ty, FluentbitAggregator_DeepCopy);
  (FluentbitDB_ty, FluentbitDB_DeepCopy);
  (Fluentbit_ty, Fluentbit_DeepCopy);
  (FluentdTLSParams_ty, FluentdTLSParams_DeepCopy);
  (FluentdTLS_ty, FluentdTLS_DeepCopy);
  (FluentdLokiTLS_ty, FluentdLokiTLS_DeepCopy);
  (LokiFluentd_ty, LokiFluentd_DeepCopy);
  (FluentdHTTPRouting_ty, FluentdHTTPRouting_DeepCopy);
  (FluentdHttpTLSParams_ty, FluentdHttpTLSParams_DeepCopy);
  (FluentdHttpTLS_ty, FluentdHttpTLS_DeepCopy);
  (HttpFluentd_ty, HttpFluentd_DeepCopy);
  (OutputFluentd_ty, OutputFluentd_DeepCopy);
  (Fluentd_ty, Fluentd_DeepCopy);
  (MongoDBUpgrade_ty, MongoDBUpgrade_DeepCopy);
  (HTTPGraylogTLS_ty, HTTPGraylogTLS_DeepCopy);
  (InputGraylogTLS_ty, InputGraylogTLS_DeepCopy);
  (GraylogTLS_ty, GraylogTLS_DeepCopy);
  (OpenSearch_ty, OpenSearch_DeepCopy);
  (Stream_ty, Stream_DeepCopy);
  (Graylog_ty, Graylog_DeepCopy);
  (MonitoringAgentLoggingPlugin_ty, MonitoringAgentLoggingPlugin_DeepCopy);
  (LoggingServiceSpec_ty, LoggingServiceSpec_DeepCopy);
  (LoggingServiceCondition_ty, LoggingServiceCondition_DeepCopy);
  (LoggingServiceStatus_ty, LoggingServiceStatus_DeepCopy);
  (LoggingService_ty, LoggingService_DeepCopy);
  (LoggingServiceList_ty, LoggingServiceList_DeepCopy);
  (Release_ty, Release_DeepCopy);
  (LoggingServiceParameters_ty, LoggingServiceParameters_DeepCopy)].

(** ** Every copy keeps the contract *)

Context `{!KubeCopiesLaws K}.

Create HintDb copies discriminated.
#[local] Hint Constants Opaque : copies.
#[local] Hint Resolve ObjectMeta_copies ListMeta_copies ResourceRequirements_copies Affinity_copies
  Toleration_copies corev1_Volume_copies VolumeMount_copies SecretKeySelector_copies
  ptr_copies slice_copies slice_assign_copies map_copies assign_copies TypeMeta_flat : copies.
#[local] Hint Extern 0 (Is_true (flat _)) => exact I : copies.

(** The fields of a struct, one by one; the copies of the structs in it are hints by then. *)
Ltac struct_fields τ k :=
  unfold τ, k; apply struct_copies; [vm_compute; reflexivity|];
  repeat first [apply Forall_nil; exact I | apply Forall_cons; split];
  cbn [fst snd fix_of String.eqb Ascii.eqb Bool.eqb]; eauto with copies.

Lemma Auth_copies : copies Auth_ty Auth_DeepCopyInto.
Proof. struct_fields Auth_ty Auth_DeepCopyInto. Qed.
#[local] Hint Resolve Auth_copies : copies.

Lemma CA_copies : copies CA_ty CA_DeepCopyInto.
Proof. struct_fields CA_ty CA_DeepCopyInto. Qed.
#[local] Hint Resolve CA_copies : copies.

Lemma Cert_copies : copies Cert_ty Cert_DeepCopyInto.
Proof. struct_fields Cert_ty Cert_DeepCopyInto. Qed.
#[local] Hint Resolve Cert_copies : copies.

Lemma Key_copies : copies Key_ty Key_DeepCopyInto.
Proof. struct_fields Key_ty Key_DeepCopyInto. Qed.
#[local] Hint Resolve Key_copies : copies.

Lemma AuthProxy_copies : copies AuthProxy_ty AuthProxy_DeepCopyInto.
Proof. struct_fields AuthProxy_ty AuthProxy_DeepCopyInto. Qed.
#[local] Hint Resolve AuthProxy_copies : copies.

Lemma Certificates_copies : copies Certificates_ty Certificates_DeepCopyInto.
Proof. struct_fields Certificates_ty Certificates_DeepCopyInto. Qed.
#[local] Hint Resolve Certificates_copies : copies.

Lemma CloudEventsReader_copies : copies CloudEventsReader_ty CloudEventsReader_DeepCopyInto.
Proof. struct_fields CloudEventsReader_ty CloudEventsReader_DeepCopyInto. Qed.
#[local] Hint Resolve CloudEventsReader_copies : copies.

Lemma ConfigmapReload_copies : copies ConfigmapReload_ty ConfigmapReload_DeepCopyInto.
Proof. struct_fields ConfigmapReload_ty ConfigmapReload_DeepCopyInto. Qed.
#[local] Hint Resolve ConfigmapReload_copies : copies.

Lemma Credentials_copies : copies Credentials_ty Credentials_DeepCopyInto.
Proof. struct_fields Credentials_ty Credentials_DeepCopyInto. Qed.
#[local] Hint Resolve Credentials_copies : copies.

Lemma TLSConfig_copies : copies TLSConfig_ty TLSConfig_DeepCopyInto.
Proof. struct_fields TLSConfig_ty TLSConfig_DeepCopyInto. Qed.
#[local] Hint Resolve TLSConfig_copies : copies.

Lemma HTTPConfig_copies : copies HTTPConfig_ty HTTPConfig_DeepCopyInto.
Proof. struct_fields HTTPConfig_ty HTTPConfig_DeepCopyInto. Qed.
#[local] Hint Resolve HTTPConfig_copies : copies.

Lemma ContentPackPathHTTPConfig_copies : copies ContentPackPathHTTPConfig_ty ContentPackPathHTTPConfig_DeepCopyInto.
Proof. struct_fields ContentPackPathHTTPConfig_ty ContentPackPathHTTPConfig_DeepCopyInto. Qed.
#[local] Hint Resolve ContentPackPathHTTPConfig_copies : copies.

Lemma Volume_copies : copies Volume_ty Volume_DeepCopyInto.
Proof. struct_fields Volume_ty Volume_DeepCopyInto. Qed.
#[local] Hint Resolve Volume_copies : copies.

Lemma GenerateCerts_copies : copies GenerateCerts_ty GenerateCerts_DeepCopyInto.
Proof. struct_fields GenerateCerts_ty GenerateCerts_DeepCopyInto. Qed.
#[local] Hint Resolve GenerateCerts_copies : copies.

Lemma TLS_copies : copies TLS_ty TLS_DeepCopyInto.
Proof. struct_fields TLS_ty TLS_DeepCopyInto. Qed.
#[local] Hint Resolve TLS_copies : copies.

Lemma FluentbitTLSParams_copies : copies FluentbitTLSParams_ty FluentbitTLSParams_DeepCopyInto.
Proof. struct_fields FluentbitTLSParams_ty FluentbitTLSParams_DeepCopyInto. Qed.
#[local] Hint Resolve FluentbitTLSParams_copies : copies.

Lemma FluentbitTLS_copies : copies FluentbitTLS_ty FluentbitTLS_DeepCopyInto.
Proof. struct_fields FluentbitTLS_ty FluentbitTLS_DeepCopyInto. Qed.
#[local] Hint Resolve FluentbitTLS_copies : copies.

Lemma FluentbitLokiTLS_copies : copies FluentbitLokiTLS_ty FluentbitLokiTLS_DeepCopyInto.
Proof. struct_fields FluentbitLokiTLS_ty FluentbitLokiTLS_DeepCopyInto. Qed.
#[local] Hint Resolve FluentbitLokiTLS_copies : copies.

Lemma LokiFluentbit_copies : copies LokiFluentbit_ty LokiFluentbit_DeepCopyInto.
Proof. struct_fields LokiFluentbit_ty LokiFluentbit_DeepCopyInto. Qed.
#[local] Hint Resolve LokiFluentbit_copies : copies.

Lemma FluentbitHTTPRouting_copies : copies FluentbitHTTPRouting_ty FluentbitHTTPRouting_DeepCopyInto.
Proof. struct_fields FluentbitHTTPRouting_ty FluentbitHTTPRouting_DeepCopyInto. Qed.
#[local] Hint Resolve FluentbitHTTPRouting_copies : copies.

Lemma FluentbitHttpTLS_copies : copies FluentbitHttpTLS_ty FluentbitHttpTLS_DeepCopyInto.
Proof. struct_fields FluentbitHttpTLS_ty FluentbitHttpTLS_DeepCopyInto. Qed.
#[local] Hint Resolve FluentbitHttpTLS_copies : copies.

Lemma HttpFluentbit_copies : copies HttpFluentbit_ty HttpFluentbit_DeepCopyInto.
Proof. struct_fields HttpFluentbit_ty HttpFluentbit_DeepCopyInto. Qed.
#[local] Hint Resolve HttpFluentbit_copies : copies.

Lemma OtelFluentbit_copies : copies OtelFluentbit_ty OtelFluentbit_DeepCopyInto.
Proof. struct_fields OtelFluentbit_ty OtelFluentbit_DeepCopyInto. Qed.
#[local] Hint Resolve OtelFluentbit_copies : copies.

Lemma OutputFluentbit_copies : copies OutputFluentbit_ty OutputFluentbit_DeepCopyInto.
Proof. struct_fields OutputFluentbit_ty OutputFluentbit_DeepCopyInto. Qed.
#[local] Hint Resolve OutputFluentbit_copies : copies.

Lemma FluentbitAggregator_copies : copies FluentbitAggregator_ty FluentbitAggregator_DeepCopyInto.
Proof. struct_fields FluentbitAggregator_ty FluentbitAggregator_DeepCopyInto. Qed.
#[local] Hint Resolve FluentbitAggregator_copies : copies.

Lemma FluentbitDB_copies : copies FluentbitDB_ty FluentbitDB_DeepCopyInto.
Proof. struct_fields FluentbitDB_ty FluentbitDB_DeepCopyInto. Qed.
#[local] Hint Resolve FluentbitDB_copies : copies.

Lemma Fluentbit_copies : copies Fluentbit_ty Fluentbit_DeepCopyInto.
Proof. struct_fields Fluentbit_ty Fluentbit_DeepCopyInto. Qed.
#[local] Hint Resolve Fluentbit_copies : copies.

Lemma FluentdTLSParams_copies : copies FluentdTLSParams_ty FluentdTLSParams_DeepCopyInto.
Proof. struct_fields FluentdTLSParams_ty FluentdTLSParams_DeepCopyInto. Qed.
#[local] Hint Resolve FluentdTLSParams_copies : copies.

Lemma FluentdTLS_copies : copies FluentdTLS_ty FluentdTLS_DeepCopyInto.
Proof. struct_fields FluentdTLS_ty FluentdTLS_DeepCopyInto. Qed.
#[local] Hint Resolve FluentdTLS_copies : copies.

Lemma FluentdLokiTLS_copies : copies FluentdLokiTLS_ty FluentdLokiTLS_DeepCopyInto.
Proof. struct_fields FluentdLokiTLS_ty FluentdLokiTLS_DeepCopyInto. Qed.
#[local] Hint Resolve FluentdLokiTLS_copies : copies.

Lemma LokiFluentd_copies : copies LokiFluentd_ty LokiFluentd_DeepCopyInto.
Proof. struct_fields LokiFluentd_ty LokiFluentd_DeepCopyInto. Qed.
#[local] Hint Resolve LokiFluentd_copies : copies.

Lemma FluentdHTTPRouting_copies : copies FluentdHTTPRouting_ty FluentdHTTPRouting_DeepCopyInto.
Proof. struct_fields FluentdHTTPRouting_ty FluentdHTTPRouting_DeepCopyInto. Qed.
#[local] Hint Resolve FluentdHTTPRouting_copies : copies.

Lemma FluentdHttpTLSParams_copies : copies FluentdHttpTLSParams_ty FluentdHttpTLSParams_DeepCopyInto.
Proof. struct_fields FluentdHttpTLSParams_ty FluentdHttpTLSParams_DeepCopyInto. Qed.
#[local] Hint Resolve FluentdHttpTLSParams_copies : copies.

Lemma FluentdHttpTLS_copies : copies FluentdHttpTLS_ty FluentdHttpTLS_DeepCopyInto.
Proof. struct_fields FluentdHttpTLS_ty FluentdHttpTLS_DeepCopyInto. Qed.
#[local] Hint Resolve FluentdHttpTLS_copies : copies.

Lemma HttpFluentd_copies : copies HttpFluentd_ty HttpFluentd_DeepCopyInto.
Proof. struct_fields HttpFluentd_ty HttpFluentd_DeepCopyInto. Qed.
#[local] Hint Resolve HttpFluentd_copies : copies.

Lemma OutputFluentd_copies : copies OutputFluentd_ty OutputFluentd_DeepCopyInto.
Proof. struct_fields OutputFluentd_ty OutputFluentd_DeepCopyInto. Qed.
#[local] Hint Resolve OutputFluentd_copies : copies.

Lemma Fluentd_copies : copies Fluentd_ty Fluentd_DeepCopyInto.
Proof. struct_fields Fluentd_ty Fluentd_DeepCopyInto. Qed.
#[local] Hint Resolve Fluentd_copies : copies.

Lemma MongoDBUpgrade_copies : copies MongoDBUpgrade_ty MongoDBUpgrade_DeepCopyInto.
Proof. struct_fields MongoDBUpgrade_ty MongoDBUpgrade_DeepCopyInto. Qed.
#[local] Hint Resolve MongoDBUpgrade_copies : copies.

Lemma HTTPGraylogTLS_copies : copies HTTPGraylogTLS_ty HTTPGraylogTLS_DeepCopyInto.
Proof. struct_fields HTTPGraylogTLS_ty HTTPGraylogTLS_DeepCopyInto. Qed.
#[local] Hint Resolve HTTPGraylogTLS_copies : copies.

Lemma InputGraylogTLS_copies : copies InputGraylogTLS_ty InputGraylogTLS_DeepCopyInto.
Proof. struct_fields InputGraylogTLS_ty InputGraylogTLS_DeepCopyInto. Qed.
#[local] Hint Resolve InputGraylogTLS_copies : copies.

Lemma GraylogTLS_copies : copies GraylogTLS_ty GraylogTLS_DeepCopyInto.
Proof. struct_fields GraylogTLS_ty GraylogTLS_DeepCopyInto. Qed.
#[local] Hint Resolve GraylogTLS_copies : copies.

Lemma OpenSearch_copies : copies OpenSearch_ty OpenSearch_DeepCopyInto.
Proof. struct_fields OpenSearch_ty OpenSearch_DeepCopyInto. Qed.
#[local] Hint Resolve OpenSearch_copies : copies.

Lemma Stream_copies : copies Stream_ty Stream_DeepCopyInto.
Proof. struct_fields Stream_ty Stream_DeepCopyInto. Qed.
#[local] Hint Resolve Stream_copies : copies.

Lemma Graylog_copies : copies Graylog_ty Graylog_DeepCopyInto.
Proof. struct_fields Graylog_ty Graylog_DeepCopyInto. Qed.
#[local] Hint Resolve Graylog_copies : copies.

Lemma MonitoringAgentLoggingPlugin_copies : copies MonitoringAgentLoggingPlugin_ty MonitoringAgentLoggingPlugin_DeepCopyInto.
Proof. struct_fields MonitoringAgentLoggingPlugin_ty MonitoringAgentLoggingPlugin_DeepCopyInto. Qed.
#[local] Hint Resolve MonitoringAgentLoggingPlugin_copies : copies.

Lemma LoggingServiceSpec_copies : copies LoggingServiceSpec_ty LoggingServiceSpec_DeepCopyInto.
Proof. struct_fields LoggingServiceSpec_ty LoggingServiceSpec_DeepCopyInto. Qed.
#[local] Hint Resolve LoggingServiceSpec_copies : copies.

Lemma LoggingServiceCondition_copies : copies LoggingServiceCondition_ty LoggingServiceCondition_DeepCopyInto.
Proof. struct_fields LoggingServiceCondition_ty LoggingServiceCondition_DeepCopyInto. Qed.
#[local] Hint Resolve LoggingServiceCondition_copies : copies.

Lemma LoggingServiceStatus_copies : copies LoggingServiceStatus_ty LoggingServiceStatus_DeepCopyInto.
Proof. struct_fields LoggingServiceStatus_ty LoggingServiceStatus_DeepCopyInto. Qed.
#[local] Hint Resolve LoggingServiceStatus_copies : copies.

Lemma LoggingService_copies : copies LoggingService_ty LoggingService_DeepCopyInto.
Proof. struct_fields LoggingService_ty LoggingService_DeepCopyInto. Qed.
#[local] Hint Resolve LoggingService_copies : copies.

Lemma LoggingServiceList_copies : copies LoggingServiceList_ty LoggingServiceList_DeepCopyInto.
Proof. struct_fields LoggingServiceList_ty LoggingServiceList_DeepCopyInto. Qed.
#[local] Hint Resolve LoggingServiceList_copies : copies.

Lemma Release_copies : copies Release_ty Release_DeepCopyInto.
Proof. struct_fields Release_ty Release_DeepCopyInto. Qed.
#[local] Hint Resolve Release_copies : copies.

Lemma LoggingServiceParameters_copies : copies LoggingServiceParameters_ty LoggingServiceParameters_DeepCopyInto.
Proof. struct_fields LoggingServiceParameters_ty LoggingServiceParameters_DeepCopyInto. Qed.
#[local] Hint Resolve LoggingServiceParameters_copies : copies.

Lemma api_deep_copies_apart τ f : (τ, f) ∈ api_deep_copies → copies_apart τ f.
Proof.
  intros Hin. unfold api_deep_copies in Hin.
  repeat (apply elem_of_cons in Hin as [[= -> ->]|Hin]; [apply deep_copy_apart; eauto with copies|]).
  by apply not_elem_of_nil in Hin.
Qed.

(** What [DeepCopyObject] of a type makes of its [DeepCopy]. *)
Definition object_copy (type : string) (n : nat) (h : heap) (a : addr) (t : tree)
    (r : runtime_Object) (h' : heap) : Prop :=
  ∃ p, r = PtrObject type p ∧ independent_copy n h a t p h'.

Lemma object_copies type τ (f : option addr → M heap (option addr)) n h a v t fp :
  copies_apart τ f → hget h a = Some v → read n h v = Some (t, fp) → has_type τ t →
  wp (c ← f (Some a); match c with Some _ => mret (PtrObject type c) | None => mret NilObject end)
    (object_copy type n h a t) (λ _ _, False) h.
Proof.
  intros [_ Hf] Ha Hr Ht. wp_simpl. eapply wp_mono; [by eapply Hf| |done].
  intros p h' Hp. pose proof Hp as (l & -> & _). wp_simpl. by exists (Some (cell_addr l)).
Qed.

(** C27: a [DeepCopy] of any type of the API returns, and what it returns is nil for nil and
    otherwise a new value, equal in everything that can be reached from it to the original;
    the call changes no cell, and after it no write outside of the original's cells changes
    the original, nor a write to the cells of before the copy.  [DeepCopyObject] wraps the
    same copy; of a nil pointer it makes the nil interface, not an interface that holds nil. *)
Theorem DeepCopy_independent :
  (∀ τ f, (τ, f) ∈ api_deep_copies →
     (∀ h, f None h = (h, Ret None)) ∧
     ∀ n h a v t fp, hget h a = Some v → read n h v = Some (t, fp) → has_type τ t →
       wp (f (Some a)) (independent_copy n h a t) (λ _ _, False) h) ∧
  (∀ h, LoggingService_DeepCopyObject None h = (h, Ret NilObject)) ∧
  ∀ n h a v t fp, hget h a = Some v → read n h v = Some (t, fp) → has_type LoggingService_ty t →
    wp (LoggingService_DeepCopyObject (Some a)) (object_copy "LoggingService" n h a t) (λ _ _, False) h.
Proof.
  split; [intros τ f; apply api_deep_copies_apart|]. split; [done|].
  intros. eapply object_copies; [apply deep_copy_apart; eauto with copies|done..].
Qed.
End deepcopy.

(** ** An instance *)

(** Some of the fields of k8s.io's types, with their generated copies. *)
#[local] Instance some_fields : KubeCopies := {|
  TypeMeta_ty := TyStruct [("Kind", TyString); ("APIVersion", TyString)];
  ObjectMeta_ty := TyStruct [("Name", TyString); ("Labels", TyMap TyString); ("Finalizers", TySlice TyString)];
  ListMeta_ty := TyStruct [("Continue", TyString); ("RemainingItemCount", TyPtr TyInt)];
  ResourceRequirements_ty := TyStruct [("Limits", TyMap TyString); ("Requests", TyMap TyString)];
  Affinity_ty := TyStruct [("NodeAffinity", TyPtr (TyStruct [("Weight", TyInt)]))];
  Toleration_ty := TyStruct [("Key", TyString); ("TolerationSeconds", TyPtr TyInt)];
  corev1_Volume_ty := TyStruct [("Name", TyString); ("EmptyDir", TyPtr (TyStruct [("Medium", TyString)]))];
  VolumeMount_ty := TyStruct [("Name", TyString); ("MountPath", TyString)];
  SecretKeySelector_ty := TyStruct [("Name", TyString); ("Key", TyString); ("Optional", TyPtr TyBool)];
  ObjectMeta_DeepCopyInto := struct_copy [("Labels", map_copy); ("Finalizers", slice_assign TyString)];
  ListMeta_DeepCopyInto := struct_copy [("RemainingItemCount", ptr_copy TyInt assign)];
  ResourceRequirements_DeepCopyInto := struct_copy [("Limits", map_copy); ("Requests", map_copy)];
  Affinity_DeepCopyInto := struct_copy [("NodeAffinity", ptr_copy (TyStruct [("Weight", TyInt)]) (struct_copy []))];
  Toleration_DeepCopyInto := struct_copy [("TolerationSeconds", ptr_copy TyInt assign)];
  corev1_Volume_DeepCopyInto := struct_copy [("EmptyDir", ptr_copy (TyStruct [("Medium", TyString)]) assign)];
  VolumeMount_DeepCopyInto := struct_copy [];
  SecretKeySelector_DeepCopyInto := struct_copy [("Optional", ptr_copy TyBool assign)];
|}.

#[local] Instance some_fields_laws : KubeCopiesLaws some_fields.
Proof.
  split; [exact I|..]; (apply struct_copies; [reflexivity|]);
    repeat first [apply Forall_nil; exact I | apply Forall_cons; split]; try exact I.
  all: first [by apply (map_copies TyString) | by apply slice_assign_copies
    | apply ptr_copies; by apply assign_copies | apply ptr_copies, struct_copies; [done|by repeat constructor]].
Qed.

(** A custom resource in memory: its FluentBit section refers to labels and tolerations. *)
Definition sample_heap : heap := list_to_map [
  (1, CVal (default (VPtr None) (put (zero_val LoggingService_ty) [Field "Spec"; Field "Fluentbit"]
    (VPtr (Some (cell_addr 2))))));
  (2, CVal (default (VPtr None) (
    v ← put (zero_val Fluentbit_ty) [Field "Labels"] (VMap (Some 3));
    put v [Field "Tolerations"] (VSlice (Some (4, 0%nat, 1%nat))))));
  (3, CMap {["app" := VString "logging"]});
  (4, CVal (VArray [zero_val Toleration_ty]))]%positive.

Lemma DeepCopy_independent_witness : ∃ v t,
  hget sample_heap (cell_addr 1) = Some v ∧ read 12 sample_heap v = Some (t, [2; 3; 4]%positive) ∧
  wp (LoggingService_DeepCopyObject (Some (cell_addr 1)))
    (object_copy "LoggingService" 12 sample_heap (cell_addr 1) t) (λ _ _, False) sample_heap.
Proof.
  eexists _, _. split; [vm_compute; reflexivity|]. split; [vm_compute; reflexivity|].
  refine (proj2 (proj2 DeepCopy_independent) 12 sample_heap (cell_addr 1) _ _ [2; 3; 4]%positive _ _ _);
    [vm_compute; reflexivity..|vm_compute; exact I].
Defined.
