(* ===== verification/SharedLabels.v ===== *)
(** * Labels that objects share: internal/utils/labels.go over memory

    Labels (Labels.v) computes with maps as values.  In the program a map is a reference: the
    labels of the custom resource, of the defaults, of an object and of its pod template could
    be one map, and a write to one of them a write to all.  Here are the same functions over
    Memory.v.  They merge into new maps, so that what Labels computes is what they leave, and
    nothing is shared ([SetLabelsForWorkload_shares_nothing]). *)

From S2P Require Import Prelude KubeTypes Labels Reconcilers Memory Copies.

(** The strings of a map, as values. *)
Definition strings (m : smap) : gmap string val := VString <$> m.

(** A reference to a map that has these labels. *)
Definition labels_at (h : heap) (p : option loc) (m : gomap) : Prop :=
  match p, m with
  | None, None => True
  | Some l, Some m => h !! l = Some (CMap (strings m))
  | _, _ => False
  end.

(** ** The functions *)

Definition cell_map (l : loc) : M heap (gmap string val) :=
  c ← gets (λ h : heap, h !! l);
  match c with Some (CMap m) => mret m | _ => panic end.

(** [m[key] = v]. *)
Definition map_insert (l : loc) (key : string) (v : val) : M heap unit :=
  m ← cell_map l; modify (insert l (CMap (<[key := v]> m))).

(** [maps.Copy(dst, src)]. *)
Definition maps_Copy_at (dst src : loc) : M heap unit :=
  m ← cell_map src; for_each (map_to_list m) (λ kv, map_insert dst kv.1 kv.2).

(** A composite literal. *)
Definition new_map (m : smap) : M heap loc := alloc (CMap (strings m)).

Definition MergeLabels_at (mapsToMerge : list (option loc)) : M heap loc :=
  out ← new_map ∅;
  for_each mapsToMerge (λ m, match m with None => mret tt | Some m => maps_Copy_at out m end);;
  mret out.

Definition MergeInto_at (dst : loc) (src : option loc) : M heap unit :=
  match src with None => mret tt | Some src => maps_Copy_at dst src end.

Definition CommonLabels_at : M heap loc := new_map CommonLabels.

Definition ResourceLabels_at (name component : string) : M heap loc :=
  own ← new_map {[ "name" := name; "app.kubernetes.io/name" := name; "app.kubernetes.io/component" := component ]};
  common ← CommonLabels_at;
  MergeLabels_at [Some own; Some common].

(** [LabelInput]: its fields but for the last are strings. *)
Record LabelInput_in_memory : Type := mkLabelInput_in_memory {
  input_strings : LabelInput;
  input_ComponentLabels : option loc;
}.

Definition set_nonempty_at (m : loc) (key v : string) : M heap unit :=
  when (negb (String.eqb v "")) (map_insert m key (VString v)).

Definition instanceVersionTechnologyMap_at (inp : LabelInput_in_memory) : M heap loc :=
  m ← new_map ∅;
  set_nonempty_at m "app.kubernetes.io/instance" (LabelInput_Instance (input_strings inp));;
  set_nonempty_at m "app.kubernetes.io/version" (LabelInput_Version (input_strings inp));;
  set_nonempty_at m "app.kubernetes.io/technology" (LabelInput_Technology (input_strings inp));;
  mret m.

Definition resourceLabelsFromBase_at (inp : LabelInput_in_memory) (baseMaps : list (option loc)) : M heap loc :=
  out ← MergeLabels_at baseMaps;
  MergeInto_at out (input_ComponentLabels inp);;
  mret out.

Definition resourceLabels_at (inp : LabelInput_in_memory) (existing : option loc) : M heap loc :=
  base ← ResourceLabels_at (LabelInput_Name (input_strings inp)) (LabelInput_Component (input_strings inp));
  ivt ← instanceVersionTechnologyMap_at inp;
  resourceLabelsFromBase_at inp [existing; Some base; Some ivt].

Definition templateLabels_at (inp : LabelInput_in_memory) (existing : option loc) : M heap loc :=
  base ← ResourceLabels_at (LabelInput_Name (input_strings inp)) (LabelInput_Component (input_strings inp));
  ivt ← instanceVersionTechnologyMap_at inp;
  MergeLabels_at [existing; Some base; Some ivt].

(** The map stored at an address. *)
Definition load_labels (a : addr) : M heap (option loc) :=
  v ← load a; match v with VMap p => mret p | _ => panic end.

(** [labels] is the address of the object's field, for [GetLabels] and [SetLabels]. *)
Definition SetLabelsForResource_at (labels : addr) (inp : LabelInput_in_memory) (existing : option loc) : M heap unit :=
  initial ← (match existing with None => load_labels labels | Some _ => mret existing end);
  l ← resourceLabels_at inp initial;
  store labels (VMap (Some l)).

Definition SetLabelsForWorkload_at (labels templateLabels : addr) (inp : LabelInput_in_memory) : M heap unit :=
  SetLabelsForResource_at labels inp None;;
  p ← load_labels templateLabels;
  l ← templateLabels_at inp p;
  store templateLabels (VMap (Some l)).

(** [mergeLabels] of internal/reconcilers/reconcilers.go: the labels of an object that was
    read are written to; an object without labels gets the map of the desired one. *)
Definition mergeLabels_at (existing desired : option loc) : M heap (option loc) :=
  match existing with
  | None => mret desired
  | Some e =>
      match desired with None => mret tt | Some d => maps_Copy_at e d end;;
      mret existing
  end.

(** ** New maps *)

(** [l] is a new cell with these labels, and no other cell has changed. *)
Definition new_labels (h : heap) (m : smap) (l : loc) (h' : heap) : Prop :=
  l ∉ dom h ∧ h ⊆ h' ∧ h' !! l = Some (CMap (strings m)).

Section functions.
Context {E : error → heap → Prop}.
Implicit Types (h : heap) (l : loc).

Lemma wp_cell_map h l m Q : h !! l = Some (CMap m) → Q m h → wp (cell_map l) Q E h.
Proof. intros Hl HQ. unfold cell_map. wp_simpl. rewrite Hl. by wp_simpl. Qed.

Lemma labels_at_mono h h' p m : h ⊆ h' → labels_at h p m → labels_at h' p m.
Proof. intros Hs. destruct p, m; cbn; try done. intros Hl. by eapply lookup_weaken. Qed.

Lemma fill_at h l (es : list (string * val)) acc Q :
  h !! l = Some (CMap acc) → NoDup es.*1 → Q tt (<[l := CMap (list_to_map es ∪ acc)]> h) →
  wp (for_each es (λ kv, map_insert l kv.1 kv.2)) Q E h.
Proof.
  revert h acc. induction es as [|[k v] es IH]; intros h acc Hl Hnd HQ; cbn [for_each].
  - wp_simpl. cbn in HQ. by rewrite (left_id_L ∅ (∪)), insert_id in HQ.
  - apply NoDup_cons in Hnd as [Hk Hnd]. unfold map_insert. wp_simpl. eapply wp_cell_map; [done|].
    wp_simpl. cbn. apply (IH _ (<[k := v]> acc)); [by rewrite lookup_insert_eq|done|].
    rewrite insert_insert_eq. cbn in HQ. rewrite <- insert_union_l, insert_union_r in HQ; [done|].
    by apply not_elem_of_list_to_map.
Qed.

Lemma wp_maps_Copy_at h dst src d s Q :
  h !! dst = Some (CMap (strings d)) → h !! src = Some (CMap (strings s)) →
  Q tt (<[dst := CMap (strings (maps_Copy d s))]> h) → wp (maps_Copy_at dst src) Q E h.
Proof.
  intros Hd Hs HQ. unfold maps_Copy_at. wp_simpl. eapply wp_cell_map; [done|].
  eapply fill_at; [done|apply NoDup_fst_map_to_list|]. rewrite list_to_map_to_list.
  unfold strings, maps_Copy in *. by rewrite map_fmap_union in HQ.
Qed.

Lemma wp_new_map h m Q : (∀ l h', new_labels h m l h' → Q l h') → wp (new_map m) Q E h.
Proof.
  intros HQ. apply wp_alloc. intros l Hl. apply HQ. split_and!; [done| |by rewrite lookup_insert_eq].
  by apply insert_subseteq, not_elem_of_dom.
Qed.

(** A write to a cell that is new since [h]. *)
Lemma new_labels_insert h m m' l h' :
  new_labels h m l h' → new_labels h m' l (<[l := CMap (strings m')]> h').
Proof.
  intros (Hl & Hs & _). split_and!; [done| |by rewrite lookup_insert_eq].
  apply insert_subseteq_r; [by apply not_elem_of_dom|done].
Qed.

Lemma labels_at_new h m l h' p m' : new_labels h m l h' → labels_at h p m' → labels_at h' p m'.
Proof. intros (_ & Hs & _). by apply labels_at_mono. Qed.

(** Layers that are there before the call are merged into a new map. *)
Lemma merge_loop h ps ms acc l h' Q :
  Forall2 (labels_at h) ps ms → new_labels h acc l h' →
  (∀ h2, new_labels h (foldl (λ out m, match m with None => out | Some m => maps_Copy out m end) acc ms) l h2 →
     Q tt h2) →
  wp (for_each ps (λ m, match m with None => mret tt | Some m => maps_Copy_at l m end)) Q E h'.
Proof.
  intros Hps. revert acc h'. induction Hps as [|p m ps ms Hp Hps IH]; intros acc h' Hn HQ; cbn [for_each].
  - wp_simpl. by apply HQ.
  - wp_simpl. destruct p as [src|], m as [m|]; try done.
    + eapply wp_maps_Copy_at; [apply Hn|by apply (labels_at_new _ _ _ _ _ _ Hn) in Hp|].
      eapply IH; [by eapply new_labels_insert|done].
    + wp_simpl. by eapply IH.
Qed.

Lemma wp_MergeLabels_at h ps ms Q :
  Forall2 (labels_at h) ps ms → (∀ l h', new_labels h (MergeLabels ms) l h' → Q l h') →
  wp (MergeLabels_at ps) Q E h.
Proof.
  intros Hps HQ. unfold MergeLabels_at. wp_simpl. apply wp_new_map. intros l h' Hn.
  wp_simpl. eapply merge_loop; [done..|]. intros h2 Hn2. wp_simpl. by apply HQ.
Qed.

Lemma new_labels_trans h h1 m l h' : h ⊆ h1 → new_labels h1 m l h' → new_labels h m l h'.
Proof.
  intros Hs (Hl & Hs' & Hm). split_and!; [|by etrans|done].
  intros Hin. by apply Hl, (subseteq_dom _ _ Hs).
Qed.

Lemma wp_ResourceLabels_at h name component Q :
  (∀ l h', new_labels h (ResourceLabels name component) l h' → Q l h') →
  wp (ResourceLabels_at name component) Q E h.
Proof.
  intros HQ. unfold ResourceLabels_at, CommonLabels_at. wp_simpl.
  apply wp_new_map. intros own h1 Hown. wp_simpl. apply wp_new_map. intros common h2 Hcommon.
  assert (h ⊆ h2) as Hs by (etrans; [apply Hown|apply Hcommon]).
  eapply (wp_MergeLabels_at _ _ [Some _; Some _]).
  - constructor; [|constructor; [apply Hcommon|done]]. apply (labels_at_new _ _ _ _ (Some own) (Some _) Hcommon), Hown.
  - intros l h3 Hn. apply HQ. by eapply new_labels_trans.
Qed.

Lemma wp_set_nonempty_at h m l h' key v Q :
  new_labels h m l h' → (∀ h2, new_labels h (set_nonempty key v m) l h2 → Q tt h2) →
  wp (set_nonempty_at l key v) Q E h'.
Proof.
  intros Hn HQ. unfold set_nonempty_at. wp_simpl. unfold set_nonempty in HQ.
  destruct (negb (String.eqb v "")); [|by apply HQ]. unfold map_insert. wp_simpl.
  eapply wp_cell_map; [apply Hn|]. wp_simpl. apply HQ. unfold strings. rewrite <- fmap_insert.
  by eapply new_labels_insert.
Qed.

Lemma wp_instanceVersionTechnologyMap_at h inp Q :
  (∀ l h', new_labels h (instanceVersionTechnologyMap (input_strings inp)) l h' → Q l h') →
  wp (instanceVersionTechnologyMap_at inp) Q E h.
Proof.
  intros HQ. unfold instanceVersionTechnologyMap_at. wp_simpl. apply wp_new_map. intros l h1 Hn1.
  do 3 (wp_simpl; eapply wp_set_nonempty_at; [done|]; clear dependent h1; intros h1 Hn1).
  wp_simpl. by apply HQ.
Qed.
End functions.

Section whole.
Context {E : error → heap → Prop}.
Implicit Types (h : heap) (l : loc) (inp : LabelInput_in_memory).

(** The input with the labels of the component that it refers to. *)
Definition input_at h inp : Prop :=
  labels_at h (input_ComponentLabels inp) (LabelInput_ComponentLabels (input_strings inp)).

Lemma wp_templateLabels_at h inp p m Q :
  labels_at h p m → (∀ l h', new_labels h (templateLabels (input_strings inp) m) l h' → Q l h') →
  wp (templateLabels_at inp p) Q E h.
Proof.
  intros Hp HQ. unfold templateLabels_at. wp_simpl. apply wp_ResourceLabels_at. intros base h1 H1.
  wp_simpl. apply wp_instanceVersionTechnologyMap_at. intros ivt h2 H2.
  assert (h ⊆ h2) as Hs by (etrans; [apply H1|apply H2]).
  eapply (wp_MergeLabels_at _ _ [_; Some _; Some _]).
  - constructor; [by eapply labels_at_mono|]. constructor; [|constructor; [apply H2|done]].
    apply (labels_at_new _ _ _ _ (Some base) (Some _) H2), H1.
  - intros l h3 Hn. apply HQ. by eapply new_labels_trans.
Qed.

Lemma wp_resourceLabels_at h inp p m Q :
  labels_at h p m → input_at h inp →
  (∀ l h', new_labels h (resourceLabels (input_strings inp) m) l h' → Q l h') →
  wp (resourceLabels_at inp p) Q E h.
Proof.
  intros Hp Hin HQ. unfold resourceLabels_at. wp_simpl. apply wp_ResourceLabels_at. intros base h1 H1.
  wp_simpl. apply wp_instanceVersionTechnologyMap_at. intros ivt h2 H2.
  assert (h ⊆ h2) as Hs by (etrans; [apply H1|apply H2]).
  unfold resourceLabelsFromBase_at. wp_simpl. eapply (wp_MergeLabels_at _ _ [_; Some _; Some _]).
  - constructor; [by eapply labels_at_mono|]. constructor; [|constructor; [apply H2|done]].
    apply (labels_at_new _ _ _ _ (Some base) (Some _) H2), H1.
  - intros l h3 Hn. apply (new_labels_trans _ _ _ _ _ Hs) in Hn.
    unfold input_at, MergeInto_at, resourceLabels, resourceLabelsFromBase, MergeInto in *. wp_simpl.
    destruct (input_ComponentLabels inp) as [src|], (LabelInput_ComponentLabels (input_strings inp)) as [c|]; try done.
    + eapply wp_maps_Copy_at; [apply Hn|apply (labels_at_new _ _ _ _ (Some src) (Some c) Hn Hin)|].
      wp_simpl. by eapply HQ, new_labels_insert.
    + wp_simpl. by apply HQ.
Qed.

Lemma wp_load_labels h a p Q : hget h a = Some (VMap p) → Q p h → wp (load_labels a) Q E h.
Proof. intros Ha HQ. unfold load_labels. wp_simpl. eapply wp_load; [done|]. by wp_simpl. Qed.

Lemma wp_SetLabelsForResource_at h labels inp p m Q :
  hget h labels = Some (VMap p) → labels_at h p m → input_at h inp →
  (∀ l h1 h', new_labels h (resourceLabels (input_strings inp) m) l h1 →
     hput h1 labels (VMap (Some l)) = Some h' → Q tt h') →
  wp (SetLabelsForResource_at labels inp None) Q E h.
Proof.
  intros Ha Hp Hin HQ. unfold SetLabelsForResource_at. wp_simpl. eapply wp_load_labels; [done|].
  wp_simpl. eapply wp_resourceLabels_at; [done..|]. intros l h1 Hn.
  assert (∃ h', hput h1 labels (VMap (Some l)) = Some h') as [h' Hh'].
  { eapply hput_total, hget_sub; [apply Hn|done]. }
  eapply wp_store; [done|]. by eapply HQ.
Qed.
End whole.

(** Only the map of the existing object is written. *)
Lemma mergeLabels_at_spec E h e d me md :
  labels_at h e me → labels_at h d md →
  wp (mergeLabels_at e d)
    (λ r h', labels_at h' r (mergeLabels me md) ∧ (∀ l, Some l ≠ e → h' !! l = h !! l)) E h.
Proof.
  intros He Hd. unfold mergeLabels_at. destruct e as [e|], me as [me|]; try done. wp_simpl.
  destruct d as [d|], md as [md|]; try done.
  - eapply wp_maps_Copy_at; [done..|]. wp_simpl. split; [by cbn; rewrite lookup_insert_eq|].
    intros l Hl. by rewrite lookup_insert_ne by congruence.
  - wp_simpl. split; [|done]. cbn. unfold maps_Copy. by rewrite (left_id_L ∅ (∪)).
Qed.

(** ** Properties *)

(** C32: the labels of a workload, where maps are references.  Whatever maps the object, its
    pod template, the custom resource and the defaults share, [SetLabelsForWorkload] returns;
    the object and the template refer afterwards to two new maps, one each, with the labels
    that [resourceLabels] and [templateLabels] of Labels compute from the contents before the
    call; and no cell that was there changes, but for the two fields: the maps of the custom
    resource are never written to, nor can a later write to the labels of the object reach
    them or the template's. *)
Theorem SetLabelsForWorkload_shares_nothing h labels template inp po mo pt mt :
  hget h labels = Some (VMap po) → hget h template = Some (VMap pt) → apart labels template →
  labels_at h po mo → labels_at h pt mt → input_at h inp →
  wp (SetLabelsForWorkload_at labels template inp)
    (λ _ h', ∃ lo lt, lo ∉ dom h ∧ lt ∉ dom h ∧ lo ≠ lt ∧
       hget h' labels = Some (VMap (Some lo)) ∧ hget h' template = Some (VMap (Some lt)) ∧
       h' !! lo = Some (CMap (strings (resourceLabels (input_strings inp) mo))) ∧
       h' !! lt = Some (CMap (strings (templateLabels (input_strings inp) mt))) ∧
       ∀ x, x ∈ dom h → x ≠ addr_loc labels → x ≠ addr_loc template → h' !! x = h !! x)
    (λ _ _, False) h.
Proof.
  intros Ho Ht Hap Hpo Hpt Hin. unfold SetLabelsForWorkload_at. wp_simpl.
  eapply wp_SetLabelsForResource_at; [done..|]. intros lo h1 h2 Hlo Hput.
  pose proof Hlo as (Hlo1 & Hs1 & Hlom).
  assert (addr_loc labels ∈ dom h) as Hdo by by eapply hget_dom.
  assert (addr_loc template ∈ dom h) as Hdt by by eapply hget_dom.
  assert (hget h2 template = Some (VMap pt)) as Ht2.
  { rewrite (hget_hput_apart _ _ _ _ _ Hap Hput). by eapply hget_sub. }
  assert (∀ x c, x ≠ addr_loc labels → h1 !! x = Some c → h2 !! x = Some c) as H12
    by (intros x c Hx Hc; by rewrite (hput_ne _ _ _ _ _ Hput)).
  assert (labels_at h2 pt mt) as Hpt2.
  { destruct pt as [l|], mt as [m|]; try done. cbn in *. apply H12; [|by eapply lookup_weaken].
    intros ->. unfold hget in Ho. by rewrite Hpt in Ho. }
  wp_simpl. eapply wp_load_labels; [done|]. wp_simpl. eapply wp_templateLabels_at; [done|].
  intros lt h3 (Hlt & Hs3 & Hltm). assert (lt ∉ dom h1) as Hlt1 by by rewrite <- (hput_dom _ _ _ _ Hput).
  destruct (hput_total h3 template (VMap pt) (VMap (Some lt))) as [h4 Hput4]; [by eapply hget_sub|].
  eapply wp_store; [done|]. assert (lt ∉ dom h) as Hlt0 by (intros ?; by apply Hlt1, (subseteq_dom _ _ Hs1)).
  assert (lo ≠ addr_loc labels ∧ lo ≠ addr_loc template ∧ lt ≠ addr_loc template) as (Hn1 & Hn2 & Hn3)
    by (split_and!; by intros ->).
  assert (∀ x c, x ≠ addr_loc labels → x ≠ addr_loc template → h1 !! x = Some c → h4 !! x = Some c) as H14.
  { intros x c Hx Hx' Hc. rewrite (hput_ne _ _ _ _ _ Hput4) by done. eapply lookup_weaken; [by apply H12|done]. }
  exists lo, lt. split_and!; try done.
  - intros ->. apply Hlt1, elem_of_dom. by eexists.
  - assert (apart template labels) as Hap'.
    { destruct Hap as [?|(r & f & g & p & q & ? & ? & ?)]; [by left|right]. exists r, g, f, q, p. auto. }
    rewrite (hget_hput_apart _ _ _ _ _ Hap' Hput4). by eapply hget_sub, hget_hput.
  - by eapply hget_hput.
  - by apply H14.
  - by rewrite (hput_ne _ _ _ _ _ Hput4).
  - intros x [c Hc]%elem_of_dom Hx Hx'. rewrite Hc. apply H14; [done..|]. by eapply lookup_weaken.
Qed.

(** ** A witness: a workload whose labels, and whose template's, are those of the custom resource *)

Definition shared_heap : heap := list_to_map [
  (1, CVal (VStruct [("Labels", VMap (Some 2)); ("Template", VStruct [("Labels", VMap (Some 2))])]));
  (2, CMap (strings {["team" := "logging"]}))]%positive.

Definition shared_input : LabelInput_in_memory :=
  mkLabelInput_in_memory
    (mkLabelInput "logging-fluentd" ComponentBackend "" "" "" (Some {["team" := "logging"]})) (Some 2%positive).

Lemma SetLabelsForWorkload_shares_nothing_witness :
  let labels := mkAddr 1 [Field "Labels"] in
  let template := mkAddr 1 [Field "Template"; Field "Labels"] in
  ∃ lo lt h', SetLabelsForWorkload_at labels template shared_input shared_heap = (h', Ret tt) ∧
    lo ≠ lt ∧ hget h' labels = Some (VMap (Some lo)) ∧ hget h' template = Some (VMap (Some lt)) ∧
    h' !! 2%positive = Some (CMap (strings {["team" := "logging"]})).
Proof.
  intros labels template.
  eassert (Hwp : wp (SetLabelsForWorkload_at labels template shared_input) _ (λ _ _, False) shared_heap).
  { apply (SetLabelsForWorkload_shares_nothing shared_heap labels template shared_input (Some 2%positive)
      (Some {["team" := "logging"]}) (Some 2%positive) (Some {["team" := "logging"]})); try (vm_compute; reflexivity).
    right. exists [], "Labels", "Template", [], [Field "Labels"]. by split_and!. }
  unfold wp in Hwp. destruct (SetLabelsForWorkload_at _ _ _ _) as [h' [[]|e|]]; [|done..].
  destruct Hwp as (lo & lt & _ & _ & Hne & Ho & Ht & _ & _ & Hrest).
  exists lo, lt, h'. split_and!; [done..|]. rewrite Hrest; [done| |done..].
  apply elem_of_dom. by eexists.
Defined.
