(* ===== verification/PodManager.v ===== *)
(** * Pods and workloads: internal/utils/pod_manager.go, and its waits in waiter.go

    A [PodManager] is a client and a namespace.  The variable that a poll's
    condition shares with its caller is the second component of the state of
    [PollUntilContextTimeout]. *)

From S2P Require Import Prelude GoStrings KubeTypes Api Client Operator Component.

(** A client call inside the condition of a poll. *)
Definition in_poll {W B A} (m : M W A) : M (W * B) A := λ s,
  let (w', r) := m s.1 in ((w', s.2), r).

Section PodManager.
Context {W : Type} `{KubeClient W}.
Variable namespace : string.

(** [manager.client.Get(ctx, NamespacedName{serviceName, namespace}, obj)]. *)
Definition fetch {T} `{K8sObject T} (serviceName : string) : M W T :=
  o ← client_Get (mkObjectKey (kind_of T) namespace serviceName);
  deref (of_object o).

Definition ToPodNameList (podList : list Pod) : list string :=
  (λ p, ObjectMeta_Name (Pod_ObjectMeta p)) <$> podList.

Definition FindPods (labelSelectors : smap) : M W (list Pod) :=
  r ← attempt (client_ListPods namespace labelSelectors);
  match r with
  | inl err => if IsNotFound err then mret [] else fail err
  | inr podList => mret podList
  end.

(** The condition of [WaitForTerminatingPods]: no pod of the list has one of the
    names. *)
Definition pods_terminated (terminatedPodNames : list string) (podList : list Pod) : bool :=
  bool_decide (Forall (λ name, name ∉ ToPodNameList podList) terminatedPodNames).

Definition WaitForTerminatingPods (terminatedPodNames : list string) (labelSelectors : smap) :
    M W bool := λ w,
  if bool_decide (0 < length terminatedPodNames) then
    match PollUntilContextTimeout unit Interval TerminatingPodTimeout
            (podList ← in_poll (FindPods labelSelectors);
             mret (pods_terminated terminatedPodNames podList)) (w, tt) with
    | ((w', _), Ret _) => (w', Ret true)
    | ((w', _), Fail err) => if wait_Interrupted err then (w', Ret false) else (w', Fail err)
    | ((w', _), Panic) => (w', Panic)
    end
  else (w, Ret true).

Definition DeletePods (labelSelectors : smap) : M W bool :=
  podList ← FindPods labelSelectors;
  for_each podList client_DeletePod;;
  WaitForTerminatingPods (ToPodNameList podList) labelSelectors.

Definition exists_of (T : Type) `{K8sObject T} (serviceName : string) : M W bool :=
  r ← attempt (fetch serviceName : M W T);
  match r with
  | inl err => if IsNotFound err then mret false else fail err
  | inr _ => mret true
  end.

Definition IsDaemonSetExists (serviceName : string) : M W bool := exists_of DaemonSet serviceName.

Definition IsDeploymentExists (serviceName : string) : M W bool := exists_of Deployment serviceName.

Definition IsDaemonSetAvailable (serviceName : string) : M W bool :=
  daemonSet ← (fetch serviceName : M W DaemonSet);
  mret (bool_decide (DaemonSet_UpdatedNumberScheduled daemonSet
                     = DaemonSet_DesiredNumberScheduled daemonSet)
        && bool_decide (DaemonSet_NumberAvailable daemonSet
                        = DaemonSet_DesiredNumberScheduled daemonSet)).

(** [*deploy.Spec.Replicas] panics on nil. *)
Definition IsDeploymentReplicasSynchronised (serviceName : string) : M W bool :=
  deploy ← (fetch serviceName : M W Deployment);
  replicas ← deref (Deployment_Replicas deploy);
  mret (bool_decide (Deployment_AvailableReplicas deploy = replicas)
        && bool_decide (Deployment_UpdatedReplicas deploy = replicas)).

Definition IsStatefulsetReplicasSynchronised (serviceName : string) : M W bool :=
  ss ← (fetch serviceName : M W StatefulSet);
  replicas ← deref (StatefulSet_Replicas ss);
  mret (bool_decide (StatefulSet_StatusReplicas ss = replicas)
        && bool_decide (StatefulSet_ReadyReplicas ss = replicas)).

(** The condition assigns [isAvailable], which the caller returns. *)
Definition statefulset_condition (serviceName : string) : M (W * bool) bool := λ s,
  let (w', r) := IsStatefulsetReplicasSynchronised serviceName s.1 in
  match r with
  | Ret isAvailable => ((w', isAvailable), Ret isAvailable)
  | Fail err => ((w', false), Fail err)
  | Panic => ((w', s.2), Panic)
  end.

Definition WaitForStatefulsetUpdated (serviceName : string) (timeout : Z) : M W bool := λ w,
  match PollUntilContextTimeout bool Interval timeout (statefulset_condition serviceName)
          (w, false) with
  | ((w', isAvailable), Ret _) => (w', Ret isAvailable)
  | ((w', isAvailable), Fail err) =>
      if wait_Interrupted err then (w', Ret isAvailable) else (w', Fail err)
  | ((w', _), Panic) => (w', Panic)
  end.
End PodManager.

(** ** Lemmas *)

Section lemmas.
Context {W : Type} `{KubeClientLaws W}.

(** A cluster in which the objects are those of [w] and time may have passed. *)
Definition quiet_world (w w' : W) : Prop :=
  objects w' = objects w ∧ (time_Now w ≤ time_Now w')%Z.

Lemma fetch_wp {T} `{K8sObjectLaws T} ns name w :
  wp (fetch ns name)
    (λ (x : T) w', quiet_world w w' ∧
      objects w !! mkObjectKey (kind_of T) ns name = Some (to_object x) ∧
      replicas_set (to_object x))
    (λ e w', quiet_world w w' ∧
      (IsNotFound e = true → objects w !! mkObjectKey (kind_of T) ns name = None)) w.
Proof.
  unfold fetch. rewrite wp_bind. eapply wp_mono; [apply client_Get_spec| |].
  - intros obj w' (Ho & Hnow & Hk).
    destruct (objects_typed (T:=T) _ (mkObjectKey (kind_of T) ns name) _ eq_refl Hk) as (x & Hx & -> & _).
    rewrite Hx, wp_deref. split_and!; [done|done|]. by eapply objects_replicas.
  - intros e w' (Ho & Hnow & Hk). done.
Qed.

(** Whether the workload a name stands for is up, in a given cluster. *)
Definition daemonset_up (m : gmap ObjectKey Object) (ns name : string) : bool :=
  match m !! mkObjectKey KDaemonSet ns name with
  | Some (ODaemonSet d) =>
      bool_decide (DaemonSet_UpdatedNumberScheduled d = DaemonSet_DesiredNumberScheduled d)
      && bool_decide (DaemonSet_NumberAvailable d = DaemonSet_DesiredNumberScheduled d)
  | _ => false
  end.

Definition deployment_up (m : gmap ObjectKey Object) (ns name : string) : bool :=
  match m !! mkObjectKey KDeployment ns name with
  | Some (ODeployment d) =>
      bool_decide (Some (Deployment_AvailableReplicas d) = Deployment_Replicas d)
      && bool_decide (Some (Deployment_UpdatedReplicas d) = Deployment_Replicas d)
  | _ => false
  end.

Definition statefulset_up (m : gmap ObjectKey Object) (ns name : string) : bool :=
  match m !! mkObjectKey KStatefulSet ns name with
  | Some (OStatefulSet d) =>
      bool_decide (Some (StatefulSet_StatusReplicas d) = StatefulSet_Replicas d)
      && bool_decide (Some (StatefulSet_ReadyReplicas d) = StatefulSet_Replicas d)
  | _ => false
  end.

Lemma bool_decide_Some (a b : Z) : bool_decide (Some a = Some b) = bool_decide (a = b).
Proof. apply bool_decide_ext. split; [by intros [=]|by intros ->]. Qed.

Lemma IsDaemonSetAvailable_wp ns name w :
  wp (IsDaemonSetAvailable ns name)
    (λ b w', quiet_world w w' ∧ b = daemonset_up (objects w) ns name)
    (λ e w', quiet_world w w') w.
Proof.
  unfold IsDaemonSetAvailable, daemonset_up. rewrite wp_bind.
  eapply wp_mono; [apply fetch_wp| |by intros e w' [? _]].
  intros d w' (Hq & Hk & _). cbn in Hk. by rewrite wp_ret, Hk.
Qed.

Lemma IsDeploymentReplicasSynchronised_wp ns name w :
  wp (IsDeploymentReplicasSynchronised ns name)
    (λ b w', quiet_world w w' ∧ b = deployment_up (objects w) ns name)
    (λ e w', quiet_world w w') w.
Proof.
  unfold IsDeploymentReplicasSynchronised, deployment_up. rewrite wp_bind.
  eapply wp_mono; [apply fetch_wp| |by intros e w' [? _]].
  intros d w' (Hq & Hk & Hr). cbn in Hk, Hr. rewrite Hk. cbn.
  destruct (Deployment_Replicas d) as [n|]; [|done].
  rewrite wp_bind, wp_deref, wp_ret. by rewrite !bool_decide_Some.
Qed.

Lemma IsStatefulsetReplicasSynchronised_wp ns name w :
  wp (IsStatefulsetReplicasSynchronised ns name)
    (λ b w', quiet_world w w' ∧ b = statefulset_up (objects w) ns name)
    (λ e w', quiet_world w w') w.
Proof.
  unfold IsStatefulsetReplicasSynchronised, statefulset_up. rewrite wp_bind.
  eapply wp_mono; [apply fetch_wp| |by intros e w' [? _]].
  intros d w' (Hq & Hk & Hr). cbn in Hk, Hr. rewrite Hk. cbn.
  destruct (StatefulSet_Replicas d) as [n|]; [|done].
  rewrite wp_bind, wp_deref, wp_ret. by rewrite !bool_decide_Some.
Qed.
End lemmas.

(** A poll whose condition does not panic does not panic. *)
Lemma poll_run_no_panic {W B} (cond : M (W * B) bool) s s' r :
  (∀ s, (cond s).2 ≠ Panic) → poll_run cond s s' r → r ≠ Panic.
Proof.
  intros Hc. induction 1 as [| |s s' Hp| |]; try done. intros _. apply (Hc s). by rewrite Hp.
Qed.

(** The deletion of pods ends without a panic. *)
Lemma FindPods_wp {W} `{KubeClientLaws W} ns sel w : wp (FindPods ns sel) (λ _ _, True) (λ _ _, True) w.
Proof.
  unfold FindPods. rewrite wp_bind, wp_attempt. eapply wp_mono; [apply client_ListPods_spec| |].
  - intros pods w' _. by rewrite wp_ret.
  - intros e w' _. by destruct (IsNotFound e).
Qed.

Lemma WaitForTerminatingPods_wp {W} `{KubeClientLaws W} ns names sel w :
  wp (WaitForTerminatingPods ns names sel) (λ _ _, True) (λ _ _, True) w.
Proof.
  unfold wp, WaitForTerminatingPods. case_bool_decide; [|done].
  destruct (PollUntilContextTimeout _ _ _ _ _) as [[w' b] r] eqn:Hp.
  apply PollUntilContextTimeout_spec in Hp. apply poll_run_no_panic in Hp.
  - destruct r as [|e|]; [done|by destruct (wait_Interrupted e)|done].
  - intros [w0 b0]. pose proof (FindPods_wp ns sel w0) as Hf. unfold wp in Hf.
    cbn. unfold in_poll, mbind, M_bind. cbn. by destruct (FindPods ns sel w0) as [w1 [pods|e|]].
Qed.

Lemma DeletePods_wp {W} `{KubeClientLaws W} ns sel w : wp (DeletePods ns sel) (λ _ _, True) (λ _ _, True) w.
Proof.
  unfold DeletePods. rewrite wp_bind. eapply wp_mono; [apply FindPods_wp| |done].
  intros pods w1 _. rewrite wp_bind. eapply wp_mono; [apply (wp_for_each (λ _, True) (λ _ _, True))| |done].
  - done.
  - intros p w2 _ _. eapply wp_mono; [apply client_DeletePod_spec|done|done].
  - intros [] w2 _. apply WaitForTerminatingPods_wp.
Qed.

(** The poll, by induction on what it may do. *)
Lemma WaitForStatefulsetUpdated_wp {W} `{KubeClientLaws W} ns name timeout w :
  wp (WaitForStatefulsetUpdated ns name timeout)
    (λ b w', b = true → statefulset_up (objects w') ns name = true)
    (λ e _, wait_Interrupted e = false) w.
Proof.
  unfold wp, WaitForStatefulsetUpdated.
  destruct (PollUntilContextTimeout _ _ _ _ _) as [[w' b] r] eqn:Hp.
  apply PollUntilContextTimeout_spec in Hp.
  assert (Hcond : ∀ s, match statefulset_condition ns name s with
    | ((w', b), Ret b') => b = b' ∧ (b = true → statefulset_up (objects w') ns name = true)
    | ((w', b), Fail _) => b = false
    | (_, Panic) => False end).
  { intros [w0 b0]. pose proof (IsStatefulsetReplicasSynchronised_wp ns name w0) as Hi.
    unfold wp, statefulset_condition in *. cbn [fst snd].
    destruct (IsStatefulsetReplicasSynchronised ns name w0) as [w1 [b1|e1|]]; [|done..].
    destruct Hi as [[-> _] ->]. done. }
  remember (w, false) as s0 eqn:Hs0. remember ((w', b)) as s1 eqn:Hs1.
  clear Hs0. revert w' b Hs1.
  induction Hp as [s s' Hc|s s' e Hc|s s' Hc|s w1 b1 w2 e Hc Hint|s w1 b1 w2 s3 r Hc Hrun IH];
    intros w' b Hs1; try subst s'; pose proof (Hcond s) as Hs; try rewrite Hc in Hs.
  - destruct Hs as [-> Hup]. intros _. by apply Hup.
  - subst b. destruct (wait_Interrupted e) eqn:He; [done|exact He].
  - done.
  - simplify_eq. destruct Hs as [-> _]. by rewrite Hint.
  - by apply IH.
Qed.

(** ** Properties *)

(** C26: [WaitForStatefulsetUpdated] never panics, and says [true] only when the
    last time it looked the StatefulSet existed and all its replicas were there
    and ready; when the time is over it says [false] instead of failing. *)
Theorem WaitForStatefulsetUpdated_result {W} `{KubeClientLaws W} ns name timeout w :
  wp (WaitForStatefulsetUpdated ns name timeout)
    (λ b w', b = true → statefulset_up (objects w') ns name = true)
    (λ e _, wait_Interrupted e = false) w.
Proof. apply WaitForStatefulsetUpdated_wp. Qed.

(** ** Witness: a StatefulSet that becomes ready while the poll runs *)

Definition example_statefulset (ready : Z) : Object :=
  OStatefulSet ((zero : StatefulSet) <| StatefulSet_ObjectMeta := named "graylog" "ns" |>
    <| StatefulSet_Replicas := Some 1%Z |> <| StatefulSet_StatusReplicas := 1%Z |>
    <| StatefulSet_ReadyReplicas := ready |>).

Lemma WaitForStatefulsetUpdated_result_witness :
  let w := mem_store (example_statefulset 0)
             (zero <| Mem_arrivals := [(20 * Second, example_statefulset 1)%Z] |>) in
  statefulset_up (objects w) "ns" "graylog" = false ∧
  statefulset_up (objects (WaitForStatefulsetUpdated "ns" "graylog" (10 * Minute) w).1)
    "ns" "graylog" = true.
Proof.
  intros w. split; [by vm_compute|].
  run_theorem (WaitForStatefulsetUpdated_result "ns" "graylog" (10 * Minute) w) true Hw.
  exact (Hw eq_refl).
Defined.
