(* ===== verification/Waiter.v ===== *)
(** * Waiting for the components: [ComponentsPendingReconciler] of internal/utils/waiter.go

    The reconcilers of a cycle append what they deployed to a list; this one
    polls the list until it is empty or its time is over.  The code's [for] loop
    is bounded only by the clock; here it has fuel, and the fuel of [Run] is
    proved to be enough. *)

From S2P Require Import Prelude GoStrings KubeTypes Api Client Operator Status Component.
From S2P Require Import PodManager.

Section Waiter.
Context {W : Type} `{KubeClient W}.

Definition sleep (d : Z) : M (op W) unit := modify (λ s, s <| op_world ::= time_Sleep d |>).

Definition time_now : M (op W) Z := gets (λ s, time_Now (op_world s)).

Definition is_daemonset (c : Component) : bool :=
  bool_decide (Component_ComponentName c
    ∈ [FluentdComponentName; FluentbitComponentName; ForwarderFluentbitComponentName]).

(** The [switch] of the loop: daemon sets by name, everything else a deployment. *)
Definition component_available (namespace : string) (c : Component) : M W bool :=
  if is_daemonset c then IsDaemonSetAvailable namespace (Component_ComponentName c)
  else IsDeploymentReplicasSynchronised namespace (Component_ComponentName c).

(** The inner [for i := len - 1; i >= 0; i--]; [n] is [i + 1]. *)
Fixpoint check_components (namespace : string) (n : nat) : M (op W) unit :=
  match n with
  | O => mret tt
  | S i =>
      pending ← gets op_pending;
      component ← deref (pending !! i);
      isAvailable ← lift (component_available namespace component);
      (if isAvailable : bool then
         RemoveStatus (Component_StatusName component);;
         modify (λ s, s <| op_pending ::= swap_remove i |>)
       else mret tt);;
      check_components namespace i
  end.

Definition fail_component (component : Component) : M (op W) unit :=
  UpdateStatus (Component_StatusName component) Failed false
    ("Reason: " +:+ Component_ComponentName component +:+ " is not started").

(** The outer loop; [None] is out of fuel. *)
Fixpoint pending_loop (fuel : nat) (namespace : string) (start : Z) : M (op W) (option bool) :=
  match fuel with
  | O => mret None
  | S fuel =>
      now ← time_now;
      if bool_decide (ComponentPendingTimeout ≤ now - start)%Z then
        pending ← gets op_pending;
        for_each pending fail_component;;
        mret (Some false)
      else
        n ← gets (λ s, length (op_pending s));
        check_components namespace n;;
        pending ← gets op_pending;
        if bool_decide (length pending = 0) then mret (Some true)
        else sleep Interval;; pending_loop fuel namespace start
  end.

(** The iterations start at least [Interval] apart, so that the one that begins
    [ComponentPendingTimeout] after the start is the last. *)
Definition pending_fuel : nat := Z.to_nat (ComponentPendingTimeout / Interval) + 1.

(** The wait, when there is something to wait for. *)
Definition pending_wait : M (op W) bool :=
  n ← gets (λ s, length (op_pending s));
  if bool_decide (n ≠ 0) then
    sleep InitialDelay;;
    cr ← the_cr;
    start ← time_now;
    r ← pending_loop pending_fuel (GetNamespace cr) start;
    deref r
  else mret true.

Definition ComponentsPending_Run : M (op W) bool :=
  failed ← IsStatusFailed ComponentPendingStatus;
  when (negb failed)
    (UpdateStatus ComponentPendingStatus InProgress false "Start reconcile of ComponentsPending");;
  isStatusSuccess ← pending_wait;
  RemoveStatus ComponentPendingStatus;;
  mret isStatusSuccess.
End Waiter.

(** ** Lemmas *)

Section lemmas.
Context {W : Type} `{KubeClientLaws W}.
Implicit Types (s : op W).

Definition component_up (m : gmap ObjectKey Object) (ns : string) (c : Component) : bool :=
  if is_daemonset c then daemonset_up m ns (Component_ComponentName c)
  else deployment_up m ns (Component_ComponentName c).

Lemma component_available_wp ns c w :
  wp (component_available ns c)
    (λ b w', quiet_world w w' ∧ b = component_up (objects w) ns c)
    (λ e w', quiet_world w w') w.
Proof.
  unfold component_available, component_up. destruct (is_daemonset c).
  - apply IsDaemonSetAvailable_wp.
  - apply IsDeploymentReplicasSynchronised_wp.
Qed.

(** What the waiting does to the cluster: it reads, it writes the status of the custom
    resource, and it sleeps. *)
Inductive wait_step : W → W → Prop :=
| wait_get k w : wait_step w (client_Get k w).1
| wait_patch cr w : wait_step w (client_PatchStatus cr w).1
| wait_sleep d w : wait_step w (time_Sleep d w).

(** The worlds that such steps lead to. *)
Definition reaches : W → W → Prop := rtc wait_step.

#[export] Instance reaches_preorder : PreOrder reaches.
Proof. apply _. Qed.

Lemma patch_reaches cr : steps reaches (client_PatchStatus cr).
Proof. intros w. apply rtc_once. constructor. Qed.

Lemma fetch_reaches {T} `{K8sObject T} ns name w : reaches w (fetch ns name w : W * outcome T).1.
Proof.
  unfold fetch, mbind, M_bind. set (k := mkObjectKey _ _ _). pose proof (rtc_once _ _ (wait_get k w)) as Hw.
  destruct (client_Get k w) as [w' [o|e|]]; [|done..]. unfold deref. by destruct (of_object o).
Qed.

Lemma component_available_reaches ns c w : reaches w (component_available ns c w).1.
Proof.
  unfold component_available. destruct (is_daemonset c);
    unfold IsDaemonSetAvailable, IsDeploymentReplicasSynchronised, mbind, M_bind.
  - pose proof (fetch_reaches (T:=DaemonSet) ns (Component_ComponentName c) w) as Hw.
    by destruct (fetch _ _ w) as [w' [d|e|]].
  - pose proof (fetch_reaches (T:=Deployment) ns (Component_ComponentName c) w) as Hw.
    destruct (fetch _ _ w) as [w' [d|e|]]; [|done..]. by destruct (Deployment_Replicas d).
Qed.

(** What a step of the waiting leaves alone. *)
Record waiting (s s' : op W) : Prop := mkWaiting {
  waiting_reaches : reaches (op_world s) (op_world s');
  waiting_objects : objects (op_world s') = objects (op_world s);
  waiting_now : (time_Now (op_world s) ≤ time_Now (op_world s'))%Z;
  waiting_namespace : GetNamespace (op_cr s') = GetNamespace (op_cr s);
}.

#[export] Instance waiting_preorder : PreOrder waiting.
Proof. split; [done|]. intros s1 s2 s3 [????] [????]. split; [by etrans|congruence|lia|congruence]. Qed.

Lemma waiting_quiet s w :
  quiet_world (op_world s) w → reaches (op_world s) w → waiting s (s <| op_world := w |>).
Proof. by intros [? ?]. Qed.

Lemma waiting_cr_frame s s' :
  cr_frame s s' → reaches (op_world s) (op_world s') → waiting s s'.
Proof. by intros []. Qed.

(** One look at a component. *)
Lemma component_check_wp ns c s :
  wp (lift (component_available ns c))
    (λ b s', waiting s s' ∧ op_pending s' = op_pending s ∧ b = component_up (objects (op_world s)) ns c)
    (λ _ _, True) s.
Proof.
  pose proof (component_available_wp ns c (op_world s)) as Hw.
  pose proof (component_available_reaches ns c (op_world s)) as Hr. unfold wp, lift in *.
  destruct (component_available ns c (op_world s)) as [w' [b|e|]]; cbn in *; [|done..].
  destruct Hw as [Hq ->]. split_and!; [by apply waiting_quiet|done|done].
Qed.

(** The pass over the first [n] components removes exactly those that are up. *)
Lemma check_components_wp ns n s :
  n ≤ length (op_pending s) →
  wp (check_components ns n)
    (λ _ s', waiting s s' ∧
      op_pending s' ≡ₚ
        filter (λ c, component_up (objects (op_world s)) ns c = false) (take n (op_pending s))
        ++ drop n (op_pending s))
    (λ _ _, True) s.
Proof.
  revert s. induction n as [|i IH]; intros s Hn; cbn [check_components].
  { rewrite wp_ret. done. }
  destruct (lookup_lt_is_Some_2 (op_pending s) i ltac:(lia)) as [c Hc].
  rewrite wp_bind, wp_gets, wp_bind, Hc, wp_deref, wp_bind.
  eapply wp_mono; [apply component_check_wp| |done].
  intros b s1 (Hw1 & Hp1 & ->).
  rewrite (take_S_r _ _ c), filter_app by done.
  destruct (component_up _ ns c) eqn:Hup; rewrite wp_bind.
  - rewrite wp_bind. eapply wp_mono; [apply wp_steps, RemoveStatus_wp; exact (steps_RemoveStatus _ patch_reaches _)| |done].
    intros _ s2 [Hr [Hf _]]. rewrite wp_modify. set (s3 := s2 <| op_pending ::= swap_remove i |>).
    assert (Hp3 : op_pending s3 = swap_remove i (op_pending s)).
    { unfold s3. cbn. by rewrite (frame_pending _ _ Hf), Hp1. }
    assert (Hw3 : waiting s s3).
    { etrans; [exact Hw1|]. by destruct (waiting_cr_frame _ _ Hf Hr). }
    eapply wp_mono; [apply (IH s3)| |done].
    { rewrite Hp3, swap_remove_length. lia. }
    intros _ s4 [Hw4 Hp4]. split; [by etrans|].
    rewrite Hp4, Hp3, (waiting_objects _ _ Hw3).
    rewrite (filter_singleton_False _ c []) by congruence. rewrite app_nil_r.
    rewrite swap_remove_take by eauto using lookup_lt_Some.
    apply Permutation_app_head. by apply (swap_remove_drop_perm i _ c).
  - rewrite wp_ret. eapply wp_mono; [apply (IH s1); rewrite Hp1; lia| |done].
    intros _ s4 [Hw4 Hp4]. split; [by etrans|].
    rewrite Hp4, Hp1, (waiting_objects _ _ Hw1).
    rewrite (filter_singleton_True _ c []) by done.
    rewrite <- app_assoc. apply Permutation_app_head. by rewrite (drop_S _ c i).
Qed.

(** ** The outcome of the wait *)

(** A component was up in a world that the wait went through between [s] and [s']. *)
Definition seen_up (ns : string) (s s' : op W) (c : Component) : Prop :=
  ∃ w, reaches (op_world s) w ∧ reaches w (op_world s') ∧
       (time_Now (op_world s) ≤ time_Now w ≤ time_Now (op_world s'))%Z ∧
       component_up (objects w) ns c = true.

Record waited (ns : string) (s s' : op W) : Prop := mkWaited {
  waited_reaches : reaches (op_world s) (op_world s');
  waited_now : (time_Now (op_world s) ≤ time_Now (op_world s'))%Z;
  waited_namespace : GetNamespace (op_cr s') = GetNamespace (op_cr s);
  waited_subset : op_pending s' ⊆ op_pending s;
  waited_seen : ∀ c, c ∈ op_pending s → c ∈ op_pending s' ∨ seen_up ns s s' c;
}.

#[export] Instance waited_preorder ns : PreOrder (waited ns).
Proof.
  split; [by intros s; split; auto|].
  intros s1 s2 s3 [Hr1 Hn1 Hns1 Hs1 Hu1] [Hr2 Hn2 Hns2 Hs2 Hu2].
  split; [by etrans|lia|congruence|set_solver|].
  intros c [Hc2|(w & Hw1 & Hw2 & Hw & Hup)]%Hu1.
  - destruct (Hu2 c Hc2) as [?|(w & Hw1 & Hw2 & Hw & Hup)]; [by left|]. right. exists w.
    split_and!; [by etrans|done|lia|lia|done].
  - right. exists w. split_and!; [done|by etrans|lia|lia|done].
Qed.

Lemma waited_cr_frame ns s s' :
  cr_frame s s' → reaches (op_world s) (op_world s') → waited ns s s'.
Proof. intros Hf Hr. destruct Hf as [_ ? Hp ? _ _]. split; rewrite ?Hp; auto. Qed.

Lemma waited_UpdateStatus ns reason t st msg s :
  wp (UpdateStatus reason t st msg) (λ _ s', waited ns s s') (λ _ _, False) s.
Proof.
  eapply wp_mono; [apply wp_steps, UpdateStatus_wp; exact (steps_UpdateStatus _ patch_reaches _ _ _ _)| |by intros e s' [_ []]].
  intros _ s' [Hr [Hf _]]. by apply waited_cr_frame.
Qed.

Lemma waited_sleep ns d s :
  (0 ≤ d)%Z → waited ns s (s <| op_world ::= time_Sleep d |>) ∧
  (time_Now (op_world s) + d ≤ time_Now (op_world (s <| op_world ::= time_Sleep d |>)))%Z.
Proof.
  intros Hd. pose proof (time_Sleep_spec d (op_world s) Hd). split; [|done].
  split; cbn; auto; [|lia]. apply rtc_once. constructor.
Qed.

Lemma check_all_wp ns s :
  wp (check_components ns (length (op_pending s)))
    (λ _ s', waited ns s s') (λ _ _, True) s.
Proof.
  eapply wp_mono; [by apply check_components_wp| |done].
  intros _ s' [[Hr Ho Hn Hns] Hp]. rewrite take_ge, drop_all, app_nil_r in Hp by done.
  split; [done|done|done| |].
  - intros c. rewrite Hp, list_elem_of_filter. tauto.
  - intros c Hc. destruct (component_up (objects (op_world s)) ns c) eqn:Hup.
    + right. exists (op_world s). split_and!; [done|done|lia|lia|done].
    + left. rewrite Hp, list_elem_of_filter. done.
Qed.

(** A [Failed] condition of the reason is reported. *)
Definition has_failed (s : op W) (reason : string) : Prop :=
  ∃ c, c ∈ conditions s ∧ LoggingServiceCondition_Reason c = reason ∧
       LoggingServiceCondition_Type c = Failed.

Lemma fail_component_wp c s :
  wp (fail_component c)
    (λ _ s', cr_frame s s' ∧
      (∀ r, has_failed s r → r ≠ "" → has_failed s' r) ∧
      (Component_StatusName c ≠ "" → has_failed s' (Component_StatusName c))) (λ _ _, False) s.
Proof.
  eapply wp_mono; [apply UpdateStatus_wp| |done]. intros _ s' [Hf Hc].
  set (new := mkLoggingServiceCondition Failed _ _ _ _) in Hc.
  assert (Hself : Component_StatusName c ≠ "" → has_failed s' (Component_StatusName c)).
  { intros Hne. destruct (updated_conditions_self (conditions s) new Hne) as (c' & Hin & Heq & _).
    exists c'. rewrite Hc. split_and!; [done| |].
    - exact (f_equal LoggingServiceCondition_Reason Heq).
    - exact (f_equal LoggingServiceCondition_Type Heq). }
  split_and!; [done| |done].
  intros r (c' & Hin & Hr & Ht) Hne.
  destruct (decide (r = Component_StatusName c)) as [->|Hother]; [auto|].
  exists c'. rewrite Hc. split_and!; [|done..].
  apply updated_conditions_other; [cbn; congruence|done].
Qed.

Lemma fail_components_wp l s :
  wp (for_each l fail_component)
    (λ _ s', (cr_frame s s' ∧ reaches (op_world s) (op_world s')) ∧
      (∀ r, has_failed s r → r ≠ "" → has_failed s' r) ∧
      ∀ c, c ∈ l → Component_StatusName c ≠ "" → has_failed s' (Component_StatusName c))
    (λ _ _, False) s.
Proof.
  revert s. induction l as [|c l IH]; intros s; cbn [for_each].
  { rewrite wp_ret. split_and!; [done|done|done|]. by intros c ?%elem_of_nil. }
  rewrite wp_bind. eapply wp_mono; [apply wp_steps, fail_component_wp; exact (steps_UpdateStatus _ patch_reaches _ _ _ _)| |by intros e s' [_ []]].
  intros _ s1 [Hr1 (Hf1 & Hk1 & Hc1)]. eapply wp_mono; [apply IH| |done].
  intros _ s2 ([Hf2 Hr2] & Hk2 & Hc2). split_and!; [by etrans|by etrans|auto|].
  intros c' [->|Hin]%elem_of_cons Hne; auto.
Qed.

(** What the loop returns: success with an empty list, or failure when the time is
    over, with every component that is left reported as failed. *)
Definition wait_outcome (ns : string) (start : Z) (ok : bool) (s s' : op W) : Prop :=
  waited ns s s' ∧
  if ok then op_pending s' = []
  else op_pending s' ≠ [] ∧ (ComponentPendingTimeout ≤ time_Now (op_world s') - start)%Z ∧
       ∀ c, c ∈ op_pending s' → Component_StatusName c ≠ "" → has_failed s' (Component_StatusName c).

Lemma pending_loop_wp fuel ns start s :
  (ComponentPendingTimeout ≤ time_Now (op_world s) - start + Interval * Z.of_nat fuel)%Z →
  op_pending s ≠ [] →
  wp (pending_loop (S fuel) ns start)
    (λ r s', ∃ ok, r = Some ok ∧ wait_outcome ns start ok s s') (λ _ _, True) s.
Proof.
  revert s. induction fuel as [|fuel IH]; intros s Htime Hne; cbn [pending_loop];
    rewrite wp_bind; unfold time_now at 1; rewrite wp_gets;
    (case_bool_decide as Hover; [clear Htime|]); try lia.
  1,2: rewrite wp_bind, wp_gets, wp_bind;
    (eapply wp_mono; [apply fail_components_wp| |done]);
    intros _ s' ([Hf Hr] & _ & Hfailed); rewrite wp_ret; exists false; split; [done|];
    pose proof (frame_pending _ _ Hf) as Hp; pose proof (frame_now _ _ Hf) as Hn;
    split; [by apply waited_cr_frame|]; rewrite Hp; split_and!; [done|lia|done].
  rewrite wp_bind, wp_gets, wp_bind. eapply wp_mono; [apply check_all_wp| |done].
  intros [] s1 Hw1. rewrite wp_bind, wp_gets. case_bool_decide as Hlen.
  - rewrite wp_ret. exists true. split; [done|]. split; [done|]. by apply nil_length_inv.
  - rewrite wp_bind. unfold sleep. rewrite wp_modify.
    destruct (waited_sleep ns Interval s1 ltac:(done)) as [Hws Hnow].
    set (s2 := s1 <| op_world ::= _ |>) in *. pose proof (waited_now _ _ _ Hw1).
    eapply wp_mono; [apply (IH s2)| |done].
    + lia.
    + intros Hnil. apply Hlen. change (op_pending s1) with (op_pending s2). by rewrite Hnil.
    + intros r s3 (ok & -> & Hw3 & Hok). exists ok. split; [done|]. split; [|done].
      etrans; [exact Hw1|]. by etrans.
Qed.
Lemma pending_wait_wp s :
  wp pending_wait
    (λ ok s', wait_outcome (GetNamespace (op_cr s)) (time_Now (op_world s) + InitialDelay) ok s s')
    (λ _ _, True) s.
Proof.
  unfold pending_wait. rewrite wp_bind, wp_gets. case_bool_decide as Hlen.
  2:{ rewrite wp_ret. split; [done|]. apply nil_length_inv. lia. }
  destruct (waited_sleep (GetNamespace (op_cr s)) InitialDelay s ltac:(done)) as [Hws Hnow].
  rewrite wp_bind. unfold sleep. rewrite wp_modify. set (s2 := s <| op_world ::= _ |>) in *.
  unfold the_cr, time_now. rewrite wp_bind, wp_gets, wp_bind, wp_gets, wp_bind.
  change (op_cr s2) with (op_cr s).
  change pending_fuel with (S 30). eapply wp_mono; [apply pending_loop_wp| |done].
  - unfold ComponentPendingTimeout, Interval, Minute, Second. lia.
  - intros Hnil. by rewrite (Hnil : op_pending s = []) in Hlen.
  - intros r s3 (ok & -> & Hw3 & Hok). rewrite wp_deref.
    split; [by etrans|]. destruct ok; [done|].
    destruct Hok as (Hne & Ht & Hfail). split_and!; [done|lia|done].
Qed.

Lemma ComponentsPending_Run_wp s :
  wp ComponentsPending_Run
    (λ ok s',
      let ns := GetNamespace (op_cr s) in
      waited ns s s' ∧
      if ok : bool then op_pending s' = [] ∧ ∀ c, c ∈ op_pending s → seen_up ns s s' c
      else op_pending s' ≠ [] ∧
        (time_Now (op_world s) + InitialDelay + ComponentPendingTimeout ≤ time_Now (op_world s'))%Z ∧
        ∀ c, c ∈ op_pending s' →
          Component_StatusName c ∉ [""; ComponentPendingStatus] →
          has_failed s' (Component_StatusName c))
    (λ _ _, True) s.
Proof.
  unfold ComponentsPending_Run. rewrite wp_bind, IsStatusFailed_wp, wp_bind.
  set (failed := match GetCondition _ _ with Some _ => _ | None => _ end).
  assert (Hupd : wp (when (negb failed)
    (UpdateStatus ComponentPendingStatus InProgress false "Start reconcile of ComponentsPending"))
    (λ _ s', waited (GetNamespace (op_cr s)) s s') (λ _ _, False) s).
  { rewrite wp_when. destruct (negb failed); [|done]. apply waited_UpdateStatus. }
  eapply wp_mono; [exact Hupd| |done]. intros [] s1 Hw1. rewrite wp_bind.
  eapply wp_mono; [apply (pending_wait_wp s1)| |done]. rewrite (waited_namespace _ _ _ Hw1).
  intros ok s3 [Hw3 Hok]. pose proof (waited_now _ _ _ Hw1).
  rewrite wp_bind. eapply wp_mono; [apply wp_steps, RemoveStatus_wp; exact (steps_RemoveStatus _ patch_reaches _)| |by intros e s' [_ []]].
  intros removed s4 [Hr4 [Hf4 Hc4]]. rewrite wp_ret. cbn zeta.
  assert (Hw4 : waited (GetNamespace (op_cr s)) s s4)
    by (etrans; [exact Hw1|]; etrans; [exact Hw3|by apply waited_cr_frame]).
  split; [done|]. rewrite (frame_pending _ _ Hf4). destruct ok.
  - split; [done|]. intros c [Hc|?]%(waited_seen _ _ _ Hw4); [|done].
    rewrite (frame_pending _ _ Hf4), Hok in Hc. by apply elem_of_nil in Hc.
  - destruct Hok as (Hne & Ht & Hfail). pose proof (frame_now _ _ Hf4).
    split_and!; [done|lia|]. intros c Hc Hns. rewrite !not_elem_of_cons in Hns.
    destruct Hns as (Hns1 & Hns2 & _). destruct (Hfail c Hc Hns1) as (x & Hx & Hr & Htype).
    exists x. split_and!; [|done..].
    destruct (GetCondition (conditions s3) ComponentPendingStatus) as [[i y]|] eqn:Hg;
      destruct Hc4 as [_ ->]; [|done].
    apply GetCondition_Some in Hg as (_ & Hi & Hy & _).
    rewrite (swap_remove_perm i _ y Hi) in Hx. apply elem_of_cons in Hx as [->|?]; [|done].
    congruence.
Qed.
End lemmas.

(** ** Properties *)

(** C15: the wait for the components ends: whatever the cluster does, the loop runs
    at most [pending_fuel] times, no index is out of range, and the result is
    meaningful.  [true] means that the list is empty and every component on it was
    up in a cluster that the wait's own reads, status writes and sleeps led to; [false] means that the five minutes were
    over and that each component still on the list has a [Failed] condition.  The
    list only shrinks, by components that were seen up. *)
Theorem ComponentsPending_Run_outcome {W} `{KubeClientLaws W} (s : op W) :
  wp ComponentsPending_Run
    (λ ok s',
      let ns := GetNamespace (op_cr s) in
      waited ns s s' ∧
      if ok : bool then op_pending s' = [] ∧ ∀ c, c ∈ op_pending s → seen_up ns s s' c
      else op_pending s' ≠ [] ∧
        (time_Now (op_world s) + InitialDelay + ComponentPendingTimeout ≤ time_Now (op_world s'))%Z ∧
        ∀ c, c ∈ op_pending s' →
          Component_StatusName c ∉ [""; ComponentPendingStatus] →
          has_failed s' (Component_StatusName c))
    (λ _ _, True) s.
Proof. apply ComponentsPending_Run_wp. Qed.

(** ** Witness: one component that comes up, and one that never does *)

Definition example_daemonset (name : string) (available : Z) : Object :=
  ODaemonSet ((zero : DaemonSet) <| DaemonSet_ObjectMeta := named name "ns" |>
    <| DaemonSet_DesiredNumberScheduled := 2%Z |> <| DaemonSet_UpdatedNumberScheduled := 2%Z |>
    <| DaemonSet_NumberAvailable := available |>).

Definition example_pending (arrival : Z) : op Mem :=
  mkOp (mem_store (example_daemonset FluentdComponentName 0)
          (zero <| Mem_arrivals := [(arrival, example_daemonset FluentdComponentName 2)] |>))
    (zero <| LoggingService_ObjectMeta := named "cr" "ns" |>)
    [mkComponent FluentdComponentName FluentdStatus].

Lemma ComponentsPending_Run_outcome_witness :
  op_pending (ComponentsPending_Run (example_pending (30 * Second))).1 = [] ∧
  has_failed (ComponentsPending_Run (example_pending (60 * Minute))).1 FluentdStatus.
Proof.
  split.
  - run_theorem (ComponentsPending_Run_outcome (example_pending (30 * Second))) true Hw.
    exact (proj1 (proj2 Hw)).
  - run_theorem (ComponentsPending_Run_outcome (example_pending (60 * Minute))) false Hw.
    destruct Hw as (_ & _ & _ & Hf).
    apply (Hf (mkComponent FluentdComponentName FluentdStatus)).
    + assert (Heq : op_pending (ComponentsPending_Run (example_pending (60 * Minute))).1
                    = [mkComponent FluentdComponentName FluentdStatus]) by (vm_compute; reflexivity).
      rewrite Heq. left.
    + rewrite !not_elem_of_cons. split_and!; [done|done|apply not_elem_of_nil].
Defined.
