(* ===== verification/Defaults.v ===== *)
(** * Default values: internal/defaults *)

From S2P Require Import Prelude GoStrings KubeTypes.

(** [resource.MustParse] of the quantities written in the code. *)
Definition MustParse (s : string) : Quantity := mkQuantity s.

(** The resource list of a CPU and a memory quantity. *)
Definition resource_list (cpu memory : string) : gmap string Quantity :=
  {[ "cpu" := MustParse cpu; "memory" := MustParse memory ]}.

Definition haResources (requestCPU requestMemory limitCPU limitMemory : string) :
    ResourceRequirements :=
  mkResourceRequirements (resource_list requestCPU requestMemory) (resource_list limitCPU limitMemory).

Record FluentbitAggregatorDefaults : Type := mkFluentbitAggregatorDefaults {
  AggregatorDefaults_ForwarderResources : ResourceRequirements;
  AggregatorDefaults_AggregatorResources : ResourceRequirements;
  AggregatorDefaults_ConfigmapReloadResources : ResourceRequirements;
  AggregatorDefaults_AggregatorReplicas : Z;
  AggregatorDefaults_AggregatorVolumeSize : Quantity;
}.

Definition defaultAggregator : FluentbitAggregatorDefaults := {|
  AggregatorDefaults_ForwarderResources := haResources "50m" "128Mi" "200m" "512Mi";
  AggregatorDefaults_AggregatorResources := haResources "500m" "512Mi" "2" "2Gi";
  AggregatorDefaults_ConfigmapReloadResources := haResources "10m" "10Mi" "50m" "50Mi";
  AggregatorDefaults_AggregatorReplicas := 2;
  AggregatorDefaults_AggregatorVolumeSize := MustParse "2Gi";
|}.

Record EventsReaderDefaults : Type := mkEventsReaderDefaults {
  EventsReaderDefaults_Command : list string;
  EventsReaderDefaults_Resources : ResourceRequirements;
  EventsReaderDefaults_Port : Z;
  EventsReaderDefaults_RunAsID : Z;
  EventsReaderDefaults_TmpVolumeSize : Quantity;
  EventsReaderDefaults_LivenessProbe : Probe;
  EventsReaderDefaults_ReadinessProbe : Probe;
  EventsReaderDefaults_RollingMaxSurge : IntOrString;
  EventsReaderDefaults_RollingMaxUnavailable : IntOrString;
}.

Definition defaultEventsReader : EventsReaderDefaults :=
  let port := 8080%Z in
  let healthProbe := {|
    Probe_Path := "/health"; Probe_Port := FromInt32 port; Probe_Scheme := "HTTP";
    Probe_InitialDelaySeconds := 30; Probe_PeriodSeconds := 10; Probe_TimeoutSeconds := 2;
    Probe_SuccessThreshold := 1; Probe_FailureThreshold := 1;
  |} in {|
  EventsReaderDefaults_Command := ["/events-reader/eventsreader"];
  EventsReaderDefaults_Resources :=
    mkResourceRequirements (resource_list "100m" "128Mi") (resource_list "100m" "128Mi");
  EventsReaderDefaults_Port := port;
  EventsReaderDefaults_RunAsID := 1000;
  EventsReaderDefaults_TmpVolumeSize := MustParse "100Mi";
  EventsReaderDefaults_LivenessProbe := healthProbe;
  EventsReaderDefaults_ReadinessProbe := healthProbe;
  EventsReaderDefaults_RollingMaxSurge := FromInt32 25;
  EventsReaderDefaults_RollingMaxUnavailable := FromInt32 25;
|}.

Record FluentbitDefaults : Type := mkFluentbitDefaults {
  FluentbitDefaults_Resources : ResourceRequirements;
  FluentbitDefaults_ConfigmapReloadResources : ResourceRequirements;
  FluentbitDefaults_Tolerations : list Toleration;
  FluentbitDefaults_ConfigmapReloadArgs : list string;
  FluentbitDefaults_HTTPPort : Z;
  FluentbitDefaults_LogToMetricsPort : Z;
  FluentbitDefaults_ConfigmapReloadPort : Z;
  FluentbitDefaults_ReloaderID : Z;
  FluentbitDefaults_TmpVolumeSize : Quantity;
  FluentbitDefaults_MinReadySeconds : Z;
  FluentbitDefaults_TerminationGracePeriod : Z;
  FluentbitDefaults_MaxUnavailable : IntOrString;
  FluentbitDefaults_LivenessProbe : Probe;
  FluentbitDefaults_ReadinessProbe : Probe;
}.

Definition defaultFluentbit : FluentbitDefaults :=
  let httpPort := 2020%Z in
  let probe path := {|
    Probe_Path := path; Probe_Port := FromInt32 httpPort; Probe_Scheme := "HTTP";
    Probe_InitialDelaySeconds := 5; Probe_TimeoutSeconds := 10; Probe_PeriodSeconds := 10;
    Probe_SuccessThreshold := 1; Probe_FailureThreshold := 5;
  |} in {|
  FluentbitDefaults_Resources :=
    mkResourceRequirements (resource_list "50m" "128Mi") (resource_list "200m" "512Mi");
  FluentbitDefaults_ConfigmapReloadResources :=
    mkResourceRequirements (resource_list "10m" "10Mi") (resource_list "50m" "50Mi");
  FluentbitDefaults_Tolerations :=
    [ mkToleration "node-role.kubernetes.io/master" "Exists" "" "NoSchedule";
      mkToleration "" "Exists" "" "NoExecute";
      mkToleration "" "Exists" "" "NoSchedule" ];
  FluentbitDefaults_ConfigmapReloadArgs :=
    [ "--volume-dir=/fluent-bit/etc"; "--webhook-url=http://localhost:2020/api/v2/reload";
      "--webhook-retries=5" ];
  FluentbitDefaults_HTTPPort := httpPort;
  FluentbitDefaults_LogToMetricsPort := 2021;
  FluentbitDefaults_ConfigmapReloadPort := 9533;
  FluentbitDefaults_ReloaderID := 1001;
  FluentbitDefaults_TmpVolumeSize := MustParse "100Mi";
  FluentbitDefaults_MinReadySeconds := 60;
  FluentbitDefaults_TerminationGracePeriod := 30;
  FluentbitDefaults_MaxUnavailable := FromInt32 1;
  FluentbitDefaults_LivenessProbe := probe "/";
  FluentbitDefaults_ReadinessProbe := probe "/api/v1/health";
|}.

Record FluentdDefaults : Type := mkFluentdDefaults {
  FluentdDefaults_Resources : ResourceRequirements;
  FluentdDefaults_ConfigmapReloadResources : ResourceRequirements;
  FluentdDefaults_Tolerations : list Toleration;
  FluentdDefaults_HTTPPort : Z;
  FluentdDefaults_MetricsPort : Z;
  FluentdDefaults_ConfigmapReloadPort : Z;
  FluentdDefaults_LivenessProbe : Probe;
  FluentdDefaults_ReadinessProbe : Probe;
  FluentdDefaults_GraylogProtocol : string;
  FluentdDefaults_QueueLimitLength : Z;
  FluentdDefaults_TmpVolumeSize : Quantity;
}.

Definition defaultFluentd : FluentdDefaults :=
  let httpPort := 24220%Z in
  let probe initialDelay failureThreshold := {|
    Probe_Path := "/api/plugins.json"; Probe_Port := FromInt32 httpPort; Probe_Scheme := "HTTP";
    Probe_InitialDelaySeconds := initialDelay; Probe_TimeoutSeconds := 10;
    Probe_PeriodSeconds := 10; Probe_SuccessThreshold := 1;
    Probe_FailureThreshold := failureThreshold;
  |} in {|
  FluentdDefaults_Resources :=
    mkResourceRequirements (resource_list "100m" "128Mi") (resource_list "500m" "512Mi");
  FluentdDefaults_ConfigmapReloadResources :=
    mkResourceRequirements (resource_list "10m" "10Mi") (resource_list "50m" "50Mi");
  FluentdDefaults_Tolerations :=
    [ mkToleration "node-role.kubernetes.io/master" "Exists" "" "";
      mkToleration "" "Exists" "" "NoExecute";
      mkToleration "" "Exists" "" "NoSchedule" ];
  FluentdDefaults_HTTPPort := httpPort;
  FluentdDefaults_MetricsPort := 24232;
  FluentdDefaults_ConfigmapReloadPort := 9533;
  FluentdDefaults_LivenessProbe := probe 90%Z 3%Z;
  FluentdDefaults_ReadinessProbe := probe 10%Z 5%Z;
  FluentdDefaults_GraylogProtocol := "tcp";
  FluentdDefaults_QueueLimitLength := 5000;
  FluentdDefaults_TmpVolumeSize := MustParse "100Mi";
|}.

Record GraylogDefaults : Type := mkGraylogDefaults {
  GraylogDefaults_Replicas : Z;
  GraylogDefaults_GraylogResources : ResourceRequirements;
  GraylogDefaults_MongoResources : ResourceRequirements;
  GraylogDefaults_InitResources : ResourceRequirements;
  GraylogDefaults_AuthProxyResources : ResourceRequirements;
  GraylogDefaults_JavaOpts : string;
  GraylogDefaults_EmptyDirSize : Quantity;
}.

Definition graylogResourceRequirements (requestCPU requestMemory limitCPU limitMemory : string) :
    ResourceRequirements :=
  mkResourceRequirements (resource_list requestCPU requestMemory) (resource_list limitCPU limitMemory).

Definition defaultGraylog : GraylogDefaults := {|
  GraylogDefaults_Replicas := 1;
  GraylogDefaults_GraylogResources := graylogResourceRequirements "500m" "1536Mi" "1000m" "2048Mi";
  GraylogDefaults_MongoResources := graylogResourceRequirements "500m" "256Mi" "500m" "256Mi";
  GraylogDefaults_InitResources := graylogResourceRequirements "50m" "128Mi" "100m" "256Mi";
  GraylogDefaults_AuthProxyResources := graylogResourceRequirements "100m" "128Mi" "200m" "512Mi";
  GraylogDefaults_JavaOpts := "-Xms1024m -Xmx1024m -Djna.tmpdir=/usr/share/graylog/data/plugin";
  GraylogDefaults_EmptyDirSize := MustParse "100Mi";
|}.

Record Defaults : Type := mkDefaults {
  Defaults_EventsReader : EventsReaderDefaults;
  Defaults_Fluentbit : FluentbitDefaults;
  Defaults_Fluentd : FluentdDefaults;
  Defaults_Graylog : GraylogDefaults;
  Defaults_Aggregator : FluentbitAggregatorDefaults;
}.

(** [defaults.Get()] *)
Definition defaults_Get : Defaults := {|
  Defaults_EventsReader := defaultEventsReader;
  Defaults_Fluentbit := defaultFluentbit;
  Defaults_Fluentd := defaultFluentd;
  Defaults_Graylog := defaultGraylog;
  Defaults_Aggregator := defaultAggregator;
|}.
