(* ===== verification/Builder.v ===== *)
(** * Constructors of Kubernetes objects: internal/builder/objects.go and coalesce.go *)

From S2P Require Import Prelude GoStrings KubeTypes Api Labels.

(** ** coalesce.go *)

Definition First {T} `{EqDecision T} `{GoZero T} (a b : T) : T :=
  if decide (a ≠ zero) then a else b.

Definition FirstNonNil {T} (a b : option T) : option T :=
  match a with Some _ => a | None => b end.

Definition FirstMap {V} (a b : gmap string V) : gmap string V :=
  if bool_decide (0 < size a)%nat then a else b.

Definition Resources (fromCR : option ResourceRequirements) (fallback : ResourceRequirements) :
    ResourceRequirements :=
  match fromCR with Some r => r | None => fallback end.

(** ** objects.go *)

Record ContainerOpts : Type := mkContainerOpts {
  ContainerOpts_Image : string;
  ContainerOpts_ImagePullPolicy : string;
  ContainerOpts_Command : list string;
  ContainerOpts_Args : list string;
  ContainerOpts_Env : list EnvVar;
  ContainerOpts_EnvFrom : list Opaque;
  ContainerOpts_Ports : list ContainerPort;
  ContainerOpts_Resources : ResourceRequirements;
  ContainerOpts_VolumeMounts : list VolumeMount;
  ContainerOpts_LivenessProbe : option Probe;
  ContainerOpts_ReadinessProbe : option Probe;
  ContainerOpts_StartupProbe : option Probe;
  ContainerOpts_SecurityContext : option SecurityContext;
  ContainerOpts_Lifecycle : option Opaque;
}.

#[export] Instance zero_ContainerOpts : GoZero ContainerOpts := mkContainerOpts zero zero zero
  zero zero zero zero zero zero zero zero zero zero zero.
#[export] Instance eta_ContainerOpts : Eta ContainerOpts := λ x, mkContainerOpts
  (ContainerOpts_Image x) (ContainerOpts_ImagePullPolicy x) (ContainerOpts_Command x)
  (ContainerOpts_Args x) (ContainerOpts_Env x) (ContainerOpts_EnvFrom x) (ContainerOpts_Ports x)
  (ContainerOpts_Resources x) (ContainerOpts_VolumeMounts x) (ContainerOpts_LivenessProbe x)
  (ContainerOpts_ReadinessProbe x) (ContainerOpts_StartupProbe x)
  (ContainerOpts_SecurityContext x) (ContainerOpts_Lifecycle x).

Definition NewContainer (name : string) (opts : ContainerOpts) : Container :=
  zero <| Container_Name := name |>
       <| Container_Image := ContainerOpts_Image opts |>
       <| Container_ImagePullPolicy := ContainerOpts_ImagePullPolicy opts |>
       <| Container_Command := ContainerOpts_Command opts |>
       <| Container_Args := ContainerOpts_Args opts |>
       <| Container_Env := ContainerOpts_Env opts |>
       <| Container_EnvFrom := ContainerOpts_EnvFrom opts |>
       <| Container_Ports := ContainerOpts_Ports opts |>
       <| Container_Resources := ContainerOpts_Resources opts |>
       <| Container_VolumeMounts := ContainerOpts_VolumeMounts opts |>
       <| Container_LivenessProbe := ContainerOpts_LivenessProbe opts |>
       <| Container_ReadinessProbe := ContainerOpts_ReadinessProbe opts |>
       <| Container_StartupProbe := ContainerOpts_StartupProbe opts |>
       <| Container_SecurityContext := ContainerOpts_SecurityContext opts |>
       <| Container_Lifecycle := ContainerOpts_Lifecycle opts |>.

Definition objectMeta (name namespace : string) (labels annotations : gomap) : ObjectMeta :=
  zero <| ObjectMeta_Name := name |> <| ObjectMeta_Namespace := namespace |>
       <| ObjectMeta_Labels := labels |> <| ObjectMeta_Annotations := annotations |>.

Definition podTemplate (labels annotations : gomap) (spec : PodSpec) : PodTemplateSpec :=
  mkPodTemplateSpec
    (zero <| ObjectMeta_Labels := labels |> <| ObjectMeta_Annotations := annotations |>) spec.

Record DaemonSetOpts : Type := mkDaemonSetOpts {
  DaemonSetOpts_Selector : gomap;
  DaemonSetOpts_UpdateStrategy : UpdateStrategy;
  DaemonSetOpts_MinReadySeconds : Z;
  DaemonSetOpts_PodSpec : PodSpec;
  DaemonSetOpts_PodLabels : gomap;
  DaemonSetOpts_PodAnnotations : gomap;
  DaemonSetOpts_Labels : gomap;
  DaemonSetOpts_Annotations : gomap;
}.

#[export] Instance zero_DaemonSetOpts : GoZero DaemonSetOpts := mkDaemonSetOpts zero zero zero
  zero zero zero zero zero.
#[export] Instance eta_DaemonSetOpts : Eta DaemonSetOpts := λ x, mkDaemonSetOpts
  (DaemonSetOpts_Selector x) (DaemonSetOpts_UpdateStrategy x) (DaemonSetOpts_MinReadySeconds x)
  (DaemonSetOpts_PodSpec x) (DaemonSetOpts_PodLabels x) (DaemonSetOpts_PodAnnotations x)
  (DaemonSetOpts_Labels x) (DaemonSetOpts_Annotations x).

Definition NewDaemonSet (name namespace : string) (opts : DaemonSetOpts) : DaemonSet :=
  zero <| DaemonSet_ObjectMeta :=
            objectMeta name namespace (DaemonSetOpts_Labels opts) (DaemonSetOpts_Annotations opts) |>
       <| DaemonSet_Selector := DaemonSetOpts_Selector opts |>
       <| DaemonSet_MinReadySeconds := DaemonSetOpts_MinReadySeconds opts |>
       <| DaemonSet_UpdateStrategy := DaemonSetOpts_UpdateStrategy opts |>
       <| DaemonSet_Template :=
            podTemplate (DaemonSetOpts_PodLabels opts) (DaemonSetOpts_PodAnnotations opts)
              (DaemonSetOpts_PodSpec opts) |>.

Record DeploymentOpts : Type := mkDeploymentOpts {
  DeploymentOpts_Replicas : option Z;
  DeploymentOpts_Selector : gomap;
  DeploymentOpts_Strategy : UpdateStrategy;
  DeploymentOpts_PodSpec : PodSpec;
  DeploymentOpts_PodLabels : gomap;
  DeploymentOpts_PodAnnotations : gomap;
  DeploymentOpts_Labels : gomap;
  DeploymentOpts_Annotations : gomap;
}.

#[export] Instance zero_DeploymentOpts : GoZero DeploymentOpts := mkDeploymentOpts zero zero zero
  zero zero zero zero zero.
#[export] Instance eta_DeploymentOpts : Eta DeploymentOpts := λ x, mkDeploymentOpts
  (DeploymentOpts_Replicas x) (DeploymentOpts_Selector x) (DeploymentOpts_Strategy x)
  (DeploymentOpts_PodSpec x) (DeploymentOpts_PodLabels x) (DeploymentOpts_PodAnnotations x)
  (DeploymentOpts_Labels x) (DeploymentOpts_Annotations x).

Definition NewDeployment (name namespace : string) (opts : DeploymentOpts) : Deployment :=
  zero <| Deployment_ObjectMeta :=
            objectMeta name namespace (DeploymentOpts_Labels opts) (DeploymentOpts_Annotations opts) |>
       <| Deployment_Replicas := DeploymentOpts_Replicas opts |>
       <| Deployment_Selector := DeploymentOpts_Selector opts |>
       <| Deployment_Strategy := DeploymentOpts_Strategy opts |>
       <| Deployment_Template :=
            podTemplate (DeploymentOpts_PodLabels opts) (DeploymentOpts_PodAnnotations opts)
              (DeploymentOpts_PodSpec opts) |>.

Record StatefulSetOpts : Type := mkStatefulSetOpts {
  StatefulSetOpts_Replicas : option Z;
  StatefulSetOpts_ServiceName : string;
  StatefulSetOpts_Selector : gomap;
  StatefulSetOpts_PodManagementPolicy : string;
  StatefulSetOpts_UpdateStrategy : UpdateStrategy;
  StatefulSetOpts_PodSpec : PodSpec;
  StatefulSetOpts_PodLabels : gomap;
  StatefulSetOpts_PodAnnotations : gomap;
  StatefulSetOpts_VolumeClaimTemplates : list PersistentVolumeClaim;
  StatefulSetOpts_Labels : gomap;
  StatefulSetOpts_Annotations : gomap;
}.

#[export] Instance zero_StatefulSetOpts : GoZero StatefulSetOpts := mkStatefulSetOpts zero zero
  zero zero zero zero zero zero zero zero zero.
#[export] Instance eta_StatefulSetOpts : Eta StatefulSetOpts := λ x, mkStatefulSetOpts
  (StatefulSetOpts_Replicas x) (StatefulSetOpts_ServiceName x) (StatefulSetOpts_Selector x)
  (StatefulSetOpts_PodManagementPolicy x) (StatefulSetOpts_UpdateStrategy x)
  (StatefulSetOpts_PodSpec x) (StatefulSetOpts_PodLabels x) (StatefulSetOpts_PodAnnotations x)
  (StatefulSetOpts_VolumeClaimTemplates x) (StatefulSetOpts_Labels x)
  (StatefulSetOpts_Annotations x).

Definition NewStatefulSet (name namespace : string) (opts : StatefulSetOpts) : StatefulSet :=
  zero <| StatefulSet_ObjectMeta :=
            objectMeta name namespace (StatefulSetOpts_Labels opts) (StatefulSetOpts_Annotations opts) |>
       <| StatefulSet_Replicas := StatefulSetOpts_Replicas opts |>
       <| StatefulSet_ServiceName := StatefulSetOpts_ServiceName opts |>
       <| StatefulSet_Selector := StatefulSetOpts_Selector opts |>
       <| StatefulSet_PodManagementPolicy := StatefulSetOpts_PodManagementPolicy opts |>
       <| StatefulSet_UpdateStrategy := StatefulSetOpts_UpdateStrategy opts |>
       <| StatefulSet_Template :=
            podTemplate (StatefulSetOpts_PodLabels opts) (StatefulSetOpts_PodAnnotations opts)
              (StatefulSetOpts_PodSpec opts) |>
       <| StatefulSet_VolumeClaimTemplates := StatefulSetOpts_VolumeClaimTemplates opts |>.

Record ServiceOpts : Type := mkServiceOpts {
  ServiceOpts_Type : string;
  ServiceOpts_ClusterIP : string;
  ServiceOpts_Ports : list ServicePort;
  ServiceOpts_Selector : gomap;
  ServiceOpts_IPFamilies : list string;
  ServiceOpts_IPFamilyPolicy : option string;
  ServiceOpts_Labels : gomap;
  ServiceOpts_Annotations : gomap;
}.

#[export] Instance zero_ServiceOpts : GoZero ServiceOpts := mkServiceOpts zero zero zero zero
  zero zero zero zero.
#[export] Instance eta_ServiceOpts : Eta ServiceOpts := λ x, mkServiceOpts (ServiceOpts_Type x)
  (ServiceOpts_ClusterIP x) (ServiceOpts_Ports x) (ServiceOpts_Selector x)
  (ServiceOpts_IPFamilies x) (ServiceOpts_IPFamilyPolicy x) (ServiceOpts_Labels x)
  (ServiceOpts_Annotations x).

Definition NewService (name namespace : string) (opts : ServiceOpts) : Service :=
  zero <| Service_ObjectMeta :=
            objectMeta name namespace (ServiceOpts_Labels opts) (ServiceOpts_Annotations opts) |>
       <| Service_Type := ServiceOpts_Type opts |>
       <| Service_ClusterIP := ServiceOpts_ClusterIP opts |>
       <| Service_Ports := ServiceOpts_Ports opts |>
       <| Service_Selector := ServiceOpts_Selector opts |>
       <| Service_IPFamilies := ServiceOpts_IPFamilies opts |>
       <| Service_IPFamilyPolicy := ServiceOpts_IPFamilyPolicy opts |>.

Definition NewServiceAccount (name namespace : string) : ServiceAccount :=
  zero <| ServiceAccount_ObjectMeta := objectMeta name namespace None None |>.

Definition NodeSelector (key value : string) : gomap :=
  if String.eqb key "" || String.eqb value "" then None else Some {[ key := value ]}.

(** [int32(n)] of an [int]. *)
Definition to_int32 (n : Z) : Z := int32 n.

(** ** Properties shared by the component builders *)

(** The labels of a pod template. *)
Definition template_labels (t : PodTemplateSpec) : gomap :=
  ObjectMeta_Labels (PodTemplateSpec_ObjectMeta t).

Definition set_template_labels (l : gomap) (t : PodTemplateSpec) : PodTemplateSpec :=
  t <| PodTemplateSpec_ObjectMeta ::= SetLabels l |>.

(** Every pair of the selector is among the labels. *)
Definition selects (selector labels : gomap) : Prop := contents selector ⊆ contents labels.

(** The names of the volumes and what the mounts of a container name. *)
Definition volume_names (vs : list Volume) : list string := Volume_Name <$> vs.

Definition mount_names (ms : list VolumeMount) : list string := VolumeMount_Name <$> ms.

Definition mount_paths (ms : list VolumeMount) : list string := VolumeMount_MountPath <$> ms.

(** A pod is well formed when no two volumes have a name in common, each container
    mounts only volumes of the pod (or claims of its workload), and no two mounts of
    a container have a path in common. *)
Record well_formed_pod (claims : list string) (p : PodSpec) : Prop := mkWellFormedPod {
  wf_volume_names : NoDup (volume_names (PodSpec_Volumes p));
  wf_mounts c : c ∈ PodSpec_InitContainers p ++ PodSpec_Containers p →
    mount_names (Container_VolumeMounts c) ⊆ claims ++ volume_names (PodSpec_Volumes p);
  wf_paths c : c ∈ PodSpec_InitContainers p ++ PodSpec_Containers p →
    NoDup (mount_paths (Container_VolumeMounts c));
}.

(** A container that cannot gain privileges: not privileged, no escalation, all
    capabilities dropped and a read-only root. *)
Definition hardened (sc : option SecurityContext) : Prop :=
  match sc with
  | None => False
  | Some sc =>
      SecurityContext_Privileged sc ≠ Some true ∧
      SecurityContext_AllowPrivilegeEscalation sc = Some false ∧
      SecurityContext_ReadOnlyRootFilesystem sc = Some true ∧
      (Capabilities_Drop <$> SecurityContext_Capabilities sc) = Some ["ALL"]
  end.

Lemma NoDup_sublist {A} (xs ys : list A) : sublist xs ys → NoDup ys → NoDup xs.
Proof.
  induction 1 as [|x xs ys Hs IH|x xs ys Hs IH]; [done| |].
  - intros [Hx Hnd]%NoDup_cons. apply NoDup_cons. split; [|auto].
    intros Hin. apply Hx. by eapply sublist_subseteq.
  - intros [_ Hnd]%NoDup_cons. auto.
Qed.

(** Adding what the custom resource declares to a list of fixed names. *)
Lemma NoDup_add {A} (xs reserved added : list A) :
  sublist xs reserved → NoDup reserved → NoDup added → (∀ x, x ∈ added → x ∉ reserved) →
  NoDup (xs ++ added).
Proof.
  intros Hs Hr Ha Hd. apply NoDup_app. split_and!; [by eapply NoDup_sublist| |done].
  intros x Hx Hin. apply (Hd x Hin). by eapply sublist_subseteq.
Qed.

(** Appending an optional piece. *)
Lemma sublist_if {A} (b : bool) (xs ys : list A) : sublist xs ys → sublist (if b then xs else []) ys.
Proof. destruct b; [done|]. intros _. apply sublist_nil_l. Qed.

(** The labels [SetLabelsForWorkload] gives to the pod template. *)
Lemma workload_template_labels {T} `{K8sObjectLaws T} (tmpl : T → gomap) set_tmpl inp (obj : T) :
  (∀ l x, tmpl (set_tmpl l x) = l) →
  (∀ m x, tmpl (set_meta m x) = tmpl x) →
  tmpl (SetLabelsForWorkload tmpl set_tmpl inp obj) = Some (templateLabels inp (tmpl obj)).
Proof.
  intros Hget Hmeta. unfold SetLabelsForWorkload, SetLabelsForResource. by rewrite Hget, Hmeta.
Qed.

(** [util.SetLabelsForWorkload(w, &w.Spec.Template.Labels, in)] on each workload. *)
Definition label_DaemonSet (inp : LabelInput) (ds : DaemonSet) : DaemonSet :=
  SetLabelsForWorkload (λ ds, template_labels (DaemonSet_Template ds))
    (λ l ds, ds <| DaemonSet_Template ::= set_template_labels l |>) inp ds.

Definition label_Deployment (inp : LabelInput) (d : Deployment) : Deployment :=
  SetLabelsForWorkload (λ d, template_labels (Deployment_Template d))
    (λ l d, d <| Deployment_Template ::= set_template_labels l |>) inp d.

Definition label_StatefulSet (inp : LabelInput) (ss : StatefulSet) : StatefulSet :=
  SetLabelsForWorkload (λ ss, template_labels (StatefulSet_Template ss))
    (λ l ss, ss <| StatefulSet_Template ::= set_template_labels l |>) inp ss.

Lemma label_DaemonSet_template inp ds :
  template_labels (DaemonSet_Template (label_DaemonSet inp ds))
  = Some (templateLabels inp (template_labels (DaemonSet_Template ds))).
Proof. by apply (workload_template_labels (λ ds, template_labels (DaemonSet_Template ds))). Qed.

Lemma label_Deployment_template inp d :
  template_labels (Deployment_Template (label_Deployment inp d))
  = Some (templateLabels inp (template_labels (Deployment_Template d))).
Proof. by apply (workload_template_labels (λ d, template_labels (Deployment_Template d))). Qed.

Lemma label_StatefulSet_template inp ss :
  template_labels (StatefulSet_Template (label_StatefulSet inp ss))
  = Some (templateLabels inp (template_labels (StatefulSet_Template ss))).
Proof. by apply (workload_template_labels (λ ss, template_labels (StatefulSet_Template ss))). Qed.

(** A label that is none of the common ones stays as it was. *)
Lemma templateLabels_kept inp existing k v :
  k ∉ ["app.kubernetes.io/instance"; "app.kubernetes.io/version"; "app.kubernetes.io/technology"] →
  ResourceLabels (LabelInput_Name inp) (LabelInput_Component inp) !! k = None →
  contents existing !! k = Some v →
  templateLabels inp existing !! k = Some v.
Proof.
  intros Hk Hr Hv. rewrite lookup_templateLabels. unfold layered. cbn [foldl contents].
  by rewrite instanceVersionTechnologyMap_None, Hr, Hv by done.
Qed.

Lemma selects_empty l : selects (Some ∅) l.
Proof. apply map_empty_subseteq. Qed.

Lemma selects_insert k v m l :
  contents l !! k = Some v → selects (Some m) l → selects (Some (<[k := v]> m)) l.
Proof. intros Hk Hm. by apply insert_subseteq_l. Qed.

(** Prove that a selector of concrete keys selects [templateLabels]. *)
Ltac not_common_label :=
  rewrite !not_elem_of_cons; split_and!; [done..|apply not_elem_of_nil].

Ltac solve_selects :=
  repeat first
    [ apply selects_insert | apply selects_empty
    | match goal with
      | |- contents (Some (templateLabels _ _)) !! _ = Some _ =>
          first [ apply templateLabels_kept; [not_common_label|reflexivity|reflexivity]
                | cbn [contents]; rewrite templateLabels_identity by (rewrite !elem_of_cons; auto);
                  reflexivity ]
      end ].

(** Sublists of lists of names, piece by piece. *)
Create HintDb sublists.
#[export] Hint Resolve sublist_nil_l sublist_app sublist_if sublist_skip : sublists.
#[export] Hint Extern 5 (sublist ?x ?x) => reflexivity : sublists.

(** [corev1.HostPathVolumeSource{Path, Type}], the Secret and the EmptyDir volumes
    that every component builder declares for itself. *)
Definition HostPathUnset : string := "".
Definition HostPathFileOrCreate : string := "FileOrCreate".
Definition HostPathDirectoryOrCreate : string := "DirectoryOrCreate".
Definition PullIfNotPresent : string := "IfNotPresent".
Definition ProtocolTCP : string := "TCP".
