(* ===== verification/FluentbitBuilder.v ===== *)
(** * The FluentBit DaemonSet and Service: internal/builder/fluentbit

    [resource.ParseQuantity] is not part of the repository: it is a parameter. *)

From S2P Require Import Prelude GoStrings KubeTypes Api Labels Operator Component Defaults.
From S2P Require Import Builder.

Definition fluentbit_name : string := "logging-fluentbit".
Definition fluentbit_reloadContainer : string := "configmap-reload".
Definition fluentbit_technology : string := "c".
Definition fluentbit_configVolume : string := "config".
Definition fluentbit_tmpVolume : string := "tmp".
Definition fluentbit_stateVolume : string := "fluentbit-state".
Definition fluentbit_storageVolume : string := "fluentbit-storage".
Definition fluentbit_secretFileMode : Z := 420.

Section fluentbit.
Variable ParseQuantity : string → error + Quantity.

(** ** fluentbit.go *)

Definition fluentbit_provider (openshift : bool) : string :=
  if openshift then "openshift" else "kubernetes".

Definition fluentbit_selector (openshift : bool) : smap :=
  {[ "component" := fluentbit_name; "provider" := fluentbit_provider openshift ]}.

Definition fluentbit_workloadLabels (openshift : bool) : smap :=
  <["kubernetes.io/cluster-service" := "true"]>
  (<["app.kubernetes.io/technology" := "cpp"]> (fluentbit_selector openshift)).

Definition fluentbit_servicePort (portName : string) (port : Z) : ServicePort :=
  mkServicePort portName port ProtocolTCP (FromInt32 port).

Definition fluentbit_reloaderContainer (spec : Fluentbit) (def : FluentbitDefaults) : Container :=
  let '(image, resources) :=
    match Fluentbit_ConfigmapReload spec with
    | None => ("", FluentbitDefaults_ConfigmapReloadResources def)
    | Some reload =>
        (ConfigmapReload_DockerImage reload,
         match ConfigmapReload_Resources reload with
         | Some r => r
         | None => FluentbitDefaults_ConfigmapReloadResources def
         end)
    end in
  NewContainer fluentbit_reloadContainer (zero
    <| ContainerOpts_Image := image |>
    <| ContainerOpts_Args := FluentbitDefaults_ConfigmapReloadArgs def |>
    <| ContainerOpts_VolumeMounts :=
         [ mkVolumeMount fluentbit_configVolume "/fluent-bit/etc" "" true;
           mkVolumeMount fluentbit_tmpVolume "/tmp" "" false ] |>
    <| ContainerOpts_Resources := resources |>
    <| ContainerOpts_Ports :=
         [mkContainerPort "reload-metrics" (FluentbitDefaults_ConfigmapReloadPort def) ""] |>
    <| ContainerOpts_SecurityContext := Some (zero
         <| SecurityContext_AllowPrivilegeEscalation := Some false |>
         <| SecurityContext_ReadOnlyRootFilesystem := Some true |>
         <| SecurityContext_Capabilities := Some (mkCapabilities [] ["ALL"]) |>
         <| SecurityContext_RunAsNonRoot := Some true |>
         <| SecurityContext_RunAsUser := Some (FluentbitDefaults_ReloaderID def) |>
         <| SecurityContext_RunAsGroup := Some (FluentbitDefaults_ReloaderID def) |>) |>).

Definition fluentbit_collectorSecurityContext (privileged : bool) : SecurityContext :=
  let sc := zero
    <| SecurityContext_Privileged := Some privileged |>
    <| SecurityContext_ReadOnlyRootFilesystem := Some true |>
    <| SecurityContext_RunAsNonRoot := Some false |>
    <| SecurityContext_RunAsUser := Some 0%Z |>
    <| SecurityContext_RunAsGroup := Some 0%Z |> in
  if negb privileged then
    sc <| SecurityContext_AllowPrivilegeEscalation := Some false |>
       <| SecurityContext_Capabilities := Some (mkCapabilities ["DAC_OVERRIDE"] ["ALL"]) |>
  else sc.

Definition fluentbit_podSecurityContext (openshift : bool) : PodSecurityContext :=
  let sc := zero <| PodSecurityContext_SeccompType := Some "RuntimeDefault" |> in
  if openshift then sc <| PodSecurityContext_SELinuxType := Some "spc_t" |> else sc.

Definition fluentbit_stateSizeLimit (spec : Fluentbit) : Quantity :=
  match ParseQuantity (EffectiveMemoryOnlyStateSizeLimit spec) with
  | inr quantity => quantity
  | inl _ => MustParse FluentbitDefaultMemoryOnlyStateSizeLimit
  end.

(** ** volumes.go *)

Record fluentbit_secretFile : Type := mk_fluentbit_secretFile {
  secretFile_volume : string;
  secretFile_secretName : string;
  secretFile_secretKey : string;
  secretFile_mountPath : string;
}.

Definition fluentbit_hostPathVolume (volumeName path pathType : string) : Volume :=
  mkVolume volumeName (HostPath path pathType).

Definition fluentbit_secretVolume (volumeName secretName : string) : Volume :=
  mkVolume volumeName (SecretSource secretName [] fluentbit_secretFileMode).

(** One file of [certificateFiles]: it needs a Secret name and a key. *)
Definition certificate_file (volume dir file : string) (secretName secretKey : string) :
    list fluentbit_secretFile :=
  if negb (String.eqb secretName "") && negb (String.eqb secretKey "")
  then [mk_fluentbit_secretFile volume secretName secretKey (dir +:+ "/" +:+ file)] else [].

Definition fluentbit_certificateFiles (prefix dir : string) (certs : Certificates) :
    list fluentbit_secretFile :=
  match Certificates_CA certs with
  | Some ca => certificate_file (prefix +:+ "-ca") dir "ca.crt" (CA_SecretName ca) (CA_SecretKey ca)
  | None => []
  end ++
  match Certificates_Cert certs with
  | Some cert =>
      certificate_file (prefix +:+ "-cert") dir "tls.crt" (Cert_SecretName cert) (Cert_SecretKey cert)
  | None => []
  end ++
  match Certificates_Key certs with
  | Some key =>
      certificate_file (prefix +:+ "-key") dir "tls.key" (Key_SecretName key) (Key_SecretKey key)
  | None => []
  end.

(** [output.X != nil && output.X.Enabled && output.X.TLS != nil && output.X.TLS.Enabled],
    and the certificates that then count. *)
Definition loki_certificates (output : OutputFluentbit) : option Certificates :=
  match OutputFluentbit_Loki output with
  | Some loki =>
      match LokiFluentbit_Enabled loki, LokiFluentbit_TLS loki with
      | true, Some tls =>
          if FluentbitTLSParams_Enabled (FluentbitLokiTLS_FluentbitTLSParams tls)
          then Some (FluentbitLokiTLS_Certificates tls) else None
      | _, _ => None
      end
  | None => None
  end.

Definition http_certificates (output : OutputFluentbit) : option Certificates :=
  match OutputFluentbit_Http output with
  | Some http =>
      match HttpFluentbit_Enabled http, HttpFluentbit_TLS http with
      | true, Some tls =>
          if FluentbitTLSParams_Enabled (FluentbitHttpTLS_FluentbitTLSParams tls)
          then Some (FluentbitHttpTLS_Certificates tls) else None
      | _, _ => None
      end
  | None => None
  end.

Definition otel_certificates (output : OutputFluentbit) : option Certificates :=
  match OutputFluentbit_Otel output with
  | Some otel =>
      match OtelFluentbit_Enabled otel, OtelFluentbit_TLS otel with
      | true, Some tls =>
          if FluentbitTLSParams_Enabled (FluentbitHttpTLS_FluentbitTLSParams tls)
          then Some (FluentbitHttpTLS_Certificates tls) else None
      | _, _ => None
      end
  | None => None
  end.

(** [if certs != nil { files = append(files, f(certs)...) }] *)
Definition with_certificates {A} (certs : option Certificates) (f : Certificates → list A) : list A :=
  match certs with Some certs => f certs | None => [] end.

Definition fluentbit_graylogFiles (tls : TLS) : list fluentbit_secretFile :=
  let certificates := fluentbit_certificateFiles "tls" "/fluent-bit/tls" (TLS_Certificates tls) in
  match TLS_GenerateCerts tls with
  | Some gen =>
      if GenerateCerts_Enabled gen then
        let secretName := GenerateCerts_SecretName gen in
        [ mk_fluentbit_secretFile "tls-ca" secretName "ca.crt" "/fluent-bit/tls/ca.crt";
          mk_fluentbit_secretFile "tls-cert" secretName "tls.crt" "/fluent-bit/tls/tls.crt";
          mk_fluentbit_secretFile "tls-key" secretName "tls.key" "/fluent-bit/tls/tls.key" ]
      else certificates
  | None => certificates
  end.

Definition fluentbit_secretFiles (spec : Fluentbit) : list fluentbit_secretFile :=
  fluentbit_graylogFiles (FluentbitTLS_TLS (Fluentbit_TLS spec)) ++
  match Fluentbit_Output spec with
  | None => []
  | Some output =>
      with_certificates (loki_certificates output)
        (fluentbit_certificateFiles "loki-tls" "/fluent-bit/output/loki/tls") ++
      with_certificates (http_certificates output)
        (fluentbit_certificateFiles "http-tls" "/fluent-bit/output/http/tls") ++
      with_certificates (otel_certificates output)
        (fluentbit_certificateFiles "otel-tls" "/fluent-bit/output/otel/tls")
  end.

Definition is_docker (cr : LoggingService) : bool :=
  String.eqb (LoggingServiceSpec_ContainerRuntimeType (LoggingService_Spec cr)) "docker".

Definition is_ubuntu (cr : LoggingService) : bool :=
  String.eqb (LoggingServiceSpec_OSKind (LoggingService_Spec cr)) "ubuntu".

Definition fluentbit_volumeMounts (cr : LoggingService) (spec : Fluentbit) : list VolumeMount :=
  (if is_docker cr then
     (if negb (is_ubuntu cr)
      then [mkVolumeMount "sysconfigdocker" "/etc/sysconfig/docker" "" true] else []) ++
     [ mkVolumeMount "dockerdaemon" "/etc/docker/daemon.json" "" true;
       mkVolumeMount "dockerhostname" "/etc/docker-hostname" "" true;
       mkVolumeMount "varlibdockercontainers" "/var/lib/docker/containers" "" true ]
   else []) ++
  [ mkVolumeMount "varlog" "/var/log" "" true;
    mkVolumeMount fluentbit_stateVolume "/fluent-bit/state" "" false ] ++
  (if UsesFilesystemBuffer spec
   then [mkVolumeMount fluentbit_storageVolume "/fluent-bit/storage" "" false] else []) ++
  [ mkVolumeMount fluentbit_configVolume "/fluent-bit/etc" "" true;
    mkVolumeMount fluentbit_tmpVolume "/tmp" "" false ] ++
  ((λ file, mkVolumeMount (secretFile_volume file) (secretFile_mountPath file)
              (secretFile_secretKey file) true) <$> fluentbit_secretFiles spec).

Definition fluentbit_volumes (cr : LoggingService) (spec : Fluentbit) (def : FluentbitDefaults) :
    list Volume :=
  (if is_docker cr then
     (if negb (is_ubuntu cr)
      then [fluentbit_hostPathVolume "sysconfigdocker" "/etc/sysconfig/docker" HostPathFileOrCreate]
      else []) ++
     [ fluentbit_hostPathVolume "dockerdaemon" "/etc/docker/daemon.json" HostPathFileOrCreate;
       fluentbit_hostPathVolume "dockerhostname" "/etc/hostname" HostPathFileOrCreate;
       fluentbit_hostPathVolume "varlibdockercontainers" "/var/lib/docker/containers" HostPathUnset ]
   else []) ++
  [fluentbit_hostPathVolume "varlog" "/var/log" HostPathUnset] ++
  [if UsesPersistentOffsets spec
   then fluentbit_hostPathVolume fluentbit_stateVolume "/var/lib/fluent-bit/state"
          HostPathDirectoryOrCreate
   else mkVolume fluentbit_stateVolume (EmptyDir "Memory" (Some (fluentbit_stateSizeLimit spec)))] ++
  (if UsesFilesystemBuffer spec
   then [fluentbit_hostPathVolume fluentbit_storageVolume "/var/lib/fluent-bit/storage"
           HostPathDirectoryOrCreate] else []) ++
  [ fluentbit_secretVolume fluentbit_configVolume fluentbit_name;
    mkVolume fluentbit_tmpVolume (EmptyDir "" (Some (FluentbitDefaults_TmpVolumeSize def))) ] ++
  ((λ file, fluentbit_secretVolume (secretFile_volume file) (secretFile_secretName file))
     <$> fluentbit_secretFiles spec).

(** ** fluentbit.go: the container, the DaemonSet and the Service *)

Definition fluentbit_collectorContainer (cr : LoggingService) (spec : Fluentbit)
    (def : FluentbitDefaults) : Container :=
  NewContainer fluentbit_name (zero
    <| ContainerOpts_Image := Fluentbit_DockerImage spec |>
    <| ContainerOpts_ImagePullPolicy := PullIfNotPresent |>
    <| ContainerOpts_SecurityContext :=
         Some (fluentbit_collectorSecurityContext (Fluentbit_SecurityContextPrivileged spec)) |>
    <| ContainerOpts_Ports :=
         [ mkContainerPort "http" (FluentbitDefaults_HTTPPort def) ProtocolTCP;
           mkContainerPort "log-to-metrics" (FluentbitDefaults_LogToMetricsPort def) ProtocolTCP ] |>
    <| ContainerOpts_LivenessProbe := Some (FluentbitDefaults_LivenessProbe def) |>
    <| ContainerOpts_ReadinessProbe := Some (FluentbitDefaults_ReadinessProbe def) |>
    <| ContainerOpts_Resources :=
         match Fluentbit_Resources spec with
         | Some r => r | None => FluentbitDefaults_Resources def end |>
    <| ContainerOpts_Env := [mkEnvVar "NODE_NAME" "" (Some (FieldRef "spec.nodeName"))] |>
    <| ContainerOpts_VolumeMounts := fluentbit_volumeMounts cr spec |>).

Definition fluentbit_DaemonSet (cr : LoggingService) (spec : Fluentbit) (cfg : Defaults) : DaemonSet :=
  let def := Defaults_Fluentbit cfg in
  let openshift := LoggingServiceSpec_OpenshiftDeploy (LoggingService_Spec cr) in
  let reloader := fluentbit_reloaderContainer spec def in
  let collector := fluentbit_collectorContainer cr spec def in
  let collector :=
    collector <| Container_VolumeMounts ::= λ ms, ms ++ Fluentbit_AdditionalVolumeMounts spec |> in
  let tolerations :=
    match Fluentbit_Tolerations spec with
    | Some t => t | None => FluentbitDefaults_Tolerations def end in
  let podSpec := zero
    <| PodSpec_TerminationGracePeriodSeconds := Some (FluentbitDefaults_TerminationGracePeriod def) |>
    <| PodSpec_ServiceAccountName := fluentbit_name |>
    <| PodSpec_SecurityContext := Some (fluentbit_podSecurityContext openshift) |>
    <| PodSpec_Tolerations := tolerations |>
    <| PodSpec_Containers := [reloader; collector] |>
    <| PodSpec_Volumes := fluentbit_volumes cr spec def ++ Fluentbit_AdditionalVolumes spec |>
    <| PodSpec_NodeSelector :=
         NodeSelector (Fluentbit_NodeSelectorKey spec) (Fluentbit_NodeSelectorValue spec) |>
    <| PodSpec_Affinity := Fluentbit_Affinity spec |> in
  let podSpec :=
    if negb (is_blank (Fluentbit_PriorityClassName spec))
    then podSpec <| PodSpec_PriorityClassName := Fluentbit_PriorityClassName spec |> else podSpec in
  let daemonSet := NewDaemonSet fluentbit_name (GetNamespace cr) (zero
    <| DaemonSetOpts_Selector := Some (fluentbit_selector openshift) |>
    <| DaemonSetOpts_MinReadySeconds := FluentbitDefaults_MinReadySeconds def |>
    <| DaemonSetOpts_UpdateStrategy :=
         mkUpdateStrategy "RollingUpdate" None (Some (FluentbitDefaults_MaxUnavailable def)) |>
    <| DaemonSetOpts_PodSpec := podSpec |>
    <| DaemonSetOpts_PodLabels := Some (fluentbit_workloadLabels openshift) |>
    <| DaemonSetOpts_PodAnnotations := Fluentbit_Annotations spec |>
    <| DaemonSetOpts_Labels := Some (fluentbit_workloadLabels openshift) |>
    <| DaemonSetOpts_Annotations := Fluentbit_Annotations spec |>) in
  let daemonSet :=
    daemonSet <| DaemonSet_Template ::=
      λ t, t <| PodTemplateSpec_ObjectMeta ::= SetName fluentbit_name |> |> in
  label_DaemonSet
    (mkLabelInput fluentbit_name ComponentBackend
       (GetInstanceLabel fluentbit_name (GetNamespace cr))
       (GetTagFromImage (Fluentbit_DockerImage spec)) fluentbit_technology (Fluentbit_Labels spec))
    daemonSet.

Definition fluentbit_Service (cr : LoggingService) (spec : Fluentbit) (cfg : Defaults) : Service :=
  let def := Defaults_Fluentbit cfg in
  let openshift := LoggingServiceSpec_OpenshiftDeploy (LoggingService_Spec cr) in
  let service := NewService fluentbit_name (GetNamespace cr) (zero
    <| ServiceOpts_Labels :=
         Some {[ "component" := fluentbit_name; "provider" := fluentbit_provider openshift ]} |>
    <| ServiceOpts_Selector := Some {[ "name" := fluentbit_name ]} |>
    <| ServiceOpts_Ports :=
         [ fluentbit_servicePort fluentbit_name (FluentbitDefaults_HTTPPort def);
           fluentbit_servicePort "log-to-metrics" (FluentbitDefaults_LogToMetricsPort def) ] |>) in
  SetLabelsForResource
    (zero <| LabelInput_Name := fluentbit_name |> <| LabelInput_Component := ComponentBackend |>
          <| LabelInput_ComponentLabels := Fluentbit_Labels spec |>) None service.
End fluentbit.

(** ** The volumes and their mounts *)

(** The three names, and the three paths, of a set of certificates. *)
Definition certificate_names (prefix : string) : list string :=
  [prefix +:+ "-ca"; prefix +:+ "-cert"; prefix +:+ "-key"].

Definition certificate_paths (dir : string) : list string :=
  [dir +:+ "/ca.crt"; dir +:+ "/tls.crt"; dir +:+ "/tls.key"].

(** Every volume name, and every mount path, that the pod may have. *)
Definition fluentbit_reserved_names : list string :=
  (["sysconfigdocker"] ++ ["dockerdaemon"; "dockerhostname"; "varlibdockercontainers"]) ++
  ["varlog"] ++ ["fluentbit-state"] ++ ["fluentbit-storage"] ++ ["config"; "tmp"] ++
  certificate_names "tls" ++ certificate_names "loki-tls" ++ certificate_names "http-tls" ++
  certificate_names "otel-tls".

Definition fluentbit_reserved_paths : list string :=
  (["/etc/sysconfig/docker"] ++
   ["/etc/docker/daemon.json"; "/etc/docker-hostname"; "/var/lib/docker/containers"]) ++
  ["/var/log"; "/fluent-bit/state"] ++ ["/fluent-bit/storage"] ++ ["/fluent-bit/etc"; "/tmp"] ++
  certificate_paths "/fluent-bit/tls" ++ certificate_paths "/fluent-bit/output/loki/tls" ++
  certificate_paths "/fluent-bit/output/http/tls" ++ certificate_paths "/fluent-bit/output/otel/tls".

Lemma sublist_certificate_file {B} (f : fluentbit_secretFile → B) volume dir file name key y :
  f (mk_fluentbit_secretFile volume name key (dir +:+ "/" +:+ file)) = y →
  sublist (f <$> certificate_file volume dir file name key) [y].
Proof.
  intros <-. unfold certificate_file. case_match; [reflexivity|apply sublist_nil_l].
Qed.

Lemma sublist_certificateFiles {B} (f : fluentbit_secretFile → B) prefix dir certs ca cert key :
  (∀ n k, f (mk_fluentbit_secretFile (prefix +:+ "-ca") n k (dir +:+ "/" +:+ "ca.crt")) = ca) →
  (∀ n k, f (mk_fluentbit_secretFile (prefix +:+ "-cert") n k (dir +:+ "/" +:+ "tls.crt")) = cert) →
  (∀ n k, f (mk_fluentbit_secretFile (prefix +:+ "-key") n k (dir +:+ "/" +:+ "tls.key")) = key) →
  sublist (f <$> fluentbit_certificateFiles prefix dir certs) [ca; cert; key].
Proof.
  intros Hca Hcert Hkey. unfold fluentbit_certificateFiles. rewrite !fmap_app.
  apply (sublist_app _ [ca]); [|apply (sublist_app _ [cert])];
    (case_match; [by apply sublist_certificate_file|apply sublist_nil_l]).
Qed.

Lemma certificate_volume_names prefix dir certs :
  sublist (secretFile_volume <$> fluentbit_certificateFiles prefix dir certs) (certificate_names prefix).
Proof. by apply sublist_certificateFiles. Qed.

Lemma certificate_mount_paths prefix dir certs :
  sublist (secretFile_mountPath <$> fluentbit_certificateFiles prefix dir certs)
    (certificate_paths dir).
Proof. by apply sublist_certificateFiles. Qed.

Lemma graylogFiles_names tls :
  sublist (secretFile_volume <$> fluentbit_graylogFiles tls) (certificate_names "tls") ∧
  sublist (secretFile_mountPath <$> fluentbit_graylogFiles tls) (certificate_paths "/fluent-bit/tls").
Proof.
  unfold fluentbit_graylogFiles.
  destruct (TLS_GenerateCerts tls) as [gen|]; [destruct (GenerateCerts_Enabled gen)|];
    first [by split|split; [apply certificate_volume_names|apply certificate_mount_paths]].
Qed.

Lemma sublist_with_certificates {A B} (g : A → B) certs (f : Certificates → list A) ys :
  (∀ c, sublist (g <$> f c) ys) → sublist (g <$> with_certificates certs f) ys.
Proof. intros Hf. destruct certs; [apply Hf|apply sublist_nil_l]. Qed.

#[export] Hint Resolve certificate_volume_names certificate_mount_paths : sublists.
#[export] Hint Extern 2 (sublist (_ <$> with_certificates _ _) _) =>
  apply sublist_with_certificates; intros ? : sublists.

Lemma secretFiles_names spec :
  sublist (secretFile_volume <$> fluentbit_secretFiles spec)
    (certificate_names "tls" ++ certificate_names "loki-tls" ++ certificate_names "http-tls" ++
     certificate_names "otel-tls").
Proof.
  unfold fluentbit_secretFiles. rewrite fmap_app. apply sublist_app; [apply graylogFiles_names|].
  case_match; [|apply sublist_nil_l]. rewrite !fmap_app. auto 10 with sublists.
Qed.

Lemma secretFiles_paths spec :
  sublist (secretFile_mountPath <$> fluentbit_secretFiles spec)
    (certificate_paths "/fluent-bit/tls" ++ certificate_paths "/fluent-bit/output/loki/tls" ++
     certificate_paths "/fluent-bit/output/http/tls" ++ certificate_paths "/fluent-bit/output/otel/tls").
Proof.
  unfold fluentbit_secretFiles. rewrite fmap_app. apply sublist_app; [apply graylogFiles_names|].
  case_match; [|apply sublist_nil_l]. rewrite !fmap_app. auto 10 with sublists.
Qed.

Section volumes.
Variable ParseQuantity : string → error + Quantity.

(** Each volume is mounted, in the order of the volumes. *)
Lemma fluentbit_mounts_volumes cr spec def :
  mount_names (fluentbit_volumeMounts cr spec)
  = volume_names (fluentbit_volumes ParseQuantity cr spec def).
Proof.
  unfold mount_names, volume_names, fluentbit_volumeMounts, fluentbit_volumes.
  rewrite !fmap_app, <- !list_fmap_compose. f_equal; [by repeat case_match|].
  cbn. do 1 f_equal. f_equal; [by case_match|]. f_equal. by case_match.
Qed.

Lemma fluentbit_volumes_reserved cr spec def :
  sublist (volume_names (fluentbit_volumes ParseQuantity cr spec def)) fluentbit_reserved_names.
Proof.
  rewrite <- fluentbit_mounts_volumes.
  unfold mount_names, fluentbit_volumeMounts, fluentbit_reserved_names.
  rewrite !fmap_app, <- list_fmap_compose. apply sublist_app.
  { destruct (is_docker cr); [|apply sublist_nil_l]. rewrite fmap_app. apply sublist_app; [|reflexivity].
    destruct (is_ubuntu cr); [apply sublist_nil_l|reflexivity]. }
  change (["varlog"] ++ ["fluentbit-state"] ++ ?x) with (["varlog"; "fluentbit-state"] ++ x).
  apply sublist_app; [reflexivity|]. apply sublist_app; [by case_match; auto with sublists|].
  apply sublist_app; [reflexivity|]. apply secretFiles_names.
Qed.

Lemma fluentbit_mounts_reserved cr spec :
  sublist (mount_paths (fluentbit_volumeMounts cr spec)) fluentbit_reserved_paths.
Proof.
  unfold mount_paths, fluentbit_volumeMounts, fluentbit_reserved_paths.
  rewrite !fmap_app, <- list_fmap_compose. apply sublist_app.
  { destruct (is_docker cr); [|apply sublist_nil_l]. rewrite fmap_app. apply sublist_app; [|reflexivity].
    destruct (is_ubuntu cr); [apply sublist_nil_l|reflexivity]. }
  apply sublist_app; [reflexivity|]. apply sublist_app; [by case_match; auto with sublists|].
  apply sublist_app; [reflexivity|]. apply secretFiles_paths.
Qed.
End volumes.

Lemma fluentbit_reserved_NoDup : NoDup fluentbit_reserved_names ∧ NoDup fluentbit_reserved_paths.
Proof. split; apply (bool_decide_unpack _); by vm_compute. Qed.

(** ** Properties *)

(** C34: the pod of the FluentBit DaemonSet.  When the volumes and mounts that the custom
    resource adds avoid the operator's own names and paths and each other, the pod is well
    formed (no two volumes share a name, each container mounts only volumes of the pod
    and no two mounts of a container share a path) exactly when every mount that the
    custom resource adds is of a volume that it adds or that the operator declares: the
    code does not check that, and without one the pod is invalid.  Either way each of
    the operator's volumes is mounted in the collector, and a mount of a volume that the pod
    does not have is one that the custom resource adds. *)
Theorem fluentbit_DaemonSet_well_formed ParseQuantity cr spec cfg :
  let added_volumes := volume_names (Fluentbit_AdditionalVolumes spec) in
  let added_mounts := Fluentbit_AdditionalVolumeMounts spec in
  NoDup added_volumes → (∀ n, n ∈ added_volumes → n ∉ fluentbit_reserved_names) →
  NoDup (mount_paths added_mounts) →
  (∀ n, n ∈ mount_paths added_mounts → n ∉ fluentbit_reserved_paths) →
  let volumes := fluentbit_volumes ParseQuantity cr spec (Defaults_Fluentbit cfg) in
  let ds := fluentbit_DaemonSet ParseQuantity cr spec cfg in
  let pod := PodTemplateSpec_Spec (DaemonSet_Template ds) in
  (well_formed_pod [] pod ↔ mount_names added_mounts ⊆ volume_names volumes ++ added_volumes) ∧
  (∃ collector, collector ∈ PodSpec_Containers pod ∧
     volume_names volumes ⊆ mount_names (Container_VolumeMounts collector)) ∧
  ∀ c n, c ∈ PodSpec_Containers pod → n ∈ mount_names (Container_VolumeMounts c) →
    n ∈ volume_names (PodSpec_Volumes pod) ∨ n ∈ mount_names added_mounts.
Proof.
  intros added_volumes added_mounts Hnd Hres Hndp Hresp volumes ds pod.
  set (def := Defaults_Fluentbit cfg) in *.
  set (reloader := fluentbit_reloaderContainer spec def).
  set (collector := (fluentbit_collectorContainer cr spec def)
    <| Container_VolumeMounts ::= λ ms, ms ++ added_mounts |>).
  assert (Hpod : PodSpec_Volumes pod = volumes ++ Fluentbit_AdditionalVolumes spec ∧
    PodSpec_InitContainers pod = [] ∧ PodSpec_Containers pod = [reloader; collector]).
  { unfold pod, ds, fluentbit_DaemonSet. by destruct (is_blank _). }
  destruct Hpod as (Hv & Hi & Hc).
  assert (Hnames : volume_names (PodSpec_Volumes pod) = volume_names volumes ++ added_volumes)
    by (unfold volume_names; by rewrite Hv, fmap_app).
  assert (Hmounts : Container_VolumeMounts collector = fluentbit_volumeMounts cr spec ++ added_mounts)
    by done.
  assert (Hreload : Container_VolumeMounts reloader
    = [ mkVolumeMount fluentbit_configVolume "/fluent-bit/etc" "" true;
        mkVolumeMount fluentbit_tmpVolume "/tmp" "" false ])
    by (unfold reloader, fluentbit_reloaderContainer; by destruct (Fluentbit_ConfigmapReload spec)).
  assert (Hall : mount_names (Container_VolumeMounts collector)
                 = volume_names volumes ++ mount_names added_mounts)
    by (rewrite Hmounts; unfold mount_names; rewrite fmap_app; f_equal;
        apply fluentbit_mounts_volumes).
  assert (Hfixed : [fluentbit_configVolume; fluentbit_tmpVolume] ⊆ volume_names volumes).
  { unfold volumes, fluentbit_volumes, volume_names. rewrite !fmap_app.
    intros x. cbn [fmap list_fmap Volume_Name]. rewrite !elem_of_app. tauto. }
  assert (Hown : ∀ c n, c ∈ PodSpec_Containers pod → n ∈ mount_names (Container_VolumeMounts c) →
    n ∈ volume_names (PodSpec_Volumes pod) ∨ n ∈ mount_names added_mounts).
  { intros c n. rewrite Hc, Hnames, !elem_of_cons, elem_of_nil, elem_of_app. intros [->|[->|[]]].
    - rewrite Hreload. intros Hn. left. left. by apply Hfixed.
    - rewrite Hall, elem_of_app. tauto. }
  split_and!; [split|..|exact Hown].
  - intros [_ Hm _] n Hn. rewrite <- Hnames. apply (Hm collector).
    + rewrite Hi, Hc. right. left.
    + rewrite Hall. apply elem_of_app. by right.
  - intros Hadd. split.
    + rewrite Hnames.
      exact (NoDup_add _ _ _ (fluentbit_volumes_reserved _ _ _ _) (proj1 fluentbit_reserved_NoDup)
               Hnd Hres).
    + rewrite Hi. intros c Hin n Hn. destruct (Hown c n Hin Hn) as [|Hn']; [done|].
      change (n ∈ volume_names (PodSpec_Volumes pod)). rewrite Hnames. by apply Hadd.
    + intros c. rewrite Hi, Hc. cbn [app]. rewrite !elem_of_cons, elem_of_nil.
      intros [->|[->|[]]].
      * rewrite Hreload. apply (bool_decide_unpack _). by vm_compute.
      * rewrite Hmounts. unfold mount_paths. rewrite fmap_app.
        exact (NoDup_add _ _ _ (fluentbit_mounts_reserved _ _) (proj2 fluentbit_reserved_NoDup)
                 Hndp Hresp).
  - exists collector. rewrite Hc, Hall. split; [right; left|]. intros n Hn. apply elem_of_app. by left.
Qed.

(** The selector of the FluentBit DaemonSet selects its own pods, whatever
    labels the custom resource adds, and so does the Service; and unless the custom
    resource asks for a privileged collector, no container can gain privileges. *)
Theorem fluentbit_DaemonSet_selects_hardened ParseQuantity cr spec cfg :
  let ds := fluentbit_DaemonSet ParseQuantity cr spec cfg in
  let pod_labels := template_labels (DaemonSet_Template ds) in
  selects (DaemonSet_Selector ds) pod_labels ∧
  selects (Service_Selector (fluentbit_Service cr spec cfg)) pod_labels ∧
  (Fluentbit_SecurityContextPrivileged spec = false →
   ∀ c, c ∈ PodSpec_Containers (PodTemplateSpec_Spec (DaemonSet_Template ds)) →
     hardened (Container_SecurityContext c)).
Proof.
  intros ds pod_labels.
  assert (Hlabels : ∃ inp, LabelInput_Name inp = fluentbit_name ∧
    pod_labels = Some (templateLabels inp (Some (fluentbit_workloadLabels
      (LoggingServiceSpec_OpenshiftDeploy (LoggingService_Spec cr)))))).
  { eexists. split; [|apply label_DaemonSet_template]. done. }
  destruct Hlabels as (inp & Hinp & ->). split_and!.
  - change (DaemonSet_Selector ds) with (Some (fluentbit_selector
      (LoggingServiceSpec_OpenshiftDeploy (LoggingService_Spec cr)))).
    unfold fluentbit_selector. solve_selects.
  - change (Service_Selector _) with (Some ({[ "name" := fluentbit_name ]} : smap)).
    rewrite <- Hinp. solve_selects.
  - intros Hp c Hc.
    assert (Hin : c ∈ [fluentbit_reloaderContainer spec (Defaults_Fluentbit cfg);
      (fluentbit_collectorContainer cr spec (Defaults_Fluentbit cfg))
        <| Container_VolumeMounts ::= λ ms, ms ++ Fluentbit_AdditionalVolumeMounts spec |>]).
    { revert Hc. unfold ds, fluentbit_DaemonSet. by destruct (is_blank _). }
    rewrite !elem_of_cons, elem_of_nil in Hin. destruct Hin as [->|[->|[]]].
    + unfold fluentbit_reloaderContainer. by destruct (Fluentbit_ConfigmapReload spec).
    + cbn. by rewrite Hp.
Qed.

(** ** Witnesses *)

Definition example_fluentbit_cr : LoggingService :=
  zero <| LoggingService_ObjectMeta := named "cr" "ns" |>
       <| LoggingService_Spec ::= λ s, s <| LoggingServiceSpec_ContainerRuntimeType := "docker" |> |>.

(** A custom resource that adds a volume and mounts it, and one that takes a name of
    the operator's. *)
Definition example_fluentbit : Fluentbit :=
  zero <| Fluentbit_AdditionalVolumes := [mkVolume "extra" (EmptyDir "" None)] |>
       <| Fluentbit_AdditionalVolumeMounts := [mkVolumeMount "extra" "/extra" "" false] |>
       <| Fluentbit_Labels := Some {[ "name" := "mine" ]} |>.

Lemma fluentbit_DaemonSet_well_formed_witness :
  well_formed_pod [] (PodTemplateSpec_Spec (DaemonSet_Template
    (fluentbit_DaemonSet (λ s, inr (mkQuantity s)) example_fluentbit_cr example_fluentbit defaults_Get))).
Proof.
  apply (fluentbit_DaemonSet_well_formed (λ s, inr (mkQuantity s)) example_fluentbit_cr
           example_fluentbit defaults_Get); cbn [example_fluentbit].
  - apply NoDup_singleton.
  - intros n ->%list_elem_of_singleton. apply (bool_decide_unpack _). by vm_compute.
  - apply NoDup_singleton.
  - intros n ->%list_elem_of_singleton. apply (bool_decide_unpack _). by vm_compute.
  - intros n ->%list_elem_of_singleton. apply elem_of_app. right. left.
Defined.

Lemma fluentbit_DaemonSet_selects_hardened_witness :
  let ds := fluentbit_DaemonSet (λ s, inr (mkQuantity s)) example_fluentbit_cr example_fluentbit
              defaults_Get in
  selects (DaemonSet_Selector ds) (template_labels (DaemonSet_Template ds)) ∧
  ∀ c, c ∈ PodSpec_Containers (PodTemplateSpec_Spec (DaemonSet_Template ds)) →
    hardened (Container_SecurityContext c).
Proof.
  destruct (fluentbit_DaemonSet_selects_hardened (λ s, inr (mkQuantity s)) example_fluentbit_cr
              example_fluentbit defaults_Get) as (Hs & _ & Hh).
  split; [exact Hs|exact (Hh eq_refl)].
Defined.
