(* ===== verification/FluentdBuilder.v ===== *)
(** * The FluentD DaemonSet and Service: internal/builder/fluentd

    [volumes] appends to the pod's volumes and to the container's mounts in turn,
    one mount for each volume; the model builds the list of the pairs. *)

From S2P Require Import Prelude GoStrings KubeTypes Api Labels Operator Component Defaults.
From S2P Require Import Builder FluentbitBuilder.

Definition fluentd_name : string := "logging-fluentd".
Definition fluentd_reloadContainer : string := "configmap-reload".
Definition fluentd_technology : string := "ruby".
Definition fluentd_configVolume : string := "config".
Definition fluentd_tmpVolume : string := "tmp".
Definition fluentd_configDir : string := "/fluentd/etc".
Definition fluentd_rootID : Z := 0.
Definition fluentd_reloadID : Z := 1001.
Definition fluentd_tmpGroupID : Z := 1000.
Definition fluentd_secretMode : Z := 420.

Definition fluentd_startScript : string :=
  "mkdir -p -m 0700 /tmp/fluentd-work" +:+ newline +:+
  "export TMPDIR=/tmp/fluentd-work" +:+ newline +:+
  "exec tini -- /bin/entrypoint.sh /fluentd/entrypoint.sh" +:+ newline.

Definition fluentd_selectorLabels (openshift : bool) : smap :=
  {[ "component" := fluentd_name; "provider" := if openshift then "openshift" else "kubernetes" ]}.

(** ** Volumes *)

Definition fluentd_hostPath (volume path pathType : string) : Volume :=
  mkVolume volume (HostPath path pathType).

Definition fluentd_secret (volume secretName : string) : Volume :=
  mkVolume volume (SecretSource secretName [] fluentd_secretMode).

(** [mount(volume, path, subPath, readOnly)] *)
Definition fluentd_mount (volume path subPath : string) (readOnly : bool) : VolumeMount :=
  mkVolumeMount volume path subPath readOnly.

(** [add(suffix, file, secretName, secretKey)] of [certificateVolumes]. *)
Definition fluentd_certificate (prefix dir suffix file secretName secretKey : string) :
    list (Volume * VolumeMount) :=
  if String.eqb secretName "" || String.eqb secretKey "" then []
  else
    let volume := prefix +:+ "-" +:+ suffix in
    [(fluentd_secret volume secretName, fluentd_mount volume (dir +:+ "/" +:+ file) secretKey true)].

Definition fluentd_certificateVolumes (certs : Certificates) (prefix dir : string) :
    list (Volume * VolumeMount) :=
  match Certificates_CA certs with
  | Some ca => fluentd_certificate prefix dir "ca" "ca.crt" (CA_SecretName ca) (CA_SecretKey ca)
  | None => []
  end ++
  match Certificates_Cert certs with
  | Some cert =>
      fluentd_certificate prefix dir "cert" "tls.crt" (Cert_SecretName cert) (Cert_SecretKey cert)
  | None => []
  end ++
  match Certificates_Key certs with
  | Some key => fluentd_certificate prefix dir "key" "tls.key" (Key_SecretName key) (Key_SecretKey key)
  | None => []
  end.

Definition fluentd_loki_certificates (output : OutputFluentd) : option Certificates :=
  match OutputFluentd_Loki output with
  | Some loki =>
      match LokiFluentd_Enabled loki, LokiFluentd_TLS loki with
      | true, Some tls =>
          if FluentdTLSParams_Enabled (FluentdLokiTLS_FluentdTLSParams tls)
          then Some (FluentdLokiTLS_Certificates tls) else None
      | _, _ => None
      end
  | None => None
  end.

Definition fluentd_http_certificates (output : OutputFluentd) : option Certificates :=
  match OutputFluentd_Http output with
  | Some http =>
      match HttpFluentd_Enabled http, HttpFluentd_TLS http with
      | true, Some tls =>
          if FluentdHttpTLSParams_Enabled (FluentdHttpTLS_FluentdHttpTLSParams tls)
          then Some (FluentdHttpTLS_Certificates tls) else None
      | _, _ => None
      end
  | None => None
  end.

Definition fluentd_docker_volumes (cr : LoggingService) : list (Volume * VolumeMount) :=
  if is_docker cr then
    (if negb (is_ubuntu cr) then
       [(fluentd_hostPath "sysconfigdocker" "/etc/sysconfig/docker" HostPathFileOrCreate,
         fluentd_mount "sysconfigdocker" "/etc/sysconfig/docker" "" true)]
     else []) ++
    [ (fluentd_hostPath "dockerdaemon" "/etc/docker/daemon.json" HostPathFileOrCreate,
       fluentd_mount "dockerdaemon" "/etc/docker/daemon.json" "" true);
      (fluentd_hostPath "dockerhostname" "/etc/hostname" HostPathFileOrCreate,
       fluentd_mount "dockerhostname" "/etc/docker-hostname" "" true);
      (fluentd_hostPath "varlibdockercontainers" "/var/lib/docker/containers" HostPathUnset,
       fluentd_mount "varlibdockercontainers" "/var/lib/docker/containers" "" true) ]
  else [].

Definition fluentd_graylog_tls (tls : TLS) : list (Volume * VolumeMount) :=
  let certificates := fluentd_certificateVolumes (TLS_Certificates tls) "tls" "/fluentd/tls" in
  match TLS_GenerateCerts tls with
  | Some gen =>
      if GenerateCerts_Enabled gen then
        (λ p : string * string,
           (fluentd_secret p.1 (GenerateCerts_SecretName gen),
            fluentd_mount p.1 ("/fluentd/tls/" +:+ p.2) p.2 true))
          <$> [("tls-ca", "ca.crt"); ("tls-cert", "tls.crt"); ("tls-key", "tls.key")]
      else certificates
  | None => certificates
  end.

(** The volumes that the operator itself declares, each with its mount. *)
Definition fluentd_mounted (cr : LoggingService) (spec : Fluentd) (def : FluentdDefaults) :
    list (Volume * VolumeMount) :=
  fluentd_docker_volumes cr ++
  [ (fluentd_hostPath "varlog" "/var/log" HostPathUnset, fluentd_mount "varlog" "/var/log" "" false);
    (fluentd_secret fluentd_configVolume fluentd_name,
     fluentd_mount fluentd_configVolume fluentd_configDir "" true);
    (mkVolume fluentd_tmpVolume (EmptyDir "" (Some (FluentdDefaults_TmpVolumeSize def))),
     fluentd_mount fluentd_tmpVolume "/tmp" "" false) ] ++
  fluentd_graylog_tls (FluentdTLS_TLS (Fluentd_TLS spec)) ++
  match Fluentd_Output spec with
  | None => []
  | Some output =>
      with_certificates (fluentd_loki_certificates output)
        (λ c, fluentd_certificateVolumes c "loki-tls" "/fluentd/output/loki/tls") ++
      with_certificates (fluentd_http_certificates output)
        (λ c, fluentd_certificateVolumes c "http-tls" "/fluentd/output/http/tls")
  end.

Definition fluentd_volumes (cr : LoggingService) (spec : Fluentd) (def : FluentdDefaults) :
    list Volume * list VolumeMount :=
  let mounted := fluentd_mounted cr spec def in
  (mounted.*1 ++ Fluentd_AdditionalVolumes spec, mounted.*2 ++ Fluentd_AdditionalVolumeMounts spec).

(** ** Containers *)

Definition fluentd_reloadContainerSpec (spec : Fluentd) (def : FluentdDefaults) : Container :=
  let '(image, resources) :=
    match Fluentd_ConfigmapReload spec with
    | None => ("", FluentdDefaults_ConfigmapReloadResources def)
    | Some reload =>
        (ConfigmapReload_DockerImage reload,
         default (FluentdDefaults_ConfigmapReloadResources def)
           (FirstNonNil (ConfigmapReload_Resources reload)
              (Some (FluentdDefaults_ConfigmapReloadResources def))))
    end in
  NewContainer fluentd_reloadContainer (zero
    <| ContainerOpts_Image := image |>
    <| ContainerOpts_Args :=
         [ "--volume-dir=" +:+ fluentd_configDir;
           "--webhook-url=http://localhost:24444/api/config.reload" ] |>
    <| ContainerOpts_Ports :=
         [mkContainerPort "metrics" (FluentdDefaults_ConfigmapReloadPort def) ""] |>
    <| ContainerOpts_Resources := resources |>
    <| ContainerOpts_VolumeMounts :=
         [ mkVolumeMount fluentd_configVolume fluentd_configDir "" true;
           mkVolumeMount fluentd_tmpVolume "/tmp" "" false ] |>
    <| ContainerOpts_SecurityContext := Some (zero
         <| SecurityContext_AllowPrivilegeEscalation := Some false |>
         <| SecurityContext_ReadOnlyRootFilesystem := Some true |>
         <| SecurityContext_Capabilities := Some (mkCapabilities [] ["ALL"]) |>
         <| SecurityContext_RunAsNonRoot := Some true |>
         <| SecurityContext_RunAsUser := Some fluentd_reloadID |>
         <| SecurityContext_RunAsGroup := Some fluentd_reloadID |>) |>).

Definition fluentd_env (cr : LoggingService) (spec : Fluentd) (def : FluentdDefaults) : list EnvVar :=
  let var name value := mkEnvVar name value None in
  let listenHost := if LoggingServiceSpec_Ipv6 (LoggingService_Spec cr) then "::" else "0.0.0.0" in
  [mkEnvVar "K8S_NODE_NAME" "" (Some (FieldRef "spec.nodeName"))] ++
  (if Fluentd_GraylogOutput spec then
     [ var "GRAYLOG_HOST" (Fluentd_GraylogHost spec);
       var "GRAYLOG_PORT" (Itoa (Fluentd_GraylogPort spec));
       var "GRAYLOG_PROTOCOL"
         (First (Fluentd_GraylogProtocol spec) (FluentdDefaults_GraylogProtocol def)) ]
   else []) ++
  [ var "QUEUE_LIMIT_LENGTH"
      (Itoa (First (Fluentd_QueueLimitLength spec) (FluentdDefaults_QueueLimitLength def)));
    var "WATCH_KUBERNETES_METADATA" "true";
    var "MA_HOST" listenHost;
    var "RUBY_GC_HEAP_OLDOBJECT_LIMIT_FACTOR" "1.2";
    var "RUBY_GC_MALLOC_LIMIT" "4194304";
    var "RUBY_GC_MALLOC_LIMIT_MAX" "16777216";
    var "RUBY_GC_OLDMALLOC_LIMIT" "16777216";
    var "RUBY_GC_OLDMALLOC_LIMIT_MAX" "16777216" ].

Definition fluentd_container (cr : LoggingService) (spec : Fluentd) (def : FluentdDefaults)
    (mounts : list VolumeMount) : Container :=
  let securityContext := zero
    <| SecurityContext_Privileged := Some (Fluentd_SecurityContextPrivileged spec) |>
    <| SecurityContext_ReadOnlyRootFilesystem := Some true |>
    <| SecurityContext_RunAsNonRoot := Some false |>
    <| SecurityContext_RunAsUser := Some fluentd_rootID |>
    <| SecurityContext_RunAsGroup := Some fluentd_rootID |> in
  let securityContext :=
    if negb (Fluentd_SecurityContextPrivileged spec) then
      securityContext
        <| SecurityContext_AllowPrivilegeEscalation := Some false |>
        <| SecurityContext_Capabilities := Some (mkCapabilities [] ["ALL"]) |>
    else securityContext in
  NewContainer fluentd_name (zero
    <| ContainerOpts_Image := Fluentd_DockerImage spec |>
    <| ContainerOpts_ImagePullPolicy := PullIfNotPresent |>
    <| ContainerOpts_Command := ["/bin/sh"; "-c"; fluentd_startScript] |>
    <| ContainerOpts_SecurityContext := Some securityContext |>
    <| ContainerOpts_Ports :=
         [ mkContainerPort "http" (FluentdDefaults_HTTPPort def) ProtocolTCP;
           mkContainerPort "metrics" (FluentdDefaults_MetricsPort def) ProtocolTCP ] |>
    <| ContainerOpts_LivenessProbe := Some (FluentdDefaults_LivenessProbe def) |>
    <| ContainerOpts_ReadinessProbe := Some (FluentdDefaults_ReadinessProbe def) |>
    <| ContainerOpts_Resources :=
         default (FluentdDefaults_Resources def)
           (FirstNonNil (Fluentd_Resources spec) (Some (FluentdDefaults_Resources def))) |>
    <| ContainerOpts_Env := fluentd_env cr spec def |>
    <| ContainerOpts_VolumeMounts := mounts |>).

Definition fluentd_podSecurityContext (openshift : bool) : PodSecurityContext :=
  let sc := zero
    <| PodSecurityContext_SeccompType := Some "RuntimeDefault" |>
    <| PodSecurityContext_FSGroup := Some fluentd_tmpGroupID |>
    <| PodSecurityContext_RunAsNonRoot := Some false |>
    <| PodSecurityContext_RunAsUser := Some fluentd_rootID |>
    <| PodSecurityContext_RunAsGroup := Some fluentd_rootID |> in
  if openshift then sc <| PodSecurityContext_SELinuxType := Some "spc_t" |> else sc.

(** ** The DaemonSet and the Service *)

Definition fluentd_DaemonSet (cr : LoggingService) (spec : Fluentd) (cfg : Defaults) : DaemonSet :=
  let def := Defaults_Fluentd cfg in
  let openshift := LoggingServiceSpec_OpenshiftDeploy (LoggingService_Spec cr) in
  let '(volumes, mounts) := fluentd_volumes cr spec def in
  let tolerations :=
    match Fluentd_Tolerations spec with Some t => t | None => FluentdDefaults_Tolerations def end in
  let podSpec := zero
    <| PodSpec_TerminationGracePeriodSeconds := Some 30%Z |>
    <| PodSpec_ServiceAccountName := fluentd_name |>
    <| PodSpec_SecurityContext := Some (fluentd_podSecurityContext openshift) |>
    <| PodSpec_Containers :=
         [fluentd_reloadContainerSpec spec def; fluentd_container cr spec def mounts] |>
    <| PodSpec_Volumes := volumes |>
    <| PodSpec_NodeSelector := NodeSelector (Fluentd_NodeSelectorKey spec) (Fluentd_NodeSelectorValue spec) |>
    <| PodSpec_Tolerations := tolerations |>
    <| PodSpec_Affinity := Fluentd_Affinity spec |> in
  let podSpec :=
    if negb (is_blank (Fluentd_PriorityClassName spec))
    then podSpec <| PodSpec_PriorityClassName := Fluentd_PriorityClassName spec |> else podSpec in
  let labels := <["app.kubernetes.io/technology" := fluentd_technology]>
                  (fluentd_selectorLabels openshift) in
  let daemonSet := NewDaemonSet fluentd_name (GetNamespace cr) (zero
    <| DaemonSetOpts_Selector := Some (fluentd_selectorLabels openshift) |>
    <| DaemonSetOpts_MinReadySeconds := 60%Z |>
    <| DaemonSetOpts_UpdateStrategy := mkUpdateStrategy "RollingUpdate" None (Some (FromInt32 1)) |>
    <| DaemonSetOpts_PodSpec := podSpec |>
    <| DaemonSetOpts_PodLabels := Some labels |>
    <| DaemonSetOpts_PodAnnotations := Fluentd_Annotations spec |>
    <| DaemonSetOpts_Labels := Some labels |>
    <| DaemonSetOpts_Annotations := Fluentd_Annotations spec |>) in
  let daemonSet :=
    daemonSet <| DaemonSet_Template ::= λ t, t <| PodTemplateSpec_ObjectMeta ::= SetName fluentd_name |> |> in
  label_DaemonSet
    (mkLabelInput fluentd_name ComponentBackend (GetInstanceLabel fluentd_name (GetNamespace cr))
       (GetTagFromImage (Fluentd_DockerImage spec)) fluentd_technology (Fluentd_Labels spec))
    daemonSet.

Definition fluentd_Service (cr : LoggingService) (spec : Fluentd) (cfg : Defaults) : Service :=
  let port := FluentdDefaults_HTTPPort (Defaults_Fluentd cfg) in
  let openshift := LoggingServiceSpec_OpenshiftDeploy (LoggingService_Spec cr) in
  let service := NewService fluentd_name (GetNamespace cr) (zero
    <| ServiceOpts_Labels := Some (fluentd_selectorLabels openshift) |>
    <| ServiceOpts_Selector := Some {[ "name" := fluentd_name ]} |>
    <| ServiceOpts_Ports := [mkServicePort fluentd_name port ProtocolTCP (FromInt32 port)] |>) in
  SetLabelsForResource
    (zero <| LabelInput_Name := fluentd_name |> <| LabelInput_Component := ComponentBackend |>
          <| LabelInput_ComponentLabels := Fluentd_Labels spec |>) None service.

(** ** The volumes and their mounts *)

Definition fluentd_reserved_names : list string :=
  (["sysconfigdocker"] ++ ["dockerdaemon"; "dockerhostname"; "varlibdockercontainers"]) ++
  ["varlog"; "config"; "tmp"] ++
  certificate_names "tls" ++ certificate_names "loki-tls" ++ certificate_names "http-tls".

Definition fluentd_reserved_paths : list string :=
  (["/etc/sysconfig/docker"] ++
   ["/etc/docker/daemon.json"; "/etc/docker-hostname"; "/var/lib/docker/containers"]) ++
  ["/var/log"; "/fluentd/etc"; "/tmp"] ++
  certificate_paths "/fluentd/tls" ++ certificate_paths "/fluentd/output/loki/tls" ++
  certificate_paths "/fluentd/output/http/tls".

Lemma fluentd_reserved_NoDup : NoDup fluentd_reserved_names ∧ NoDup fluentd_reserved_paths.
Proof. split; apply (bool_decide_unpack _); by vm_compute. Qed.

(** A projection of the pairs that depends only on the certificate and not on the
    Secret it comes from. *)
Lemma sublist_fluentd_certificates {B} (f : Volume * VolumeMount → B) certs prefix dir ca cert key :
  (∀ n k, f (fluentd_secret (prefix +:+ "-" +:+ "ca") n,
             fluentd_mount (prefix +:+ "-" +:+ "ca") (dir +:+ "/" +:+ "ca.crt") k true) = ca) →
  (∀ n k, f (fluentd_secret (prefix +:+ "-" +:+ "cert") n,
             fluentd_mount (prefix +:+ "-" +:+ "cert") (dir +:+ "/" +:+ "tls.crt") k true) = cert) →
  (∀ n k, f (fluentd_secret (prefix +:+ "-" +:+ "key") n,
             fluentd_mount (prefix +:+ "-" +:+ "key") (dir +:+ "/" +:+ "tls.key") k true) = key) →
  sublist (f <$> fluentd_certificateVolumes certs prefix dir) [ca; cert; key].
Proof.
  intros Hca Hcert Hkey.
  assert (Hone : ∀ suffix file n k y,
    (∀ n k, f (fluentd_secret (prefix +:+ "-" +:+ suffix) n,
               fluentd_mount (prefix +:+ "-" +:+ suffix) (dir +:+ "/" +:+ file) k true) = y) →
    sublist (f <$> fluentd_certificate prefix dir suffix file n k) [y]).
  { intros suffix file n k y Hy. unfold fluentd_certificate.
    case_match; [apply sublist_nil_l|]. cbn. by rewrite Hy. }
  unfold fluentd_certificateVolumes. rewrite !fmap_app.
  apply (sublist_app _ [ca]); [|apply (sublist_app _ [cert])];
    (case_match; [by apply Hone|apply sublist_nil_l]).
Qed.

(** The same for all the pairs of the pod: their names are a sublist of the reserved
    names, their paths of the reserved paths. *)
Lemma fluentd_mounted_sublists cr spec def :
  sublist ((λ p, Volume_Name p.1) <$> fluentd_mounted cr spec def) fluentd_reserved_names ∧
  sublist ((λ p, VolumeMount_MountPath p.2) <$> fluentd_mounted cr spec def) fluentd_reserved_paths.
Proof.
  unfold fluentd_mounted, fluentd_reserved_names, fluentd_reserved_paths. rewrite !fmap_app.
  split; (apply sublist_app;
    [unfold fluentd_docker_volumes; destruct (is_docker cr); [|apply sublist_nil_l];
     rewrite fmap_app; apply sublist_app; [|reflexivity];
     destruct (is_ubuntu cr); [apply sublist_nil_l|reflexivity]|];
    apply sublist_app; [reflexivity|]; apply sublist_app;
    [unfold fluentd_graylog_tls;
     destruct (TLS_GenerateCerts _) as [gen|]; [destruct (GenerateCerts_Enabled gen)|];
       first [reflexivity|by apply sublist_fluentd_certificates]|];
    destruct (Fluentd_Output spec) as [output|]; [|apply sublist_nil_l];
    rewrite fmap_app; apply sublist_app; apply sublist_with_certificates; intros c;
    by apply sublist_fluentd_certificates).
Qed.

(** Each mount is of its own volume. *)
Definition mounted_same (ps : list (Volume * VolumeMount)) : Prop :=
  Forall (λ p, VolumeMount_Name p.2 = Volume_Name p.1) ps.

Lemma fluentd_certificates_same certs prefix dir :
  mounted_same (fluentd_certificateVolumes certs prefix dir).
Proof.
  assert (Hone : ∀ suffix file n k, mounted_same (fluentd_certificate prefix dir suffix file n k)).
  { intros. unfold fluentd_certificate. by case_match; repeat constructor. }
  unfold fluentd_certificateVolumes, mounted_same.
  repeat (apply Forall_app; split); (case_match; [apply Hone|constructor]).
Qed.

Lemma fluentd_mounted_same cr spec def : mounted_same (fluentd_mounted cr spec def).
Proof.
  unfold mounted_same, fluentd_mounted. repeat (apply Forall_app; split).
  - unfold fluentd_docker_volumes.
    destruct (is_docker cr), (is_ubuntu cr); cbn; repeat constructor.
  - repeat constructor.
  - unfold fluentd_graylog_tls.
    destruct (TLS_GenerateCerts _) as [gen|]; [destruct (GenerateCerts_Enabled gen)|];
      first [by repeat constructor|apply fluentd_certificates_same].
  - destruct (Fluentd_Output spec) as [output|]; [|constructor].
    apply Forall_app; split; unfold with_certificates;
      (case_match; [apply fluentd_certificates_same|constructor]).
Qed.

Lemma mounted_same_names ps : mounted_same ps → mount_names ps.*2 = volume_names ps.*1.
Proof.
  unfold mount_names, volume_names. induction 1 as [|p ps Hp _ IH]; [done|].
  cbn. by rewrite Hp, <- IH.
Qed.

(** ** Properties *)

(** The pod of the FluentD DaemonSet is well formed for every custom resource:
    no two volumes share a name, each container mounts only volumes of the pod and
    no two mounts share a path, as long as the volumes and mounts that the custom
    resource adds avoid the operator's own names and paths and each other.  Every
    one of the operator's volumes is mounted in the fluentd container. *)
Theorem fluentd_DaemonSet_well_formed cr spec cfg :
  let added_volumes := volume_names (Fluentd_AdditionalVolumes spec) in
  let added_mounts := Fluentd_AdditionalVolumeMounts spec in
  NoDup added_volumes → (∀ n, n ∈ added_volumes → n ∉ fluentd_reserved_names) →
  NoDup (mount_paths added_mounts) →
  (∀ n, n ∈ mount_paths added_mounts → n ∉ fluentd_reserved_paths) →
  let volumes := (fluentd_mounted cr spec (Defaults_Fluentd cfg)).*1 in
  mount_names added_mounts ⊆ volume_names volumes ++ added_volumes →
  let pod := PodTemplateSpec_Spec (DaemonSet_Template (fluentd_DaemonSet cr spec cfg)) in
  well_formed_pod [] pod ∧
  ∃ c, c ∈ PodSpec_Containers pod ∧
    volume_names volumes ⊆ mount_names (Container_VolumeMounts c).
Proof.
  intros added_volumes added_mounts Hnd Hres Hndp Hresp volumes Hadd pod.
  set (def := Defaults_Fluentd cfg) in *.
  destruct (fluentd_mounted_sublists cr spec def) as [Hsn Hsp].
  set (mounts := (fluentd_mounted cr spec def).*2 ++ added_mounts).
  set (reloader := fluentd_reloadContainerSpec spec def).
  set (main := fluentd_container cr spec def mounts).
  assert (Hpod : PodSpec_Volumes pod = volumes ++ Fluentd_AdditionalVolumes spec ∧
    PodSpec_InitContainers pod = [] ∧ PodSpec_Containers pod = [reloader; main]).
  { unfold pod, fluentd_DaemonSet. cbn [fluentd_volumes]. by destruct (is_blank _). }
  destruct Hpod as (Hv & Hi & Hc).
  assert (Hnames : volume_names (PodSpec_Volumes pod) = volume_names volumes ++ added_volumes)
    by (unfold volume_names; by rewrite Hv, fmap_app).
  assert (Hreload : Container_VolumeMounts reloader
    = [ mkVolumeMount fluentd_configVolume fluentd_configDir "" true;
        mkVolumeMount fluentd_tmpVolume "/tmp" "" false ])
    by (unfold reloader, fluentd_reloadContainerSpec; by destruct (Fluentd_ConfigmapReload spec)).
  assert (Hall : mount_names (Container_VolumeMounts main)
                 = volume_names volumes ++ mount_names added_mounts).
  { unfold main, mounts. cbn. unfold mount_names at 1. rewrite fmap_app. f_equal.
    apply (mounted_same_names _ (fluentd_mounted_same cr spec def)). }
  assert (Hfixed : [fluentd_configVolume; fluentd_tmpVolume] ⊆ volume_names volumes).
  { unfold volumes, fluentd_mounted, volume_names. rewrite !fmap_app.
    intros x Hx. apply elem_of_app. right. apply elem_of_app. left. right. exact Hx. }
  split.
  - split.
    + rewrite Hnames. refine (NoDup_add _ _ _ _ (proj1 fluentd_reserved_NoDup) Hnd Hres).
      unfold volume_names, volumes. by rewrite <- list_fmap_compose.
    + intros c. rewrite Hi, Hc, Hnames. cbn [app]. rewrite !elem_of_cons, elem_of_nil.
      intros [->|[->|[]]]; intros n.
      * rewrite Hreload. intros Hn. apply elem_of_app. left. by apply Hfixed.
      * rewrite Hall. intros [?|?]%elem_of_app; [apply elem_of_app; by left|by apply Hadd].
    + intros c. rewrite Hi, Hc. cbn [app]. rewrite !elem_of_cons, elem_of_nil.
      intros [->|[->|[]]].
      * rewrite Hreload. apply (bool_decide_unpack _). by vm_compute.
      * unfold main, mounts, mount_paths. cbn. rewrite fmap_app, <- list_fmap_compose.
        exact (NoDup_add _ _ _ Hsp (proj2 fluentd_reserved_NoDup) Hndp Hresp).
  - exists main. rewrite Hc, Hall. split; [right; left|]. intros n Hn. apply elem_of_app. by left.
Qed.

(** The selector of the FluentD DaemonSet selects its own pods, whatever labels
    the custom resource adds, and so does the Service; and unless the custom
    resource asks for a privileged container, no container can gain privileges. *)
Theorem fluentd_DaemonSet_selects_hardened cr spec cfg :
  let ds := fluentd_DaemonSet cr spec cfg in
  let pod_labels := template_labels (DaemonSet_Template ds) in
  selects (DaemonSet_Selector ds) pod_labels ∧
  selects (Service_Selector (fluentd_Service cr spec cfg)) pod_labels ∧
  (Fluentd_SecurityContextPrivileged spec = false →
   ∀ c, c ∈ PodSpec_Containers (PodTemplateSpec_Spec (DaemonSet_Template ds)) →
     hardened (Container_SecurityContext c)).
Proof.
  intros ds pod_labels.
  set (openshift := LoggingServiceSpec_OpenshiftDeploy (LoggingService_Spec cr)).
  assert (Hlabels : ∃ inp, LabelInput_Name inp = fluentd_name ∧
    pod_labels = Some (templateLabels inp (Some
      (<["app.kubernetes.io/technology" := fluentd_technology]>
         (fluentd_selectorLabels openshift))))).
  { eexists. split; [|apply label_DaemonSet_template]. done. }
  destruct Hlabels as (inp & Hinp & ->). split_and!.
  - change (DaemonSet_Selector ds) with (Some (fluentd_selectorLabels openshift)).
    unfold fluentd_selectorLabels. solve_selects.
  - change (Service_Selector _) with (Some ({[ "name" := fluentd_name ]} : smap)).
    rewrite <- Hinp. solve_selects.
  - intros Hp c Hc.
    assert (Hin : c ∈ [fluentd_reloadContainerSpec spec (Defaults_Fluentd cfg);
      fluentd_container cr spec (Defaults_Fluentd cfg)
        (fluentd_volumes cr spec (Defaults_Fluentd cfg)).2]).
    { revert Hc. unfold ds, fluentd_DaemonSet. cbn [fluentd_volumes]. by destruct (is_blank _). }
    rewrite !elem_of_cons, elem_of_nil in Hin. destruct Hin as [->|[->|[]]].
    + unfold fluentd_reloadContainerSpec. by destruct (Fluentd_ConfigmapReload spec).
    + unfold fluentd_container. by rewrite Hp.
Qed.

(** ** Witnesses *)

Definition example_fluentd : Fluentd :=
  zero <| Fluentd_AdditionalVolumes := [mkVolume "extra" (EmptyDir "" None)] |>
       <| Fluentd_AdditionalVolumeMounts :=
            [mkVolumeMount "extra" "/extra" "" false; mkVolumeMount "varlog" "/logs" "" true] |>
       <| Fluentd_Labels := Some {[ "name" := "mine" ]} |>.

Lemma fluentd_DaemonSet_well_formed_witness :
  well_formed_pod [] (PodTemplateSpec_Spec (DaemonSet_Template
    (fluentd_DaemonSet example_fluentbit_cr example_fluentd defaults_Get))).
Proof.
  apply (fluentd_DaemonSet_well_formed example_fluentbit_cr example_fluentd defaults_Get).
  - apply NoDup_singleton.
  - intros n ->%list_elem_of_singleton. apply (bool_decide_unpack _). by vm_compute.
  - apply (bool_decide_unpack _). by vm_compute.
  - intros n [-> | ->%list_elem_of_singleton]%elem_of_cons; apply (bool_decide_unpack _); by vm_compute.
  - apply (bool_decide_unpack _). by vm_compute.
Defined.

Lemma fluentd_DaemonSet_selects_hardened_witness :
  Forall (λ c, hardened (Container_SecurityContext c))
    (PodSpec_Containers (PodTemplateSpec_Spec (DaemonSet_Template
       (fluentd_DaemonSet example_fluentbit_cr example_fluentd defaults_Get)))).
Proof.
  apply Forall_forall.
  apply (fluentd_DaemonSet_selects_hardened example_fluentbit_cr example_fluentd defaults_Get).
  reflexivity.
Defined.
