(* ===== verification/EventsReaderBuilder.v ===== *)
(** * The Deployment and Service of the cloud events reader: internal/builder/eventsreader *)

From S2P Require Import Prelude GoStrings KubeTypes Api Labels Operator Component Defaults.
From S2P Require Import Builder.

Definition eventsreader_name : string := "events-reader".
Definition eventsreader_technology : string := "go".
Definition eventsreader_tmpVolume : string := "tmp".

Definition eventsreader_selector : smap := {[ "name" := eventsreader_name ]}.

Definition eventsreader_podSecurityContext (openshift : bool) (id : Z) : PodSecurityContext :=
  let sc := zero
    <| PodSecurityContext_RunAsNonRoot := Some true |>
    <| PodSecurityContext_RunAsGroup := Some id |>
    <| PodSecurityContext_SeccompType := Some "RuntimeDefault" |> in
  if negb openshift then sc <| PodSecurityContext_RunAsUser := Some id |> else sc.

Definition eventsreader_containerSecurityContext (openshift : bool) (id : Z) : SecurityContext :=
  let sc := zero
    <| SecurityContext_AllowPrivilegeEscalation := Some false |>
    <| SecurityContext_ReadOnlyRootFilesystem := Some true |>
    <| SecurityContext_RunAsNonRoot := Some true |>
    <| SecurityContext_Capabilities := Some (mkCapabilities [] ["ALL"]) |>
    <| SecurityContext_RunAsGroup := Some id |> in
  if negb openshift then sc <| SecurityContext_RunAsUser := Some id |> else sc.

Definition eventsreader_container (cr : LoggingService) (spec : CloudEventsReader)
    (def : EventsReaderDefaults) : Container :=
  let openshift := LoggingServiceSpec_OpenshiftDeploy (LoggingService_Spec cr) in
  NewContainer eventsreader_name (zero
    <| ContainerOpts_Image := CloudEventsReader_DockerImage spec |>
    <| ContainerOpts_ImagePullPolicy := PullIfNotPresent |>
    <| ContainerOpts_Command := EventsReaderDefaults_Command def |>
    <| ContainerOpts_Args :=
         match CloudEventsReader_Args spec with None => [] | Some args => args end |>
    <| ContainerOpts_Env :=
         [mkEnvVar "OPENSHIFT_URL" (LoggingServiceSpec_CloudURL (LoggingService_Spec cr)) None] |>
    <| ContainerOpts_Ports := [mkContainerPort "" (EventsReaderDefaults_Port def) ProtocolTCP] |>
    <| ContainerOpts_Resources :=
         default (EventsReaderDefaults_Resources def)
           (FirstNonNil (CloudEventsReader_Resources spec)
              (Some (EventsReaderDefaults_Resources def))) |>
    <| ContainerOpts_VolumeMounts := [mkVolumeMount eventsreader_tmpVolume "/tmp" "" false] |>
    <| ContainerOpts_LivenessProbe := Some (EventsReaderDefaults_LivenessProbe def) |>
    <| ContainerOpts_ReadinessProbe := Some (EventsReaderDefaults_ReadinessProbe def) |>
    <| ContainerOpts_SecurityContext :=
         Some (eventsreader_containerSecurityContext openshift (EventsReaderDefaults_RunAsID def)) |>).

Definition eventsreader_Deployment (cr : LoggingService) (spec : CloudEventsReader) (cfg : Defaults) :
    Deployment :=
  let def := Defaults_EventsReader cfg in
  let openshift := LoggingServiceSpec_OpenshiftDeploy (LoggingService_Spec cr) in
  let podSpec := zero
    <| PodSpec_ServiceAccountName := eventsreader_name |>
    <| PodSpec_NodeSelector :=
         NodeSelector (CloudEventsReader_NodeSelectorKey spec) (CloudEventsReader_NodeSelectorValue spec) |>
    <| PodSpec_SecurityContext :=
         Some (eventsreader_podSecurityContext openshift (EventsReaderDefaults_RunAsID def)) |>
    <| PodSpec_Volumes :=
         [mkVolume eventsreader_tmpVolume (EmptyDir "" (Some (EventsReaderDefaults_TmpVolumeSize def)))] |>
    <| PodSpec_Containers := [eventsreader_container cr spec def] |>
    <| PodSpec_Affinity := CloudEventsReader_Affinity spec |> in
  let podSpec :=
    if negb (is_blank (CloudEventsReader_PriorityClassName spec))
    then podSpec <| PodSpec_PriorityClassName := CloudEventsReader_PriorityClassName spec |>
    else podSpec in
  let deployment := NewDeployment eventsreader_name (GetNamespace cr) (zero
    <| DeploymentOpts_Selector := Some eventsreader_selector |>
    <| DeploymentOpts_Strategy :=
         mkUpdateStrategy "RollingUpdate" (Some (EventsReaderDefaults_RollingMaxSurge def))
           (Some (EventsReaderDefaults_RollingMaxUnavailable def)) |>
    <| DeploymentOpts_PodSpec := podSpec |>
    <| DeploymentOpts_Annotations := CloudEventsReader_Annotations spec |>
    <| DeploymentOpts_PodAnnotations := CloudEventsReader_Annotations spec |>) in
  label_Deployment
    (mkLabelInput eventsreader_name ComponentBackend
       (GetInstanceLabel eventsreader_name (GetNamespace cr))
       (GetTagFromImage (CloudEventsReader_DockerImage spec)) eventsreader_technology
       (CloudEventsReader_Labels spec))
    deployment.

Definition eventsreader_Service (cr : LoggingService) (spec : CloudEventsReader) (cfg : Defaults) :
    Service :=
  let port := EventsReaderDefaults_Port (Defaults_EventsReader cfg) in
  let service := NewService eventsreader_name (GetNamespace cr) (zero
    <| ServiceOpts_Selector := Some eventsreader_selector |>
    <| ServiceOpts_Ports := [mkServicePort eventsreader_name port ProtocolTCP (FromInt32 port)] |>) in
  SetLabelsForResource
    (zero <| LabelInput_Name := eventsreader_name |> <| LabelInput_Component := ComponentBackend |>
          <| LabelInput_ComponentLabels := CloudEventsReader_Labels spec |>) None service.

(** The Deployment of the events reader and its Service select the same pods, the
    Deployment's own, whatever labels the custom resource adds; the pod is well formed
    and hardened; on OpenShift neither the pod nor the container fixes the user (the
    security context constraint assigns it) and elsewhere both run as the same
    non-root user; the Service leads to a port the container opens. *)
Theorem eventsreader_Deployment_correct cr spec cfg :
  let d := eventsreader_Deployment cr spec cfg in
  let pod := PodTemplateSpec_Spec (Deployment_Template d) in
  let openshift := LoggingServiceSpec_OpenshiftDeploy (LoggingService_Spec cr) in
  let user := if openshift then None else Some (EventsReaderDefaults_RunAsID (Defaults_EventsReader cfg)) in
  selects (Deployment_Selector d) (template_labels (Deployment_Template d)) ∧
  Service_Selector (eventsreader_Service cr spec cfg) = Deployment_Selector d ∧
  well_formed_pod [] pod ∧
  (∃ sc, PodSpec_SecurityContext pod = Some sc ∧ PodSecurityContext_RunAsNonRoot sc = Some true ∧
     PodSecurityContext_RunAsUser sc = user) ∧
  ∃ c, PodSpec_Containers pod = [c] ∧ hardened (Container_SecurityContext c) ∧
    (SecurityContext_RunAsUser <$> Container_SecurityContext c) = Some user ∧
    ((λ p, FromInt32 (ContainerPort_ContainerPort p)) <$> Container_Ports c)
    = ServicePort_TargetPort <$> Service_Ports (eventsreader_Service cr spec cfg).
Proof.
  set (def := Defaults_EventsReader cfg).
  set (openshift := LoggingServiceSpec_OpenshiftDeploy (LoggingService_Spec cr)).
  intros d pod user.
  assert (Hpod : PodSpec_Containers pod = [eventsreader_container cr spec def] ∧
    PodSpec_InitContainers pod = [] ∧
    PodSpec_Volumes pod
      = [mkVolume eventsreader_tmpVolume (EmptyDir "" (Some (EventsReaderDefaults_TmpVolumeSize def)))] ∧
    PodSpec_SecurityContext pod
      = Some (eventsreader_podSecurityContext openshift (EventsReaderDefaults_RunAsID def))).
  { unfold pod, d, eventsreader_Deployment. by destruct (is_blank _). }
  destruct Hpod as (Hc & Hi & Hv & Hsc).
  split_and!.
  - change (Deployment_Selector d) with (Some eventsreader_selector).
    assert (Hlabels : ∃ inp, LabelInput_Name inp = eventsreader_name ∧
      template_labels (Deployment_Template d) = Some (templateLabels inp None)).
    { eexists. split; [|apply label_Deployment_template]. done. }
    destruct Hlabels as (inp & Hinp & ->). unfold eventsreader_selector. rewrite <- Hinp. solve_selects.
  - done.
  - split.
    + rewrite Hv. apply NoDup_singleton.
    + intros c. rewrite Hi, Hc, Hv. by intros ->%list_elem_of_singleton.
    + intros c. rewrite Hi, Hc. intros ->%list_elem_of_singleton. apply NoDup_singleton.
  - eexists. split; [exact Hsc|]. unfold user. by destruct openshift.
  - eexists. split; [exact Hc|]. cbn. unfold user. fold openshift. by destruct openshift.
Qed.
