(* ===== verification/HABuilder.v ===== *)
(** * FluentBit in the high-availability mode: internal/builder/forwarderaggregator

    The forwarder DaemonSet and Service (forwarder.go), the aggregator StatefulSet and
    Service (aggregator.go) and what they share (shared.go).  The functions of the
    source that return the volumes and the mounts of the same files in two lists
    return here the list of the pairs.  [resource.ParseQuantity] is not part of the
    repository: it is a parameter. *)

From S2P Require Import Prelude GoStrings KubeTypes Api Labels Operator Component Defaults.
From S2P Require Import Builder FluentbitBuilder FluentdBuilder.

(** ** shared.go *)

Definition ha_forwarderName : string := "logging-fluentbit-forwarder".
Definition ha_aggregatorName : string := "logging-fluentbit-aggregator".
Definition ha_reloadName : string := "configmap-reload".
Definition ha_technology : string := "c".
Definition ha_legacyTechnology : string := "cpp".
Definition ha_httpPort : Z := 2020.
Definition ha_logToMetricsPort : Z := 2021.
Definition ha_forwardPort : Z := 24224.
Definition ha_reloadPort : Z := 9533.
Definition ha_configVolume : string := "config".
Definition ha_tmpVolume : string := "tmp".
Definition ha_stateVolume : string := "fluentbit-state".
Definition ha_storageVolume : string := "storage".
Definition ha_configDir : string := "/fluent-bit/etc".
Definition ha_secretMode : Z := 420.
Definition ha_nonRootID : Z := 1001.
Definition ha_tmpVolumeSize : Quantity := MustParse "100Mi".

Definition ha_provider (openshift : bool) : string := if openshift then "openshift" else "kubernetes".

Definition ha_workloadLabels (component : string) (openshift : bool) : smap :=
  <["app.kubernetes.io/technology" := ha_legacyTechnology]>
  (<["component" := component]>
  (<["provider" := ha_provider openshift]>
  {[ "kubernetes.io/cluster-service" := "true" ]})).

Definition ha_nonRootSecurityContext : SecurityContext := zero
  <| SecurityContext_AllowPrivilegeEscalation := Some false |>
  <| SecurityContext_ReadOnlyRootFilesystem := Some true |>
  <| SecurityContext_Capabilities := Some (mkCapabilities [] ["ALL"]) |>
  <| SecurityContext_RunAsNonRoot := Some true |>
  <| SecurityContext_RunAsUser := Some ha_nonRootID |>
  <| SecurityContext_RunAsGroup := Some ha_nonRootID |>.

Definition ha_reloadContainer (reload : option ConfigmapReload) (fallback : ResourceRequirements) :
    Container :=
  let '(image, resources) :=
    match reload with
    | None => ("", fallback)
    | Some reload =>
        (ConfigmapReload_DockerImage reload,
         default fallback (FirstNonNil (ConfigmapReload_Resources reload) (Some fallback)))
    end in
  NewContainer ha_reloadName (zero
    <| ContainerOpts_Image := image |>
    <| ContainerOpts_Args :=
         [ "--volume-dir=" +:+ ha_configDir; "--webhook-url=http://localhost:2020/api/v2/reload";
           "--webhook-retries=5" ] |>
    <| ContainerOpts_VolumeMounts :=
         [ mkVolumeMount ha_configVolume ha_configDir "" true;
           mkVolumeMount ha_tmpVolume "/tmp" "" false ] |>
    <| ContainerOpts_Resources := resources |>
    <| ContainerOpts_Ports := [mkContainerPort "reload-metrics" ha_reloadPort ""] |>
    <| ContainerOpts_SecurityContext := Some ha_nonRootSecurityContext |>).

Definition ha_httpProbe (path : string) (failureThreshold : Z) : Probe := {|
  Probe_Path := path; Probe_Port := FromInt32 ha_httpPort; Probe_Scheme := "HTTP";
  Probe_InitialDelaySeconds := 5; Probe_TimeoutSeconds := 10; Probe_PeriodSeconds := 10;
  Probe_SuccessThreshold := 1; Probe_FailureThreshold := failureThreshold;
|}.

Definition ha_setMainContainerDefaults (c : Container) : Container :=
  c <| Container_TerminationMessagePath := "/dev/termination-log" |>
    <| Container_TerminationMessagePolicy := "File" |>
    <| Container_ImagePullPolicy := PullIfNotPresent |>.

Definition ha_emptyDirVolume (name : string) (size : Quantity) : Volume :=
  mkVolume name (EmptyDir "" (Some size)).

Definition ha_secretVolume (name secretName : string) : Volume :=
  mkVolume name (SecretSource secretName [] ha_secretMode).

Definition ha_hostPathVolume (name path pathType : string) : Volume :=
  mkVolume name (HostPath path pathType).

Record ha_secretFile : Type := mk_ha_secretFile {
  ha_secretName : string;
  ha_secretKey : string;
}.

Definition ha_secretFile_set (f : ha_secretFile) : bool :=
  negb (String.eqb (ha_secretName f) "") && negb (String.eqb (ha_secretKey f) "").

(** The CA, the certificate and the key, each empty when it is not configured. *)
Definition ha_certificateFiles (certs : Certificates) : ha_secretFile * ha_secretFile * ha_secretFile :=
  let none := mk_ha_secretFile "" "" in
  (match Certificates_CA certs with
   | Some c => mk_ha_secretFile (CA_SecretName c) (CA_SecretKey c) | None => none end,
   match Certificates_Cert certs with
   | Some c => mk_ha_secretFile (Cert_SecretName c) (Cert_SecretKey c) | None => none end,
   match Certificates_Key certs with
   | Some c => mk_ha_secretFile (Key_SecretName c) (Key_SecretKey c) | None => none end).

(** One file of [certificateMounts]'s loop. *)
Definition ha_certificateMount (prefix dir suffix path : string) (file : ha_secretFile) :
    list (Volume * VolumeMount) :=
  if negb (ha_secretFile_set file) then []
  else
    let name := prefix +:+ suffix in
    [(ha_secretVolume name (ha_secretName file),
      mkVolumeMount name (dir +:+ "/" +:+ path) (ha_secretKey file) true)].

Definition ha_certificateMounts (prefix dir : string) (files : ha_secretFile * ha_secretFile * ha_secretFile) :
    list (Volume * VolumeMount) :=
  let '(ca, cert, key) := files in
  ha_certificateMount prefix dir "-ca" "ca.crt" ca ++
  ha_certificateMount prefix dir "-cert" "tls.crt" cert ++
  ha_certificateMount prefix dir "-key" "tls.key" key.

(** [generatedTLSMounts(ca, cert, key)]: the three names with the three files. *)
Definition ha_generatedTLSMounts (files : list ha_secretFile) : list (Volume * VolumeMount) :=
  zip_with (λ name file,
    (ha_secretVolume name (ha_secretName file),
     mkVolumeMount name ("/fluent-bit/tls/" +:+ ha_secretKey file) (ha_secretKey file) true))
    ["tls-ca"; "tls-cert"; "tls-key"] files.

Definition ha_collectorTLSMounts (tls : FluentbitTLS) : list (Volume * VolumeMount) :=
  let configured :=
    ha_certificateMounts "tls" "/fluent-bit/tls"
      (ha_certificateFiles (TLS_Certificates (FluentbitTLS_TLS tls))) in
  match TLS_GenerateCerts (FluentbitTLS_TLS tls) with
  | Some gen =>
      if GenerateCerts_Enabled gen then
        let name := GenerateCerts_SecretName gen in
        ha_generatedTLSMounts
          [ mk_ha_secretFile name "ca.crt"; mk_ha_secretFile name "tls.crt";
            mk_ha_secretFile name "tls.key" ]
      else configured
  | None => configured
  end.

Section ha.
Variable ParseQuantity : string → error + Quantity.

Definition ha_parseQuantity (field value : string) : error + Quantity :=
  match ParseQuantity value with
  | inl err => inl (errorf_wrap ("invalid " +:+ field +:+ " " +:+ quoted value) err)
  | inr quantity => inr quantity
  end.

(** ** forwarder.go *)

(** The docker files of the node. *)
Definition ha_docker_storage (cr : LoggingService) : list (Volume * VolumeMount) :=
  if is_docker cr then
    (if negb (is_ubuntu cr) then
       [(ha_hostPathVolume "sysconfigdocker" "/etc/sysconfig/docker" HostPathFileOrCreate,
         mkVolumeMount "sysconfigdocker" "/etc/sysconfig/docker" "" true)]
     else []) ++
    [ (ha_hostPathVolume "dockerdaemon" "/etc/docker/daemon.json" HostPathFileOrCreate,
       mkVolumeMount "dockerdaemon" "/etc/docker/daemon.json" "" true);
      (ha_hostPathVolume "dockerhostname" "/etc/hostname" HostPathFileOrCreate,
       mkVolumeMount "dockerhostname" "/etc/docker-hostname" "" true);
      (ha_hostPathVolume "varlibdockercontainers" "/var/lib/docker/containers" HostPathUnset,
       mkVolumeMount "varlibdockercontainers" "/var/lib/docker/containers" "" true) ]
  else [].

(** The volume of the read offsets. *)
Definition ha_state_volume (spec : Fluentbit) : error + Volume :=
  if UsesPersistentOffsets spec then
    inr (ha_hostPathVolume ha_stateVolume "/var/lib/fluent-bit/state" HostPathDirectoryOrCreate)
  else
    match ha_parseQuantity "fluentbit.memoryOnlyStateSizeLimit" (EffectiveMemoryOnlyStateSizeLimit spec) with
    | inl err => inl err
    | inr size => inr (mkVolume ha_stateVolume (EmptyDir "Memory" (Some size)))
    end.

Definition ha_forwarderStorage (cr : LoggingService) (spec : Fluentbit) :
    error + list (Volume * VolumeMount) :=
  match ha_state_volume spec with
  | inl err => inl err
  | inr state =>
      inr (ha_docker_storage cr ++
        [ (ha_hostPathVolume "varlog" "/var/log" HostPathUnset,
           mkVolumeMount "varlog" "/var/log" "" true);
          (state, mkVolumeMount ha_stateVolume "/fluent-bit/state" "" false) ] ++
        (if UsesFilesystemBuffer spec then
           [(ha_hostPathVolume "fluentbit-storage" "/var/lib/fluent-bit/storage"
               HostPathDirectoryOrCreate,
             mkVolumeMount "fluentbit-storage" "/fluent-bit/storage" "" false)]
         else []) ++
        [ (mkVolume ha_configVolume (ConfigMapSource ha_forwarderName [] ha_secretMode),
           mkVolumeMount ha_configVolume ha_configDir "" true);
          (ha_emptyDirVolume ha_tmpVolume ha_tmpVolumeSize,
           mkVolumeMount ha_tmpVolume "/tmp" "" false) ])
  end.

Definition ha_forwarderPodSecurityContext (openshift : bool) : PodSecurityContext :=
  let sc := zero <| PodSecurityContext_SeccompType := Some "RuntimeDefault" |> in
  if openshift then sc <| PodSecurityContext_SELinuxType := Some "spc_t" |> else sc.

Definition ha_forwarderSecurityContext (privileged : bool) : SecurityContext :=
  let sc := zero
    <| SecurityContext_Privileged := Some privileged |>
    <| SecurityContext_ReadOnlyRootFilesystem := Some true |>
    <| SecurityContext_RunAsNonRoot := Some false |>
    <| SecurityContext_RunAsUser := Some 0%Z |>
    <| SecurityContext_RunAsGroup := Some 0%Z |> in
  if negb privileged then
    sc <| SecurityContext_AllowPrivilegeEscalation := Some false |>
       <| SecurityContext_Capabilities := Some (mkCapabilities ["DAC_OVERRIDE"] ["ALL"]) |>
  else sc.

Definition ha_forwarder_container (spec : Fluentbit) (def : FluentbitAggregatorDefaults)
    (mounts : list VolumeMount) : Container :=
  ha_setMainContainerDefaults (NewContainer ha_forwarderName (zero
    <| ContainerOpts_Image := Fluentbit_DockerImage spec |>
    <| ContainerOpts_SecurityContext :=
         Some (ha_forwarderSecurityContext (Fluentbit_SecurityContextPrivileged spec)) |>
    <| ContainerOpts_Ports := [mkContainerPort "http" ha_httpPort ProtocolTCP] |>
    <| ContainerOpts_Env := [mkEnvVar "NODE_NAME" "" (Some (FieldRef "spec.nodeName"))] |>
    <| ContainerOpts_Resources :=
         default (AggregatorDefaults_ForwarderResources def)
           (FirstNonNil (Fluentbit_Resources spec) (Some (AggregatorDefaults_ForwarderResources def))) |>
    <| ContainerOpts_VolumeMounts := mounts |>
    <| ContainerOpts_LivenessProbe := Some (ha_httpProbe "/" 3) |>
    <| ContainerOpts_ReadinessProbe := Some (ha_httpProbe "/api/v1/health" 5) |>)).

Definition ha_ForwarderDaemonSet (cr : LoggingService) (spec : Fluentbit) (cfg : Defaults) :
    error + DaemonSet :=
  let def := Defaults_Aggregator cfg in
  let openshift := LoggingServiceSpec_OpenshiftDeploy (LoggingService_Spec cr) in
  match ha_forwarderStorage cr spec with
  | inl err => inl err
  | inr storage =>
      let mounted := storage ++ ha_collectorTLSMounts (Fluentbit_TLS spec) in
      let forwarder := ha_forwarder_container spec def mounted.*2 in
      let podSpec := zero
        <| PodSpec_SecurityContext := Some (ha_forwarderPodSecurityContext openshift) |>
        <| PodSpec_Volumes := mounted.*1 |>
        <| PodSpec_Containers :=
             [ ha_reloadContainer (Fluentbit_ConfigmapReload spec)
                 (AggregatorDefaults_ConfigmapReloadResources def);
               forwarder ] |>
        <| PodSpec_TerminationGracePeriodSeconds := Some 30%Z |>
        <| PodSpec_ServiceAccountName := FluentbitComponentName |>
        <| PodSpec_SchedulerName := "default-scheduler" |>
        <| PodSpec_NodeSelector :=
             NodeSelector (Fluentbit_NodeSelectorKey spec) (Fluentbit_NodeSelectorValue spec) |>
        <| PodSpec_Tolerations := default [] (Fluentbit_Tolerations spec) |>
        <| PodSpec_Affinity := Fluentbit_Affinity spec |> in
      let podSpec :=
        if negb (is_blank (Fluentbit_PriorityClassName spec))
        then podSpec <| PodSpec_PriorityClassName := Fluentbit_PriorityClassName spec |>
        else podSpec in
      let daemonSet := NewDaemonSet ha_forwarderName (GetNamespace cr) (zero
        <| DaemonSetOpts_Selector :=
             Some {[ "component" := ha_forwarderName; "provider" := ha_provider openshift ]} |>
        <| DaemonSetOpts_MinReadySeconds := 60%Z |>
        <| DaemonSetOpts_UpdateStrategy := mkUpdateStrategy "RollingUpdate" None (Some (FromInt32 1)) |>
        <| DaemonSetOpts_PodSpec := podSpec |>
        <| DaemonSetOpts_Labels := Some (ha_workloadLabels ha_forwarderName openshift) |>
        <| DaemonSetOpts_PodLabels := Some (ha_workloadLabels ha_forwarderName openshift) |>
        <| DaemonSetOpts_Annotations := Fluentbit_Annotations spec |>
        <| DaemonSetOpts_PodAnnotations := Fluentbit_Annotations spec |>) in
      let daemonSet :=
        daemonSet <| DaemonSet_Template ::=
          λ t, t <| PodTemplateSpec_ObjectMeta ::= SetName ha_forwarderName |> |> in
      inr (label_DaemonSet
        (mkLabelInput ha_forwarderName ComponentBackend
           (GetInstanceLabel ha_forwarderName (GetNamespace cr))
           (GetTagFromImage (Fluentbit_DockerImage spec)) ha_technology (Fluentbit_Labels spec))
        daemonSet)
  end.

Definition ha_ForwarderService (cr : LoggingService) (spec : Fluentbit) : Service :=
  let openshift := LoggingServiceSpec_OpenshiftDeploy (LoggingService_Spec cr) in
  let service := NewService ha_forwarderName (GetNamespace cr) (zero
    <| ServiceOpts_Type := "ClusterIP" |>
    <| ServiceOpts_Ports :=
         [mkServicePort ha_forwarderName ha_httpPort ProtocolTCP (FromInt32 ha_httpPort)] |>
    <| ServiceOpts_Selector :=
         Some {[ "name" := ha_forwarderName; "provider" := ha_provider openshift ]} |>
    <| ServiceOpts_Labels :=
         Some {[ "component" := ha_forwarderName; "provider" := ha_provider openshift ]} |>) in
  SetLabelsForResource
    (zero <| LabelInput_Name := ha_forwarderName |> <| LabelInput_Component := ComponentBackend |>
          <| LabelInput_ComponentLabels := Fluentbit_Labels spec |>) None service.

(** ** aggregator.go *)

Definition ha_bindVolume (spec : FluentbitAggregator) : bool :=
  match FluentbitAggregator_Volume spec with Some volume => ApiVolume_Bind volume | None => false end.

Definition ha_outputTLSMounts (output : option OutputFluentbit) : list (Volume * VolumeMount) :=
  match output with
  | None => []
  | Some output =>
      let add name certs :=
        ha_certificateMounts (name +:+ "-tls") ("/fluent-bit/output/" +:+ name +:+ "/tls")
          (ha_certificateFiles certs) in
      with_certificates (loki_certificates output) (add "loki") ++
      with_certificates (http_certificates output) (add "http") ++
      with_certificates (otel_certificates output) (add "otel")
  end.

(** The volume of the buffer when no claim is bound. *)
Definition ha_storage_volumes (spec : FluentbitAggregator) : error + list Volume :=
  if negb (ha_bindVolume spec) then
    match ha_parseQuantity "fluentbit.aggregator.storageSizeLimit" (EffectiveStorageSizeLimit spec) with
    | inl err => inl err
    | inr size => inr [ha_emptyDirVolume ha_storageVolume size]
    end
  else inr [].

Definition ha_storageClaim (volume : ApiVolume) (def : FluentbitAggregatorDefaults) :
    error + PersistentVolumeClaim :=
  let size :=
    if negb (String.eqb (ApiVolume_StorageSize volume) "")
    then ha_parseQuantity "fluentbit.aggregator.volume.storageSize" (ApiVolume_StorageSize volume)
    else inr (AggregatorDefaults_AggregatorVolumeSize def) in
  match size with
  | inl err => inl err
  | inr size =>
      let claim := zero
        <| PersistentVolumeClaim_ObjectMeta := zero <| ObjectMeta_Name := ha_storageVolume |> |>
        <| PersistentVolumeClaim_AccessModes := ["ReadWriteOnce"] |>
        <| PersistentVolumeClaim_Requests := {[ "storage" := size ]} |> in
      inr (if negb (String.eqb (ApiVolume_StorageClassName volume) "")
           then claim <| PersistentVolumeClaim_StorageClassName := Some (ApiVolume_StorageClassName volume) |>
           else claim)
  end.

(** The claim templates: one when a volume is bound. *)
Definition ha_claims (spec : FluentbitAggregator) (def : FluentbitAggregatorDefaults) :
    error + list PersistentVolumeClaim :=
  match FluentbitAggregator_Volume spec with
  | Some volume =>
      if ApiVolume_Bind volume then
        match ha_storageClaim volume def with inl err => inl err | inr claim => inr [claim] end
      else inr []
  | None => inr []
  end.

Definition ha_aggregator_container (spec : FluentbitAggregator) (def : FluentbitAggregatorDefaults)
    (mounts : list VolumeMount) : Container :=
  ha_setMainContainerDefaults (NewContainer ha_aggregatorName (zero
    <| ContainerOpts_Image := FluentbitAggregator_DockerImage spec |>
    <| ContainerOpts_Ports :=
         [ mkContainerPort "http" ha_httpPort ProtocolTCP;
           mkContainerPort "log-to-metrics" ha_logToMetricsPort ProtocolTCP;
           mkContainerPort "forward" ha_forwardPort ProtocolTCP ] |>
    <| ContainerOpts_Resources :=
         default (AggregatorDefaults_AggregatorResources def)
           (FirstNonNil (FluentbitAggregator_Resources spec)
              (Some (AggregatorDefaults_AggregatorResources def))) |>
    <| ContainerOpts_VolumeMounts := mounts |>
    <| ContainerOpts_LivenessProbe := Some (ha_httpProbe "/" 5) |>
    <| ContainerOpts_ReadinessProbe := Some (ha_httpProbe "/api/v1/health" 5) |>
    <| ContainerOpts_SecurityContext := Some ha_nonRootSecurityContext |>)).

(** The TLS files of the aggregator, and all its mounts. *)
Definition ha_aggregator_tls (spec : FluentbitAggregator) : list (Volume * VolumeMount) :=
  ha_collectorTLSMounts (FluentbitAggregator_TLS spec) ++
  ha_outputTLSMounts (FluentbitAggregator_Output spec).

Definition ha_aggregator_mounts (spec : FluentbitAggregator) : list VolumeMount :=
  [ mkVolumeMount ha_storageVolume "/fluent-bit/storage" "" false;
    mkVolumeMount ha_configVolume ha_configDir "" true;
    mkVolumeMount ha_tmpVolume "/tmp" "" false ] ++ (ha_aggregator_tls spec).*2.

Definition ha_aggregator_pod (spec : FluentbitAggregator) (def : FluentbitAggregatorDefaults)
    (storage : list Volume) : PodSpec :=
  let volumes :=
    storage ++
    [ ha_secretVolume ha_configVolume ha_aggregatorName;
      ha_emptyDirVolume ha_tmpVolume ha_tmpVolumeSize ] ++ (ha_aggregator_tls spec).*1 in
  let podSpec := zero
    <| PodSpec_Volumes := volumes |>
    <| PodSpec_Containers :=
         [ ha_reloadContainer (FluentbitAggregator_ConfigmapReload spec)
             (AggregatorDefaults_ConfigmapReloadResources def);
           ha_aggregator_container spec def (ha_aggregator_mounts spec) ] |>
    <| PodSpec_TerminationGracePeriodSeconds := Some 30%Z |>
    <| PodSpec_ServiceAccountName := ha_aggregatorName |>
    <| PodSpec_DeprecatedServiceAccount := ha_aggregatorName |>
    <| PodSpec_SecurityContext := Some (zero
         <| PodSecurityContext_FSGroup := Some ha_nonRootID |>
         <| PodSecurityContext_FSGroupChangePolicy := Some "OnRootMismatch" |>
         <| PodSecurityContext_SeccompType := Some "RuntimeDefault" |>
         <| PodSecurityContext_RunAsNonRoot := Some true |>
         <| PodSecurityContext_RunAsUser := Some ha_nonRootID |>
         <| PodSecurityContext_RunAsGroup := Some ha_nonRootID |>) |>
    <| PodSpec_SchedulerName := "default-scheduler" |>
    <| PodSpec_NodeSelector :=
         NodeSelector (FluentbitAggregator_NodeSelectorKey spec)
           (FluentbitAggregator_NodeSelectorValue spec) |>
    <| PodSpec_Tolerations := default [] (FluentbitAggregator_Tolerations spec) |>
    <| PodSpec_Affinity := FluentbitAggregator_Affinity spec |> in
  if negb (is_blank (FluentbitAggregator_PriorityClassName spec))
  then podSpec <| PodSpec_PriorityClassName := FluentbitAggregator_PriorityClassName spec |>
  else podSpec.

Definition ha_replicas (spec : FluentbitAggregator) (def : FluentbitAggregatorDefaults) : Z :=
  if negb (Z.eqb (FluentbitAggregator_Replicas spec) 0)
  then to_int32 (FluentbitAggregator_Replicas spec)
  else AggregatorDefaults_AggregatorReplicas def.

Definition ha_AggregatorStatefulSet (cr : LoggingService) (spec : FluentbitAggregator) (cfg : Defaults) :
    error + StatefulSet :=
  let def := Defaults_Aggregator cfg in
  let openshift := LoggingServiceSpec_OpenshiftDeploy (LoggingService_Spec cr) in
  match ha_storage_volumes spec with
  | inl err => inl err
  | inr storage =>
      let statefulSet := NewStatefulSet ha_aggregatorName (GetNamespace cr) (zero
        <| StatefulSetOpts_Replicas := Some (ha_replicas spec def) |>
        <| StatefulSetOpts_ServiceName := ha_aggregatorName |>
        <| StatefulSetOpts_Selector :=
             Some (<["name" := ha_aggregatorName]>
                   {[ "component" := ha_aggregatorName; "provider" := ha_provider openshift ]}) |>
        <| StatefulSetOpts_PodSpec := ha_aggregator_pod spec def storage |>
        <| StatefulSetOpts_Labels := Some (ha_workloadLabels ha_aggregatorName openshift) |>
        <| StatefulSetOpts_PodLabels := Some (ha_workloadLabels ha_aggregatorName openshift) |>
        <| StatefulSetOpts_Annotations := FluentbitAggregator_Annotations spec |>
        <| StatefulSetOpts_PodAnnotations := FluentbitAggregator_Annotations spec |>) in
      let statefulSet := statefulSet
        <| StatefulSet_Template ::= λ t, t <| PodTemplateSpec_ObjectMeta ::= SetName ha_aggregatorName |> |>
        <| StatefulSet_RevisionHistoryLimit := Some 10%Z |> in
      match ha_claims spec def with
      | inl err => inl err
      | inr claims =>
          let statefulSet :=
            if ha_bindVolume spec
            then statefulSet <| StatefulSet_VolumeClaimTemplates := claims |> else statefulSet in
          inr (label_StatefulSet
            (mkLabelInput ha_aggregatorName ComponentBackend
               (GetInstanceLabel ha_aggregatorName (GetNamespace cr))
               (GetTagFromImage (FluentbitAggregator_DockerImage spec)) ha_technology
               (FluentbitAggregator_Labels spec))
            statefulSet)
      end
  end.

Definition ha_AggregatorService (cr : LoggingService) (spec : FluentbitAggregator) : Service :=
  let openshift := LoggingServiceSpec_OpenshiftDeploy (LoggingService_Spec cr) in
  let port name number := mkServicePort name number ProtocolTCP (FromInt32 number) in
  let service := NewService ha_aggregatorName (GetNamespace cr) (zero
    <| ServiceOpts_Type := "ClusterIP" |>
    <| ServiceOpts_Ports :=
         [ port "logging-fluentbit" ha_httpPort; port "log-to-metrics" ha_logToMetricsPort;
           port ha_aggregatorName ha_forwardPort ] |>
    <| ServiceOpts_Selector :=
         Some {[ "name" := ha_aggregatorName; "provider" := ha_provider openshift ]} |>
    <| ServiceOpts_Labels :=
         Some {[ "component" := ha_aggregatorName; "provider" := ha_provider openshift ]} |>) in
  SetLabelsForResource
    (zero <| LabelInput_Name := ha_aggregatorName |> <| LabelInput_Component := ComponentBackend |>
          <| LabelInput_ComponentLabels := FluentbitAggregator_Labels spec |>) None service.
End ha.

(** ** The volumes and their mounts *)

(** A list of pairs whose mounts are of their own volumes, and whose names and paths
    are among the given ones, in their order. *)
Record mounted_within (names paths : list string) (ps : list (Volume * VolumeMount)) : Prop := {
  within_same : mounted_same ps;
  within_names : sublist (volume_names ps.*1) names;
  within_paths : sublist (mount_paths ps.*2) paths;
}.

Lemma mounted_within_nil names paths : mounted_within names paths [].
Proof. split; [constructor|apply sublist_nil_l..]. Qed.

Lemma mounted_within_app ns1 ns2 ps1 ps2 xs ys :
  mounted_within ns1 ps1 xs → mounted_within ns2 ps2 ys →
  mounted_within (ns1 ++ ns2) (ps1 ++ ps2) (xs ++ ys).
Proof.
  intros [H1 H2 H3] [H4 H5 H6]. unfold volume_names, mount_paths in *.
  split; [by apply Forall_app|unfold volume_names, mount_paths; rewrite !fmap_app; by apply sublist_app..].
Qed.

(** A list of constant names and paths. *)
Lemma mounted_within_refl ps :
  mounted_same ps → mounted_within (volume_names ps.*1) (mount_paths ps.*2) ps.
Proof. by split. Qed.

Lemma ha_certificateMount_within prefix dir suffix path file :
  mounted_within [prefix +:+ suffix] [dir +:+ "/" +:+ path]
    (ha_certificateMount prefix dir suffix path file).
Proof.
  unfold ha_certificateMount. case_match; [apply mounted_within_nil|].
  split; [by repeat constructor|reflexivity..].
Qed.

Lemma ha_certificateMounts_within prefix dir files :
  mounted_within (certificate_names prefix) (certificate_paths dir)
    (ha_certificateMounts prefix dir files).
Proof.
  destruct files as [[ca cert] key].
  refine (mounted_within_app [_] _ [_] _ _ _ (ha_certificateMount_within _ _ "-ca" "ca.crt" _) _).
  refine (mounted_within_app [_] _ [_] _ _ _ (ha_certificateMount_within _ _ "-cert" "tls.crt" _) _).
  apply ha_certificateMount_within.
Qed.

Lemma ha_collectorTLSMounts_within tls :
  mounted_within (certificate_names "tls") (certificate_paths "/fluent-bit/tls")
    (ha_collectorTLSMounts tls).
Proof.
  unfold ha_collectorTLSMounts.
  destruct (TLS_GenerateCerts _) as [gen|]; [destruct (GenerateCerts_Enabled gen)|];
    try apply ha_certificateMounts_within.
  split; [by repeat constructor|reflexivity..].
Qed.

Lemma within_with_certificates names paths certs f :
  (∀ c, mounted_within names paths (f c)) → mounted_within names paths (with_certificates certs f).
Proof. intros Hf. destruct certs; [apply Hf|apply mounted_within_nil]. Qed.

Lemma ha_outputTLSMounts_within output :
  mounted_within
    (certificate_names "loki-tls" ++ certificate_names "http-tls" ++ certificate_names "otel-tls")
    (certificate_paths "/fluent-bit/output/loki/tls" ++
     certificate_paths "/fluent-bit/output/http/tls" ++ certificate_paths "/fluent-bit/output/otel/tls")
    (ha_outputTLSMounts output).
Proof.
  destruct output as [output|]; [|apply mounted_within_nil].
  repeat apply mounted_within_app; apply within_with_certificates; intros c;
    apply ha_certificateMounts_within.
Qed.

Definition ha_forwarder_names : list string :=
  ((["sysconfigdocker"] ++ ["dockerdaemon"; "dockerhostname"; "varlibdockercontainers"]) ++
   ["varlog"; "fluentbit-state"] ++ ["fluentbit-storage"] ++ ["config"; "tmp"]) ++
  certificate_names "tls".

Definition ha_forwarder_paths : list string :=
  ((["/etc/sysconfig/docker"] ++
    ["/etc/docker/daemon.json"; "/etc/docker-hostname"; "/var/lib/docker/containers"]) ++
   ["/var/log"; "/fluent-bit/state"] ++ ["/fluent-bit/storage"] ++ ["/fluent-bit/etc"; "/tmp"]) ++
  certificate_paths "/fluent-bit/tls".

Lemma ha_forwarder_reserved_NoDup : NoDup ha_forwarder_names ∧ NoDup ha_forwarder_paths.
Proof. split; apply (bool_decide_unpack _); by vm_compute. Qed.

Lemma ha_docker_storage_within cr :
  mounted_within
    (["sysconfigdocker"] ++ ["dockerdaemon"; "dockerhostname"; "varlibdockercontainers"])
    (["/etc/sysconfig/docker"] ++
     ["/etc/docker/daemon.json"; "/etc/docker-hostname"; "/var/lib/docker/containers"])
    (ha_docker_storage cr).
Proof.
  unfold ha_docker_storage. destruct (is_docker cr); [|apply mounted_within_nil].
  apply mounted_within_app; [destruct (is_ubuntu cr); [apply mounted_within_nil|]|];
    (split; [by repeat constructor|reflexivity..]).
Qed.

Section ha.
Variable ParseQuantity : string → error + Quantity.

Lemma ha_state_volume_name spec v :
  ha_state_volume ParseQuantity spec = inr v → Volume_Name v = ha_stateVolume.
Proof. unfold ha_state_volume. repeat case_match; naive_solver. Qed.

Lemma ha_forwarderStorage_within cr spec storage :
  ha_forwarderStorage ParseQuantity cr spec = inr storage →
  mounted_within ha_forwarder_names ha_forwarder_paths
    (storage ++ ha_collectorTLSMounts (Fluentbit_TLS spec)).
Proof.
  unfold ha_forwarderStorage, ha_forwarder_names, ha_forwarder_paths.
  destruct (ha_state_volume _ spec) as [e|state] eqn:Hstate; [done|].
  apply ha_state_volume_name in Hstate as Hname. intros <-%(inj inr).
  apply mounted_within_app; [|apply ha_collectorTLSMounts_within].
  apply mounted_within_app; [apply ha_docker_storage_within|].
  apply mounted_within_app.
  { split; unfold volume_names; cbn; rewrite ?Hname; [|reflexivity..].
    repeat constructor; cbn; by rewrite ?Hname. }
  apply mounted_within_app; [destruct (UsesFilesystemBuffer spec); [|apply mounted_within_nil]|];
    (split; [by repeat constructor|reflexivity..]).
Qed.

Lemma ha_state_volume_source spec v :
  ha_state_volume ParseQuantity spec = inr v →
  if UsesPersistentOffsets spec
  then Volume_Source v = HostPath "/var/lib/fluent-bit/state" HostPathDirectoryOrCreate
  else ∃ q, ParseQuantity (EffectiveMemoryOnlyStateSizeLimit spec) = inr q ∧
            Volume_Source v = EmptyDir "Memory" (Some q).
Proof. unfold ha_state_volume, ha_parseQuantity. repeat case_match; naive_solver. Qed.

Lemma ha_forwarderStorage_fixed cr spec storage tls :
  ha_forwarderStorage ParseQuantity cr spec = inr storage →
  [ha_configVolume; ha_tmpVolume] ⊆ volume_names (storage ++ tls).*1.
Proof.
  unfold ha_forwarderStorage. destruct (ha_state_volume _ _) as [|state]; [done|].
  intros <-%(inj inr) x Hx. unfold volume_names. rewrite !fmap_app, !elem_of_app.
  left. right. right. right. exact Hx.
Qed.

(** The parts of the forwarder DaemonSet. *)
Lemma ha_forwarder_spec cr spec cfg ds :
  ha_ForwarderDaemonSet ParseQuantity cr spec cfg = inr ds →
  let pod := PodTemplateSpec_Spec (DaemonSet_Template ds) in
  let openshift := LoggingServiceSpec_OpenshiftDeploy (LoggingService_Spec cr) in
  ∃ inp storage state,
    let mounted := storage ++ ha_collectorTLSMounts (Fluentbit_TLS spec) in
    ha_forwarderStorage ParseQuantity cr spec = inr storage ∧
    ha_state_volume ParseQuantity spec = inr state ∧ state ∈ storage.*1 ∧
    LabelInput_Name inp = ha_forwarderName ∧
    PodSpec_Volumes pod = mounted.*1 ∧ PodSpec_InitContainers pod = [] ∧
    PodSpec_Containers pod
    = [ ha_reloadContainer (Fluentbit_ConfigmapReload spec)
          (AggregatorDefaults_ConfigmapReloadResources (Defaults_Aggregator cfg));
        ha_forwarder_container spec (Defaults_Aggregator cfg) mounted.*2 ] ∧
    template_labels (DaemonSet_Template ds)
    = Some (templateLabels inp (Some (ha_workloadLabels ha_forwarderName openshift))) ∧
    DaemonSet_Selector ds
    = Some {[ "component" := ha_forwarderName; "provider" := ha_provider openshift ]}.
Proof.
  unfold ha_ForwarderDaemonSet.
  destruct (ha_forwarderStorage ParseQuantity cr spec) as [e|storage] eqn:Hst; [done|].
  intros [= <-]. exists (mkLabelInput ha_forwarderName ComponentBackend
    (GetInstanceLabel ha_forwarderName (GetNamespace cr))
    (GetTagFromImage (Fluentbit_DockerImage spec)) ha_technology (Fluentbit_Labels spec)), storage.
  assert (Hstate : ∃ state, ha_state_volume ParseQuantity spec = inr state ∧ state ∈ storage.*1).
  { unfold ha_forwarderStorage in Hst. destruct (ha_state_volume _ _) as [|state]; [done|].
    apply (inj inr) in Hst as <-. exists state. split; [done|]. rewrite !fmap_app.
    apply elem_of_app. right. apply elem_of_app. left. right. left. }
  destruct Hstate as (state & Hs & Hin). exists state.
  split_and!; by first [done|destruct (is_blank _)|apply label_DaemonSet_template].
Qed.

(** A pod with a reload sidecar and a main container, all of whose volumes are the
    ones of the pairs. *)
Lemma ha_pod_well_formed claims reload fallback main volumes pod :
  PodSpec_Volumes pod = volumes → PodSpec_InitContainers pod = [] →
  PodSpec_Containers pod = [ha_reloadContainer reload fallback; main] →
  NoDup (volume_names volumes) → [ha_configVolume; ha_tmpVolume] ⊆ volume_names volumes →
  mount_names (Container_VolumeMounts main) ⊆ claims ++ volume_names volumes →
  NoDup (mount_paths (Container_VolumeMounts main)) →
  well_formed_pod claims pod.
Proof.
  intros Hv Hi Hc Hnd Hfixed Hnames Hpaths.
  assert (Hreload : Container_VolumeMounts (ha_reloadContainer reload fallback)
    = [ mkVolumeMount ha_configVolume ha_configDir "" true;
        mkVolumeMount ha_tmpVolume "/tmp" "" false ])
    by (unfold ha_reloadContainer; by destruct reload).
  split; rewrite ?Hv; [done| |]; intros c; rewrite Hi, Hc; cbn [app];
    rewrite !elem_of_cons, elem_of_nil; (intros [->|[->|[]]]; [|done]); rewrite Hreload.
  - intros n Hn. apply elem_of_app. right. by apply Hfixed.
  - apply (bool_decide_unpack _). by vm_compute.
Qed.

Lemma ha_forwarder_well_formed spec reload fallback def mounted pod :
  mounted_within ha_forwarder_names ha_forwarder_paths mounted →
  [ha_configVolume; ha_tmpVolume] ⊆ volume_names mounted.*1 →
  PodSpec_Volumes pod = mounted.*1 → PodSpec_InitContainers pod = [] →
  PodSpec_Containers pod
  = [ha_reloadContainer reload fallback; ha_forwarder_container spec def mounted.*2] →
  well_formed_pod [] pod.
Proof.
  intros [Hsame Hnames Hpaths] Hfixed Hv Hi Hc.
  eapply ha_pod_well_formed; [exact Hv|exact Hi|exact Hc| |exact Hfixed| |].
  - exact (NoDup_sublist _ _ Hnames (proj1 ha_forwarder_reserved_NoDup)).
  - cbn [app]. change (Container_VolumeMounts _) with mounted.*2. by rewrite mounted_same_names.
  - exact (NoDup_sublist _ _ Hpaths (proj2 ha_forwarder_reserved_NoDup)).
Qed.

(** The reload sidecar is hardened. *)
Lemma ha_reloadContainer_hardened reload fallback :
  hardened (Container_SecurityContext (ha_reloadContainer reload fallback)).
Proof. unfold ha_reloadContainer. by destruct reload. Qed.
End ha.

(** ** Properties *)

(** C35: the forwarder DaemonSet.  Building it fails exactly when the offsets are
    kept in memory and their size limit is not a quantity.  Otherwise the pod is well
    formed, with the offsets in the node's directory or in memory as the storage
    profile says, the selectors of the DaemonSet and of its Service select the pods,
    whatever labels the custom resource adds, and the containers are hardened unless
    the custom resource asks for a privileged one. *)
Theorem ha_ForwarderDaemonSet_correct ParseQuantity cr spec cfg :
  match ha_ForwarderDaemonSet ParseQuantity cr spec cfg with
  | inl _ =>
      UsesPersistentOffsets spec = false ∧
      ∃ e, ParseQuantity (EffectiveMemoryOnlyStateSizeLimit spec) = inl e
  | inr ds =>
      let pod := PodTemplateSpec_Spec (DaemonSet_Template ds) in
      let pod_labels := template_labels (DaemonSet_Template ds) in
      well_formed_pod [] pod ∧
      (∃ v, v ∈ PodSpec_Volumes pod ∧ Volume_Name v = ha_stateVolume ∧
         if UsesPersistentOffsets spec
         then Volume_Source v = HostPath "/var/lib/fluent-bit/state" HostPathDirectoryOrCreate
         else ∃ q, ParseQuantity (EffectiveMemoryOnlyStateSizeLimit spec) = inr q ∧
                   Volume_Source v = EmptyDir "Memory" (Some q)) ∧
      selects (DaemonSet_Selector ds) pod_labels ∧
      selects (Service_Selector (ha_ForwarderService cr spec)) pod_labels ∧
      (Fluentbit_SecurityContextPrivileged spec = false →
       ∀ c, c ∈ PodSpec_Containers pod → hardened (Container_SecurityContext c))
  end.
Proof.
  destruct (ha_ForwarderDaemonSet ParseQuantity cr spec cfg) as [e|ds] eqn:Hds.
  - unfold ha_ForwarderDaemonSet, ha_forwarderStorage, ha_state_volume, ha_parseQuantity in Hds.
    destruct (UsesPersistentOffsets spec); [done|]. split; [done|].
    destruct (ParseQuantity _) as [e0|]; [by exists e0|done].
  - apply ha_forwarder_spec in Hds as (inp & storage & state & Hst & Hstate & Hin & Hinp & Hpod).
    destruct Hpod as (Hv & Hi & Hc & Hl & Hs). cbn. rewrite Hv, Hc, Hl, Hs.
    apply ha_forwarderStorage_within in Hst as Hw. split_and!.
    + eapply ha_forwarder_well_formed; eauto using ha_forwarderStorage_fixed.
    + exists state. split_and!; [by rewrite fmap_app; apply elem_of_app; left
                                |by eapply ha_state_volume_name|].
      by apply ha_state_volume_source.
    + solve_selects.
    + change (Service_Selector _) with (Some ({[ "name" := ha_forwarderName; "provider" := ha_provider (LoggingServiceSpec_OpenshiftDeploy (LoggingService_Spec cr)) ]} : smap)).
      rewrite <- Hinp. solve_selects.
    + intros Hp c [->|[->|[]%elem_of_nil]%elem_of_cons]%elem_of_cons.
      * apply ha_reloadContainer_hardened.
      * cbn. by rewrite Hp.
Qed.

(** ** The aggregator *)

Definition claim_names (claims : list PersistentVolumeClaim) : list string :=
  (λ c, ObjectMeta_Name (PersistentVolumeClaim_ObjectMeta c)) <$> claims.

Definition ha_aggregator_names : list string :=
  ["storage"; "config"; "tmp"] ++ certificate_names "tls" ++
  certificate_names "loki-tls" ++ certificate_names "http-tls" ++ certificate_names "otel-tls".

Definition ha_aggregator_paths : list string :=
  ["/fluent-bit/storage"; "/fluent-bit/etc"; "/tmp"] ++ certificate_paths "/fluent-bit/tls" ++
  certificate_paths "/fluent-bit/output/loki/tls" ++
  certificate_paths "/fluent-bit/output/http/tls" ++ certificate_paths "/fluent-bit/output/otel/tls".

Lemma ha_aggregator_reserved_NoDup : NoDup ha_aggregator_names ∧ NoDup ha_aggregator_paths.
Proof. split; apply (bool_decide_unpack _); by vm_compute. Qed.

Section aggregator.
Variable ParseQuantity : string → error + Quantity.

(** The buffer is on exactly one of a claim and a volume, named alike. *)
Lemma ha_storage_once spec def storage claims :
  ha_storage_volumes ParseQuantity spec = inr storage →
  ha_claims ParseQuantity spec def = inr claims →
  claim_names claims = (if ha_bindVolume spec then [ha_storageVolume] else []) ∧
  claim_names claims ++ volume_names storage = [ha_storageVolume].
Proof.
  unfold ha_storage_volumes, ha_claims, ha_storageClaim, ha_parseQuantity, ha_bindVolume.
  intros Hs Hc. repeat case_match; simplify_eq/=; done.
Qed.

Lemma ha_aggregator_pod_parts spec def storage :
  PodSpec_Volumes (ha_aggregator_pod spec def storage)
  = storage ++ [ ha_secretVolume ha_configVolume ha_aggregatorName;
                 ha_emptyDirVolume ha_tmpVolume ha_tmpVolumeSize ] ++ (ha_aggregator_tls spec).*1 ∧
  PodSpec_InitContainers (ha_aggregator_pod spec def storage) = [] ∧
  PodSpec_Containers (ha_aggregator_pod spec def storage)
  = [ ha_reloadContainer (FluentbitAggregator_ConfigmapReload spec)
        (AggregatorDefaults_ConfigmapReloadResources def);
      ha_aggregator_container spec def (ha_aggregator_mounts spec) ].
Proof. unfold ha_aggregator_pod. by destruct (is_blank _). Qed.

Lemma ha_aggregator_well_formed spec def storage claims :
  claim_names claims ++ volume_names storage = [ha_storageVolume] →
  NoDup (claim_names claims ++ volume_names (PodSpec_Volumes (ha_aggregator_pod spec def storage))) ∧
  well_formed_pod (claim_names claims) (ha_aggregator_pod spec def storage).
Proof.
  intros Honce. destruct (ha_aggregator_pod_parts spec def storage) as (Hvs & Hi & Hc).
  set (pod := ha_aggregator_pod spec def storage) in *. set (tls := ha_aggregator_tls spec) in *.
  assert (Hv : volume_names (PodSpec_Volumes pod)
      = volume_names storage ++ [ha_configVolume; ha_tmpVolume] ++ volume_names tls.*1)
    by (rewrite Hvs; unfold volume_names; by rewrite !fmap_app).
  destruct (mounted_within_app _ _ _ _ _ _
    (ha_collectorTLSMounts_within (FluentbitAggregator_TLS spec))
    (ha_outputTLSMounts_within (FluentbitAggregator_Output spec))) as [Hsame Hnames Hpaths].
  change (ha_collectorTLSMounts _ ++ ha_outputTLSMounts _) with tls in Hsame, Hnames, Hpaths.
  assert (Hnd : NoDup (claim_names claims ++ volume_names (PodSpec_Volumes pod))).
  { rewrite Hv, (assoc_L app), Honce. refine (NoDup_sublist _ _ _ (proj1 ha_aggregator_reserved_NoDup)).
    unfold ha_aggregator_names. cbn [app]. do 3 apply sublist_skip. exact Hnames. }
  split; [exact Hnd|].
  eapply ha_pod_well_formed; [reflexivity|exact Hi|exact Hc| | | |].
  - by apply NoDup_app in Hnd as (_ & _ & ?).
  - rewrite Hv. intros x Hx. by rewrite !elem_of_app; auto.
  - rewrite Hv, (assoc_L app), Honce. change (Container_VolumeMounts _) with (ha_aggregator_mounts spec).
    unfold ha_aggregator_mounts. fold tls. intros x. unfold mount_names. rewrite fmap_app.
    fold (mount_names tls.*2). by rewrite mounted_same_names.
  - change (Container_VolumeMounts _) with (ha_aggregator_mounts spec).
    refine (NoDup_sublist _ _ _ (proj2 ha_aggregator_reserved_NoDup)).
    unfold ha_aggregator_mounts, ha_aggregator_paths, mount_paths. cbn [app]. do 3 apply sublist_skip. exact Hpaths.
Qed.

Lemma ha_aggregator_hardened spec def storage c :
  c ∈ PodSpec_Containers (ha_aggregator_pod spec def storage) →
  hardened (Container_SecurityContext c).
Proof.
  destruct (ha_aggregator_pod_parts spec def storage) as (_ & _ & ->). rewrite !elem_of_cons, elem_of_nil.
  intros [->|[->|[]]]; [apply ha_reloadContainer_hardened|done].
Qed.

Lemma to_int32_small n : (- 2 ^ 31 ≤ n < 2 ^ 31)%Z → to_int32 n = n.
Proof. intros Hn. unfold to_int32, int32. apply wrap_id; [done|]. exact Hn. Qed.
End aggregator.

(** The parts of the aggregator StatefulSet, once its volumes and claims are built. *)
Lemma ha_aggregator_spec {PQ} cr spec cfg storage claims :
  claim_names claims = (if ha_bindVolume spec then [ha_storageVolume] else []) →
  ha_claims PQ spec (Defaults_Aggregator cfg) = inr claims →
  ha_storage_volumes PQ spec = inr storage →
  let openshift := LoggingServiceSpec_OpenshiftDeploy (LoggingService_Spec cr) in
  ∃ ss inp, ha_AggregatorStatefulSet PQ cr spec cfg = inr ss ∧
    LabelInput_Name inp = ha_aggregatorName ∧
    PodTemplateSpec_Spec (StatefulSet_Template ss)
    = ha_aggregator_pod spec (Defaults_Aggregator cfg) storage ∧
    StatefulSet_VolumeClaimTemplates ss = claims ∧
    template_labels (StatefulSet_Template ss)
    = Some (templateLabels inp (Some (ha_workloadLabels ha_aggregatorName openshift))) ∧
    StatefulSet_Selector ss
    = Some (<["name" := ha_aggregatorName]>
            {[ "component" := ha_aggregatorName; "provider" := ha_provider openshift ]}) ∧
    StatefulSet_Replicas ss = Some (ha_replicas spec (Defaults_Aggregator cfg)).
Proof.
  intros Hnames Hc Hs openshift. eexists.
  exists (mkLabelInput ha_aggregatorName ComponentBackend
    (GetInstanceLabel ha_aggregatorName (GetNamespace cr))
    (GetTagFromImage (FluentbitAggregator_DockerImage spec)) ha_technology
    (FluentbitAggregator_Labels spec)).
  unfold ha_AggregatorStatefulSet. rewrite Hs, Hc. split; [reflexivity|].
  destruct (ha_bindVolume spec); [by split_and!|].
  destruct claims; [by split_and!|done].
Qed.

(** Where the buffer of the aggregator is, and its size: on a claim of the size of the bound
    volume, or of the default one, or else on a volume of the pod with the size limit. *)
Definition ha_buffered (ParseQuantity : string → error + Quantity) (spec : FluentbitAggregator)
    (def : FluentbitAggregatorDefaults) (claims : list PersistentVolumeClaim) (volumes : list Volume) : Prop :=
  match FluentbitAggregator_Volume spec with
  | Some (mkApiVolume _ size true) => ∃ q,
      (if String.eqb size "" then q = AggregatorDefaults_AggregatorVolumeSize def else ParseQuantity size = inr q) ∧
      PersistentVolumeClaim_Requests <$> claims = [{[ "storage" := q ]}]
  | _ => ∃ q, ParseQuantity (EffectiveStorageSizeLimit spec) = inr q ∧ claims = [] ∧
      mkVolume ha_storageVolume (EmptyDir "" (Some q)) ∈ volumes
  end.

Lemma ha_storage_buffered ParseQuantity spec def storage claims :
  ha_storage_volumes ParseQuantity spec = inr storage → ha_claims ParseQuantity spec def = inr claims →
  ha_buffered ParseQuantity spec def claims (PodSpec_Volumes (ha_aggregator_pod spec def storage)).
Proof.
  unfold ha_storage_volumes, ha_claims, ha_buffered, ha_bindVolume, ha_storageClaim, ha_parseQuantity.
  destruct (FluentbitAggregator_Volume spec) as [[class size []]|]; cbn [ApiVolume_Bind negb ApiVolume_StorageSize].
  - intros _. destruct (String.eqb size ""); cbn [negb].
    + intros [= <-]. eexists. split; [done|]. by case_match.
    + destruct (ParseQuantity size) as [e|q]; [done|]. intros [= <-]. exists q. split; [done|]. by case_match.
  - destruct (ParseQuantity _) as [e|q]; [done|]. intros [= <-] [= <-]. exists q. split_and!; [done..|].
    destruct (ha_aggregator_pod_parts spec def [ha_emptyDirVolume ha_storageVolume q]) as [-> _]. left.
  - destruct (ParseQuantity _) as [e|q]; [done|]. intros [= <-] [= <-]. exists q. split_and!; [done..|].
    destruct (ha_aggregator_pod_parts spec def [ha_emptyDirVolume ha_storageVolume q]) as [-> _]. left.
Qed.

(** C36: the aggregator StatefulSet.  Building it fails exactly when the size that
    counts, of the buffer or of the bound volume, is not a quantity.  Otherwise the
    buffer is on a claim template of that size (of the default one if the bound volume
    names none) when a volume is bound, and on a volume of the pod of that size when it
    is not, never both; the pod is well formed with these claims; the
    selectors of the StatefulSet and of its Service select its pods, whatever labels
    the custom resource adds; every container is hardened; and the replicas are those
    of the custom resource, the default for 0, as long as they fit in 32 bits. *)
Theorem ha_AggregatorStatefulSet_correct ParseQuantity cr spec cfg :
  match ha_AggregatorStatefulSet ParseQuantity cr spec cfg with
  | inl _ =>
      (ha_bindVolume spec = false ∧ ∃ e, ParseQuantity (EffectiveStorageSizeLimit spec) = inl e) ∨
      (∃ volume e, FluentbitAggregator_Volume spec = Some volume ∧ ApiVolume_Bind volume = true ∧
         ApiVolume_StorageSize volume ≠ "" ∧ ParseQuantity (ApiVolume_StorageSize volume) = inl e)
  | inr ss =>
      let pod := PodTemplateSpec_Spec (StatefulSet_Template ss) in
      let claims := claim_names (StatefulSet_VolumeClaimTemplates ss) in
      let replicas := FluentbitAggregator_Replicas spec in
      claims = (if ha_bindVolume spec then [ha_storageVolume] else []) ∧
      ha_buffered ParseQuantity spec (Defaults_Aggregator cfg) (StatefulSet_VolumeClaimTemplates ss)
        (PodSpec_Volumes pod) ∧
      NoDup (claims ++ volume_names (PodSpec_Volumes pod)) ∧
      well_formed_pod claims pod ∧
      selects (StatefulSet_Selector ss) (template_labels (StatefulSet_Template ss)) ∧
      selects (Service_Selector (ha_AggregatorService cr spec))
        (template_labels (StatefulSet_Template ss)) ∧
      (∀ c, c ∈ PodSpec_Containers pod → hardened (Container_SecurityContext c)) ∧
      ((- 2 ^ 31 ≤ replicas < 2 ^ 31)%Z →
       StatefulSet_Replicas ss
       = Some (if decide (replicas = 0%Z)
               then AggregatorDefaults_AggregatorReplicas (Defaults_Aggregator cfg) else replicas))
  end.
Proof.
  destruct (ha_storage_volumes ParseQuantity spec) as [e|storage] eqn:Hs.
  { unfold ha_AggregatorStatefulSet. rewrite Hs. left. unfold ha_storage_volumes, ha_parseQuantity in Hs.
    destruct (ha_bindVolume spec); [done|]. split; [done|].
    cbn in Hs. destruct (ParseQuantity _) as [e'|]; [by exists e'|done]. }
  destruct (ha_claims ParseQuantity spec (Defaults_Aggregator cfg)) as [e|claims] eqn:Hc.
  { unfold ha_AggregatorStatefulSet. rewrite Hs, Hc. right.
    unfold ha_claims, ha_storageClaim, ha_parseQuantity in Hc.
    destruct (FluentbitAggregator_Volume spec) as [volume|]; [|done].
    destruct (ApiVolume_Bind volume) eqn:Hb; [|done].
    destruct (String.eqb_spec (ApiVolume_StorageSize volume) ""); [done|].
    cbn in Hc. destruct (ParseQuantity _) as [e'|] eqn:Hq; [|done]. by exists volume, e'. }
  destruct (ha_storage_once _ _ _ _ _ Hs Hc) as [Hnames Honce].
  destruct (ha_aggregator_spec cr spec cfg _ _ Hnames Hc Hs)
    as (ss & inp & Hss & Hinp & Hpod & Hclaims & Hl & Hsel & Hr).
  rewrite Hss. cbn zeta. rewrite Hpod, Hclaims, Hl, Hsel, Hr.
  destruct (ha_aggregator_well_formed spec (Defaults_Aggregator cfg) _ _ Honce) as [Hnd Hwf].
  split_and!; [done|by eapply ha_storage_buffered|done..| | | |].
  - rewrite <- Hinp. solve_selects.
  - change (Service_Selector _) with (Some ({[ "name" := ha_aggregatorName; "provider" := ha_provider (LoggingServiceSpec_OpenshiftDeploy (LoggingService_Spec cr)) ]} : smap)).
    rewrite <- Hinp. solve_selects.
  - apply ha_aggregator_hardened.
  - intros Hrange. unfold ha_replicas. rewrite to_int32_small by done.
    destruct (Z.eqb_spec (FluentbitAggregator_Replicas spec) 0); by case_decide.
Qed.

(** ** Witnesses *)

Lemma ha_ForwarderDaemonSet_correct_witness :
  match ha_ForwarderDaemonSet (λ s, inr (mkQuantity s)) example_fluentbit_cr zero defaults_Get with
  | inl _ => False
  | inr ds => well_formed_pod [] (PodTemplateSpec_Spec (DaemonSet_Template ds))
  end.
Proof.
  pose proof (ha_ForwarderDaemonSet_correct (λ s, inr (mkQuantity s)) example_fluentbit_cr zero
                defaults_Get) as H.
  destruct (ha_ForwarderDaemonSet _ _ _ _) as [e|ds]; [|exact (proj1 H)].
  by destruct H as (_ & e' & He).
Defined.

Lemma ha_AggregatorStatefulSet_correct_witness :
  let spec := zero <| FluentbitAggregator_Volume := Some (mkApiVolume "" "1Gi" true) |> in
  match ha_AggregatorStatefulSet (λ s, inr (mkQuantity s)) example_fluentbit_cr spec defaults_Get with
  | inl _ => False
  | inr ss => claim_names (StatefulSet_VolumeClaimTemplates ss) = ["storage"]
  end.
Proof.
  intros spec.
  pose proof (ha_AggregatorStatefulSet_correct (λ s, inr (mkQuantity s)) example_fluentbit_cr spec
                defaults_Get) as H.
  destruct (ha_AggregatorStatefulSet _ _ _ _) as [e|ss]; [|exact (proj1 H)].
  destruct H as [[H _]|(volume & e' & _ & _ & _ & H)]; discriminate.
Defined.
