(* ===== verification/GraylogBuilder.v ===== *)
(** * The Graylog StatefulSet, Service and ServiceAccount: internal/builder/graylog *)

From S2P Require Import Prelude GoStrings KubeTypes Api Labels Operator Component Defaults.
From S2P Require Import Builder.

(** ** graylog.go *)

Definition graylog_statefulSetName : string := "graylog".
Definition graylog_serviceName : string := "graylog-service".
Definition graylog_serviceAccountName : string := "logging-graylog".
Definition graylog_component : string := "graylog".
Definition graylog_technology : string := "java-others".
Definition graylog_httpPort : Z := 9000.
Definition graylog_udpPort : Z := 514.
Definition graylog_metricsPort : Z := 9833.
Definition graylog_mongoPort : Z := 27017.
Definition graylog_authProxyPort : Z := 8888.
Definition graylog_authProxyMetrics : Z := 8889.
Definition graylog_authProxyName : string := "graylog-auth-proxy".
Definition ProtocolUDP : string := "UDP".

Definition graylog_selector : smap := {[ "name" := graylog_statefulSetName ]}.

Definition graylog_servicePort (name : string) (port targetPort : Z) (protocol : string) : ServicePort :=
  mkServicePort name port protocol (FromInt32 targetPort).

Definition authProxyInstalled (spec : Graylog) : bool :=
  match Graylog_AuthProxy spec with Some proxy => AuthProxy_Install proxy | None => false end.

Definition graylog_http (spec : Graylog) : option HTTPGraylogTLS :=
  Graylog_TLS spec ≫= GraylogTLS_HTTP.

Definition httpTLSEnabled (spec : Graylog) : bool :=
  match graylog_http spec with Some http => HTTPGraylogTLS_Enabled http | None => false end.

Definition graylog_Service (cr : LoggingService) (spec : Graylog) : Service :=
  let inputPort := to_int32 (Graylog_InputPort spec) in
  let ports :=
    (if authProxyInstalled spec then
       [ graylog_servicePort "graylog" graylog_httpPort graylog_authProxyPort ProtocolTCP;
         graylog_servicePort "metrics" graylog_authProxyMetrics graylog_authProxyMetrics ProtocolTCP ]
     else [graylog_servicePort "graylog" graylog_httpPort graylog_httpPort ProtocolTCP]) ++
    [ graylog_servicePort "graylog-udp" graylog_udpPort graylog_udpPort ProtocolUDP;
      graylog_servicePort ("graylog-" +:+ Itoa inputPort) inputPort inputPort ProtocolTCP;
      graylog_servicePort "graylog-metrics" graylog_metricsPort graylog_metricsPort ProtocolTCP ] in
  let service := NewService graylog_serviceName (GetNamespace cr) (zero
    <| ServiceOpts_Selector := Some graylog_selector |>
    <| ServiceOpts_Ports := ports |>) in
  SetLabelsForResource
    (zero <| LabelInput_Name := graylog_serviceName |> <| LabelInput_Component := graylog_component |>
          <| LabelInput_ComponentLabels := Graylog_Labels spec |>) None service.

Definition graylog_ServiceAccount (cr : LoggingService) (spec : Graylog) : ServiceAccount :=
  SetLabelsForResource
    (zero <| LabelInput_Name := graylog_serviceAccountName |>
          <| LabelInput_Component := graylog_component |>
          <| LabelInput_ComponentLabels := Graylog_Labels spec |>) None
    (NewServiceAccount graylog_serviceAccountName (GetNamespace cr)).

(** ** statefulset.go *)

Definition dataPath : string := "/usr/share/graylog/data".
Definition secretFilesPath : string := dataPath +:+ "/k8s-graylog-secret".
Definition sslPath : string := dataPath +:+ "/ssl".
Definition trustStoreOption : string := "-Djavax.net.ssl.trustStore=" +:+ sslPath +:+ "/cacerts.jks".
Definition archivesPath : string := dataPath +:+ "/archives".
Definition directoriesFile : string := dataPath +:+ "/config/directories.json".
Definition shell : string := "/bin/sh".
Definition graylog_mkdir : string := "mkdir -p ".
Definition chownGraylog : string := "chown -R 1100:1100 ".
Definition authProxyConfigVolume : string := "graylog-auth-proxy-config".
Definition caCertsVolume : string := "tls-cacerts".
Definition httpCertVolume : string := "tls-cert-http".
Definition httpKeyVolume : string := "tls-key-http".
Definition certManagerCAVolume : string := "tls-cacerts-cert-manager".
Definition inputCertVolume : string := "tls-cert-input".
Definition inputKeyVolume : string := "tls-key-input".
Definition graylogUser : Z := 1100.
Definition sidecarUser : Z := 1001.

Definition graylog_generateCerts (gc : option GenerateCerts) : bool :=
  match gc with Some gc => GenerateCerts_Enabled gc | None => false end.

Definition secretKeySet (name key : string) : bool :=
  negb (String.eqb name "") && negb (String.eqb key "").

Definition graylog_pvcVolume (name claim : string) : Volume :=
  mkVolume name (PersistentVolumeClaimSource claim).

Definition graylog_emptyDirVolume (name : string) (size : Quantity) : Volume :=
  mkVolume name (EmptyDir "" (Some size)).

Definition graylog_configFileVolume (name configMap key : string) (mode : Z) : Volume :=
  mkVolume name (ConfigMapSource configMap [mkKeyToPath key key] mode).

Definition graylog_secretVolume (name secret : string) : Volume :=
  mkVolume name (SecretSource secret [] 420).

Definition readOnlyMount (name path subPath : string) : VolumeMount :=
  mkVolumeMount name path subPath true.

Definition secretEnv (name secret key : string) : EnvVar :=
  mkEnvVar name "" (Some (SecretKeyRef (mkSecretKeySelector secret key))).

Definition restrictedSecurityContext (id : Z) : SecurityContext := zero
  <| SecurityContext_AllowPrivilegeEscalation := Some false |>
  <| SecurityContext_ReadOnlyRootFilesystem := Some true |>
  <| SecurityContext_RunAsNonRoot := Some true |>
  <| SecurityContext_Capabilities := Some (mkCapabilities [] ["ALL"]) |>
  <| SecurityContext_RunAsUser := Some id |>
  <| SecurityContext_RunAsGroup := Some id |>.

Record graylog_secretFile : Type := mk_graylog_secretFile {
  graylog_file_volume : string;
  graylog_file_secret : string;
  graylog_file_key : string;
  graylog_file_path : string;
}.

Definition fileMounts (files : list graylog_secretFile) : list VolumeMount :=
  (λ file, readOnlyMount (graylog_file_volume file) (graylog_file_path file) (graylog_file_key file))
    <$> files.

Definition fileVolumes (files : list graylog_secretFile) : list Volume :=
  (λ file, graylog_secretVolume (graylog_file_volume file) (graylog_file_secret file)) <$> files.

Definition userFiles (cert : option Cert) (key : option Key) (certVolume keyVolume dir : string) :
    list graylog_secretFile :=
  match cert with
  | Some cert =>
      if secretKeySet (Cert_SecretName cert) (Cert_SecretKey cert) then
        [mk_graylog_secretFile certVolume (Cert_SecretName cert) (Cert_SecretKey cert)
           (dir +:+ "/tls.crt")]
      else []
  | None => []
  end ++
  match key with
  | Some key =>
      if secretKeySet (Key_SecretName key) (Key_SecretKey key) then
        [mk_graylog_secretFile keyVolume (Key_SecretName key) (Key_SecretKey key) (dir +:+ "/tls.key")]
      else []
  | None => []
  end.

Definition httpFiles (http : HTTPGraylogTLS) (caPath : string) : list graylog_secretFile :=
  match HTTPGraylogTLS_GenerateCerts http with
  | Some gc =>
      if GenerateCerts_Enabled gc then
        let name := GenerateCerts_SecretName gc in
        [ mk_graylog_secretFile httpCertVolume name "tls.crt" (sslPath +:+ "/http/tls.crt");
          mk_graylog_secretFile httpKeyVolume name "tls.key" (sslPath +:+ "/http/tls.key");
          mk_graylog_secretFile certManagerCAVolume name "ca.crt" caPath ]
      else userFiles (HTTPGraylogTLS_Cert http) (HTTPGraylogTLS_Key http) httpCertVolume httpKeyVolume
             (sslPath +:+ "/http")
  | None =>
      userFiles (HTTPGraylogTLS_Cert http) (HTTPGraylogTLS_Key http) httpCertVolume httpKeyVolume
        (sslPath +:+ "/http")
  end.

Definition inputFiles (input : option InputGraylogTLS) : list graylog_secretFile :=
  match input with
  | None => []
  | Some input =>
      let certificates := TLS_Certificates (InputGraylogTLS_TLS input) in
      let configured :=
        userFiles (Certificates_Cert certificates) (Certificates_Key certificates) inputCertVolume
          inputKeyVolume (sslPath +:+ "/input") in
      match TLS_GenerateCerts (InputGraylogTLS_TLS input) with
      | Some gc =>
          if GenerateCerts_Enabled gc then
            let name := GenerateCerts_SecretName gc in
            [ mk_graylog_secretFile inputCertVolume name "tls.crt" (sslPath +:+ "/input/tls.crt");
              mk_graylog_secretFile inputKeyVolume name "tls.key" (sslPath +:+ "/input/tls.key") ]
          else configured
      | None => configured
      end
  end.

Definition authProxyFiles (proxy : AuthProxy) : list graylog_secretFile :=
  let dir := "/usr/share/ssl/auth" in
  filter (λ file, secretKeySet (graylog_file_secret file) (graylog_file_key file) = true)
    [ mk_graylog_secretFile "graylog-auth-proxy-ca-cert" (CA_SecretName (AuthProxy_CA proxy))
        (CA_SecretKey (AuthProxy_CA proxy)) (dir +:+ "/ca.crt");
      mk_graylog_secretFile "graylog-auth-proxy-client-cert" (Cert_SecretName (AuthProxy_Cert proxy))
        (Cert_SecretKey (AuthProxy_Cert proxy)) (dir +:+ "/tls.crt");
      mk_graylog_secretFile "graylog-auth-proxy-private-key" (Key_SecretName (AuthProxy_Key proxy))
        (Key_SecretKey (AuthProxy_Key proxy)) (dir +:+ "/tls.key") ].

(** [if http := spec.TLS.HTTP; http != nil { ... }], for the volumes and the mounts. *)
Definition with_http {A} (spec : Graylog) (f : HTTPGraylogTLS → list A) : list A :=
  match graylog_http spec with Some http => f http | None => [] end.

Definition with_input {A} (spec : Graylog) (f : list graylog_secretFile → list A) : list A :=
  match Graylog_TLS spec with Some tls => f (inputFiles (GraylogTLS_Input tls)) | None => [] end.

Definition graylog_volumes (spec : Graylog) (def : GraylogDefaults) : list Volume :=
  let size := GraylogDefaults_EmptyDirSize def in
  [ graylog_pvcVolume "data" GraylogClaimName;
    graylog_emptyDirVolume "plugins" size;
    graylog_emptyDirVolume "plugins-merged" size;
    graylog_pvcVolume "mongodb" MongoClaimName;
    graylog_configFileVolume "logsconf" graylog_serviceName "log4j2.xml" 292;
    graylog_configFileVolume "graylogconf" graylog_serviceName "graylog.conf" 292;
    graylog_configFileVolume "nodeid" graylog_serviceName "node-id" 438;
    graylog_emptyDirVolume "tmp" size;
    mkVolume "graylog-credentials-files" (SecretSource (Graylog_GraylogSecretName spec)
      [ mkKeyToPath "elasticsearchHost" "elasticsearchHost"; mkKeyToPath "user" "user";
        mkKeyToPath "rootPasswordSha2" "rootPasswordSha2" ] 288) ] ++
  match Graylog_AuthProxy spec with
  | Some proxy =>
      if AuthProxy_Install proxy then
        let bindPasswordSecret :=
          match AuthProxy_BindPasswordSecret proxy with
          | Some secret => SecretKeySelector_Name secret | None => "" end in
        [ graylog_configFileVolume authProxyConfigVolume authProxyConfigVolume "config.yaml" 292;
          graylog_secretVolume "graylog-auth-proxy-htpasswd" bindPasswordSecret ] ++
        fileVolumes (authProxyFiles proxy)
      else []
  | None => []
  end ++
  with_http spec (λ http,
    fileVolumes (httpFiles http "") ++
    (if negb (String.eqb (HTTPGraylogTLS_CACerts http) "")
     then [graylog_secretVolume caCertsVolume (HTTPGraylogTLS_CACerts http)] else [])) ++
  with_input spec fileVolumes.

Definition graylogVolumeMounts (spec : Graylog) : list VolumeMount :=
  [ readOnlyMount "graylog-credentials-files" secretFilesPath "";
    mkVolumeMount "data" dataPath "" false;
    mkVolumeMount "plugins" "/usr/share/graylog/plugin" "" false;
    mkVolumeMount "plugins-merged" "/usr/share/graylog/plugins-merged" "" false;
    mkVolumeMount "logsconf" (dataPath +:+ "/config/log4j2.xml") "log4j2.xml" false;
    mkVolumeMount "graylogconf" (dataPath +:+ "/config/graylog.conf") "graylog.conf" false;
    mkVolumeMount "nodeid" (dataPath +:+ "/config/node-id") "node-id" false;
    mkVolumeMount "tmp" "/tmp" "" false ] ++
  with_http spec (λ http,
    fileMounts (httpFiles http (sslPath +:+ "/cacerts/cert-manager-ca.crt")) ++
    (if negb (String.eqb (HTTPGraylogTLS_CACerts http) "")
     then [readOnlyMount caCertsVolume (sslPath +:+ "/cacerts") ""] else [])) ++
  with_input spec fileMounts.

Definition authProxyMounts (spec : Graylog) (proxy : AuthProxy) : list VolumeMount :=
  let htpasswdKey :=
    match AuthProxy_BindPasswordSecret proxy with
    | Some secret => SecretKeySelector_Key secret | None => "" end in
  [ readOnlyMount authProxyConfigVolume "/usr/src/app/config.yaml" "config.yaml";
    readOnlyMount "graylog-auth-proxy-htpasswd" "/usr/src/app/.htpasswd" htpasswdKey;
    mkVolumeMount "tmp" "/tmp" "" false ] ++
  with_http spec (λ http,
    fileMounts (httpFiles http (sslPath +:+ "/http/ca.crt")) ++
    (if negb (String.eqb (HTTPGraylogTLS_CACerts http) "")
     then [readOnlyMount caCertsVolume (sslPath +:+ "/http/ca.crt") "ca.crt"] else [])) ++
  fileMounts (authProxyFiles proxy).

Definition setupScript (openshift tls : bool) : string :=
  "chown -R 1001:1001 /data/db" +:+ newline +:+ "chmod -R u=rwX,g=rwX,o= /data/db" +:+ newline +:+
  newline +:+
  if openshift then
    "chmod -R 0777 " +:+ dataPath +:+ "/" +:+ newline +:+
    chownGraylog +:+ dataPath +:+ newline +:+
    graylog_mkdir +:+ archivesPath +:+ newline +:+
    chownGraylog +:+ archivesPath +:+ newline +:+
    graylog_mkdir +:+ dataPath +:+ "/config" +:+ newline +:+
    "touch " +:+ directoriesFile +:+ newline +:+
    "chmod 0666 " +:+ directoriesFile +:+ newline +:+
    "chown 1100:1100 " +:+ directoriesFile +:+ newline +:+
    "printf '{}\n' > " +:+ directoriesFile +:+ newline +:+
    (if tls then
       newline +:+ graylog_mkdir +:+ sslPath +:+ newline +:+
       "chmod -R 0777 " +:+ sslPath +:+ newline +:+
       chownGraylog +:+ sslPath +:+ newline
     else "")
  else
    graylog_mkdir +:+ archivesPath +:+ newline +:+
    graylog_mkdir +:+ dataPath +:+ "/config" +:+ newline +:+
    "touch " +:+ directoriesFile +:+ newline +:+
    (if tls then newline +:+ graylog_mkdir +:+ sslPath +:+ newline else "") +:+
    newline +:+ chownGraylog +:+ dataPath +:+ newline +:+
    "chmod -R u=rwX,g=rwX,o= " +:+ dataPath +:+ newline +:+
    "chmod 0660 " +:+ directoriesFile +:+ newline +:+
    "printf '{}\n' > " +:+ directoriesFile +:+ newline.

Definition graylogScript (spec : Graylog) : string :=
  let keytool := "keytool -importcert -keystore " +:+ sslPath +:+ "/cacerts.jks -storepass changeit" in
  "if [ -f /tmp/kafka-logs/.lock ] ; then" +:+ newline +:+ "    rm /tmp/kafka-logs/.lock" +:+ newline +:+
  "fi" +:+ newline +:+ newline +:+
  match graylog_http spec with
  | Some http =>
      if HTTPGraylogTLS_Enabled http then
        "cp -a " +:+ DQ +:+ "/opt/java/openjdk/lib/security/cacerts" +:+ DQ +:+ " " +:+ DQ +:+ sslPath +:+
        "/cacerts.jks" +:+ DQ +:+ newline +:+
        keytool +:+ " -alias graylog-tls-ca -file " +:+ sslPath +:+ "/http/tls.crt -noprompt" +:+ newline +:+
        (if graylog_generateCerts (HTTPGraylogTLS_GenerateCerts http) then
           newline +:+ keytool +:+ " -alias graylog-tls-ca-cert-manager -file " +:+ sslPath +:+
           "/cacerts/cert-manager-ca.crt -noprompt" +:+ newline
         else "") +:+
        newline +:+
        (if negb (String.eqb (HTTPGraylogTLS_CACerts http) "") then
           newline +:+ "for FILE in " +:+ sslPath +:+ "/cacerts/*; do " +:+ keytool +:+ " -alias " +:+
           DQ +:+ "$FILE" +:+ DQ +:+ " -file " +:+ DQ +:+ "$FILE" +:+ DQ +:+ " -noprompt; done" +:+ newline
         else "") +:+
        newline +:+ newline
      else ""
  | None => ""
  end +:+
  "/docker-entrypoint.sh" +:+ newline.

(** ** The containers *)

Definition graylog_initContainers (cr : LoggingService) (spec : Graylog) (def : GraylogDefaults) :
    list Container :=
  let resources := Resources (Graylog_InitResources spec) (GraylogDefaults_InitResources def) in
  let openshift := LoggingServiceSpec_OpenshiftDeploy (LoggingService_Spec cr) in
  [zero <| Container_Name := "setup" |>
        <| Container_Image := Graylog_InitSetupImage spec |>
        <| Container_ImagePullPolicy := PullIfNotPresent |>
        <| Container_VolumeMounts :=
             [mkVolumeMount "data" dataPath "" false; mkVolumeMount "mongodb" "/data/db" "" false] |>
        <| Container_Command := [shell; "-c"; setupScript openshift (httpTLSEnabled spec)] |>
        <| Container_SecurityContext := Some (zero <| SecurityContext_RunAsNonRoot := Some false |>) |>
        <| Container_Resources := resources |>] ++
  (if negb (String.eqb (Graylog_InitContainerDockerImage spec) "") then
     [zero <| Container_Name := "download-plugins" |>
           <| Container_Image := Graylog_InitContainerDockerImage spec |>
           <| Container_ImagePullPolicy := PullIfNotPresent |>
           <| Container_VolumeMounts := [mkVolumeMount "plugins" "/usr/share/graylog/plugin" "" false] |>
           <| Container_Env :=
                [ mkEnvVar "CUSTOM_PLUGINS" (Graylog_CustomPluginsPaths spec) None;
                  mkEnvVar "GRAYLOG_VERSION" "5" None ] |>
           <| Container_SecurityContext := Some (zero
                <| SecurityContext_RunAsNonRoot := Some true |>
                <| SecurityContext_RunAsUser := Some sidecarUser |>) |>
           <| Container_Resources := resources |>]
   else []).

Definition mongoContainer (spec : Graylog) (def : GraylogDefaults) : Container :=
  NewContainer "mongo" (zero
    <| ContainerOpts_Image := Graylog_MongoDBImage spec |>
    <| ContainerOpts_ImagePullPolicy := PullIfNotPresent |>
    <| ContainerOpts_Command :=
         [ shell; "-c"; "mongod --wiredTigerEngineConfigString=" +:+ DQ +:+ "cache_size=512M" +:+ DQ +:+
                        newline ] |>
    <| ContainerOpts_VolumeMounts :=
         [mkVolumeMount "mongodb" "/data/db" "" false; mkVolumeMount "tmp" "/tmp" "" false] |>
    <| ContainerOpts_Ports := [mkContainerPort "mongo" graylog_mongoPort ProtocolTCP] |>
    <| ContainerOpts_Resources :=
         Resources (Graylog_MongoResources spec) (GraylogDefaults_MongoResources def) |>
    <| ContainerOpts_SecurityContext := Some (restrictedSecurityContext sidecarUser) |>).

Definition graylogContainer (spec : Graylog) (def : GraylogDefaults) : Container :=
  let tls := httpTLSEnabled spec in
  let javaOpts := First (Graylog_JavaOpts spec) (GraylogDefaults_JavaOpts def) in
  let javaOpts := if tls then javaOpts +:+ newline +:+ trustStoreOption else javaOpts in
  let env :=
    [ mkEnvVar "GRAYLOG_SERVER_JAVA_OPTS" javaOpts None;
      mkEnvVar "GRAYLOG_ELASTICSEARCH_HOSTS__FILE" (secretFilesPath +:+ "/elasticsearchHost") None;
      mkEnvVar "GRAYLOG_ROOT_USERNAME__FILE" (secretFilesPath +:+ "/user") None;
      mkEnvVar "GRAYLOG_ROOT_PASSWORD_SHA2__FILE" (secretFilesPath +:+ "/rootPasswordSha2") None;
      mkEnvVar "GRAYLOG_SNAPSHOT_DIRECTORY" (Graylog_PathRepo spec) None ] ++
    (if Graylog_S3Archive spec then
       [ secretEnv "AWS_ACCESS_KEY_ID" (Graylog_GraylogSecretName spec) "awsAccessKey";
         secretEnv "AWS_SECRET_ACCESS_KEY" (Graylog_GraylogSecretName spec) "awsSecretKey" ]
     else []) in
  let probe := {|
    Probe_Path := "/"; Probe_Port := FromInt32 graylog_httpPort;
    Probe_Scheme := if tls then "HTTPS" else "HTTP";
    Probe_InitialDelaySeconds := 120; Probe_PeriodSeconds := 30; Probe_FailureThreshold := 3;
    Probe_SuccessThreshold := 1; Probe_TimeoutSeconds := 5;
  |} in
  let inputPort := to_int32 (Graylog_InputPort spec) in
  let securityContext := restrictedSecurityContext graylogUser in
  let securityContext := securityContext
    <| SecurityContext_Capabilities ::=
         fmap (λ c, c <| Capabilities_Add := ["NET_BIND_SERVICE"] |>) |> in
  NewContainer "graylog" (zero
    <| ContainerOpts_Image := Graylog_DockerImage spec |>
    <| ContainerOpts_ImagePullPolicy := PullIfNotPresent |>
    <| ContainerOpts_Command := [shell; "-c"; graylogScript spec] |>
    <| ContainerOpts_Env := env |>
    <| ContainerOpts_LivenessProbe := Some probe |>
    <| ContainerOpts_ReadinessProbe := Some probe |>
    <| ContainerOpts_VolumeMounts := graylogVolumeMounts spec |>
    <| ContainerOpts_Ports :=
         [ mkContainerPort "graylog" graylog_httpPort ProtocolTCP;
           mkContainerPort "graylog-udp" graylog_udpPort ProtocolUDP;
           mkContainerPort ("graylog-" +:+ Itoa inputPort) inputPort ProtocolTCP;
           mkContainerPort "graylog-metrics" graylog_metricsPort ProtocolTCP ] |>
    <| ContainerOpts_Resources :=
         Resources (Graylog_GraylogResources spec) (GraylogDefaults_GraylogResources def) |>
    <| ContainerOpts_SecurityContext := Some securityContext |>).

Definition authProxyContainer (spec : Graylog) (proxy : AuthProxy) (def : GraylogDefaults) : Container :=
  NewContainer graylog_authProxyName (zero
    <| ContainerOpts_Image := AuthProxy_Image proxy |>
    <| ContainerOpts_ImagePullPolicy := PullIfNotPresent |>
    <| ContainerOpts_Command :=
         [ shell; "-c"; "python /usr/src/app/graylog_auth_proxy.py --config " +:+ DQ +:+
                        "./config.yaml" +:+ DQ +:+ newline ] |>
    <| ContainerOpts_Env := [mkEnvVar "PYTHONDONTWRITEBYTECODE" "1" None] |>
    <| ContainerOpts_VolumeMounts := authProxyMounts spec proxy |>
    <| ContainerOpts_Ports :=
         [ mkContainerPort "proxy" graylog_authProxyPort ProtocolTCP;
           mkContainerPort "metrics" graylog_authProxyMetrics ProtocolTCP ] |>
    <| ContainerOpts_Resources :=
         Resources (AuthProxy_Resources proxy) (GraylogDefaults_AuthProxyResources def) |>
    <| ContainerOpts_SecurityContext := Some (restrictedSecurityContext sidecarUser) |>).

(** The containers of the pod: MongoDB, Graylog and, when it is installed, the proxy. *)
Definition graylog_containers (spec : Graylog) (def : GraylogDefaults) : list Container :=
  [mongoContainer spec def; graylogContainer spec def] ++
  match Graylog_AuthProxy spec with
  | Some proxy => if AuthProxy_Install proxy then [authProxyContainer spec proxy def] else []
  | None => []
  end.

Definition graylog_StatefulSet (cr : LoggingService) (spec : Graylog) (cfg : Defaults) : StatefulSet :=
  let def := Defaults_Graylog cfg in
  let replicas :=
    match Graylog_Replicas spec with
    | Some replicas => to_int32 replicas
    | None => GraylogDefaults_Replicas def
    end in
  let podSpec := zero
    <| PodSpec_Volumes := graylog_volumes spec def |>
    <| PodSpec_ServiceAccountName := graylog_serviceAccountName |>
    <| PodSpec_NodeSelector :=
         NodeSelector (Graylog_NodeSelectorKey spec) (Graylog_NodeSelectorValue spec) |>
    <| PodSpec_InitContainers := graylog_initContainers cr spec def |>
    <| PodSpec_SecurityContext := Some (zero
         <| PodSecurityContext_RunAsNonRoot := Some true |>
         <| PodSecurityContext_FSGroup := Some sidecarUser |>
         <| PodSecurityContext_FSGroupChangePolicy := Some "OnRootMismatch" |>
         <| PodSecurityContext_SeccompType := Some "RuntimeDefault" |>) |>
    <| PodSpec_Containers := graylog_containers spec def |>
    <| PodSpec_Affinity := Graylog_Affinity spec |> in
  let podSpec :=
    if negb (is_blank (Graylog_PriorityClassName spec))
    then podSpec <| PodSpec_PriorityClassName := Graylog_PriorityClassName spec |> else podSpec in
  let statefulSet := NewStatefulSet graylog_statefulSetName (GetNamespace cr) (zero
    <| StatefulSetOpts_Replicas := Some replicas |>
    <| StatefulSetOpts_Selector := Some graylog_selector |>
    <| StatefulSetOpts_PodSpec := podSpec |>
    <| StatefulSetOpts_Annotations := Graylog_Annotations spec |>
    <| StatefulSetOpts_PodAnnotations := Graylog_Annotations spec |>) in
  label_StatefulSet
    (mkLabelInput graylog_statefulSetName graylog_component
       (GetInstanceLabel graylog_statefulSetName (GetNamespace cr))
       (GetTagFromImage (Graylog_DockerImage spec)) graylog_technology (Graylog_Labels spec))
    statefulSet.

(** ** The volumes and their mounts *)

Lemma fileVolumes_names files : volume_names (fileVolumes files) = graylog_file_volume <$> files.
Proof. unfold volume_names, fileVolumes. by rewrite <- list_fmap_compose. Qed.

Lemma fileMounts_names files : mount_names (fileMounts files) = graylog_file_volume <$> files.
Proof. unfold mount_names, fileMounts. by rewrite <- list_fmap_compose. Qed.

Lemma fileMounts_paths files : mount_paths (fileMounts files) = graylog_file_path <$> files.
Proof. unfold mount_paths, fileMounts. by rewrite <- list_fmap_compose. Qed.

Lemma userFiles_within cert key certVolume keyVolume dir :
  sublist (graylog_file_volume <$> userFiles cert key certVolume keyVolume dir) [certVolume; keyVolume] ∧
  sublist (graylog_file_path <$> userFiles cert key certVolume keyVolume dir)
    [dir +:+ "/tls.crt"; dir +:+ "/tls.key"].
Proof.
  unfold userFiles. rewrite !fmap_app.
  split; apply (sublist_app _ [_]); repeat case_match; auto with sublists.
Qed.

(** The generated certificates of the HTTPS endpoint. *)
Definition http_generated (http : HTTPGraylogTLS) : bool :=
  graylog_generateCerts (HTTPGraylogTLS_GenerateCerts http).

Lemma httpFiles_volumes http caPath :
  graylog_file_volume <$> httpFiles http caPath
  = if http_generated http then [httpCertVolume; httpKeyVolume; certManagerCAVolume]
    else graylog_file_volume <$> userFiles (HTTPGraylogTLS_Cert http) (HTTPGraylogTLS_Key http)
           httpCertVolume httpKeyVolume (sslPath +:+ "/http").
Proof.
  unfold httpFiles, http_generated, graylog_generateCerts.
  destruct (HTTPGraylogTLS_GenerateCerts http) as [gc|]; [by destruct (GenerateCerts_Enabled gc)|done].
Qed.

Lemma httpFiles_paths http caPath :
  graylog_file_path <$> httpFiles http caPath
  = if http_generated http then [sslPath +:+ "/http/tls.crt"; sslPath +:+ "/http/tls.key"; caPath]
    else graylog_file_path <$> userFiles (HTTPGraylogTLS_Cert http) (HTTPGraylogTLS_Key http)
           httpCertVolume httpKeyVolume (sslPath +:+ "/http").
Proof.
  unfold httpFiles, http_generated, graylog_generateCerts.
  destruct (HTTPGraylogTLS_GenerateCerts http) as [gc|]; [by destruct (GenerateCerts_Enabled gc)|done].
Qed.

Lemma httpFiles_within http caPath :
  sublist (graylog_file_volume <$> httpFiles http caPath)
    ([httpCertVolume; httpKeyVolume] ++ [certManagerCAVolume]) ∧
  sublist (graylog_file_path <$> httpFiles http caPath)
    ([sslPath +:+ "/http/tls.crt"; sslPath +:+ "/http/tls.key"] ++
     if http_generated http then [caPath] else []).
Proof.
  rewrite httpFiles_volumes, httpFiles_paths. destruct (http_generated http); [done|].
  destruct (userFiles_within (HTTPGraylogTLS_Cert http) (HTTPGraylogTLS_Key http) httpCertVolume
    httpKeyVolume (sslPath +:+ "/http")) as [Hv Hp].
  split; [|rewrite app_nil_r; exact Hp]. etrans; [exact Hv|]. by apply sublist_inserts_r.
Qed.

Lemma inputFiles_within input :
  sublist (graylog_file_volume <$> inputFiles input) [inputCertVolume; inputKeyVolume] ∧
  sublist (graylog_file_path <$> inputFiles input)
    [sslPath +:+ "/input/tls.crt"; sslPath +:+ "/input/tls.key"].
Proof.
  unfold inputFiles. destruct input as [input|]; [|split; apply sublist_nil_l].
  destruct (TLS_GenerateCerts _) as [gc|]; [destruct (GenerateCerts_Enabled gc); [done|]|];
    apply userFiles_within.
Qed.

Lemma authProxyFiles_within proxy :
  sublist (graylog_file_volume <$> authProxyFiles proxy)
    ["graylog-auth-proxy-ca-cert"; "graylog-auth-proxy-client-cert"; "graylog-auth-proxy-private-key"] ∧
  sublist (graylog_file_path <$> authProxyFiles proxy)
    ["/usr/share/ssl/auth/ca.crt"; "/usr/share/ssl/auth/tls.crt"; "/usr/share/ssl/auth/tls.key"].
Proof.
  unfold authProxyFiles. set (files := [_; _; _]).
  split; [change [_; _; _] with (graylog_file_volume <$> files)
         |change [_; _; _] with (graylog_file_path <$> files)]; apply fmap_sublist, sublist_filter.
Qed.

(** The names of the HTTPS files, of the proxy's and of the input's. *)
Definition http_names (spec : Graylog) : list string :=
  with_http spec (λ http,
    (graylog_file_volume <$> httpFiles http "") ++
    (if negb (String.eqb (HTTPGraylogTLS_CACerts http) "") then [caCertsVolume] else [])).

Definition proxy_names (spec : Graylog) : list string :=
  match Graylog_AuthProxy spec with
  | Some proxy =>
      if AuthProxy_Install proxy then
        [authProxyConfigVolume; "graylog-auth-proxy-htpasswd"] ++
        (graylog_file_volume <$> authProxyFiles proxy)
      else []
  | None => []
  end.

Definition input_names (spec : Graylog) : list string :=
  with_input spec (fmap graylog_file_volume).

Definition graylog_base_names : list string :=
  [ "data"; "plugins"; "plugins-merged"; "mongodb"; "logsconf"; "graylogconf"; "nodeid"; "tmp";
    "graylog-credentials-files" ].

(** The mounts of the HTTPS files, with the names of their volumes. *)
Lemma http_mount_names spec (caPath path subPath : string) :
  mount_names (with_http spec (λ http,
    fileMounts (httpFiles http caPath) ++
    (if negb (String.eqb (HTTPGraylogTLS_CACerts http) "")
     then [readOnlyMount caCertsVolume path subPath] else []))) = http_names spec.
Proof.
  unfold http_names, with_http. destruct (graylog_http spec) as [http|]; [|done].
  unfold mount_names at 1. rewrite fmap_app. f_equal; [|by case_match].
  rewrite httpFiles_volumes, <- (httpFiles_volumes http caPath). apply fileMounts_names.
Qed.

Lemma graylog_volumes_names spec def :
  volume_names (graylog_volumes spec def)
  = graylog_base_names ++ proxy_names spec ++ http_names spec ++ input_names spec.
Proof.
  unfold graylog_volumes, volume_names. rewrite !fmap_app. f_equal. f_equal; [|f_equal].
  - unfold proxy_names. repeat case_match; try done; rewrite fmap_app; f_equal; apply fileVolumes_names.
  - unfold http_names, with_http. destruct (graylog_http spec) as [http|]; [|done].
    rewrite fmap_app. f_equal; [apply fileVolumes_names|by case_match].
  - unfold input_names, with_input. destruct (Graylog_TLS spec); [|done]. apply fileVolumes_names.
Qed.

Definition graylog_reserved_names : list string :=
  graylog_base_names ++
  ([authProxyConfigVolume; "graylog-auth-proxy-htpasswd"] ++
   ["graylog-auth-proxy-ca-cert"; "graylog-auth-proxy-client-cert"; "graylog-auth-proxy-private-key"]) ++
  (([httpCertVolume; httpKeyVolume] ++ [certManagerCAVolume]) ++ [caCertsVolume]) ++
  [inputCertVolume; inputKeyVolume].

Lemma graylog_volumes_NoDup spec def : NoDup (volume_names (graylog_volumes spec def)).
Proof.
  apply (NoDup_sublist _ graylog_reserved_names); [|apply (bool_decide_unpack _); by vm_compute].
  rewrite graylog_volumes_names. unfold graylog_reserved_names.
  apply sublist_app; [reflexivity|]. apply sublist_app; [|apply sublist_app].
  - unfold proxy_names. repeat case_match; try apply sublist_nil_l.
    apply sublist_app; [reflexivity|]. apply authProxyFiles_within.
  - unfold http_names, with_http. destruct (graylog_http spec) as [http|]; [|apply sublist_nil_l].
    apply sublist_app; [apply httpFiles_within|]. case_match; auto with sublists.
  - unfold input_names, with_input. destruct (Graylog_TLS spec); [|apply sublist_nil_l].
    apply inputFiles_within.
Qed.

(** The paths of Graylog's own mounts never collide. *)
Lemma graylogVolumeMounts_NoDup spec : NoDup (mount_paths (graylogVolumeMounts spec)).
Proof.
  apply (NoDup_sublist _
    ([ secretFilesPath; dataPath; "/usr/share/graylog/plugin"; "/usr/share/graylog/plugins-merged";
       dataPath +:+ "/config/log4j2.xml"; dataPath +:+ "/config/graylog.conf";
       dataPath +:+ "/config/node-id"; "/tmp" ] ++
     (([sslPath +:+ "/http/tls.crt"; sslPath +:+ "/http/tls.key"] ++
       [sslPath +:+ "/cacerts/cert-manager-ca.crt"]) ++ [sslPath +:+ "/cacerts"]) ++
     [sslPath +:+ "/input/tls.crt"; sslPath +:+ "/input/tls.key"]));
    [|apply (bool_decide_unpack _); by vm_compute].
  unfold graylogVolumeMounts, mount_paths. rewrite !fmap_app.
  apply sublist_app; [reflexivity|]. apply sublist_app.
  - unfold with_http. destruct (graylog_http spec) as [http|]; [|apply sublist_nil_l].
    rewrite fmap_app. apply sublist_app; [|case_match; cbn; auto with sublists].
    fold (mount_paths (fileMounts (httpFiles http (sslPath +:+ "/cacerts/cert-manager-ca.crt")))).
    rewrite fileMounts_paths. etrans; [apply httpFiles_within|].
    apply sublist_app; [reflexivity|]. case_match; auto with sublists.
  - unfold with_input. destruct (Graylog_TLS spec); [|apply sublist_nil_l].
    fold (mount_paths (fileMounts (inputFiles (GraylogTLS_Input g)))).
    rewrite fileMounts_paths. apply inputFiles_within.
Qed.

(** The generated certificates bring their own CA; the proxy mounts it where it mounts
    the CA certificates of the custom resource. *)
Definition auth_proxy_conflict (spec : Graylog) : bool :=
  authProxyInstalled spec &&
  match graylog_http spec with
  | Some http => http_generated http && negb (String.eqb (HTTPGraylogTLS_CACerts http) "")
  | None => false
  end.

Lemma authProxyMounts_names spec proxy :
  Graylog_AuthProxy spec = Some proxy → AuthProxy_Install proxy = true →
  mount_names (authProxyMounts spec proxy) ⊆ graylog_base_names ++ proxy_names spec ++ http_names spec.
Proof.
  intros Hp Hi x. unfold authProxyMounts, mount_names. rewrite !fmap_app, !elem_of_app.
  fold (mount_names (fileMounts (authProxyFiles proxy))). rewrite fileMounts_names.
  pose proof (http_mount_names spec (sslPath +:+ "/http/ca.crt") (sslPath +:+ "/http/ca.crt") "ca.crt")
    as Hn. unfold mount_names at 1 in Hn. rewrite Hn.
  unfold proxy_names. rewrite Hp, Hi, elem_of_app.
  intros [Hx|[?|?]]; [|by auto..].
  cbn in Hx. rewrite !elem_of_cons, elem_of_nil in Hx. destruct Hx as [->|[->|[->|[]]]].
  - right. left. left. left.
  - right. left. left. right. left.
  - left. apply (bool_decide_unpack _). by vm_compute.
Qed.

Lemma authProxyMounts_NoDup spec proxy :
  Graylog_AuthProxy spec = Some proxy → AuthProxy_Install proxy = true →
  NoDup (mount_paths (authProxyMounts spec proxy)) ↔ auth_proxy_conflict spec = false.
Proof.
  intros Hp Hi. unfold auth_proxy_conflict, authProxyInstalled. rewrite Hp, Hi. cbn [andb].
  set (paths := ([ "/usr/src/app/config.yaml"; "/usr/src/app/.htpasswd"; "/tmp" ] ++
    ([sslPath +:+ "/http/tls.crt"; sslPath +:+ "/http/tls.key"] ++ [sslPath +:+ "/http/ca.crt"]) ++
    ["/usr/share/ssl/auth/ca.crt"; "/usr/share/ssl/auth/tls.crt"; "/usr/share/ssl/auth/tls.key"])).
  assert (Hpaths : NoDup paths) by (apply (bool_decide_unpack _); by vm_compute).
  unfold authProxyMounts, mount_paths. rewrite !fmap_app.
  fold (mount_paths (fileMounts (authProxyFiles proxy))). rewrite fileMounts_paths.
  destruct (authProxyFiles_within proxy) as [_ Hfiles].
  unfold with_http. destruct (graylog_http spec) as [http|].
  2: { split; [done|intros _]. refine (NoDup_sublist _ paths _ Hpaths).
       apply sublist_app; [reflexivity|]. apply sublist_app; [apply sublist_nil_l|done]. }
  rewrite fmap_app. fold (mount_paths (fileMounts (httpFiles http (sslPath +:+ "/http/ca.crt")))).
  rewrite fileMounts_paths.
  pose proof (httpFiles_paths http (sslPath +:+ "/http/ca.crt")) as Hgen.
  destruct (httpFiles_within http (sslPath +:+ "/http/ca.crt")) as [_ Hhttp].
  destruct (http_generated http), (String.eqb (HTTPGraylogTLS_CACerts http) ""); cbn [negb andb].
  - split; [done|intros _]. refine (NoDup_sublist _ paths _ Hpaths).
    do 2 (apply sublist_app; [try reflexivity|]); [|done]. cbn [fmap list_fmap]. by rewrite app_nil_r.
  - split; [|done]. rewrite Hgen. intros Hnd. exfalso.
    apply NoDup_app in Hnd as (_ & _ & Hnd). apply NoDup_app in Hnd as (Hnd & _ & _).
    revert Hnd. apply (bool_decide_unpack _). by vm_compute.
  - split; [done|intros _]. refine (NoDup_sublist _ paths _ Hpaths).
    do 2 (apply sublist_app; [try reflexivity|]); [|done]. cbn [fmap list_fmap].
    rewrite app_nil_r. etrans; [exact Hhttp|]. apply sublist_app; [reflexivity|apply sublist_nil_l].
  - split; [done|intros _]. refine (NoDup_sublist _ paths _ Hpaths).
    do 2 (apply sublist_app; [try reflexivity|]); [|done].
    apply sublist_app; [|reflexivity]. by rewrite app_nil_r in Hhttp.
Qed.

Lemma graylog_mounts_names spec :
  mount_names (graylogVolumeMounts spec) ⊆ graylog_base_names ++ http_names spec ++ input_names spec.
Proof.
  intros x. unfold graylogVolumeMounts, mount_names. rewrite !fmap_app, !elem_of_app.
  pose proof (http_mount_names spec (sslPath +:+ "/cacerts/cert-manager-ca.crt") (sslPath +:+ "/cacerts") "")
    as Hn. unfold mount_names at 1 in Hn. rewrite Hn.
  intros [Hx|[?|Hx]]; [|by auto|].
  - left. assert (Hsub : [ "graylog-credentials-files"; "data"; "plugins"; "plugins-merged"; "logsconf";
      "graylogconf"; "nodeid"; "tmp" ] ⊆ graylog_base_names)
      by (apply (bool_decide_unpack _); by vm_compute). by apply Hsub.
  - right. right. unfold input_names, with_input in *. destruct (Graylog_TLS spec) as [tls|]; [|done].
    by rewrite <- fileMounts_names.
Qed.

(** The other containers mount fixed volumes on different paths. *)
Lemma graylog_fixed_mounts cr spec def c :
  c ∈ graylog_initContainers cr spec def ++ [mongoContainer spec def] →
  mount_names (Container_VolumeMounts c) ⊆ graylog_base_names ∧
  NoDup (mount_paths (Container_VolumeMounts c)).
Proof.
  assert (Hc : ∀ ms, Container_VolumeMounts c = ms →
    bool_decide (mount_names ms ⊆ graylog_base_names ∧ NoDup (mount_paths ms)) = true →
    mount_names (Container_VolumeMounts c) ⊆ graylog_base_names ∧
    NoDup (mount_paths (Container_VolumeMounts c))).
  { intros ms -> H. by apply bool_decide_eq_true in H. }
  unfold graylog_initContainers. intros Hin.
  assert (Hor : c ∈ [mongoContainer spec def] ∨
    Container_VolumeMounts c
    = [mkVolumeMount "data" dataPath "" false; mkVolumeMount "mongodb" "/data/db" "" false] ∨
    Container_VolumeMounts c = [mkVolumeMount "plugins" "/usr/share/graylog/plugin" "" false]).
  { rewrite !elem_of_app in Hin. destruct Hin as [[->%list_elem_of_singleton|Hin]|?]; [by auto| |by auto].
    case_match; [|by apply elem_of_nil in Hin]. apply list_elem_of_singleton in Hin as ->. auto. }
  destruct Hor as [->%list_elem_of_singleton|[H|H]]; (eapply Hc; [first [exact H|reflexivity]|]);
    by vm_compute.
Qed.

(** Where each port of the Service leads. *)
Lemma graylog_ports cr spec def p :
  p ∈ Service_Ports (graylog_Service cr spec) →
  ∃ c q, c ∈ graylog_containers spec def ∧ q ∈ Container_Ports c ∧
    ServicePort_TargetPort p = FromInt32 (ContainerPort_ContainerPort q) ∧
    ServicePort_Protocol p = ContainerPort_Protocol q ∧
    (ServicePort_Port p = graylog_httpPort → ServicePort_Name p = "graylog" →
     Container_Name c = if authProxyInstalled spec then graylog_authProxyName else "graylog").
Proof.
  set (main := graylogContainer spec def).
  assert (Hmain : main ∈ graylog_containers spec def) by (right; left).
  change (Service_Ports _) with ((if authProxyInstalled spec then
       [ graylog_servicePort "graylog" graylog_httpPort graylog_authProxyPort ProtocolTCP;
         graylog_servicePort "metrics" graylog_authProxyMetrics graylog_authProxyMetrics ProtocolTCP ]
     else [graylog_servicePort "graylog" graylog_httpPort graylog_httpPort ProtocolTCP]) ++
    [ graylog_servicePort "graylog-udp" graylog_udpPort graylog_udpPort ProtocolUDP;
      graylog_servicePort ("graylog-" +:+ Itoa (to_int32 (Graylog_InputPort spec)))
        (to_int32 (Graylog_InputPort spec)) (to_int32 (Graylog_InputPort spec)) ProtocolTCP;
      graylog_servicePort "graylog-metrics" graylog_metricsPort graylog_metricsPort ProtocolTCP ]).
  intros [Hp|Hp]%elem_of_app.
  - destruct (authProxyInstalled spec) eqn:Hinst.
    + unfold authProxyInstalled in Hinst. destruct (Graylog_AuthProxy spec) as [proxy|] eqn:Hproxy; [|done].
      assert (Hin : authProxyContainer spec proxy def ∈ graylog_containers spec def)
        by (unfold graylog_containers; rewrite Hproxy, Hinst; right; right; left).
      rewrite !elem_of_cons, elem_of_nil in Hp. destruct Hp as [->|[->|[]]]; exists (authProxyContainer spec proxy def).
      * eexists. split; [done|]. split; [left|done].
      * eexists. split; [done|]. split; [right; left|done].
    + apply list_elem_of_singleton in Hp as ->. exists main. eexists. split; [done|]. split; [left|done].
  - rewrite !elem_of_cons, elem_of_nil in Hp. destruct Hp as [->|[->|[->|[]]]]; exists main; eexists;
      (split; [done|]).
    + split; [right; left|done].
    + split; [right; right; left|done].
    + split; [right; right; right; left|done].
Qed.

(** ** Properties *)

(** C33: the pod of the Graylog StatefulSet is well formed (no two volumes share a
    name, each container mounts only volumes of the pod, no two mounts of a container
    share a path) for every custom resource but one combination: the auth proxy
    installed, certificates generated for HTTPS and CA certificates given as well.
    The proxy then mounts two volumes at the same path, and a pod with two mounts at
    a path is invalid. *)
Theorem graylog_StatefulSet_well_formed cr spec cfg :
  well_formed_pod [] (PodTemplateSpec_Spec (StatefulSet_Template (graylog_StatefulSet cr spec cfg)))
  ↔ auth_proxy_conflict spec = false.
Proof.
  set (def := Defaults_Graylog cfg). set (pod := PodTemplateSpec_Spec _).
  assert (Hpod : PodSpec_Volumes pod = graylog_volumes spec def ∧
    PodSpec_InitContainers pod = graylog_initContainers cr spec def ∧
    PodSpec_Containers pod = graylog_containers spec def)
    by (unfold pod, graylog_StatefulSet; by destruct (is_blank _)).
  destruct Hpod as (Hv & Hi & Hc).
  assert (Hproxy : ∀ proxy, Graylog_AuthProxy spec = Some proxy → AuthProxy_Install proxy = true →
    authProxyContainer spec proxy def ∈ PodSpec_InitContainers pod ++ PodSpec_Containers pod).
  { intros proxy Hp Hin. rewrite Hc. apply elem_of_app. right. unfold graylog_containers.
    rewrite Hp, Hin. apply elem_of_app. right. left. }
  split.
  - intros [_ _ Hpaths]. destruct (Graylog_AuthProxy spec) as [proxy|] eqn:Hp;
      [destruct (AuthProxy_Install proxy) eqn:Hin|].
    + apply (authProxyMounts_NoDup spec proxy Hp Hin), (Hpaths _ (Hproxy _ eq_refl Hin)).
    + unfold auth_proxy_conflict, authProxyInstalled. by rewrite Hp, Hin.
    + unfold auth_proxy_conflict, authProxyInstalled. by rewrite Hp.
  - intros Hno. assert (Hcs : ∀ c, c ∈ PodSpec_InitContainers pod ++ PodSpec_Containers pod →
      mount_names (Container_VolumeMounts c) ⊆ volume_names (PodSpec_Volumes pod) ∧
      NoDup (mount_paths (Container_VolumeMounts c))).
    { intros c. rewrite Hi, Hc, Hv, graylog_volumes_names. unfold graylog_containers.
      change ([mongoContainer spec def; graylogContainer spec def] ++ ?x)
        with ([mongoContainer spec def] ++ [graylogContainer spec def] ++ x).
      rewrite (assoc_L app), !elem_of_app. intros [Hf|[->%list_elem_of_singleton|Hf]].
      - rewrite <- elem_of_app in Hf. apply graylog_fixed_mounts in Hf as [Hn Hp].
        split; [|done]. intros x Hx. apply elem_of_app. auto.
      - split; [|apply graylogVolumeMounts_NoDup]. intros x Hx%graylog_mounts_names.
        rewrite !elem_of_app in *. tauto.
      - destruct (Graylog_AuthProxy spec) as [proxy|] eqn:Hp; [|by apply elem_of_nil in Hf].
        destruct (AuthProxy_Install proxy) eqn:Hin; [|by apply elem_of_nil in Hf].
        apply list_elem_of_singleton in Hf as ->. split; [|by apply authProxyMounts_NoDup].
        intros x Hx%authProxyMounts_names; [|done..]. rewrite !elem_of_app in *. tauto. }
    split; [rewrite Hv; apply graylog_volumes_NoDup|intros c Hc'; apply (Hcs c Hc')..].
Qed.

(** The Graylog Service and the StatefulSet select the same pods, the
    StatefulSet's own, whatever labels the custom resource adds; each port of the
    Service leads to a port that a container of the pod opens with the same protocol,
    with the proxy in front of Graylog when it is installed; and every container of
    the pod (those that run after the initialisation) is hardened. *)
Theorem graylog_Service_reaches_pod cr spec cfg :
  let ss := graylog_StatefulSet cr spec cfg in
  let pod := PodTemplateSpec_Spec (StatefulSet_Template ss) in
  selects (StatefulSet_Selector ss) (template_labels (StatefulSet_Template ss)) ∧
  Service_Selector (graylog_Service cr spec) = StatefulSet_Selector ss ∧
  (∀ p, p ∈ Service_Ports (graylog_Service cr spec) →
     ∃ c q, c ∈ PodSpec_Containers pod ∧ q ∈ Container_Ports c ∧
       ServicePort_TargetPort p = FromInt32 (ContainerPort_ContainerPort q) ∧
       ServicePort_Protocol p = ContainerPort_Protocol q ∧
       (ServicePort_Port p = graylog_httpPort → ServicePort_Name p = "graylog" →
        Container_Name c = if authProxyInstalled spec then graylog_authProxyName else "graylog")) ∧
  ∀ c, c ∈ PodSpec_Containers pod → hardened (Container_SecurityContext c).
Proof.
  intros ss pod. set (def := Defaults_Graylog cfg).
  assert (Hc : PodSpec_Containers pod = graylog_containers spec def)
    by (unfold pod, ss, graylog_StatefulSet; by destruct (is_blank _)).
  assert (Hlabels : ∃ inp, LabelInput_Name inp = graylog_statefulSetName ∧
    template_labels (StatefulSet_Template ss) = Some (templateLabels inp None)).
  { eexists. split; [|apply label_StatefulSet_template]. done. }
  destruct Hlabels as (inp & Hinp & ->). split_and!.
  - change (StatefulSet_Selector ss) with (Some graylog_selector).
    unfold graylog_selector. rewrite <- Hinp. solve_selects.
  - done.
  - rewrite Hc. intros p Hp. apply (graylog_ports _ _ def) in Hp as (c & q & ? & ? & ? & ? & ?); eauto 10 using eq_refl.
  - rewrite Hc. unfold graylog_containers. intros c [Hin|Hin]%elem_of_app.
    + rewrite !elem_of_cons, elem_of_nil in Hin. by destruct Hin as [->|[->|[]]].
    + repeat case_match; try by apply elem_of_nil in Hin.
      by apply list_elem_of_singleton in Hin as ->.
Qed.
