(* ===== verification/GraylogStreams.v ===== *)
(** * Graylog's streams and index sets: internal/controllers/graylog/utils

    Which streams the operator configures ([GetStreams] and [ManageRequiredStreams] of
    connector.go, [GetDefaultStreams] of streams.go), and the index sets they need
    ([GetIndexSets] of index-sets.go). *)

From S2P Require Import Prelude GoStrings KubeTypes Api.

(** ** The tables of internal/utils/vars.go *)

Definition GraylogDefaultStream : string := "Default Stream".
Definition GraylogAllMessagesStream : string := "All messages".
Definition GraylogAuditIndexSet : string := "Audit index set".
Definition GraylogAuditStream : string := "Audit logs".
Definition GraylogSystemIndexSet : string := "Default index set".
Definition GraylogSystemStream : string := "System logs".
Definition GraylogAccessIndexSet : string := "Access index set".
Definition GraylogAccessStream : string := "Access logs".
Definition GraylogIntegrationIndexSet : string := "Integration index set".
Definition GraylogIntegrationStream : string := "Integration logs".
Definition GraylogBillCycleIndexSet : string := "Bill Cycle index set".
Definition GraylogBillCycleStream : string := "Bill Cycle logs".
Definition GraylogNginxIndexSet : string := "Ingress-nginx index set".
Definition GraylogNginxStream : string := "Nginx logs".
Definition GraylogDefaultIndexSet : string := "Default index set".
Definition GraylogKubernetesEventsStream : string := "Kubernetes events".
Definition GraylogKubernetesEventsIndexSet : string := "Kubernetes events index set".

Definition GraylogStreamsIndexTitles : smap :=
  {[ GraylogAuditStream := GraylogAuditIndexSet;
     GraylogSystemStream := GraylogSystemIndexSet;
     GraylogAccessStream := GraylogAccessIndexSet;
     GraylogIntegrationStream := GraylogIntegrationIndexSet;
     GraylogBillCycleStream := GraylogBillCycleIndexSet;
     GraylogNginxStream := GraylogNginxIndexSet;
     GraylogKubernetesEventsStream := GraylogKubernetesEventsIndexSet ]}.

Definition GraylogIndexConfigs : smap :=
  {[ GraylogAuditIndexSet := "config/indexes/audit_index.json";
     GraylogSystemIndexSet := "config/indexes/default_index.json";
     GraylogAccessIndexSet := "config/indexes/access_index.json";
     GraylogIntegrationIndexSet := "config/indexes/integration_index.json";
     GraylogBillCycleIndexSet := "config/indexes/bill_cycle_index.json";
     GraylogNginxIndexSet := "config/indexes/nginx_index.json";
     GraylogKubernetesEventsIndexSet := "config/indexes/k8s_event_index.json" ]}.

(** Three keys of the literal are the default stream; the last of them counts. *)
Definition GraylogStreamsRules : smap :=
  {[ GraylogAuditStream := "Route Audit logs";
     GraylogSystemStream := "Route System logs";
     GraylogAccessStream := "Route Access logs";
     GraylogIntegrationStream := "Route Integration logs";
     GraylogBillCycleStream := "Route Bill Cycle logs";
     GraylogNginxStream := "Route Nginx logs";
     GraylogDefaultStream := "Processing unsupported symbols";
     GraylogKubernetesEventsStream := "Route Kubernetes events" ]}.

(** ** Streams *)

(** [Stream] of connector.go. *)
Record EnabledStream : Type := mkEnabledStream {
  EnabledStream_Title : string;
  EnabledStream_RotationStrategy : string;
  EnabledStream_RotationPeriod : string;
  EnabledStream_MaxSize : Z;
  EnabledStream_MaxNumberOfIndices : Z;
}.

Definition GetDefaultStreams : list Stream :=
  [ mkStream GraylogAuditStream "timeBased" "P1M" 0 5 true;
    mkStream GraylogSystemStream "sizeBased" "" 1073741824 20 true;
    mkStream GraylogKubernetesEventsStream "timeBased" "P1M" 0 5 true ].

(** [cr.Spec.Graylog.Streams] after [ManageRequiredStreams], which is also its result. *)
Definition ManageRequiredStreams (streams : list Stream) : list Stream :=
  let systemLogs := existsb (λ s, EqualFold (Stream_Name s) "system logs") streams in
  let auditLogs := existsb (λ s, EqualFold (Stream_Name s) "audit logs") streams in
  let streams := if negb auditLogs
    then streams ++ [mkStream GraylogAuditStream "timeBased" "P1M" 0 5 true] else streams in
  if negb systemLogs
  then streams ++ [mkStream GraylogSystemStream "" "" 0 0 true] else streams.

Definition known_strategy (strategy : string) : bool :=
  negb (String.eqb strategy "") &&
  (EqualFold strategy "sizeBased" || EqualFold strategy "timeBased").

Definition enabled_stream (s : Stream) : EnabledStream :=
  mkEnabledStream (Stream_Name s)
    (if known_strategy (Stream_RotationStrategy s) then Stream_RotationStrategy s else "sizeBased")
    (Stream_RotationPeriod s) (Stream_MaxSize s) (Stream_MaxNumberOfIndices s).

(** The loop of [GetStreams]: a stream is skipped when a later one has its name. *)
Fixpoint enabled_streams (streams : list Stream) : list EnabledStream :=
  match streams with
  | [] => []
  | s :: rest =>
      let needSkip := existsb (λ s', String.eqb (Stream_Name s) (Stream_Name s')) rest in
      if negb needSkip && Stream_Install s && bool_decide (is_Some (GraylogStreamsRules !! Stream_Name s))
      then enabled_stream s :: enabled_streams rest
      else enabled_streams rest
  end.

(** The custom resource's streams after [GetStreams]. *)
Definition managed_streams (g : Graylog) : list Stream :=
  if bool_decide (Graylog_Streams g = []) then [] else ManageRequiredStreams (Graylog_Streams g).

(** [GetStreams] for a custom resource that sets Graylog. *)
Definition GetStreams (g : Graylog) : list EnabledStream :=
  if bool_decide (Graylog_Streams g = []) then enabled_streams GetDefaultStreams
  else enabled_streams (ManageRequiredStreams (Graylog_Streams g)).

(** [connector.GetStreams()]: the index set of each enabled stream that has one. *)
Definition connector_GetStreams (enabled : list EnabledStream) : smap :=
  foldl (λ streamToIndex s,
    match GraylogStreamsIndexTitles !! EnabledStream_Title s with
    | Some i => <[EnabledStream_Title s := i]> streamToIndex
    | None => streamToIndex
    end) ∅ enabled.

(** [connector.GetIndexSets()]: the configuration of each index set to manage. *)
Definition index_config (title : string) : string := default "" (GraylogIndexConfigs !! title).

Definition GetIndexSets (enabled : list EnabledStream) : smap :=
  foldl (λ availableIndexSets s,
    match GraylogStreamsIndexTitles !! EnabledStream_Title s with
    | Some v => <[v := index_config v]> availableIndexSets
    | None => availableIndexSets
    end)
    {[ GraylogDefaultIndexSet := index_config GraylogDefaultIndexSet;
       GraylogAuditIndexSet := index_config GraylogAuditIndexSet ]} enabled.

(** ** Lemmas *)

(** The last stream with the name of [s] is [s]. *)
Definition last_of_name (s : Stream) (streams : list Stream) : Prop :=
  ∃ before after, streams = before ++ s :: after ∧
    Forall (λ s', Stream_Name s' ≠ Stream_Name s) after.

Definition has_later (s : Stream) (rest : list Stream) : bool :=
  existsb (λ s', String.eqb (Stream_Name s) (Stream_Name s')) rest.

Lemma has_later_false s rest :
  has_later s rest = false ↔ Forall (λ s', Stream_Name s' ≠ Stream_Name s) rest.
Proof.
  unfold has_later. induction rest as [|s' rest IH]; cbn; [by split|].
  rewrite orb_false_iff, String.eqb_neq, Forall_cons, IH. naive_solver.
Qed.

(** A stream of the custom resource counts when it is the last of its name, it is to
    be installed, and its name is one that the operator knows. *)
Definition counts (streams : list Stream) (s : Stream) : Prop :=
  last_of_name s streams ∧ Stream_Install s = true ∧ is_Some (GraylogStreamsRules !! Stream_Name s).

Lemma last_of_name_cons s x rest :
  last_of_name s (x :: rest) ↔
  (s = x ∧ has_later x rest = false) ∨ last_of_name s rest.
Proof.
  unfold last_of_name. split.
  - intros ([|y before] & after & Heq & Hf); simplify_eq/=.
    + left. by rewrite has_later_false.
    + right. by exists before, after.
  - intros [[-> Hl]|(before & after & -> & Hf)].
    + exists [], rest. by rewrite has_later_false in Hl.
    + by exists (x :: before), after.
Qed.

Lemma elem_of_enabled_streams e streams :
  e ∈ enabled_streams streams ↔ ∃ s, counts streams s ∧ e = enabled_stream s.
Proof.
  unfold counts. induction streams as [|x rest IH]; cbn [enabled_streams].
  { split; [by intros ?%elem_of_nil|]. by intros (s & (([] & after & Heq & _) & _) & _). }
  fold (has_later x rest).
  setoid_rewrite last_of_name_cons.
  destruct (negb (has_later x rest) && Stream_Install x && bool_decide _) eqn:Hc.
  - rewrite !andb_true_iff, negb_true_iff, bool_decide_eq_true in Hc.
    rewrite elem_of_cons, IH. naive_solver.
  - rewrite IH. split; [naive_solver|]. intros (s & ([[-> Hl]|Hl] & Hi & Hr) & ->); [|naive_solver].
    by rewrite Hl, Hi, bool_decide_eq_true_2 in Hc.
Qed.

Lemma enabled_streams_titles streams t :
  t ∈ EnabledStream_Title <$> enabled_streams streams → ∃ s, s ∈ streams ∧ Stream_Name s = t.
Proof.
  intros (e & -> & (s & ((before & after & -> & _) & _) & ->)%elem_of_enabled_streams)%list_elem_of_fmap.
  exists s. split; [|done]. rewrite elem_of_app. right. left.
Qed.

Lemma enabled_streams_NoDup streams : NoDup (EnabledStream_Title <$> enabled_streams streams).
Proof.
  induction streams as [|x rest IH]; cbn [enabled_streams]; [constructor|]. fold (has_later x rest).
  destruct (negb (has_later x rest) && Stream_Install x && bool_decide _) eqn:Hc; [|done].
  rewrite !andb_true_iff, negb_true_iff, has_later_false in Hc. destruct Hc as [[Hl _] _].
  rewrite fmap_cons. constructor; [|done]. intros (s & Hin & Heq)%enabled_streams_titles.
  rewrite Forall_forall in Hl. by apply (Hl s Hin).
Qed.

(** The streams that [GetStreams] goes through. *)
Definition required_streams (g : Graylog) : list Stream :=
  if bool_decide (Graylog_Streams g = []) then GetDefaultStreams
  else ManageRequiredStreams (Graylog_Streams g).

Lemma GetStreams_required g : GetStreams g = enabled_streams (required_streams g).
Proof. unfold GetStreams, required_streams. by case_bool_decide. Qed.

(** A stream that the loop appended counts: nothing of its name precedes the others. *)
Lemma appended_counts streams s after :
  Stream_Install s = true → is_Some (GraylogStreamsRules !! Stream_Name s) →
  Forall (λ s', Stream_Name s' ≠ Stream_Name s) after →
  counts (streams ++ s :: after) s.
Proof. intros Hi Hr Ha. split_and!; [by exists streams, after|done|done]. Qed.

(** No stream of the custom resource has the name, in any case. *)
Definition unnamed (streams : list Stream) (name : string) : Prop :=
  existsb (λ s, EqualFold (Stream_Name s) name) streams = false.

Lemma required_audit g :
  unnamed (Graylog_Streams g) "audit logs" →
  ∃ s, counts (required_streams g) s ∧ Stream_Name s = GraylogAuditStream.
Proof.
  intros Hn. unfold required_streams. case_bool_decide as Hnil.
  - exists (mkStream GraylogAuditStream "timeBased" "P1M" 0 5 true). split; [|done].
    apply (appended_counts []); [done|by eexists|by repeat constructor].
  - unfold ManageRequiredStreams. rewrite Hn. cbn [negb].
    exists (mkStream GraylogAuditStream "timeBased" "P1M" 0 5 true). split; [|done].
    destruct (negb _); rewrite <- ?app_assoc; apply appended_counts; try done; try (by eexists).
    by repeat constructor.
Qed.

Lemma required_system g :
  unnamed (Graylog_Streams g) "system logs" →
  ∃ s, counts (required_streams g) s ∧ Stream_Name s = GraylogSystemStream.
Proof.
  intros Hn. unfold required_streams. case_bool_decide as Hnil.
  - exists (mkStream GraylogSystemStream "sizeBased" "" 1073741824 20 true). split; [|done].
    apply (appended_counts [mkStream GraylogAuditStream "timeBased" "P1M" 0 5 true]);
      [done|by eexists|by repeat constructor].
  - unfold ManageRequiredStreams. rewrite Hn. cbn [negb].
    exists (mkStream GraylogSystemStream "" "" 0 0 true). split; [|done].
    apply appended_counts; [done|by eexists|constructor].
Qed.

(** A map folded from pairs of a key and the value of the key. *)
Lemma lookup_fold_keys {A} (key : A → option string) (value : A → string → string) (f : string → string)
    (xs : list A) (m : smap) k :
  (∀ x t, key x = Some t → value x t = f t) →
  foldl (λ m x, match key x with Some t => <[t := value x t]> m | None => m end) m xs !! k =
  if bool_decide (Exists (λ x, key x = Some k) xs) then Some (f k) else m !! k.
Proof.
  intros Hf. revert m. induction xs as [|x xs IH]; intros m; cbn [foldl].
  { rewrite bool_decide_eq_false_2; [done|]. by intros ?%Exists_nil. }
  rewrite IH. rewrite (bool_decide_ext (Exists _ (x :: xs)) (key x = Some k ∨ Exists (λ x, key x = Some k) xs))
    by apply Exists_cons.
  case_bool_decide as He; [by rewrite bool_decide_eq_true_2 by by right|].
  destruct (key x) as [t|] eqn:Hk.
  - destruct (decide (t = k)) as [->|Hne].
    + rewrite lookup_insert_eq, (Hf x), bool_decide_eq_true_2 by eauto. done.
    + rewrite lookup_insert_ne by done. rewrite bool_decide_eq_false_2; [done|]. naive_solver.
  - rewrite bool_decide_eq_false_2; [done|]. naive_solver.
Qed.

(** The index sets in use: the two that are always there, and those of the enabled
    streams. *)
Definition index_set_used (enabled : list EnabledStream) (title : string) : Prop :=
  title = GraylogDefaultIndexSet ∨ title = GraylogAuditIndexSet ∨
  Exists (λ e, GraylogStreamsIndexTitles !! EnabledStream_Title e = Some title) enabled.

(** ** Properties *)

(** The streams that the operator enables in Graylog.  Their titles are distinct,
    and they are exactly the streams to be installed that the operator knows, each
    as the last entry of its name in the custom resource has it; the rotation is
    always by size or by time; and unless the custom resource has an entry for them,
    the audit and the system streams are enabled. *)
Theorem GetStreams_enabled g :
  NoDup (EnabledStream_Title <$> GetStreams g) ∧
  (∀ e, e ∈ GetStreams g ↔ ∃ s, counts (required_streams g) s ∧ e = enabled_stream s) ∧
  (∀ e, e ∈ GetStreams g → known_strategy (EnabledStream_RotationStrategy e) = true) ∧
  (unnamed (Graylog_Streams g) "audit logs" → GraylogAuditStream ∈ EnabledStream_Title <$> GetStreams g) ∧
  (unnamed (Graylog_Streams g) "system logs" → GraylogSystemStream ∈ EnabledStream_Title <$> GetStreams g).
Proof.
  rewrite GetStreams_required.
  assert (Hin : ∀ s, counts (required_streams g) s →
    Stream_Name s ∈ EnabledStream_Title <$> enabled_streams (required_streams g)).
  { intros s Hs. apply list_elem_of_fmap. exists (enabled_stream s). split; [done|].
    apply elem_of_enabled_streams. by exists s. }
  split_and!.
  - apply enabled_streams_NoDup.
  - intros e. apply elem_of_enabled_streams.
  - intros e (s & _ & ->)%elem_of_enabled_streams. unfold enabled_stream.
    cbn [EnabledStream_RotationStrategy]. by destruct (known_strategy (Stream_RotationStrategy s)) eqn:Hk.
  - intros (s & Hs & <-)%required_audit. by apply Hin.
  - intros (s & Hs & <-)%required_system. by apply Hin.
Qed.

(** The index sets to manage: the default one, the one for audit and those of the
    enabled streams, each with its own configuration file; none lacks one. *)
Theorem GetIndexSets_configs enabled title path :
  GetIndexSets enabled !! title = Some path ↔
  index_set_used enabled title ∧ GraylogIndexConfigs !! title = Some path.
Proof.
  unfold GetIndexSets, index_set_used.
  rewrite (lookup_fold_keys (λ s, GraylogStreamsIndexTitles !! EnabledStream_Title s)
             (λ _, index_config) index_config) by done.
  assert (Htitles : ∀ s t, GraylogStreamsIndexTitles !! s = Some t → GraylogIndexConfigs !! t = Some (index_config t)).
  { intros s t. apply (map_Forall_lookup_1 (λ _ t, GraylogIndexConfigs !! t = Some (index_config t))).
    apply (bool_decide_unpack _). by vm_compute. }
  case_bool_decide as He.
  - pose proof He as (e & _ & Ht)%Exists_exists. apply Htitles in Ht. rewrite Ht. naive_solver.
  - rewrite lookup_insert_Some, lookup_singleton_Some. split.
    + intros [[<- <-]|(_ & <- & <-)]; (split; [|done]); auto.
    + intros ([->|[->|?]] & Hp); [| |done].
      * left. split; [done|]. unfold index_config. by rewrite Hp.
      * right. split_and!; [done|done|]. unfold index_config. by rewrite Hp.
Qed.

(** ** Witness: a custom resource that renames nothing *)

Lemma GetStreams_enabled_witness :
  let g := zero <| Graylog_Streams := [mkStream "Nginx logs" "weekly" "" 0 3 true] |> in
  GraylogAuditStream ∈ EnabledStream_Title <$> GetStreams g ∧
  GraylogSystemStream ∈ EnabledStream_Title <$> GetStreams g.
Proof.
  intros g. destruct (GetStreams_enabled g) as (_ & _ & _ & Ha & Hs).
  split; [apply Ha; by vm_compute|apply Hs; by vm_compute].
Defined.
