(* ===== verification/Files.v ===== *)
(** * Rendering the configuration templates: [DataFromDirectory] of internal/utils/files.go

    The embedded file system is an argument: its listings and its files.  So is
    [ParseTemplate], which gives the rendered text or the error of parsing or executing
    the template: the definition of that name in ComponentRun, with the engine. *)

From S2P Require Import Prelude GoStrings.

(** An [embed.FS]: the entries of a directory, each with [IsDir()], and the contents
    of a file, empty when it cannot be read ([MustAssetReader]). *)
Record FS : Type := mkFS {
  FS_ReadDir : string → error + list (string * bool);
  FS_ReadFile : string → option string;
}.

Definition MustAssetReader (assets : FS) (asset : string) : string := default "" (FS_ReadFile assets asset).

(** [path.Join] of two clean elements. *)
Definition path_Join (dir name : string) : string :=
  if String.eqb dir "" then name else if String.eqb name "" then dir else dir +:+ "/" +:+ name.

Section render.
Context {Params : Type}.
Variable ParseTemplate : string → string → Params → error + string.

Section directory.
Variable assets : FS.
Variable parameters : Params.

(** [data[name], err = ParseTemplate(...)]. *)
Definition render_file (dir name : string) (data : smap) : error + smap :=
  let filePath := path_Join dir name in
  match ParseTemplate (MustAssetReader assets filePath) filePath parameters with
  | inl err => inl err
  | inr text => inr (<[name := text]> data)
  end.

(** The inner loop, over the files of a subdirectory. *)
Fixpoint render_files (dir : string) (names : list string) (data : smap) : error + smap :=
  match names with
  | [] => inr data
  | name :: names =>
      match render_file dir name data with
      | inl err => inl err
      | inr data => render_files dir names data
      end
  end.

(** The outer loop. *)
Fixpoint render_entries (dir : string) (entries : list (string * bool)) (data : smap) : error + smap :=
  match entries with
  | [] => inr data
  | (name, isDir) :: entries =>
      let rendered :=
        if isDir : bool then
          let dirName := path_Join dir name in
          match FS_ReadDir assets dirName with
          | inl err => inl err
          | inr configs => render_files dirName configs.*1 data
          end
        else render_file dir name data in
      match rendered with
      | inl err => inl err
      | inr data => render_entries dir entries data
      end
  end.

(** The callers drop the data that comes with an error. *)
Definition DataFromDirectory (directoryPath : string) : error + smap :=
  match FS_ReadDir assets directoryPath with
  | inl err => inl err
  | inr files => render_entries directoryPath files ∅
  end.
End directory.

(** ** The files of a directory, one level of subdirectories included *)

Fixpoint entry_files (assets : FS) (dir : string) (entries : list (string * bool)) :
    error + list (string * string) :=
  match entries with
  | [] => inr []
  | (name, isDir) :: entries =>
      let here :=
        if isDir : bool then
          match FS_ReadDir assets (path_Join dir name) with
          | inl err => inl err
          | inr configs => inr ((λ c : string * bool, (c.1, path_Join (path_Join dir name) c.1)) <$> configs)
          end
        else inr [(name, path_Join dir name)] in
      match here, entry_files assets dir entries with
      | inr fs, inr fs' => inr (fs ++ fs')
      | inl err, _ | _, inl err => inl err
      end
  end.

(** Every file's base name with its path. *)
Definition directory_files (assets : FS) (dir : string) : error + list (string * string) :=
  match FS_ReadDir assets dir with
  | inl err => inl err
  | inr entries => entry_files assets dir entries
  end.

Definition rendered (assets : FS) (parameters : Params) (path : string) : error + string :=
  ParseTemplate (MustAssetReader assets path) path parameters.

(** The data holds exactly the renderings of the files, beside what it held. *)
Definition holds (assets : FS) (parameters : Params) (files : list (string * string)) (old data : smap) : Prop :=
  (∀ name path, (name, path) ∈ files → ∃ text, rendered assets parameters path = inr text) ∧
  (NoDup files.*1 → ∀ name path, (name, path) ∈ files →
     rendered assets parameters path = inr (default "" (data !! name)) ∧ is_Some (data !! name)) ∧
  (∀ name, name ∉ files.*1 → data !! name = old !! name).

Lemma holds_nil assets parameters data : holds assets parameters [] data data.
Proof. split_and!; [by intros ?? ?%elem_of_nil|by intros _ ?? ?%elem_of_nil|done]. Qed.

Lemma holds_app assets parameters fs1 fs2 d0 d1 d2 :
  holds assets parameters fs1 d0 d1 → holds assets parameters fs2 d1 d2 →
  holds assets parameters (fs1 ++ fs2) d0 d2.
Proof.
  intros (Ha1 & Hb1 & Hc1) (Ha2 & Hb2 & Hc2). split_and!.
  - intros name path [?|?]%elem_of_app; eauto.
  - rewrite fmap_app. intros (Hn1 & Hd & Hn2)%NoDup_app name path [Hin|Hin]%elem_of_app; [|by auto].
    rewrite Hc2; [by apply Hb1|]. apply Hd. apply list_elem_of_fmap. by exists (name, path).
  - intros name. rewrite fmap_app, not_elem_of_app. intros [Hn1 Hn2]. by rewrite Hc2, Hc1.
Qed.

Lemma render_file_holds assets parameters dir name data data' :
  render_file assets parameters dir name data = inr data' →
  holds assets parameters [(name, path_Join dir name)] data data'.
Proof.
  unfold render_file, holds, rendered. destruct (ParseTemplate _ _ _) as [e|text] eqn:Hr; [done|].
  intros [= <-]. split_and!.
  - intros n p [= -> ->]%list_elem_of_singleton. eauto.
  - intros _ n p [= -> ->]%list_elem_of_singleton. rewrite lookup_insert_eq. eauto.
  - intros n Hn%not_elem_of_cons. apply lookup_insert_ne. by intros <-; destruct Hn.
Qed.

Lemma render_files_holds assets parameters dir names data data' :
  render_files assets parameters dir names data = inr data' →
  holds assets parameters ((λ n, (n, path_Join dir n)) <$> names) data data'.
Proof.
  revert data. induction names as [|n names IH]; intros data; cbn [render_files].
  { intros [= <-]. apply holds_nil. }
  destruct (render_file _ _ dir n data) as [|d1] eqn:Hf; [done|]. intros Hr.
  change ((λ n, (n, path_Join dir n)) <$> n :: names)
    with ([(n, path_Join dir n)] ++ ((λ n, (n, path_Join dir n)) <$> names)).
  eapply holds_app; [by apply render_file_holds|by apply IH].
Qed.

Lemma render_entries_holds assets parameters dir entries data data' :
  render_entries assets parameters dir entries data = inr data' →
  ∃ files, entry_files assets dir entries = inr files ∧ holds assets parameters files data data'.
Proof.
  revert data. induction entries as [|[n isDir] entries IH]; intros data; cbn.
  { intros [= <-]. exists []. split; [done|apply holds_nil]. }
  destruct isDir.
  - destruct (FS_ReadDir assets (path_Join dir n)) as [|configs]; [done|].
    destruct (render_files _ _ _ _ data) as [|d1] eqn:Hf; [done|].
    intros (files & -> & Hh)%IH. eexists. split; [done|]. eapply holds_app; [|exact Hh].
    apply render_files_holds in Hf. by rewrite <- list_fmap_compose in Hf.
  - destruct (render_file _ _ dir n data) as [|d1] eqn:Hf; [done|].
    intros (files & -> & Hh)%IH. eexists. split; [done|]. eapply holds_app; [|exact Hh].
    by apply render_file_holds.
Qed.

(** Rendering fails when a directory cannot be listed or a template does not render. *)
Lemma render_entries_fails assets parameters dir entries data e :
  render_entries assets parameters dir entries data = inl e →
  (∃ e', entry_files assets dir entries = inl e') ∨
  (∃ files name path, entry_files assets dir entries = inr files ∧ (name, path) ∈ files ∧
     rendered assets parameters path = inl e).
Proof.
  assert (Hone : ∀ n d data, render_file assets parameters d n data = inl e →
            rendered assets parameters (path_Join d n) = inl e).
  { intros n d d0. unfold render_file, rendered. by case_match; intros [= <-]. }
  assert (Hfiles : ∀ d names data, render_files assets parameters d names data = inl e →
            ∃ n, n ∈ names ∧ rendered assets parameters (path_Join d n) = inl e).
  { intros d names. induction names as [|n names IH]; intros d0; cbn; [done|].
    destruct (render_file _ _ d n d0) as [e'|d1] eqn:Hf.
    - intros [= ->]. exists n. split; [left|eauto].
    - intros (m & Hm & Hr)%IH. exists m. split; [by right|done]. }
  revert data. induction entries as [|[n isDir] entries IH]; intros data; cbn; [done|].
  destruct isDir.
  - destruct (FS_ReadDir assets (path_Join dir n)) as [|configs]; [by left; eexists|].
    destruct (render_files _ _ _ _ data) as [e'|d1] eqn:Hf.
    + intros [= ->]. destruct (Hfiles _ _ _ Hf) as (m & Hm & Hr).
      destruct (entry_files assets dir entries) as [e'|fs]; [by left; eexists|right].
      apply list_elem_of_fmap in Hm as (c & -> & Hc). eexists _, c.1, _. split; [done|]. split; [|exact Hr].
      apply elem_of_app. left. apply list_elem_of_fmap. by exists c.
    + intros [[e' ->]|(fs & m & p & -> & Hin & Hr)]%IH; [by left; eexists|right].
      eexists _, m, p. split; [done|]. split; [|done]. apply elem_of_app. by right.
  - destruct (render_file _ _ dir n data) as [e'|d1] eqn:Hf.
    + intros [= ->]. destruct (entry_files assets dir entries) as [e'|fs]; [by left; eexists|right].
      eexists _, n, _. split; [done|]. split; [left|by eapply Hone].
    + intros [[e' ->]|(fs & m & p & -> & Hin & Hr)]%IH; [by left; eexists|right].
      eexists _, m, p. split; [done|]. split; [|done]. by right.
Qed.

(** C37: rendering a directory of templates.  It succeeds exactly when every directory
    can be listed and every file renders; the result then has one entry for each file
    (of the directory and of its subdirectories), under the file's base name and
    holding its rendering, and nothing else, as long as no two files share a base
    name; an error is that of a file that does not render or of a directory. *)
Theorem DataFromDirectory_renders assets parameters dir :
  match DataFromDirectory assets parameters dir with
  | inr data =>
      ∃ files, directory_files assets dir = inr files ∧
        (∀ name path, (name, path) ∈ files → ∃ text, rendered assets parameters path = inr text) ∧
        (NoDup files.*1 → ∀ name text, data !! name = Some text ↔
           ∃ path, (name, path) ∈ files ∧ rendered assets parameters path = inr text)
  | inl e =>
      (∃ e', directory_files assets dir = inl e') ∨
      (∃ files name path, directory_files assets dir = inr files ∧ (name, path) ∈ files ∧
         rendered assets parameters path = inl e)
  end.
Proof.
  unfold DataFromDirectory, directory_files.
  destruct (FS_ReadDir assets dir) as [e|entries]; [by left; eexists|].
  destruct (render_entries assets parameters dir entries ∅) as [e|data] eqn:Hr.
  - by eapply render_entries_fails.
  - apply render_entries_holds in Hr as (files & -> & Ha & Hb & Hc).
    exists files. split; [done|]. split; [exact Ha|]. intros Hnd name text. split.
    + intros Hn. destruct (decide (name ∈ files.*1)) as [Hin|Hin].
      * apply list_elem_of_fmap in Hin as ([n p] & -> & Hin). exists p. split; [done|].
        destruct (Hb Hnd n p Hin) as [Hr _]. cbn in Hn. by rewrite Hn in Hr.
      * by rewrite Hc in Hn.
    + intros (p & Hin & Hp). destruct (Hb Hnd name p Hin) as [Hr [t Ht]].
      rewrite Ht in *. cbn in Hr. congruence.
Qed.
End render.
