(* ===== verification/Templates.v ===== *)
(** * The functions of the templates: [ParseTemplate] of internal/utils/files.go

    The engine that runs the templates is text/template with the functions of the sprig
    package; the functions that the code adds to them are the record [FuncMap]. *)

From Stdlib Require Import Strings.Ascii.
From S2P Require Import Prelude GoStrings KubeTypes Component Credentials Operator.

(** [strconv.Atoi(s)]: an optional sign and decimal digits, in 64 bits. *)
Fixpoint digits_value (s : string) (acc : Z) : option Z :=
  match s with
  | EmptyString => Some acc
  | String c s =>
      let n := nat_of_ascii c in
      if (48 <=? n) && (n <=? 57) then digits_value s (10 * acc + Z.of_nat (n - 48))%Z else None
  end.

Definition Atoi (s : string) : option Z :=
  let unsigned s := if String.eqb s "" then None else digits_value s 0 in
  let value :=
    match s with
    | String "-" s => Z.opp <$> unsigned s
    | String "+" s => unsigned s
    | _ => unsigned s
    end in
  match value with
  | Some z => if bool_decide (- 2 ^ 63 ≤ z < 2 ^ 63)%Z then Some z else None
  | None => None
  end.

(** A value of type [any], by the cases of the type switches. *)
Inductive any : Type :=
| any_pointer (v : option Z)
| any_int (v : Z)
| any_int64 (v : Z)
| any_string (v : string)
| any_other.

(** The number that a value holds, if the switch takes it. *)
Definition any_number (v : any) : option Z :=
  match v with
  | any_pointer v => v
  | any_int v | any_int64 v => Some v
  | any_string v => Atoi v
  | any_other => None
  end.

Definition at_least (n : Z) (v : any) : bool :=
  match any_number v with Some i => (n <=? i)%Z | None => false end.

(** At least one shard, and no fewer than no replicas. *)
Definition isValidShards : any → bool := at_least 1.
Definition isValidReplicas : any → bool := at_least 0.

(** [GetFromResourceMap]: a resource that is not listed has the zero quantity.
    [text] is [Quantity.String]. *)
Definition GetFromResourceMap (text : Quantity → string) (resourceList : gmap string Quantity) (key : string) :
    string :=
  text (default (mkQuantity "0") (resourceList !! key)).

(** The functions beside those of sprig; [timeNow] is the time that an execution sees. *)
Record FuncMap : Type := mkFuncMap {
  FuncMap_resIndex : gmap string Quantity → string → string;
  FuncMap_timeNow : string;
  FuncMap_getAggregators : Z → option (list Z);
  FuncMap_fluentdQuote : string → string;
  FuncMap_isValidShards : any → bool;
  FuncMap_isValidReplicas : any → bool;
}.

Definition funcMap (text : Quantity → string) (now : string) : FuncMap :=
  mkFuncMap (GetFromResourceMap text) now GetAggregatorIds FluentdQuote isValidShards isValidReplicas.

Example Atoi_bounds :
  Atoi "9223372036854775807" = Some (2 ^ 63 - 1)%Z ∧ Atoi "9223372036854775808" = None ∧
  Atoi "-9223372036854775808" = Some (- 2 ^ 63)%Z ∧ Atoi "" = None ∧ Atoi "-" = None ∧ Atoi "+7" = Some 7%Z ∧
  Atoi "1_0" = None.
Proof. by vm_compute. Qed.

Example isValidShards_cases :
  isValidShards (any_pointer None) = false ∧ isValidShards (any_pointer (Some 1%Z)) = true ∧
  isValidShards (any_int 0) = false ∧ isValidShards (any_string "4") = true ∧
  isValidShards (any_string "four") = false ∧ isValidReplicas (any_int 0) = true ∧
  isValidReplicas (any_int64 (-1)) = false.
Proof. by vm_compute. Qed.
