(* ===== verification/Quiet.v ===== *)
(** * What exchanges no requests

    The calls of the cluster, the waits and the status updates send no request to Graylog
    or to OpenSearch and create no file: they are [silent].  The reconciler of Graylog
    uses it to show what it does before its first request. *)

From S2P Require Import Prelude GoStrings KubeTypes Api Net Client System Operator Status.
From S2P Require Import Component.
From S2P Require Import Reconcilers PodManager.

Section quiet.
Context {W : Type} `{SystemLaws W}.

(** From a state to one whose world exchanged and created no more. *)
Definition silent : relation (op W) := in_world undisturbed.

Lemma steps_quiet {A} (m : M W A) : runs undisturbed undisturbed m → steps undisturbed m.
Proof. apply runs_steps. Qed.
#[local] Hint Resolve steps_quiet : steps.
#[local] Hint Extern 0 (runs _ _ _) => eauto with runs : steps.
#[local] Hint Unfold silent : steps.

Lemma silent_lift {A} (m : M W A) : steps undisturbed m → steps silent (lift m).
Proof. apply steps_lift. Qed.
#[local] Hint Resolve silent_lift : steps.

Lemma silent_modify f : (∀ s, op_world (f s) = op_world s) → steps silent (modify f).
Proof. apply steps_same_world, _. Qed.

Lemma silent_sleep f : (∀ s, undisturbed (op_world s) (op_world (f s))) → steps silent (modify f).
Proof. intros Hf. exact (steps_modify (R:=silent) f Hf). Qed.

Lemma silent_UpdateStatus reason t st msg : steps silent (UpdateStatus reason t st msg).
Proof. apply steps_UpdateStatus; [apply _|]. eauto with steps. Qed.

Lemma silent_RemoveStatus reason : steps silent (RemoveStatus reason).
Proof. apply steps_RemoveStatus; [apply _|]. eauto with steps. Qed.

(** ** Objects *)

Section objects.
Context {T : Type} `{K8sObject T}.

Lemma silent_get_typed k : steps silent (get_typed k : M (op W) T).
Proof. unfold get_typed. steps. Qed.
#[local] Hint Resolve silent_get_typed : steps.

Lemma silent_CreateResource (o : T) setRef : steps silent (CreateResource o setRef).
Proof. unfold CreateResource, the_cr. steps. Qed.

Lemma silent_GetResource (o : T) : steps silent (GetResource o).
Proof. unfold GetResource. steps. Qed.

Lemma silent_UpdateResource (o : T) : steps silent (UpdateResource o).
Proof. unfold UpdateResource. steps. Qed.

Lemma silent_DeleteResource (o : T) : steps silent (DeleteResource o).
Proof. unfold DeleteResource. steps. Qed.
#[local] Hint Resolve silent_GetResource silent_DeleteResource : steps.

Lemma silent_delete_existing (o : T) : steps silent (delete_existing o).
Proof. unfold delete_existing. steps. Qed.

Lemma silent_createOrUpdate (desired : T) mutate : steps silent (createOrUpdate desired mutate).
Proof. unfold createOrUpdate, the_cr. steps. Qed.
End objects.

(** ** Waits *)

Lemma in_poll_quiet {B A} (m : M W A) : steps undisturbed m → steps (poll_undisturbed B) (in_poll m).
Proof. intros Hm [w b]. specialize (Hm w). unfold in_poll. cbn. by destruct (m w). Qed.

Lemma FindPods_quiet ns sel : steps undisturbed (FindPods (W:=W) ns sel).
Proof. unfold FindPods. steps. Qed.
#[local] Hint Resolve FindPods_quiet in_poll_quiet : steps.

Lemma WaitForTerminatingPods_quiet ns names sel :
  steps undisturbed (WaitForTerminatingPods (W:=W) ns names sel).
Proof.
  intros w. unfold WaitForTerminatingPods. case_bool_decide; [|done].
  set (cond := in_poll _ ≫= _). assert (Hc : steps (poll_undisturbed unit) cond) by (unfold cond; steps).
  pose proof (Poll_quiet _ Interval TerminatingPodTimeout _ Hc (w, tt)) as Hp.
  unfold poll_undisturbed in Hp.
  destruct (PollUntilContextTimeout _ _ _ _ _) as [[w' []] [[]|e|]]; cbn in *; [done| |done].
  by destruct (wait_Interrupted e).
Qed.

Lemma DeletePods_quiet ns sel : steps undisturbed (DeletePods (W:=W) ns sel).
Proof. unfold DeletePods. steps. apply WaitForTerminatingPods_quiet. Qed.

Lemma WaitForStatefulsetUpdated_quiet ns name timeout :
  steps undisturbed (WaitForStatefulsetUpdated (W:=W) ns name timeout).
Proof.
  intros w. unfold WaitForStatefulsetUpdated.
  assert (Hi : steps undisturbed (IsStatefulsetReplicasSynchronised (W:=W) ns name))
    by (unfold IsStatefulsetReplicasSynchronised, fetch; steps).
  assert (Hc : steps (poll_undisturbed bool) (statefulset_condition (W:=W) ns name)).
  { intros [w0 b0]. specialize (Hi w0). unfold statefulset_condition, poll_undisturbed. cbn [fst snd].
    by destruct (IsStatefulsetReplicasSynchronised ns name w0) as [w1 [b1|e1|]]. }
  pose proof (Poll_quiet _ Interval timeout _ Hc (w, false)) as Hp. unfold poll_undisturbed in Hp.
  destruct (PollUntilContextTimeout _ _ _ _ _) as [[w' b] [[]|e|]]; cbn in *; [done| |done].
  by destruct (wait_Interrupted e).
Qed.
End quiet.

#[export] Hint Resolve steps_quiet silent_lift silent_UpdateStatus silent_RemoveStatus silent_get_typed
  silent_CreateResource silent_GetResource silent_UpdateResource silent_DeleteResource
  silent_delete_existing silent_createOrUpdate DeletePods_quiet WaitForStatefulsetUpdated_quiet : steps.
#[export] Hint Extern 1 (steps silent (modify _)) => apply silent_modify; done : steps.
#[export] Hint Extern 1 (runs undisturbed undisturbed _) => eauto with runs : steps.
