(* ===== verification/ComponentRun.v ===== *)
(** * What the reconcilers of the components have in common

    Each component's [Run] (internal/controllers/<component>/reconciler.go) reports
    that it is in progress, then either installs the component and adds it to the list
    of the components to wait for, or uninstalls it and removes its status.
    [component_run] is that shape; the components give the condition and the two
    branches.  The relation [touches] says which objects of the cluster a computation
    may change. *)

From S2P Require Import Prelude GoStrings KubeTypes Api Client Labels Operator Status Component.
From S2P Require Import Credentials Reconcilers Files Templates.

(** [util.DynamicParameters]. *)
Record DynamicParameters : Type := mkDynamicParameters {
  DynamicParameters_ContainerRuntimeType : string;
}.

(** What the code calls or embeds and the repository does not define: the quantities of
    apimachinery, the template engine, for any type of parameters, with the time that
    templates see, and the embedded directories of the components. *)
Class Externals := {
  ParseQuantity : string → error + Quantity;
  Quantity_String : Quantity → string;
  Template : Type;
  template_Parse : FuncMap → string → string → error + Template;
  template_Execute : ∀ Params : Type, Template → Params → error + string;
  GetTimeNow : string;
  fluentbit_configs : FS;
  fluentd_configs : FS;
  aggregatorConfigs : FS;
  forwarderConfigs : FS;
  graylog_configs : FS;
}.

(** [ParseTemplate(fileContent, filePath, parameters)]. *)
Definition ParseTemplate `{Externals} (Params : Type) (fileContent filePath : string) (parameters : Params) :
    error + string :=
  match template_Parse (funcMap Quantity_String GetTimeNow) filePath fileContent with
  | inl err => inl err
  | inr goTemplate => template_Execute Params goTemplate parameters
  end.

(** [LoggingServiceParameters] with the [OutputCredentials] of a component. *)
Record TemplateParameters (C : Type) : Type := mkTemplateParameters {
  TemplateParameters_LoggingServiceParameters : LoggingServiceParameters;
  TemplateParameters_OutputCredentials : C;
}.
Arguments mkTemplateParameters {_} _ _.

(** [outputCredentials] of FluentBit and of its aggregator; FluentD has no [Otel]. *)
Record outputCredentials : Type := mkOutputCredentials {
  outputCredentials_Loki : AuthValues;
  outputCredentials_Http : AuthValues;
  outputCredentials_Otel : AuthValues;
}.

#[export] Instance zero_outputCredentials : GoZero outputCredentials := mkOutputCredentials zero zero zero.

(** [if output.X != nil { outputs = append(outputs, OutputAuth{&credentials.X, ...}) }] *)
Definition output_auth (x : option (bool * option Auth)) : list OutputAuth :=
  match x with
  | Some (enabled, auth) => [mkOutputAuth (Some zero) enabled auth]
  | None => []
  end.

(** What the destination of [x] holds after the call, and the outputs after it. *)
Definition output_values (x : option (bool * option Auth)) (outputs : list OutputAuth) :
    AuthValues * list OutputAuth :=
  match x, outputs with
  | Some _, output :: outputs => (default zero (OutputAuth_Values output), outputs)
  | _, _ => (zero, outputs)
  end.

(** [data[name] = value] under a condition, and [maps.Copy] of a map that may be nil. *)
Definition set_if (b : bool) (name value : string) (data : smap) : smap :=
  if b then <[name := value]> data else data.

Definition copy_if (src : gomap) (data : smap) : smap :=
  match src with Some src => maps_Copy data src | None => data end.

Definition nonempty (s : string) : bool := negb (String.eqb s "").

Definition with_runtime (runtime : string) (spec : LoggingServiceSpec) : LoggingServiceSpec :=
  spec <| LoggingServiceSpec_ContainerRuntimeType := runtime |>.

Section run.
Context {W : Type} `{KubeClient W}.

(** [cr.Spec.ContainerRuntimeType = r.DynamicParameters.ContainerRuntimeType]. *)
Definition set_runtime (dp : DynamicParameters) : M (op W) unit :=
  modify (update_spec (with_runtime (DynamicParameters_ContainerRuntimeType dp))).

Definition component_run (statusName startMessage componentName : string)
    (installed : LoggingService → bool) (install uninstall : M (op W) unit) : M (op W) unit :=
  failed ← IsStatusFailed statusName;
  when (negb failed) (UpdateStatus statusName InProgress false startMessage);;
  cr ← the_cr;
  if installed cr then
    install;;
    modify (λ s, s <| op_pending ::= λ ps, ps ++ [mkComponent componentName statusName] |>)
  else
    uninstall;;
    _ ← RemoveStatus statusName; mret tt.

(** [handleConfigSecret]: resolve the credentials, render the Secret, store it, and
    delete the ConfigMap that earlier versions had in its place. *)
Definition handle_config_secret {C : Type} (name : string) (resolve : M (op W) C)
    (configSecret : C → M (op W) Secret) : M (op W) unit :=
  credentials ← resolve;
  secret ← configSecret credentials;
  _ ← CreateOrUpdateConfigSecret secret;
  cr ← the_cr;
  DeleteLegacyConfigMap (GetNamespace cr) name.

(** The rendering of the Secret ([fluentbitConfigSecret], [fluentdConfigSecret],
    [aggregatorConfigSecret]): an error when the component's part of the spec is nil,
    else the runtime is set in the custom resource and the Secret is built from it. *)
Definition config_secret {C Spec : Type} (component : LoggingServiceSpec → option Spec)
    (nil_error : LoggingService → error) (build : LoggingService → Spec → C → error + Secret)
    (dp : DynamicParameters) (credentials : C) : M (op W) Secret :=
  cr ← the_cr;
  match component (LoggingService_Spec cr) with
  | None => fail (nil_error cr)
  | Some spec =>
      set_runtime dp;;
      cr ← the_cr;
      of_sum (build cr spec credentials)
  end.

(** A handler that applies an object built from the component's part of the spec:
    with the runtime set first ([handleDaemonSet]) or without ([handleService]).
    [on_nil] is what it does when that part is nil. *)
Definition handle_workload {T Spec : Type} (component : LoggingServiceSpec → option Spec)
    (on_nil : LoggingService → M (op W) unit) (build : LoggingService → Spec → error + T)
    (reconcile : T → M (op W) unit) (dp : DynamicParameters) : M (op W) unit :=
  cr ← the_cr;
  match component (LoggingService_Spec cr) with
  | None => on_nil cr
  | Some spec =>
      set_runtime dp;;
      cr ← the_cr;
      object ← of_sum (build cr spec);
      reconcile object
  end.

Definition handle_object {T Spec : Type} (component : LoggingServiceSpec → option Spec)
    (on_nil : LoggingService → M (op W) unit) (build : LoggingService → Spec → error + T)
    (reconcile : T → M (op W) unit) : M (op W) unit :=
  cr ← the_cr;
  match component (LoggingService_Spec cr) with
  | None => on_nil cr
  | Some spec =>
      object ← of_sum (build cr spec);
      reconcile object
  end.
End run.

(** ** Which objects a computation changes *)

Section touches.
Context {W : Type} `{KubeClientLaws W}.
Implicit Types (s : op W).

(** The spec of the custom resource, the runtime aside. *)
Definition spec_of s : LoggingServiceSpec := LoggingService_Spec (op_cr s).

Record touches (K : list ObjectKey) (s s' : op W) : Prop := mkTouches {
  touches_objects k : k ∉ K → objects (op_world s') !! k = objects (op_world s) !! k;
  touches_now : (time_Now (op_world s) ≤ time_Now (op_world s'))%Z;
  touches_pending : op_pending s' = op_pending s;
  touches_namespace : GetNamespace (op_cr s') = GetNamespace (op_cr s);
  touches_name : GetName (op_cr s') = GetName (op_cr s);
  touches_spec : with_runtime "" (spec_of s') = with_runtime "" (spec_of s);
}.

#[export] Instance touches_preorder K : PreOrder (touches K).
Proof.
  split; [done|]. intros s1 s2 s3 [Ho1 ?????] [Ho2 ?????]. split; [|lia|congruence..].
  intros k Hk. by rewrite Ho2, Ho1.
Qed.

Lemma touches_mono K K' s s' : K ⊆ K' → touches K s s' → touches K' s s'.
Proof. intros HK []. split; auto. Qed.

Lemma touches_quiet K s s' : quiet s s' → touches K s s'.
Proof. intros [[? Hcr ?] Ho]. unfold spec_of. split; unfold spec_of; rewrite ?Ho, ?Hcr; done. Qed.

Lemma touches_cluster_only K s s' :
  cluster_only s s' → (∀ k, k ∉ K → objects (op_world s') !! k = objects (op_world s) !! k) →
  touches K s s'.
Proof. intros [? Hcr ?] Ho. split; unfold spec_of; rewrite ?Hcr; done. Qed.

Lemma touches_cr_frame `{!SpecStable W} K s s' : cr_frame s s' → touches K s s'.
Proof.
  intros [Ho ? ? ? ? Hs]. split; try done; [by intros; rewrite Ho|].
  unfold spec_of. by rewrite Hs.
Qed.

(** Nothing of the cluster's objects has changed. *)
Lemma touches_nil s s' : touches [] s s' → objects (op_world s') = objects (op_world s).
Proof. intros Ht. apply map_eq. intros k. by apply (touches_objects _ _ _ Ht), not_elem_of_nil. Qed.

(** The parts of the spec that [touches] keeps. *)
Lemma touches_spec_field {A} (f : LoggingServiceSpec → A) K s s' :
  (∀ sp r, f (with_runtime r sp) = f sp) → touches K s s' → f (spec_of s') = f (spec_of s).
Proof. intros Hf Ht. rewrite <- (Hf (spec_of s') ""), (touches_spec _ _ _ Ht). apply Hf. Qed.

(** Continue after a computation that touches [K]. *)
Lemma wp_touches {A} K (m : M (op W) A) (P : A → op W → Prop) s s0 :
  touches K s0 s → wp m (λ a s', touches K s s' ∧ P a s') (λ _ s', touches K s s') s →
  wp m (λ a s', touches K s0 s' ∧ P a s') (λ _ s', touches K s0 s') s.
Proof.
  intros Ht Hm. eapply wp_mono; [exact Hm| |]; [intros a s' [Ht' HP]; split; [by etrans|done]|].
  intros e s' Ht'. by etrans.
Qed.

(** The same when not even the operator's copy of the custom resource changes. *)
Record changes (K : list ObjectKey) (s s' : op W) : Prop := mkChanges {
  changes_cluster_only : cluster_only s s';
  changes_objects k : k ∉ K → objects (op_world s') !! k = objects (op_world s) !! k;
}.

#[export] Instance changes_preorder K : PreOrder (changes K).
Proof.
  split; [done|]. intros s1 s2 s3 [? Ho1] [? Ho2]. split; [by etrans|].
  intros k Hk. by rewrite Ho2, Ho1.
Qed.

Lemma changes_mono K K' s s' : K ⊆ K' → changes K s s' → changes K' s s'.
Proof. intros HK []. split; auto. Qed.

Lemma changes_quiet K s s' : quiet s s' → changes K s s'.
Proof. intros [? Ho]. split; [done|]. by rewrite Ho. Qed.

Lemma changes_cr K s s' : changes K s s' → op_cr s' = op_cr s.
Proof. by intros [[]]. Qed.

Lemma changes_touches K s s' : changes K s s' → touches K s s'.
Proof. intros []. by apply touches_cluster_only. Qed.

(** The state with the runtime set in the custom resource. *)
Definition runtime_set (dp : DynamicParameters) s : op W :=
  update_spec (with_runtime (DynamicParameters_ContainerRuntimeType dp)) s.

(** The runtime that the custom resource has already. *)
Definition own_runtime s : DynamicParameters :=
  mkDynamicParameters (LoggingServiceSpec_ContainerRuntimeType (spec_of s)).

Lemma runtime_set_own s : runtime_set (own_runtime s) s = s.
Proof. by destruct s as [w [m [] st] ps]. Qed.

Lemma runtime_set_touches K dp s : touches K s (runtime_set dp s).
Proof. by split. Qed.

Lemma changes_runtime_set K dp s s' : changes K s s' → changes K (runtime_set dp s) (runtime_set dp s').
Proof. intros [[Hn Hcr Hp] Ho]. split; [split; cbn; congruence|done]. Qed.

(** Setting the runtime where it is set changes nothing. *)
Lemma runtime_set_idem K dp s s' :
  changes K (runtime_set dp s) s' → op_cr (runtime_set dp s') = op_cr s'.
Proof. intros Hc. cbn. by rewrite (changes_cr _ _ _ Hc). Qed.

Lemma changes_runtime_again K dp s s' :
  changes K (runtime_set dp s) s' → changes K (runtime_set dp s) (runtime_set dp s').
Proof.
  intros Hc. pose proof (runtime_set_idem _ _ _ _ Hc) as Hcr. destruct Hc as [[Hn Hcr' Hp] Ho].
  split; [|done]. split; [done| |done]. by rewrite Hcr.
Qed.

(** A deletion, and one at uninstallation: what fails is logged. *)
Lemma delete_existing_touches {T} `{K8sObjectLaws T} K (o : T) s :
  key_of o ∈ K → wp (delete_existing o) (λ _ s', touches K s s') (λ _ s', touches K s s') s.
Proof.
  intros HK. eapply wp_mono; [apply delete_existing_wp| |].
  - intros _ s' [Hc Ho]. apply touches_cluster_only; [done|]. intros k Hk.
    rewrite Ho. apply lookup_delete_ne. by intros <-.
  - intros e s' Hq. by apply touches_quiet.
Qed.

Lemma logged_delete_wp {T} `{K8sObjectLaws T} K (o : T) s :
  key_of o ∈ K → wp (logged (delete_existing o)) (λ _ s', touches K s s') (λ _ _, False) s.
Proof. intros HK. rewrite wp_logged. by apply delete_existing_touches. Qed.

(** A sequence of steps each of which touches [K] and does not fail. *)
Lemma wp_touches_seq {A B} K (m : M (op W) A) (k : A → M (op W) B) Q s0 s :
  touches K s0 s →
  wp m (λ _ s', touches K s s') (λ _ _, False) s →
  (∀ a s', touches K s0 s' → wp (k a) Q (λ _ _, False) s') →
  wp (m ≫= k) Q (λ _ _, False) s.
Proof.
  intros Ht Hm Hk. rewrite wp_bind. eapply wp_mono; [exact Hm| |done].
  intros a s' Ht'. apply Hk. by etrans.
Qed.

(** What even a computation that waits leaves alone: the list of pending components,
    the name of the custom resource and its spec, the runtime aside.  (While the
    operator sleeps, others change the cluster.) *)
Record keeps (s s' : op W) : Prop := mkKeeps {
  keeps_pending : op_pending s' = op_pending s;
  keeps_namespace : GetNamespace (op_cr s') = GetNamespace (op_cr s);
  keeps_name : GetName (op_cr s') = GetName (op_cr s);
  keeps_spec : with_runtime "" (spec_of s') = with_runtime "" (spec_of s);
}.

#[export] Instance keeps_preorder : PreOrder keeps.
Proof. split; [done|]. intros s1 s2 s3 [????] [????]. split; congruence. Qed.

Lemma touches_keeps K s s' : touches K s s' → keeps s s'.
Proof. by intros []. Qed.

Lemma keeps_spec_field {A} (f : LoggingServiceSpec → A) s s' :
  (∀ sp r, f (with_runtime r sp) = f sp) → keeps s s' → f (spec_of s') = f (spec_of s).
Proof. intros Hf Hk. rewrite <- (Hf (spec_of s') ""), (keeps_spec _ _ Hk). apply Hf. Qed.

(** The contract of [component_run]: the component joins the pending list exactly when
    it is to be installed and its installation succeeds.  [R] is what the component's
    branches keep: [R] the installation and [U] the uninstallation. *)
Section component_run.
Context `{!SpecStable W} (R U : op W → op W → Prop) `{!PreOrder R, !PreOrder U}.
Hypothesis HR_touches : ∀ s s', touches [] s s' → R s s'.
Hypothesis HU_touches : ∀ s s', touches [] s s' → U s s'.
Hypothesis HR_pending : ∀ s s' f, R s s' → R (s <| op_pending ::= f |>) (s' <| op_pending ::= f |>).

Lemma component_run_rel status msg name installed install uninstall (P : op W → Prop) s :
  (∀ s', touches [] s s' → installed (op_cr s') = installed (op_cr s)) →
  (∀ s', touches [] s s' → installed (op_cr s') = true →
     wp install (λ _ s'', R s' s'' ∧ P s'') (λ _ s'', R s' s'') s') →
  (∀ s', touches [] s s' → wp uninstall (λ _ s'', U s' s'') (λ _ _, False) s') →
  (∀ s' f, P s' → P (s' <| op_pending ::= f |>)) →
  wp (component_run status msg name installed install uninstall)
    (λ _ s',
      if installed (op_cr s) then
        R (s <| op_pending ::= λ ps, ps ++ [mkComponent name status] |>) s' ∧ P s'
      else U s s')
    (λ _ s', installed (op_cr s) = true ∧ R s s') s.
Proof.
  intros Hinst Hinstall Huninstall HP. unfold component_run, the_cr. rewrite wp_bind, IsStatusFailed_wp.
  set (failed := match GetCondition _ _ with Some _ => _ | None => _ end). rewrite wp_bind.
  assert (Hstart : wp (when (negb failed) (UpdateStatus status InProgress false msg))
    (λ _ s', touches [] s s') (λ _ _, False) s).
  { rewrite wp_when. destruct failed; cbn [negb]; [done|].
    eapply wp_mono; [apply UpdateStatus_wp| |done]. intros _ s' [Hf _]. by apply touches_cr_frame. }
  eapply wp_mono; [exact Hstart| |done]. intros [] s1 Ht1. rewrite wp_bind, wp_gets, <- (Hinst s1 Ht1).
  apply HR_touches in Ht1 as HR1. apply HU_touches in Ht1 as HU1.
  destruct (installed (op_cr s1)) eqn:Hi; rewrite wp_bind.
  - eapply wp_mono; [by apply Hinstall| |].
    + intros [] s2 [HR2 HP2]. rewrite wp_modify. split; [|by apply HP]. apply HR_pending. by etrans.
    + intros e s2 HR2. split; [done|]. by etrans.
  - eapply wp_mono; [by apply Huninstall| |done]. intros [] s2 HU2. rewrite wp_bind.
    eapply wp_mono; [apply RemoveStatus_wp| |done]. intros r s3 [Hf _]. rewrite wp_ret.
    etrans; [exact HU1|]. etrans; [exact HU2|]. by apply HU_touches, touches_cr_frame.
Qed.
End component_run.

Lemma touches_pending_update K s s' f :
  touches K s s' → touches K (s <| op_pending ::= f |>) (s' <| op_pending ::= f |>).
Proof. intros [? ? Hp ? ? ?]. split; try done. cbn. by rewrite Hp. Qed.

Lemma keeps_pending_update s s' f :
  keeps s s' → keeps (s <| op_pending ::= f |>) (s' <| op_pending ::= f |>).
Proof. intros [Hp ? ? ?]. split; try done. cbn. by rewrite Hp. Qed.

Lemma component_run_wp `{!SpecStable W} K status msg name installed install uninstall
    (P : op W → Prop) s :
  (∀ s', touches [] s s' → installed (op_cr s') = installed (op_cr s)) →
  (∀ s', touches [] s s' → installed (op_cr s') = true →
     wp install (λ _ s'', touches K s' s'' ∧ P s'') (λ _ s'', touches K s' s'') s') →
  (∀ s', touches [] s s' → wp uninstall (λ _ s'', touches K s' s'') (λ _ _, False) s') →
  (∀ s' f, P s' → P (s' <| op_pending ::= f |>)) →
  wp (component_run status msg name installed install uninstall)
    (λ _ s',
      if installed (op_cr s) then
        touches K (s <| op_pending ::= λ ps, ps ++ [mkComponent name status] |>) s' ∧ P s'
      else touches K s s')
    (λ _ s', installed (op_cr s) = true ∧ touches K s s') s.
Proof.
  apply component_run_rel; try apply _; [| |intros; by apply touches_pending_update];
    intros s1 s2; apply touches_mono, list_subseteq_nil.
Qed.

(** ** What a deployed object keeps of the desired one *)

(** The object stored under the key of [desired] agrees with it on [f]. *)
Definition deployed {T A} `{K8sObject T} (f : T → A) (desired : T) (m : gmap ObjectKey Object) : Prop :=
  ∃ w d, m !! key_of desired = Some (stored w (to_object d)) ∧ f d = f desired.

(** What [createOrUpdate] leaves deployed: [f] is a part of the object that the
    update writes and that the owner references are no part of. *)
Lemma createOrUpdate_changes {T A} `{K8sObjectLaws T} (f : T → A) (desired : T) mutate s :
  (∀ x, key_of (mutate x) = key_of x) →
  (∀ x, f (mutate x) = f desired) →
  (∀ refs, f (set_meta (SetOwnerReferences refs (get_meta desired)) desired) = f desired) →
  wp (createOrUpdate desired mutate)
    (λ _ s', changes [key_of desired] s s' ∧ deployed f desired (objects (op_world s')))
    (λ _ s', changes [] s s') s.
Proof.
  intros Hkey Hf Hrefs. eapply wp_mono; [by apply createOrUpdate_wp| |].
  2: { intros e s' Hq. by apply changes_quiet. }
  intros [] s' (Hc & d & Hd & w & Ho). apply setOwner_key in Hd as [Hk (refs & Hd)]. rewrite Hk in Ho.
  split.
  - split; [done|]. intros k Hn. rewrite Ho. apply lookup_insert_ne.
    intros <-. apply Hn. left.
  - exists w. rewrite Ho. setoid_rewrite lookup_insert_eq.
    destruct (objects (op_world s) !! key_of desired ≫= of_object) as [ex|].
    + by exists (mutate ex).
    + exists d. split; [done|]. destruct Hd as [->| ->]; [done|apply Hrefs].
Qed.

(** The configuration Secret and the legacy ConfigMap of a component. *)
Lemma config_secret_changes (secret : Secret) s :
  wp (CreateOrUpdateConfigSecret secret)
    (λ _ s', changes [key_of secret] s s' ∧ has_config secret (objects (op_world s')))
    (λ _ s', changes [] s s') s.
Proof.
  eapply wp_mono; [apply CreateOrUpdateConfigSecret_wp| |].
  - intros changed s' (Hc & Hconf & Ho & _). split; [|done]. split; [done|].
    intros k Hk. apply Ho. intros ->. apply Hk. left.
  - intros e s' Hq. by apply changes_quiet.
Qed.

Lemma legacy_config_changes ns name s :
  wp (DeleteLegacyConfigMap ns name)
    (λ _ s', changes [mkObjectKey KConfigMap ns name] s s' ∧
       objects (op_world s') !! mkObjectKey KConfigMap ns name = None)
    (λ _ s', changes [] s s') s.
Proof.
  unfold DeleteLegacyConfigMap. eapply wp_mono; [apply delete_existing_wp| |].
  - intros [] s' [Hc Ho]. change (key_of _) with (mkObjectKey KConfigMap ns name) in Ho. split.
    + split; [done|]. intros k Hk. rewrite Ho. apply lookup_delete_ne.
      intros <-. apply Hk. left.
    + rewrite Ho. apply lookup_delete_eq.
  - intros e s' Hq. by apply changes_quiet.
Qed.

(** What holds of one key is kept by what changes only another. *)
Definition same_but (k : ObjectKey) (m m' : gmap ObjectKey Object) : Prop :=
  ∀ k', k' ≠ k → m' !! k' = m !! k'.

Lemma changes_same_but k s s' : changes [k] s s' → same_but k (objects (op_world s)) (objects (op_world s')).
Proof.
  intros Hc k' Hk'. apply (changes_objects _ _ _ Hc). by intros ->%list_elem_of_singleton.
Qed.

Lemma deployed_same_but {T A} `{K8sObject T} (f : T → A) (desired : T) k m m' :
  same_but k m m' → key_of desired ≠ k → deployed f desired m → deployed f desired m'.
Proof. intros Hm Hk (w & d & Hd & Hf). exists w, d. by rewrite Hm. Qed.

Lemma has_config_same_but secret k m m' :
  same_but k m m' → key_of secret ≠ k → has_config secret m → has_config secret m'.
Proof. intros Hm Hk (st & Hst & ?). exists st. by rewrite Hm. Qed.

(** What is deployed depends on the objects under its keys only. *)
Lemma deployed_agree {T A} `{K8sObject T} (f : T → A) (desired : T) m m' :
  m' !! key_of desired = m !! key_of desired → deployed f desired m → deployed f desired m'.
Proof. intros Hm (w & d & Hd & Hf). exists w, d. by rewrite Hm. Qed.

Lemma has_config_agree secret m m' :
  m' !! key_of secret = m !! key_of secret → has_config secret m → has_config secret m'.
Proof. intros Hm (st & Hst & ?). exists st. by rewrite Hm. Qed.

(** The objects under the keys [K] are the same. *)
Definition agree (K : list ObjectKey) (m m' : gmap ObjectKey Object) : Prop :=
  ∀ k, k ∈ K → m' !! k = m !! k.

#[export] Instance agree_preorder K : PreOrder (agree K).
Proof. split; [by intros m|]. intros m1 m2 m3 H1 H2 k Hk. by rewrite H2, H1. Qed.

Lemma touches_agree K K' s s' : K ## K' → touches K s s' → agree K' (objects (op_world s)) (objects (op_world s')).
Proof. intros HK Ht k Hk. apply (touches_objects _ _ _ Ht). intros Hk'. by apply (HK k). Qed.

(** The keys of a component's configuration. *)
Definition config_keys (ns name : string) : list ObjectKey :=
  [mkObjectKey KSecret ns name; mkObjectKey KConfigMap ns name].

(** After [handle_config_secret] the Secret rendered from the resolved credentials is
    stored and the legacy ConfigMap is absent. *)
Lemma handle_config_secret_wp {C Spec} component nil_error
    (build : LoggingService → Spec → C → error + Secret) name (resolve : M (op W) C)
    (R : C → Prop) dp spec s :
  (∀ sp r, component (with_runtime r sp) = component sp) →
  (∀ cr spec c secret, build cr spec c = inr secret →
     key_of secret = mkObjectKey KSecret (GetNamespace cr) name) →
  component (spec_of s) = Some spec →
  wp resolve (λ c s', changes [] s s' ∧ R c) (λ _ s', changes [] s s') s →
  let K := config_keys (GetNamespace (op_cr s)) name in
  wp (handle_config_secret name resolve (config_secret component nil_error build dp))
    (λ _ s', changes K (runtime_set dp s) s' ∧
       ∃ credentials secret, R credentials ∧ build (op_cr s') spec credentials = inr secret ∧
         key_of secret = mkObjectKey KSecret (GetNamespace (op_cr s)) name ∧
         has_config secret (objects (op_world s')) ∧
         objects (op_world s') !! mkObjectKey KConfigMap (GetNamespace (op_cr s)) name = None)
    (λ _ s', touches K s s') s.
Proof.
  intros Hcomp Hkey Hspec Hresolve K. unfold handle_config_secret.
  assert (Hnil : ∀ s s', changes [] s s' → changes K s s')
    by (intros ? ? Hc; eapply changes_mono; [apply list_subseteq_nil|exact Hc]).
  rewrite wp_bind. eapply wp_mono; [exact Hresolve| |].
  2: { intros e s' Hc. by apply changes_touches, Hnil. }
  intros credentials s1 [Hc1 HR]. rewrite wp_bind. unfold config_secret, the_cr, set_runtime.
  rewrite wp_bind, wp_gets, (changes_cr _ _ _ Hc1). fold (spec_of s). rewrite Hspec.
  rewrite wp_bind, wp_modify, wp_bind, wp_gets, wp_of_sum. fold (runtime_set dp s1).
  pose proof (changes_runtime_set _ dp _ _ (Hnil _ _ Hc1)) as Hc1'.
  assert (Htouch : ∀ s', changes K (runtime_set dp s) s' → touches K s s').
  { intros s' Hc. etrans; [apply (runtime_set_touches _ dp)|by apply changes_touches]. }
  destruct (build _ spec credentials) as [e|secret] eqn:Hsec; [by apply Htouch|].
  assert (Hk : key_of secret = mkObjectKey KSecret (GetNamespace (op_cr s)) name).
  { apply Hkey in Hsec. by rewrite (changes_cr _ _ _ Hc1') in Hsec. }
  rewrite wp_bind. eapply wp_mono; [apply config_secret_changes| |].
  2: { intros e s' Hc. apply Htouch. etrans; [exact Hc1'|by apply Hnil]. }
  intros b s2 [Hc2 Hconf]. rewrite Hk in Hc2.
  assert (Hc2' : changes K (runtime_set dp s) s2).
  { etrans; [exact Hc1'|]. eapply changes_mono; [|exact Hc2]. intros k ->%list_elem_of_singleton. left. }
  rewrite wp_bind, wp_gets. replace (GetNamespace (op_cr s2)) with (GetNamespace (op_cr s))
    by (by rewrite (changes_cr _ _ _ Hc2')).
  eapply wp_mono; [apply legacy_config_changes| |].
  2: { intros e s' Hc. apply Htouch. etrans; [exact Hc2'|by apply Hnil]. }
  intros [] s3 [Hc3 Hnone]. split.
  - etrans; [exact Hc2'|]. eapply changes_mono; [|exact Hc3].
    intros k ->%list_elem_of_singleton. right. left.
  - exists credentials, secret. split_and!; [done| |done| |done].
    + by rewrite (changes_cr _ _ _ Hc3), (changes_cr _ _ _ Hc2).
    + eapply has_config_same_but; [by apply changes_same_but| |exact Hconf]. by rewrite Hk.
Qed.
End touches.

(** The parts of the workloads and of the Services that an update writes. *)
Definition owned_template (t : PodTemplateSpec) : gomap * PodSpec :=
  (ObjectMeta_Labels (PodTemplateSpec_ObjectMeta t), PodTemplateSpec_Spec t).

Definition owned_DaemonSet (d : DaemonSet) : gomap * PodSpec := owned_template (DaemonSet_Template d).

Definition owned_Deployment (d : Deployment) : gomap * PodSpec * gomap :=
  (owned_template (Deployment_Template d), Deployment_Selector d).

Definition owned_StatefulSet (d : StatefulSet) : gomap * PodSpec * option Z :=
  (owned_template (StatefulSet_Template d), StatefulSet_Replicas d).

Definition owned_Service (svc : Service) : list ServicePort * gomap * gomap :=
  (Service_Ports svc, Service_Selector svc, GetLabels svc).

Section deploy.
Context {W : Type} `{KubeClientLaws W}.
Implicit Types (s : op W).

(** One handler of an installation that began in [s0]: it applies the object built
    for the custom resource, on top of what was changed before it. *)
Section handler.
Context {T Spec : Type} `{K8sObjectLaws T}.
Variables (Q : T → gmap ObjectKey Object → Prop) (component : LoggingServiceSpec → option Spec).
Variables (build : LoggingService → Spec → error + T) (reconcile : T → M (op W) unit).
Variables (K : list ObjectKey) (dp : DynamicParameters) (spec : Spec) (s0 : op W) (kind : Kind)
  (name : string).
Hypothesis Hcomponent : ∀ sp r, component (with_runtime r sp) = component sp.
Hypothesis Hreconcile : ∀ desired s,
  wp (reconcile desired)
    (λ _ s', changes [key_of desired] s s' ∧ Q desired (objects (op_world s')))
    (λ _ s', changes [] s s') s.
Hypothesis Hbuild : ∀ cr d, build cr spec = inr d → key_of d = mkObjectKey kind (GetNamespace cr) name.
Hypothesis Hspec : component (spec_of s0) = Some spec.
Hypothesis HK : mkObjectKey kind (GetNamespace (op_cr s0)) name ∈ K.

(** What the handler leaves: only the object's key has changed since [s]. *)
Definition handled s s' : Prop :=
  changes K (runtime_set dp s0) s' ∧
  same_but (mkObjectKey kind (GetNamespace (op_cr s0)) name) (objects (op_world s))
    (objects (op_world s')) ∧
  ∃ d, build (op_cr s') spec = inr d ∧
    key_of d = mkObjectKey kind (GetNamespace (op_cr s0)) name ∧ Q d (objects (op_world s')).

Lemma apply_built_wp s :
  changes K (runtime_set dp s0) s →
  wp (object ← of_sum (build (op_cr s) spec); reconcile object)
    (λ _ s', handled s s') (λ _ s', changes K (runtime_set dp s0) s') s.
Proof.
  intros Hc. rewrite wp_bind, wp_of_sum. destruct (build (op_cr s) spec) as [e|d] eqn:Hb; [done|].
  pose proof (Hbuild _ _ Hb) as Hk. rewrite (changes_cr _ _ _ Hc) in Hk.
  change (GetNamespace (op_cr (runtime_set dp s0))) with (GetNamespace (op_cr s0)) in Hk.
  eapply wp_mono; [apply Hreconcile| |].
  - intros [] s' [Hc' Hd]. rewrite Hk in Hc'. split_and!.
    + etrans; [exact Hc|]. eapply changes_mono; [|exact Hc']. by intros k ->%list_elem_of_singleton.
    + by apply changes_same_but.
    + exists d. by rewrite (changes_cr _ _ _ Hc').
  - intros e s' Hc'. etrans; [exact Hc|]. eapply changes_mono; [apply list_subseteq_nil|exact Hc'].
Qed.

Lemma handle_workload_wp on_nil s :
  changes K (runtime_set dp s0) s →
  wp (handle_workload component on_nil build reconcile dp)
    (λ _ s', handled s s') (λ _ s', changes K (runtime_set dp s0) s') s.
Proof.
  intros Hc. unfold handle_workload, the_cr, set_runtime.
  rewrite wp_bind, wp_gets. rewrite (changes_cr _ _ _ Hc). cbn [runtime_set op_cr update_spec].
  change (LoggingService_Spec _) with (with_runtime (DynamicParameters_ContainerRuntimeType dp) (spec_of s0)).
  rewrite Hcomponent, Hspec, wp_bind, wp_modify, wp_bind, wp_gets. fold (runtime_set dp s).
  apply changes_runtime_again in Hc as Hc'.
  exact (apply_built_wp (runtime_set dp s) Hc').
Qed.

Lemma handle_object_wp on_nil s :
  changes K (runtime_set dp s0) s →
  wp (handle_object component on_nil build reconcile)
    (λ _ s', handled s s') (λ _ s', changes K (runtime_set dp s0) s') s.
Proof.
  intros Hc. unfold handle_object, the_cr. rewrite wp_bind, wp_gets.
  pose proof (apply_built_wp s Hc) as Hw. rewrite (changes_cr _ _ _ Hc) in *.
  change (LoggingService_Spec _) with (with_runtime (DynamicParameters_ContainerRuntimeType dp) (spec_of s0)).
  by rewrite Hcomponent, Hspec.
Qed.

(** As the first handler of the installation. *)
Lemma handle_workload_first_wp on_nil :
  wp (handle_workload component on_nil build reconcile dp)
    (λ _ s', handled s0 s') (λ _ s', changes K (runtime_set dp s0) s') s0.
Proof.
  unfold handle_workload, the_cr, set_runtime. rewrite wp_bind, wp_gets. fold (spec_of s0).
  rewrite Hspec, wp_bind, wp_modify, wp_bind, wp_gets. fold (runtime_set dp s0).
  exact (apply_built_wp (runtime_set dp s0) (reflexivity (runtime_set dp s0))).
Qed.
End handler.

Lemma reconcile_DaemonSet_changes (desired : DaemonSet) s :
  wp (reconcile_DaemonSet desired)
    (λ _ s', changes [key_of desired] s s' ∧ deployed owned_DaemonSet desired (objects (op_world s')))
    (λ _ s', changes [] s s') s.
Proof. by apply createOrUpdate_changes. Qed.

Lemma reconcile_Deployment_changes (desired : Deployment) s :
  wp (reconcile_Deployment desired)
    (λ _ s', changes [key_of desired] s s' ∧ deployed owned_Deployment desired (objects (op_world s')))
    (λ _ s', changes [] s s') s.
Proof. by apply createOrUpdate_changes. Qed.

Lemma reconcile_StatefulSet_changes (desired : StatefulSet) s :
  wp (reconcile_StatefulSet desired)
    (λ _ s', changes [key_of desired] s s' ∧ deployed owned_StatefulSet desired (objects (op_world s')))
    (λ _ s', changes [] s s') s.
Proof. by apply createOrUpdate_changes. Qed.

Lemma reconcile_Service_changes (desired : Service) s :
  wp (reconcile_Service desired)
    (λ _ s', changes [key_of desired] s s' ∧ deployed owned_Service desired (objects (op_world s')))
    (λ _ s', changes [] s s') s.
Proof. by apply createOrUpdate_changes. Qed.

(** The installation of a component that runs as a DaemonSet behind a Service. *)
Section daemonset.
Context {C Spec : Type}.
Variables (component : LoggingServiceSpec → option Spec) (nil_error : LoggingService → error)
  (build : LoggingService → Spec → C → error + Secret) (build_ds : LoggingService → Spec → error + DaemonSet)
  (build_svc : LoggingService → Spec → error + Service) (name : string) (resolve : M (op W) C)
  (R : C → Prop) (dp : DynamicParameters) (spec : Spec) (s : op W).
Hypothesis Hcomponent : ∀ sp r, component (with_runtime r sp) = component sp.
Hypothesis Hbuild : ∀ cr spec c secret,
  build cr spec c = inr secret → key_of secret = mkObjectKey KSecret (GetNamespace cr) name.
Hypothesis Hbuild_ds : ∀ cr d,
  build_ds cr spec = inr d → key_of d = mkObjectKey KDaemonSet (GetNamespace cr) name.
Hypothesis Hbuild_svc : ∀ cr d,
  build_svc cr spec = inr d → key_of d = mkObjectKey KService (GetNamespace cr) name.
Hypothesis Hspec : component (spec_of s) = Some spec.
Hypothesis Hresolve : wp resolve (λ c s', changes [] s s' ∧ R c) (λ _ s', changes [] s s') s.

Definition daemonset_keys (ns : string) : list ObjectKey :=
  config_keys ns name ++ [mkObjectKey KDaemonSet ns name; mkObjectKey KService ns name].

(** What is deployed in [m]. *)
Definition daemonset_deployed (cr : LoggingService) (m : gmap ObjectKey Object) : Prop :=
  ∃ credentials secret ds svc, R credentials ∧
    build cr spec credentials = inr secret ∧ has_config secret m ∧
    m !! mkObjectKey KConfigMap (GetNamespace cr) name = None ∧
    build_ds cr spec = inr ds ∧ deployed owned_DaemonSet ds m ∧
    build_svc cr spec = inr svc ∧ deployed owned_Service svc m.

Lemma daemonset_deployed_agree cr m m' :
  agree (daemonset_keys (GetNamespace cr)) m m' → daemonset_deployed cr m → daemonset_deployed cr m'.
Proof.
  intros Hm (credentials & secret & ds & svc & HR & Hsec & Hconf & Hnone & Hds & Hdd & Hsvc & Hds').
  exists credentials, secret, ds, svc. pose proof (Hbuild _ _ _ _ Hsec) as Hk.
  pose proof (Hbuild_ds _ _ Hds) as Hkd. pose proof (Hbuild_svc _ _ Hsvc) as Hks.
  split_and!; try done.
  - eapply has_config_agree; [|exact Hconf]. rewrite Hk. apply Hm. left.
  - rewrite Hm; [done|]. right. left.
  - eapply deployed_agree; [|exact Hdd]. rewrite Hkd. apply Hm. right. right. left.
  - eapply deployed_agree; [|exact Hds']. rewrite Hks. apply Hm. right. right. right. left.
Qed.

Lemma install_daemonset_wp on_nil on_nil' :
  let K := daemonset_keys (GetNamespace (op_cr s)) in
  wp (handle_config_secret name resolve (config_secret component nil_error build dp);;
      handle_workload component on_nil build_ds reconcile_DaemonSet dp;;
      handle_object component on_nil' build_svc reconcile_Service)
    (λ _ s', touches K s s' ∧ op_cr s' = op_cr (runtime_set dp s) ∧
       daemonset_deployed (op_cr s') (objects (op_world s')))
    (λ _ s', touches K s s') s.
Proof.
  intros K. assert (Htouch : ∀ s', changes K (runtime_set dp s) s' → touches K s s').
  { intros s' Hc. etrans; [apply (runtime_set_touches _ dp)|by apply changes_touches]. }
  rewrite wp_bind. eapply wp_mono; [by eapply (handle_config_secret_wp _ _ _ name _ R)| |].
  2: { intros e s' Ht. eapply touches_mono; [|exact Ht]. by apply sublist_subseteq, sublist_inserts_r. }
  intros [] s1 (Hc1 & credentials & secret & Hres & Hsec & Hk & Hconf & Hnone).
  eapply (changes_mono _ K) in Hc1; [|by apply sublist_subseteq, sublist_inserts_r].
  rewrite wp_bind. eapply wp_mono; [eapply (handle_workload_wp (deployed owned_DaemonSet))
      with (kind := KDaemonSet) (name := name); [done|apply reconcile_DaemonSet_changes|done
      |exact Hspec|by right; right; left|exact Hc1]| |by intros e s'; apply Htouch].
  intros [] s2 (Hc2 & Hd2 & ds & Hds & Hkds & Hdep).
  eapply wp_mono; [eapply (handle_object_wp (deployed owned_Service))
      with (kind := KService) (name := name); [done|apply reconcile_Service_changes|done
      |exact Hspec|by right; right; right; left|exact Hc2]| |by intros e s'; apply Htouch].
  intros [] s3 (Hc3 & Hd3 & svc & Hsvc & Hksvc & Hdep3).
  pose proof (changes_cr _ _ _ Hc1) as Hcr1. pose proof (changes_cr _ _ _ Hc2) as Hcr2.
  pose proof (changes_cr _ _ _ Hc3) as Hcr3.
  split; [by apply Htouch|]. split; [done|]. exists credentials, secret, ds, svc.
  rewrite Hcr3, Hcr2, Hcr1 in *. split_and!; try done.
  - eapply has_config_same_but; [exact Hd3|by rewrite Hk|].
    eapply has_config_same_but; [exact Hd2|by rewrite Hk|exact Hconf].
  - change (GetNamespace _) with (GetNamespace (op_cr s)). by rewrite Hd3, Hd2.
  - eapply deployed_same_but; [exact Hd3|by rewrite Hkds|exact Hdep].
Qed.

(** Its uninstallation. *)
Lemma uninstall_daemonset_wp (o1 : DaemonSet) (m2 : M (op W) unit) (o4 : Service) ns s1 :
  let K := daemonset_keys ns in
  key_of o1 = mkObjectKey KDaemonSet ns name → key_of o4 = mkObjectKey KService ns name →
  (∀ s', wp (logged m2) (λ _ s'', touches K s' s'') (λ _ _, False) s') →
  wp (logged (delete_existing o1);; logged m2;; logged (DeleteLegacyConfigMap ns name);;
      logged (delete_existing o4)) (λ _ s', touches K s1 s') (λ _ _, False) s1.
Proof.
  intros K H1 H4 H2.
  eapply (wp_touches_seq K); [reflexivity|apply logged_delete_wp; rewrite H1; right; right; left|].
  intros [] s2 Ht2. eapply (wp_touches_seq K); [exact Ht2|apply H2|intros [] s3 Ht3].
  eapply (wp_touches_seq K); [exact Ht3|apply logged_delete_wp; right; left|intros [] s4 Ht4].
  eapply wp_mono; [apply (logged_delete_wp K); rewrite H4; right; right; right; left| |done].
  intros [] s5 Ht5. by etrans.
Qed.
End daemonset.
End deploy.

(** Concrete external code for the witnesses: one template in each directory, which
    renders to itself. *)
Definition example_fs : FS :=
  mkFS (λ dir, inr [("main.conf", false)]) (λ path, Some ("# " +:+ path)).

Definition example_externals : Externals := {|
  ParseQuantity s := inr (mkQuantity s);
  Quantity_String := Quantity_text;
  Template := string;
  template_Parse functions path content := inr content;
  template_Execute Params template parameters := inr template;
  GetTimeNow := "1970-01-01T00:00:00Z";
  fluentbit_configs := example_fs;
  fluentd_configs := example_fs;
  aggregatorConfigs := example_fs;
  forwarderConfigs := example_fs;
  graylog_configs := example_fs;
|}.

(** A cluster with one object, and a custom resource with the given spec. *)
Definition example_state (o : Object) (spec : LoggingServiceSpec) : op Mem :=
  mkOp (mem_store o zero)
    (zero <| LoggingService_ObjectMeta := named "cr" "ns" |> <| LoggingService_Spec := spec |>) [].
