(* ===== verification/Certificates.v ===== *)
(** * Credentials and certificates from Secrets: api/v1/loggingservice_types.go

    The methods of the custom resource that read Secrets through client-go:
    [GetCredentials], the two [GetCertificates] and [GetCredentialsAndCertificates]. *)

From S2P Require Import Prelude GoStrings KubeTypes Api Net Client System Component.
From S2P Require Import ComponentRun.

(** ** Operations *)

(** [secret.Data[key]], "" when it is not there. *)
Definition data_value (secret : Secret) (key : string) : string :=
  default "" (contents (Secret_Data secret) !! key).

(** [NewCertPool] and [AppendCertsFromPEM] of each text, until one is refused. *)
Fixpoint append_certs `{Encodings} (pool pems : list string) : error + list string :=
  match pems with
  | [] => inr pool
  | pem :: pems =>
      if AppendCertsFromPEM pem then append_certs (pool ++ [pem]) pems
      else inl (errors_New "can't parse Certificate Authority")
  end.

(** The configuration with a pool, and with a client certificate when there are both its
    parts. *)
Definition tls_config `{Encodings} (pool : list string) (certValue pkey : string) : error + TLSConf :=
  if nonempty pkey && nonempty certValue then
    match X509KeyPair certValue pkey with
    | Some err => inl err
    | None => inr (mkTLSConf false (Some pool) (Some (certValue, pkey)))
    end
  else inr (mkTLSConf false (Some pool) None).

Definition insecure_config : TLSConf := mkTLSConf true None None.

Definition namespace_missing : error := errors_New "namespace is not setup".

Section operations.
Context {W : Type} `{KubeClient W, System W, Encodings}.

(** [clientSet.CoreV1().Secrets(namespace).Get(ctx, name, ...)]. *)
Definition get_secret (namespace name : string) : M W Secret :=
  o ← client_Get (mkObjectKey KSecret namespace name);
  deref (of_object o).

Definition GetCredentials (credentials : Credentials) (namespace : string) :
    M W (string * string * string) :=
  if String.eqb namespace "" then fail namespace_missing
  else
    match Credentials_User credentials, Credentials_Password credentials with
    | Some user, Some password =>
        if nonempty (SecretKeySelector_Name user) && nonempty (SecretKeySelector_Name password) then
          userSecret ← get_secret namespace (SecretKeySelector_Name user);
          pwdSecret ←
            (if negb (String.eqb (SecretKeySelector_Name user) (SecretKeySelector_Name password))
             then get_secret namespace (SecretKeySelector_Name password)
             else mret userSecret);
          mret (data_value pwdSecret (SecretKeySelector_Key user),
                data_value pwdSecret (SecretKeySelector_Key password), "")
        else fail (errors_New "authorization data is empty or provided partially")
    | _, _ => fail (errors_New "authorization data is empty or provided partially")
    end.

(** The value of a key: of the Secret with the authority if it has it, or of the Secret
    that is named. *)
Definition cert_value (caSecret : Secret) (namespace name key : string) : M W string :=
  match contents (Secret_Data caSecret) !! key with
  | Some value => mret value
  | None =>
      certSecret ← get_secret namespace name;
      mret (data_value certSecret key)
  end.

(** [HTTPGraylogTLS.GetCertificates]. *)
Definition HTTPGraylogTLS_GetCertificates (graylogTLS : HTTPGraylogTLS) (namespace : string) :
    M W TLSConf :=
  if String.eqb namespace "" then fail namespace_missing
  else if HTTPGraylogTLS_InsecureSkipVerify graylogTLS then mret insecure_config
  else if nonempty (HTTPGraylogTLS_CACerts graylogTLS) then
    secret ← get_secret namespace (HTTPGraylogTLS_CACerts graylogTLS);
    if bool_decide (contents (Secret_Data secret) = ∅) then
      fail (errors_New ("can't find Certificate Authority " +:+ HTTPGraylogTLS_CACerts graylogTLS))
    else
      '(certValue, pkey) ←
        (match HTTPGraylogTLS_Cert graylogTLS, HTTPGraylogTLS_Key graylogTLS with
         | Some cert, Some key =>
             if nonempty (Cert_SecretName cert) && nonempty (Key_SecretName key) then
               certValue ← cert_value secret namespace (Cert_SecretName cert) (Cert_SecretKey cert);
               pkey ← cert_value secret namespace (Key_SecretName key) (Key_SecretKey key);
               mret (certValue, pkey)
             else mret ("", "")
         | _, _ => mret ("", "")
         end);
      kvs ← range_map (Secret_Data secret);
      pool ← of_sum (append_certs [] kvs.*2);
      of_sum (tls_config pool certValue pkey)
  else
    match HTTPGraylogTLS_GenerateCerts graylogTLS with
    | Some generate =>
        if GenerateCerts_Enabled generate then
          secret ← get_secret namespace (GenerateCerts_SecretName generate);
          if bool_decide (contents (Secret_Data secret) = ∅) then
            fail (errors_New ("can't find generate certificates " +:+ GenerateCerts_SecretName generate))
          else if String.eqb (Secret_Type secret) "kubernetes.io/tls" then
            pool ← of_sum (append_certs [] (option_list (contents (Secret_Data secret) !! "ca.crt")));
            of_sum (tls_config pool (data_value secret "tls.crt") (data_value secret "tls.key"))
          else of_sum (tls_config [] "" "")
        else fail (errors_New "can't find any certificate configured")
    | None => fail (errors_New "can't find any certificate configured")
    end.

(** The value of a key of the Secret that a selector names, [caSecret] if it is that one. *)
Definition selected_value (caSecret : Secret) (namespace caName : string) (sel : SecretKeySelector) :
    M W string :=
  if negb (String.eqb (SecretKeySelector_Name sel) caName) then
    secret ← get_secret namespace (SecretKeySelector_Name sel);
    mret (data_value secret (SecretKeySelector_Key sel))
  else mret (data_value caSecret (SecretKeySelector_Key sel)).

(** [TLSConfig.GetCertificates]; the result may be nil. *)
Definition TLSConfig_GetCertificates (tlsConfig : TLSConfig) (namespace : string) :
    M W (option TLSConf) :=
  if String.eqb namespace "" then fail namespace_missing
  else
    match TLSConfig_CA tlsConfig with
    | Some ca =>
        let caName := SecretKeySelector_Name ca in
        if nonempty caName && nonempty (SecretKeySelector_Key ca) then
          caSecret ← get_secret namespace caName;
          match contents (Secret_Data caSecret) !! SecretKeySelector_Key ca with
          | None =>
              fail (errors_New ("can't find Certificate Authority with key " +:+ SecretKeySelector_Key ca))
          | Some caCert =>
              '(certValue, pkey) ←
                (match TLSConfig_Cert tlsConfig, TLSConfig_Key tlsConfig with
                 | Some cert, Some key =>
                     if nonempty (SecretKeySelector_Name cert) && nonempty (SecretKeySelector_Name key) then
                       certValue ← selected_value caSecret namespace caName cert;
                       pkey ← selected_value caSecret namespace caName key;
                       mret (certValue, pkey)
                     else mret ("", "")
                 | _, _ => mret ("", "")
                 end);
              pool ← of_sum (append_certs [] [caCert]);
              conf ← of_sum (tls_config pool certValue pkey);
              mret (Some conf)
          end
        else mret None
    | None => mret None
    end.

Definition GetCredentialsAndCertificates (config : HTTPConfig) (namespace : string) :
    M W (string * string * string * option TLSConf) :=
  if String.eqb namespace "" then fail namespace_missing
  else
    '(name, pwd, token) ←
      (match HTTPConfig_Credentials config with
       | Some credentials => GetCredentials credentials namespace
       | None => mret ("", "", "")
       end);
    tlsConf ←
      (match HTTPConfig_TLSConfig config with
       | Some tlsConfig =>
           if TLSConfig_InsecureSkipVerify tlsConfig then mret (Some insecure_config)
           else TLSConfig_GetCertificates tlsConfig namespace
       | None => mret (Some insecure_config)
       end);
    mret (name, pwd, token, tlsConf).
End operations.

(** ** Lemmas *)

Section lemmas.
Context {W : Type} `{SystemLaws W, !KubeClientLaws W, Encodings}.
Implicit Types (w : W).

Lemma get_secret_wp ns name w :
  wp (get_secret ns name)
    (λ s w', (undisturbed w w' ∧ objects w' = objects w) ∧
       objects w !! mkObjectKey KSecret ns name = Some (OSecret s))
    (λ _ w', undisturbed w w' ∧ objects w' = objects w) w.
Proof.
  unfold get_secret. rewrite wp_bind.
  eapply wp_mono; [eapply wp_conj; [apply client_Get_quiet|apply client_Get_spec]| |].
  - intros obj w' (Hu & Ho & _ & Hk).
    edestruct (objects_typed (T:=Secret) w) as (x & -> & Hx & _); [|exact Hk|]; [done|].
    rewrite wp_deref. by subst.
  - intros e w' (Hu & Ho & _). auto.
Qed.

Lemma get_secret_quiet ns name : runs undisturbed undisturbed (get_secret ns name).
Proof. intros w. eapply wp_mono; [apply get_secret_wp|by intros x w' [[??]?]|by intros e w' []]. Qed.
#[local] Hint Resolve get_secret_quiet : runs.

Lemma GetCredentials_quiet c ns : runs undisturbed undisturbed (GetCredentials c ns).
Proof. unfold GetCredentials. runs. Qed.

Lemma HTTPGraylogTLS_GetCertificates_quiet t ns :
  runs undisturbed undisturbed (HTTPGraylogTLS_GetCertificates t ns).
Proof. unfold HTTPGraylogTLS_GetCertificates, cert_value. runs. Qed.

Lemma TLSConfig_GetCertificates_quiet t ns :
  runs undisturbed undisturbed (TLSConfig_GetCertificates t ns).
Proof. unfold TLSConfig_GetCertificates, selected_value. runs. Qed.
#[local] Hint Resolve GetCredentials_quiet TLSConfig_GetCertificates_quiet : runs.

Lemma GetCredentialsAndCertificates_quiet c ns :
  runs undisturbed undisturbed (GetCredentialsAndCertificates c ns).
Proof. unfold GetCredentialsAndCertificates. runs. Qed.
End lemmas.

#[export] Hint Resolve get_secret_quiet HTTPGraylogTLS_GetCertificates_quiet
  GetCredentialsAndCertificates_quiet : runs.

Section values.
Context {W : Type} `{SystemLaws W, !KubeClientLaws W, Encodings}.
Implicit Types (w : W).

Lemma append_certs_spec pool pems pool' :
  append_certs pool pems = inr pool' →
  pool' = pool ++ pems ∧ Forall (λ pem, AppendCertsFromPEM pem = true) pems.
Proof.
  revert pool. induction pems as [|pem pems IH]; intros pool; cbn [append_certs].
  { intros [= <-]. by rewrite app_nil_r. }
  destruct (AppendCertsFromPEM pem) eqn:Hp; [|done]. intros [-> Hf]%IH.
  split; [by rewrite <- app_assoc|by constructor].
Qed.

(** A configuration that verifies the server with the certificates of [pool]; a client
    certificate in it matches its key. *)
Definition verifies (pool : list string) (conf : TLSConf) : Prop :=
  TLSConf_InsecureSkipVerify conf = false ∧ TLSConf_RootCAs conf = Some pool ∧
  Forall (λ pem, AppendCertsFromPEM pem = true) pool ∧
  ∀ cert key, TLSConf_Certificates conf = Some (cert, key) → X509KeyPair cert key = None.

Lemma tls_config_spec pool certValue pkey conf :
  Forall (λ pem, AppendCertsFromPEM pem = true) pool →
  tls_config pool certValue pkey = inr conf → verifies pool conf.
Proof.
  unfold tls_config. intros Hp. destruct (nonempty pkey && nonempty certValue).
  - destruct (X509KeyPair certValue pkey) eqn:Hx; [done|]. intros [= <-]. split_and!; try done.
    by intros c k [= <- <-].
  - by intros [= <-].
Qed.

(** What [GetCredentials] read from the cluster [w]: both values come from the Secret of
    the password. *)
Definition credentials_read (c : Credentials) (ns : string) w (name pwd token : string) : Prop :=
  ∃ user password secret,
    Credentials_User c = Some user ∧ Credentials_Password c = Some password ∧
    is_Some (objects w !! mkObjectKey KSecret ns (SecretKeySelector_Name user)) ∧
    objects w !! mkObjectKey KSecret ns (SecretKeySelector_Name password) = Some (OSecret secret) ∧
    name = data_value secret (SecretKeySelector_Key user) ∧
    pwd = data_value secret (SecretKeySelector_Key password) ∧ token = "".

Lemma GetCredentials_wp c ns w :
  wp (GetCredentials c ns)
    (λ r w', undisturbed w w' ∧ objects w' = objects w ∧ credentials_read c ns w r.1.1 r.1.2 r.2)
    (λ _ w', undisturbed w w' ∧ objects w' = objects w) w.
Proof.
  unfold GetCredentials. destruct (String.eqb ns ""); [by rewrite wp_fail|].
  destruct (Credentials_User c) as [user|] eqn:Hu, (Credentials_Password c) as [password|] eqn:Hp;
    try by rewrite wp_fail.
  destruct (nonempty _ && nonempty _); [|by rewrite wp_fail].
  rewrite wp_bind. eapply wp_mono; [apply get_secret_wp| |by intros e w' []].
  intros userSecret w1 [[Hq1 Ho1] Hs1]. rewrite wp_bind.
  destruct (String.eqb_spec (SecretKeySelector_Name user) (SecretKeySelector_Name password)) as [Heq|Hne];
    cbn [negb].
  - rewrite !wp_ret. split_and!; [done..|]. exists user, password, userSecret. rewrite <- Heq. eauto 10.
  - eapply wp_mono; [apply get_secret_wp| |].
    + intros pwdSecret w2 [[Hq2 Ho2] Hs2]. rewrite wp_ret. rewrite Ho1 in Ho2, Hs2.
      split_and!; [by etrans|done|]. exists user, password, pwdSecret. eauto 10.
    + intros e w2 [Hq2 Ho2]. split; [by etrans|congruence].
Qed.

(** The Secret with the certificates that the server is verified against: that of the
    authority if it is named, else that of the generated certificates. *)
Definition certificates_name (t : HTTPGraylogTLS) : option string :=
  if nonempty (HTTPGraylogTLS_CACerts t) then Some (HTTPGraylogTLS_CACerts t)
  else
    generate ← HTTPGraylogTLS_GenerateCerts t;
    if GenerateCerts_Enabled generate then Some (GenerateCerts_SecretName generate) else None.

(** The pool of that Secret: every value of the authority's; of the generated ones the
    authority, if the Secret is of the type of TLS and has one. *)
Definition pool_of (t : HTTPGraylogTLS) (secret : Secret) (pool : list string) : Prop :=
  if nonempty (HTTPGraylogTLS_CACerts t) then pool ≡ₚ (map_to_list (contents (Secret_Data secret))).*2
  else if String.eqb (Secret_Type secret) "kubernetes.io/tls" then
    pool = option_list (contents (Secret_Data secret) !! "ca.crt")
  else pool = [].

(** What [HTTPGraylogTLS.GetCertificates] gives: a configuration that skips the
    verification of the server exactly when the custom resource says so; otherwise the
    server is verified against the certificates of the Secret that is named. *)
Definition graylog_certificates (t : HTTPGraylogTLS) (ns : string) w (conf : TLSConf) : Prop :=
  if HTTPGraylogTLS_InsecureSkipVerify t then conf = insecure_config
  else ∃ name secret pool, certificates_name t = Some name ∧
    objects w !! mkObjectKey KSecret ns name = Some (OSecret secret) ∧
    contents (Secret_Data secret) ≠ ∅ ∧ pool_of t secret pool ∧ verifies pool conf.

Lemma graylog_authority_wp t ns secret certValue pkey w w' :
  HTTPGraylogTLS_InsecureSkipVerify t = false → nonempty (HTTPGraylogTLS_CACerts t) = true →
  contents (Secret_Data secret) ≠ ∅ →
  objects w !! mkObjectKey KSecret ns (HTTPGraylogTLS_CACerts t) = Some (OSecret secret) →
  wp (kvs ← range_map (Secret_Data secret);
      pool ← of_sum (append_certs [] kvs.*2);
      of_sum (tls_config pool certValue pkey))
    (λ conf _, graylog_certificates t ns w conf) (λ _ _, True) w'.
Proof.
  intros Hi Hca Hne Hs. rewrite wp_bind. eapply wp_mono; [apply range_map_spec| |done].
  intros kvs w1 [_ Hperm]. rewrite wp_bind, wp_of_sum.
  destruct (append_certs [] kvs.*2) as [|pool] eqn:Hpool; [done|].
  apply append_certs_spec in Hpool as [-> Hok]. rewrite wp_of_sum.
  destruct (tls_config _ _ _) as [|conf] eqn:Hconf; [done|]. unfold graylog_certificates. rewrite Hi.
  exists (HTTPGraylogTLS_CACerts t), secret, kvs.*2. unfold certificates_name, pool_of. rewrite Hca.
  split_and!; [done|done|done|by rewrite Hperm|by eapply tls_config_spec].
Qed.

Lemma HTTPGraylogTLS_GetCertificates_wp t ns w :
  wp (HTTPGraylogTLS_GetCertificates t ns)
    (λ conf _, graylog_certificates t ns w conf) (λ _ _, True) w.
Proof.
  unfold HTTPGraylogTLS_GetCertificates. destruct (String.eqb ns ""); [done|].
  destruct (HTTPGraylogTLS_InsecureSkipVerify t) eqn:Hi.
  { rewrite wp_ret. unfold graylog_certificates. by rewrite Hi. }
  destruct (nonempty (HTTPGraylogTLS_CACerts t)) eqn:Hca.
  - rewrite wp_bind. eapply wp_mono; [apply get_secret_wp| |done]. intros secret w1 [_ Hs].
    case_bool_decide as Hne; [done|]. rewrite wp_bind.
    assert (Hv : runs undisturbed undisturbed
      (match HTTPGraylogTLS_Cert t, HTTPGraylogTLS_Key t with
       | Some cert, Some key =>
           if nonempty (Cert_SecretName cert) && nonempty (Key_SecretName key) then
             certValue ← cert_value secret ns (Cert_SecretName cert) (Cert_SecretKey cert);
             pkey ← cert_value secret ns (Key_SecretName key) (Key_SecretKey key);
             mret (certValue, pkey)
           else mret ("", "")
       | _, _ => mret ("", "")
       end)) by (unfold cert_value; runs).
    eapply wp_mono; [apply Hv| |done]. intros [certValue pkey] w2 _. by apply graylog_authority_wp.
  - destruct (HTTPGraylogTLS_GenerateCerts t) as [generate|] eqn:Hg; [|done].
    destruct (GenerateCerts_Enabled generate) eqn:He; [|done].
    rewrite wp_bind. eapply wp_mono; [apply get_secret_wp| |done]. intros secret w1 [_ Hs].
    case_bool_decide as Hne; [done|].
    assert (Hgoal : ∀ pool conf, pool_of t secret pool → verifies pool conf → graylog_certificates t ns w conf).
    { intros pool conf Hp Hv. unfold graylog_certificates, certificates_name. rewrite Hi, Hca, Hg. cbn. rewrite He.
      by exists (GenerateCerts_SecretName generate), secret, pool. }
    unfold pool_of in Hgoal. rewrite Hca in Hgoal. destruct (String.eqb _ _).
    + rewrite wp_bind, wp_of_sum. destruct (append_certs [] _) as [|pool] eqn:Hpool; [done|].
      apply append_certs_spec in Hpool as [-> Hok]. rewrite wp_of_sum.
      destruct (tls_config _ _ _) as [|conf] eqn:Hconf; [done|]. by eapply Hgoal, tls_config_spec.
    + rewrite wp_of_sum. destruct (tls_config _ _ _) as [|conf] eqn:Hconf; [done|].
      eapply Hgoal, tls_config_spec; [done| |exact Hconf]. constructor.
Qed.
End values.
