(* ===== verification/Rest.v ===== *)
(** * Requests, downloads and archives: internal/utils/files.go

    [SetAuthHeader], [ReadFile], [DownloadFile], [DownloadFileTLS] and [Unzip].  The
    embedded templates are in Files. *)

From Stdlib Require Import Strings.Ascii.
From S2P Require Import Prelude GoStrings Filepath KubeTypes Api Net Client System Certificates.
From S2P Require Import ComponentRun.

(** ** Data *)

Record Creds : Type := mkCreds {
  Creds_Name : string;
  Creds_Password : string;
  Creds_Token : string;
}.

Record RestClient : Type := mkRestClient {
  RestClient_Client : HTTPClient;
  RestClient_Auth : option Creds;
  RestClient_Host : string;
}.

Definition ConnectionTimeout : Z := 10.

(** ** Requests *)

(** A character of an HTTP token. *)
Definition is_token_char (c : ascii) : bool :=
  let n := nat_of_ascii c in
  ((48 <=? n) && (n <=? 57)) || ((65 <=? n) && (n <=? 90)) || ((97 <=? n) && (n <=? 122)) ||
  bool_decide (c ∈ ["!"; "#"; "$"; "%"; "&"; "'"; "*"; "+"; "-"; "."; "^"; "_"; "`"; "|"; "~"]%char).

Fixpoint is_token (s : string) : bool :=
  match s with
  | EmptyString => true
  | String c s => is_token_char c && is_token s
  end.

Section operations.
Context `{Encodings}.

(** [http.NewRequest(method, url, body)] and the headers that the caller adds to it. *)
Definition NewRequest (method url : string) (header : list (string * string)) (body : string) :
    error + HTTPRequest :=
  let method := if String.eqb method "" then "GET" else method in
  if negb (is_token method) then inl (errors_New ("net/http: invalid method " +:+ quoted method))
  else match url_Parse url with
       | inl err => inl err
       | inr _ => inr (mkHTTPRequest method url header body)
       end.

(** The value of the Authorization header. *)
Definition auth_value (auth : Creds) : string :=
  if nonempty (Creds_Name auth) && nonempty (Creds_Password auth) then
    "Basic " +:+ base64_EncodeToString (Creds_Name auth +:+ ":" +:+ Creds_Password auth)
  else if nonempty (Creds_Token auth) then "Bearer " +:+ Creds_Token auth
  else "".

Definition SetAuthHeader (restClient : RestClient) (request : HTTPRequest) : HTTPRequest :=
  match RestClient_Auth restClient with
  | Some auth => request <| HTTPRequest_Header ::= λ h, h ++ [("Authorization", auth_value auth)] |>
  | None => request
  end.

(** The credentials of a configuration, when it has any. *)
Definition creds_of (name pwd token : string) : option Creds :=
  if (nonempty name && nonempty pwd) || nonempty token then Some (mkCreds name pwd token) else None.

Context {W : Type} `{KubeClient W, System W}.

Definition ReadFile (filePath : string) : M W string := os_ReadFile filePath.

(** The client of a download takes redirects with an opaque URL. *)
Definition DownloadFile (fullURLFile fileName : string) : M W unit :=
  os_Create fileName;;
  let client := mkHTTPClient (Some insecure_config) 0 true in
  urlFile ← of_sum (url_Parse fullURLFile);
  let urlFile := ResolveReference urlFile urlFile in
  request ← of_sum (NewRequest "GET" (URL_String urlFile) [] "");
  resp ← http_Do client request;
  if (400 <=? HTTPResponse_StatusCode resp)%Z then
    match HTTPResponse_Body resp with
    | inl err => fail (errors_New ("failed to read error response body: " +:+ err_msg err))
    | inr body =>
        fail (errors_New ("request failed with status " +:+ Itoa (HTTPResponse_StatusCode resp)
                          +:+ ": " +:+ body))
    end
  else
    body ← of_sum (HTTPResponse_Body resp);
    io_Copy fileName body.

(** The status of the response is not looked at. *)
Definition DownloadFileTLS (contentPackPath : ContentPackPathHTTPConfig) (fileName namespace : string) :
    M W unit :=
  os_Create fileName;;
  '(user, tlsConfig) ←
    (match ContentPackPathHTTPConfig_HTTPConfig contentPackPath with
     | Some config =>
         '(name, pwd, token, tlsConfig) ← GetCredentialsAndCertificates config namespace;
         mret (creds_of name pwd token, tlsConfig)
     | None => mret (None, None)
     end);
  let client := mkHTTPClient tlsConfig (ConnectionTimeout * Second) true in
  urlFile ← of_sum (url_Parse (ContentPackPathHTTPConfig_URL contentPackPath));
  let urlFile := ResolveReference urlFile urlFile in
  let restClient := mkRestClient client user "" in
  request ← of_sum (NewRequest "GET" (URL_String urlFile) [] "");
  response ← http_Do (RestClient_Client restClient) (SetAuthHeader restClient request);
  body ← of_sum (HTTPResponse_Body response);
  io_Copy fileName body.

(** One file of the archive; the result is its path. *)
Definition unzip_file (dest : string) (f : ZipFile) : M W string :=
  let fpath := Filepath.Join [dest; ZipFile_Name f] in
  if negb (HasPrefix fpath (Clean dest +:+ "/")) then fail (errors_New (fpath +:+ ": illegal file path"))
  else if ZipFile_IsDir f then
    os_MkdirAll fpath;;
    mret fpath
  else
    os_MkdirAll (Dir fpath);;
    os_Create fpath;;
    content ← of_sum (ZipFile_Content f);
    io_Copy fpath content;;
    mret fpath.

(** The loop; the names that come with an error are dropped by the callers. *)
Fixpoint unzip_files (dest : string) (files : list ZipFile) (filenames : list string) :
    M W (list string) :=
  match files with
  | [] => mret filenames
  | f :: files =>
      fpath ← unzip_file dest f;
      unzip_files dest files (filenames ++ [fpath])
  end.

Definition Unzip (src dest : string) : M W (list string) :=
  files ← zip_OpenReader src;
  unzip_files dest files [].
End operations.

(** ** Lemmas *)

(** A path that an archive may write: the directory itself, what is inside it, and, when the
    directory is missing, the directories it is in. *)
Definition contained (dest path : string) : Prop :=
  path = Clean dest ∨ inside (Clean dest) path ∨ above path (Clean dest).

(** With a directory of the archive come the directories it is in. *)
Lemma contained_makes dest p q : contained dest p → makes p q → contained dest q.
Proof.
  intros Hp [->|Hq]; [done|]. destruct Hp as [->|[Hp|Hp]]; [by right; right| |].
  - destruct (above_inside _ _ _ Hp Hq) as [|[|]]; unfold contained; auto.
  - right. right. by eapply above_trans.
Qed.

Section lemmas.
Context {W : Type} `{SystemLaws W}.

Lemma unzip_file_wrote dest f :
  rooted dest = true → runs (wrote (contained dest)) (wrote (contained dest)) (unzip_file dest f).
Proof.
  intros Hd. unfold unzip_file.
  destruct (Join_rooted dest (ZipFile_Name f) Hd) as [-> Hp].
  destruct (HasPrefix _ _) eqn:Hpre; cbn [negb]; [|apply runs_fail].
  assert (Hin : contained dest (Clean (dest +:+ "/" +:+ ZipFile_Name f))) by (right; left; by apply Clean_inside).
  assert (Hdir : contained dest (Dir (Clean (dest +:+ "/" +:+ ZipFile_Name f)))).
  { destruct (Dir_inside dest (dest +:+ "/" +:+ ZipFile_Name f) Hd Hp Hpre); unfold contained; auto. }
  pose proof (λ q, contained_makes _ _ q Hin). pose proof (λ q, contained_makes _ _ q Hdir). runs.
Qed.

Lemma unzip_files_wrote dest files filenames :
  rooted dest = true →
  runs (wrote (contained dest)) (wrote (contained dest)) (unzip_files dest files filenames).
Proof.
  intros Hd. revert filenames. induction files as [|f files IH]; intros filenames; cbn [unzip_files];
    [apply runs_ret|].
  apply runs_bind; [by apply unzip_file_wrote|]. intros fpath. apply IH.
Qed.
End lemmas.

(** C11: for a destination given by an absolute path, whatever names the archive has, [Unzip]
    writes nothing outside the destination, whether it succeeds or fails: every path it
    creates is the cleaned destination, or is below it with no ".." on the way, but for the
    directories that the destination itself is in, which are created when they are missing. *)
Theorem Unzip_contained {W} `{SystemLaws W} src dest (w : W) :
  rooted dest = true →
  wp (Unzip src dest) (λ _, wrote (contained dest) w) (λ _, wrote (contained dest) w) w.
Proof.
  intros Hd. assert (Hr : runs (wrote (contained dest)) (wrote (contained dest)) (Unzip src dest)).
  { apply runs_bind; [eauto with runs|]. intros files. by apply unzip_files_wrote. }
  apply Hr.
Qed.

(** ** Witness *)

(** An archive whose second file would leave the directory. *)
Definition example_archive : Mem :=
  zero <| Mem_archives := λ _, Some [mkZipFile "a/./b.json" false (inr "{}");
                                     mkZipFile "a/../../etc/passwd" false (inr "root")] |>.

Lemma Unzip_contained_witness :
  let w' := (Unzip "/tmp/x.zip" "/tmp/" example_archive).1 in
  written w' = ["/tmp"; "/tmp/a"; "/tmp/a/b.json"] ∧ Forall (contained "/tmp/") (written w').
Proof.
  intros w'. assert (Hl : written w' = ["/tmp"; "/tmp/a"; "/tmp/a/b.json"]) by (vm_compute; reflexivity).
  split; [exact Hl|]. pose proof (Unzip_contained "/tmp/x.zip" "/tmp/" example_archive eq_refl) as Hwp.
  unfold wp in Hwp. subst w'. destruct (Unzip _ _ _) as [s' [r|e|]]; [| |done];
    destruct Hwp as (ps & Hps & Hf); exact (eq_ind_r (Forall (contained "/tmp/")) Hf Hps).
Defined.
