(* ===== verification/GraylogRest.v ===== *)
(** * The connector to Graylog: internal/controllers/graylog/utils

    [connector.go] and [entity.go]: the clients of Graylog and of OpenSearch, the
    requests, and the decoding of the answers. *)

From S2P Require Import Prelude GoStrings KubeTypes Api Net Client System Operator.
From S2P Require Import GraylogStreams.
From S2P Require Import Files ComponentRun Certificates Rest.

(** ** Decoding JSON into the code's structs

    The decoder of encoding/json takes the member of an object whose name is that of the
    field in any case, the last one when there are several; null leaves a field, or a
    slice, as it is. *)

Definition json_type_error : error := errors_New "json: cannot unmarshal value of another type".

Definition json_end_error : error := errors_New "unexpected end of JSON input".

(** [mapM] for functions that may fail. *)
Fixpoint decode_all {A} (f : JSON → error + A) (vs : list JSON) : error + list A :=
  match vs with
  | [] => inr []
  | v :: vs =>
      match f v, decode_all f vs with
      | inr x, inr xs => inr (x :: xs)
      | inl err, _ | _, inl err => inl err
      end
  end.

(** A slice of values. *)
Definition decode_slice {A} (f : JSON → error + A) (v : JSON) : error + list A :=
  match v with
  | JArray vs => decode_all f vs
  | JNull => inr []
  | _ => inl json_type_error
  end.

(** The members of a struct. *)
Definition decode_members (v : JSON) : error + list (string * JSON) :=
  match v with
  | JObject ms => inr ms
  | JNull => inr []
  | _ => inl json_type_error
  end.

(** A field of type string; [value] is what it holds so far. *)
Fixpoint decode_string (name : string) (ms : list (string * JSON)) (value : string) : error + string :=
  match ms with
  | [] => inr value
  | (k, v) :: ms =>
      if EqualFold k name then
        match v with
        | JString s => decode_string name ms s
        | JNull => decode_string name ms value
        | _ => inl json_type_error
        end
      else decode_string name ms value
  end.

(** [data[field]] of a [map[string]json.RawMessage]: the last member of that name. *)
Definition raw_field (field : string) (ms : list (string * JSON)) : option JSON :=
  foldl (λ r m, if String.eqb m.1 field then Some m.2 else r) None ms.

(** A struct of strings, by its two fields. *)
Definition decode_pair {A} (f : string → string → A) (name1 name2 : string) (v : JSON) : error + A :=
  match decode_members v with
  | inl err => inl err
  | inr ms =>
      match decode_string name1 ms "", decode_string name2 ms "" with
      | inr x, inr y => inr (f x y)
      | inl err, _ | _, inl err => inl err
      end
  end.

Section decode.
Context `{Encodings}.

(** [json.Unmarshal(text, &xs)]. *)
Definition unmarshal_slice {A} (f : JSON → error + A) (text : string) : error + list A :=
  match json_Unmarshal text with
  | inl err => inl err
  | inr v => decode_slice f v
  end.

(** [json.Unmarshal(text, &data)] for a map of raw messages, and then
    [json.Unmarshal(data[field], &xs)]. *)
Definition unmarshal_field {A} (f : JSON → error + A) (text field : string) : error + list A :=
  match json_Unmarshal text with
  | inl err => inl err
  | inr v =>
      match decode_members v with
      | inl err => inl err
      | inr ms =>
          match raw_field field ms with
          | Some v => decode_slice f v
          | None => inl json_end_error
          end
      end
  end.
End decode.

(** ** entity.go *)

Record Entity : Type := mkEntity {
  Entity_Id : string;
  Entity_Title : string;
}.

Definition decode_Entity : JSON → error + Entity := decode_pair mkEntity "id" "title".

Fixpoint GetIdByTitle (values : list Entity) (title : string) : string :=
  match values with
  | [] => ""
  | v :: values => if String.eqb (Entity_Title v) title then Entity_Id v else GetIdByTitle values title
  end.

(** ** connector.go *)

Definition GraylogPort : string := "9000".
Definition contentpacksUrl : string := "system/content_packs".
Definition oobContentPackId : string := "0fac53ed-df74-4ba6-88c2-aa16b4b8542d".
Definition oobContentPackInstallUrl : string :=
  "system/content_packs/" +:+ oobContentPackId +:+ "/1/installations".
Definition contentPackInstallationsUrl (id : string) : string :=
  "system/content_packs/" +:+ id +:+ "/installations".
Definition contentPackInstallationUrl (id installation : string) : string :=
  "system/content_packs/" +:+ id +:+ "/installations/" +:+ installation.
Definition grokUrl : string := "system/grok".
Definition indexSetsUrl : string := "system/indices/index_sets".
Definition inputsUrl : string := "system/inputs".
Definition pipelineUrl : string := "system/pipelines/pipeline".
Definition processingRulesUrl : string := "system/pipelines/rule".
Definition authHeaderUrl : string := "system/authentication/http-header-auth-config".

Definition operatorGraylogSecretDir : string := "/etc/logging-operator/graylog-secret".
Definition operatorGraylogUserFile : string := operatorGraylogSecretDir +:+ "/user".
Definition operatorGraylogPasswordFile : string := operatorGraylogSecretDir +:+ "/password".
Definition operatorElasticHostFile : string := operatorGraylogSecretDir +:+ "/elasticsearchHost".

Record GraylogConnector : Type := mkGraylogConnector {
  Connector_RestClient : RestClient;
  Connector_OpenSearchRestClient : RestClient;
  Connector_Assets : FS;
  Connector_EnabledStreams : list EnabledStream;
  Connector_TLSEnabled : bool;
}.

Section Connector.
Context {W : Type} `{KubeClient W, System W, Encodings, Externals}.

Definition readSecretFileValue (path : string) : M W string :=
  data ← os_ReadFile path;
  mret (TrimSpace data).

Definition readOperatorGraylogCreds : M W Creds :=
  name ← readSecretFileValue operatorGraylogUserFile;
  password ← readSecretFileValue operatorGraylogPasswordFile;
  mret (mkCreds name password "").

(** The client with a transport of its own. *)
Definition rest_http_client (tlsConfig : option TLSConf) : HTTPClient :=
  mkHTTPClient tlsConfig (ConnectionTimeout * Second) false.

(** The URL of OpenSearch without the user that it may name. *)
Definition without_user (u : URL) : URL :=
  zero <| URL_Scheme := URL_Scheme u |> <| URL_Host := URL_Host u |> <| URL_Path := URL_Path u |>
       <| URL_RawQuery := URL_RawQuery u |> <| URL_Fragment := URL_Fragment u |>.

(** The user, the TLS configuration and the host of OpenSearch that the custom resource
    gives; [user] is that of Graylog. *)
Definition opensearch_config (graylog : Graylog) (namespace : string) (user : Creds) :
    M W (Creds * option TLSConf * string) :=
  match Graylog_OpenSearch graylog with
  | Some o =>
      match OpenSearch_HTTPConfig o with
      | Some config =>
          '(name, pwd, token, tlsConfig) ← GetCredentialsAndCertificates config namespace;
          mret (default user (creds_of name pwd token), tlsConfig, OpenSearch_Host o)
      | None => mret (user, None, "")
      end
  | None => mret (user, None, "")
  end.

(** The same from the mounted Secret. *)
Definition opensearch_mounted (tlsConfig : option TLSConf) : M W (Creds * option TLSConf * string) :=
  elasticSearchHost ← readSecretFileValue operatorElasticHostFile;
  u ← of_sum (url_Parse elasticSearchHost);
  let tlsConfig :=
    match tlsConfig with
    | None => if String.eqb (URL_Scheme u) "https" then Some insecure_config else None
    | Some _ => tlsConfig
    end in
  let '(name, password) := default ("", "") (URL_User u) in
  mret (mkCreds name password "", tlsConfig, URL_String (without_user u)).

(** [GetStreams(cr)] also leaves the required streams in the custom resource. *)
Definition CreateConnector : M (op W) GraylogConnector :=
  cr ← the_cr;
  graylog ← deref (LoggingServiceSpec_Graylog (LoggingService_Spec cr));
  let namespace := GetNamespace cr in
  tlsConfig ←
    (match Graylog_TLS graylog ≫= GraylogTLS_HTTP with
     | Some http =>
         if HTTPGraylogTLS_Enabled http then
           conf ← lift (HTTPGraylogTLS_GetCertificates http namespace);
           mret (Some conf)
         else mret None
     | None => mret None
     end);
  user ←
    (if nonempty (Graylog_User graylog) && nonempty (Graylog_Password graylog)
     then mret (mkCreds (Graylog_User graylog) (Graylog_Password graylog) "")
     else lift readOperatorGraylogCreds);
  let restClient := mkRestClient (rest_http_client tlsConfig) (Some user)
    (GraylogComponentName +:+ "." +:+ namespace +:+ ".svc" +:+ ":" +:+ GraylogPort +:+ "/api/") in
  '(user, tlsConfig, host) ← lift (opensearch_config graylog namespace user);
  '(user, tlsConfig, host) ←
    (if String.eqb host "" then lift (opensearch_mounted tlsConfig) else mret (user, tlsConfig, host));
  let openSearchClient := mkRestClient (rest_http_client tlsConfig) (Some user) host in
  modify (update_spec (λ sp,
    sp <| LoggingServiceSpec_Graylog ::= fmap (λ g, g <| Graylog_Streams := managed_streams g |>) |>));;
  http ← deref (Graylog_TLS graylog ≫= GraylogTLS_HTTP);
  mret (mkGraylogConnector restClient openSearchClient graylog_configs (GetStreams graylog)
    (HTTPGraylogTLS_Enabled http)).

(** The request that [Send] sends. *)
Definition rest_request (c : GraylogConnector) (urlPath method data : string) : error + HTTPRequest :=
  let protocol := if Connector_TLSEnabled c then "https" else "http" in
  match url_Parse urlPath with
  | inl err => inl err
  | inr u =>
      match url_Parse (protocol +:+ "://" +:+ RestClient_Host (Connector_RestClient c)) with
      | inl err => inl err
      | inr base =>
          match NewRequest method (URL_String (ResolveReference base u))
                  [("Content-Type", "application/json"); ("X-Requested-By", "Graylog API Browser")] data with
          | inl err => inl err
          | inr request => inr (SetAuthHeader (Connector_RestClient c) request)
          end
      end
  end.

(** The body and the status code; with an error the callers see the code -1. *)
Definition Send (c : GraylogConnector) (urlPath method data : string) : M W (string * Z) :=
  request ← of_sum (rest_request c urlPath method data);
  response ← http_Do (RestClient_Client (Connector_RestClient c)) request;
  body ← of_sum (HTTPResponse_Body response);
  mret (body, HTTPResponse_StatusCode response).

Definition DELETE (c : GraylogConnector) (url : string) : M W (string * Z) := Send c url "DELETE" "".
Definition GET (c : GraylogConnector) (url : string) : M W (string * Z) := Send c url "GET" "".
Definition POST (c : GraylogConnector) (url data : string) : M W (string * Z) := Send c url "POST" data.
Definition PUT (c : GraylogConnector) (url data : string) : M W (string * Z) := Send c url "PUT" data.

(** [if statusCode != want { return errors.New(msg) }]. *)
Definition expect_status (want : list Z) (statusCode : Z) (msg : string) : M W unit :=
  if bool_decide (statusCode ∈ want) then mret tt else fail (errors_New msg).

(** [util.ParseTemplate(util.MustAssetReader(connector.Assets, path), path, parameters)]. *)
Definition render_asset {P} (c : GraylogConnector) (path : string) (parameters : P) : M W string :=
  of_sum (ParseTemplate P (MustAssetReader (Connector_Assets c) path) path parameters).

(** ** entity.go *)

Definition GetRawData (c : GraylogConnector) (url : string) : M W string :=
  '(resp, _) ← GET c url;
  mret resp.

(** An empty [field] is the whole answer. *)
Definition GetData (c : GraylogConnector) (url field : string) (replaceFunc : string → string) :
    M W (list Entity) :=
  allData ← GetRawData c url;
  let allData := replaceFunc allData in
  of_sum (if negb (String.eqb field "") then unmarshal_field decode_Entity allData field
          else unmarshal_slice decode_Entity allData).
End Connector.
