(* ===== verification/GraylogContent.v ===== *)
(** * What the operator configures in Graylog: internal/controllers/graylog/utils

    The managers of Graylog's own content: [auth-header.go], [grok.go], [index-sets.go],
    [inputs.go], [extractors.go], [streams.go], [processing-rules.go] and [pipelines.go].
    Each works on the connector [c] for the custom resource [cr], whose Graylog part is
    [graylog]. *)

From S2P Require Import Prelude GoStrings KubeTypes Api Net Client System Operator.
From S2P Require Import GraylogStreams.
From S2P Require Import Files ComponentRun Certificates Rest GraylogRest.

(** ** The tables of internal/utils/vars.go *)

Definition GraylogGrokPatterns : string := "config/grok_patterns.json".
Definition GraylogInput : string := "config/input.json".
Definition GraylogMessageProcessors : string := "config/messageprocessors.json".
Definition GraylogAuthHeader : string := "config/auth_header.json".
Definition GraylogPipeline : string := "config/pipeline.json".

Definition GraylogStreamsDescriptions : smap :=
  {[ GraylogAuditStream := "Audit log messages from OC nodes sent through fluent bit";
     GraylogSystemStream := "System log messages from OC nodes sent through fluent bit";
     GraylogAccessStream := "Access log messages from OC nodes sent through fluent bit";
     GraylogIntegrationStream := "Integration log messages from OC nodes sent through fluent bit";
     GraylogBillCycleStream := "Bill Cycle log messages from OC nodes sent through fluent bit";
     GraylogNginxStream := "Nginx log messages from OC nodes sent through fluent bit";
     GraylogKubernetesEventsStream := "Kubernetes events as logs sent through fluent bit" ]}.

Definition GraylogExtractors : smap :=
  {[ "replace_timestamp" := "config/extractors/replace_timestamp_extractor.json";
     "kuber_extractor" := "config/extractors/kubernetes_extractor.json";
     "kuber_labels_extractor" := "config/extractors/kubernetes_labels_extractor.json";
     "docker_extractor" := "config/extractors/docker_extractor.json";
     "Microservice Framework Backend" := "config/extractors/microservice_framework_extractor.json" ]}.

Definition GraylogUnsupportedSymbolsRule : string := "Processing unsupported symbols".
Definition GraylogRemoveKubernetesRule : string := "Remove kubernetes field".
Definition GraylogRemoveKubernetesLabelsRule : string := "Remove kubernetes_labels field".

Definition GraylogRuleConfigs : smap :=
  {[ "Route Audit logs" := "config/processing_rules/audit_logs.rule";
     "Route System logs" := "config/processing_rules/system_logs.rule";
     "Route Access logs" := "config/processing_rules/access_logs.rule";
     "Route Integration logs" := "config/processing_rules/int_logs.rule";
     "Route Bill Cycle logs" := "config/processing_rules/bill_cycle_logs.rule";
     "Route Nginx logs" := "config/processing_rules/nginx_logs.rule";
     GraylogRemoveKubernetesRule := "config/processing_rules/remove_kubernetes.rule";
     GraylogRemoveKubernetesLabelsRule := "config/processing_rules/remove_kubernetes_labels.rule";
     GraylogUnsupportedSymbolsRule := "config/processing_rules/unsupported_symbols.rule";
     "Route Kubernetes events" := "config/processing_rules/k8s_event_logs.rule" ]}.

Definition GraylogRuleDescriptions : smap :=
  {[ "Route Audit logs" := "Route Audit logs to the appropriate stream";
     "Route System logs" := "Route System logs to the appropriate stream";
     "Route Access logs" := "Route Access logs to the appropriate stream";
     "Route Integration logs" := "Route Integration logs to the appropriate stream";
     "Route Bill Cycle logs" := "Route Bill Cycle logs to the appropriate stream";
     "Route Nginx logs" := "Route Nginx logs to the appropriate stream";
     GraylogRemoveKubernetesRule := "Remove kubernetes field";
     GraylogRemoveKubernetesLabelsRule := "Remove kubernetes labels field";
     GraylogUnsupportedSymbolsRule := "Processing unsupported symbols (Replace '/' to '_')";
     "Route Kubernetes events" := "Route Kubernetes events to the appropriate stream" ]}.

(** [m[k]] of a Go map. *)
Definition map_value (m : smap) (k : string) : string := default "" (m !! k).

(** [for k, v := range m { if err := f(k, v); err != nil { return err } }]. *)
Definition for_range {W} `{KubeClient W, System W} (m : smap) (f : string → string → M W unit) : M W unit :=
  kvs ← range_map (Some m);
  for_each kvs (λ kv, f kv.1 kv.2).

(** The status code that comes with the error -1. *)
Definition status_of (r : error + string * Z) : Z :=
  match r with inl _ => (-1)%Z | inr (_, statusCode) => statusCode end.

Section content.
Context {W : Type} `{KubeClient W, System W, Encodings, Externals}.
Variable c : GraylogConnector.
Variable cr : LoggingService.
Variable graylog : Graylog.

(** The create-or-update choice of the managers. *)
Definition by_policy (onlyCreate forceUpdate : M W unit) : M W unit :=
  if IsOnlyCreate graylog then onlyCreate
  else if IsForceUpdate graylog then forceUpdate
  else mret tt.

(** ** auth-header.go *)

Definition EnableAuthHeader : M W unit :=
  data ← render_asset c GraylogAuthHeader (ToParams cr);
  '(_, statusCode) ← PUT c authHeaderUrl data;
  expect_status [StatusOK] statusCode "can't enable HTTP header auth".

Definition ManageAuthHeaderConfig : M W unit := EnableAuthHeader.

(** ** grok.go *)

Record GrokPattern : Type := mkGrokPattern {
  GrokPattern_Id : string;
  GrokPattern_Name : string;
  GrokPattern_Pattern : string;
}.

Definition decode_GrokPattern (v : JSON) : error + GrokPattern :=
  match decode_members v with
  | inl err => inl err
  | inr ms =>
      match decode_string "id" ms "", decode_string "name" ms "", decode_string "pattern" ms "" with
      | inr id, inr name, inr pattern => inr (mkGrokPattern id name pattern)
      | inl err, _, _ | _, inl err, _ | _, _, inl err => inl err
      end
  end.

Definition ContainsPattern (pattern : GrokPattern) (list : list GrokPattern) : bool :=
  existsb (λ p, String.eqb (GrokPattern_Name p) (GrokPattern_Name pattern)) list.

Fixpoint GetPattern (name : string) (patterns : list GrokPattern) : string :=
  match patterns with
  | [] => ""
  | p :: patterns =>
      if String.eqb (GrokPattern_Name p) name then GrokPattern_Pattern p else GetPattern name patterns
  end.

Definition GetAllGrokPatterns : M W string := GetRawData c grokUrl.

Definition CreateGrokPatternBody (p : GrokPattern) (allGrokPatterns : list GrokPattern) : string :=
  json_Marshal (JObject [("name", JString (GrokPattern_Name p));
                         ("pattern", JString (GetPattern (GrokPattern_Name p) allGrokPatterns))]).

(** The loop of the two functions below: [send] gets the body for each pattern that
    [needed] selects.  A request without an answer is noted in [failedPatterns] and then
    ends the loop by its status code. *)
Fixpoint grok_loop (needed : GrokPattern → bool) (send : GrokPattern → string → M W (string * Z))
    (want : Z) (verb : string) (allGrokPatterns patterns : list GrokPattern)
    (failedPatterns : list string) : M W unit :=
  match patterns with
  | [] =>
      if bool_decide (failedPatterns = []) then mret tt
      else fail (errors_New ("Can't " +:+ verb +:+ " patterns " +:+ Join failedPatterns ","))
  | v :: patterns =>
      if needed v then
        r ← attempt (send v (CreateGrokPatternBody v allGrokPatterns));
        let failedPatterns :=
          match r with inl _ => failedPatterns ++ [GrokPattern_Pattern v] | inr _ => failedPatterns end in
        expect_status [want] (status_of r) ("can't " +:+ verb +:+ " grok pattern: " +:+ GrokPattern_Name v);;
        grok_loop needed send want verb allGrokPatterns patterns failedPatterns
      else grok_loop needed send want verb allGrokPatterns patterns failedPatterns
  end.

Definition UpdateGrokPatterns (existingGrokPatterns allGrokPatterns : list GrokPattern) : M W unit :=
  grok_loop (λ v, ContainsPattern v allGrokPatterns)
    (λ v config, PUT c (grokUrl +:+ "/" +:+ GrokPattern_Id v) config) StatusOK "update"
    allGrokPatterns existingGrokPatterns [].

Definition CreateGrokPatterns (existingGrokPatterns allGrokPatterns : list GrokPattern) : M W unit :=
  grok_loop (λ v, negb (ContainsPattern v existingGrokPatterns))
    (λ v config, POST c grokUrl config) StatusCreated "create"
    allGrokPatterns allGrokPatterns [].

Definition CreateOrUpdateGrokPatterns (existingGrokPatterns : list GrokPattern) : M W unit :=
  rawAllGrokPatterns ← render_asset c GraylogGrokPatterns (ToParams cr);
  allGrokPatterns ← of_sum (unmarshal_field decode_GrokPattern rawAllGrokPatterns "patterns");
  by_policy (CreateGrokPatterns existingGrokPatterns allGrokPatterns)
    (UpdateGrokPatterns existingGrokPatterns allGrokPatterns).

Definition ManageGrokPatterns : M W unit :=
  existingGrokPatterns ← GetAllGrokPatterns;
  grokPatterns ← of_sum (unmarshal_field decode_GrokPattern existingGrokPatterns "patterns");
  CreateOrUpdateGrokPatterns grokPatterns.

(** ** index-sets.go *)

Definition GetAllIndexSets : M W (list Entity) := GetData c indexSetsUrl "index_sets" id.

Definition UpdateIndexSet (id path indexSetName : string) : M W unit :=
  data ← render_asset c path (ToParams cr);
  '(_, statusCode) ← PUT c (indexSetsUrl +:+ "/" +:+ id) data;
  expect_status [StatusOK] statusCode ("can't update " +:+ indexSetName).

Definition CreateIndexSet (path indexSetName : string) : M W unit :=
  data ← render_asset c path (ToParams cr);
  '(response, statusCode) ← POST c indexSetsUrl data;
  expect_status [StatusOK] statusCode
    ("can't create " +:+ indexSetName +:+ ". Status code: " +:+ Itoa statusCode +:+ ". Response: " +:+ response).

Definition CreateOrUpdateIndexSet (indexSets : list Entity) (path title : string) : M W unit :=
  let id := GetIdByTitle indexSets title in
  if String.eqb id "" then
    if String.eqb title GraylogDefaultIndexSet then fail (errors_New "default index set not found")
    else CreateIndexSet path title
  else if IsForceUpdate graylog || String.eqb title GraylogDefaultIndexSet then
    UpdateIndexSet id path title
  else mret tt.

Definition ManageIndexSets : M W unit :=
  indexSets ← GetAllIndexSets;
  for_range (GetIndexSets (Connector_EnabledStreams c)) (λ k v, CreateOrUpdateIndexSet indexSets v k).

(** ** inputs.go *)

Definition GetAllInputs : M W (list Entity) := GetData c inputsUrl "inputs" id.

Definition UpdateDefaultInput (id : string) : M W unit :=
  data ← render_asset c GraylogInput (ToParams cr);
  '(_, statusCode) ← PUT c (inputsUrl +:+ "/" +:+ id) data;
  expect_status [StatusCreated] statusCode "can't update default input".

Definition CreateDefaultInput : M W unit :=
  data ← render_asset c GraylogInput (ToParams cr);
  '(_, statusCode) ← POST c inputsUrl data;
  expect_status [StatusCreated] statusCode "can't create default input".

Definition default_input : string := "input-" +:+ Itoa (Graylog_InputPort graylog).

Definition CreateOrUpdateDefaultInput (inputs : list Entity) : M W unit :=
  let id := GetIdByTitle inputs default_input in
  if String.eqb id "" then CreateDefaultInput
  else if IsForceUpdate graylog then UpdateDefaultInput id
  else mret tt.

Definition ManageInputs : M W unit :=
  inputs ← GetAllInputs;
  CreateOrUpdateDefaultInput inputs.

(** ** extractors.go *)

Definition extractorsUrl (inputId : string) : string := "system/inputs/" +:+ inputId +:+ "/extractors".

Definition GetAllExtractors (id : string) : M W (list Entity) :=
  GetData c (extractorsUrl id) "extractors" (λ s, s).

Definition UpdateMessageProcessorsOrder : M W unit :=
  data ← render_asset c GraylogMessageProcessors (ToParams cr);
  '(_, statusCode) ← PUT c "system/messageprocessors/config" data;
  expect_status [StatusOK] statusCode "can't update messageprocessors order".

Definition CreateExtractor (template inputId : string) : M W unit :=
  data ← render_asset c template (ToParams cr);
  '(_, statusCode) ← POST c (extractorsUrl inputId +:+ "/") data;
  expect_status [StatusCreated] statusCode ("can't create extractor " +:+ template).

Definition UpdateExtractor (template inputId id : string) : M W unit :=
  data ← render_asset c template (ToParams cr);
  '(_, statusCode) ← PUT c (extractorsUrl inputId +:+ "/" +:+ id) data;
  expect_status [StatusOK] statusCode ("can't update extractor " +:+ template).

Definition DeleteExtractor (inputId id : string) : M W unit :=
  '(_, statusCode) ← DELETE c (extractorsUrl inputId +:+ "/" +:+ id);
  expect_status [StatusNoContent] statusCode ("can't delete extractor " +:+ id).

Definition UpdateAllExtractors (extractors : list Entity) (extractorsAssets : smap) (inputId : string) :
    M W unit :=
  for_range extractorsAssets (λ name assetPath,
    let id := GetIdByTitle extractors name in
    if negb (String.eqb id "") then UpdateExtractor assetPath inputId id
    else CreateExtractor assetPath inputId);;
  let id := GetIdByTitle extractors "os_extractor" in
  when (negb (String.eqb id "")) (DeleteExtractor inputId id).

Definition CreateExtractors (extractors : list Entity) (extractorsAssets : smap) (inputId : string) :
    M W unit :=
  for_range extractorsAssets (λ name assetPath,
    when (String.eqb (GetIdByTitle extractors name) "") (CreateExtractor assetPath inputId)).

Definition CreateOrUpdateExtractors (extractors : list Entity) (extractorsAssets : smap) (id : string) :
    M W unit :=
  by_policy (CreateExtractors extractors extractorsAssets id)
    (UpdateAllExtractors extractors extractorsAssets id).

Definition ManageExtractors : M W unit :=
  inputs ← GetAllInputs;
  let id := GetIdByTitle inputs default_input in
  extractors ← GetAllExtractors id;
  CreateOrUpdateExtractors extractors GraylogExtractors id;;
  UpdateMessageProcessorsOrder.

(** ** streams.go *)

Definition GetAllStreams : M W (list Entity) := GetData c "streams" "streams" id.

Definition CreateStreamBody (description title : string) (indexSets : list Entity) (indexSetName : string) :
    string :=
  json_Marshal (JObject [("matching_type", JString "AND"); ("description", JString description);
    ("title", JString title); ("index_set_id", JString (GetIdByTitle indexSets indexSetName))]).

Definition UpdateStream (streamId : string) (indexSets : list Entity)
    (indexSetName description title : string) : M W unit :=
  '(_, statusCode) ← PUT c ("streams/" +:+ streamId) (CreateStreamBody description title indexSets indexSetName);
  expect_status [StatusOK] statusCode ("can't update stream " +:+ title).

Definition CreateStream (indexSets : list Entity) (indexSetName description title : string) : M W unit :=
  '(_, statusCode) ← POST c "streams/" (CreateStreamBody description title indexSets indexSetName);
  expect_status [StatusCreated] statusCode ("can't create stream " +:+ title).

Definition OnlyCreateStream (streams indexSets : list Entity) (indexSetName description title : string) :
    M W unit :=
  let streamId := GetIdByTitle streams title in
  when (String.eqb streamId "") (CreateStream indexSets indexSetName description title).

Definition UpdateOrCreateStream (streams indexSets : list Entity) (indexSetName description title : string) :
    M W unit :=
  let streamId := GetIdByTitle streams title in
  if negb (String.eqb streamId "") then UpdateStream streamId indexSets indexSetName description title
  else OnlyCreateStream streams indexSets indexSetName description title.

Definition stream_to_index : smap := connector_GetStreams (Connector_EnabledStreams c).

Definition UpdateStreams (streams indexSets : list Entity) : M W unit :=
  for_range stream_to_index (λ s i,
    UpdateOrCreateStream streams indexSets i (map_value GraylogStreamsDescriptions s) s).

Definition CreateStreams (streams indexSets : list Entity) : M W unit :=
  for_range stream_to_index (λ s i,
    OnlyCreateStream streams indexSets i (map_value GraylogStreamsDescriptions s) s).

Definition ResumeStream (id : string) : M W unit :=
  '(_, statusCode) ← POST c ("streams/" +:+ id +:+ "/resume") "";
  expect_status [StatusNoContent] statusCode ("can't resume stream " +:+ id).

Definition ResumeStreamByTitle (streams : list Entity) (title : string) : M W unit :=
  ResumeStream (GetIdByTitle streams title).

Definition ResumeStreams (streams : list Entity) : M W unit :=
  for_range stream_to_index (λ s _, ResumeStreamByTitle streams s).

Definition CreateOrUpdateStreams (streams indexSets : list Entity) : M W unit :=
  by_policy (CreateStreams streams indexSets) (UpdateStreams streams indexSets).

Definition ManageStreams : M W unit :=
  streams ← GetAllStreams;
  indexSets ← GetAllIndexSets;
  CreateOrUpdateStreams streams indexSets;;
  streams ← GetAllStreams;
  ResumeStreams streams.

(** ** processing-rules.go *)

Definition GetAllProcessingRules : M W (list Entity) := GetData c processingRulesUrl "" id.

Definition CreateRuleBody (title description source : string) : string :=
  json_Marshal (JObject [("title", JString title); ("description", JString description);
                         ("source", JString source)]).

Definition default_stream_missing : error :=
  errors_New ("neither " +:+ GraylogDefaultStream +:+ " nor " +:+ GraylogAllMessagesStream +:+
              " streams were not found").

(** The id of the default stream under either of its titles. *)
Definition default_stream_id (streams : list Entity) : error + string :=
  let streamId := GetIdByTitle streams GraylogDefaultStream in
  if negb (String.eqb streamId "") then inr streamId
  else
    let streamId := GetIdByTitle streams GraylogAllMessagesStream in
    if String.eqb streamId "" then inl default_stream_missing else inr streamId.

Definition CreateRuleData (streams : list Entity) (title template : string) : M W string :=
  streamId ← of_sum (if String.eqb title GraylogDefaultStream then default_stream_id streams
                     else inr (GetIdByTitle streams title));
  render_asset c template ({[ "streamId" := streamId ]} : smap).

Definition UpdateRule (ruleId title description source : string) : M W unit :=
  '(_, statusCode) ← PUT c (processingRulesUrl +:+ "/" +:+ ruleId) (CreateRuleBody title description source);
  expect_status [StatusOK; StatusCreated] statusCode ("Can't update rule: " +:+ title).

Definition CreateRule (title description source : string) : M W unit :=
  '(_, statusCode) ← POST c processingRulesUrl (CreateRuleBody title description source);
  expect_status [StatusOK; StatusCreated] statusCode ("Can't create rule: " +:+ title).

Definition OnlyCreateRules (streams processingRules : list Entity)
    (ruleTitle streamTitle description pathConfig : string) : M W unit :=
  let ruleId := GetIdByTitle processingRules ruleTitle in
  when (String.eqb ruleId "")
    (data ← CreateRuleData streams streamTitle pathConfig;
     CreateRule ruleTitle description data).

Definition CreateOrUpdateRules (streams processingRules : list Entity)
    (ruleTitle streamTitle description pathConfig : string) : M W unit :=
  let ruleId := GetIdByTitle processingRules ruleTitle in
  if negb (String.eqb ruleId "") then
    data ← CreateRuleData streams streamTitle pathConfig;
    UpdateRule ruleId ruleTitle description data
  else OnlyCreateRules streams processingRules ruleTitle streamTitle description pathConfig.

(** The stream of each rule. *)
Definition GetProcessingRules : smap :=
  foldl (λ ruleToStream s,
    match GraylogStreamsRules !! EnabledStream_Title s with
    | Some v => <[v := EnabledStream_Title s]> ruleToStream
    | None => ruleToStream
    end)
    {[ GraylogUnsupportedSymbolsRule := GraylogDefaultStream;
       GraylogRemoveKubernetesRule := GraylogDefaultStream;
       GraylogRemoveKubernetesLabelsRule := GraylogDefaultStream ]} (Connector_EnabledStreams c).

Definition UpdateProcessingRules (processingRules : list Entity) : M W unit :=
  streams ← GetAllStreams;
  for_range GetProcessingRules (λ r s,
    CreateOrUpdateRules streams processingRules r s (map_value GraylogRuleDescriptions r)
      (map_value GraylogRuleConfigs r)).

Definition CreateProcessingRules (processingRules : list Entity) : M W unit :=
  streams ← GetAllStreams;
  for_range GetProcessingRules (λ r s,
    OnlyCreateRules streams processingRules r s (map_value GraylogRuleDescriptions r)
      (map_value GraylogRuleConfigs r)).

Definition CreateOrUpdateProcessingRules (processingRules : list Entity) : M W unit :=
  by_policy (CreateProcessingRules processingRules) (UpdateProcessingRules processingRules).

Definition ManageProcessingRules : M W unit :=
  processingRules ← GetAllProcessingRules;
  CreateOrUpdateProcessingRules processingRules.

(** ** pipelines.go *)

Definition GetAllPipelines : M W (list Entity) := GetData c pipelineUrl "" id.

Definition CreatePipelineBody (pipelineId streamId : string) : string :=
  json_Marshal (JObject [("pipeline_ids", JArray [JString pipelineId]); ("stream_id", JString streamId)]).

Definition logs_routing (pipelines : list Entity) : string := GetIdByTitle pipelines "Logs routing".

Definition CreatePipeline (pipelines : list Entity) : M W unit :=
  when (String.eqb (logs_routing pipelines) "")
    (data ← render_asset c GraylogPipeline (ToParams cr);
     '(_, statusCode) ← POST c pipelineUrl data;
     expect_status [StatusOK] statusCode "can't create pipeline").

Definition UpdatePipeline (pipelines : list Entity) : M W unit :=
  let logsRoutingPipelineId := logs_routing pipelines in
  if negb (String.eqb logsRoutingPipelineId "") then
    data ← render_asset c GraylogPipeline (ToParams cr);
    '(_, statusCode) ← PUT c (pipelineUrl +:+ "/" +:+ logsRoutingPipelineId) data;
    expect_status [StatusOK] statusCode ("can't update pipeline " +:+ logsRoutingPipelineId)
  else CreatePipeline pipelines.

Definition ConnectPipeline (pipelines : list Entity) : M W unit :=
  streams ← GetAllStreams;
  streamId ← of_sum (default_stream_id streams);
  '(_, statusCode) ← POST c "system/pipelines/connections/to_stream"
                       (CreatePipelineBody (logs_routing pipelines) streamId);
  expect_status [StatusOK] statusCode "can't connect pipeline".

Definition CreateOrUpdatePipelines (pipelines : list Entity) : M W unit :=
  by_policy (CreatePipeline pipelines) (UpdatePipeline pipelines).

Definition ManagePipelines : M W unit :=
  pipelines ← GetAllPipelines;
  CreateOrUpdatePipelines pipelines;;
  pipelines ← GetAllPipelines;
  ConnectPipeline pipelines.
End content.
