(* ===== verification/GraylogUploads.v ===== *)
(** * Content packs, searches and users of Graylog: internal/controllers/graylog/utils

    The managers that upload content: [contentpacks.go], [elasticsearch-configs.go],
    [saved-searches.go] and [user-accounts.go]; and [configureGraylog] of reconciler.go,
    which calls all the managers. *)

From Stdlib Require Import Strings.Ascii.
From S2P Require Import Prelude GoStrings Filepath KubeTypes Api Net Client System Operator.
From S2P Require Import GraylogStreams.
From S2P Require Import Files ComponentRun Certificates Rest GraylogRest GraylogContent.

(** ** The tables of internal/utils/vars.go *)

Definition GraylogArchivesDirectory : string := "config/archives.json".
Definition GraylogDashboard : string := "config/dashboard.json".
Definition GraylogDashboardInstallation : string := "config/dashboardInstallation.json".
Definition GraylogCloudEventsSearch : string := "config/saved_searches/cloud-events-search.json".
Definition GraylogUserSessionHistorySearch : string := "config/saved_searches/user-session-history-search.json".
Definition GraylogCloudEventsView : string := "config/saved_searches/cloud-events-view.json".
Definition GraylogUserSessionHistoryView : string := "config/saved_searches/user-session-history-view.json".
Definition GraylogOperatorRole : string := "config/roles/operator.json".
Definition GraylogAuditViewerRole : string := "config/roles/auditViewer.json".
Definition GraylogOperatorUser : string := "config/user_accounts/operator.json".
Definition GraylogAuditViewerUser : string := "config/user_accounts/auditViewer.json".
Definition GraylogAdminWithTrustedHeader : string := "config/user_accounts/admin_with_trusted_header.json".

Definition contentPacksDir : string := "content-packs".
Definition elasticsearchConfigsDir : string := "elasticsearch-configs".
Definition openSearchConfigsDir : string := "opensearch-configs".
Definition snapshotArchivesRequestUrl : string := "_snapshot/archives".
Definition savedSearchesDir : string := "saved-searches/".

(** [strings.Replace(s, old, new, 1)] for an [old] that is not empty. *)
Definition ReplaceFirst (s old new : string) : string :=
  let '(before, after, found) := Cut s old in
  if found : bool then before +:+ new +:+ after else s.

(** ** The regular expression of saved-searches.go *)

Definition is_regexp_space (a : ascii) : bool :=
  bool_decide (nat_of_ascii a ∈ [9; 10; 12; 13; 32]).

(** [\s?] *)
Definition skip_space (s : string) : string :=
  match s with
  | String a s' => if is_regexp_space a then s' else s
  | EmptyString => s
  end.

Definition is_id_char (a : ascii) : bool :=
  let n := nat_of_ascii a in
  ((97 <=? n) && (n <=? 122)) || ((48 <=? n) && (n <=? 57)) || (n =? 44).

(** The characters of an id up to the closing quote. *)
Fixpoint take_id (s : string) : option string :=
  match s with
  | EmptyString => None
  | String a s => if bool_decide (String a "" = DQ) then Some ""
                  else if is_id_char a then String a <$> take_id s else None
  end.

(** The id of a match that starts here: the name, a colon and a string of [a-z,0-9]. *)
Definition id_at (s : string) : option string :=
  let name := DQ +:+ "id" +:+ DQ in
  if HasPrefix s name then
    match skip_space (slice_from (len name) s) with
    | String ":" s =>
        let s := skip_space s in
        if HasPrefix s DQ then take_id (slice_from 1 s) else None
    | _ => None
    end
  else None.

(** [viewIds[2]] of the first match. *)
Fixpoint find_view_id (s : string) : option string :=
  match id_at s with
  | Some id => Some id
  | None => match s with EmptyString => None | String _ s => find_view_id s end
  end.

(** ** elasticsearch-configs.go: the requests of a file *)

(** What decoding into a variable of type [any] keeps of a value: of the members of an
    object the last of each name, which [json.Marshal] writes in the order of the names. *)
Fixpoint insert_member {A} (k : string) (v : A) (ms : list (string * A)) : list (string * A) :=
  match ms with
  | [] => [(k, v)]
  | (k', v') :: ms =>
      match String.compare k k' with
      | Eq => (k, v) :: ms
      | Lt => (k, v) :: (k', v') :: ms
      | Gt => (k', v') :: insert_member k v ms
      end
  end.

Record Request : Type := mkRequest {
  Request_Method : string;
  Request_URL : string;
  Request_Body : JSON;
}.

Section any.
Context `{Encodings}.

Fixpoint decode_any (v : JSON) : error + JSON :=
  match v with
  | JNumber n => match json_float64 n with inl err => inl err | inr n => inr (JNumber n) end
  | JArray vs =>
      match (fix go vs := match vs with
                          | [] => inr []
                          | v :: vs => match decode_any v, go vs with
                                       | inr x, inr xs => inr (x :: xs)
                                       | inl err, _ | _, inl err => inl err
                                       end
                          end) vs with
      | inl err => inl err
      | inr vs => inr (JArray vs)
      end
  | JObject ms =>
      match (fix go ms acc := match ms with
                              | [] => inr acc
                              | (k, v) :: ms => match decode_any v with
                                                | inr x => go ms (insert_member k x acc)
                                                | inl err => inl err
                                                end
                              end) ms [] with
      | inl err => inl err
      | inr ms => inr (JObject ms)
      end
  | v => inr v
  end.

(** A field of type [any]. *)
Fixpoint decode_any_field (name : string) (ms : list (string * JSON)) (value : JSON) : error + JSON :=
  match ms with
  | [] => inr value
  | (k, v) :: ms =>
      if EqualFold k name then
        match decode_any v with
        | inr value => decode_any_field name ms value
        | inl err => inl err
        end
      else decode_any_field name ms value
  end.

Definition decode_Request (v : JSON) : error + Request :=
  match decode_members v with
  | inl err => inl err
  | inr ms =>
      match decode_string "method" ms "", decode_string "url" ms "", decode_any_field "body" ms JNull with
      | inr method, inr url, inr body => inr (mkRequest method url body)
      | inl err, _, _ | _, inl err, _ | _, _, inl err => inl err
      end
  end.
End any.

Section uploads.
Context {W : Type} `{KubeClient W, System W, Encodings, Externals}.
Variable c : GraylogConnector.
Variable cr : LoggingService.
Variable graylog : Graylog.

(** Every file of a directory, if the directory is there. *)
Definition for_each_file (dir : string) (f : string → M W unit) : M W unit :=
  r ← attempt (os_Stat dir);
  match r with
  | inr _ =>
      files ← os_ReadDir dir;
      for_each files f
  | inl err => if os_IsNotExist err then mret tt else fail err
  end.

(** A file of a directory, rendered. *)
Definition render_local (path : string) : M W string :=
  fileContent ← ReadFile path;
  of_sum (ParseTemplate _ fileContent path (ToParams cr)).

(** ** contentpacks.go *)

Definition UploadContentPack (name : string) : M W unit :=
  data ← render_local (Filepath.Join [dataDir; contentPacksDir; name]);
  '(_, statusCode) ← POST c contentpacksUrl data;
  expect_status [StatusCreated] statusCode ("can't upload content-pack " +:+ name).

Definition replaceFuncContentPackInstallations (data : string) : string := ReplaceAll data "_id" "id".

Definition DeleteDefaultContentPack : M W unit :=
  installations ← GetData c (contentPackInstallationsUrl oobContentPackId) "installations"
                    replaceFuncContentPackInstallations;
  for_each installations (λ installation,
    '(_, statusCode) ← DELETE c (contentPackInstallationUrl oobContentPackId (Entity_Id installation));
    expect_status [StatusOK] statusCode "can't delete content pack installation");;
  '(_, statusCode) ← DELETE c (contentpacksUrl +:+ "/" +:+ oobContentPackId);
  expect_status [StatusNoContent] statusCode "can't delete content pack".

Definition UploadDefaultContentPack : M W unit :=
  data ← render_asset c GraylogDashboard (ToParams cr);
  '(_, statusCode) ← POST c contentpacksUrl data;
  expect_status [StatusCreated] statusCode "can't upload content pack".

Definition InstallDefaultContentPack : M W unit :=
  data ← render_asset c GraylogDashboardInstallation (ToParams cr);
  '(_, statusCode) ← POST c oobContentPackInstallUrl data;
  expect_status [StatusOK] statusCode "can't install dashboard".

Definition UploadContentPacks : M W unit :=
  for_each_file (Filepath.Join [dataDir; contentPacksDir]) UploadContentPack.

(** An archive is unpacked and removed; a file that is neither an archive nor JSON is
    left, and logged. *)
Definition unpack_download (fullName : string) : M W unit :=
  when (HasSuffix fullName ".zip")
    (_ ← Unzip fullName (Filepath.Join [dataDir]);
     os_Remove fullName).

Definition ManageContentPacks : M W unit :=
  for_each (Split (Graylog_ContentPackPaths graylog) ",") (λ item,
    let fullName := Filepath.Join [dataDir; Base item] in
    DownloadFile item fullName;;
    unpack_download fullName);;
  UploadContentPacks.

Definition ManageContentPackTLS : M W unit :=
  for_each (default [] (Graylog_ContentPacks graylog)) (λ item,
    item ← deref item;
    let fullName := Filepath.Join [dataDir; Base (ContentPackPathHTTPConfig_URL item)] in
    DownloadFileTLS item fullName (GetNamespace cr);;
    unpack_download fullName);;
  UploadContentPacks.

Definition ManageDashboards : M W unit :=
  contentPacks ← GetData c contentpacksUrl "content_packs" id;
  let ExistsDefaultContentPack := existsb (λ p, EqualFold (Entity_Id p) oobContentPackId) contentPacks in
  when (ExistsDefaultContentPack && IsForceUpdate graylog) DeleteDefaultContentPack;;
  when (IsForceUpdate graylog || (IsOnlyCreate graylog && negb ExistsDefaultContentPack))
    (UploadDefaultContentPack;;
     InstallDefaultContentPack).

(** ** elasticsearch-configs.go *)

(** The request that [SendRequestToOpenSearch] sends. *)
Definition opensearch_request (method urlPath data : string) : error + HTTPRequest :=
  match url_JoinPath (RestClient_Host (Connector_OpenSearchRestClient c)) urlPath with
  | inl err => inl err
  | inr requestUrl =>
      match NewRequest method requestUrl [("Content-Type", "application/json")] data with
      | inl err => inl err
      | inr request => inr (SetAuthHeader (Connector_OpenSearchRestClient c) request)
      end
  end.

(** A response that cannot be read ends the process ([log.Fatalln]). *)
Definition SendRequestToOpenSearch (method urlPath data : string) : M W unit :=
  request ← of_sum (opensearch_request method urlPath data);
  response ← http_Do (RestClient_Client (Connector_OpenSearchRestClient c)) request;
  if (400 <=? HTTPResponse_StatusCode response)%Z then
    match HTTPResponse_Body response with
    | inl err => fail (errors_New ("failed to read error response body: " +:+ err_msg err))
    | inr body =>
        fail (errors_New ("request failed with status " +:+ Itoa (HTTPResponse_StatusCode response)
                          +:+ ": " +:+ body))
    end
  else
    match HTTPResponse_Body response with
    | inl _ => panic
    | inr _ => mret tt
    end.

Definition UploadConfig (configsDir name : string) : M W unit :=
  rawConfigs ← render_local (Filepath.Join [dataDir; configsDir; name]);
  allRequests ← of_sum (unmarshal_field decode_Request rawConfigs "requests");
  for_each allRequests (λ r,
    SendRequestToOpenSearch (Request_Method r) (Request_URL r) (json_Marshal (Request_Body r))).

Definition ManageOpensearchConfigs : M W unit :=
  for_each [openSearchConfigsDir; elasticsearchConfigsDir] (λ configsDir,
    for_each_file (Filepath.Join [dataDir; configsDir]) (UploadConfig configsDir)).

Definition ManageArchivesDirectory : M W unit :=
  let elasticsearchHost := match Graylog_OpenSearch graylog with Some o => OpenSearch_Host o | None => "" end in
  elasticsearchHost ←
    (if String.eqb elasticsearchHost "" then readSecretFileValue operatorElasticHostFile
     else mret elasticsearchHost);
  data ← render_asset c GraylogArchivesDirectory (ToParams cr);
  let data :=
    if Contains elasticsearchHost "opensearch" then ReplaceFirst data "elasticsearch" "opensearch" else data in
  SendRequestToOpenSearch "PUT" snapshotArchivesRequestUrl data.

(** ** saved-searches.go *)

Definition FindById (slice : list Entity) (val : string) : bool :=
  existsb (λ item, String.eqb (Entity_Id item) val) slice.

Definition GetAllViews : M W (list Entity) := GetData c "views" "views" id.

Definition Upload (path template : string) : M W unit :=
  data ← render_asset c template (ToParams cr);
  '(_, statusCode) ← POST c path data;
  expect_status [StatusOK; StatusCreated] statusCode ("can't upload the content. Path: " +:+ path).

(** The view that has the id of the file's view is deleted first; the answer to that is
    not looked at. *)
Definition delete_same_view (data : string) : M W unit :=
  match find_view_id data with
  | None => mret tt
  | Some viewId =>
      views ← GetAllViews;
      if FindById views viewId then
        _ ← DELETE c ("views/" +:+ viewId);
        mret tt
      else mret tt
  end.

Definition UploadCustomSavedSearch (name : string) : M W unit :=
  data ← render_local (Filepath.Join [dataDir; savedSearchesDir; name]);
  if HasSuffix name "search.json" then
    '(_, statusCode) ← POST c "views/search" data;
    expect_status [StatusCreated] statusCode ("can't upload saved-search " +:+ name)
  else if HasSuffix name "view.json" then
    delete_same_view data;;
    '(_, statusCode) ← POST c "views" data;
    expect_status [StatusOK; StatusCreated] statusCode ("can't upload view " +:+ name)
  else fail (errors_New ("Incorrect filename of saved-search: " +:+ name)).

Definition UpdateOrCreateSearch (template : string) : M W unit := Upload "views/search" template.

Definition CreateSearch (savedSearches : list Entity) (title template : string) : M W unit :=
  when (String.eqb (GetIdByTitle savedSearches title) "") (Upload "views/search" template).

Definition CreateView (savedSearches : list Entity) (title template : string) : M W unit :=
  when (String.eqb (GetIdByTitle savedSearches title) "") (Upload "views/" template).

Definition UpdateOrCreateSavedSearches : M W unit :=
  UpdateOrCreateSearch GraylogCloudEventsSearch;;
  UpdateOrCreateSearch GraylogUserSessionHistorySearch.

Definition CreateSavedSearches (savedSearches : list Entity) : M W unit :=
  CreateSearch savedSearches "Cloud events" GraylogCloudEventsSearch;;
  CreateSearch savedSearches "User session history" GraylogUserSessionHistorySearch.

Definition CreateViews (savedSearches : list Entity) : M W unit :=
  CreateView savedSearches "Cloud events" GraylogCloudEventsView;;
  CreateView savedSearches "User session history" GraylogUserSessionHistoryView.

Definition CreateOrUpdateSavedSearches (savedSearches : list Entity) : M W unit :=
  by_policy graylog (CreateSavedSearches savedSearches) UpdateOrCreateSavedSearches.

Definition ManageCustomSavedSearches : M W unit :=
  for_each_file (Filepath.Join [dataDir; savedSearchesDir]) UploadCustomSavedSearch.

Definition ManageSavedSearches : M W unit :=
  savedSearches ← GetData c "views" "views" id;
  CreateOrUpdateSavedSearches savedSearches;;
  CreateViews savedSearches;;
  ManageCustomSavedSearches.

(** ** user-accounts.go *)

Record User : Type := mkUser {
  User_Id : string;
  User_Username : string;
}.

Definition GetRole (role : string) : M W (string * Z) := GET c ("roles/" +:+ role).
Definition GetUser (user : string) : M W (string * Z) := GET c ("users/" +:+ user).

Definition GetAllUsers : M W (list User) :=
  users ← GetRawData c "users";
  of_sum (unmarshal_field (decode_pair mkUser "id" "username") users "users").

Fixpoint user_id (users : list User) (username : string) : string :=
  match users with
  | [] => ""
  | v :: users => if String.eqb (User_Username v) username then User_Id v else user_id users username
  end.

Definition GetUserIdByName (username : string) : M W string :=
  r ← attempt GetAllUsers;
  mret (match r with inl _ => "" | inr users => user_id users username end).

(** [id := GetIdByTitle(values, title); if id == "" { return "", errors.New(msg) }]. *)
Definition required_id (values : list Entity) (title msg : string) : M W string :=
  let id := GetIdByTitle values title in
  if String.eqb id "" then fail (errors_New msg) else mret id.

Definition CreateOperatorData (dashboards : list Entity) (template : string) : M W string :=
  streams ← GetAllStreams c;
  allEventsStreamId ← required_id streams "All events" "all events stream not found";
  defaultStreamId ← of_sum (default_stream_id streams);
  allSystemEventsStreamId ← required_id streams "All system events" "all system events stream not found";
  systemLogsStreamId ← required_id streams "System logs" "system logs stream not found";
  sourcesDashboardId ← required_id dashboards "Sources by Service"
                         "dashboard sources for operator user not found";
  render_asset c template
    ({[ "allEventsStreamId" := allEventsStreamId; "defaultStreamId" := defaultStreamId;
        "allSystemEventsStreamId" := allSystemEventsStreamId;
        "systemLogsStreamId" := systemLogsStreamId;
        "sourcesDashboardId" := sourcesDashboardId ]} : smap).

Definition CreateAuditViewerData (dashboards : list Entity) (template : string) : M W string :=
  streams ← GetAllStreams c;
  allEventsStreamId ← required_id streams "All events" "all events stream not found";
  defaultStreamId ← of_sum (default_stream_id streams);
  allSystemEventsStreamId ← required_id streams "All system events" "all system events stream not found";
  systemLogsStreamId ← required_id streams "System logs" "system logs stream not found";
  auditLogsStreamId ← required_id streams "Audit logs" "audit logs stream not found";
  sourcesDashboardId ← required_id dashboards "Sources by Service"
                         "dashboard sources for audit viewer not found";
  render_asset c template
    ({[ "allEventsStreamId" := allEventsStreamId; "defaultStreamId" := defaultStreamId;
        "allSystemEventsStreamId" := allSystemEventsStreamId;
        "systemLogsStreamId" := systemLogsStreamId; "auditLogsStreamId" := auditLogsStreamId;
        "sourcesDashboardId" := sourcesDashboardId ]} : smap).

Definition CreateRole (data : string) : M W unit :=
  '(_, statusCode) ← POST c "roles" data;
  expect_status [StatusCreated] statusCode ("can't create role " +:+ data).

Definition CreateUser (template : string) : M W unit :=
  data ← render_asset c template (ToParams cr);
  '(_, statusCode) ← POST c "users" data;
  expect_status [StatusCreated] statusCode ("can't create user " +:+ data).

Definition UpdateUser (user template : string) : M W unit :=
  data ← render_asset c template (ToParams cr);
  id ← GetUserIdByName user;
  '(_, statusCode) ← PUT c ("users/" +:+ id) data;
  expect_status [StatusNoContent] statusCode ("can't update user " +:+ data).

Definition UpdateRole (role data : string) : M W unit :=
  '(_, statusCode) ← PUT c ("roles/" +:+ role) data;
  expect_status [StatusOK] statusCode ("can't update role " +:+ role).

(** Created when Graylog does not know it, updated when it does and the policy says so;
    any other answer is passed over. *)
Definition create_or_update_account (get : M W (string * Z)) (create update : M W unit) : M W unit :=
  r ← attempt get;
  if bool_decide (status_of r = StatusNotFound) then create
  else if IsForceUpdate graylog && bool_decide (status_of r = StatusOK) then update
  else mret tt.

Definition CreateOrUpdateRole (role data : string) : M W unit :=
  create_or_update_account (GetRole role) (CreateRole data) (UpdateRole role data).

Definition CreateOrUpdateUser (user template : string) : M W unit :=
  create_or_update_account (GetUser user) (CreateUser template) (UpdateUser user template).

Definition CreateOrUpdateRoles (dashboards : list Entity) : M W unit :=
  data ← CreateOperatorData dashboards GraylogOperatorRole;
  CreateOrUpdateRole "operator" data;;
  data ← CreateAuditViewerData dashboards GraylogAuditViewerRole;
  CreateOrUpdateRole "AuditViewer" data.

Definition CreateOrUpdateUsers : M W unit :=
  CreateOrUpdateUser "operator" GraylogOperatorUser;;
  CreateOrUpdateUser "auditViewer" GraylogAuditViewerUser;;
  CreateOrUpdateUser "graylog_api_th_user" GraylogAdminWithTrustedHeader.

Definition ManageUserAccounts : M W unit :=
  dashboards ← GetData c "dashboards" "elements" id;
  CreateOrUpdateRoles dashboards;;
  CreateOrUpdateUsers.

(** ** [configureGraylog] of reconciler.go *)

Definition configureGraylog : M W unit :=
  authProxy ← deref (Graylog_AuthProxy graylog);
  when (AuthProxy_Install authProxy) (ManageAuthHeaderConfig c cr);;
  ManageGrokPatterns c cr graylog;;
  ManageIndexSets c cr graylog;;
  ManageInputs c cr graylog;;
  ManageExtractors c cr graylog;;
  ManageStreams c graylog;;
  ManageProcessingRules c graylog;;
  ManagePipelines c cr graylog;;
  ManageDashboards;;
  when (nonempty (Graylog_ContentPackPaths graylog))
    (ManageContentPacks;;
     ManageOpensearchConfigs);;
  when (bool_decide (is_Some (Graylog_ContentPacks graylog)))
    (ManageContentPackTLS;;
     ManageOpensearchConfigs);;
  ManageArchivesDirectory;;
  ManageSavedSearches;;
  ManageUserAccounts.
End uploads.

Example find_view_id_spaces :
  find_view_id ("{" +:+ DQ +:+ "id" +:+ DQ +:+ " : " +:+ DQ +:+ "ab,1" +:+ DQ +:+ "}") = Some "ab,1".
Proof. reflexivity. Qed.

Example find_view_id_no : find_view_id ("{" +:+ DQ +:+ "id" +:+ DQ +:+ ":  " +:+ DQ +:+ "ab" +:+ DQ +:+ "}") = None.
Proof. reflexivity. Qed.
