(* ===== verification/GraylogRequests.v ===== *)
(** * The requests of the Graylog managers

    Which requests [configureGraylog] sends under each policy, and what the answers to them
    are when it succeeds. *)

From S2P Require Import Prelude GoStrings Filepath KubeTypes Api Net Client System Operator.
From S2P Require Import GraylogStreams.
From S2P Require Import Files ComponentRun Certificates Rest GraylogRest GraylogContent.
From S2P Require Import GraylogUploads.

(** ** The requests *)

(** A request that adds content, or that sets one of the configurations that the operator
    owns under every policy. *)
Definition creates (method urlPath : string) : Prop :=
  method = "GET" ∨ method = "POST" ∨
  (method = "PUT" ∧ (urlPath = authHeaderUrl ∨ urlPath = "system/messageprocessors/config" ∨
                     ∃ id, urlPath = indexSetsUrl +:+ "/" +:+ id)).

Definition allows (graylog : Graylog) (method urlPath : string) : Prop :=
  IsOnlyCreate graylog = true → creates method urlPath.

(** The requests that may be sent: to Graylog those that the policy allows, to OpenSearch
    any, and to other servers only downloads. *)
Definition issued `{Encodings} (c : GraylogConnector) (graylog : Graylog) (r : HTTPRequest) : Prop :=
  (∃ method urlPath data, rest_request c urlPath method data = inr r ∧ allows graylog method urlPath) ∨
  (∃ method urlPath data, opensearch_request c method urlPath data = inr r) ∨
  HTTPRequest_Method r = "GET".

(** Where a missing answer is passed over: the code asks whether a role or a user is there,
    and for the id of a user. *)
Definition probe (urlPath : string) : Prop :=
  urlPath = "users" ∨ (∃ role, urlPath = "roles/" +:+ role) ∨ (∃ user, urlPath = "users/" +:+ user).

(** The request of [exchange] was accepted: Graylog answered with a status that reports
    success, OpenSearch with one that reports no error.  Of a GET only the body counts, not
    the status. *)
Definition accepted `{Encodings} (c : GraylogConnector) (x : exchange) : Prop :=
  (∃ resp, x.2 = inr resp ∧
     (HTTPRequest_Method x.1 = "GET" ∨
      HTTPResponse_StatusCode resp ∈ [StatusOK; StatusCreated; StatusNoContent] ∨
      ∃ method urlPath data, opensearch_request c method urlPath data = inr x.1 ∧
        (HTTPResponse_StatusCode resp < 400)%Z)) ∨
  (∃ urlPath, rest_request c urlPath "GET" "" = inr x.1 ∧ probe urlPath).

(** ** The views of the administrator

    A file of the directory saved-searches whose name ends with view.json is a view.  Before it is
    uploaded, the view of the same id is deleted, if Graylog lists one. *)

(** [data] is what such a file was rendered to. *)
Definition view_file {W} `{System W, Encodings, Externals} (cr : LoggingService) (data : string) : Prop :=
  ∃ name (w w' : W), HasSuffix name "view.json" = true ∧
    render_local cr (Filepath.Join [dataDir; savedSearchesDir; name]) w = (w', Ret data).

(** Graylog was asked for its views, the one of [data] was among them, it was asked to delete
    it, and [after] is what was exchanged then: nothing, unless there was an answer. *)
Definition deletes_view {W} `{System W, Encodings, Externals} (c : GraylogConnector) (cr : LoggingService)
    (data : string) (after xs : list exchange) : Prop :=
  ∃ id r1 resp body views r2 res2,
    view_file (W:=W) cr data ∧ find_view_id data = Some id ∧
    rest_request c "views" "GET" "" = inr r1 ∧ HTTPResponse_Body resp = inr body ∧
    unmarshal_field decode_Entity body "views" = inr views ∧ FindById views id = true ∧
    rest_request c ("views/" +:+ id) "DELETE" "" = inr r2 ∧ (after = [] ∨ ∃ resp2, res2 = inr resp2) ∧
    xs = (r1, inr resp) :: (r2, res2) :: after.

(** The view was replaced: it was deleted and its file was uploaded. *)
Definition replaces_view {W} `{System W, Encodings, Externals} (c : GraylogConnector) (cr : LoggingService)
    (xs : list exchange) : Prop :=
  ∃ data r3 resp3, deletes_view (W:=W) c cr data [(r3, inr resp3)] xs ∧
    rest_request c "views" "POST" data = inr r3 ∧ HTTPResponse_StatusCode resp3 ∈ [StatusOK; StatusCreated].

(** A replacement that failed: after the request to delete the view, or in the upload. *)
Definition replacement_fails {W} `{System W, Encodings, Externals} (c : GraylogConnector) (cr : LoggingService)
    (xs : list exchange) : Prop :=
  ∃ data, deletes_view (W:=W) c cr data [] xs ∨
    ∃ r3 res3, deletes_view (W:=W) c cr data [(r3, res3)] xs ∧ rest_request c "views" "POST" data = inr r3.

Section requests.
Context {W : Type} `{SystemLaws W, !KubeClientLaws W, !BodiesRead W, Encodings, Externals}.
Variable c : GraylogConnector.
Variable cr : LoggingService.
Variable graylog : Graylog.

(** What a computation that returns has exchanged: requests that were accepted, and
    replacements of views. *)
Definition completed (xs : list exchange) : Prop :=
  single (λ x, accepted c x ∧ issued c graylog x.1) xs ∨ replaces_view (W:=W) c cr xs.

(** What one that fails may have exchanged last. *)
Definition interrupted (xs : list exchange) : Prop :=
  single (λ x, issued c graylog x.1) xs ∨ replacement_fails (W:=W) c cr xs.

Abbreviation succeeds := (grows_by completed).
Abbreviation attempts := (breaks_off completed interrupted).

Lemma extends_one P w w' x : exchanged w' = exchanged w ++ [x] → P x → extends P w w'.
Proof. intros Hx HP. exists [x]. by rewrite Forall_singleton. Qed.

Lemma extends_none P w w' : exchanged w' = exchanged w → extends P w w'.
Proof. intros Hx. exists []. by rewrite app_nil_r. Qed.

Lemma succeeds_one w w' x :
  exchanged w' = exchanged w ++ [x] → accepted c x → issued c graylog x.1 → succeeds w w'.
Proof. intros Hx Ha Hi. eapply grows_by_group; [exact Hx|]. left. by exists x. Qed.

Lemma attempts_one w w' x : exchanged w' = exchanged w ++ [x] → issued c graylog x.1 → attempts w w'.
Proof. intros Hx Hi. eapply breaks_off_group; [exact Hx|]. left. by exists x. Qed.

Lemma attempts_none w w' : exchanged w' = exchanged w → attempts w w'.
Proof. intros Hx. by apply outcome_sub, grows_by_none. Qed.

Lemma NewRequest_method method url header body r :
  NewRequest method url header body = inr r →
  HTTPRequest_Method r = if String.eqb method "" then "GET" else method.
Proof. unfold NewRequest. repeat case_match; intros; by simplify_eq. Qed.

Lemma SetAuthHeader_method client r : HTTPRequest_Method (SetAuthHeader client r) = HTTPRequest_Method r.
Proof. unfold SetAuthHeader. by destruct (RestClient_Auth client). Qed.

Lemma rest_request_method urlPath method data r :
  rest_request c urlPath method data = inr r →
  HTTPRequest_Method r = if String.eqb method "" then "GET" else method.
Proof.
  unfold rest_request. destruct (url_Parse urlPath) as [|u]; [done|].
  destruct (url_Parse _) as [|base]; [done|]. destruct (NewRequest _ _ _ _) as [|request] eqn:Hn; [done|].
  intros [= <-]. rewrite SetAuthHeader_method. by eapply NewRequest_method.
Qed.

(** One request, and what follows it on the answer [a] in the world [w'] that has
    the exchange [x]. *)
Lemma Send_wp urlPath method data w (Q : string * Z → W → Prop) (E : error → W → Prop) :
  (∀ e, E e w) →
  (∀ r res w', rest_request c urlPath method data = inr r → exchanged w' = exchanged w ++ [(r, res)] →
     match res with
     | inr (mkHTTPResponse code (inr body)) => Q (body, code) w'
     | _ => ∀ e, E e w'
     end) →
  wp (Send c urlPath method data) Q E w.
Proof.
  intros HE HQ. unfold Send. rewrite wp_bind, wp_of_sum.
  destruct (rest_request c urlPath method data) as [e|r] eqn:Hr; [apply HE|].
  rewrite wp_bind. eapply wp_mono; [apply http_Do_spec| |].
  - intros [code [e|body]] w' [Hx _]; rewrite wp_bind, wp_of_sum; cbn.
    + by apply (HQ r _ w' eq_refl Hx).
    + by apply (HQ r _ w' eq_refl Hx).
  - intros e w' [Hx _]. by apply (HQ r _ w' eq_refl Hx).
Qed.

Lemma issued_rest urlPath method data r :
  allows graylog method urlPath → rest_request c urlPath method data = inr r → issued c graylog r.
Proof. intros Ha Hr. left. eauto. Qed.

(** A status of success. *)
Lemma accepted_status r code body want :
  code ∈ want → want ⊆ [StatusOK; StatusCreated; StatusNoContent] →
  accepted c (r, inr (mkHTTPResponse code body)).
Proof. intros Hc Hw. left. exists (mkHTTPResponse code body). split; [done|]. right; left. by apply Hw. Qed.

(** A request whose answer is checked. *)
Lemma checked_runs urlPath method data want msg :
  allows graylog method urlPath → want ⊆ [StatusOK; StatusCreated; StatusNoContent] →
  runs succeeds attempts
    ('(body, statusCode) ← Send c urlPath method data;
     expect_status want statusCode (msg body statusCode)).
Proof.
  intros Ha Hw w. rewrite wp_bind. apply Send_wp; [intros e; by apply attempts_none|].
  intros r res w' Hr Hx. pose proof (issued_rest _ _ _ _ Ha Hr) as Hi.
  assert (HE : attempts w w') by by eapply attempts_one.
  destruct res as [e|[code [e|body]]]; [done..|]. unfold expect_status.
  case_bool_decide as Hc; [|done]. rewrite wp_ret. eapply succeeds_one; [done| |done]. by eapply accepted_status.
Qed.

(** The same where the error of the request is looked at by its status code. *)
Lemma attempted_runs {B} urlPath method data want msg (k : error + string * Z → M W B) :
  allows graylog method urlPath → want ⊆ [StatusOK; StatusCreated; StatusNoContent] →
  (∀ r, runs succeeds attempts (k r)) →
  runs succeeds attempts
    (r ← attempt (Send c urlPath method data);
     expect_status want (status_of r) msg;;
     k r).
Proof.
  intros Ha Hw Hk w. rewrite wp_bind, wp_attempt.
  assert (Hno : ∀ e w', attempts w w' →
    wp (expect_status want (status_of (inl e)) msg;; k (inl e)) (λ _, succeeds w) (λ _, attempts w) w').
  { intros e w' HE. rewrite wp_bind. unfold expect_status. case_bool_decide as Hc; [|done].
    apply Hw in Hc. exfalso. revert Hc. cbn [status_of]. apply (bool_decide_unpack _). by vm_compute. }
  apply Send_wp; [intros e; apply Hno; by apply attempts_none|].
  intros r res w' Hr Hx. pose proof (issued_rest _ _ _ _ Ha Hr) as Hi.
  assert (HE : attempts w w') by by eapply attempts_one.
  destruct res as [e|[code [e|body]]]; [by intros ?; apply Hno..|].
  rewrite wp_bind. unfold expect_status. cbn [status_of]. case_bool_decide as Hc; [|done]. rewrite wp_ret.
  assert (HR : succeeds w w') by (eapply succeeds_one; [done|by eapply accepted_status|done]).
  eapply wp_mono; [apply Hk| |].
  - intros b w2 HR2. exact (transitivity HR HR2).
  - intros e w2 HE2. exact (outcome_seq _ _ _ HR HE2).
Qed.

Lemma issued_GET urlPath r : rest_request c urlPath "GET" "" = inr r → issued c graylog r.
Proof. apply issued_rest. by left. Qed.

(** Reading, with an answer. *)
Lemma GET_runs urlPath : runs succeeds attempts (GET c urlPath).
Proof.
  intros w. apply Send_wp; [intros e; by apply attempts_none|]. intros r res w' Hr Hx.
  assert (HE : attempts w w') by (eapply attempts_one; [done|by eapply issued_GET]).
  destruct res as [e|[code [e|body]]]; [done..|].
  eapply succeeds_one; [done| |by eapply issued_GET]. left. eexists. split; [done|]. left.
  by apply rest_request_method in Hr.
Qed.

(** A probe does not stop anything. *)
Lemma probe_runs urlPath : probe urlPath → runs succeeds succeeds (GET c urlPath).
Proof.
  intros Hp w. apply Send_wp; [intros e; by apply grows_by_none|]. intros r res w' Hr Hx.
  assert (HR : succeeds w w').
  { eapply succeeds_one; [done| |by eapply issued_GET]. right. eauto. }
  by destruct res as [e|[code [e|body]]].
Qed.

Lemma runs_attempts {A} (m : M W A) : runs succeeds succeeds m → runs succeeds attempts m.
Proof. apply runs_mono; [done|]. intros w w'. apply outcome_sub. Qed.

(** ** What the policy allows *)

Lemma force_update_not_only_create :
  IsForceUpdate graylog = true → IsOnlyCreate graylog = false.
Proof. unfold IsForceUpdate, IsOnlyCreate. by intros ->%String.eqb_eq. Qed.

Lemma allows_post urlPath : allows graylog "POST" urlPath.
Proof. intros _. by right; left. Qed.

Lemma allows_force method urlPath : IsForceUpdate graylog = true → allows graylog method urlPath.
Proof. intros Hf%force_update_not_only_create Ho. congruence. Qed.

Lemma allows_not_only_create method urlPath : IsOnlyCreate graylog = false → allows graylog method urlPath.
Proof. intros Hf Ho. congruence. Qed.

Lemma by_policy_runs R E m1 m2 :
  OutcomeRelations (St:=W) R E → runs R E m1 →
  (IsOnlyCreate graylog = false → runs R E m2) → runs R E (by_policy graylog m1 m2).
Proof.
  intros HRE H1' H2'. unfold by_policy. destruct (IsOnlyCreate graylog); [done|].
  case_match; [by apply H2'|apply runs_ret].
Qed.

Lemma for_range_runs m f :
  (∀ k v, runs succeeds attempts (f k v)) → runs succeeds attempts (for_range m f).
Proof. intros Hf. unfold for_range. runs. Qed.

Lemma GetRawData_runs url : runs succeeds attempts (GetRawData c url).
Proof. apply runs_bind; [apply GET_runs|]. runs. Qed.

Lemma GetData_runs url field f : runs succeeds attempts (GetData c url field f).
Proof. apply runs_bind; [apply GetRawData_runs|]. runs. Qed.
End requests.

#[export] Hint Resolve GET_runs GetRawData_runs GetData_runs : runs.

Ltac allowed :=
  first
    [ apply allows_post
    | apply allows_force; done
    | apply allows_not_only_create; done
    | apply allows_force; by match goal with Hb : _ && _ = true |- _ => apply andb_true_iff in Hb as [? ?] end
    | intros _; right; right; split; [done|]; first [by left | by right; left | right; right; by eexists] ].

Ltac wanted := apply (bool_decide_unpack _); by vm_compute.

(** The steps of [runs], with those of a manager: its requests and its choices. *)
Ltac manager_step :=
  match goal with
  | |- runs _ _ (by_policy _ _ _) => apply by_policy_runs; [apply _| |intros ?]
  | |- runs _ _ (for_range _ _) => apply for_range_runs; intros ? ?
  | |- runs _ _ (Send _ _ _ _ ≫= _) => eapply checked_runs; [allowed|wanted]
  | |- runs (grows_by _) (grows_by _) (GetRawData _ _) => unfold GetRawData
  | |- runs (grows_by _) (grows_by _) (GET _ _) =>
      apply probe_runs; first [by left | right; left; by eexists | right; right; by eexists]
  | _ => runs_step
  end.
Ltac manager := unfold PUT, POST, DELETE; repeat manager_step.

(** ** The managers *)

Section managers.
Context {W : Type} `{SystemLaws W, !KubeClientLaws W, !BodiesRead W, Encodings, Externals}.
Variable c : GraylogConnector.
Variable cr : LoggingService.
Variable graylog : Graylog.

Abbreviation sends m := (runs (grows_by (completed (W:=W) c cr graylog))
  (breaks_off (completed (W:=W) c cr graylog) (interrupted (W:=W) c cr graylog)) m).

Lemma ManageAuthHeaderConfig_sends : sends (ManageAuthHeaderConfig c cr).
Proof.
  unfold ManageAuthHeaderConfig, EnableAuthHeader, render_asset. manager.
Qed.

Lemma ManageIndexSets_sends : sends (ManageIndexSets c cr graylog).
Proof.
  unfold ManageIndexSets, GetAllIndexSets, CreateOrUpdateIndexSet, CreateIndexSet, UpdateIndexSet,
    render_asset. manager.
Qed.

Lemma grok_loop_sends needed method (path : GrokPattern → string) want verb all patterns failed :
  (∀ v, allows graylog method (path v)) → [want] ⊆ [StatusOK; StatusCreated; StatusNoContent] →
  sends (grok_loop needed (λ v config, Send c (path v) method config) want verb all patterns failed).
Proof.
  intros Ha Hw. revert failed. induction patterns as [|v patterns IH]; intros failed; cbn [grok_loop].
  { case_bool_decide; runs. }
  destruct (needed v); [|apply IH]. eapply attempted_runs; [apply Ha|apply Hw|]. intros r. apply IH.
Qed.

Lemma ManageGrokPatterns_sends : sends (ManageGrokPatterns c cr graylog).
Proof.
  unfold ManageGrokPatterns, GetAllGrokPatterns, CreateOrUpdateGrokPatterns, CreateGrokPatterns,
    UpdateGrokPatterns, render_asset. manager.
  - apply (grok_loop_sends _ "POST" (λ _, grokUrl)); [intros v; allowed|wanted].
  - apply (grok_loop_sends _ "PUT" (λ v, grokUrl +:+ "/" +:+ GrokPattern_Id v)); [intros v; allowed|wanted].
Qed.

Lemma ManageInputs_sends : sends (ManageInputs c cr graylog).
Proof.
  unfold ManageInputs, GetAllInputs, CreateOrUpdateDefaultInput, CreateDefaultInput, UpdateDefaultInput,
    render_asset. manager.
Qed.

Lemma ManageExtractors_sends : sends (ManageExtractors c cr graylog).
Proof.
  unfold ManageExtractors, GetAllInputs, GetAllExtractors, CreateOrUpdateExtractors, CreateExtractors,
    UpdateAllExtractors, CreateExtractor, UpdateExtractor, DeleteExtractor,
    UpdateMessageProcessorsOrder, render_asset. manager.
Qed.

Lemma ManageStreams_sends : sends (ManageStreams c graylog).
Proof.
  unfold ManageStreams, GetAllStreams, GetAllIndexSets, CreateOrUpdateStreams, CreateStreams,
    UpdateStreams, UpdateOrCreateStream, OnlyCreateStream, CreateStream, UpdateStream, ResumeStreams,
    ResumeStreamByTitle, ResumeStream. manager.
Qed.

Lemma ManageProcessingRules_sends : sends (ManageProcessingRules c graylog).
Proof.
  unfold ManageProcessingRules, GetAllProcessingRules, CreateOrUpdateProcessingRules,
    CreateProcessingRules, UpdateProcessingRules, GetAllStreams, CreateOrUpdateRules, OnlyCreateRules,
    CreateRuleData, CreateRule, UpdateRule, render_asset. manager.
Qed.

Lemma ManagePipelines_sends : sends (ManagePipelines c cr graylog).
Proof.
  unfold ManagePipelines, GetAllPipelines, CreateOrUpdatePipelines, UpdatePipeline, CreatePipeline,
    ConnectPipeline, GetAllStreams, render_asset. manager.
Qed.

Lemma ManageDashboards_sends : sends (ManageDashboards c cr graylog).
Proof.
  unfold ManageDashboards, DeleteDefaultContentPack, UploadDefaultContentPack, InstallDefaultContentPack,
    render_asset. manager.
Qed.

Lemma download_sends {A} client url header body (f : HTTPRequest → HTTPRequest) (k : HTTPResponse → M W A) :
  (∀ r, HTTPRequest_Method (f r) = HTTPRequest_Method r) → (∀ resp, sends (k resp)) →
  sends (request ← of_sum (NewRequest "GET" url header body);
         response ← http_Do client (f request);
         k response).
Proof.
  intros Hf Hk w. rewrite wp_bind, wp_of_sum. destruct (NewRequest _ _ _ _) as [e|r] eqn:Hr.
  { by apply attempts_none. }
  apply NewRequest_method in Hr. rewrite wp_bind.
  assert (Hm : HTTPRequest_Method (f r) = "GET") by by rewrite Hf.
  eapply wp_mono; [apply http_Do_spec| |].
  - intros resp w' [Hx _].
    assert (HR : grows_by (completed (W:=W) c cr graylog) w w').
    { eapply succeeds_one; [exact Hx| |by right; right]. left. exists resp. auto. }
    eapply wp_mono; [apply Hk| |].
    + intros a w2 HR2. exact (transitivity HR HR2).
    + intros e w2 HE2. exact (outcome_seq _ _ _ HR HE2).
  - intros e w' [Hx _]. eapply attempts_one; [exact Hx|]. by right; right.
Qed.

Lemma DownloadFile_sends url name : sends (DownloadFile url name).
Proof.
  unfold DownloadFile. apply runs_bind; [runs|intros []]. apply runs_bind; [runs|intros u].
  apply (download_sends _ _ _ _ id); [done|]. intros resp. runs.
Qed.

Lemma DownloadFileTLS_sends item name ns : sends (DownloadFileTLS item name ns).
Proof.
  unfold DownloadFileTLS. apply runs_bind; [runs|intros []]. apply runs_bind; [runs|intros [user conf]].
  apply runs_bind; [runs|intros u].
  apply (download_sends _ _ _ _ (SetAuthHeader _)); [apply SetAuthHeader_method|]. intros resp. runs.
Qed.

Lemma unzip_file_sends dest f : sends (unzip_file dest f).
Proof. unfold unzip_file. runs. Qed.

Lemma unzip_files_sends dest files names : sends (unzip_files dest files names).
Proof.
  revert names. induction files as [|f files IH]; intros names; cbn [unzip_files]; [runs|].
  apply runs_bind; [apply unzip_file_sends|]. intros p. apply IH.
Qed.

Lemma unpack_download_sends name : sends (unpack_download name).
Proof. unfold unpack_download, Unzip. runs. apply unzip_files_sends. Qed.

Lemma for_each_file_sends dir f : (∀ name, sends (f name)) → sends (for_each_file dir f).
Proof. intros Hf. unfold for_each_file. runs. Qed.

Lemma SendRequestToOpenSearch_sends method url data : sends (SendRequestToOpenSearch c method url data).
Proof.
  intros w. unfold SendRequestToOpenSearch. rewrite wp_bind, wp_of_sum.
  destruct (opensearch_request c method url data) as [e|r] eqn:Hr; [by apply attempts_none|].
  assert (Hi : issued c graylog r) by (right; left; eauto).
  rewrite wp_bind. eapply wp_mono; [eapply wp_conj; [apply http_Do_spec|apply body_read]| |].
  - intros resp w' [[Hx _] [body Hb]]. rewrite Hb.
    destruct (Z.leb_spec 400 (HTTPResponse_StatusCode resp)) as [Hle|Hlt].
    + rewrite wp_fail. by eapply attempts_one.
    + rewrite wp_ret. eapply succeeds_one; [exact Hx| |done]. left. exists resp. split; [done|].
      right; right. by exists method, url, data.
  - intros e w' [[Hx _] _]. by eapply attempts_one.
Qed.
End managers.

#[export] Hint Resolve DownloadFile_sends DownloadFileTLS_sends unpack_download_sends
  SendRequestToOpenSearch_sends : runs.

Section uploads.
Context {W : Type} `{SystemLaws W, !KubeClientLaws W, !BodiesRead W, Encodings, Externals}.
Variable c : GraylogConnector.
Variable cr : LoggingService.
Variable graylog : Graylog.

Abbreviation sends m := (runs (grows_by (completed (W:=W) c cr graylog))
  (breaks_off (completed (W:=W) c cr graylog) (interrupted (W:=W) c cr graylog)) m).

Lemma UploadContentPacks_sends : sends (UploadContentPacks c cr).
Proof. apply for_each_file_sends. intros name. unfold UploadContentPack, render_local, ReadFile. manager. Qed.

Lemma ManageContentPacks_sends : sends (ManageContentPacks c cr graylog).
Proof. unfold ManageContentPacks. manager. apply UploadContentPacks_sends. Qed.

Lemma ManageContentPackTLS_sends :
  Forall is_Some (default [] (Graylog_ContentPacks graylog)) → sends (ManageContentPackTLS c cr graylog).
Proof.
  intros Hs. unfold ManageContentPackTLS. apply runs_bind; [|intros _; apply UploadContentPacks_sends].
  apply runs_for_each. intros item Hin. rewrite Forall_forall in Hs. destruct (Hs item Hin) as [p ->].
  apply runs_bind; [exact (runs_ret p)|]. manager.
Qed.

Lemma ManageOpensearchConfigs_sends : sends (ManageOpensearchConfigs c cr).
Proof.
  unfold ManageOpensearchConfigs. apply runs_for_each. intros dir _. apply for_each_file_sends.
  intros name. unfold UploadConfig, render_local, ReadFile. manager.
Qed.

Lemma ManageArchivesDirectory_sends : sends (ManageArchivesDirectory c cr graylog).
Proof. unfold ManageArchivesDirectory, readSecretFileValue, render_asset. manager. Qed.

(** The upload of a view, after [xs]. *)
Lemma view_uploaded data name xs w w1 :
  exchanged w1 = exchanged w ++ xs →
  wp ('(_, statusCode) ← POST c "views" data;
      expect_status [StatusOK; StatusCreated] statusCode ("can't upload view " +:+ name))
    (λ _ w', ∃ r3 resp3, exchanged w' = exchanged w ++ xs ++ [(r3, inr resp3)] ∧
       rest_request c "views" "POST" data = inr r3 ∧ HTTPResponse_StatusCode resp3 ∈ [StatusOK; StatusCreated])
    (λ _ w', exchanged w' = exchanged w ++ xs ∨
       ∃ r3 res3, exchanged w' = exchanged w ++ xs ++ [(r3, res3)] ∧ rest_request c "views" "POST" data = inr r3) w1.
Proof.
  intros Hx1. unfold POST. rewrite wp_bind. apply Send_wp; [by left|]. intros r res w' Hr Hx.
  rewrite Hx1, <- app_assoc in Hx. destruct res as [e|[code [e|body]]]; [intros ?; right; eauto..|].
  unfold expect_status. case_bool_decide; [rewrite wp_ret|right; eauto]. by exists r, (mkHTTPResponse code (inr body)).
Qed.

(** A view is uploaded, in place of the one with its id. *)
Lemma view_replaced_sends data name :
  view_file (W:=W) cr data →
  sends (delete_same_view c data;;
    '(_, statusCode) ← POST c "views" data;
    expect_status [StatusOK; StatusCreated] statusCode ("can't upload view " +:+ name)).
Proof.
  intros Hfile. unfold delete_same_view.
  destruct (find_view_id data) as [viewId|] eqn:Hid; [|manager].
  unfold GetAllViews, GetData, GetRawData, GET. intros w. rewrite !wp_bind.
  apply Send_wp; [intros e; by apply attempts_none|]. intros r1 res1 w1 Hr1 Hx1.
  assert (HE1 : breaks_off (completed (W:=W) c cr graylog) (interrupted (W:=W) c cr graylog) w w1)
    by (eapply attempts_one; [exact Hx1|by eapply issued_GET]).
  destruct res1 as [e|[code [e|body]]]; [done..|]. rewrite wp_ret, wp_of_sum. cbn [negb String.eqb id].
  destruct (unmarshal_field decode_Entity body "views") as [e|views] eqn:Hviews; [done|].
  assert (HR1 : grows_by (completed (W:=W) c cr graylog) w w1).
  { eapply succeeds_one; [exact Hx1| |by eapply issued_GET]. left. eexists. split; [done|]. left.
    by apply rest_request_method in Hr1. }
  destruct (FindById views viewId) eqn:Hfind.
  2: { rewrite wp_ret. eapply wp_mono; [apply checked_runs; [apply allows_post|wanted]| |].
       - intros [] w' HR'. exact (transitivity HR1 HR').
       - intros e w' HE'. exact (outcome_seq _ _ _ HR1 HE'). }
  unfold DELETE. rewrite wp_bind. apply Send_wp; [done|]. intros r2 res2 w2 Hr2 Hx2.
  rewrite Hx1, <- app_assoc in Hx2. cbn [app] in Hx2.
  assert (Hdel : ∀ after, (after = [] ∨ ∃ resp2, res2 = inr resp2) → deletes_view (W:=W) c cr data after
    ((r1, inr (mkHTTPResponse code (inr body))) :: (r2, res2) :: after)).
  { intros after Hafter. exists viewId, r1, (mkHTTPResponse code (inr body)), body, views, r2, res2. by split_and!. }
  assert (HE2 : ∀ w', exchanged w' = exchanged w ++ [(r1, inr (mkHTTPResponse code (inr body))); (r2, res2)] →
    breaks_off (completed (W:=W) c cr graylog) (interrupted (W:=W) c cr graylog) w w').
  { intros w' Hx'. eapply breaks_off_group; [exact Hx'|]. right. exists data. left. apply Hdel. by left. }
  destruct res2 as [e|[code2 [e|body2]]]; [intros ?; by apply HE2..|]. rewrite wp_ret.
  eapply wp_mono; [by apply view_uploaded| |].
  - intros [] w' (r3 & resp3 & Hx3 & Hr3 & Hc). eapply grows_by_group; [exact Hx3|]. right.
    exists data, r3, resp3. split_and!; [apply Hdel; eauto|done..].
  - intros e w' [Hx3|(r3 & res3 & Hx3 & Hr3)]; [by apply HE2|]. eapply breaks_off_group; [exact Hx3|]. right.
    exists data. right. exists r3, res3. split; [apply Hdel; eauto|done].
Qed.

Lemma UploadCustomSavedSearch_sends name : sends (UploadCustomSavedSearch c cr name).
Proof.
  intros w. unfold UploadCustomSavedSearch. rewrite wp_bind.
  set (path := Filepath.Join [dataDir; savedSearchesDir; name]).
  assert (Hread : sends (render_local (W:=W) cr path)) by (unfold render_local, ReadFile; manager).
  specialize (Hread w). unfold wp in *. destruct (render_local cr path w) as [w1 [data|e|]] eqn:Hdata; [|done..].
  assert (Hrest : sends (if HasSuffix name "search.json" then
    '(_, statusCode) ← POST c "views/search" data;
    expect_status [StatusCreated] statusCode ("can't upload saved-search " +:+ name)
  else if HasSuffix name "view.json" then
    delete_same_view c data;;
    '(_, statusCode) ← POST c "views" data;
    expect_status [StatusOK; StatusCreated] statusCode ("can't upload view " +:+ name)
  else fail (errors_New ("Incorrect filename of saved-search: " +:+ name)))).
  { destruct (HasSuffix name "search.json"); [manager|].
    destruct (HasSuffix name "view.json") eqn:Hview; [|runs]. apply view_replaced_sends. by exists name, w, w1. }
  specialize (Hrest w1). unfold wp in Hrest. revert Hrest. generalize ((if HasSuffix name "search.json" then
    '(_, statusCode) ← POST c "views/search" data;
    expect_status [StatusCreated] statusCode ("can't upload saved-search " +:+ name)
  else if HasSuffix name "view.json" then
    delete_same_view c data;;
    '(_, statusCode) ← POST c "views" data;
    expect_status [StatusOK; StatusCreated] statusCode ("can't upload view " +:+ name)
  else fail (errors_New ("Incorrect filename of saved-search: " +:+ name))) w1).
  intros [w2 [[]|e|]]; [|..]; try done.
  - intros HR2. exact (transitivity Hread HR2).
  - intros HE2. exact (outcome_seq _ _ _ Hread HE2).
Qed.

Lemma ManageSavedSearches_sends : sends (ManageSavedSearches c cr graylog).
Proof.
  unfold ManageSavedSearches, CreateOrUpdateSavedSearches, CreateSavedSearches,
    UpdateOrCreateSavedSearches, CreateViews, CreateSearch, CreateView, UpdateOrCreateSearch, Upload,
    render_asset, ManageCustomSavedSearches. manager.
  apply for_each_file_sends. apply UploadCustomSavedSearch_sends.
Qed.

Lemma ManageUserAccounts_sends : sends (ManageUserAccounts c cr graylog).
Proof.
  unfold ManageUserAccounts, CreateOrUpdateRoles, CreateOrUpdateUsers, CreateOperatorData,
    CreateAuditViewerData, GetAllStreams, required_id, CreateOrUpdateRole, CreateOrUpdateUser,
    create_or_update_account, GetRole, GetUser, CreateRole, CreateUser, UpdateRole, UpdateUser,
    GetUserIdByName, GetAllUsers, render_asset. manager.
Qed.
End uploads.

#[export] Hint Resolve ManageAuthHeaderConfig_sends ManageGrokPatterns_sends ManageIndexSets_sends
  ManageInputs_sends ManageExtractors_sends ManageStreams_sends ManageProcessingRules_sends
  ManagePipelines_sends ManageDashboards_sends ManageContentPacks_sends ManageContentPackTLS_sends
  ManageOpensearchConfigs_sends ManageArchivesDirectory_sends ManageSavedSearches_sends
  ManageUserAccounts_sends : runs.

(** ** [configureGraylog] *)

(** The parts of the custom resource that [configureGraylog] dereferences are there. *)
Definition can_configure (graylog : Graylog) : bool :=
  bool_decide (is_Some (Graylog_AuthProxy graylog) ∧
               Forall is_Some (default [] (Graylog_ContentPacks graylog))).

Section configure.
Context {W : Type} `{SystemLaws W, !KubeClientLaws W, !BodiesRead W, Encodings, Externals}.

Lemma configureGraylog_sends c cr graylog :
  can_configure graylog = true →
  runs (grows_by (completed (W:=W) c cr graylog))
    (breaks_off (completed (W:=W) c cr graylog) (interrupted (W:=W) c cr graylog))
    (configureGraylog c cr graylog : M W unit).
Proof.
  intros [[proxy Hp] Hs]%bool_decide_eq_true. unfold configureGraylog. rewrite Hp.
  apply runs_bind; [exact (runs_ret proxy)|]. intros p.
  manager.
Qed.
End configure.

(** ** Properties *)

(** A request that is not to Graylog, or only adds content to it. *)
Definition adds `{Encodings} (c : GraylogConnector) (x : exchange) : Prop :=
  HTTPRequest_Method x.1 = "GET" ∨
  (∃ method urlPath data, opensearch_request c method urlPath data = inr x.1) ∨
  (∃ method urlPath data, rest_request c urlPath method data = inr x.1 ∧ creates method urlPath).

Lemma issued_adds `{Encodings} c graylog (x : exchange) :
  IsOnlyCreate graylog = true → issued c graylog x.1 → adds c x.
Proof.
  intros Ho [(m & u & d & Hr & Ha)|[Hos|Hg]]; [|by right; left|by left].
  right; right. exists m, u, d. split; [done|by apply Ha].
Qed.

(** C4: under the policy "only-create" the operator only adds content.  Everything that
    [configureGraylog] exchanges, whether it succeeds or fails, is one of these: a request that
    reads, or goes to OpenSearch, or creates (a POST), or sets one of the configurations
    that the operator owns (a PUT of the authentication header, of the order of the message
    processors or of an index set); or the replacement of a view: Graylog is asked for its views,
    the listed one whose id is in a view file of the administrator is deleted, and that
    file is uploaded right after, unless the deletion had no answer or the upload failed, which
    ends the run.  So there is no other DELETE and no other PUT in Graylog.  Assumed is that the
    custom resource has an AuthProxy and no null content pack, which the code dereferences, and
    that the bodies of responses can be read. *)
Theorem configureGraylog_only_creates {W}
    `{SystemLaws W, !KubeClientLaws W, !BodiesRead W, Encodings, Externals} c cr graylog (w : W) :
  can_configure graylog = true → IsOnlyCreate graylog = true →
  let done xs := single (adds c) xs ∨ replaces_view (W:=W) c cr xs in
  let last xs := single (adds c) xs ∨ replacement_fails (W:=W) c cr xs in
  wp (configureGraylog c cr graylog) (λ _, grows_by done w) (λ _, breaks_off done last w) w.
Proof.
  intros Hcan Ho done last.
  assert (Hone : ∀ P, (∀ x, P x → issued c graylog x.1) → ∀ xs, single P xs → single (adds c) xs).
  { intros P HP xs (x & -> & Hx). exists x. split; [reflexivity|]. eapply issued_adds; [exact Ho|by apply HP]. }
  assert (Hc : ∀ xs, completed (W:=W) c cr graylog xs → done xs).
  { intros xs [Hx|Hx]; [left|by right]. eapply Hone; [|exact Hx]. by intros x [_ ?]. }
  eapply wp_mono; [by apply configureGraylog_sends| |].
  - intros [] w'. by apply grows_by_mono.
  - intros e w'. apply breaks_off_mono; [exact Hc|]. intros xs [Hx|Hx]; [left|by right]. by eapply Hone; [|exact Hx].
Qed.

(** C5: a refused request is never passed over.  When [configureGraylog] succeeds, every
    request that it sent was accepted: Graylog answered 200, 201 or 204 and OpenSearch a status
    below 400; of a GET, only that there was an answer, and not even that when it asks for
    the roles or users.  The only other requests are the deletions of views: each is that of a
    listed view whose id is in a view file of the administrator, had an answer of any
    status, and was followed at once by the upload of that file, which was accepted.  Assumed is
    that the custom resource has an AuthProxy and no null content pack, and that the bodies of
    responses can be read. *)
Theorem configureGraylog_accepted {W}
    `{SystemLaws W, !KubeClientLaws W, !BodiesRead W, Encodings, Externals} c cr graylog (w : W) :
  can_configure graylog = true →
  wp (configureGraylog c cr graylog)
    (λ _, grows_by (λ xs, single (accepted c) xs ∨ replaces_view (W:=W) c cr xs) w) (λ _ _, True) w.
Proof.
  intros Hcan. eapply wp_mono; [by apply configureGraylog_sends| |done].
  intros [] w'. apply grows_by_mono. intros xs [(x & -> & Ha & _)|Hx]; [left; by exists x|by right].
Qed.

(** ** Witnesses *)

(** Encodings for paths without escapes and for the two texts that the server sends. *)
Definition example_entities : JSON :=
  JArray ((λ t, JObject [("id", JString ("id of " +:+ t)); ("title", JString t)]) <$>
    [GraylogDefaultIndexSet; "input-0"; GraylogDefaultStream; GraylogAuditStream; GraylogSystemStream;
     GraylogKubernetesEventsStream; "All events"; "All system events"; "Sources by Service"]).

Definition example_answer : JSON :=
  JObject [("patterns", JArray []); ("content_packs", JArray []); ("index_sets", example_entities);
    ("inputs", example_entities); ("extractors", JArray []); ("streams", example_entities);
    ("views", JArray []); ("elements", example_entities); ("users", JArray [])].

Definition example_encodings : Encodings := {|
  url_Parse s := inr (zero <| URL_Path := s |>);
  URL_String := URL_Path;
  ResolveReference base u := zero <| URL_Path := URL_Path base +:+ URL_Path u |>;
  url_JoinPath base path := inr (base +:+ "/" +:+ path);
  json_Unmarshal text := inr (if String.eqb text "list" then JArray [] else example_answer);
  json_Marshal v := "body";
  json_float64 n := inr n;
  base64_EncodeToString s := s;
  AppendCertsFromPEM pem := true;
  X509KeyPair cert key := None;
|}.

(** A Graylog with one index set, one input and the streams of the operator, and without
    the roles and the users. *)
Definition example_server (r : HTTPRequest) : error + HTTPResponse :=
  let url := HTTPRequest_URL r in
  let code :=
    if String.eqb (HTTPRequest_Method r) "GET" then
      if Contains url "/roles/" || Contains url "/users/" then StatusNotFound else StatusOK
    else if String.eqb (HTTPRequest_Method r) "PUT" then StatusOK
    else if HasSuffix url "/resume" then StatusNoContent
    else if Contains url "pipelines" || Contains url "installations" || Contains url "index_sets"
    then StatusOK else StatusCreated in
  inr (mkHTTPResponse code (inr (if Contains url "system/pipelines" then "list" else "lists"))).

Definition example_world : Mem := zero <| Mem_reply := example_server |>.

Definition example_graylog : Graylog :=
  zero <| Graylog_GraylogSecretName := "graylog-secret" |>
       <| Graylog_ContentDeployPolicy := "only-create" |>
       <| Graylog_TLS := Some (zero <| GraylogTLS_HTTP := Some zero |>) |>
       <| Graylog_AuthProxy := Some zero |>
       <| Graylog_OpenSearch := Some (mkOpenSearch (Some zero) "http://os:9200") |>.

Definition example_graylog_cr : LoggingService :=
  zero <| LoggingService_ObjectMeta := named "cr" "ns" |>
       <| LoggingService_Spec := zero <| LoggingServiceSpec_Graylog := Some example_graylog |> |>.

Definition example_connector : GraylogConnector :=
  let client := mkHTTPClient None (10 * Second) false in
  let auth := Some (mkCreds "admin" "abc" "") in
  mkGraylogConnector (mkRestClient client auth "graylog-service.ns.svc:9000/api/")
    (mkRestClient client auth "http://os:9200") example_fs (GetStreams example_graylog) false.

#[local] Existing Instances example_externals example_encodings.

Lemma configureGraylog_only_creates_witness :
  let w' := (configureGraylog example_connector example_graylog_cr example_graylog example_world).1 in
  ∃ xss, exchanged w' = concat xss ∧ length (concat xss) = 55 ∧ Forall (λ xs,
    single (adds example_connector) xs ∨ replaces_view (W:=Mem) example_connector example_graylog_cr xs) xss.
Proof.
  intros w'. assert (Hl : length (exchanged w') = 55) by (vm_compute; reflexivity).
  run_theorem (configureGraylog_only_creates example_connector example_graylog_cr example_graylog
    example_world eq_refl eq_refl) tt Hw.
  destruct Hw as (xss & Hx & Hf). change (exchanged example_world ++ concat xss) with (concat xss) in Hx.
  exists xss. split; [exact Hx|]. split; [|exact Hf]. exact (eq_trans (f_equal length (eq_sym Hx)) Hl).
Defined.

Lemma configureGraylog_accepted_witness :
  let w' := (configureGraylog example_connector example_graylog_cr example_graylog example_world).1 in
  ∃ xss, exchanged w' = concat xss ∧ Forall (λ xs,
    single (accepted example_connector) xs ∨ replaces_view (W:=Mem) example_connector example_graylog_cr xs) xss.
Proof.
  intros w'.
  run_theorem (configureGraylog_accepted example_connector example_graylog_cr example_graylog
    example_world eq_refl) tt Hw.
  destruct Hw as (xss & Hx & Hf). change (exchanged example_world ++ concat xss) with (concat xss) in Hx.
  exists xss. split; [exact Hx|exact Hf].
Defined.
