(* ===== verification/GraylogManaged.v ===== *)
(** * What the managers leave in Graylog

    What Graylog was asked and answered when a manager of GraylogContent succeeds: the
    index sets, the streams and the processing rules. *)

From S2P Require Import Prelude GoStrings KubeTypes Api Net Client System Operator.
From S2P Require Import GraylogStreams.
From S2P Require Import Files ComponentRun Certificates Rest GraylogRest GraylogContent.
From S2P Require Import GraylogRequests.

(** ** Answers *)

Section answers.
Context {W : Type} `{SystemLaws W, !KubeClientLaws W, Encodings, Externals}.
Variable c : GraylogConnector.
Implicit Types (w : W).

(** Exchanges were added. *)
Abbreviation grows := (extends (λ _ : exchange, True)).

(** Between [w] and [w'] Graylog answered the request with one of the statuses. *)
Definition answered (method urlPath data : string) (want : list Z) w w' : Prop :=
  ∃ xs r resp, exchanged w' = exchanged w ++ xs ∧ (r, inr resp) ∈ xs ∧
    rest_request c urlPath method data = inr r ∧ HTTPResponse_StatusCode resp ∈ want.

(** The entities of an answer: those of a field, or the whole answer. *)
Definition decode_entities (field body : string) : error + list Entity :=
  if negb (String.eqb field "") then unmarshal_field decode_Entity body field
  else unmarshal_slice decode_Entity body.

(** Between [w] and [w'] Graylog listed the entities. *)
Definition listed (urlPath field : string) (es : list Entity) w w' : Prop :=
  ∃ xs r code body, exchanged w' = exchanged w ++ xs ∧
    (r, inr (mkHTTPResponse code (inr body))) ∈ xs ∧ rest_request c urlPath "GET" "" = inr r ∧
    decode_entities field body = inr es.

(** What happened in a part of a run happened in the run. *)
Lemma happened_part (x : exchange) w0 w1 w2 w3 :
  grows w0 w1 → grows w2 w3 → (∃ xs, exchanged w2 = exchanged w1 ++ xs ∧ x ∈ xs) →
  ∃ xs, exchanged w3 = exchanged w0 ++ xs ∧ x ∈ xs.
Proof.
  intros (xs & Hx & _) (zs & Hz & _) (ys & Hy & Hin). exists (xs ++ ys ++ zs).
  rewrite Hz, Hy, Hx, <- !app_assoc. split; [done|]. rewrite !elem_of_app. auto.
Qed.

Lemma answered_part method urlPath data want w0 w1 w2 w3 :
  grows w0 w1 → grows w2 w3 → answered method urlPath data want w1 w2 →
  answered method urlPath data want w0 w3.
Proof.
  intros H01 H23 (xs & r & resp & Hx & Hin & Hr).
  destruct (happened_part (r, inr resp) w0 w1 w2 w3) as (ys & Hy & Hin'); [done|done|by exists xs|].
  by exists ys, r, resp.
Qed.

Lemma listed_part urlPath field es w0 w1 w2 w3 :
  grows w0 w1 → grows w2 w3 → listed urlPath field es w1 w2 → listed urlPath field es w0 w3.
Proof.
  intros H01 H23 (xs & r & code & body & Hx & Hin & Hr).
  destruct (happened_part (r, inr (mkHTTPResponse code (inr body))) w0 w1 w2 w3) as (ys & Hy & Hin');
    [done|done|by exists xs|]. by exists ys, r, code, body.
Qed.

(** A checked request was answered when it returns. *)
Lemma checked_answered urlPath method data want msg w :
  wp ('(body, statusCode) ← Send c urlPath method data;
      expect_status want statusCode (msg body statusCode))
    (λ _ w', grows w w' ∧ answered method urlPath data want w w') (λ _ w', grows w w') w.
Proof.
  rewrite wp_bind. apply Send_wp; [intros e; by apply extends_none|]. intros r res w' Hr Hx.
  assert (HE : grows w w') by by eapply extends_one.
  destruct res as [e|[code [e|body]]]; [done..|]. unfold expect_status.
  case_bool_decide; [|done]. rewrite wp_ret. split; [done|].
  exists [(r, inr (mkHTTPResponse code (inr body)))], r, (mkHTTPResponse code (inr body)).
  split_and!; [done|by left|done|done].
Qed.

(** [GetData] returns what Graylog listed. *)
Lemma GetData_listed urlPath field w :
  wp (GetData c urlPath field id) (λ es w', grows w w' ∧ listed urlPath field es w w')
    (λ _ w', grows w w') w.
Proof.
  unfold GetData, GetRawData. rewrite !wp_bind.
  apply Send_wp; [intros e; by apply extends_none|]. intros r res w' Hr Hx.
  assert (HE : grows w w') by by eapply extends_one.
  destruct res as [e|[code [e|body]]]; [done..|]. cbn beta iota.
  rewrite wp_ret, wp_of_sum. fold (decode_entities field (id body)).
  destruct (decode_entities field (id body)) as [e|es] eqn:Hes; [done|]. split; [done|].
  exists [(r, inr (mkHTTPResponse code (inr body)))], r, code, body. split_and!; [done|by left|done|done].
Qed.

(** What the body does for each entry holds of all when the loop returns. *)
Lemma for_range_answered (m : smap) f (P : string → string → relation W) w :
  (∀ k v w0 w1 w2 w3, grows w0 w1 → grows w2 w3 → P k v w1 w2 → P k v w0 w3) →
  (∀ k v w, wp (f k v) (λ _ w', grows w w' ∧ P k v w w') (λ _ w', grows w w') w) →
  wp (for_range m f) (λ _ w', grows w w' ∧ ∀ k v, m !! k = Some v → P k v w w') (λ _ w', grows w w') w.
Proof.
  intros HP Hf. unfold for_range. rewrite wp_bind. eapply wp_mono; [apply range_map_spec| |done].
  intros kvs w1 [[Hx _] Hperm].
  assert (Hall : ∀ kvs w, wp (for_each kvs (λ kv, f kv.1 kv.2))
    (λ _ w', grows w w' ∧ ∀ kv, kv ∈ kvs → P kv.1 kv.2 w w') (λ _ w', grows w w') w).
  { clear -HP Hf. induction kvs as [|kv kvs IH]; intros w; cbn [for_each].
    - rewrite wp_ret. split; [reflexivity|]. by intros kv ?%elem_of_nil.
    - rewrite wp_bind. eapply wp_mono; [apply Hf| |done]. intros [] w1 [H1' HP1].
      eapply wp_mono; [apply IH| |]; [|intros e w2 H2'; by etrans].
      intros [] w2 [H2' HP2]. split; [by etrans|]. intros kv' [->|Hin]%elem_of_cons.
      + by eapply HP; [reflexivity| |].
      + eapply HP; [done|reflexivity|by apply HP2]. }
  assert (H0' : grows w w1) by by apply extends_none.
  eapply wp_mono; [apply Hall| |]; [|intros e w2 H2'; by etrans].
  intros [] w2 [H2' HP2]. split; [by etrans|]. intros k v Hk.
  eapply HP; [done|reflexivity|]. apply (HP2 (k, v)). rewrite Hperm. by apply elem_of_map_to_list.
Qed.
End answers.

(** ** The streams *)

Section streams.
Context {W : Type} `{SystemLaws W, !KubeClientLaws W, Encodings, Externals}.
Variable c : GraylogConnector.
Variable graylog : Graylog.
Implicit Types (w : W).

Abbreviation grows := (extends (λ _ : exchange, True)).

Definition stream_body (title index : string) (indexSets : list Entity) : string :=
  CreateStreamBody (map_value GraylogStreamsDescriptions title) title indexSets index.

(** The stream of a title that was not listed was created, unless the policy is neither of
    the two; one that was listed was updated under the policy that forces updates. *)
Definition stream_managed (streams indexSets : list Entity) (title index : string) w w' : Prop :=
  let id := GetIdByTitle streams title in
  (id = "" → IsOnlyCreate graylog || IsForceUpdate graylog = true →
     answered c "POST" "streams/" (stream_body title index indexSets) [StatusCreated] w w') ∧
  (id ≠ "" → IsForceUpdate graylog = true →
     answered c "PUT" ("streams/" +:+ id) (stream_body title index indexSets) [StatusOK] w w').

Lemma stream_managed_part streams indexSets title index w0 w1 w2 w3 :
  grows w0 w1 → grows w2 w3 → stream_managed streams indexSets title index w1 w2 →
  stream_managed streams indexSets title index w0 w3.
Proof. intros H01 H23 [Hc Hu]. split; intros; eapply answered_part; eauto. Qed.

Lemma OnlyCreateStream_wp streams indexSets title index w :
  wp (OnlyCreateStream c streams indexSets index (map_value GraylogStreamsDescriptions title) title)
    (λ _ w', grows w w' ∧ (GetIdByTitle streams title = "" →
       answered c "POST" "streams/" (stream_body title index indexSets) [StatusCreated] w w'))
    (λ _ w', grows w w') w.
Proof.
  unfold OnlyCreateStream. rewrite wp_when. destruct (String.eqb_spec (GetIdByTitle streams title) "").
  - eapply wp_mono; [apply (checked_answered c "streams/" "POST")| |done]. by intros [] w' [??].
  - by split; [reflexivity|].
Qed.

Lemma CreateOrUpdateStreams_wp streams indexSets w :
  wp (CreateOrUpdateStreams c graylog streams indexSets)
    (λ _ w', grows w w' ∧ ∀ title index, stream_to_index c !! title = Some index →
       stream_managed streams indexSets title index w w')
    (λ _ w', grows w w') w.
Proof.
  unfold CreateOrUpdateStreams, by_policy. destruct (IsOnlyCreate graylog) eqn:Ho.
  - unfold CreateStreams. apply for_range_answered; [by intros; eapply stream_managed_part|].
    intros title index w1. eapply wp_mono; [apply OnlyCreateStream_wp| |done].
    intros [] w2 [Hg Hc]. split; [done|]. split; [by auto|]. intros _ Hf.
    apply force_update_not_only_create in Hf. congruence.
  - destruct (IsForceUpdate graylog) eqn:Hf.
    + unfold UpdateStreams. apply for_range_answered; [by intros; eapply stream_managed_part|].
      intros title index w1. unfold UpdateOrCreateStream, stream_managed.
      destruct (String.eqb_spec (GetIdByTitle streams title) "") as [He|Hne]; cbn [negb].
      * eapply wp_mono; [apply OnlyCreateStream_wp| |done]. intros [] w2 [Hg Hc].
        split; [done|]. split; [by auto|done].
      * eapply wp_mono; [apply (checked_answered c _ "PUT")| |done]. intros [] w2 [Hg Hc].
        by split.
    + rewrite wp_ret. split; [reflexivity|]. intros title index _. split; [|by rewrite Hf].
      by rewrite Ho, Hf.
Qed.

Lemma ManageStreams_wp w :
  wp (ManageStreams c graylog)
    (λ _ w', ∃ before indexSets after w1, grows w w1 ∧
       listed c "streams" "streams" before w w1 ∧ listed c indexSetsUrl "index_sets" indexSets w w1 ∧
       listed c "streams" "streams" after w1 w' ∧
       ∀ title index, stream_to_index c !! title = Some index →
         stream_managed before indexSets title index w w1 ∧
         answered c "POST" ("streams/" +:+ GetIdByTitle after title +:+ "/resume") "" [StatusNoContent] w1 w')
    (λ _ w', grows w w') w.
Proof.
  unfold ManageStreams. rewrite wp_bind.
  eapply wp_mono; [apply GetData_listed| |done]. intros before w1 [G1 L1]. rewrite wp_bind.
  eapply wp_mono; [apply GetData_listed| |intros e w2 G2; exact (transitivity G1 G2)].
  intros indexSets w2 [G2 L2]. pose proof (transitivity G1 G2) as G02. rewrite wp_bind.
  eapply wp_mono; [apply CreateOrUpdateStreams_wp| |intros e w3 G3; exact (transitivity G02 G3)].
  intros [] w3 [G3 L3]. pose proof (transitivity G02 G3) as G03. pose proof (transitivity G2 G3) as G13.
  rewrite wp_bind.
  eapply wp_mono; [apply GetData_listed| |intros e w4 G4; exact (transitivity G03 G4)].
  intros after w4 [G4 L4]. pose proof (transitivity G03 G4) as G04.
  eapply wp_mono; [apply (for_range_answered _ _ (λ title _,
    answered c "POST" ("streams/" +:+ GetIdByTitle after title +:+ "/resume") "" [StatusNoContent]))| |].
  - intros title index w5 w6 w7 w8 ??. by apply answered_part.
  - intros title index w5. apply (checked_answered c _ "POST").
  - intros [] w5 [G5 L5]. exists before, indexSets, after, w3. split_and!; [done| | | |].
    + eapply listed_part; [reflexivity|exact G13|exact L1].
    + eapply listed_part; [exact G1|exact G3|exact L2].
    + eapply listed_part; [reflexivity|exact G5|exact L4].
    + intros title index Ht. split; [|eapply answered_part; [exact G4|reflexivity|exact (L5 _ _ Ht)]].
      eapply stream_managed_part; [exact G02|reflexivity|by apply L3].
  - intros e w5 G5. exact (transitivity G04 G5).
Qed.
End streams.

(** ** The index sets *)

Section index_sets.
Context {W : Type} `{SystemLaws W, !KubeClientLaws W, Encodings, Externals}.
Variable c : GraylogConnector.
Variable cr : LoggingService.
Variable graylog : Graylog.
Implicit Types (w : W).

Abbreviation grows := (extends (λ _ : exchange, True)).

(** What the template of an asset gives for the parameters. *)
Definition rendered_asset {P} (path : string) (parameters : P) (data : string) : Prop :=
  ParseTemplate P (MustAssetReader (Connector_Assets c) path) path parameters = inr data.

(** Graylog answered a request whose body is a rendered asset. *)
Definition sent_asset {P} (path : string) (parameters : P) (method urlPath : string) (want : list Z) w w' : Prop :=
  ∃ data, rendered_asset path parameters data ∧ answered c method urlPath data want w w'.

Lemma sent_asset_part {P} path (parameters : P) method urlPath want w0 w1 w2 w3 :
  grows w0 w1 → grows w2 w3 → sent_asset path parameters method urlPath want w1 w2 →
  sent_asset path parameters method urlPath want w0 w3.
Proof. intros H01 H23 (data & Hd & Ha). exists data. split; [done|]. by eapply answered_part. Qed.

Lemma render_asset_wp {P} path (parameters : P) (Q : string → W → Prop) E w :
  (∀ data, rendered_asset path parameters data → Q data w) → (∀ e, E e w) →
  wp (render_asset c path parameters) Q E w.
Proof.
  intros HQ HE. unfold render_asset. rewrite wp_of_sum. unfold rendered_asset in HQ.
  destruct (ParseTemplate _ _ _ _); auto.
Qed.

Lemma checked_asset {P} path (parameters : P) urlPath method want msg w :
  wp (data ← render_asset c path parameters;
      '(body, statusCode) ← Send c urlPath method data;
      expect_status want statusCode (msg body statusCode))
    (λ _ w', grows w w' ∧ sent_asset path parameters method urlPath want w w') (λ _ w', grows w w') w.
Proof.
  rewrite wp_bind. apply render_asset_wp; [|done]. intros data Hd.
  eapply wp_mono; [apply checked_answered| |done]. intros [] w' [Hg Ha]. split; [done|]. by exists data.
Qed.

(** An index set that was not listed was created; one that was listed was updated if the
    policy forces updates, and the default one always.  The default one is never created. *)
Definition index_set_managed (indexSets : list Entity) (title path : string) w w' : Prop :=
  let id := GetIdByTitle indexSets title in
  (id = "" → title ≠ GraylogDefaultIndexSet ∧
     sent_asset path (ToParams cr) "POST" indexSetsUrl [StatusOK] w w') ∧
  (id ≠ "" → IsForceUpdate graylog = true ∨ title = GraylogDefaultIndexSet →
     sent_asset path (ToParams cr) "PUT" (indexSetsUrl +:+ "/" +:+ id) [StatusOK] w w').

Lemma index_set_managed_part indexSets title path w0 w1 w2 w3 :
  grows w0 w1 → grows w2 w3 → index_set_managed indexSets title path w1 w2 →
  index_set_managed indexSets title path w0 w3.
Proof.
  intros H01 H23 [Hc Hu]. split.
  - intros He. destruct (Hc He) as [Hd Hs]. split; [done|]. by eapply sent_asset_part.
  - intros Hne Hp. eapply sent_asset_part; [exact H01|exact H23|by apply Hu].
Qed.

Lemma CreateOrUpdateIndexSet_wp indexSets path title w :
  wp (CreateOrUpdateIndexSet c cr graylog indexSets path title)
    (λ _ w', grows w w' ∧ index_set_managed indexSets title path w w') (λ _ w', grows w w') w.
Proof.
  unfold CreateOrUpdateIndexSet, index_set_managed.
  destruct (String.eqb_spec (GetIdByTitle indexSets title) "") as [He|Hne].
  - destruct (String.eqb_spec title GraylogDefaultIndexSet) as [Ht|Ht]; [by rewrite wp_fail|].
    eapply wp_mono; [apply (checked_asset path (ToParams cr) indexSetsUrl "POST")| |done].
    intros [] w' [Hg Hs]. split; [done|]. by split.
  - destruct (IsForceUpdate graylog) eqn:Hf; cbn [orb].
    + eapply wp_mono; [apply (checked_asset path (ToParams cr) _ "PUT")| |done].
      intros [] w' [Hg Hs]. split; [done|]. by split.
    + destruct (String.eqb_spec title GraylogDefaultIndexSet) as [Ht|Ht].
      * eapply wp_mono; [apply (checked_asset path (ToParams cr) _ "PUT")| |done].
        intros [] w' [Hg Hs]. split; [done|]. by split.
      * rewrite wp_ret. split; [reflexivity|]. split; [done|]. by intros _ [].
Qed.

Lemma ManageIndexSets_wp w :
  wp (ManageIndexSets c cr graylog)
    (λ _ w', ∃ indexSets, listed c indexSetsUrl "index_sets" indexSets w w' ∧
       ∀ title path, index_set_used (Connector_EnabledStreams c) title →
         GraylogIndexConfigs !! title = Some path → index_set_managed indexSets title path w w')
    (λ _ w', grows w w') w.
Proof.
  unfold ManageIndexSets. rewrite wp_bind.
  eapply wp_mono; [apply GetData_listed| |done]. intros indexSets w1 [G1 L1].
  eapply wp_mono; [apply (for_range_answered _ _ (index_set_managed indexSets))| |].
  - intros title path w2 w3 w4 w5. apply index_set_managed_part.
  - intros title path w2. apply CreateOrUpdateIndexSet_wp.
  - intros [] w2 [G2 Hall]. exists indexSets. split.
    + eapply listed_part; [reflexivity|exact G2|exact L1].
    + intros title path Hused Hpath. eapply index_set_managed_part; [exact G1|reflexivity|].
      apply Hall. by apply GetIndexSets_configs.
  - intros e w2 G2. exact (transitivity G1 G2).
Qed.
End index_sets.

(** ** The processing rules *)

Section rules.
Context {W : Type} `{SystemLaws W, !KubeClientLaws W, Encodings, Externals}.
Variable c : GraylogConnector.
Variable graylog : Graylog.
Implicit Types (w : W).

Abbreviation grows := (extends (λ _ : exchange, True)).

(** Every rule belongs to one stream. *)
Lemma rules_injective t1 t2 r :
  GraylogStreamsRules !! t1 = Some r → GraylogStreamsRules !! t2 = Some r → t1 = t2.
Proof.
  intros Ht1%elem_of_map_to_list Ht2%elem_of_map_to_list.
  assert (Hall : Forall (λ x, Forall (λ y, x.2 = y.2 → x.1 = y.1) (map_to_list GraylogStreamsRules))
                   (map_to_list GraylogStreamsRules)) by (apply (bool_decide_unpack _); by vm_compute).
  rewrite Forall_forall in Hall. specialize (Hall _ Ht1). rewrite Forall_forall in Hall.
  by apply (Hall _ Ht2).
Qed.

(** The rule of an enabled stream routes to that stream. *)
Lemma GetProcessingRules_stream s r :
  s ∈ Connector_EnabledStreams c → GraylogStreamsRules !! EnabledStream_Title s = Some r →
  GetProcessingRules c !! r = Some (EnabledStream_Title s).
Proof.
  intros Hin Hr. unfold GetProcessingRules. set (m0 := {[ GraylogUnsupportedSymbolsRule := _; _ := _; _ := _ ]}).
  assert (Hor : s ∈ Connector_EnabledStreams c ∨ m0 !! r = Some (EnabledStream_Title s)) by by left.
  clear Hin. revert Hor. generalize (Connector_EnabledStreams c) m0. clear m0.
  intros l. induction l as [|s' l IH]; intros m [Hin|Hm]; cbn [foldl]; try done.
  - by apply elem_of_nil in Hin.
  - apply IH. apply elem_of_cons in Hin as [<-|Hin]; [right|by left]. rewrite Hr. apply lookup_insert_eq.
  - apply IH. right. destruct (GraylogStreamsRules !! EnabledStream_Title s') as [r'|] eqn:Hr'; [|done].
    destruct (decide (r' = r)) as [->|Hne]; [|by rewrite lookup_insert_ne].
    rewrite lookup_insert_eq. f_equal. by eapply rules_injective.
Qed.

(** The source of a rule: its template, with the id of its stream. *)
Definition rule_source (streams : list Entity) (rule stream source : string) : Prop :=
  ∃ streamId,
    (if String.eqb stream GraylogDefaultStream then default_stream_id streams
     else inr (GetIdByTitle streams stream)) = inr streamId ∧
    rendered_asset c (map_value GraylogRuleConfigs rule) ({[ "streamId" := streamId ]} : smap) source.

Definition rule_sent (streams : list Entity) (rule stream method urlPath : string) w w' : Prop :=
  ∃ source, rule_source streams rule stream source ∧
    answered c method urlPath (CreateRuleBody rule (map_value GraylogRuleDescriptions rule) source)
      [StatusOK; StatusCreated] w w'.

(** A rule that was not listed was created, unless the policy is neither of the two; one
    that was listed was updated under the policy that forces updates. *)
Definition rule_managed (streams rules : list Entity) (rule stream : string) w w' : Prop :=
  let id := GetIdByTitle rules rule in
  (id = "" → IsOnlyCreate graylog || IsForceUpdate graylog = true →
     rule_sent streams rule stream "POST" processingRulesUrl w w') ∧
  (id ≠ "" → IsForceUpdate graylog = true →
     rule_sent streams rule stream "PUT" (processingRulesUrl +:+ "/" +:+ id) w w').

Lemma rule_managed_part streams rules rule stream w0 w1 w2 w3 :
  grows w0 w1 → grows w2 w3 → rule_managed streams rules rule stream w1 w2 →
  rule_managed streams rules rule stream w0 w3.
Proof.
  assert (Hsent : ∀ method urlPath, grows w0 w1 → grows w2 w3 →
    rule_sent streams rule stream method urlPath w1 w2 → rule_sent streams rule stream method urlPath w0 w3).
  { intros method urlPath H01 H23 (source & Hs & Ha). exists source. split; [done|]. by eapply answered_part. }
  intros H01 H23 [Hc Hu]. split; eauto.
Qed.

Lemma CreateRuleData_wp {B} streams rule stream (k : string → M W B) Q w :
  (∀ source, rule_source streams rule stream source → wp (k source) Q (λ _ w', grows w w') w) →
  wp (CreateRuleData c streams stream (map_value GraylogRuleConfigs rule) ≫= k) Q (λ _ w', grows w w') w.
Proof.
  intros Hk. rewrite wp_bind. unfold CreateRuleData. rewrite wp_bind, wp_of_sum.
  destruct (if String.eqb stream GraylogDefaultStream then _ else _) as [e|streamId] eqn:Hid; [done|].
  apply render_asset_wp; [|done]. intros data Hd. apply Hk. by exists streamId.
Qed.

(** The rule's source is rendered and sent. *)
Lemma rule_sent_wp streams rule stream method urlPath msg w :
  wp (data ← CreateRuleData c streams stream (map_value GraylogRuleConfigs rule);
      '(_, statusCode) ← Send c urlPath method
         (CreateRuleBody rule (map_value GraylogRuleDescriptions rule) data);
      expect_status [StatusOK; StatusCreated] statusCode msg)
    (λ _ w', grows w w' ∧ rule_sent streams rule stream method urlPath w w') (λ _ w', grows w w') w.
Proof.
  apply CreateRuleData_wp. intros source Hs.
  eapply wp_mono; [apply (checked_answered c urlPath method _ _ (λ _ _, msg))| |done].
  intros [] w' [Hg Ha]. split; [done|]. by exists source.
Qed.

Lemma OnlyCreateRules_wp streams rules rule stream w :
  wp (OnlyCreateRules c streams rules rule stream (map_value GraylogRuleDescriptions rule)
        (map_value GraylogRuleConfigs rule))
    (λ _ w', grows w w' ∧ (GetIdByTitle rules rule = "" →
       rule_sent streams rule stream "POST" processingRulesUrl w w'))
    (λ _ w', grows w w') w.
Proof.
  unfold OnlyCreateRules. rewrite wp_when. destruct (String.eqb_spec (GetIdByTitle rules rule) "").
  - eapply wp_mono; [apply rule_sent_wp| |done]. by intros [] w' [].
  - by split; [reflexivity|].
Qed.

Lemma CreateOrUpdateProcessingRules_wp rules w :
  wp (CreateOrUpdateProcessingRules c graylog rules)
    (λ _ w', grows w w' ∧ (IsOnlyCreate graylog || IsForceUpdate graylog = true →
       ∃ streams, listed c "streams" "streams" streams w w' ∧
         ∀ rule stream, GetProcessingRules c !! rule = Some stream →
           rule_managed streams rules rule stream w w'))
    (λ _ w', grows w w') w.
Proof.
  assert (Hloop : ∀ f : list Entity → string → string → M W unit,
    (∀ streams rule stream w, wp (f streams rule stream)
       (λ _ w', grows w w' ∧ rule_managed streams rules rule stream w w') (λ _ w', grows w w') w) →
    wp (streams ← GetAllStreams c; for_range (GetProcessingRules c) (f streams))
      (λ _ w', grows w w' ∧ (IsOnlyCreate graylog || IsForceUpdate graylog = true →
         ∃ streams, listed c "streams" "streams" streams w w' ∧
           ∀ rule stream, GetProcessingRules c !! rule = Some stream →
             rule_managed streams rules rule stream w w'))
      (λ _ w', grows w w') w).
  { intros f Hf. rewrite wp_bind. eapply wp_mono; [apply GetData_listed| |done].
    intros streams w1 [G1 L1].
    eapply wp_mono; [apply (for_range_answered _ _ (rule_managed streams rules)); [|apply Hf]| |].
    - intros rule stream w2 w3 w4 w5. apply rule_managed_part.
    - intros [] w2 [G2 Hall]. split; [exact (transitivity G1 G2)|]. intros _. exists streams. split.
      + eapply listed_part; [reflexivity|exact G2|exact L1].
      + intros rule stream Hr. eapply rule_managed_part; [exact G1|reflexivity|by apply Hall].
    - intros e w2 G2. exact (transitivity G1 G2). }
  unfold CreateOrUpdateProcessingRules, by_policy. destruct (IsOnlyCreate graylog) eqn:Ho.
  { apply Hloop. intros streams rule stream w1. eapply wp_mono; [apply OnlyCreateRules_wp| |done].
    intros [] w2 [Hg Hc]. split; [done|]. split; [by auto|]. intros _ Hf.
    apply force_update_not_only_create in Hf. congruence. }
  destruct (IsForceUpdate graylog) eqn:Hf; [|rewrite wp_ret; by split].
  apply Hloop. intros streams rule stream w1. unfold CreateOrUpdateRules, rule_managed.
  destruct (String.eqb_spec (GetIdByTitle rules rule) "") as [He|Hne]; cbn [negb].
  - eapply wp_mono; [apply OnlyCreateRules_wp| |done]. intros [] w2 [Hg Hc]. split; [done|]. by split; auto.
  - eapply wp_mono; [apply rule_sent_wp| |done]. intros [] w2 [Hg Hc]. split; [done|]. by split.
Qed.

Lemma ManageProcessingRules_wp w :
  wp (ManageProcessingRules c graylog)
    (λ _ w', IsOnlyCreate graylog || IsForceUpdate graylog = true →
       ∃ rules streams, listed c processingRulesUrl "" rules w w' ∧ listed c "streams" "streams" streams w w' ∧
         ∀ s rule, s ∈ Connector_EnabledStreams c → GraylogStreamsRules !! EnabledStream_Title s = Some rule →
           rule_managed streams rules rule (EnabledStream_Title s) w w')
    (λ _ _, True) w.
Proof.
  unfold ManageProcessingRules. rewrite wp_bind.
  eapply wp_mono; [apply GetData_listed| |done]. intros rules w1 [G1 L1].
  eapply wp_mono; [apply CreateOrUpdateProcessingRules_wp| |done]. intros [] w2 [G2 Hall] Hpol.
  destruct (Hall Hpol) as (streams & L2 & Hm). exists rules, streams. split_and!.
  - eapply listed_part; [reflexivity|exact G2|exact L1].
  - eapply listed_part; [exact G1|reflexivity|exact L2].
  - intros s rule Hs Hr. eapply rule_managed_part; [exact G1|reflexivity|].
    by apply Hm, GetProcessingRules_stream.
Qed.
End rules.

(** ** Properties *)

(** C8: [ManageStreams].  When it succeeds under one of the policies "only-create" and
    "force-update", every managed stream of the custom resource that Graylog did not list was
    created with its index set, and under "force-update" one that it listed was updated.  Under
    every policy Graylog was then asked again, and each of the managed streams was resumed
    by the id that Graylog listed for its title now (which is empty when it is still not
    listed, as it may be under another policy). *)
Theorem ManageStreams_resumes {W} `{SystemLaws W, !KubeClientLaws W, Encodings, Externals} c graylog (w : W) :
  wp (ManageStreams c graylog)
    (λ _ w', ∃ before indexSets after w1, extends (λ _ : exchange, True) w w1 ∧
       listed c "streams" "streams" before w w1 ∧ listed c indexSetsUrl "index_sets" indexSets w w1 ∧
       listed c "streams" "streams" after w1 w' ∧
       ∀ title index, stream_to_index c !! title = Some index →
         stream_managed c graylog before indexSets title index w w1 ∧
         answered c "POST" ("streams/" +:+ GetIdByTitle after title +:+ "/resume") "" [StatusNoContent] w1 w')
    (λ _ _, True) w.
Proof. eapply wp_mono; [apply ManageStreams_wp|done|done]. Qed.

(** C9: [ManageIndexSets].  When it succeeds, each index set that is used, which are the
    default one, the audit one and those of the enabled streams, and that Graylog did not
    list was created from its template; one that it listed was updated if the policy forces
    updates, and the default one always: that one must exist, it is never created. *)
Theorem ManageIndexSets_manages {W} `{SystemLaws W, !KubeClientLaws W, Encodings, Externals} c cr graylog (w : W) :
  wp (ManageIndexSets c cr graylog)
    (λ _ w', ∃ indexSets, listed c indexSetsUrl "index_sets" indexSets w w' ∧
       ∀ title path, index_set_used (Connector_EnabledStreams c) title →
         GraylogIndexConfigs !! title = Some path → index_set_managed c cr graylog indexSets title path w w')
    (λ _ _, True) w.
Proof. eapply wp_mono; [apply ManageIndexSets_wp|done|done]. Qed.


(** ** Witnesses *)

#[local] Existing Instances example_externals example_encodings.

(** What the server of the examples lists under a name. *)
Lemma example_listed urlPath field es w w' :
  field ∈ ["streams"; "index_sets"] →
  listed example_connector urlPath field es w w' →
  es = (λ t, mkEntity ("id of " +:+ t) t) <$>
    [GraylogDefaultIndexSet; "input-0"; GraylogDefaultStream; GraylogAuditStream; GraylogSystemStream;
     GraylogKubernetesEventsStream; "All events"; "All system events"; "Sources by Service"].
Proof.
  intros Hf (xs & r & code & body & _ & _ & _ & Hes). unfold decode_entities in Hes.
  apply elem_of_cons in Hf as [->|Hf]; [|apply list_elem_of_singleton in Hf as ->]; cbn in Hes;
    (destruct (String.eqb body "list"); [discriminate Hes|]); vm_compute in Hes; by injection Hes as <-.
Qed.

Lemma ManageStreams_resumes_witness :
  let w' := (ManageStreams example_connector example_graylog example_world).1 in
  answered example_connector "POST" "streams/id of Audit logs/resume" "" [StatusNoContent] example_world w'.
Proof.
  intros w'.
  run_theorem (ManageStreams_resumes example_connector example_graylog example_world) tt Hw.
  destruct Hw as (before & indexSets & after & w1 & Hg & _ & _ & Hafter & Hw).
  pose proof (example_listed _ _ _ _ _ ltac:(by left) Hafter) as ->.
  destruct (Hw GraylogAuditStream GraylogAuditIndexSet) as [_ Ha]; [by vm_compute|].
  exact (answered_part _ _ _ _ _ _ _ _ _ Hg (reflexivity _) Ha).
Defined.

Lemma ManageIndexSets_manages_witness :
  let w' := (ManageIndexSets example_connector example_graylog_cr example_graylog example_world).1 in
  sent_asset example_connector "config/indexes/default_index.json" (ToParams example_graylog_cr) "PUT"
    "system/indices/index_sets/id of Default index set" [StatusOK] example_world w' ∧
  sent_asset example_connector "config/indexes/audit_index.json" (ToParams example_graylog_cr) "POST"
    "system/indices/index_sets" [StatusOK] example_world w'.
Proof.
  intros w'.
  run_theorem (ManageIndexSets_manages example_connector example_graylog_cr example_graylog example_world) tt Hw.
  destruct Hw as (indexSets & Hl & Hw).
  pose proof (example_listed _ _ _ _ _ ltac:(by right; left) Hl) as ->. split.
  - destruct (Hw GraylogDefaultIndexSet _ (or_introl eq_refl) eq_refl) as [_ Hu].
    apply Hu; [by vm_compute|by right].
  - destruct (Hw GraylogAuditIndexSet _ (or_intror (or_introl eq_refl)) eq_refl) as [Hc _].
    by apply Hc; vm_compute.
Defined.

