(* ===== verification/FluentbitController.v ===== *)
(** * The reconciler of FluentBit: internal/controllers/fluentbit

    [fluentbitConfigSecret] (manifest.go), the handlers (handler.go) and [Run] and
    [uninstall] (reconciler.go). *)

From S2P Require Import Prelude GoStrings KubeTypes Api Client Labels Operator Status Component.
From S2P Require Import Credentials Reconcilers Defaults Builder FluentbitBuilder Files.
From S2P Require Import ComponentRun.

(** ** Resolving the credentials of the outputs *)

Section credentials.
Context {W : Type} `{KubeClient W}.

(** What an output's block says about its credentials. *)
Definition loki_auth (output : OutputFluentbit) : option (bool * option Auth) :=
  (λ o, (LokiFluentbit_Enabled o, LokiFluentbit_Auth o)) <$> OutputFluentbit_Loki output.
Definition http_auth (output : OutputFluentbit) : option (bool * option Auth) :=
  (λ o, (HttpFluentbit_Enabled o, HttpFluentbit_Auth o)) <$> OutputFluentbit_Http output.
Definition otel_auth (output : OutputFluentbit) : option (bool * option Auth) :=
  (λ o, (OtelFluentbit_Enabled o, OtelFluentbit_Auth o)) <$> OutputFluentbit_Otel output.

Definition fluentbit_outputs (output : OutputFluentbit) : list OutputAuth :=
  output_auth (loki_auth output) ++ output_auth (http_auth output) ++ output_auth (otel_auth output).

Definition fluentbit_collect (output : OutputFluentbit) (outputs : list OutputAuth) : outputCredentials :=
  let '(loki, outputs) := output_values (loki_auth output) outputs in
  let '(http, outputs) := output_values (http_auth output) outputs in
  let '(otel, _) := output_values (otel_auth output) outputs in
  mkOutputCredentials loki http otel.

(** [resolveOutputCredentials] of FluentBit and [resolveAggregatorOutputCredentials]
    differ in the output they look at. *)
Definition resolve_fluentbit_output (output : option OutputFluentbit) : M (op W) outputCredentials :=
  match output with
  | None => mret zero
  | Some output =>
      cr ← the_cr;
      outputs ← ResolveFluentbitOutputAuth (GetNamespace cr) (fluentbit_outputs output);
      mret (fluentbit_collect output outputs)
  end.

Definition fluentbit_resolveOutputCredentials : M (op W) outputCredentials :=
  cr ← the_cr;
  resolve_fluentbit_output (LoggingServiceSpec_Fluentbit (LoggingService_Spec cr) ≫= Fluentbit_Output).
End credentials.

(** The credentials are those that the selectors of the enabled outputs point at. *)
Definition fluentbit_resolved (m : gmap ObjectKey Object) (ns : string) (output : option OutputFluentbit)
    (credentials : outputCredentials) : Prop :=
  match output with
  | None => credentials = zero
  | Some output => ∃ outputs,
      Forall2 (output_resolved validateFluentbitValue m ns) (fluentbit_outputs output) outputs ∧
      credentials = fluentbit_collect output outputs
  end.

Lemma resolve_fluentbit_output_wp {W} `{KubeClientLaws W} output (s : op W) :
  wp (resolve_fluentbit_output output)
    (λ credentials s', changes [] s s' ∧
       fluentbit_resolved (objects (op_world s)) (GetNamespace (op_cr s)) output credentials)
    (λ _ s', changes [] s s') s.
Proof.
  unfold resolve_fluentbit_output. destruct output as [output|]; [|by rewrite wp_ret].
  unfold the_cr. rewrite wp_bind, wp_gets, wp_bind.
  eapply wp_mono; [apply resolveOutputAuth_wp| |intros e s' Hq; by apply changes_quiet].
  intros outputs s' [Hq Hr]. rewrite wp_ret. split; [by apply changes_quiet|by exists outputs].
Qed.

(** ** The reconciler *)

Section Fluentbit.
Context {W : Type} `{KubeClient W} `{Externals}.

(** The data that is not rendered from the templates. *)
Definition fluentbit_custom_data (spec : Fluentbit) (data : smap) : smap :=
  let data := set_if (nonempty (Fluentbit_CustomInputConf spec)) "input-custom.conf"
                (Fluentbit_CustomInputConf spec) data in
  let data := set_if (nonempty (Fluentbit_CustomFilterConf spec)) "filter-custom.conf"
                (Fluentbit_CustomFilterConf spec) data in
  let data := copy_if (Fluentbit_CustomLuaScriptConf spec) data in
  let data := set_if (nonempty (Fluentbit_CustomOutputConf spec)) "output-custom.conf"
                (Fluentbit_CustomOutputConf spec) data in
  match Fluentbit_Output spec ≫= OutputFluentbit_Loki with
  | Some loki =>
      set_if (LokiFluentbit_Enabled loki && nonempty (LokiFluentbit_LabelsMapping loki))
        "loki-labels.json" (LokiFluentbit_LabelsMapping loki) data
  | None => data
  end.

(** The Secret for a custom resource that has its runtime set. *)
Definition fluentbit_secret (cr : LoggingService) (spec : Fluentbit) (credentials : outputCredentials) :
    error + Secret :=
  let parameters := mkTemplateParameters (ToParams cr) credentials in
  match DataFromDirectory (ParseTemplate _) fluentbit_configs parameters FluentbitConfigMapDirectory with
  | inl err => inl err
  | inr configData =>
      let secret := mkSecret (named FluentbitComponentName (GetNamespace cr)) "Opaque"
        (Some (StringMapToByteMap (fluentbit_custom_data spec configData))) in
      inr (SetLabelsForResource
        (zero <| LabelInput_Name := FluentbitComponentName |> <| LabelInput_Component := ComponentBackend |>
              <| LabelInput_ComponentLabels := Fluentbit_Labels spec |>)
        (Some {[ "k8s-app" := "fluent-bit" ]}) secret)
  end.

Definition fluentbit_nil (cr : LoggingService) : error :=
  errors_New ("fluentbit configuration in Logging Service " +:+ GetName cr +:+
              " is nil in the namespace " +:+ GetNamespace cr).

Definition fluentbitConfigSecret : DynamicParameters → outputCredentials → M (op W) Secret :=
  config_secret LoggingServiceSpec_Fluentbit fluentbit_nil fluentbit_secret.

Definition fluentbit_handleConfigSecret (dp : DynamicParameters) : M (op W) unit :=
  handle_config_secret FluentbitComponentName fluentbit_resolveOutputCredentials
    (fluentbitConfigSecret dp).

Definition fluentbit_handleDaemonSet (cfg : Defaults) : DynamicParameters → M (op W) unit :=
  handle_workload LoggingServiceSpec_Fluentbit (λ cr, fail (fluentbit_nil cr))
    (λ cr spec, inr (fluentbit_DaemonSet ParseQuantity cr spec cfg)) reconcile_DaemonSet.

Definition fluentbit_handleService (cfg : Defaults) : M (op W) unit :=
  handle_object LoggingServiceSpec_Fluentbit (λ cr, fail (fluentbit_nil cr))
    (λ cr spec, inr (fluentbit_Service cr spec cfg)) reconcile_Service.

Definition fluentbit_deleteDaemonSet (cr : LoggingService) : M (op W) unit :=
  delete_existing
    ((zero : DaemonSet) <| DaemonSet_ObjectMeta := named FluentbitComponentName (GetNamespace cr) |>).

Definition fluentbit_deleteConfigSecret (cr : LoggingService) : M (op W) unit :=
  delete_existing ((zero : Secret) <| Secret_ObjectMeta := named FluentbitComponentName (GetNamespace cr) |>).

Definition fluentbit_deleteService (cr : LoggingService) : M (op W) unit :=
  delete_existing ((zero : Service) <| Service_ObjectMeta := named FluentbitComponentName (GetNamespace cr) |>).

Definition fluentbit_uninstall : M (op W) unit :=
  cr ← the_cr;
  logged (fluentbit_deleteDaemonSet cr);;
  logged (fluentbit_deleteConfigSecret cr);;
  logged (DeleteLegacyConfigMap (GetNamespace cr) FluentbitComponentName);;
  logged (fluentbit_deleteService cr).

(** FluentBit runs by itself when it is set and its aggregator is not installed. *)
Definition fluentbit_installed (cr : LoggingService) : bool :=
  let fluentbit := LoggingServiceSpec_Fluentbit (LoggingService_Spec cr) in
  Fluentbit_IsInstall fluentbit &&
  match fluentbit ≫= Fluentbit_Aggregator with
  | Some aggregator => negb (FluentbitAggregator_Install aggregator)
  | None => true
  end.

Definition fluentbit_install (dp : DynamicParameters) (cfg : Defaults) : M (op W) unit :=
  fluentbit_handleConfigSecret dp;;
  fluentbit_handleDaemonSet cfg dp;;
  fluentbit_handleService cfg.

Definition fluentbit_Run (dp : DynamicParameters) (cfg : Defaults) : M (op W) unit :=
  component_run FluentbitStatus "Start reconcile of Fluentbit" FluentbitComponentName
    fluentbit_installed (fluentbit_install dp cfg) fluentbit_uninstall.
End Fluentbit.

(** ** What it deploys *)

Section properties.
Context {W : Type} `{KubeClientLaws W} `{Externals}.
Implicit Types (s : op W).

(** The objects of FluentBit in a namespace. *)
Definition fluentbit_keys (ns : string) : list ObjectKey := daemonset_keys FluentbitComponentName ns.

(** What is deployed for a custom resource: the configuration that the templates
    render with the credentials of the outputs, the pods and the Service that the
    builder describes, and no legacy ConfigMap. *)
Definition fluentbit_deployed (cfg : Defaults) (cr : LoggingService)
    (m0 m : gmap ObjectKey Object) : Prop :=
  ∃ spec, LoggingServiceSpec_Fluentbit (LoggingService_Spec cr) = Some spec ∧
    daemonset_deployed fluentbit_secret (λ cr spec, inr (fluentbit_DaemonSet ParseQuantity cr spec cfg))
      (λ cr spec, inr (fluentbit_Service cr spec cfg)) FluentbitComponentName
      (fluentbit_resolved m0 (GetNamespace cr) (Fluentbit_Output spec)) spec cr m.

Lemma fluentbit_secret_key cr spec c secret :
  fluentbit_secret cr spec c = inr secret →
  key_of secret = mkObjectKey KSecret (GetNamespace cr) FluentbitComponentName.
Proof. unfold fluentbit_secret. destruct (DataFromDirectory _ _ _ _); [done|]. by intros [= <-]. Qed.

Lemma fluentbit_deployed_agree cfg cr m0 m m' :
  agree (fluentbit_keys (GetNamespace cr)) m m' → fluentbit_deployed cfg cr m0 m → fluentbit_deployed cfg cr m0 m'.
Proof.
  intros Hm (spec & Hspec & Hdep). exists spec. split; [done|]. eapply daemonset_deployed_agree; [..|exact Hm|exact Hdep].
  - apply fluentbit_secret_key.
  - by intros ? d [= <-].
  - by intros ? d [= <-].
Qed.

Lemma fluentbit_install_wp dp cfg s :
  fluentbit_installed (op_cr s) = true →
  let K := fluentbit_keys (GetNamespace (op_cr s)) in
  wp (fluentbit_install dp cfg)
    (λ _ s', touches K s s' ∧ op_cr s' = op_cr (runtime_set dp s) ∧
       fluentbit_deployed cfg (op_cr s') (objects (op_world s)) (objects (op_world s')))
    (λ _ s', touches K s s') s.
Proof.
  intros Hinst K. destruct (LoggingServiceSpec_Fluentbit (spec_of s)) as [spec|] eqn:Hspec.
  2: { unfold fluentbit_installed in Hinst. fold (spec_of s) in Hinst. by rewrite Hspec in Hinst. }
  eapply wp_mono; [apply (install_daemonset_wp LoggingServiceSpec_Fluentbit fluentbit_nil fluentbit_secret
    (λ cr spec, inr (fluentbit_DaemonSet ParseQuantity cr spec cfg))
    (λ cr spec, inr (fluentbit_Service cr spec cfg)) FluentbitComponentName _
    (fluentbit_resolved (objects (op_world s)) (GetNamespace (op_cr s)) (Fluentbit_Output spec)) dp spec s);
    [done|apply fluentbit_secret_key|by intros cr d [= <-]..|exact Hspec|]| |done].
  - unfold fluentbit_resolveOutputCredentials, the_cr. rewrite wp_bind, wp_gets. fold (spec_of s).
    rewrite Hspec. apply resolve_fluentbit_output_wp.
  - intros [] s' (Ht & Hcr & Hdep). split; [done|]. split; [done|]. exists spec.
    rewrite Hcr in *. by split.
Qed.

Lemma fluentbit_uninstall_wp s :
  wp fluentbit_uninstall (λ _ s', touches (fluentbit_keys (GetNamespace (op_cr s))) s s')
    (λ _ _, False) s.
Proof.
  unfold fluentbit_uninstall, the_cr. rewrite wp_bind, wp_gets.
  apply uninstall_daemonset_wp; [done|done|]. intros s'. apply logged_delete_wp. left.
Qed.

Lemma fluentbit_Run_wp `{!SpecStable W} dp cfg s :
  let K := fluentbit_keys (GetNamespace (op_cr s)) in
  wp (fluentbit_Run dp cfg)
    (λ _ s',
      if fluentbit_installed (op_cr s) then
        touches K (s <| op_pending ::= λ ps, ps ++ [mkComponent FluentbitComponentName FluentbitStatus] |>) s' ∧
        LoggingServiceSpec_ContainerRuntimeType (spec_of s') = DynamicParameters_ContainerRuntimeType dp ∧
        fluentbit_deployed cfg (op_cr s') (objects (op_world s)) (objects (op_world s'))
      else touches K s s')
    (λ _ s', fluentbit_installed (op_cr s) = true ∧ touches K s s') s.
Proof.
  intros K. apply component_run_wp with (P := λ s',
    LoggingServiceSpec_ContainerRuntimeType (spec_of s') = DynamicParameters_ContainerRuntimeType dp ∧
    fluentbit_deployed cfg (op_cr s') (objects (op_world s)) (objects (op_world s'))).
  - intros s' Ht. unfold fluentbit_installed. fold (spec_of s) (spec_of s').
    by rewrite (touches_spec_field LoggingServiceSpec_Fluentbit _ _ _ (λ _ _, eq_refl) Ht).
  - intros s' Ht Hi. pose proof (touches_namespace _ _ _ Ht) as Hns.
    eapply wp_mono; [by apply fluentbit_install_wp| |]; rewrite Hns; [|done].
    intros [] s'' (Ht' & Hcr & Hdep). split; [done|]. split; [unfold spec_of; by rewrite Hcr|].
    by rewrite <- (touches_nil _ _ Ht).
  - intros s' Ht. pose proof (touches_namespace _ _ _ Ht) as Hns. unfold K. rewrite <- Hns.
    apply fluentbit_uninstall_wp.
  - done.
Qed.

(** C17: a reconcile of FluentBit.  When FluentBit is set and its aggregator is not
    installed, a run that succeeds leaves deployed: the configuration Secret that the
    templates render with the credentials the outputs' selectors point at and the
    custom resource's own files, the pods and the Service of the builder for the
    detected runtime, and no legacy ConfigMap; and FluentBit joins the components to
    wait for.  A run that fails adds nothing to them, and only an installation can
    fail: uninstalling always succeeds.  On every path the objects of the cluster
    other than FluentBit's four, and the spec but for the runtime, are untouched. *)
Theorem fluentbit_Run_deploys `{!SpecStable W} dp cfg s :
  let K := fluentbit_keys (GetNamespace (op_cr s)) in
  wp (fluentbit_Run dp cfg)
    (λ _ s',
      if fluentbit_installed (op_cr s) then
        touches K (s <| op_pending ::= λ ps, ps ++ [mkComponent FluentbitComponentName FluentbitStatus] |>) s' ∧
        LoggingServiceSpec_ContainerRuntimeType (spec_of s') = DynamicParameters_ContainerRuntimeType dp ∧
        fluentbit_deployed cfg (op_cr s') (objects (op_world s)) (objects (op_world s'))
      else touches K s s')
    (λ _ s', fluentbit_installed (op_cr s) = true ∧ touches K s s') s.
Proof. apply fluentbit_Run_wp. Qed.
End properties.

(** ** Witness: an upgrade that leaves no legacy ConfigMap *)

Lemma fluentbit_Run_deploys_witness :
  let legacy := OConfigMap (mkConfigMap (named FluentbitComponentName "ns") None None) in
  let s := example_state legacy (zero <| LoggingServiceSpec_Fluentbit := Some zero |>) in
  let s' := (fluentbit_Run (H0:=example_externals) (mkDynamicParameters "docker") defaults_Get s).1 in
  op_pending s' = [mkComponent FluentbitComponentName FluentbitStatus] ∧
  objects (op_world s') !! mkObjectKey KConfigMap "ns" FluentbitComponentName = None.
Proof.
  intros legacy s s'.
  run_theorem (fluentbit_Run_deploys (H1:=example_externals) (mkDynamicParameters "docker")
                 defaults_Get s) tt Hw.
  destruct Hw as (Ht & _ & spec & _ & credentials & secret & ds & svc & _ & _ & _ & Hnone & _).
  split; [exact (touches_pending _ _ _ Ht)|exact Hnone].
Defined.
