(* ===== verification/FluentdController.v ===== *)
(** * The reconciler of FluentD: internal/controllers/fluentd

    [fluentdConfigSecret] (manifest.go), the handlers (handler.go) and [Run] and
    [uninstall] (reconciler.go). *)

From S2P Require Import Prelude GoStrings KubeTypes Api Client Labels Operator Status Component.
From S2P Require Import Credentials Reconcilers Defaults Builder FluentdBuilder Files.
From S2P Require Import ComponentRun.

(** [outputCredentials] of FluentD. *)
Record fluentd_outputCredentials : Type := mk_fluentd_outputCredentials {
  fluentd_credentials_Loki : AuthValues;
  fluentd_credentials_Http : AuthValues;
}.

(** ** Resolving the credentials of the outputs *)

Definition fluentd_loki_auth (output : OutputFluentd) : option (bool * option Auth) :=
  (λ o, (LokiFluentd_Enabled o, LokiFluentd_Auth o)) <$> OutputFluentd_Loki output.
Definition fluentd_http_auth (output : OutputFluentd) : option (bool * option Auth) :=
  (λ o, (HttpFluentd_Enabled o, HttpFluentd_Auth o)) <$> OutputFluentd_Http output.

Definition fluentd_outputs (output : OutputFluentd) : list OutputAuth :=
  output_auth (fluentd_loki_auth output) ++ output_auth (fluentd_http_auth output).

Definition fluentd_collect (output : OutputFluentd) (outputs : list OutputAuth) :
    fluentd_outputCredentials :=
  let '(loki, outputs) := output_values (fluentd_loki_auth output) outputs in
  let '(http, _) := output_values (fluentd_http_auth output) outputs in
  mk_fluentd_outputCredentials loki http.

Definition fluentd_resolveOutputCredentials {W} `{KubeClient W} : M (op W) fluentd_outputCredentials :=
  cr ← the_cr;
  match LoggingServiceSpec_Fluentd (LoggingService_Spec cr) ≫= Fluentd_Output with
  | None => mret (mk_fluentd_outputCredentials zero zero)
  | Some output =>
      outputs ← ResolveFluentdOutputAuth (GetNamespace cr) (fluentd_outputs output);
      mret (fluentd_collect output outputs)
  end.

(** The credentials are those that the selectors of the enabled outputs point at. *)
Definition fluentd_resolved (m : gmap ObjectKey Object) (ns : string) (output : option OutputFluentd)
    (credentials : fluentd_outputCredentials) : Prop :=
  match output with
  | None => credentials = mk_fluentd_outputCredentials zero zero
  | Some output => ∃ outputs,
      Forall2 (output_resolved validateSingleLineValue m ns) (fluentd_outputs output) outputs ∧
      credentials = fluentd_collect output outputs
  end.

Lemma fluentd_resolveOutputCredentials_wp {W} `{KubeClientLaws W} spec (s : op W) :
  LoggingServiceSpec_Fluentd (spec_of s) = Some spec →
  wp fluentd_resolveOutputCredentials
    (λ credentials s', changes [] s s' ∧
       fluentd_resolved (objects (op_world s)) (GetNamespace (op_cr s)) (Fluentd_Output spec) credentials)
    (λ _ s', changes [] s s') s.
Proof.
  intros Hspec. unfold fluentd_resolveOutputCredentials, the_cr. rewrite wp_bind, wp_gets.
  fold (spec_of s). rewrite Hspec. cbn [mbind option_bind].
  destruct (Fluentd_Output spec) as [output|]; [|by rewrite wp_ret]. rewrite wp_bind.
  eapply wp_mono; [apply resolveOutputAuth_wp| |intros e s' Hq; by apply changes_quiet].
  intros outputs s' [Hq Hr]. rewrite wp_ret. split; [by apply changes_quiet|by exists outputs].
Qed.

(** ** The reconciler *)

Section Fluentd.
Context {W : Type} `{KubeClient W} `{Externals}.

(** The data that is not rendered from the templates. *)
Definition fluentd_custom_data (spec : Fluentd) (credentials : fluentd_outputCredentials) (data : smap) :
    smap :=
  let data := <["input-custom.conf" := Fluentd_CustomInputConf spec]> data in
  let data := <["filter-custom.conf" := Fluentd_CustomFilterConf spec]> data in
  let data := <["output-custom.conf" := Fluentd_CustomOutputConf spec]> data in
  match Fluentd_Output spec ≫= OutputFluentd_Loki with
  | Some loki =>
      set_if (LokiFluentd_Enabled loki && bool_decide (is_Some (LokiFluentd_Auth loki ≫= Auth_Token)))
        "loki-auth-token" (AuthValues_Token (fluentd_credentials_Loki credentials)) data
  | None => data
  end.

(** The Secret for a custom resource that has its runtime set. *)
Definition fluentd_configuration (cr : LoggingService) (spec : Fluentd) (credentials : fluentd_outputCredentials) :
    error + Secret :=
  let parameters := mkTemplateParameters (ToParams cr) credentials in
  match DataFromDirectory (ParseTemplate _) fluentd_configs parameters FluentdConfigMapDirectory with
  | inl err => inl err
  | inr data =>
      let secret := mkSecret (named FluentdComponentName (GetNamespace cr)) "Opaque"
        (Some (StringMapToByteMap (fluentd_custom_data spec credentials data))) in
      inr (SetLabelsForResource
        (zero <| LabelInput_Name := FluentdComponentName |> <| LabelInput_Component := ComponentBackend |>
              <| LabelInput_ComponentLabels := Fluentd_Labels spec |>) None secret)
  end.

Definition fluentd_nil (cr : LoggingService) : error :=
  errors_New ("fluentd configuration in Logging Service " +:+ GetName cr +:+
              " is nil in the namespace " +:+ GetNamespace cr).

Definition fluentdConfigSecret : DynamicParameters → fluentd_outputCredentials → M (op W) Secret :=
  config_secret LoggingServiceSpec_Fluentd fluentd_nil fluentd_configuration.

Definition fluentd_handleConfigSecret (dp : DynamicParameters) : M (op W) unit :=
  handle_config_secret FluentdComponentName fluentd_resolveOutputCredentials (fluentdConfigSecret dp).

(** The builders dereference [cr.Spec.Fluentd]. *)
Definition fluentd_handleDaemonSet (cfg : Defaults) : DynamicParameters → M (op W) unit :=
  handle_workload LoggingServiceSpec_Fluentd (λ _, panic)
    (λ cr spec, inr (fluentd_DaemonSet cr spec cfg)) reconcile_DaemonSet.

Definition fluentd_handleService (cfg : Defaults) : M (op W) unit :=
  handle_object LoggingServiceSpec_Fluentd (λ _, panic)
    (λ cr spec, inr (fluentd_Service cr spec cfg)) reconcile_Service.

Definition fluentd_componentMeta (cr : LoggingService) : ObjectMeta :=
  named FluentdComponentName (GetNamespace cr).

Definition fluentd_deleteDaemonSet (cr : LoggingService) : M (op W) unit :=
  delete_existing ((zero : DaemonSet) <| DaemonSet_ObjectMeta := fluentd_componentMeta cr |>).

Definition fluentd_deleteConfigSecret (cr : LoggingService) : M (op W) unit :=
  delete_existing ((zero : Secret) <| Secret_ObjectMeta := fluentd_componentMeta cr |>);;
  DeleteLegacyConfigMap (GetNamespace cr) FluentdComponentName.

Definition fluentd_deleteService (cr : LoggingService) : M (op W) unit :=
  delete_existing ((zero : Service) <| Service_ObjectMeta := fluentd_componentMeta cr |>).

Definition fluentd_uninstall : M (op W) unit :=
  cr ← the_cr;
  logged (fluentd_deleteDaemonSet cr);;
  logged (fluentd_deleteConfigSecret cr);;
  logged (DeleteLegacyConfigMap (GetNamespace cr) FluentdComponentName);;
  logged (fluentd_deleteService cr).

Definition fluentd_installed (cr : LoggingService) : bool :=
  Fluentd_IsInstall (LoggingServiceSpec_Fluentd (LoggingService_Spec cr)).

Definition fluentd_install (dp : DynamicParameters) (cfg : Defaults) : M (op W) unit :=
  fluentd_handleConfigSecret dp;;
  fluentd_handleDaemonSet cfg dp;;
  fluentd_handleService cfg.

Definition fluentd_Run (dp : DynamicParameters) (cfg : Defaults) : M (op W) unit :=
  component_run FluentdStatus "Start reconcile of Fluentd" FluentdComponentName
    fluentd_installed (fluentd_install dp cfg) fluentd_uninstall.
End Fluentd.

(** ** What it deploys *)

Section properties.
Context {W : Type} `{KubeClientLaws W} `{Externals}.
Implicit Types (s : op W).

(** The objects of FluentD in a namespace. *)
Definition fluentd_keys (ns : string) : list ObjectKey := daemonset_keys FluentdComponentName ns.

(** What is deployed for a custom resource: the configuration that the templates
    render with the credentials of the outputs, the pods and the Service that the
    builder describes, and no legacy ConfigMap. *)
Definition fluentd_deployed (cfg : Defaults) (cr : LoggingService)
    (m0 m : gmap ObjectKey Object) : Prop :=
  ∃ spec, LoggingServiceSpec_Fluentd (LoggingService_Spec cr) = Some spec ∧
    daemonset_deployed fluentd_configuration (λ cr spec, inr (fluentd_DaemonSet cr spec cfg))
      (λ cr spec, inr (fluentd_Service cr spec cfg)) FluentdComponentName
      (fluentd_resolved m0 (GetNamespace cr) (Fluentd_Output spec)) spec cr m.

Lemma fluentd_configuration_key cr spec c secret :
  fluentd_configuration cr spec c = inr secret →
  key_of secret = mkObjectKey KSecret (GetNamespace cr) FluentdComponentName.
Proof. unfold fluentd_configuration. destruct (DataFromDirectory _ _ _ _); [done|]. by intros [= <-]. Qed.

Lemma fluentd_deployed_agree cfg cr m0 m m' :
  agree (fluentd_keys (GetNamespace cr)) m m' → fluentd_deployed cfg cr m0 m → fluentd_deployed cfg cr m0 m'.
Proof.
  intros Hm (spec & Hspec & Hdep). exists spec. split; [done|]. eapply daemonset_deployed_agree; [..|exact Hm|exact Hdep].
  - apply fluentd_configuration_key.
  - by intros ? d [= <-].
  - by intros ? d [= <-].
Qed.

Lemma fluentd_install_wp dp cfg s :
  fluentd_installed (op_cr s) = true →
  let K := fluentd_keys (GetNamespace (op_cr s)) in
  wp (fluentd_install dp cfg)
    (λ _ s', touches K s s' ∧ op_cr s' = op_cr (runtime_set dp s) ∧
       fluentd_deployed cfg (op_cr s') (objects (op_world s)) (objects (op_world s')))
    (λ _ s', touches K s s') s.
Proof.
  intros Hinst K. destruct (LoggingServiceSpec_Fluentd (spec_of s)) as [spec|] eqn:Hspec.
  2: { unfold fluentd_installed in Hinst. fold (spec_of s) in Hinst. by rewrite Hspec in Hinst. }
  eapply wp_mono; [apply (install_daemonset_wp LoggingServiceSpec_Fluentd fluentd_nil fluentd_configuration
    (λ cr spec, inr (fluentd_DaemonSet cr spec cfg))
    (λ cr spec, inr (fluentd_Service cr spec cfg)) FluentdComponentName _
    (fluentd_resolved (objects (op_world s)) (GetNamespace (op_cr s)) (Fluentd_Output spec)) dp spec s);
    [done|apply fluentd_configuration_key|by intros cr d [= <-]..|exact Hspec|]| |done].
  - by apply fluentd_resolveOutputCredentials_wp.
  - intros [] s' (Ht & Hcr & Hdep). split; [done|]. split; [done|]. exists spec.
    rewrite Hcr in *. by split.
Qed.

Lemma fluentd_uninstall_wp s :
  wp fluentd_uninstall (λ _ s', touches (fluentd_keys (GetNamespace (op_cr s))) s s')
    (λ _ _, False) s.
Proof.
  unfold fluentd_uninstall, the_cr. rewrite wp_bind, wp_gets.
  apply uninstall_daemonset_wp; [done|done|]. intros s1. set (K := daemonset_keys _ _).
  unfold fluentd_deleteConfigSecret. rewrite wp_logged, wp_bind.
  eapply wp_mono; [apply (delete_existing_touches K); left| |done]. intros [] s2 Ht2.
  eapply wp_mono; [apply (delete_existing_touches K); right; left| |]; intros ? s3 Ht3; by etrans.
Qed.

Lemma fluentd_Run_wp `{!SpecStable W} dp cfg s :
  let K := fluentd_keys (GetNamespace (op_cr s)) in
  wp (fluentd_Run dp cfg)
    (λ _ s',
      if fluentd_installed (op_cr s) then
        touches K (s <| op_pending ::= λ ps, ps ++ [mkComponent FluentdComponentName FluentdStatus] |>) s' ∧
        LoggingServiceSpec_ContainerRuntimeType (spec_of s') = DynamicParameters_ContainerRuntimeType dp ∧
        fluentd_deployed cfg (op_cr s') (objects (op_world s)) (objects (op_world s'))
      else touches K s s')
    (λ _ s', fluentd_installed (op_cr s) = true ∧ touches K s s') s.
Proof.
  intros K. apply component_run_wp with (P := λ s',
    LoggingServiceSpec_ContainerRuntimeType (spec_of s') = DynamicParameters_ContainerRuntimeType dp ∧
    fluentd_deployed cfg (op_cr s') (objects (op_world s)) (objects (op_world s'))).
  - intros s' Ht. unfold fluentd_installed. fold (spec_of s) (spec_of s').
    by rewrite (touches_spec_field LoggingServiceSpec_Fluentd _ _ _ (λ _ _, eq_refl) Ht).
  - intros s' Ht Hi. pose proof (touches_namespace _ _ _ Ht) as Hns.
    eapply wp_mono; [by apply fluentd_install_wp| |]; rewrite Hns; [|done].
    intros [] s'' (Ht' & Hcr & Hdep). split; [done|]. split; [unfold spec_of; by rewrite Hcr|].
    by rewrite <- (touches_nil _ _ Ht).
  - intros s' Ht. pose proof (touches_namespace _ _ _ Ht) as Hns. unfold K. rewrite <- Hns.
    apply fluentd_uninstall_wp.
  - done.
Qed.

(** A reconcile of FluentD.  When FluentD is set, a run that succeeds leaves
    deployed: the configuration Secret that the templates render with the credentials
    the outputs' selectors point at and the custom resource's own files, the pods and
    the Service of the builder for the detected runtime, and no legacy ConfigMap; and
    FluentD joins the components to wait for.  A run that fails adds nothing to them,
    and only an installation can fail.  On every path the objects of the cluster other
    than FluentD's four, and the spec but for the runtime, are untouched. *)
Theorem fluentd_Run_deploys `{!SpecStable W} dp cfg s :
  let K := fluentd_keys (GetNamespace (op_cr s)) in
  wp (fluentd_Run dp cfg)
    (λ _ s',
      if fluentd_installed (op_cr s) then
        touches K (s <| op_pending ::= λ ps, ps ++ [mkComponent FluentdComponentName FluentdStatus] |>) s' ∧
        LoggingServiceSpec_ContainerRuntimeType (spec_of s') = DynamicParameters_ContainerRuntimeType dp ∧
        fluentd_deployed cfg (op_cr s') (objects (op_world s)) (objects (op_world s'))
      else touches K s s')
    (λ _ s', fluentd_installed (op_cr s) = true ∧ touches K s s') s.
Proof. apply fluentd_Run_wp. Qed.
End properties.

(** ** Witness: an upgrade that leaves no legacy ConfigMap *)

Lemma fluentd_Run_deploys_witness :
  let legacy := OConfigMap (mkConfigMap (named FluentdComponentName "ns") None None) in
  let s := example_state legacy (zero <| LoggingServiceSpec_Fluentd := Some zero |>) in
  let s' := (fluentd_Run (H0:=example_externals) (mkDynamicParameters "docker") defaults_Get s).1 in
  op_pending s' = [mkComponent FluentdComponentName FluentdStatus] ∧
  objects (op_world s') !! mkObjectKey KConfigMap "ns" FluentdComponentName = None.
Proof.
  intros legacy s s'.
  run_theorem (fluentd_Run_deploys (H1:=example_externals) (mkDynamicParameters "docker")
                 defaults_Get s) tt Hw.
  destruct Hw as (Ht & _ & spec & _ & credentials & secret & ds & svc & _ & _ & _ & Hnone & _).
  split; [exact (touches_pending _ _ _ Ht)|exact Hnone].
Defined.
