(* ===== verification/EventsReaderController.v ===== *)
(** * The reconciler of the cloud events reader: internal/controllers/events-reader *)

From S2P Require Import Prelude GoStrings KubeTypes Api Client Labels Operator Status Component.
From S2P Require Import Credentials Reconcilers Defaults Builder EventsReaderBuilder Files.
From S2P Require Import ComponentRun.

Section EventsReader.
Context {W : Type} `{KubeClient W}.

(** The builders dereference [cr.Spec.CloudEventsReader]. *)
Definition eventsreader_handleDeployment (cfg : Defaults) : M (op W) unit :=
  handle_object LoggingServiceSpec_CloudEventsReader (λ _, panic)
    (λ cr spec, inr (eventsreader_Deployment cr spec cfg)) reconcile_Deployment.

Definition eventsreader_handleService (cfg : Defaults) : M (op W) unit :=
  handle_object LoggingServiceSpec_CloudEventsReader (λ _, panic)
    (λ cr spec, inr (eventsreader_Service cr spec cfg)) reconcile_Service.

Definition eventsreader_uninstall : M (op W) unit :=
  cr ← the_cr;
  let meta := named EventsReaderComponentName (GetNamespace cr) in
  logged (delete_existing ((zero : Deployment) <| Deployment_ObjectMeta := meta |>));;
  logged (delete_existing ((zero : Service) <| Service_ObjectMeta := meta |>));;
  logged (delete_existing (mkServiceAccount meta)).

Definition eventsreader_installed (cr : LoggingService) : bool :=
  CloudEventsReader_IsInstall (LoggingServiceSpec_CloudEventsReader (LoggingService_Spec cr)).

Definition eventsreader_install (cfg : Defaults) : M (op W) unit :=
  eventsreader_handleDeployment cfg;;
  eventsreader_handleService cfg.

Definition eventsreader_Run (cfg : Defaults) : M (op W) unit :=
  component_run EventsReaderStatus "Start reconcile of Events Reader" EventsReaderComponentName
    eventsreader_installed (eventsreader_install cfg) eventsreader_uninstall.
End EventsReader.

Section properties.
Context {W : Type} `{KubeClientLaws W}.
Implicit Types (s : op W).

(** The objects of the events reader in a namespace. *)
Definition eventsreader_keys (ns : string) : list ObjectKey :=
  [ mkObjectKey KDeployment ns EventsReaderComponentName; mkObjectKey KService ns EventsReaderComponentName;
    mkObjectKey KServiceAccount ns EventsReaderComponentName ].

Definition eventsreader_deployed (cfg : Defaults) (cr : LoggingService) (m : gmap ObjectKey Object) : Prop :=
  ∃ spec, LoggingServiceSpec_CloudEventsReader (LoggingService_Spec cr) = Some spec ∧
    deployed owned_Deployment (eventsreader_Deployment cr spec cfg) m ∧
    deployed owned_Service (eventsreader_Service cr spec cfg) m.

Lemma eventsreader_install_wp cfg s :
  eventsreader_installed (op_cr s) = true →
  let K := eventsreader_keys (GetNamespace (op_cr s)) in
  wp (eventsreader_install cfg)
    (λ _ s', touches K s s' ∧ eventsreader_deployed cfg (op_cr s') (objects (op_world s')))
    (λ _ s', touches K s s') s.
Proof.
  intros Hinst K. destruct (LoggingServiceSpec_CloudEventsReader (spec_of s)) as [spec|] eqn:Hspec.
  2: { unfold eventsreader_installed in Hinst. fold (spec_of s) in Hinst. by rewrite Hspec in Hinst. }
  assert (Hself : ∀ s', changes K (runtime_set (own_runtime s) s) s' ↔ changes K s s')
    by (intros s'; by rewrite runtime_set_own).
  unfold eventsreader_install. rewrite wp_bind.
  eapply wp_mono; [eapply (handle_object_wp (deployed owned_Deployment)) with (kind := KDeployment)
      (name := EventsReaderComponentName) (K := K); [done|apply reconcile_Deployment_changes
      |by intros cr d [= <-]|exact Hspec|left|by apply Hself]| |].
  2: { intros e s' Hc%Hself. by apply changes_touches. }
  intros [] s1 (Hc1 & Hd1 & d & Hd & Hkd & Hdep).
  eapply wp_mono; [eapply (handle_object_wp (deployed owned_Service)) with (kind := KService)
      (name := EventsReaderComponentName) (K := K); [done|apply reconcile_Service_changes
      |by intros cr d' [= <-]|exact Hspec|right; left|exact Hc1]| |].
  2: { intros e s' Hc%Hself. by apply changes_touches. }
  intros [] s2 (Hc2 & Hd2 & svc & Hsvc & Hksvc & Hdep2).
  injection Hd as <-. injection Hsvc as <-. apply Hself in Hc1, Hc2.
  split; [by apply changes_touches|]. exists spec.
  rewrite (changes_cr _ _ _ Hc2) in *. rewrite (changes_cr _ _ _ Hc1) in *. split_and!; [done| |done].
  eapply deployed_same_but; [exact Hd2|by rewrite Hkd|exact Hdep].
Qed.

Lemma eventsreader_uninstall_wp s :
  wp eventsreader_uninstall (λ _ s', touches (eventsreader_keys (GetNamespace (op_cr s))) s s')
    (λ _ _, False) s.
Proof.
  unfold eventsreader_uninstall, the_cr. rewrite wp_bind, wp_gets. set (K := eventsreader_keys _).
  eapply (wp_touches_seq K); [reflexivity|apply logged_delete_wp; left|intros [] s1 Ht1].
  eapply (wp_touches_seq K); [exact Ht1|apply logged_delete_wp; right; left|intros [] s2 Ht2].
  eapply wp_mono; [apply (logged_delete_wp K); right; right; left| |done].
  intros [] s3 Ht3. by etrans.
Qed.

Lemma eventsreader_Run_wp `{!SpecStable W} cfg s :
  let K := eventsreader_keys (GetNamespace (op_cr s)) in
  wp (eventsreader_Run cfg)
    (λ _ s',
      if eventsreader_installed (op_cr s) then
        touches K (s <| op_pending ::= λ ps, ps ++ [mkComponent EventsReaderComponentName EventsReaderStatus] |>) s' ∧
        eventsreader_deployed cfg (op_cr s') (objects (op_world s'))
      else touches K s s')
    (λ _ s', eventsreader_installed (op_cr s) = true ∧ touches K s s') s.
Proof.
  intros K. apply component_run_wp with (P := λ s',
    eventsreader_deployed cfg (op_cr s') (objects (op_world s'))).
  - intros s' Ht. unfold eventsreader_installed. fold (spec_of s) (spec_of s').
    by rewrite (touches_spec_field LoggingServiceSpec_CloudEventsReader _ _ _ (λ _ _, eq_refl) Ht).
  - intros s' Ht Hi. pose proof (touches_namespace _ _ _ Ht) as Hns. unfold K. rewrite <- Hns.
    by apply eventsreader_install_wp.
  - intros s' Ht. pose proof (touches_namespace _ _ _ Ht) as Hns. unfold K. rewrite <- Hns.
    apply eventsreader_uninstall_wp.
  - done.
Qed.

(** A reconcile of the events reader.  When it is set, a run that succeeds leaves
    its Deployment and its Service deployed as the builder describes them, and the
    events reader joins the components to wait for; a run that fails adds nothing to
    them, and only an installation can fail.  On every path the objects of the cluster
    other than its own three (its ServiceAccount is only ever deleted) are untouched. *)
Theorem eventsreader_Run_deploys `{!SpecStable W} cfg s :
  let K := eventsreader_keys (GetNamespace (op_cr s)) in
  wp (eventsreader_Run cfg)
    (λ _ s',
      if eventsreader_installed (op_cr s) then
        touches K (s <| op_pending ::= λ ps, ps ++ [mkComponent EventsReaderComponentName EventsReaderStatus] |>) s' ∧
        eventsreader_deployed cfg (op_cr s') (objects (op_world s'))
      else touches K s s')
    (λ _ s', eventsreader_installed (op_cr s) = true ∧ touches K s s') s.
Proof. apply eventsreader_Run_wp. Qed.
End properties.

(** ** Witness: an installation beside another Service *)

Lemma eventsreader_Run_deploys_witness :
  let other := OService ((zero : Service) <| Service_ObjectMeta := named "other" "ns" |>) in
  let s := example_state other (zero <| LoggingServiceSpec_CloudEventsReader := Some zero |>) in
  let s' := (eventsreader_Run defaults_Get s).1 in
  op_pending s' = [mkComponent EventsReaderComponentName EventsReaderStatus] ∧
  objects (op_world s') !! object_key other = Some other.
Proof.
  intros other s s'. run_theorem (eventsreader_Run_deploys defaults_Get s) tt Hw.
  destruct Hw as (Ht & _). split; [exact (touches_pending _ _ _ Ht)|].
  rewrite (touches_objects _ _ _ Ht); [by vm_compute|].
  apply (bool_decide_unpack _). by vm_compute.
Defined.
