(* ===== verification/HAController.v ===== *)
(** * The reconciler of FluentBit in the high-availability mode:
      internal/controllers/fluentbit-forwarder-aggregator

    The aggregator is applied first, and the forwarder only once the aggregator's pods
    are updated and ready. *)

From S2P Require Import Prelude GoStrings KubeTypes Api Client Labels Operator Status Component.
From S2P Require Import Credentials Reconcilers PodManager Waiter Defaults Builder.
From S2P Require Import FluentbitBuilder HABuilder Files ComponentRun FluentbitController.

Section HA.
Context {W : Type} `{KubeClient W} `{Externals}.

(** ** manifest.go *)

Definition ha_aggregator_of (sp : LoggingServiceSpec) : option FluentbitAggregator :=
  LoggingServiceSpec_Fluentbit sp ≫= Fluentbit_Aggregator.

(** [cr.Spec.Fluentbit] where the aggregator must be set as well. *)
Definition ha_both (sp : LoggingServiceSpec) : option Fluentbit :=
  fb ← LoggingServiceSpec_Fluentbit sp; _ ← Fluentbit_Aggregator fb; Some fb.

Definition ha_nil (cr : LoggingService) : error :=
  errors_New ("fluentbit or aggregator configuration in Logging Service " +:+ GetName cr +:+
              " is nil in the namespace " +:+ GetNamespace cr).

Definition ha_label_input (name : string) (labels : gomap) : LabelInput :=
  zero <| LabelInput_Name := name |> <| LabelInput_Component := ComponentBackend |>
       <| LabelInput_ComponentLabels := labels |>.

Definition ha_k8s_app : gomap := Some {[ "k8s-app" := "fluent-bit" ]}.

(** [forwarderConfigMap] for a custom resource that has its runtime set. *)
Definition ha_forwarderConfigMap (cr : LoggingService) (spec : Fluentbit) : error + ConfigMap :=
  match DataFromDirectory (ParseTemplate _) forwarderConfigs (ToParams cr)
          ForwarderFluentbitConfigMapDirectory with
  | inl err => inl err
  | inr data =>
      let data := set_if (nonempty (Fluentbit_CustomInputConf spec)) "input-custom.conf"
                    (Fluentbit_CustomInputConf spec) data in
      let data := set_if (nonempty (Fluentbit_CustomFilterConf spec)) "filter-custom.conf"
                    (Fluentbit_CustomFilterConf spec) data in
      let data := copy_if (Fluentbit_CustomLuaScriptConf spec) data in
      let configMap := mkConfigMap (named ForwarderFluentbitComponentName (GetNamespace cr))
        (Some data) None in
      inr (SetLabelsForResource
        (ha_label_input ForwarderFluentbitComponentName (Fluentbit_Labels spec)) ha_k8s_app configMap)
  end.

(** [aggregatorConfigSecret] for a custom resource that has its runtime set. *)
Definition ha_aggregator_secret (cr : LoggingService) (spec : FluentbitAggregator)
    (credentials : outputCredentials) : error + Secret :=
  match DataFromDirectory (ParseTemplate _) aggregatorConfigs
          (mkTemplateParameters (ToParams cr) credentials) AggregatorFluentbitConfigMapDirectory with
  | inl err => inl err
  | inr data =>
      let data :=
        match FluentbitAggregator_Output spec ≫= OutputFluentbit_Loki with
        | Some loki =>
            set_if (LokiFluentbit_Enabled loki && nonempty (LokiFluentbit_LabelsMapping loki))
              "loki-labels.json" (LokiFluentbit_LabelsMapping loki) data
        | None => data
        end in
      let data := set_if (nonempty (FluentbitAggregator_CustomFilterConf spec)) "filter-custom.conf"
                    (FluentbitAggregator_CustomFilterConf spec) data in
      let data := set_if (nonempty (FluentbitAggregator_CustomOutputConf spec)) "output-custom.conf"
                    (FluentbitAggregator_CustomOutputConf spec) data in
      let data := copy_if (FluentbitAggregator_CustomLuaScriptConf spec) data in
      let secret := mkSecret (named AggregatorFluentbitComponentName (GetNamespace cr)) "Opaque"
        (Some (StringMapToByteMap data)) in
      inr (SetLabelsForResource
        (ha_label_input AggregatorFluentbitComponentName (FluentbitAggregator_Labels spec)) ha_k8s_app
        secret)
  end.

(** ** handler.go *)

Definition ha_Equal (source target : ConfigMap) : bool :=
  bool_decide (ConfigMap_Data source = ConfigMap_Data target)
  && bool_decide (ConfigMap_BinaryData source = ConfigMap_BinaryData target)
  && bool_decide (GetLabels source = GetLabels target).

(** Whether the ConfigMap was created, and whether it was updated. *)
Definition ha_CreateOrUpdate (configMap : ConfigMap) : M (op W) (bool * bool) :=
  '(configMap, err) ← CreateResource configMap true;
  match err with
  | None => mret (true, false)
  | Some err =>
      if IsAlreadyExists err then
        existedConfigMap ← GetResource (zero <| ConfigMap_ObjectMeta := ConfigMap_ObjectMeta configMap |>);
        if negb (ha_Equal existedConfigMap configMap) then
          UpdateResource configMap;;
          mret (false, true)
        else mret (false, false)
      else fail err
  end.

(** The same body as [CreateOrUpdate] with one result for both: a creation counts as
    an update. *)
Definition ha_updateConfigMap (configMap : ConfigMap) : M (op W) bool :=
  '(created, updated) ← ha_CreateOrUpdate configMap;
  mret (created || updated).

Definition ha_handleForwarderConfigMap : DynamicParameters → M (op W) unit :=
  handle_workload LoggingServiceSpec_Fluentbit (λ cr, fail (fluentbit_nil cr))
    ha_forwarderConfigMap (λ m, _ ← ha_updateConfigMap m; mret tt).

Definition ha_handleForwarderDaemonSet (cfg : Defaults) : DynamicParameters → M (op W) unit :=
  handle_workload LoggingServiceSpec_Fluentbit (λ cr, fail (fluentbit_nil cr))
    (λ cr spec, ha_ForwarderDaemonSet ParseQuantity cr spec cfg) reconcile_DaemonSet.

Definition ha_handleForwarderService : M (op W) unit :=
  handle_object ha_both (λ cr, fail (ha_nil cr)) (λ cr spec, inr (ha_ForwarderService cr spec))
    reconcile_Service.

Definition ha_resolveAggregatorOutputCredentials : M (op W) outputCredentials :=
  cr ← the_cr;
  resolve_fluentbit_output (ha_aggregator_of (LoggingService_Spec cr) ≫= FluentbitAggregator_Output).

Definition ha_aggregatorConfigSecret : DynamicParameters → outputCredentials → M (op W) Secret :=
  config_secret ha_aggregator_of ha_nil ha_aggregator_secret.

Definition ha_handleAggregatorConfigSecret (dp : DynamicParameters) : M (op W) unit :=
  handle_config_secret AggregatorFluentbitComponentName ha_resolveAggregatorOutputCredentials
    (ha_aggregatorConfigSecret dp).

(** The builder dereferences the aggregator. *)
Definition ha_applyAggregatorStatefulSet (cfg : Defaults) : M (op W) unit :=
  handle_object ha_aggregator_of (λ _, panic)
    (λ cr spec, ha_AggregatorStatefulSet ParseQuantity cr spec cfg) reconcile_StatefulSet.

(** [time.Duration(minutes) * time.Minute], in 64 bits. *)
Definition ha_timeout (spec : FluentbitAggregator) : Z :=
  if negb (Z.eqb (FluentbitAggregator_StartupTimeout spec) 0)
  then int64 (FluentbitAggregator_StartupTimeout spec * Minute)
  else FluentbitAggregatorPendingTimeout.

Definition ha_waitForAggregator : M (op W) unit :=
  sleep InitialDelay;;
  cr ← the_cr;
  spec ← deref (ha_aggregator_of (LoggingService_Spec cr));
  started ← lift (WaitForStatefulsetUpdated (GetNamespace cr) AggregatorFluentbitComponentName
                    (ha_timeout spec));
  if negb (started : bool) then
    UpdateStatus HAFluentStatus Failed false "Fluent bit aggregator is not started";;
    fail (errors_New "fluent bit aggregator is not started")
  else mret tt.

Definition ha_handleAggregatorStatefulSet (cfg : Defaults) : M (op W) unit :=
  ha_applyAggregatorStatefulSet cfg;;
  ha_waitForAggregator.

Definition ha_handleAggregatorService : M (op W) unit :=
  handle_object ha_aggregator_of (λ _, panic) (λ cr spec, inr (ha_AggregatorService cr spec))
    reconcile_Service.

(** [deleteDaemonSet], [deleteStatefulSet], [deleteConfigMap], [deleteService] and
    [deleteSecret]. *)
Definition ha_deleteDaemonSet (cr : LoggingService) (name : string) : M (op W) unit :=
  delete_existing ((zero : DaemonSet) <| DaemonSet_ObjectMeta := named name (GetNamespace cr) |>).
Definition ha_deleteStatefulSet (cr : LoggingService) (name : string) : M (op W) unit :=
  delete_existing ((zero : StatefulSet) <| StatefulSet_ObjectMeta := named name (GetNamespace cr) |>).
Definition ha_deleteConfigMap (cr : LoggingService) (name : string) : M (op W) unit :=
  delete_existing ((zero : ConfigMap) <| ConfigMap_ObjectMeta := named name (GetNamespace cr) |>).
Definition ha_deleteService (cr : LoggingService) (name : string) : M (op W) unit :=
  delete_existing ((zero : Service) <| Service_ObjectMeta := named name (GetNamespace cr) |>).
Definition ha_deleteSecret (cr : LoggingService) (name : string) : M (op W) unit :=
  delete_existing ((zero : Secret) <| Secret_ObjectMeta := named name (GetNamespace cr) |>).

(** ** reconciler.go *)

Definition ha_installed (cr : LoggingService) : bool :=
  Fluentbit_IsInstall (LoggingServiceSpec_Fluentbit (LoggingService_Spec cr)) &&
  match ha_aggregator_of (LoggingService_Spec cr) with
  | Some aggregator => FluentbitAggregator_Install aggregator
  | None => false
  end.

(** The Graylog output is on without a host or a port. *)
Definition ha_misconfigured (spec : FluentbitAggregator) : bool :=
  FluentbitAggregator_GraylogOutput spec &&
  (String.eqb (FluentbitAggregator_GraylogHost spec) "" || Z.eqb (FluentbitAggregator_GraylogPort spec) 0).

Definition ha_install (dp : DynamicParameters) (cfg : Defaults) : M (op W) unit :=
  cr ← the_cr;
  spec ← deref (ha_aggregator_of (LoggingService_Spec cr));
  if ha_misconfigured spec then
    fail (errors_New "configuration error: fluentbit.aggregator.graylogHost and fluentbit.aggregator.graylogPort are required with Graylog output")
  else
    ha_handleAggregatorConfigSecret dp;;
    ha_handleAggregatorStatefulSet cfg;;
    ha_handleAggregatorService;;
    ha_handleForwarderConfigMap dp;;
    ha_handleForwarderDaemonSet cfg dp;;
    ha_handleForwarderService.

Definition ha_uninstall : M (op W) unit :=
  cr ← the_cr;
  logged (ha_deleteDaemonSet cr ForwarderFluentbitComponentName);;
  logged (ha_deleteConfigMap cr ForwarderFluentbitComponentName);;
  logged (ha_deleteService cr ForwarderFluentbitComponentName);;
  logged (ha_deleteStatefulSet cr AggregatorFluentbitComponentName);;
  logged (ha_deleteSecret cr AggregatorFluentbitComponentName);;
  logged (DeleteLegacyConfigMap (GetNamespace cr) AggregatorFluentbitComponentName);;
  logged (ha_deleteService cr AggregatorFluentbitComponentName).

Definition ha_Run (dp : DynamicParameters) (cfg : Defaults) : M (op W) unit :=
  component_run HAFluentStatus "Start reconcile of Fluentbit-Forwarder-Aggregator"
    ForwarderFluentbitComponentName ha_installed (ha_install dp cfg) ha_uninstall.
End HA.

(** ** Lemmas *)

Section lemmas.
Context {W : Type} `{KubeClientLaws W}.
Implicit Types (s : op W).

(** The ConfigMap under the key has the desired data and labels. *)
Definition has_config_map (cm : ConfigMap) (m : gmap ObjectKey Object) : Prop :=
  ∃ st, m !! key_of cm = Some (OConfigMap st) ∧ ConfigMap_Data st = ConfigMap_Data cm ∧
    GetLabels st = GetLabels cm.

Lemma has_config_map_same_but cm k m m' :
  same_but k m m' → key_of cm ≠ k → has_config_map cm m → has_config_map cm m'.
Proof. intros Hm Hk (st & Hst & ?). exists st. by rewrite Hm. Qed.

Lemma has_config_map_stored w (cm : ConfigMap) m :
  has_config_map cm (<[key_of cm := stored w (OConfigMap cm)]> m).
Proof.
  destruct (stored_configmap w cm) as (st & Hst & Hd & _). exists st.
  rewrite lookup_insert_eq, Hst. split_and!; [done|done|].
  pose proof (stored_labels w (OConfigMap cm)) as Hl. by rewrite Hst in Hl.
Qed.

Lemma has_config_map_owned setRef cr (cm : ConfigMap) m :
  has_config_map (owned setRef cr cm) m ↔ has_config_map cm m.
Proof.
  unfold has_config_map. rewrite owned_key, owned_labels.
  assert (Hd : ConfigMap_Data (owned setRef cr cm) = ConfigMap_Data cm).
  { unfold owned. destruct setRef; [|done]. case_match eqn:Hs; [done|].
    apply set_controller_reference_key in Hs as (_ & _ & refs & [->| ->]); done. }
  by rewrite Hd.
Qed.

(** Every branch of [updateConfigMap]. *)
Lemma ha_updateConfigMap_wp cm s :
  wp (_ ← ha_updateConfigMap cm; mret tt)
    (λ _ s', changes [key_of cm] s s' ∧ has_config_map cm (objects (op_world s')))
    (λ _ s', changes [] s s') s.
Proof.
  unfold ha_updateConfigMap, ha_CreateOrUpdate. rewrite !wp_bind.
  eapply wp_mono; [apply CreateResource_wp| |done].
  intros [c err] s1. cbn [fst snd]. intros (Hc & -> & Hr). set (own := owned true (op_cr s) cm) in *.
  assert (Hkey : key_of own = key_of cm) by apply owned_key.
  assert (Hdone : ∀ s', cluster_only s s' → same_but (key_of cm) (objects (op_world s)) (objects (op_world s')) →
    has_config_map own (objects (op_world s')) →
    changes [key_of cm] s s' ∧ has_config_map cm (objects (op_world s'))).
  { intros s' Hc' Hb Hm%has_config_map_owned. split; [|done]. split; [done|]. intros k Hk. apply Hb.
    intros ->. apply Hk. left. }
  destruct err as [e|].
  - destruct Hr as [Hq _]. destruct (IsAlreadyExists e); [|by rewrite wp_fail; apply changes_quiet].
    rewrite wp_bind. eapply wp_mono; [apply GetResource_wp| |]; cbn beta.
    2: { intros e' s2 [Hq2 _]. apply changes_quiet. by etrans. }
    intros old s2 [Hq2 Hold]. assert (Hq12 : quiet s s2) by by etrans.
    change (key_of _) with (key_of own) in Hold. rewrite (quiet_objects _ _ Hq) in Hold.
    destruct (ha_Equal old own) eqn:Heq; cbn [negb].
    + rewrite !wp_ret. apply Hdone; [auto|by rewrite (quiet_objects _ _ Hq12)|].
      unfold ha_Equal in Heq. rewrite !andb_true_iff, !bool_decide_eq_true in Heq.
      destruct Heq as [[Hd _] Hl]. exists old. by rewrite (quiet_objects _ _ Hq12).
    + rewrite wp_bind. unfold UpdateResource. rewrite wp_lift.
      eapply wp_mono; [apply client_Update_spec| |].
      * rewrite object_key_to_object. intros [] w' (_ & Ho & Hnow). rewrite !wp_ret.
        apply Hdone; cbn [op_world update]; [etrans; [apply (quiet_cluster_only _ _ Hq12)|auto]| |].
        -- rewrite Ho, Hkey, (quiet_objects _ _ Hq12). intros k Hk. by apply lookup_insert_ne.
        -- rewrite Ho. apply has_config_map_stored.
      * intros e' w' (Ho & Hnow). apply changes_quiet. etrans; [exact Hq12|auto].
  - destruct Hr as [Hnone Ho]. rewrite !wp_ret. apply Hdone; [done| |]; rewrite Ho, <- Hkey.
    + intros k Hk. by apply lookup_insert_ne.
    + apply has_config_map_stored.
Qed.

(** Waiting for the aggregator. *)
Lemma ha_waitForAggregator_wp `{!SpecStable W} spec s :
  ha_aggregator_of (spec_of s) = Some spec →
  wp ha_waitForAggregator
    (λ _ s', keeps s s' ∧
       statefulset_up (objects (op_world s')) (GetNamespace (op_cr s)) AggregatorFluentbitComponentName = true)
    (λ _ s', keeps s s') s.
Proof.
  intros Hspec. unfold ha_waitForAggregator, sleep, the_cr. rewrite wp_bind, wp_modify, wp_bind, wp_gets.
  cbn [op_cr update]. fold (spec_of s). rewrite Hspec, wp_bind, wp_deref, wp_bind, wp_lift.
  eapply wp_mono; [apply WaitForStatefulsetUpdated_wp| |by split].
  intros [] w' Hup; cbn [negb].
  - rewrite wp_ret. split; [by split|by apply Hup].
  - rewrite wp_bind. eapply wp_mono; [apply UpdateStatus_wp| |done]. intros [] s' [Hf _].
    rewrite wp_fail. apply (touches_cr_frame []) in Hf. apply touches_keeps in Hf.
    etrans; [|exact Hf]. by split.
Qed.

Lemma ha_aggregator_runtime sp r : ha_aggregator_of (with_runtime r sp) = ha_aggregator_of sp.
Proof. done. Qed.

Lemma ha_both_runtime sp r : ha_both (with_runtime r sp) = ha_both sp.
Proof. done. Qed.
End lemmas.

Section keys.
Context {W : Type} `{KubeClientLaws W} `{Externals}.

Lemma ha_aggregator_secret_key cr spec c secret :
  ha_aggregator_secret cr spec c = inr secret →
  key_of secret = mkObjectKey KSecret (GetNamespace cr) AggregatorFluentbitComponentName.
Proof. unfold ha_aggregator_secret. destruct (DataFromDirectory _ _ _ _); [done|]. by intros [= <-]. Qed.

Lemma ha_forwarderConfigMap_key cr spec cm :
  ha_forwarderConfigMap cr spec = inr cm →
  key_of cm = mkObjectKey KConfigMap (GetNamespace cr) ForwarderFluentbitComponentName.
Proof. unfold ha_forwarderConfigMap. destruct (DataFromDirectory _ _ _ _); [done|]. by intros [= <-]. Qed.

Lemma ha_ForwarderDaemonSet_key cr spec cfg ds :
  ha_ForwarderDaemonSet ParseQuantity cr spec cfg = inr ds →
  key_of ds = mkObjectKey KDaemonSet (GetNamespace cr) ForwarderFluentbitComponentName.
Proof. unfold ha_ForwarderDaemonSet. destruct (ha_forwarderStorage _ _ _); [done|]. by intros [= <-]. Qed.

Lemma ha_AggregatorStatefulSet_key cr spec cfg ss :
  ha_AggregatorStatefulSet ParseQuantity cr spec cfg = inr ss →
  key_of ss = mkObjectKey KStatefulSet (GetNamespace cr) AggregatorFluentbitComponentName.
Proof.
  unfold ha_AggregatorStatefulSet. destruct (ha_storage_volumes _ _); [done|].
  destruct (ha_claims _ _ _); [done|]. intros [= <-]. by destruct (ha_bindVolume spec).
Qed.
End keys.

Section properties.
Context {W : Type} `{KubeClientLaws W} `{Externals}.
Implicit Types (s : op W).

Definition ha_forwarder_keys (ns : string) : list ObjectKey :=
  [ mkObjectKey KConfigMap ns ForwarderFluentbitComponentName;
    mkObjectKey KDaemonSet ns ForwarderFluentbitComponentName;
    mkObjectKey KService ns ForwarderFluentbitComponentName ].

(** The objects of the high-availability mode in a namespace. *)
Definition ha_keys (ns : string) : list ObjectKey :=
  ha_forwarder_keys ns ++
  [ mkObjectKey KStatefulSet ns AggregatorFluentbitComponentName;
    mkObjectKey KSecret ns AggregatorFluentbitComponentName;
    mkObjectKey KConfigMap ns AggregatorFluentbitComponentName;
    mkObjectKey KService ns AggregatorFluentbitComponentName ].

(** Keys of different kinds or names. *)
Ltac keys_differ :=
  let Hin := fresh in
  unfold ha_forwarder_keys; intros Hin; repeat (apply elem_of_cons in Hin as [Hin|Hin]; [discriminate Hin|]);
  by apply not_elem_of_nil in Hin.

(** The forwarder as it must be deployed. *)
Definition ha_forwarder_deployed (cfg : Defaults) (cr : LoggingService) (m : gmap ObjectKey Object) : Prop :=
  ∃ spec cm ds, LoggingServiceSpec_Fluentbit (LoggingService_Spec cr) = Some spec ∧
    ha_forwarderConfigMap cr spec = inr cm ∧ has_config_map cm m ∧
    ha_ForwarderDaemonSet ParseQuantity cr spec cfg = inr ds ∧ deployed owned_DaemonSet ds m ∧
    deployed owned_Service (ha_ForwarderService cr spec) m.

(** The three handlers of the forwarder. *)
Lemma ha_forwarder_install_wp dp cfg spec s :
  ha_both (spec_of s) = Some spec →
  let K := ha_forwarder_keys (GetNamespace (op_cr s)) in
  wp (ha_handleForwarderConfigMap dp;; ha_handleForwarderDaemonSet cfg dp;; ha_handleForwarderService)
    (λ _ s', changes K (runtime_set dp s) s' ∧
       ha_forwarder_deployed cfg (op_cr s') (objects (op_world s')))
    (λ _ s', changes K (runtime_set dp s) s') s.
Proof.
  intros Hboth K.
  assert (Hspec : LoggingServiceSpec_Fluentbit (spec_of s) = Some spec).
  { unfold ha_both in Hboth. destruct (LoggingServiceSpec_Fluentbit (spec_of s)) as [fb|]; [|done].
    cbn in Hboth. destruct (Fluentbit_Aggregator fb); [|done]. by injection Hboth as <-. }
  rewrite wp_bind. eapply wp_mono; [eapply (handle_workload_first_wp has_config_map)
    with (kind := KConfigMap) (name := ForwarderFluentbitComponentName) (K := K);
    [apply ha_updateConfigMap_wp|intros cr d; apply ha_forwarderConfigMap_key|exact Hspec|left]| |done].
  intros [] s1 (Hc1 & Hd1 & cm & Hcm & Hkcm & Hdep1). rewrite wp_bind.
  eapply wp_mono; [eapply (handle_workload_wp (deployed owned_DaemonSet))
    with (kind := KDaemonSet) (name := ForwarderFluentbitComponentName) (K := K);
    [done|apply reconcile_DaemonSet_changes|intros cr d; apply ha_ForwarderDaemonSet_key|exact Hspec
    |right; left|exact Hc1]| |done].
  intros [] s2 (Hc2 & Hd2 & ds & Hds & Hkds & Hdep2).
  eapply wp_mono; [eapply (handle_object_wp (deployed owned_Service) ha_both)
    with (kind := KService) (name := ForwarderFluentbitComponentName) (K := K) (spec := spec);
    [apply ha_both_runtime|apply reconcile_Service_changes|by intros cr d [= <-]|exact Hboth
    |right; right; left|exact Hc2]| |done].
  intros [] s3 (Hc3 & Hd3 & svc & Hsvc & Hksvc & Hdep3). injection Hsvc as <-.
  pose proof (changes_cr _ _ _ Hc1) as Hcr1. pose proof (changes_cr _ _ _ Hc2) as Hcr2.
  pose proof (changes_cr _ _ _ Hc3) as Hcr3. rewrite Hcr3, Hcr2, Hcr1 in *.
  split; [done|]. exists spec, cm, ds. split_and!; try done.
  - eapply has_config_map_same_but; [exact Hd3|by rewrite Hkcm|].
    eapply has_config_map_same_but; [exact Hd2|by rewrite Hkcm|exact Hdep1].
  - eapply deployed_same_but; [exact Hd3|by rewrite Hkds|exact Hdep2].
Qed.

(** The aggregator: its configuration, its StatefulSet up, and its Service. *)
Lemma ha_applyAggregatorStatefulSet_wp cfg spec s :
  ha_aggregator_of (spec_of s) = Some spec →
  wp (ha_applyAggregatorStatefulSet cfg)
    (λ _ s', changes [mkObjectKey KStatefulSet (GetNamespace (op_cr s)) AggregatorFluentbitComponentName] s s' ∧
       ∃ ss, ha_AggregatorStatefulSet ParseQuantity (op_cr s) spec cfg = inr ss ∧
         deployed owned_StatefulSet ss (objects (op_world s')))
    (λ _ s', keeps s s') s.
Proof.
  intros Hspec. set (K := [_]).
  assert (Hself : ∀ s', changes K (runtime_set (own_runtime s) s) s' ↔ changes K s s')
    by (intros s'; by rewrite runtime_set_own).
  eapply wp_mono; [eapply (handle_object_wp (deployed owned_StatefulSet) ha_aggregator_of)
    with (kind := KStatefulSet) (name := AggregatorFluentbitComponentName) (K := K) (spec := spec);
    [apply ha_aggregator_runtime|apply reconcile_StatefulSet_changes
    |intros cr d; apply ha_AggregatorStatefulSet_key|exact Hspec|left|by apply Hself]| |].
  - intros [] s1 (Hc1%Hself & _ & ss & Hss & _ & Hdep). rewrite (changes_cr _ _ _ Hc1) in Hss.
    split; [done|by exists ss].
  - intros e s1 Hc%Hself. by eapply touches_keeps, changes_touches.
Qed.

Lemma ha_handleAggregatorService_wp spec s :
  ha_aggregator_of (spec_of s) = Some spec →
  wp ha_handleAggregatorService
    (λ _ s', changes [mkObjectKey KService (GetNamespace (op_cr s)) AggregatorFluentbitComponentName] s s' ∧
       deployed owned_Service (ha_AggregatorService (op_cr s') spec) (objects (op_world s')))
    (λ _ s', keeps s s') s.
Proof.
  intros Hspec. set (K := [_]).
  assert (Hself : ∀ s', changes K (runtime_set (own_runtime s) s) s' ↔ changes K s s')
    by (intros s'; by rewrite runtime_set_own).
  eapply wp_mono; [eapply (handle_object_wp (deployed owned_Service) ha_aggregator_of)
    with (kind := KService) (name := AggregatorFluentbitComponentName) (K := K) (spec := spec);
    [apply ha_aggregator_runtime|apply reconcile_Service_changes|by intros cr d [= <-]|exact Hspec|left
    |by apply Hself]| |].
  - intros [] s1 (Hc1%Hself & _ & svc & Hsvc & _ & Hdep). injection Hsvc as <-. done.
  - intros e s1 Hc%Hself. by eapply touches_keeps, changes_touches.
Qed.

(** The aggregator as it is applied before its start is waited for: its configuration is
    what its templates give with the credentials that the Secrets of [m0] hold, and its
    StatefulSet is what its builder gives. *)
Definition ha_aggregator_applied (cfg : Defaults) (cr : LoggingService) (m0 m : gmap ObjectKey Object) : Prop :=
  ∃ spec credentials secret ss, ha_aggregator_of (LoggingService_Spec cr) = Some spec ∧
    fluentbit_resolved m0 (GetNamespace cr) (FluentbitAggregator_Output spec) credentials ∧
    ha_aggregator_secret cr spec credentials = inr secret ∧ has_config secret m ∧
    ha_AggregatorStatefulSet ParseQuantity cr spec cfg = inr ss ∧ deployed owned_StatefulSet ss m.

(** The two halves of an installation: what is done before the start of the aggregator is
    waited for, and the wait with what follows it. *)
Definition ha_before_wait (dp : DynamicParameters) (cfg : Defaults) : M (op W) unit :=
  ha_handleAggregatorConfigSecret dp;; ha_applyAggregatorStatefulSet cfg.

Definition ha_from_wait (dp : DynamicParameters) (cfg : Defaults) : M (op W) unit :=
  ha_waitForAggregator;; ha_handleAggregatorService;;
  ha_handleForwarderConfigMap dp;; ha_handleForwarderDaemonSet cfg dp;; ha_handleForwarderService.

(** How a successful run that began in [s] and ended in [s'] applied the aggregator. *)
Definition ha_applied (dp : DynamicParameters) (cfg : Defaults) s s' : Prop :=
  ∃ s0 sa s1, touches [] s s0 ∧ ha_before_wait dp cfg s0 = (sa, Ret tt) ∧
    ha_from_wait dp cfg sa = (s1, Ret tt) ∧ op_world s' = op_world s1 ∧ op_cr s' = op_cr s1 ∧
    op_cr sa = op_cr (runtime_set dp s0) ∧
    ha_aggregator_applied cfg (op_cr sa) (objects (op_world s)) (objects (op_world sa)).

(** The StatefulSet applied, and waited for. *)
Lemma ha_handleAggregatorStatefulSet_wp `{!SpecStable W} cfg spec s :
  ha_aggregator_of (spec_of s) = Some spec →
  wp (ha_handleAggregatorStatefulSet cfg)
    (λ _ s', keeps s s' ∧
       statefulset_up (objects (op_world s')) (GetNamespace (op_cr s)) AggregatorFluentbitComponentName = true)
    (λ _ s', keeps s s') s.
Proof.
  intros Hspec. unfold ha_handleAggregatorStatefulSet. rewrite wp_bind.
  eapply wp_mono; [by eapply ha_applyAggregatorStatefulSet_wp| |done]. intros [] s1 [Hc1 _].
  assert (Hk1 : keeps s s1) by by eapply touches_keeps, changes_touches.
  eapply wp_mono; [apply (ha_waitForAggregator_wp spec); by rewrite (keeps_spec_field _ _ _ ha_aggregator_runtime Hk1)| |].
  - intros [] s2 [Hk2 Hup]. rewrite (keeps_namespace _ _ Hk1) in Hup. split; [by etrans|done].
  - intros e s2 Hk2. by etrans.
Qed.

(** What a successful installation leaves: a running aggregator behind its Service,
    with a Graylog output only if it has a host and a port, and the forwarder. *)
Definition ha_deployed (cfg : Defaults) (cr : LoggingService) (m : gmap ObjectKey Object) : Prop :=
  ∃ spec, ha_aggregator_of (LoggingService_Spec cr) = Some spec ∧ ha_misconfigured spec = false ∧
    statefulset_up m (GetNamespace cr) AggregatorFluentbitComponentName = true ∧
    deployed owned_Service (ha_AggregatorService cr spec) m ∧
    ha_forwarder_deployed cfg cr m.

Lemma ha_deployed_agree cfg cr m m' :
  agree (ha_keys (GetNamespace cr)) m m' → ha_deployed cfg cr m → ha_deployed cfg cr m'.
Proof.
  intros Hm (spec & Hspec & Hmis & Hup & Hsvc & fb & cm & ds & Hfb & Hcm & Hconf & Hds & Hdep & Hdsvc).
  assert (Hin : ∀ i k, ha_keys (GetNamespace cr) !! i = Some k → m' !! k = m !! k)
    by (intros i k Hk; by eapply Hm, list_elem_of_lookup_2).
  exists spec. split_and!; [done|done| | |].
  - unfold statefulset_up in *. by rewrite (Hin 3) by done.
  - eapply deployed_agree; [|exact Hsvc]. by apply (Hin 6).
  - exists fb, cm, ds. split_and!; try done.
    + destruct Hconf as (st & Hst & ?). exists st. rewrite (Hin 0); [done|]. by rewrite (ha_forwarderConfigMap_key _ _ _ Hcm).
    + eapply deployed_agree; [|exact Hdep]. rewrite (ha_ForwarderDaemonSet_key _ _ _ _ Hds). by apply (Hin 1).
    + eapply deployed_agree; [|exact Hdsvc]. by apply (Hin 2).
Qed.

Lemma ha_aggregator_both sp spec : ha_aggregator_of sp = Some spec → ∃ fb, ha_both sp = Some fb.
Proof.
  unfold ha_aggregator_of, ha_both. destruct (LoggingServiceSpec_Fluentbit sp) as [fb|]; [|done].
  cbn. intros ->. by exists fb.
Qed.

(** The Service of the aggregator does not depend on the runtime. *)
Lemma ha_AggregatorService_runtime dp s spec :
  ha_AggregatorService (op_cr (runtime_set dp s)) spec = ha_AggregatorService (op_cr s) spec.
Proof. done. Qed.

(** The Service and the forwarder, behind a running aggregator. *)
Lemma ha_install_rest_wp dp cfg spec s :
  ha_aggregator_of (spec_of s) = Some spec → ha_misconfigured spec = false →
  statefulset_up (objects (op_world s)) (GetNamespace (op_cr s)) AggregatorFluentbitComponentName = true →
  wp (ha_handleAggregatorService;;
      ha_handleForwarderConfigMap dp;; ha_handleForwarderDaemonSet cfg dp;; ha_handleForwarderService)
    (λ _ s', keeps s s' ∧ spec_of s' = with_runtime (DynamicParameters_ContainerRuntimeType dp) (spec_of s) ∧
       ha_deployed cfg (op_cr s') (objects (op_world s')))
    (λ _ s', keeps s s') s.
Proof.
  intros Hspec Hmis Hup. rewrite wp_bind.
  eapply wp_mono; [by apply (ha_handleAggregatorService_wp spec)| |done]. intros [] s1 [Hc1 Hsvc].
  pose proof (changes_cr _ _ _ Hc1) as Hcr1.
  assert (Hk1 : keeps s s1) by by eapply touches_keeps, changes_touches.
  destruct (ha_aggregator_both _ _ Hspec) as [fb Hfb].
  assert (Hrun : ∀ K s', changes K (runtime_set dp s1) s' → keeps s s').
  { intros K s' Hc. etrans; [exact Hk1|]. etrans; [apply (touches_keeps [] _ _ (runtime_set_touches _ dp _))|].
    by eapply touches_keeps, changes_touches. }
  eapply wp_mono; [apply (ha_forwarder_install_wp dp cfg fb); unfold spec_of; by rewrite Hcr1| |].
  2: { intros e s2 Hc2. exact (Hrun _ _ Hc2). }
  intros [] s2 [Hc2 Hfw]. pose proof (changes_cr _ _ _ Hc2) as Hcr2.
  split; [exact (Hrun _ _ Hc2)|]. split; [unfold spec_of; rewrite Hcr2; cbn; by rewrite Hcr1|].
  exists spec. rewrite Hcr2. cbn [runtime_set op_cr update_spec]. split_and!; [|done| | |].
  - unfold spec_of in Hspec. by rewrite <- Hspec, <- Hcr1.
  - unfold statefulset_up. change (GetNamespace _) with (GetNamespace (op_cr s1)). rewrite Hcr1.
    rewrite (changes_objects _ _ _ Hc2), (changes_objects _ _ _ Hc1); [exact Hup|keys_differ..].
  - destruct Hsvc as (w & d & Hd & Hf). exists w, d.
    change (ha_AggregatorService _ spec) with (ha_AggregatorService (op_cr (runtime_set dp s1)) spec).
    rewrite ha_AggregatorService_runtime. split; [|done].
    rewrite (changes_objects _ _ _ Hc2); [exact Hd|keys_differ].
  - by rewrite <- Hcr2.
Qed.

(** The configuration Secret of the aggregator, and its StatefulSet. *)
Lemma ha_before_wait_wp dp cfg spec s :
  ha_aggregator_of (spec_of s) = Some spec →
  wp (ha_before_wait dp cfg)
    (λ _ s', op_cr s' = op_cr (runtime_set dp s) ∧ keeps s s' ∧
       ha_aggregator_applied cfg (op_cr s') (objects (op_world s)) (objects (op_world s')))
    (λ _ s', keeps s s') s.
Proof.
  intros Hspec. unfold ha_before_wait. rewrite wp_bind.
  eapply wp_mono; [eapply (handle_config_secret_wp _ _ _ AggregatorFluentbitComponentName _
    (fluentbit_resolved (objects (op_world s)) (GetNamespace (op_cr s)) (FluentbitAggregator_Output spec)));
    [apply ha_aggregator_runtime|apply ha_aggregator_secret_key|exact Hspec|]| |].
  - unfold ha_resolveAggregatorOutputCredentials, the_cr. rewrite wp_bind, wp_gets. fold (spec_of s).
    rewrite Hspec. apply resolve_fluentbit_output_wp.
  - intros [] s1 (Hc1 & c & secret & Hres & Hsec & Hksec & Hconf & _).
    pose proof (changes_cr _ _ _ Hc1) as Hcr1.
    assert (Hk1 : keeps s s1).
    { etrans; [apply (touches_keeps [] _ _ (runtime_set_touches _ dp _))|].
      by eapply touches_keeps, changes_touches. }
    pose proof (keeps_spec_field _ _ _ ha_aggregator_runtime Hk1) as Hspec1. rewrite Hspec in Hspec1.
    eapply wp_mono; [by apply (ha_applyAggregatorStatefulSet_wp cfg spec)| |intros e s2 Hk2; by etrans].
    intros [] s2 (Hc2 & ss & Hss & Hdep). pose proof (changes_cr _ _ _ Hc2) as Hcr2. rewrite Hcr2.
    split_and!; [done|etrans; [exact Hk1|by eapply touches_keeps, changes_touches]|].
    exists spec, c, secret, ss. split_and!; try done.
    + by rewrite (keeps_namespace _ _ Hk1).
    + eapply has_config_same_but; [by eapply changes_same_but| |exact Hconf]. by rewrite Hksec.
  - intros e s1 Ht. exact (touches_keeps _ _ _ Ht).
Qed.

(** The wait, and what follows it. *)
Lemma ha_from_wait_wp `{!SpecStable W} dp cfg spec s :
  ha_aggregator_of (spec_of s) = Some spec → ha_misconfigured spec = false →
  wp (ha_from_wait dp cfg)
    (λ _ s', keeps s s' ∧
       LoggingServiceSpec_ContainerRuntimeType (spec_of s') = DynamicParameters_ContainerRuntimeType dp ∧
       ha_deployed cfg (op_cr s') (objects (op_world s')))
    (λ _ s', keeps s s') s.
Proof.
  intros Hspec Hmis. unfold ha_from_wait. rewrite wp_bind.
  eapply wp_mono; [by apply (ha_waitForAggregator_wp spec)| |done]. intros [] s1 [Hk1 Hup].
  pose proof (keeps_spec_field _ _ _ ha_aggregator_runtime Hk1) as Hspec1. rewrite Hspec in Hspec1.
  eapply wp_mono; [apply (ha_install_rest_wp dp cfg spec); [done..|by rewrite (keeps_namespace _ _ Hk1)]| |].
  - intros [] s2 (Hk2 & Hrun & Hdep). split; [by etrans|]. by rewrite Hrun.
  - intros e s2 Hk2. by etrans.
Qed.

(** An installation is its two halves. *)
Lemma ha_install_halves dp cfg spec s Q E :
  ha_aggregator_of (spec_of s) = Some spec → ha_misconfigured spec = false →
  wp (ha_before_wait dp cfg) (λ _, wp (ha_from_wait dp cfg) Q E) E s → wp (ha_install dp cfg) Q E s.
Proof.
  intros Hspec Hmis Hw. unfold ha_install, the_cr. rewrite wp_bind, wp_gets. fold (spec_of s).
  rewrite Hspec, wp_bind, wp_deref, Hmis, wp_bind. unfold ha_before_wait in Hw. rewrite wp_bind in Hw.
  eapply wp_mono; [exact Hw| |done]. intros [] s1 Hw1. unfold ha_handleAggregatorStatefulSet.
  rewrite !wp_bind. eapply wp_mono; [exact Hw1| |done]. intros [] s2 Hw2.
  unfold ha_from_wait in Hw2. by rewrite wp_bind in Hw2.
Qed.

Lemma ha_install_wp `{!SpecStable W} dp cfg s0 s :
  touches [] s0 s → ha_installed (op_cr s) = true →
  wp (ha_install dp cfg)
    (λ _ s', keeps s s' ∧
       LoggingServiceSpec_ContainerRuntimeType (spec_of s') = DynamicParameters_ContainerRuntimeType dp ∧
       ha_deployed cfg (op_cr s') (objects (op_world s')) ∧ ha_applied dp cfg s0 s')
    (λ _ s', keeps s s') s.
Proof.
  intros Ht Hinst. destruct (ha_aggregator_of (spec_of s)) as [spec|] eqn:Hspec.
  2: { unfold ha_installed in Hinst. fold (spec_of s) in Hinst. by rewrite Hspec, andb_false_r in Hinst. }
  destruct (ha_misconfigured spec) eqn:Hmis.
  { unfold ha_install, the_cr. rewrite wp_bind, wp_gets. fold (spec_of s).
    by rewrite Hspec, wp_bind, wp_deref, Hmis, wp_fail. }
  eapply ha_install_halves; [done..|].
  eapply wp_mono; [by apply wp_self, (ha_before_wait_wp dp cfg spec)| |done].
  intros [] s1 (Hrun1 & Hcr1 & Hk1 & Happ).
  pose proof (keeps_spec_field _ _ _ ha_aggregator_runtime Hk1) as Hspec1. rewrite Hspec in Hspec1.
  eapply wp_mono; [by apply wp_self, (ha_from_wait_wp dp cfg spec)| |intros e s2 Hk2; by etrans].
  intros [] s2 (Hrun2 & Hk2 & Hr & Hdep). split_and!; [by etrans|done|done|].
  rewrite (touches_nil _ _ Ht) in Happ. by exists s, s1, s2.
Qed.

Lemma ha_uninstall_wp s :
  wp ha_uninstall (λ _ s', touches (ha_keys (GetNamespace (op_cr s))) s s') (λ _ _, False) s.
Proof.
  unfold ha_uninstall, the_cr. rewrite wp_bind, wp_gets. set (K := ha_keys _).
  assert (Hin : ∀ i k, K !! i = Some k → k ∈ K) by (intros i k; apply list_elem_of_lookup_2).
  eapply (wp_touches_seq K); [reflexivity|by apply logged_delete_wp, (Hin 1)|intros [] s1 Ht1].
  eapply (wp_touches_seq K); [exact Ht1|by apply logged_delete_wp, (Hin 0)|intros [] s2 Ht2].
  eapply (wp_touches_seq K); [exact Ht2|by apply logged_delete_wp, (Hin 2)|intros [] s3 Ht3].
  eapply (wp_touches_seq K); [exact Ht3|by apply logged_delete_wp, (Hin 3)|intros [] s4 Ht4].
  eapply (wp_touches_seq K); [exact Ht4|by apply logged_delete_wp, (Hin 4)|intros [] s5 Ht5].
  eapply (wp_touches_seq K); [exact Ht5|by apply logged_delete_wp, (Hin 5)|intros [] s6 Ht6].
  eapply wp_mono; [by apply (logged_delete_wp K), (Hin 6)| |done].
  intros [] s7 Ht7. by etrans.
Qed.

(** The aggregator's StatefulSet.  The handler succeeds only when the aggregator's
    replicas are all there and ready at the time it returns: what follows it, the
    Services and the forwarder, finds a running aggregator.  The list of pending
    components and the custom resource's spec are kept on every path. *)
Theorem ha_handleAggregatorStatefulSet_up `{!SpecStable W} cfg spec s :
  ha_aggregator_of (spec_of s) = Some spec →
  wp (ha_handleAggregatorStatefulSet cfg)
    (λ _ s', keeps s s' ∧
       statefulset_up (objects (op_world s')) (GetNamespace (op_cr s)) AggregatorFluentbitComponentName = true)
    (λ _ s', keeps s s') s.
Proof. apply ha_handleAggregatorStatefulSet_wp. Qed.

Lemma ha_Run_wp `{!SpecStable W} dp cfg s :
  wp (ha_Run dp cfg)
    (λ _ s',
      if ha_installed (op_cr s) then
        keeps (s <| op_pending ::= λ ps, ps ++ [mkComponent ForwarderFluentbitComponentName HAFluentStatus] |>) s' ∧
        LoggingServiceSpec_ContainerRuntimeType (spec_of s') = DynamicParameters_ContainerRuntimeType dp ∧
        ha_deployed cfg (op_cr s') (objects (op_world s')) ∧ ha_applied dp cfg s s'
      else touches (ha_keys (GetNamespace (op_cr s))) s s')
    (λ _ s', ha_installed (op_cr s) = true ∧ keeps s s') s.
Proof.
  apply (component_run_rel keeps (touches (ha_keys (GetNamespace (op_cr s)))) (touches_keeps [])
    (λ s1 s2, touches_mono _ _ s1 s2 (list_subseteq_nil _)) keeps_pending_update) with (P := λ s',
    LoggingServiceSpec_ContainerRuntimeType (spec_of s') = DynamicParameters_ContainerRuntimeType dp ∧
    ha_deployed cfg (op_cr s') (objects (op_world s')) ∧ ha_applied dp cfg s s'); [| | |].
  - intros s' Ht. unfold ha_installed, ha_aggregator_of. fold (spec_of s) (spec_of s').
    by rewrite (touches_spec_field LoggingServiceSpec_Fluentbit _ _ _ (λ _ _, eq_refl) Ht).
  - intros s' Ht Hi. by apply ha_install_wp.
  - intros s' Ht. rewrite <- (touches_namespace _ _ _ Ht). apply ha_uninstall_wp.
  - intros s' f (Hr & Hdep & Happ). by split_and!.
Qed.

(** C16: a reconcile of the high-availability mode.  When FluentBit and its aggregator
    are set, a run that succeeds leaves the aggregator's replicas ready behind the
    aggregator's Service, and the forwarder's configuration, pods and Service deployed;
    its Graylog output, if on, has a host and a port; the runtime is recorded; and the
    forwarder joins the components to wait for.  Before it waits for the aggregator it has
    applied it: the Secret holds the configuration rendered with the resolved credentials,
    and the StatefulSet what its builder gives (meanwhile others may change them).  A run that fails adds nothing to them,
    and only an installation can fail.  On every path the custom resource's name and
    its spec, the runtime aside, are kept; and an uninstallation touches the seven objects
    of the mode only. *)
Theorem ha_Run_deploys `{!SpecStable W} dp cfg s :
  wp (ha_Run dp cfg)
    (λ _ s',
      if ha_installed (op_cr s) then
        keeps (s <| op_pending ::= λ ps, ps ++ [mkComponent ForwarderFluentbitComponentName HAFluentStatus] |>) s' ∧
        LoggingServiceSpec_ContainerRuntimeType (spec_of s') = DynamicParameters_ContainerRuntimeType dp ∧
        ha_deployed cfg (op_cr s') (objects (op_world s')) ∧ ha_applied dp cfg s s'
      else touches (ha_keys (GetNamespace (op_cr s))) s s')
    (λ _ s', ha_installed (op_cr s) = true ∧ keeps s s') s.
Proof. apply ha_Run_wp. Qed.

(** Of the two ways to run FluentBit a custom resource installs at most one, and
    one of them exactly when it sets FluentBit; and FluentBit runs in the
    high-availability mode exactly when the aggregator is to be installed. *)
Theorem fluentbit_modes_exclusive cr :
  let fluentbit := LoggingServiceSpec_Fluentbit (LoggingService_Spec cr) in
  fluentbit_installed cr && ha_installed cr = false ∧
  fluentbit_installed cr || ha_installed cr = Fluentbit_IsInstall fluentbit ∧
  (ha_installed cr = true → ∃ fb aggregator, fluentbit = Some fb ∧
     Fluentbit_Aggregator fb = Some aggregator ∧ FluentbitAggregator_Install aggregator = true).
Proof.
  cbn zeta. unfold fluentbit_installed, ha_installed, ha_aggregator_of.
  destruct (LoggingServiceSpec_Fluentbit (LoggingService_Spec cr)) as [fb|]; [|done]. cbn.
  destruct (Fluentbit_Aggregator fb) as [ag|] eqn:Ha; [|done].
  destruct (FluentbitAggregator_Install ag) eqn:Hi; split_and!; try done. intros _. by exists fb, ag.
Qed.
End properties.

(** ** Witnesses: an aggregator that becomes ready while the operator waits *)

(** The aggregator's StatefulSet as the cluster's controllers leave it. *)
Definition example_aggregator : Object :=
  OStatefulSet ((zero : StatefulSet)
    <| StatefulSet_ObjectMeta := named AggregatorFluentbitComponentName "ns" |>
    <| StatefulSet_Replicas := Some 1%Z |> <| StatefulSet_StatusReplicas := 1%Z |>
    <| StatefulSet_ReadyReplicas := 1%Z |>).

Definition example_ha : op Mem :=
  let aggregator := zero <| FluentbitAggregator_Install := true |> <| FluentbitAggregator_Replicas := 1%Z |> in
  mkOp (zero <| Mem_arrivals := [(30 * Second, example_aggregator)%Z] |>)
    (zero <| LoggingService_ObjectMeta := named "cr" "ns" |>
          <| LoggingService_Spec := zero <| LoggingServiceSpec_Fluentbit :=
               Some (zero <| Fluentbit_Aggregator := Some aggregator |>) |> |>) [].

Lemma ha_handleAggregatorStatefulSet_up_witness :
  let s' := (ha_handleAggregatorStatefulSet (H0:=example_externals) defaults_Get example_ha).1 in
  statefulset_up (objects (op_world s')) "ns" AggregatorFluentbitComponentName = true.
Proof.
  intros s'. run_theorem (ha_handleAggregatorStatefulSet_up (H1:=example_externals) defaults_Get
    (zero <| FluentbitAggregator_Install := true |> <| FluentbitAggregator_Replicas := 1%Z |>)
    example_ha eq_refl) tt Hw.
  exact (proj2 Hw).
Defined.

Lemma ha_Run_deploys_witness :
  let s' := (ha_Run (H0:=example_externals) (mkDynamicParameters "docker") defaults_Get example_ha).1 in
  op_pending s' = [mkComponent ForwarderFluentbitComponentName HAFluentStatus] ∧
  statefulset_up (objects (op_world s')) "ns" AggregatorFluentbitComponentName = true.
Proof.
  intros s'.
  run_theorem (ha_Run_deploys (H1:=example_externals) (mkDynamicParameters "docker")
                 defaults_Get example_ha) tt Hw.
  destruct Hw as (Hk & _ & (spec & _ & _ & Hup & _) & _). split; [exact (keeps_pending _ _ Hk)|].
  pose proof (keeps_namespace _ _ Hk) as Hns. rewrite Hns in Hup. exact Hup.
Defined.
