(* ===== verification/GraylogController.v ===== *)
(** * The reconciler of Graylog: internal/controllers/graylog

    [reconciler.go], [handler.go], [manifest.go] and utils/root_password_sha2.go. *)

From S2P Require Import Prelude GoStrings Sha256 KubeTypes Api Client Labels Operator Status.
From S2P Require Import Component Credentials Reconcilers PodManager Waiter Defaults Builder.
From S2P Require Import GraylogBuilder GraylogStreams Files ComponentRun Net System.
From S2P Require Import Certificates Rest.
From S2P Require Import GraylogRest GraylogContent GraylogUploads GraylogRequests.

Definition GraylogSecretKeyRootPasswordSHA2 : string := "rootPasswordSha2".
Definition GraylogConfigMapDirectory : string := "config/configmap".
Definition GraylogDeploymentName : string := "graylog".

(** ** root_password_sha2.go *)

(** The result, and the Secret after the call. *)
Definition EnsureSecretRootPasswordSHA2 (secret : Secret) (plainPassword : string) : bool * Secret :=
  let want := sha256_hex plainPassword in
  let key := GraylogSecretKeyRootPasswordSHA2 in
  let data := contents (Secret_Data secret) in
  let got := match data !! key with Some v => TrimSpace v | None => "" end in
  if String.eqb got want then (false, secret)
  else (true, secret <| Secret_Data := Some (<[key := want]> data) |>).

(** ** reconciler.go and handler.go *)

(** A value of a Secret that is there and not empty. *)
Definition graylog_secret_value (secret : Secret) (key : string) : option string :=
  match contents (Secret_Data secret) !! key with
  | Some v => if String.eqb v "" then None else Some v
  | None => None
  end.

Definition graylogSecretMissingValueError (what secretName ns : string) : error :=
  errors_New ("can not find " +:+ what +:+ " for Graylog in the secret " +:+ secretName
              +:+ " in the namespace " +:+ ns).

(** [len(cr.Spec.Graylog.OpenSearch.Host) != 0], nil included. *)
Definition opensearch_host (g : Graylog) : bool :=
  match Graylog_OpenSearch g with Some o => nonempty (OpenSearch_Host o) | None => false end.

Section WaitForHostActive.
Context {W : Type} `{KubeClient W, System W}.

(** The loop of [WaitForHostActive], with [n] attempts left. *)
Fixpoint dial_attempts (n : nat) (url : string) (timeout : Z) (res : option error) :
    M W (option error) :=
  match n with
  | O => mret res
  | S n =>
      r ← attempt (net_DialTimeout url timeout);
      match r with
      | inl err => modify (time_Sleep (10 * Second));; dial_attempts n url timeout (Some err)
      | inr _ => mret None
      end
  end.

Definition WaitForHostActive (host : string) (port timeout : Z) : M W unit :=
  res ← dial_attempts 4 (host +:+ ":" +:+ Itoa port) timeout None;
  match res with Some err => fail err | None => mret tt end.
End WaitForHostActive.

Section Graylog.
Context {W : Type} `{KubeClient W, System W, Encodings, Externals}.

(** [cr.Spec.Graylog.<field> = ...]. *)
Definition update_graylog (f : Graylog → Graylog) : M (op W) unit :=
  modify (update_spec (λ sp, sp <| LoggingServiceSpec_Graylog ::= fmap f |>)).

Definition setCredentials : M (op W) unit :=
  cr ← the_cr;
  graylog ← deref (LoggingServiceSpec_Graylog (LoggingService_Spec cr));
  let name := Graylog_GraylogSecretName graylog in
  let ns := GetNamespace cr in
  secret ← (get_typed (mkObjectKey KSecret ns name) : M (op W) Secret);
  match graylog_secret_value secret "user" with
  | None => fail (graylogSecretMissingValueError "user" name ns)
  | Some usr =>
      update_graylog (λ g, g <| Graylog_User := usr |>);;
      match graylog_secret_value secret "password" with
      | None => fail (graylogSecretMissingValueError "password" name ns)
      | Some pwd =>
          update_graylog (λ g, g <| Graylog_Password := pwd |>);;
          (match graylog_secret_value secret "elasticsearchHost" with
           | Some host => update_graylog (λ g, g <| Graylog_ElasticsearchHost := host |>)
           | None =>
               if opensearch_host graylog then mret tt
               else fail (graylogSecretMissingValueError "elasticsearchHost" name ns)
           end);;
          let '(changed, secret) := EnsureSecretRootPasswordSHA2 secret pwd in
          when changed (UpdateResource secret)
      end
  end.

(** [graylogConfigMap] for a custom resource that sets Graylog. *)
Definition graylog_ConfigMap (cr : LoggingService) (spec : Graylog) : error + ConfigMap :=
  match DataFromDirectory (ParseTemplate _) graylog_configs (ToParams cr) GraylogConfigMapDirectory with
  | inl err => inl err
  | inr data =>
      let configMap := mkConfigMap (named GraylogComponentName (GetNamespace cr)) (Some data) None in
      inr (SetLabelsForResource
        (zero <| LabelInput_Name := GraylogComponentName |> <| LabelInput_Component := "graylog" |>
              <| LabelInput_ComponentLabels := Graylog_Labels spec |>) None configMap)
  end.

(** Created, or overwritten when it exists. *)
Definition create_or_update_ConfigMap (m : ConfigMap) : M (op W) unit :=
  '(m, err) ← CreateResource m true;
  match err with
  | None => mret tt
  | Some err => if IsAlreadyExists err then UpdateResource m else fail err
  end.

Definition graylog_handleServiceAccount : M (op W) unit :=
  handle_object LoggingServiceSpec_Graylog (λ _, panic) (λ cr spec, inr (graylog_ServiceAccount cr spec))
    reconcile_ServiceAccount.

Definition graylog_nil (cr : LoggingService) : error :=
  errors_New ("graylog configuration in Logging Service " +:+ GetName cr +:+
              " is nil in the namespace " +:+ GetNamespace cr).

Definition graylog_handleConfigMap : M (op W) unit :=
  setCredentials;;
  handle_object LoggingServiceSpec_Graylog (λ cr, fail (graylog_nil cr)) graylog_ConfigMap
    create_or_update_ConfigMap.

Definition graylog_applyStatefulset (cfg : Defaults) : M (op W) unit :=
  handle_object LoggingServiceSpec_Graylog (λ _, panic)
    (λ cr spec, inr (graylog_StatefulSet cr spec cfg)) reconcile_StatefulSet.

(** [time.Duration(minutes) * time.Minute], in 64 bits. *)
Definition graylog_timeout (spec : Graylog) : Z :=
  if negb (Z.eqb (Graylog_StartupTimeout spec) 0) then int64 (Graylog_StartupTimeout spec * Minute)
  else GraylogStartupTimeout.

Definition graylog_waitForStatefulset : M (op W) unit :=
  sleep InitialDelay;;
  cr ← the_cr;
  spec ← deref (LoggingServiceSpec_Graylog (LoggingService_Spec cr));
  started ← lift (WaitForStatefulsetUpdated (GetNamespace cr) GraylogStatefulsetName (graylog_timeout spec));
  if negb (started : bool) then
    UpdateStatus GraylogStatus Failed false "Graylog is not started";;
    fail (errors_New "graylog is not started")
  else mret tt.

Definition graylog_handleStatefulset (cfg : Defaults) : M (op W) unit :=
  graylog_applyStatefulset cfg;;
  graylog_waitForStatefulset.

Definition graylog_handleService : M (op W) unit :=
  cr ← the_cr;
  spec ← deref (LoggingServiceSpec_Graylog (LoggingService_Spec cr));
  let service := graylog_Service cr spec in
  r ← attempt (get_typed (key_of service) : M (op W) Service);
  created ← (match r with
             | inl err => if IsNotFound err then mret true else fail err
             | inr _ => mret false
             end);
  reconcile_Service service;;
  if negb (created : bool) then mret tt
  else lift (WaitForHostActive (GraylogComponentName +:+ "." +:+ GetNamespace cr +:+ ".svc") 9000 Minute).

(** [deletePVC], [deleteStatefulset], [deleteService], [deleteConfigMap],
    [deleteServiceAccount] and [deleteJob]. *)
Definition graylog_deletePVC (name : string) (cr : LoggingService) : M (op W) unit :=
  delete_existing ((zero : PersistentVolumeClaim)
    <| PersistentVolumeClaim_ObjectMeta := named name (GetNamespace cr) |>).
Definition graylog_deleteStatefulset (cr : LoggingService) : M (op W) unit :=
  delete_existing ((zero : StatefulSet)
    <| StatefulSet_ObjectMeta := named GraylogStatefulsetName (GetNamespace cr) |>).
Definition graylog_deleteService (cr : LoggingService) : M (op W) unit :=
  delete_existing ((zero : Service) <| Service_ObjectMeta := named GraylogComponentName (GetNamespace cr) |>).
Definition graylog_deleteConfigMap (cr : LoggingService) : M (op W) unit :=
  delete_existing ((zero : ConfigMap)
    <| ConfigMap_ObjectMeta := named GraylogComponentName (GetNamespace cr) |>).
Definition graylog_deleteServiceAccount (cr : LoggingService) : M (op W) unit :=
  delete_existing (mkServiceAccount (named GraylogServiceAccountName (GetNamespace cr))).
Definition graylog_deleteJob (cr : LoggingService) (jobName : string) : M (op W) unit :=
  delete_existing (mkJob (named jobName (GetNamespace cr))).

(** The Deployment of earlier versions, and its pods. *)
Definition graylog_deleteDeployment (cr : LoggingService) : M (op W) unit :=
  r ← attempt (GetResource ((zero : Deployment)
        <| Deployment_ObjectMeta := named GraylogDeploymentName (GetNamespace cr) |>));
  match r with
  | inl err => if IsNotFound err then mret tt else fail err
  | inr e =>
      DeleteResource e;;
      _ ← lift (DeletePods (GetNamespace cr) GraylogLabels);
      mret tt
  end.

(** The first Job that cannot be deleted ends the loop. *)
Definition deleteUpgradeJobs (cr : LoggingService) : M (op W) unit :=
  for_each GraylogMongoUpgradeOrderedJobs (graylog_deleteJob cr).

Definition graylog_uninstall : M (op W) unit :=
  cr ← the_cr;
  logged (graylog_deletePVC GraylogClaimName cr);;
  logged (graylog_deletePVC MongoClaimName cr);;
  logged (graylog_deleteStatefulset cr);;
  logged (graylog_deleteService cr);;
  logged (graylog_deleteConfigMap cr);;
  logged (graylog_deleteServiceAccount cr);;
  logged (deleteUpgradeJobs cr).

Definition graylog_installed (cr : LoggingService) : bool :=
  Graylog_IsInstall (LoggingServiceSpec_Graylog (LoggingService_Spec cr)).

(** Up to [watchSecret], which starts a goroutine and whose failure is logged: it is in
    Watchers. *)
Definition graylog_install (cfg : Defaults) : M (op W) unit :=
  setCredentials;;
  connector ← CreateConnector;
  graylog_handleServiceAccount;;
  graylog_handleConfigMap;;
  cr ← the_cr;
  logged (graylog_deleteDeployment cr);;
  logged (deleteUpgradeJobs cr);;
  graylog_handleStatefulset cfg;;
  graylog_handleService;;
  cr ← the_cr;
  spec ← deref (LoggingServiceSpec_Graylog (LoggingService_Spec cr));
  when (negb (String.eqb (Graylog_ContentDeployPolicy spec) "skip")) 
    (lift (configureGraylog connector cr spec)).

Definition graylog_Run (cfg : Defaults) : M (op W) unit :=
  failed ← IsStatusFailed GraylogStatus;
  when (negb failed) (UpdateStatus GraylogStatus InProgress false "Start reconcile of Graylog");;
  cr ← the_cr;
  (if graylog_installed cr then graylog_install cfg else graylog_uninstall);;
  _ ← RemoveStatus GraylogStatus; mret tt.
End Graylog.

(** ** What the reconciler keeps *)

Section keeps.
Context {W : Type} `{KubeClientLaws W}.
Implicit Types (s : op W).

(** The spec of the custom resource with its Graylog part under [f], and its runtime
    left out. *)
Definition graylog_masked (f : Graylog → Graylog) (sp : LoggingServiceSpec) : LoggingServiceSpec :=
  with_runtime "" (sp <| LoggingServiceSpec_Graylog ::= fmap f |>).

(** From [s] to [s'] the spec changes only in what [f] hides. *)
Record graylog_keeps (f : Graylog → Graylog) s s' : Prop := mkGraylogKeeps {
  graylog_keeps_pending : op_pending s' = op_pending s;
  graylog_keeps_namespace : GetNamespace (op_cr s') = GetNamespace (op_cr s);
  graylog_keeps_name : GetName (op_cr s') = GetName (op_cr s);
  graylog_keeps_spec : graylog_masked f (spec_of s') = graylog_masked f (spec_of s);
}.

#[export] Instance graylog_keeps_preorder f : PreOrder (graylog_keeps f).
Proof. split; [done|]. intros s1 s2 s3 [????] [????]. split; congruence. Qed.

(** What a step that only waits or writes to the cluster keeps of the whole spec. *)
Lemma keeps_graylog_keeps f s s' : keeps s s' → graylog_keeps f s s'.
Proof.
  intros [Hp Hns Hn Hs]. split; try done. unfold graylog_masked.
  change (with_runtime "" (update LoggingServiceSpec_Graylog (fmap f) (spec_of s')))
    with (update LoggingServiceSpec_Graylog (fmap f) (with_runtime "" (spec_of s'))).
  change (with_runtime "" (update LoggingServiceSpec_Graylog (fmap f) (spec_of s)))
    with (update LoggingServiceSpec_Graylog (fmap f) (with_runtime "" (spec_of s))).
  by rewrite Hs.
Qed.

Lemma touches_graylog_keeps f K s s' : touches K s s' → graylog_keeps f s s'.
Proof. intros Ht. by eapply keeps_graylog_keeps, touches_keeps. Qed.

Lemma graylog_keeps_graylog f s s' :
  graylog_keeps f s s' →
  f <$> LoggingServiceSpec_Graylog (spec_of s') = f <$> LoggingServiceSpec_Graylog (spec_of s).
Proof. intros Hk. exact (f_equal LoggingServiceSpec_Graylog (graylog_keeps_spec _ _ _ Hk)). Qed.

(** A field that [f] does not hide. *)
Lemma graylog_keeps_field {A} f (get : Graylog → A) s s' g :
  (∀ g, get (f g) = get g) → graylog_keeps f s s' → LoggingServiceSpec_Graylog (spec_of s) = Some g →
  ∃ g', LoggingServiceSpec_Graylog (spec_of s') = Some g' ∧ get g' = get g.
Proof.
  intros Hget Hk Hg. apply graylog_keeps_graylog in Hk. rewrite Hg in Hk.
  destruct (LoggingServiceSpec_Graylog (spec_of s')) as [g'|]; [|done].
  exists g'. split; [done|]. injection Hk as Hk. by rewrite <- (Hget g'), Hk.
Qed.

(** A mask that hides more keeps less. *)
Lemma graylog_keeps_mono f f' s s' :
  (∀ g, f' (f g) = f' g) → graylog_keeps f s s' → graylog_keeps f' s s'.
Proof.
  intros Hff [Hp Hns Hn Hs]. split; try done.
  assert (Hm : ∀ sp, graylog_masked f' (graylog_masked f sp) = graylog_masked f' sp).
  { intros sp. unfold graylog_masked, with_runtime. destruct sp as [[g|]]; cbn; [|done].
    do 2 f_equal. apply Hff. }
  by rewrite <- Hm, Hs, Hm.
Qed.

(** What the credentials, and the connector, may change. *)
Definition hide_credentials (g : Graylog) : Graylog :=
  g <| Graylog_User := "" |> <| Graylog_Password := "" |> <| Graylog_ElasticsearchHost := "" |>.

Definition hide_streams (g : Graylog) : Graylog := g <| Graylog_Streams := [] |>.

Definition hide_both (g : Graylog) : Graylog := hide_streams (hide_credentials g).

(** The parts of the custom resource that [CreateConnector] and [configureGraylog]
    dereference are there. *)
Definition graylog_complete (g : Graylog) : bool :=
  bool_decide (is_Some (Graylog_TLS g ≫= GraylogTLS_HTTP)) && can_configure g.

Definition graylog_is_complete s : Prop :=
  graylog_complete <$> LoggingServiceSpec_Graylog (spec_of s) = Some true.

Lemma graylog_is_complete_keeps f s s' :
  (∀ g, graylog_complete (f g) = graylog_complete g) → graylog_keeps f s s' →
  graylog_is_complete s → graylog_is_complete s'.
Proof.
  unfold graylog_is_complete. intros Hf Hk. destruct (LoggingServiceSpec_Graylog (spec_of s)) as [g|] eqn:Hg; [|done].
  destruct (graylog_keeps_field f graylog_complete s s' g Hf Hk Hg) as (g' & -> & Hc). cbn. by rewrite Hc.
Qed.
End keeps.

(** ** The credentials *)

Section credentials.
Context {W : Type} `{KubeClientLaws W}.
Implicit Types (s : op W).

(** The hash in a Secret, as [EnsureSecretRootPasswordSHA2] reads it. *)
Definition root_hash (secret : Secret) : string :=
  match contents (Secret_Data secret) !! GraylogSecretKeyRootPasswordSHA2 with
  | Some v => TrimSpace v
  | None => ""
  end.

(** After the call the hash is there, and it is written only when it was not. *)
Lemma EnsureSecretRootPasswordSHA2_spec secret pwd changed secret' :
  EnsureSecretRootPasswordSHA2 secret pwd = (changed, secret') →
  root_hash secret' = sha256_hex pwd ∧
  changed = negb (bool_decide (root_hash secret = sha256_hex pwd)) ∧
  Secret_ObjectMeta secret' = Secret_ObjectMeta secret ∧
  (changed = false → secret' = secret) ∧
  ∀ k, k ≠ GraylogSecretKeyRootPasswordSHA2 →
    contents (Secret_Data secret') !! k = contents (Secret_Data secret) !! k.
Proof.
  unfold EnsureSecretRootPasswordSHA2. fold (root_hash secret).
  destruct (String.eqb_spec (root_hash secret) (sha256_hex pwd)) as [Heq|Hne]; intros [= <- <-].
  - rewrite bool_decide_eq_true_2 by done. split_and!; done.
  - rewrite bool_decide_eq_false_2 by done. split_and!; try done.
    + unfold root_hash. cbn. rewrite lookup_insert_eq. apply TrimSpace_hex, sha256_hex_digits.
    + intros k Hk. cbn. by rewrite lookup_insert_ne.
Qed.

(** The credentials that a Secret gives to the custom resource. *)
Definition with_credentials (secret : Secret) (usr pwd : string) (g : Graylog) : Graylog :=
  g <| Graylog_User := usr |> <| Graylog_Password := pwd |>
    <| Graylog_ElasticsearchHost :=
         default (Graylog_ElasticsearchHost g) (graylog_secret_value secret "elasticsearchHost") |>.

(** The key of the Secret with the credentials. *)
Definition credentials_key (ns : string) (g : Graylog) : ObjectKey :=
  mkObjectKey KSecret ns (Graylog_GraylogSecretName g).

Lemma update_graylog_keeps fs f s :
  (∀ g, f (fs g) = f g) →
  graylog_keeps f s (update_spec (λ sp, sp <| LoggingServiceSpec_Graylog ::= fmap fs |>) s).
Proof.
  intros Hf. split; try done. unfold graylog_masked, spec_of. cbn.
  destruct (op_cr s) as [m [[g|]] st]; cbn; [|done]. do 3 f_equal. by rewrite Hf.
Qed.

(** What [setCredentials] did when it succeeded from [s], whose Graylog part was [g]. *)
Definition credentials_done (g : Graylog) s s' : Prop :=
  let key := credentials_key (GetNamespace (op_cr s)) g in
  ∃ secret usr pwd secret',
    objects (op_world s) !! key = Some (OSecret secret) ∧
    graylog_secret_value secret "user" = Some usr ∧ graylog_secret_value secret "password" = Some pwd ∧
    (is_Some (graylog_secret_value secret "elasticsearchHost") ∨ opensearch_host g = true) ∧
    LoggingServiceSpec_Graylog (spec_of s') = Some (with_credentials secret usr pwd g) ∧
    objects (op_world s') !! key = Some (OSecret secret') ∧
    root_hash secret' = sha256_hex pwd ∧
    (∀ k, k ≠ GraylogSecretKeyRootPasswordSHA2 →
       contents (Secret_Data secret') !! k = contents (Secret_Data secret) !! k) ∧
    (root_hash secret = sha256_hex pwd → objects (op_world s') = objects (op_world s)) ∧
    same_but key (objects (op_world s)) (objects (op_world s')).

(** The Secret is written back when its hash is not that of the password. *)
Lemma write_hash_wp key secret pwd s :
  objects (op_world s) !! key = Some (OSecret secret) →
  wp (let '(changed, secret) := EnsureSecretRootPasswordSHA2 secret pwd in
      when changed (UpdateResource secret))
    (λ _ s', cluster_only s s' ∧ same_but key (objects (op_world s)) (objects (op_world s')) ∧
       ∃ secret', objects (op_world s') !! key = Some (OSecret secret') ∧
         root_hash secret' = sha256_hex pwd ∧
         (∀ k, k ≠ GraylogSecretKeyRootPasswordSHA2 →
            contents (Secret_Data secret') !! k = contents (Secret_Data secret) !! k) ∧
         (root_hash secret = sha256_hex pwd → objects (op_world s') = objects (op_world s)))
    (λ _ s', quiet s s') s.
Proof.
  intros Hkey. pose proof (objects_keyed _ _ _ Hkey) as [Hk _].
  destruct (EnsureSecretRootPasswordSHA2 secret pwd) as [changed new] eqn:Hens.
  apply EnsureSecretRootPasswordSHA2_spec in Hens as (Hhash & Hch & Hmeta & Hsame & Hdata).
  rewrite wp_when. destruct changed.
  2: { rewrite (Hsame eq_refl) in *. split; [done|]. split; [done|]. by exists secret. }
  unfold UpdateResource. rewrite wp_lift. eapply wp_mono; [apply client_Update_spec| |].
  2: { intros e w' (Ho & Hnow). auto. }
  assert (Hknew : object_key (to_object new) = key).
  { rewrite <- Hk, object_key_to_object. unfold key_of, object_key. cbn. by rewrite Hmeta. }
  rewrite Hknew. intros [] w' (_ & Ho & Hnow). cbn [op_world update]. split; [auto|]. split.
  - intros k Hne. rewrite Ho. by apply lookup_insert_ne.
  - destruct (stored_secret (op_world s) new) as (st & Hst & Hd). exists st.
    rewrite Ho, lookup_insert_eq. split_and!; [by f_equal| | |].
    + unfold root_hash. rewrite Hd. exact Hhash.
    + intros k Hne. by rewrite Hd, Hdata.
    + intros Heq. by rewrite Heq, bool_decide_eq_true_2 in Hch.
Qed.

Lemma setCredentials_wp g s :
  LoggingServiceSpec_Graylog (spec_of s) = Some g →
  wp setCredentials
    (λ _ s', graylog_keeps hide_credentials s s' ∧ credentials_done g s s')
    (λ _ s', graylog_keeps hide_credentials s s' ∧ objects (op_world s') = objects (op_world s)) s.
Proof.
  intros Hg. unfold setCredentials, the_cr. rewrite wp_bind, wp_gets. fold (spec_of s).
  rewrite Hg, wp_bind, wp_deref, wp_bind. eapply wp_mono; [apply get_typed_wp; done| |].
  2: { intros e s' [Hq _]. split; [|by destruct Hq]. by apply (touches_graylog_keeps _ []), touches_quiet. }
  intros secret s1 [Hq Hsec]. fold (credentials_key (GetNamespace (op_cr s)) g) in Hsec.
  assert (Hk1 : graylog_keeps hide_credentials s s1)
    by by apply (touches_graylog_keeps _ []), touches_quiet.
  destruct Hq as [[_ Hcr1 _] Ho1].
  destruct (graylog_secret_value secret "user") as [usr|] eqn:Husr; [|by rewrite wp_fail].
  rewrite wp_bind. unfold update_graylog. rewrite wp_modify. set (s2 := update_spec _ s1).
  assert (Hk2 : graylog_keeps hide_credentials s s2) by (etrans; [exact Hk1|by apply update_graylog_keeps]).
  destruct (graylog_secret_value secret "password") as [pwd|] eqn:Hpwd; [|by rewrite wp_fail].
  rewrite wp_bind, wp_modify. set (s3 := update_spec _ s2).
  assert (Hk3 : graylog_keeps hide_credentials s s3) by (etrans; [exact Hk2|by apply update_graylog_keeps]).
  assert (Hg3 : LoggingServiceSpec_Graylog (spec_of s3)
    = Some (g <| Graylog_User := usr |> <| Graylog_Password := pwd |>)).
  { unfold spec_of. cbn. rewrite Hcr1. fold (spec_of s). by rewrite Hg. }
  assert (Hwrite : ∀ s4, graylog_keeps hide_credentials s s4 →
    objects (op_world s4) = objects (op_world s) →
    (is_Some (graylog_secret_value secret "elasticsearchHost") ∨ opensearch_host g = true) →
    LoggingServiceSpec_Graylog (spec_of s4) = Some (with_credentials secret usr pwd g) →
    wp (let '(changed, secret) := EnsureSecretRootPasswordSHA2 secret pwd in
        when changed (UpdateResource secret))
      (λ _ s', graylog_keeps hide_credentials s s' ∧ credentials_done g s s')
      (λ _ s', graylog_keeps hide_credentials s s' ∧ objects (op_world s') = objects (op_world s)) s4).
  { intros s4 Hk4 Ho4 Hhost Hg4. eapply wp_mono; [eapply write_hash_wp; by rewrite Ho4| |].
    - intros [] s' (Hc & Hb & secret' & Hs' & Hhash & Hdata & Hsame). rewrite Ho4 in Hb, Hsame.
      assert (Hspec : spec_of s' = spec_of s4) by (unfold spec_of; by destruct Hc as [_ -> _]).
      split.
      + etrans; [exact Hk4|]. by apply (touches_graylog_keeps _ [credentials_key (GetNamespace (op_cr s)) g]),
          touches_cluster_only; [|rewrite Ho4; intros k Hk; apply Hb; intros ->; apply Hk; left].
      + exists secret, usr, pwd, secret'. rewrite Hspec. split_and!; done.
    - intros e s' Hq. split; [|by destruct Hq as [_ ->]].
      etrans; [exact Hk4|]. by apply (touches_graylog_keeps _ []), touches_quiet. }
  rewrite wp_bind. destruct (graylog_secret_value secret "elasticsearchHost") as [host|] eqn:Hhost.
  - rewrite wp_modify. apply Hwrite; [|exact Ho1|by left; eexists|].
    + etrans; [exact Hk3|]. by apply update_graylog_keeps.
    + unfold spec_of. cbn. rewrite Hcr1. fold (spec_of s). rewrite Hg. cbn.
      unfold with_credentials. by rewrite Hhost.
  - destruct (opensearch_host g) eqn:Hos; [|by rewrite wp_fail].
    rewrite wp_ret. apply Hwrite; [done|exact Ho1|by right|]. rewrite Hg3.
    unfold with_credentials. rewrite Hhost. by destruct g.
Qed.
End credentials.

(** ** The connector *)

Section connector.
Context {W : Type} `{SystemLaws W, !KubeClientLaws W, Encodings, Externals}.
Implicit Types (s : op W).

Lemma opensearch_config_quiet g ns user :
  runs undisturbed undisturbed (opensearch_config (W:=W) g ns user).
Proof. unfold opensearch_config. runs. Qed.

Lemma opensearch_mounted_quiet conf : runs undisturbed undisturbed (opensearch_mounted (W:=W) conf).
Proof. unfold opensearch_mounted, readSecretFileValue. runs. Qed.

Lemma readOperatorGraylogCreds_quiet : runs undisturbed undisturbed (readOperatorGraylogCreds (W:=W)).
Proof. unfold readOperatorGraylogCreds, readSecretFileValue. runs. Qed.

(** The TLS configuration of the connections to Graylog: none unless the custom resource
    enables TLS, and then that of its certificates, as they were in the cluster [w]. *)
Definition connector_tls (http : HTTPGraylogTLS) (ns : string) (w : W) (conf : option TLSConf) : Prop :=
  if HTTPGraylogTLS_Enabled http then ∃ t, conf = Some t ∧ graylog_certificates http ns w t
  else conf = None.

(** The user of the connections to Graylog: that of the custom resource if it has a name and
    a password there, else that of the files mounted into the operator. *)
Definition connector_auth (g : Graylog) (w : W) (auth : Creds) : Prop :=
  if nonempty (Graylog_User g) && nonempty (Graylog_Password g)
  then auth = mkCreds (Graylog_User g) (Graylog_Password g) ""
  else ∃ w1 w2, undisturbed w w1 ∧ readOperatorGraylogCreds w1 = (w2, Ret auth).

(** What [CreateConnector] makes of the Graylog part [g] of the custom resource. *)
Definition connects (g : Graylog) (http : HTTPGraylogTLS) (ns : string) (w : W) (c : GraylogConnector) : Prop :=
  ∃ conf auth,
    Connector_RestClient c =
      mkRestClient (mkHTTPClient conf (10 * Second) false) (Some auth)
        (GraylogComponentName +:+ "." +:+ ns +:+ ".svc:9000/api/") ∧
    connector_tls http ns w conf ∧
    connector_auth g w auth ∧
    Connector_TLSEnabled c = HTTPGraylogTLS_Enabled http ∧
    Connector_EnabledStreams c = GetStreams g.

(** A call of the world in [CreateConnector], with what it returns. *)
Definition same_cr s0 s : Prop :=
  op_cr s = op_cr s0 ∧ op_pending s = op_pending s0 ∧ undisturbed (op_world s0) (op_world s).

Lemma lift_returns {A B} (m : M W A) (k : A → M (op W) B) (P : A → Prop) s s0 Q :
  same_cr s0 s → runs undisturbed undisturbed m →
  wp m (λ a _, P a) (λ _ _, True) (op_world s) →
  (∀ a s', same_cr s0 s' → P a → wp (k a) Q (λ _ s', graylog_keeps hide_streams s0 s') s') →
  wp (lift m ≫= k) Q (λ _ s', graylog_keeps hide_streams s0 s') s.
Proof.
  intros (Hcr & Hp & Hu) Hq Hm Hk. rewrite wp_bind, wp_lift.
  eapply wp_mono; [exact (wp_conj _ _ _ _ _ _ (Hq (op_world s)) Hm)| |].
  - intros a w' [Hu' HP]. apply Hk; [|done]. split_and!; [done|done|by etrans].
  - intros e w' _. split; unfold spec_of; cbn; by rewrite ?Hcr, ?Hp.
Qed.

Lemma returns_anything {A} (m : M W A) w :
  runs undisturbed undisturbed m → wp m (λ _ _, True) (λ _ _, True) w.
Proof. intros Hm. eapply wp_mono; [apply Hm|done|done]. Qed.

Lemma returns_itself {A} (m : M W A) w :
  runs undisturbed undisturbed m → wp m (λ a _, ∃ w', m w = (w', Ret a)) (λ _ _, True) w.
Proof. intros Hm. eapply wp_mono; [by eapply wp_self|intros a w' [Hr _]; by exists w'|done]. Qed.

(** The last part of [CreateConnector], once the client of Graylog is there. *)
Lemma connector_opensearch_wp g http s conf auth s1 :
  LoggingServiceSpec_Graylog (spec_of s) = Some g →
  same_cr s s1 →
  connector_tls http (GetNamespace (op_cr s)) (op_world s) conf →
  connector_auth g (op_world s) auth →
  wp ('(user, tlsConfig, host) ← lift (opensearch_config g (GetNamespace (op_cr s)) auth);
      '(user, tlsConfig, host) ←
        (if String.eqb host "" then lift (opensearch_mounted tlsConfig) else mret (user, tlsConfig, host));
      modify (update_spec (λ sp,
        sp <| LoggingServiceSpec_Graylog ::= fmap (λ g, g <| Graylog_Streams := managed_streams g |>) |>));;
      http ← deref (Some http);
      mret (mkGraylogConnector
        (mkRestClient (rest_http_client conf) (Some auth)
           (GraylogComponentName +:+ "." +:+ GetNamespace (op_cr s) +:+ ".svc" +:+ ":" +:+ GraylogPort +:+ "/api/"))
        (mkRestClient (rest_http_client tlsConfig) (Some user) host) graylog_configs (GetStreams g)
        (HTTPGraylogTLS_Enabled http)))
    (λ c s', graylog_keeps hide_streams s s' ∧ connects g http (GetNamespace (op_cr s)) (op_world s) c)
    (λ _ s', graylog_keeps hide_streams s s') s1.
Proof.
  intros Hg Hs1 Htls Hauth.
  eapply (lift_returns _ _ (λ _, True)); [done|apply opensearch_config_quiet
    |apply returns_anything, opensearch_config_quiet|].
  intros [[user tlsConfig] host] s2 Hs2 _.
  assert (Hend : ∀ user tlsConfig host s3, same_cr s s3 →
    wp (modify (update_spec (λ sp,
          sp <| LoggingServiceSpec_Graylog ::= fmap (λ g, g <| Graylog_Streams := managed_streams g |>) |>));;
        http ← deref (Some http);
        mret (mkGraylogConnector
          (mkRestClient (rest_http_client conf) (Some auth)
             (GraylogComponentName +:+ "." +:+ GetNamespace (op_cr s) +:+ ".svc" +:+ ":" +:+ GraylogPort +:+ "/api/"))
          (mkRestClient (rest_http_client tlsConfig) (Some user) host) graylog_configs (GetStreams g)
          (HTTPGraylogTLS_Enabled http)))
      (λ c s', graylog_keeps hide_streams s s' ∧ connects g http (GetNamespace (op_cr s)) (op_world s) c)
      (λ _ s', graylog_keeps hide_streams s s') s3).
  { intros user' tlsConfig' host' s3 (Hcr3 & Hp3 & _). rewrite wp_bind, wp_modify, wp_bind, wp_deref, wp_ret. split.
    - assert (Hk : graylog_keeps hide_streams s s3) by (split; unfold spec_of; by rewrite ?Hcr3).
      etrans; [exact Hk|]. by apply update_graylog_keeps.
    - exists conf, auth. by split_and!. }
  destruct (String.eqb host "").
  - eapply (lift_returns _ _ (λ _, True)); [done|apply opensearch_mounted_quiet
      |apply returns_anything, opensearch_mounted_quiet|].
    intros [[user' tlsConfig'] host'] s3 Hs3 _. by apply Hend.
  - rewrite wp_bind, wp_ret. by apply Hend.
Qed.

(** The credentials of the custom resource, or those that are mounted. *)
Lemma connector_user_wp g s s1 (k : Creds → M (op W) GraylogConnector) Q :
  same_cr s s1 →
  (∀ auth s2, same_cr s s2 → connector_auth g (op_world s) auth →
     wp (k auth) Q (λ _ s', graylog_keeps hide_streams s s') s2) →
  wp ((if nonempty (Graylog_User g) && nonempty (Graylog_Password g)
       then mret (mkCreds (Graylog_User g) (Graylog_Password g) "")
       else lift readOperatorGraylogCreds) ≫= k) Q (λ _ s', graylog_keeps hide_streams s s') s1.
Proof.
  intros Hs1 Hk. unfold connector_auth in Hk. destruct (nonempty _ && nonempty _).
  - rewrite wp_bind, wp_ret. by apply Hk.
  - eapply lift_returns; [done|apply readOperatorGraylogCreds_quiet
      |apply returns_itself, readOperatorGraylogCreds_quiet|].
    intros auth s2 Hs2 [w2 Hr]. apply Hk; [done|]. exists (op_world s1), w2. by destruct Hs1 as (_ & _ & ?).
Qed.

Lemma CreateConnector_wp g http s :
  LoggingServiceSpec_Graylog (spec_of s) = Some g → Graylog_TLS g ≫= GraylogTLS_HTTP = Some http →
  wp CreateConnector
    (λ c s', graylog_keeps hide_streams s s' ∧ connects g http (GetNamespace (op_cr s)) (op_world s) c)
    (λ _ s', graylog_keeps hide_streams s s') s.
Proof.
  intros Hg Hh. unfold CreateConnector, the_cr. rewrite wp_bind, wp_gets. fold (spec_of s).
  rewrite Hg, wp_bind, wp_deref, Hh, wp_bind. destruct (HTTPGraylogTLS_Enabled http) eqn:He.
  - eapply lift_returns; [by split_and!|apply HTTPGraylogTLS_GetCertificates_quiet
      |apply HTTPGraylogTLS_GetCertificates_wp|].
    intros conf s1 Hs1 Hconf. rewrite wp_ret. apply connector_user_wp; [done|].
    intros auth s2 Hs2 Hauth. apply connector_opensearch_wp; [done..| |done].
    unfold connector_tls. rewrite He. by exists conf.
  - rewrite wp_ret. apply connector_user_wp; [by split_and!|].
    intros auth s2 Hs2 Hauth. apply connector_opensearch_wp; [done..| |done].
    unfold connector_tls. by rewrite He.
Qed.

(** With a complete custom resource neither panics, and of its spec they change only the
    streams. *)
Lemma CreateConnector_keeps s :
  graylog_is_complete s →
  wp CreateConnector (λ _ s', graylog_keeps hide_streams s s') (λ _ s', graylog_keeps hide_streams s s') s.
Proof.
  unfold graylog_is_complete. destruct (LoggingServiceSpec_Graylog (spec_of s)) as [g|] eqn:Hg; [|done].
  intros [= Hc]. apply andb_true_iff in Hc as [[http Hh]%bool_decide_eq_true _].
  eapply wp_mono; [by eapply CreateConnector_wp| |done]. by intros c s' [Hk _].
Qed.
End connector.

#[export] Hint Resolve opensearch_config_quiet opensearch_mounted_quiet readOperatorGraylogCreds_quiet : runs.

(** ** Properties *)

(** C13: [setCredentials].  When it succeeds it has taken the user, the password
    and, if there, the search host from the Secret that the custom resource names, and
    left in that Secret the SHA-256 hash of the password, keeping its other values.
    The Secret is written only when it has no such hash, so that a second call changes
    nothing.  A failure changes no object; no call changes another object. *)
Theorem setCredentials_effect {W} `{KubeClientLaws W} g (s : op W) :
  LoggingServiceSpec_Graylog (spec_of s) = Some g →
  wp setCredentials
    (λ _ s', graylog_keeps hide_credentials s s' ∧ credentials_done g s s')
    (λ _ s', graylog_keeps hide_credentials s s' ∧ objects (op_world s') = objects (op_world s)) s.
Proof. apply setCredentials_wp. Qed.

(** C12: the connection to Graylog, for a custom resource that has the HTTP part of Graylog's
    TLS section.  The connector sends the user and the password of the custom resource if both
    are there, else those of the files mounted into the operator, to the Service of its own
    namespace; it uses TLS exactly when the custom resource enables it, and then it skips the
    verification of the server exactly when the custom resource says so: otherwise the server
    is verified against certificates of a Secret that is there and not empty.  That Secret is
    the one named for the authority, with all its values, or, when none is named, the one of
    the generated certificates, with its "ca.crt" (none if it has no such key or is not of the
    type of TLS).  The connector manages the streams that [GetStreams] selects. *)
Theorem CreateConnector_connects {W} `{SystemLaws W, !KubeClientLaws W, Encodings, Externals} g http (s : op W) :
  LoggingServiceSpec_Graylog (spec_of s) = Some g → Graylog_TLS g ≫= GraylogTLS_HTTP = Some http →
  wp CreateConnector
    (λ c s', graylog_keeps hide_streams s s' ∧ connects g http (GetNamespace (op_cr s)) (op_world s) c)
    (λ _ s', graylog_keeps hide_streams s s') s.
Proof. apply CreateConnector_wp. Qed.

(** ** Witnesses *)

#[local] Existing Instances example_externals example_encodings.

Definition example_graylog_secret : Secret :=
  mkSecret (named "graylog-secret" "ns") "Opaque"
    (Some {[ "user" := "admin"; "password" := "abc"; "elasticsearchHost" := "http://os:9200" ]}).

Definition example_graylog_state : op Mem :=
  mkOp (mem_store (OSecret example_graylog_secret)
          (example_world <| Mem_arrivals := [(30 * Second, example_statefulset 1)%Z] |>))
    example_graylog_cr [].

Lemma setCredentials_effect_witness :
  let s' := (setCredentials example_graylog_state).1 in
  ∃ secret, objects (op_world s') !! mkObjectKey KSecret "ns" "graylog-secret" = Some (OSecret secret) ∧
    root_hash secret = "ba7816bf8f01cfea414140de5dae2223b00361a396177a9cb410ff61f20015ad".
Proof.
  intros s'. run_theorem (setCredentials_effect example_graylog example_graylog_state eq_refl) tt Hw.
  destruct Hw as [_ (secret & usr & pwd & secret' & Hs & _ & Hpwd & _ & _ & Hs' & Hhash & _)].
  exists secret'. split; [exact Hs'|]. rewrite Hhash.
  assert (Hsec : secret = example_graylog_secret).
  { assert (Hc : objects (op_world example_graylog_state) !! mkObjectKey KSecret "ns" "graylog-secret"
                 = Some (OSecret example_graylog_secret)) by by vm_compute.
    change (objects (op_world example_graylog_state) !! mkObjectKey KSecret "ns" "graylog-secret"
                 = Some (OSecret secret)) in Hs. rewrite Hc in Hs. by injection Hs. }
  rewrite Hsec in Hpwd. assert (Hp : graylog_secret_value example_graylog_secret "password" = Some "abc") by by vm_compute.
  rewrite Hp in Hpwd. injection Hpwd as <-. by vm_compute.
Defined.

(** TLS with the certificates of a Secret. *)
Lemma CreateConnector_connects_witness :
  let http := zero <| HTTPGraylogTLS_Enabled := true |> <| HTTPGraylogTLS_CACerts := "graylog-secret" |> in
  let g := example_graylog <| Graylog_User := "admin" |> <| Graylog_Password := "abc" |>
             <| Graylog_TLS := Some (zero <| GraylogTLS_HTTP := Some http |>) |> in
  let s := update_spec (λ sp, sp <| LoggingServiceSpec_Graylog := Some g |>) example_graylog_state in
  match (CreateConnector s).2 with
  | Ret c => RestClient_Auth (Connector_RestClient c) = Some (mkCreds "admin" "abc" "") ∧
             ∃ conf, HTTPClient_TLSClientConfig (RestClient_Client (Connector_RestClient c)) = Some conf ∧
               TLSConf_InsecureSkipVerify conf = false
  | _ => False
  end.
Proof.
  intros http g s. assert (Hr : ∃ s' c, CreateConnector s = (s', Ret c)) by (eexists _, _; vm_compute; reflexivity).
  destruct Hr as (s' & c & Hr).
  pose proof (wp_run _ _ _ _ _ _ (CreateConnector_connects g http s eq_refl eq_refl) Hr) as [_ Hc].
  destruct Hc as (conf & auth & Hrest & Htls & Hauth & _). rewrite Hr. cbn [snd]. rewrite Hrest. split.
  - cbn [RestClient_Auth]. f_equal. exact Hauth.
  - unfold connector_tls, graylog_certificates in Htls.
    destruct Htls as (t & -> & name & secret & pool & _ & _ & _ & _ & Hskip & _). exists t. by split.
Defined.
