(* ===== verification/GraylogRun.v ===== *)
(** * A reconcile of Graylog: internal/controllers/graylog/reconciler.go

    What [Run] of GraylogController does: what it keeps, and in which order it deploys
    Graylog and configures it. *)

From S2P Require Import Prelude GoStrings KubeTypes Api Client Labels Operator Status.
From S2P Require Import Component Credentials Reconcilers PodManager Waiter Defaults Builder.
From S2P Require Import GraylogBuilder GraylogStreams Files ComponentRun Net System Quiet.
From S2P Require Import Certificates Rest GraylogRest GraylogContent GraylogUploads.
From S2P Require Import GraylogRequests.
From S2P Require Import GraylogController.

(** ** What exchanges no requests *)

Section silent.
Context {W : Type} `{SystemLaws W, !KubeClientLaws W, Encodings, Externals}.

Lemma silent_handle_object {T Spec} (component : LoggingServiceSpec → option Spec) on_nil
    (build : LoggingService → Spec → error + T) (reconcile : T → M (op W) unit) :
  (∀ cr, steps silent (on_nil cr)) → (∀ d, steps silent (reconcile d)) →
  steps silent (handle_object component on_nil build reconcile).
Proof. intros Hnil Hr. unfold handle_object, the_cr. steps. Qed.

Lemma silent_setCredentials : steps silent (setCredentials (W:=W)).
Proof. unfold setCredentials, update_graylog, the_cr. steps. Qed.

Lemma silent_CreateConnector : steps silent (CreateConnector (W:=W)).
Proof. unfold CreateConnector, the_cr. steps. Qed.

(** The first part of [graylog_handleStatefulset] and the wait. *)
Lemma silent_waitForStatefulset : steps silent (graylog_waitForStatefulset (W:=W)).
Proof.
  unfold graylog_waitForStatefulset, sleep, the_cr. apply steps_bind; [|steps].
  apply silent_sleep. intros s. apply time_Sleep_quiet.
Qed.

Lemma silent_applyStatefulset cfg : steps silent (graylog_applyStatefulset (W:=W) cfg).
Proof. apply silent_handle_object; intros ?; unfold reconcile_StatefulSet; eauto with steps. Qed.

Lemma silent_deleteDeployment cr : steps silent (graylog_deleteDeployment (W:=W) cr).
Proof. unfold graylog_deleteDeployment. steps. Qed.

Lemma silent_deleteUpgradeJobs cr : steps silent (deleteUpgradeJobs (W:=W) cr).
Proof. unfold deleteUpgradeJobs, graylog_deleteJob. steps. Qed.

Lemma silent_create_or_update_ConfigMap m : steps silent (create_or_update_ConfigMap (W:=W) m).
Proof. unfold create_or_update_ConfigMap. steps. Qed.

Lemma silent_uninstall : steps silent (graylog_uninstall (W:=W)).
Proof.
  unfold graylog_uninstall, graylog_deletePVC, graylog_deleteStatefulset, graylog_deleteService,
    graylog_deleteConfigMap, graylog_deleteServiceAccount, the_cr. steps. apply silent_deleteUpgradeJobs.
Qed.

Lemma dial_attempts_quiet n url timeout res : steps undisturbed (dial_attempts (W:=W) n url timeout res).
Proof.
  revert res. induction n as [|n IH]; intros res; cbn [dial_attempts]; [eauto with steps|].
  apply steps_bind; [apply steps_attempt; eauto with steps|]. intros [e|[]]; [|eauto with steps].
  apply steps_bind; [apply steps_modify; intros w; apply time_Sleep_quiet|]. intros []. apply IH.
Qed.

Lemma WaitForHostActive_quiet host port timeout : steps undisturbed (WaitForHostActive (W:=W) host port timeout).
Proof. unfold WaitForHostActive. apply steps_bind; [apply dial_attempts_quiet|]. steps. Qed.

Lemma silent_handleService : steps silent (graylog_handleService (W:=W)).
Proof.
  unfold graylog_handleService, reconcile_Service, the_cr. steps; apply silent_lift, WaitForHostActive_quiet.
Qed.
End silent.

#[export] Hint Resolve silent_setCredentials silent_CreateConnector silent_waitForStatefulset
  silent_applyStatefulset silent_deleteDeployment silent_deleteUpgradeJobs silent_uninstall
  silent_create_or_update_ConfigMap silent_handleService : steps.

(** ** Graylog, deployed *)

Section run.
Context {W : Type} `{SystemLaws W, !KubeClientLaws W, !SpecStable W, !BodiesRead W, Encodings, Externals}.
Implicit Types (s : op W).

(** The custom resource has the credentials that the connector and the builder use. *)
Definition graylog_configured (g : Graylog) : bool :=
  nonempty (Graylog_User g) && nonempty (Graylog_Password g) &&
  (nonempty (Graylog_ElasticsearchHost g) || opensearch_host g).

(** A state of the installation that began in [s0], once the credentials are set and before
    the first request. *)
Record installing s0 s : Prop := mkInstalling {
  installing_kept : graylog_keeps hide_both s0 s;
  installing_configured : graylog_configured <$> LoggingServiceSpec_Graylog (spec_of s) = Some true;
  installing_silent : silent s0 s;
}.

(** Graylog's replicas are ready, and its Service is the one of the builder. *)
Definition serving s : Prop :=
  ∃ g, LoggingServiceSpec_Graylog (spec_of s) = Some g ∧
    statefulset_up (objects (op_world s)) (GetNamespace (op_cr s)) GraylogStatefulsetName = true ∧
    deployed owned_Service (graylog_Service (op_cr s) g) (objects (op_world s)).

(** The requests from a state on. *)
Definition requests (P : exchange → Prop) : relation (op W) := in_world (extends P).

(** A reconcile that fails, or stops early, has sent requests only to a running Graylog. *)
Definition after_start (P : exchange → Prop) s0 s : Prop :=
  silent s0 s ∨ ∃ s1, installing s0 s1 ∧ serving s1 ∧ requests P s1 s.

Definition stopped s0 s : Prop := graylog_keeps hide_both s0 s ∧ after_start (λ _, True) s0 s.

Lemma installing_stopped s0 s : installing s0 s → stopped s0 s.
Proof. intros [Hk _ Hs]. split; [done|by left]. Qed.

Lemma installing_keeps s0 s s' :
  installing s0 s → graylog_keeps hide_streams s s' → silent s s' → installing s0 s'.
Proof.
  intros [Hk Hc Hs] Hk' Hs'. split.
  - etrans; [exact Hk|]. eapply graylog_keeps_mono; [|exact Hk']. done.
  - destruct (LoggingServiceSpec_Graylog (spec_of s)) as [g|] eqn:Hg; [|done].
    destruct (graylog_keeps_field hide_streams graylog_configured s s' g) as (g' & -> & Hc'); try done.
    cbn in *. by rewrite Hc'.
  - exact (transitivity Hs Hs').
Qed.

Lemma installing_graylog s0 s : installing s0 s → is_Some (LoggingServiceSpec_Graylog (spec_of s)).
Proof. intros [_ Hc _]. by destruct (LoggingServiceSpec_Graylog (spec_of s)). Qed.

(** A step of the installation that changes no more than the streams, with what it returns. *)
Lemma installing_seq {A B} (m : M (op W) A) (k : A → M (op W) B) (P : A → op W → Prop) Q s0 s :
  installing s0 s → steps silent m →
  wp m (λ a s', graylog_keeps hide_streams s s' ∧ P a s') (λ _ s', graylog_keeps hide_streams s s') s →
  (∀ a s', installing s0 s' → P a s' → wp (k a) Q (λ _ s'', stopped s0 s'') s') →
  wp (m ≫= k) Q (λ _ s', stopped s0 s') s.
Proof.
  intros Hs Hm Hwp Hk. rewrite wp_bind. eapply wp_mono; [exact (wp_steps _ _ _ _ _ Hm Hwp)| |].
  - intros a s' [Hq [Hs' HP]]. apply Hk; [|done]. by eapply installing_keeps.
  - intros e s' [Hq Hs']. by eapply installing_stopped, installing_keeps.
Qed.

(** The same when nothing is to be known of what it returns. *)
Lemma installing_step {A B} (m : M (op W) A) (k : A → M (op W) B) Q s0 s :
  installing s0 s → steps silent m →
  wp m (λ _ s', graylog_keeps hide_streams s s') (λ _ s', graylog_keeps hide_streams s s') s →
  (∀ a s', installing s0 s' → wp (k a) Q (λ _ s'', stopped s0 s'') s') →
  wp (m ≫= k) Q (λ _ s', stopped s0 s') s.
Proof.
  intros Hs Hm Hwp Hk. eapply (installing_seq _ _ (λ _ _, True)); [exact Hs|exact Hm| |by auto].
  by eapply wp_mono; [exact Hwp| |].
Qed.

(** A handler whose reconciler changes only the cluster. *)
Lemma handle_object_keeps {T} (build : LoggingService → Graylog → error + T) on_nil reconcile K f s :
  is_Some (LoggingServiceSpec_Graylog (spec_of s)) →
  (∀ d s, wp (reconcile d) (λ _ s', changes (K d) s s') (λ _ s', changes [] s s') s) →
  wp (handle_object LoggingServiceSpec_Graylog on_nil build reconcile)
    (λ _ s', graylog_keeps f s s') (λ _ s', graylog_keeps f s s') s.
Proof.
  intros [g Hg] Hr. unfold handle_object, the_cr. rewrite wp_bind, wp_gets. fold (spec_of s).
  rewrite Hg, wp_bind, wp_of_sum. destruct (build _ g) as [e|d]; [done|].
  eapply wp_mono; [apply Hr| |]; intros ? s' Hc;
    exact (touches_graylog_keeps _ _ _ _ (changes_touches _ _ _ Hc)).
Qed.

Lemma lift_keeps {A} (m : M W A) f s :
  wp m (λ _ _, True) (λ _ _, True) (op_world s) →
  wp (lift m) (λ _ s', graylog_keeps f s s') (λ _ s', graylog_keeps f s s') s.
Proof. intros Hm. rewrite wp_lift. eapply wp_mono; [exact Hm|done|done]. Qed.

(** ** The steps of the installation *)

Lemma reconcile_ServiceAccount_changes (desired : ServiceAccount) s :
  wp (reconcile_ServiceAccount desired) (λ _ s', changes [key_of desired] s s') (λ _ s', changes [] s s') s.
Proof.
  eapply wp_mono; [by apply (createOrUpdate_changes (λ _, tt) desired)| |done]. by intros [] s' [Hc _].
Qed.

Lemma create_or_update_ConfigMap_changes (m : ConfigMap) s :
  wp (create_or_update_ConfigMap m) (λ _ s', changes [key_of m] s s') (λ _ s', changes [] s s') s.
Proof.
  unfold create_or_update_ConfigMap. rewrite wp_bind. eapply wp_mono; [apply CreateResource_wp| |done].
  intros [m' err] s1. cbn [fst snd]. intros (Hc & -> & Hr). destruct err as [e|].
  - destruct Hr as [Hq _]. destruct (IsAlreadyExists e); [|by rewrite wp_fail; apply changes_quiet].
    unfold UpdateResource. rewrite wp_lift. eapply wp_mono; [apply client_Update_spec| |].
    + rewrite object_key_to_object, owned_key. intros [] w' (_ & Ho & Hnow). split.
      * etrans; [exact Hc|auto].
      * intros k Hk. cbn. rewrite Ho, (quiet_objects _ _ Hq). apply lookup_insert_ne.
        intros <-. apply Hk. left.
    + intros e' w' (Ho & Hnow). apply changes_quiet. etrans; [exact Hq|auto].
  - destruct Hr as [_ Ho]. rewrite wp_ret. split; [done|]. intros k Hk. rewrite Ho.
    apply lookup_insert_ne. intros <-. apply Hk. left.
Qed.

(** The wait succeeds only when the replicas are ready. *)
Lemma graylog_waitForStatefulset_wp f s :
  is_Some (LoggingServiceSpec_Graylog (spec_of s)) →
  wp graylog_waitForStatefulset
    (λ _ s', graylog_keeps f s s' ∧
       statefulset_up (objects (op_world s')) (GetNamespace (op_cr s')) GraylogStatefulsetName = true)
    (λ _ s', graylog_keeps f s s') s.
Proof.
  intros [g Hg]. unfold graylog_waitForStatefulset, sleep, the_cr.
  rewrite wp_bind, wp_modify, wp_bind, wp_gets. cbn [op_cr update]. fold (spec_of s).
  rewrite Hg, wp_bind, wp_deref, wp_bind, wp_lift.
  eapply wp_mono; [apply WaitForStatefulsetUpdated_wp| |done].
  intros [] w' Hup; cbn [negb]; [rewrite wp_ret; split; [done|by apply Hup]|].
  rewrite wp_bind. eapply wp_mono; [apply UpdateStatus_wp| |done]. intros [] s' [Hf _].
  rewrite wp_fail. apply (touches_cr_frame []), (touches_graylog_keeps f) in Hf.
  etrans; [|exact Hf]. by split.
Qed.

Lemma dial_attempts_wp n url timeout res (w : W) :
  wp (dial_attempts n url timeout res) (λ _ _, True) (λ _ _, True) w.
Proof.
  revert res w. induction n as [|n IH]; intros res w; cbn [dial_attempts]; [done|].
  rewrite wp_bind, wp_attempt. eapply wp_mono; [apply net_DialTimeout_quiet|done|].
  intros e w' _. rewrite wp_bind, wp_modify. apply IH.
Qed.

(** After the handler of the Service: [s1] is when the Service has been applied. *)
Definition service_applied g s s' s1 : Prop :=
  let svc := graylog_Service (op_cr s) g in
  changes [key_of svc] s s1 ∧ silent s s1 ∧ deployed owned_Service svc (objects (op_world s1)) ∧
  op_cr s' = op_cr s1 ∧ op_pending s' = op_pending s1 ∧ silent s1 s'.

Lemma graylog_handleService_wp g s :
  LoggingServiceSpec_Graylog (spec_of s) = Some g →
  wp graylog_handleService (λ _ s', ∃ s1, service_applied g s s' s1)
    (λ _ s', graylog_keeps hide_streams s s') s.
Proof.
  intros Hg. unfold graylog_handleService, the_cr. rewrite wp_bind, wp_gets. fold (spec_of s).
  rewrite Hg, wp_bind, wp_deref, wp_bind, wp_attempt. set (service := graylog_Service _ _).
  assert (Hrest : ∀ (created : bool) s1, changes [key_of service] s s1 → silent s s1 →
    wp (reconcile_Service service;;
        if negb created then mret tt
        else lift (WaitForHostActive (GraylogComponentName +:+ "." +:+ GetNamespace (op_cr s) +:+ ".svc") 9000 Minute))
      (λ _ s', ∃ s1, service_applied g s s' s1) (λ _ s', graylog_keeps hide_streams s s') s1).
  { intros created s1 Hc1 Hs1. rewrite wp_bind.
    eapply wp_mono; [apply wp_steps, reconcile_Service_changes; apply silent_createOrUpdate| |].
    2: { intros e s2 [_ Hc]. apply changes_touches in Hc1, Hc.
         etrans; [exact (touches_graylog_keeps _ _ _ _ Hc1)|exact (touches_graylog_keeps _ _ _ _ Hc)]. }
    intros [] s2 (Hs2 & Hc2 & Hdep). pose proof (transitivity Hc1 Hc2) as Hc12.
    pose proof (transitivity Hs1 Hs2) as Hs12.
    destruct created; cbn [negb]; [|rewrite wp_ret; exists s2; by split_and!].
    rewrite wp_lift.
    eapply wp_mono; [apply (wp_steps undisturbed _ (λ _ _, True) (λ _ _, True)); [apply WaitForHostActive_quiet|]| |].
    - unfold WaitForHostActive. rewrite wp_bind. eapply wp_mono; [apply dial_attempts_wp| |done].
      intros res w' _. by destruct res.
    - intros [] w' [Hq _]. exists s2. by split_and!.
    - intros e w' _. apply changes_touches in Hc12.
      etrans; [exact (touches_graylog_keeps _ _ _ _ Hc12)|by split]. }
  eapply wp_mono; [apply wp_steps, get_typed_wp; [apply silent_get_typed|done]| |].
  - intros x s1 (Hs1 & Hq & _). rewrite wp_bind, wp_ret. apply Hrest; [by apply changes_quiet|done].
  - intros e s1 (Hs1 & Hq & _). rewrite wp_bind. destruct (IsNotFound e).
    + rewrite wp_ret. apply Hrest; [by apply changes_quiet|done].
    + rewrite wp_fail. apply (touches_quiet []), (touches_graylog_keeps hide_streams) in Hq. exact Hq.
Qed.

Lemma logged_deleteDeployment_wp f cr s :
  wp (logged (graylog_deleteDeployment cr)) (λ _ s', graylog_keeps f s s') (λ _ _, False) s.
Proof.
  rewrite wp_logged. unfold graylog_deleteDeployment. rewrite wp_bind, wp_attempt.
  eapply wp_mono; [apply GetResource_wp| |]; intros r s1 [Hq _];
    apply (touches_quiet []), (touches_graylog_keeps f) in Hq.
  - rewrite wp_bind. unfold DeleteResource. eapply wp_mono; [apply (lift_keeps _ f)| |].
    + eapply wp_mono; [apply client_Delete_spec|done|done].
    + intros [] s2 Hk. rewrite wp_bind. eapply wp_mono; [apply (lift_keeps _ f), DeletePods_wp| |].
      * intros b s3 Hk3. rewrite wp_ret. etrans; [exact Hq|]. by etrans.
      * intros e s3 Hk3. etrans; [exact Hq|]. by etrans.
    + intros e s2 Hk. by etrans.
  - by destruct (IsNotFound r).
Qed.

Lemma logged_deleteUpgradeJobs_wp f cr s :
  wp (logged (deleteUpgradeJobs cr)) (λ _ s', graylog_keeps f s s') (λ _ _, False) s.
Proof.
  rewrite wp_logged. unfold deleteUpgradeJobs. apply (wp_for_each (λ s', graylog_keeps f s s')); [done|].
  intros job s' _ Hk. eapply wp_mono; [apply (delete_existing_touches [key_of (mkJob (named job (GetNamespace cr)))]); left| |];
    intros ? s'' Ht; apply (touches_graylog_keeps f) in Ht; by etrans.
Qed.

(** ** The installation *)

(** The requests of a connector go to the Service of Graylog in the namespace. *)
Definition connected (ns : string) (c : GraylogConnector) : Prop :=
  RestClient_Host (Connector_RestClient c) = GraylogComponentName +:+ "." +:+ ns +:+ ".svc:9000/api/".

(** What a successful installation did: it started Graylog, and then configured it, unless
    the policy is to skip that.  [completed] is what was exchanged. *)
Record installed s0 s : Prop := mkInstalled {
  installed_kept : graylog_keeps hide_both s0 s;
  installed_configured : graylog_configured <$> LoggingServiceSpec_Graylog (spec_of s) = Some true;
  installed_accepted : ∃ c cr g s1, connected (GetNamespace (op_cr s0)) c ∧
    LoggingServiceSpec_Graylog (LoggingService_Spec cr) = Some g ∧
    LoggingServiceSpec_Graylog (spec_of s) = Some g ∧ installing s0 s1 ∧ serving s1 ∧
    in_world (grows_by (completed (W:=W) c cr g)) s1 s;
  installed_skip g : LoggingServiceSpec_Graylog (spec_of s0) = Some g →
    Graylog_ContentDeployPolicy g = "skip" → silent s0 s;
}.

Lemma CreateConnector_connected s :
  graylog_is_complete s →
  wp CreateConnector
    (λ c s', graylog_keeps hide_streams s s' ∧ connected (GetNamespace (op_cr s)) c)
    (λ _ s', graylog_keeps hide_streams s s') s.
Proof.
  unfold graylog_is_complete. destruct (LoggingServiceSpec_Graylog (spec_of s)) as [g|] eqn:Hg; [|done].
  intros [= Hc]. apply andb_true_iff in Hc as [[http Hh]%bool_decide_eq_true _].
  eapply wp_mono; [by eapply CreateConnector_wp| |done]. intros c s' [Hk (conf & auth & Hr & _)].
  split; [done|]. unfold connected. by rewrite Hr.
Qed.

(** After [setCredentials] the custom resource has credentials. *)
Lemma with_credentials_configured secret usr pwd g :
  graylog_secret_value secret "user" = Some usr → graylog_secret_value secret "password" = Some pwd →
  is_Some (graylog_secret_value secret "elasticsearchHost") ∨ opensearch_host g = true →
  graylog_configured (with_credentials secret usr pwd g) = true.
Proof.
  intros Husr Hpwd Hhost. unfold graylog_configured, with_credentials, graylog_secret_value in *.
  cbn. change (opensearch_host _) with (opensearch_host g).
  destruct (contents _ !! "user") as [u|]; [|done]. destruct (String.eqb u "") eqn:Hu; [done|].
  destruct (contents _ !! "password") as [p|]; [|done]. destruct (String.eqb p "") eqn:Hp; [done|].
  injection Husr as <-. injection Hpwd as <-. unfold nonempty at 1 2. rewrite Hu, Hp. cbn.
  destruct (contents _ !! "elasticsearchHost") as [h|]; cbn.
  - destruct (String.eqb h "") eqn:Hh; cbn; [|unfold nonempty; by rewrite Hh].
    destruct Hhost as [[? ?]| ->]; [done|by rewrite orb_true_r].
  - destruct Hhost as [[? ?]| ->]; [done|by rewrite orb_true_r].
Qed.

Lemma setCredentials_installing s0 s :
  graylog_keeps hide_both s0 s → silent s0 s → is_Some (LoggingServiceSpec_Graylog (spec_of s)) →
  wp setCredentials (λ _ s', installing s0 s') (λ _ s', stopped s0 s') s.
Proof.
  intros Hk Hq [g Hg].
  assert (Hkeep : ∀ s', graylog_keeps hide_credentials s s' → graylog_keeps hide_both s0 s').
  { intros s' Hk'. etrans; [exact Hk|]. by eapply graylog_keeps_mono; [|exact Hk']. }
  eapply wp_mono; [apply wp_steps, (setCredentials_wp g); [apply silent_setCredentials|done]| |].
  - intros [] s' (Hs & Hk' & (secret & usr & pwd & secret' & _ & Husr & Hpwd & Hhost & Hg' & _)).
    split; [by apply Hkeep| |exact (transitivity Hq Hs)].
    rewrite Hg'. cbn. f_equal. by apply with_credentials_configured.
  - intros e s' (Hs & Hk' & _). split; [by apply Hkeep|]. left. exact (transitivity Hq Hs).
Qed.

Lemma graylog_handleStatefulset_wp cfg s :
  is_Some (LoggingServiceSpec_Graylog (spec_of s)) →
  wp (graylog_handleStatefulset cfg)
    (λ _ s', graylog_keeps hide_streams s s' ∧
       statefulset_up (objects (op_world s')) (GetNamespace (op_cr s')) GraylogStatefulsetName = true)
    (λ _ s', graylog_keeps hide_streams s s') s.
Proof.
  intros Hg. unfold graylog_handleStatefulset. rewrite wp_bind.
  eapply wp_mono; [eapply (handle_object_keeps _ _ _ (λ d, [key_of d]) hide_streams); [exact Hg|]| |done].
  - intros d s'. eapply wp_mono; [apply reconcile_StatefulSet_changes| |done]. by intros [] s'' [Hc _].
  - intros [] s' Hk. eapply wp_mono; [apply (graylog_waitForStatefulset_wp hide_streams)| |].
    + destruct Hg as [g Hg].
      destruct (graylog_keeps_field hide_streams (λ _, tt) _ _ _ (λ _, eq_refl) Hk Hg) as (g' & -> & _). by eexists.
    + intros [] s'' [Hk' Hup]. split; [by etrans|done].
    + intros e s'' Hk'. by etrans.
Qed.

(** The Service does not disturb the StatefulSet. *)
Lemma service_applied_serving g s s' s1 :
  LoggingServiceSpec_Graylog (spec_of s) = Some g →
  statefulset_up (objects (op_world s)) (GetNamespace (op_cr s)) GraylogStatefulsetName = true →
  service_applied g s s' s1 → serving s1.
Proof.
  intros Hg Hup (Hc & _ & Hdep & _). exists g. unfold spec_of in *. rewrite (changes_cr _ _ _ Hc).
  split; [done|]. split; [|done]. unfold statefulset_up. rewrite (changes_objects _ _ _ Hc); [exact Hup|].
  by intros [=]%list_elem_of_singleton.
Qed.

(** A step of the world alone. *)
Lemma installing_same_cr s0 s s' :
  installing s0 s → op_cr s' = op_cr s → op_pending s' = op_pending s → silent s s' → installing s0 s'.
Proof.
  intros [[????] Hconf Hs] Hcr Hp Hq. unfold spec_of in *.
  split; [split; unfold spec_of; by rewrite ?Hp, ?Hcr|unfold spec_of; by rewrite Hcr|exact (transitivity Hs Hq)].
Qed.

(** The last steps, from the Service on. *)
Lemma graylog_configure_wp c s0 s :
  installing s0 s → graylog_is_complete s → connected (GetNamespace (op_cr s0)) c →
  statefulset_up (objects (op_world s)) (GetNamespace (op_cr s)) GraylogStatefulsetName = true →
  wp (graylog_handleService;;
      cr ← the_cr;
      spec ← deref (LoggingServiceSpec_Graylog (LoggingService_Spec cr));
      when (negb (String.eqb (Graylog_ContentDeployPolicy spec) "skip")) (lift (configureGraylog c cr spec)))
    (λ _ s', installed s0 s') (λ _ s', stopped s0 s') s.
Proof.
  intros I Hcomp Hconn Hup. destruct (installing_graylog _ _ I) as [g Hg]. rewrite wp_bind.
  eapply wp_mono; [apply wp_steps, (graylog_handleService_wp g); [apply silent_handleService|done]| |].
  2: { intros e s1 [Hq Hk]. by eapply installing_stopped, installing_keeps. }
  intros [] s2 (Hs02 & s1 & Happ). pose proof (service_applied_serving _ _ _ _ Hg Hup Happ) as Hserving.
  destruct Happ as (Hc & Hq1 & _ & Hcr & Hp & Hq2).
  assert (I1 : installing s0 s1).
  { eapply installing_keeps; [exact I| |exact Hq1].
    exact (touches_graylog_keeps _ _ _ _ (changes_touches _ _ _ Hc)). }
  pose proof (installing_same_cr _ _ _ I1 Hcr Hp Hq2) as I2.
  unfold the_cr. rewrite wp_bind, wp_gets. change (LoggingService_Spec (op_cr s2)) with (spec_of s2).
  assert (Hg2 : LoggingServiceSpec_Graylog (spec_of s2) = Some g)
    by (unfold spec_of in *; by rewrite Hcr, (changes_cr _ _ _ Hc)).
  rewrite Hg2, wp_bind, wp_deref, wp_when.
  assert (Hcan : can_configure g = true).
  { unfold graylog_is_complete in Hcomp. rewrite Hg in Hcomp. injection Hcomp as Hcomp.
    by apply andb_true_iff in Hcomp as [_ ?]. }
  destruct (String.eqb_spec (Graylog_ContentDeployPolicy g) "skip") as [Hskip|Hskip]; cbn [negb].
  - split; [apply I2|apply I2| |intros _ _ _; apply I2]. exists c, (op_cr s2), g, s1. split_and!; [done..|].
    by apply undisturbed_grows_by.
  - rewrite wp_lift. eapply wp_mono; [by apply configureGraylog_sends| |].
    + intros [] w' Hx. split; [by destruct I2 as [[????] _ _]|by destruct I2| |].
      * exists c, (op_cr s2), g, s1. split_and!; [done..|].
        exact (transitivity (R:=grows_by _) (undisturbed_grows_by _ _ _ Hq2) Hx).
      * intros g0 Hg0 Hs0. destruct Hskip.
        destruct (graylog_keeps_field hide_both Graylog_ContentDeployPolicy s0 s2 g0) as (g' & Hg' & Hpol);
          [done|apply I2|done|]. rewrite Hg2 in Hg'. injection Hg' as <-. by rewrite Hpol.
    + intros e w' Hx. split; [by destruct I2 as [[????] _ _]|]. right. exists s1. split_and!; [done..|].
      refine (transitivity (R:=extends _) (undisturbed_extends _ _ _ Hq2) _).
      eapply breaks_off_extends; [| |exact Hx]; intros xs _; by apply Forall_true.
Qed.

Lemma graylog_install_wp cfg s :
  graylog_is_complete s →
  wp (graylog_install cfg) (λ _ s', installed s s') (λ _ s', stopped s s') s.
Proof.
  intros Hcomplete.
  assert (Hcomp : ∀ s', installing s s' → graylog_is_complete s')
    by (intros s' [Hk _ _]; by eapply (graylog_is_complete_keeps hide_both)).
  assert (Hsome : is_Some (LoggingServiceSpec_Graylog (spec_of s)))
    by (unfold graylog_is_complete in Hcomplete; by destruct (LoggingServiceSpec_Graylog (spec_of s))).
  unfold graylog_install. rewrite wp_bind.
  eapply wp_mono; [by apply (setCredentials_installing s s)| |done]. intros [] s1 I1.
  eapply installing_seq; [exact I1|eauto with steps|by apply CreateConnector_connected, Hcomp|].
  intros connector s2 I2 Hconn. rewrite (graylog_keeps_namespace _ _ _ (installing_kept _ _ I1)) in Hconn.
  eapply installing_step; [exact I2| | |intros [] s3 I3].
  { apply silent_handle_object; intros ?; unfold reconcile_ServiceAccount; eauto with steps. }
  { eapply handle_object_keeps; [by eapply installing_graylog|apply reconcile_ServiceAccount_changes]. }
  unfold graylog_handleConfigMap. rewrite wp_bind, wp_bind.
  eapply wp_mono; [apply (setCredentials_installing s); [apply I3|apply I3|by eapply installing_graylog]| |done].
  intros [] s4 I4. rewrite <- wp_bind.
  eapply installing_step; [exact I4| | |intros [] s5 I5].
  { apply silent_handle_object; intros ?; eauto with steps. }
  { eapply (handle_object_keeps _ _ _ (λ m, [key_of m]));
      [by eapply installing_graylog|apply create_or_update_ConfigMap_changes]. }
  unfold the_cr. rewrite wp_bind, wp_gets.
  eapply installing_step; [exact I5|apply steps_logged; eauto with steps
    |eapply wp_mono; [apply (logged_deleteDeployment_wp hide_streams)|done|done]|].
  intros [] s6 I6.
  eapply installing_step; [exact I6|apply steps_logged; eauto with steps
    |eapply wp_mono; [apply (logged_deleteUpgradeJobs_wp hide_streams)|done|done]|].
  intros [] s7 I7.
  eapply installing_seq; [exact I7| |apply graylog_handleStatefulset_wp; by eapply installing_graylog|].
  { unfold graylog_handleStatefulset. apply steps_bind; eauto with steps. }
  intros [] s8 I8 Hup. by apply graylog_configure_wp; [|apply Hcomp| |].
Qed.

(** Uninstalling. *)
Lemma logged_delete_keeps {T} `{K8sObjectLaws T} (o : T) f s :
  wp (logged (delete_existing o)) (λ _ s', graylog_keeps f s s') (λ _ _, False) s.
Proof.
  eapply wp_mono; [apply (logged_delete_wp [key_of o]); left| |done].
  intros [] s'. apply touches_graylog_keeps.
Qed.

Lemma graylog_uninstall_wp f s :
  wp graylog_uninstall (λ _ s', graylog_keeps f s s') (λ _ _, False) s.
Proof.
  unfold graylog_uninstall, the_cr. rewrite wp_bind, wp_gets. set (cr := op_cr s).
  assert (Hstep : ∀ (m1 m : M (op W) unit) s1,
    graylog_keeps f s s1 →
    wp m1 (λ _ s', graylog_keeps f s1 s') (λ _ _, False) s1 →
    (∀ s2, graylog_keeps f s s2 → wp m (λ _ s', graylog_keeps f s s') (λ _ _, False) s2) →
    wp (m1;; m) (λ _ s', graylog_keeps f s s') (λ _ _, False) s1).
  { intros m1 m s1 Hk Hm1 Hm. rewrite wp_bind. eapply wp_mono; [exact Hm1| |done].
    intros [] s2 Hk2. apply Hm. by etrans. }
  apply Hstep; [done|apply logged_delete_keeps|intros s1 Hk1].
  apply Hstep; [done|apply logged_delete_keeps|intros s2 Hk2].
  apply Hstep; [done|apply logged_delete_keeps|intros s3 Hk3].
  apply Hstep; [done|apply logged_delete_keeps|intros s4 Hk4].
  apply Hstep; [done|apply logged_delete_keeps|intros s5 Hk5].
  apply Hstep; [done|apply logged_delete_keeps|intros s6 Hk6].
  eapply wp_mono; [apply (logged_deleteUpgradeJobs_wp f)| |done]. intros [] s7 Hk7. by etrans.
Qed.

(** ** The run *)

(** Status updates before and after the installation. *)
Definition status_only s s' : Prop := touches [] s s' ∧ silent s s'.

Lemma status_only_graylog s s' :
  status_only s s' → LoggingServiceSpec_Graylog (spec_of s') = LoggingServiceSpec_Graylog (spec_of s).
Proof. intros [Ht _]. by apply (touches_spec_field LoggingServiceSpec_Graylog _ _ _ (λ _ _, eq_refl) Ht). Qed.

Lemma status_only_keeps f s s' : status_only s s' → graylog_keeps f s s'.
Proof. intros [Ht _]. exact (touches_graylog_keeps _ _ _ _ Ht). Qed.

Lemma installing_before s0 s1 s : status_only s0 s1 → installing s1 s → installing s0 s.
Proof.
  intros Hst [Hk Hc Hq]. split; [|done|exact (transitivity (proj2 Hst) Hq)].
  etrans; [exact (status_only_keeps _ _ _ Hst)|exact Hk].
Qed.

Lemma installed_between s0 s1 s2 s3 :
  status_only s0 s1 → installed s1 s2 → status_only s2 s3 → installed s0 s3.
Proof.
  intros H01 [Hk Hc (c & cr & g & s & Hconn & Hgc & Hg & I & Hserv & Hreq) Hskip] H23.
  pose proof (status_only_keeps hide_both _ _ H01) as Hk01. split.
  - etrans; [exact Hk01|]. etrans; [exact Hk|exact (status_only_keeps _ _ _ H23)].
  - by rewrite (status_only_graylog _ _ H23).
  - exists c, cr, g, s. rewrite <- (graylog_keeps_namespace _ _ _ Hk01), (status_only_graylog _ _ H23).
    split_and!; [done..|by eapply installing_before|done|].
    exact (transitivity (R:=grows_by _) Hreq (undisturbed_grows_by _ _ _ (proj2 H23))).
  - intros g' Hg' Hp. rewrite <- (status_only_graylog _ _ H01) in Hg'.
    exact (transitivity (proj2 H01) (transitivity (Hskip g' Hg' Hp) (proj2 H23))).
Qed.

Lemma stopped_before s0 s1 s : status_only s0 s1 → stopped s1 s → stopped s0 s.
Proof.
  intros Hst [Hk Ha]. split; [etrans; [exact (status_only_keeps _ _ _ Hst)|exact Hk]|].
  destruct Ha as [Hq|(s2 & I & Hserv & Hreq)]; [left; exact (transitivity (proj2 Hst) Hq)|].
  right. exists s2. split_and!; [by eapply installing_before|done|done].
Qed.

Lemma UpdateStatus_only reason t st msg s :
  wp (UpdateStatus reason t st msg) (λ _ s', status_only s s') (λ _ _, False) s.
Proof.
  eapply wp_mono; [apply wp_steps, UpdateStatus_wp; apply silent_UpdateStatus| |by intros e s' [_ []]].
  intros [] s' [Hq [Hf _]]. split; [by apply touches_cr_frame|done].
Qed.

Lemma RemoveStatus_only reason s :
  wp (_ ← RemoveStatus reason; mret tt) (λ _ s', status_only s s') (λ _ _, False) s.
Proof.
  rewrite wp_bind. eapply wp_mono; [apply wp_steps, RemoveStatus_wp; apply silent_RemoveStatus| |by intros e s' [_ []]].
  intros r s' [Hq [Hf _]]. rewrite wp_ret. split; [by apply touches_cr_frame|done].
Qed.

Lemma graylog_Run_wp cfg s :
  (graylog_installed (op_cr s) = true → graylog_is_complete s) →
  wp (graylog_Run cfg)
    (λ _ s', if graylog_installed (op_cr s) then installed s s' else graylog_keeps hide_both s s' ∧ silent s s')
    (λ _ s', graylog_installed (op_cr s) = true ∧ stopped s s') s.
Proof.
  intros Hcomplete. unfold graylog_Run, the_cr. rewrite wp_bind, IsStatusFailed_wp, wp_bind.
  set (failed := match GetCondition _ _ with Some _ => _ | None => _ end).
  assert (Hstart : wp (when (negb failed) (UpdateStatus GraylogStatus InProgress false "Start reconcile of Graylog"))
    (λ _ s', status_only s s') (λ _ _, False) s).
  { rewrite wp_when. destruct failed; cbn [negb]; [by split|apply UpdateStatus_only]. }
  eapply wp_mono; [exact Hstart| |done]. intros [] s1 Hs1. rewrite wp_bind, wp_gets.
  pose proof (status_only_graylog _ _ Hs1) as Hgray.
  assert (Hinst : graylog_installed (op_cr s1) = graylog_installed (op_cr s))
    by (unfold graylog_installed; fold (spec_of s1) (spec_of s); by rewrite Hgray).
  rewrite Hinst, wp_bind. destruct (graylog_installed (op_cr s)).
  - eapply wp_mono; [apply graylog_install_wp; unfold graylog_is_complete; rewrite Hgray; by apply Hcomplete| |].
    + intros [] s2 Hs2. eapply wp_mono; [apply RemoveStatus_only| |done]. intros [] s3 Hs3.
      exact (installed_between _ _ _ _ Hs1 Hs2 Hs3).
    + intros e s2 Hs2. split; [done|exact (stopped_before _ _ _ Hs1 Hs2)].
  - eapply wp_mono; [apply wp_steps, (graylog_uninstall_wp hide_both); apply silent_uninstall| |by intros e s2 [_ []]].
    intros [] s2 [Hq2 Hk2]. eapply wp_mono; [apply RemoveStatus_only| |done]. intros [] s3 Hs3. split.
    + etrans; [exact (status_only_keeps _ _ _ Hs1)|]. etrans; [exact Hk2|exact (status_only_keeps _ _ _ Hs3)].
    + exact (transitivity (proj2 Hs1) (transitivity Hq2 (proj2 Hs3))).
Qed.
End run.

(** ** Properties *)


(** ** Witness *)

#[local] Existing Instances example_externals example_encodings.

