(* ===== verification/SecretWatcher.v ===== *)
(** * The watcher of Graylog's Secret: internal/controllers/graylog/utils/watch-secret.go

    The goroutine that the Graylog reconciler starts.  It has the same custom resource as
    the reconciler; the events of its channel are an argument. *)

From Stdlib Require Import Strings.Ascii.
From S2P Require Import Prelude GoStrings Sha256 KubeTypes Api Client Operator Component.
From S2P Require Import ComponentRun.
From S2P Require Import Net System GraylogRest GraylogRequests GraylogController.

(** ** Lines of a file *)

Definition carriage_return : string := String (ascii_of_nat 13) "".

(** [bufio.ScanLines]: the lines without their end, which is "\n" or "\r\n"; nothing after
    the last one is no line. *)
Definition drop_cr (line : string) : string :=
  if HasSuffix line carriage_return then slice_to (len line - 1) line else line.

Definition scan_lines (config : string) : list string :=
  let parts := Split config newline in
  drop_cr <$> (if bool_decide (last parts = Some "") then removelast parts else parts).

(** [bufio.MaxScanTokenSize]: a longer line is an error of the scanner. *)
Definition MaxScanTokenSize : nat := 64 * 1024.

Definition Scan (config : string) : error + list string :=
  if existsb (λ line, MaxScanTokenSize <=? len line) (Split config newline)
  then inl (errors_New "bufio.Scanner: token too long")
  else inr (scan_lines config).

(** What [WriteString] built of the lines. *)
Definition write_lines (lines : list string) : string :=
  foldr (λ line rest, line +:+ carriage_return +:+ newline +:+ rest) "" lines.

(** A line of a field gets the new value. *)
Definition set_line (field value line : string) : string :=
  if HasPrefix line field then field +:+ " = " +:+ value else line.

Definition GraylogConfigFileName : string := "graylog.conf".
Definition GraylogPasswordField : string := "root_password_sha2".
Definition GraylogUserField : string := "root_username".

(** ** Events *)

Inductive EventType : Type := Added | Modified | Deleted | Bookmark | ErrorEvent.

#[global] Instance EventType_eq_dec : EqDecision EventType.
Proof. solve_decision. Defined.

Record WatchEvent : Type := mkWatchEvent {
  WatchEvent_Type : EventType;
  WatchEvent_Object : Object;
}.

(** How [Watch] ends; a channel that could not be opened is nil, and receiving from it
    blocks for ever. *)
Inductive WatchEnd : Type :=
| ChannelClosed
| NotASecret
| AnotherSecret
| Blocked.

Section Watcher.
Context {W : Type} `{KubeClient W}.

Definition secret_missing (what : string) (cr : LoggingService) (graylog : Graylog) : error :=
  errors_New ("Can not find " +:+ what +:+ " for Graylog in the secret " +:+
    Graylog_GraylogSecretName graylog +:+ " in the namespace " +:+ GetNamespace cr).

Definition watched_graylog : M (op W) (LoggingService * Graylog) :=
  cr ← the_cr;
  graylog ← deref (LoggingServiceSpec_Graylog (LoggingService_Spec cr));
  mret (cr, graylog).

(** The lines of [field] of the configuration in the ConfigMap get the value, if it has
    any; a ConfigMap without a configuration is left. *)
Definition update_config (namespace field value : string) : M (op W) unit :=
  cm ← (get_typed (mkObjectKey KConfigMap namespace GraylogComponentName) : M (op W) ConfigMap);
  let config := default "" (contents (ConfigMap_Data cm) !! GraylogConfigFileName) in
  if String.eqb config "" then mret tt
  else
    lines ← of_sum (Scan config);
    let result := write_lines (set_line field value <$> lines) in
    let changed := existsb (λ line, HasPrefix line field) lines in
    when changed
      (UpdateResource (cm <| ConfigMap_Data ::= λ d, Some (<[GraylogConfigFileName := result]> (contents d)) |>)).

Definition updateUser (secret : Secret) : M (op W) unit :=
  '(cr, graylog) ← watched_graylog;
  match graylog_secret_value secret "user" with
  | None => fail (secret_missing "user" cr graylog)
  | Some usr =>
      if String.eqb (Graylog_User graylog) usr then mret tt
      else
        update_graylog (λ g, g <| Graylog_User := usr |>);;
        update_config (GetNamespace cr) GraylogUserField usr
  end.

Definition syncRootPasswordSHA2SecretKey (plainPassword : string) : M (op W) unit :=
  '(cr, graylog) ← watched_graylog;
  sec ← (get_typed (mkObjectKey KSecret (GetNamespace cr) (Graylog_GraylogSecretName graylog)) : M (op W) Secret);
  let '(changed, sec) := EnsureSecretRootPasswordSHA2 sec plainPassword in
  when changed (UpdateResource sec).

Definition updatePassword (secret : Secret) : M (op W) unit :=
  '(cr, graylog) ← watched_graylog;
  match graylog_secret_value secret "password" with
  | None => fail (secret_missing "password" cr graylog)
  | Some pwd =>
      if String.eqb (Graylog_Password graylog) pwd then syncRootPasswordSHA2SecretKey pwd
      else
        update_graylog (λ g, g <| Graylog_Password := pwd |>);;
        update_config (GetNamespace cr) GraylogPasswordField (sha256_hex pwd);;
        syncRootPasswordSHA2SecretKey pwd
  end.

Definition handle_event (eventType : EventType) (secret : Secret) : M (op W) unit :=
  match eventType with
  | Modified =>
      logged (updateUser secret);;
      logged (updatePassword secret)
  | _ => mret tt
  end.

(** The loop over the events. *)
Fixpoint watch_events (events : list WatchEvent) : M (op W) WatchEnd :=
  match events with
  | [] => mret ChannelClosed
  | event :: events =>
      match WatchEvent_Object event with
      | OSecret secret =>
          '(_, graylog) ← watched_graylog;
          if negb (String.eqb (ObjectMeta_Name (Secret_ObjectMeta secret)) (Graylog_GraylogSecretName graylog))
          then mret AnotherSecret
          else
            handle_event (WatchEvent_Type event) secret;;
            watch_events events
      | _ => mret NotASecret
      end
  end.

Definition Watch (watchChan : error + list WatchEvent) : M (op W) WatchEnd :=
  match watchChan with
  | inl _ => mret Blocked
  | inr events => watch_events events
  end.
End Watcher.

(** ** Lines *)

Abbreviation one_line := (char_free (ascii_of_nat 10)).

Lemma drop_cr_append line : drop_cr (line +:+ carriage_return) = line.
Proof.
  unfold drop_cr. rewrite HasSuffix_append, length_append.
  replace (len line + len carriage_return - 1) with (len line) by (cbn; lia). apply slice_to_append.
Qed.

Lemma one_line_cr line : one_line line → one_line (line +:+ carriage_return).
Proof.
  induction line as [|c line IH]; [done|]. rewrite char_free_cons. intros [Hc Hl].
  change (String c line +:+ carriage_return) with (String c (line +:+ carriage_return)).
  rewrite char_free_cons. auto.
Qed.

Lemma Split_write_lines lines :
  Forall one_line lines → Split (write_lines lines) newline = ((λ line, line +:+ carriage_return) <$> lines) ++ [""].
Proof.
  induction 1 as [|line lines Hl _ IH]; [done|]. cbn [write_lines foldr]. fold (write_lines lines).
  change (line +:+ carriage_return +:+ newline +:+ write_lines lines)
    with (line +:+ (carriage_return +:+ String (ascii_of_nat 10) (write_lines lines))).
  rewrite (assoc String.append). unfold newline in *. rewrite Split_char_app, IH.
  by rewrite Split_char_free by by apply one_line_cr.
Qed.

(** What is written is scanned back. *)
Lemma scan_write_lines lines : Forall one_line lines → scan_lines (write_lines lines) = lines.
Proof.
  intros Hl. unfold scan_lines. rewrite Split_write_lines, last_snoc by done.
  rewrite bool_decide_eq_true_2, removelast_last by done. rewrite <- list_fmap_compose.
  rewrite <- (list_fmap_id lines) at 2. apply list_fmap_ext. intros _ line _. apply drop_cr_append.
Qed.

Lemma one_line_slice n line : one_line line → one_line (slice_to n line).
Proof.
  revert n. induction line as [|c line IH]; intros [|n]; try done.
  rewrite char_free_cons. intros [Hc Hl]. cbn [slice_to]. rewrite char_free_cons. auto.
Qed.

Lemma scan_lines_one_line config : Forall one_line (scan_lines config).
Proof.
  assert (Hall : Forall one_line (Split config newline)) by apply Split_parts_free.
  unfold scan_lines. apply Forall_fmap.
  assert (Hp : Forall one_line (if bool_decide (last (Split config newline) = Some "")
                                then removelast (Split config newline) else Split config newline)).
  { case_bool_decide as Hlast; [|done]. apply last_Some in Hlast as [l Hl]. rewrite Hl in *.
    rewrite removelast_last. by apply Forall_app in Hall as [? _]. }
  eapply Forall_impl; [exact Hp|]. intros line Hl. unfold compose, drop_cr.
  destruct (HasSuffix line carriage_return); [by apply one_line_slice|done].
Qed.

Lemma one_line_append a b : one_line a → one_line b → one_line (a +:+ b).
Proof.
  induction a as [|c a IH]; [done|]. rewrite char_free_cons. intros [Hc Ha] Hb.
  change (String c a +:+ b) with (String c (a +:+ b)). rewrite char_free_cons. auto.
Qed.

Lemma set_line_one_line field value line :
  one_line field → one_line value → one_line line → one_line (set_line field value line).
Proof.
  intros Hf Hv Hl. unfold set_line. case_match; [|done]. apply one_line_append; [done|].
  by apply (one_line_append " = ").
Qed.

Lemma set_line_idemp field value line :
  set_line field value (set_line field value line) = set_line field value line.
Proof. unfold set_line. destruct (HasPrefix line field) eqn:Hp; [by rewrite HasPrefix_append|by rewrite Hp]. Qed.

Lemma one_line_hex value : hex_string value → one_line value.
Proof.
  induction value as [|c value IH]; [done|]. intros [Hc Hv]%Forall_cons. apply char_free_cons.
  split; [by intros <-|by apply IH].
Qed.

(** A configuration whose lines have no such field keeps its lines. *)
Lemma set_lines_unchanged field value lines :
  existsb (λ line, HasPrefix line field) lines = false → set_line field value <$> lines = lines.
Proof.
  induction lines as [|line lines IH]; [done|]. cbn. intros [Hl ->%IH]%orb_false_iff.
  unfold set_line at 1. by rewrite Hl.
Qed.

(** ** What the watcher does *)

Section effects.
Context {W : Type} `{KubeClientLaws W}.
Implicit Types (s : op W).

Definition config_key (ns : string) : ObjectKey := mkObjectKey KConfigMap ns GraylogComponentName.

(** The configuration of Graylog in a ConfigMap. *)
Definition graylog_conf (cm : ConfigMap) : string :=
  default "" (contents (ConfigMap_Data cm) !! GraylogConfigFileName).

(** From [m] to [m'] the lines of [field] in the configuration got the value, and nothing
    else changed in the ConfigMap's data. *)
Definition config_set (ns field value : string) (m m' : gmap ObjectKey Object) : Prop :=
  ∃ cm cm', m !! config_key ns = Some (OConfigMap cm) ∧ m' !! config_key ns = Some (OConfigMap cm') ∧
    scan_lines (graylog_conf cm') = set_line field value <$> scan_lines (graylog_conf cm) ∧
    ∀ k, k ≠ GraylogConfigFileName →
      contents (ConfigMap_Data cm') !! k = contents (ConfigMap_Data cm) !! k.

Lemma Scan_lines config lines : Scan config = inr lines → lines = scan_lines config.
Proof. unfold Scan. case_match; [done|]. by intros [= <-]. Qed.

Lemma update_config_wp ns field value s :
  one_line field → one_line value →
  wp (update_config ns field value)
    (λ _ s', cluster_only s s' ∧ same_but (config_key ns) (objects (op_world s)) (objects (op_world s')) ∧
       config_set ns field value (objects (op_world s)) (objects (op_world s')))
    (λ _ s', quiet s s') s.
Proof.
  intros Hfield Hvalue. unfold update_config. rewrite wp_bind.
  eapply wp_mono; [by apply get_typed_wp| |by intros e s1 [Hq _]].
  intros cm s1 [[Hc1 Ho1] Hcm]. fold (graylog_conf cm).
  assert (Hsame : set_line field value <$> scan_lines (graylog_conf cm) = scan_lines (graylog_conf cm) →
    cluster_only s s1 ∧ same_but (config_key ns) (objects (op_world s)) (objects (op_world s1)) ∧
    config_set ns field value (objects (op_world s)) (objects (op_world s1))).
  { intros Heq. split; [done|]. rewrite Ho1. split; [done|]. by exists cm, cm. }
  destruct (String.eqb_spec (graylog_conf cm) "") as [He|Hne].
  { rewrite wp_ret. apply Hsame. by rewrite He. }
  rewrite wp_bind, wp_of_sum. destruct (Scan (graylog_conf cm)) as [e|lines] eqn:Hscan; [by split|].
  apply Scan_lines in Hscan as ->. rewrite wp_when.
  destruct (existsb _ _) eqn:Hch; [|by apply Hsame, set_lines_unchanged].
  set (cm2 := cm <| ConfigMap_Data ::= _ |>). pose proof (objects_keyed _ _ _ Hcm) as [Hk _].
  assert (Hkey : object_key (to_object cm2) = config_key ns) by exact Hk.
  unfold UpdateResource. rewrite wp_lift. eapply wp_mono; [apply client_Update_spec| |].
  2: { intros e w' (Ho & Hnow). cbn. split; [etrans; [exact Hc1|by split]|cbn; congruence]. }
  intros [] w' (_ & Ho & Hnow). cbn [op_world update]. rewrite Hkey in Ho.
  split; [etrans; [exact Hc1|by split]|]. split.
  { intros k Hne'. rewrite Ho, lookup_insert_ne by done. by rewrite Ho1. }
  destruct (stored_configmap (op_world s1) cm2) as (cm' & Hst & Hd & _).
  exists cm, cm'. split; [done|]. split; [rewrite Ho, lookup_insert_eq; by f_equal|]. split.
  - unfold graylog_conf at 1. rewrite Hd. cbn. rewrite lookup_insert_eq. cbn. apply scan_write_lines.
    apply Forall_fmap. eapply Forall_impl; [apply scan_lines_one_line|]. intros line Hl.
    by apply set_line_one_line.
  - intros k Hk'. rewrite Hd. cbn. by rewrite lookup_insert_ne.
Qed.

Lemma watched_graylog_wp g Q E s :
  LoggingServiceSpec_Graylog (spec_of s) = Some g →
  wp watched_graylog Q E s ↔ Q (op_cr s, g) s.
Proof.
  intros Hg. unfold watched_graylog, the_cr. rewrite wp_bind, wp_gets. fold (spec_of s).
  by rewrite Hg, wp_bind, wp_deref, wp_ret.
Qed.

Lemma syncRootPasswordSHA2SecretKey_wp g pwd s :
  LoggingServiceSpec_Graylog (spec_of s) = Some g →
  wp (syncRootPasswordSHA2SecretKey pwd)
    (λ _ s', cluster_only s s' ∧
       same_but (credentials_key (GetNamespace (op_cr s)) g) (objects (op_world s)) (objects (op_world s')) ∧
       ∃ secret', objects (op_world s') !! credentials_key (GetNamespace (op_cr s)) g = Some (OSecret secret') ∧
         root_hash secret' = sha256_hex pwd)
    (λ _ s', cluster_only s s') s.
Proof.
  intros Hg. unfold syncRootPasswordSHA2SecretKey.
  rewrite wp_bind, (watched_graylog_wp g), wp_bind by done.
  eapply wp_mono; [by apply get_typed_wp| |by intros e s1 [[Hc _] _]].
  intros secret s1 [[Hc1 Ho1] Hs]. change (objects (op_world s) !! credentials_key (GetNamespace (op_cr s)) g
    = Some (OSecret secret)) in Hs. rewrite <- Ho1 in Hs.
  eapply wp_mono; [exact (write_hash_wp _ secret pwd _ Hs)| |].
  - intros [] s2 (Hc2 & Hb & secret' & Hs' & Hh & _). rewrite Ho1 in Hb. split; [by etrans|]. eauto.
  - intros e s2 [Hc2 _]. by etrans.
Qed.

(** A field of the Graylog part is set. *)
Lemma update_graylog_wp (f : Graylog → Graylog) g Q E s :
  LoggingServiceSpec_Graylog (spec_of s) = Some g →
  (∀ s', op_world s' = op_world s → GetNamespace (op_cr s') = GetNamespace (op_cr s) →
     LoggingServiceSpec_Graylog (spec_of s') = Some (f g) → Q tt s') →
  wp (update_graylog f) Q E s.
Proof.
  intros Hg HQ. unfold update_graylog. rewrite wp_modify. apply HQ; [done|done|].
  unfold spec_of in *. cbn. by rewrite Hg.
Qed.

Lemma updatePassword_wp g secret pwd s :
  LoggingServiceSpec_Graylog (spec_of s) = Some g → graylog_secret_value secret "password" = Some pwd →
  wp (updatePassword secret)
    (λ _ s', ∃ secret' g',
       objects (op_world s') !! credentials_key (GetNamespace (op_cr s)) g = Some (OSecret secret') ∧
       root_hash secret' = sha256_hex pwd ∧
       LoggingServiceSpec_Graylog (spec_of s') = Some g' ∧ Graylog_Password g' = pwd ∧
       (Graylog_Password g ≠ pwd →
        config_set (GetNamespace (op_cr s)) GraylogPasswordField (sha256_hex pwd)
          (objects (op_world s)) (objects (op_world s'))))
    (λ _ _, True) s.
Proof.
  intros Hg Hpwd. unfold updatePassword. rewrite wp_bind, (watched_graylog_wp g), Hpwd by done.
  destruct (String.eqb_spec (Graylog_Password g) pwd) as [Heq|Hne].
  - eapply wp_mono; [by apply (syncRootPasswordSHA2SecretKey_wp g)| |done].
    intros [] s1 (Hc & _ & secret' & Hs & Hh). exists secret', g.
    split_and!; [done|done| |done|done]. unfold spec_of. by rewrite (cluster_only_cr _ _ Hc).
  - rewrite wp_bind. eapply update_graylog_wp; [done|]. intros s1 Hw1 Hns1 Hg1. rewrite wp_bind.
    eapply wp_mono; [apply update_config_wp; [done|apply one_line_hex, sha256_hex_digits]| |done].
    intros [] s2 (Hc2 & Hb2 & Hset). rewrite Hw1 in Hset.
    assert (Hg2 : LoggingServiceSpec_Graylog (spec_of s2) = Some (g <| Graylog_Password := pwd |>)).
    { unfold spec_of. by rewrite (cluster_only_cr _ _ Hc2). }
    assert (Hns2 : GetNamespace (op_cr s2) = GetNamespace (op_cr s)) by by rewrite (cluster_only_cr _ _ Hc2).
    eapply wp_mono; [by eapply syncRootPasswordSHA2SecretKey_wp| |done].
    intros [] s3 (Hc3 & Hb3 & secret' & Hs & Hh). rewrite Hns2 in Hb3, Hs.
    exists secret', (g <| Graylog_Password := pwd |>). split_and!; [done|done| |done|].
    + unfold spec_of. by rewrite (cluster_only_cr _ _ Hc3).
    + intros _. destruct Hset as (cm & cm' & Hcm & Hcm' & Hrest). exists cm, cm'.
      split_and!; [done| |apply Hrest..].
      by rewrite Hb3.
Qed.

(** The custom resource has a Graylog part that names this Secret. *)
Definition watches (name : string) s : Prop :=
  ∃ g, LoggingServiceSpec_Graylog (spec_of s) = Some g ∧ Graylog_GraylogSecretName g = name.

Lemma watches_cluster_only name s s' : cluster_only s s' → watches name s → watches name s'.
Proof. intros Hc. unfold watches, spec_of. by rewrite (cluster_only_cr _ _ Hc). Qed.

Lemma update_config_cluster ns field value s :
  wp (update_config ns field value) (λ _, cluster_only s) (λ _, cluster_only s) s.
Proof.
  unfold update_config. rewrite wp_bind. eapply wp_mono; [by apply get_typed_wp| |by intros e s1 [[Hc _] _]].
  intros cm s1 [[Hc1 _] _]. case_match; [done|]. rewrite wp_bind, wp_of_sum.
  destruct (Scan _); [done|]. rewrite wp_when. case_match; [|done]. unfold UpdateResource. rewrite wp_lift.
  eapply wp_mono; [apply client_Update_spec| |].
  - intros [] w' (_ & _ & Hnow). etrans; [exact Hc1|by split].
  - intros e w' (_ & Hnow). etrans; [exact Hc1|by split].
Qed.

Lemma updateUser_watches name secret s :
  watches name s → wp (updateUser secret) (λ _, watches name) (λ _, watches name) s.
Proof.
  intros (g & Hg & Hn). unfold updateUser. rewrite wp_bind, (watched_graylog_wp g) by done.
  destruct (graylog_secret_value secret "user") as [usr|]; [|rewrite wp_fail; by exists g].
  destruct (String.eqb _ usr); [rewrite wp_ret; by exists g|].
  rewrite wp_bind. eapply update_graylog_wp; [done|]. intros s1 _ _ Hg1.
  assert (Hw1 : watches name s1) by (eexists; split; [exact Hg1|exact Hn]).
  eapply wp_mono; [apply update_config_cluster| |];
    intros ? s2 Hc; by apply (watches_cluster_only _ s1).
Qed.

Lemma updatePassword_watches name secret s :
  watches name s → wp (updatePassword secret) (λ _, watches name) (λ _, watches name) s.
Proof.
  intros (g & Hg & Hn). unfold updatePassword. rewrite wp_bind, (watched_graylog_wp g) by done.
  destruct (graylog_secret_value secret "password") as [pwd|]; [|rewrite wp_fail; by exists g].
  assert (Hsync : ∀ s1, watches name s1 →
    wp (syncRootPasswordSHA2SecretKey pwd) (λ _, watches name) (λ _, watches name) s1).
  { intros s1 Hw1. pose proof Hw1 as (g1 & Hg1 & _).
    eapply wp_mono; [by apply (syncRootPasswordSHA2SecretKey_wp g1)| |].
    - intros [] s2 [Hc _]. by apply (watches_cluster_only _ s1).
    - intros e s2 Hc. by apply (watches_cluster_only _ s1). }
  destruct (String.eqb _ pwd); [apply Hsync; by exists g|].
  rewrite wp_bind. eapply update_graylog_wp; [done|]. intros s1 _ _ Hg1.
  assert (Hw1 : watches name s1) by (eexists; split; [exact Hg1|exact Hn]).
  rewrite wp_bind. eapply wp_mono; [apply update_config_cluster| |].
  - intros [] s2 Hc. by apply Hsync, (watches_cluster_only _ s1).
  - intros e s2 Hc. by apply (watches_cluster_only _ s1).
Qed.

Lemma handle_event_watches name eventType secret s :
  watches name s → wp (handle_event eventType secret) (λ _, watches name) (λ _ _, False) s.
Proof.
  intros Hw. destruct eventType; try done. cbn [handle_event]. rewrite wp_bind, wp_logged.
  eapply wp_mono; [by apply updateUser_watches| |]; intros ? s1 Hw1; rewrite wp_logged;
    by apply updatePassword_watches.
Qed.

(** The end of the loop by its events: an event of another Secret, or of another object,
    ends it. *)
Fixpoint watch_end (name : string) (events : list WatchEvent) : WatchEnd :=
  match events with
  | [] => ChannelClosed
  | event :: events =>
      match WatchEvent_Object event with
      | OSecret secret =>
          if String.eqb (ObjectMeta_Name (Secret_ObjectMeta secret)) name then watch_end name events
          else AnotherSecret
      | _ => NotASecret
      end
  end.

Lemma watch_events_wp name events s :
  watches name s →
  wp (watch_events events) (λ r s', r = watch_end name events ∧ watches name s') (λ _ _, False) s.
Proof.
  revert s. induction events as [|event events IH]; intros s Hw; cbn [watch_events watch_end]; [done|].
  destruct (WatchEvent_Object event); try done.
  pose proof Hw as (g & Hg & Hn). rewrite wp_bind, (watched_graylog_wp g), Hn by done.
  destruct (String.eqb _ name); cbn [negb]; [|done].
  rewrite wp_bind. eapply wp_mono; [by apply handle_event_watches| |done]. intros [] s1 Hw1. by apply IH.
Qed.
End effects.

(** ** Properties *)

(** C14: a new password reaches Graylog.  When [updatePassword] succeeds, the Secret that
    the custom resource names holds the SHA-256 hash of the password of the event; and if
    the password is a new one, the lines of root_password_sha2 in Graylog's configuration
    hold that hash, while the other lines and the other files of the ConfigMap are as
    before. *)
Theorem updatePassword_rotates {W} `{KubeClientLaws W} g secret pwd (s : op W) :
  LoggingServiceSpec_Graylog (spec_of s) = Some g → graylog_secret_value secret "password" = Some pwd →
  wp (updatePassword secret)
    (λ _ s', ∃ secret' g',
       objects (op_world s') !! credentials_key (GetNamespace (op_cr s)) g = Some (OSecret secret') ∧
       root_hash secret' = sha256_hex pwd ∧
       LoggingServiceSpec_Graylog (spec_of s') = Some g' ∧ Graylog_Password g' = pwd ∧
       (Graylog_Password g ≠ pwd →
        config_set (GetNamespace (op_cr s)) GraylogPasswordField (sha256_hex pwd)
          (objects (op_world s)) (objects (op_world s'))))
    (λ _ _, True) s.
Proof. apply updatePassword_wp. Qed.

(** C38: the life of the watcher.  Whatever the events do, it neither fails nor panics: errors
    of the updates are logged and the next event is taken.  It ends exactly when the channel
    is closed or at the first event that is not one of the Graylog Secret, however many
    events of that Secret follow; and when the channel cannot be opened it blocks. *)
Theorem Watch_ends {W} `{KubeClientLaws W} name watchChan (s : op W) :
  watches name s →
  wp (Watch watchChan)
    (λ r s', watches name s' ∧
       r = match watchChan with inl _ => Blocked | inr events => watch_end name events end)
    (λ _ _, False) s.
Proof.
  intros Hw. destruct watchChan as [e|events]; [done|]. cbn [Watch].
  eapply wp_mono; [by apply watch_events_wp| |done]. by intros r s' [-> ?].
Qed.

(** ** Witnesses *)

Definition example_conf : ConfigMap :=
  mkConfigMap (named GraylogComponentName "ns")
    (Some {[ GraylogConfigFileName :=
      "root_username = admin" +:+ newline +:+ "root_password_sha2 = old" +:+ newline ]}) None.

Definition example_rotation : op Mem :=
  mkOp (mem_store (OConfigMap example_conf) (mem_store (OSecret example_graylog_secret) zero))
    example_graylog_cr [].

Lemma updatePassword_rotates_witness :
  let s' := (updatePassword example_graylog_secret example_rotation).1 in
  ∃ cm, objects (op_world s') !! config_key "ns" = Some (OConfigMap cm) ∧
    scan_lines (graylog_conf cm) = ["root_username = admin"; "root_password_sha2 = " +:+ sha256_hex "abc"].
Proof.
  intros s'.
  run_theorem (updatePassword_rotates example_graylog example_graylog_secret "abc" example_rotation
    eq_refl eq_refl) tt Hw.
  destruct Hw as (secret' & g' & _ & _ & _ & _ & Hset).
  destruct Hset as (cm & cm' & Hcm & Hcm' & Hlines & _); [by vm_compute|].
  exists cm'. split; [exact Hcm'|]. rewrite Hlines.
  assert (Hc : ∃ v, objects (op_world example_rotation) !! config_key "ns" = Some (OConfigMap v) ∧
    scan_lines (graylog_conf v) = ["root_username = admin"; "root_password_sha2 = old"])
    by (eexists; split; [vm_compute; reflexivity|by vm_compute]).
  destruct Hc as (v & Hv & Hl). change (GetNamespace (op_cr example_rotation)) with "ns" in Hcm.
  rewrite Hv in Hcm. injection Hcm as <-. rewrite Hl. by vm_compute.
Defined.

(** The rotation comes after an event of another Secret with the label. *)
Lemma Watch_ends_witness :
  let other := example_graylog_secret <| Secret_ObjectMeta := named "other" "ns" |> in
  let events := [mkWatchEvent Added (OSecret other); mkWatchEvent Modified (OSecret example_graylog_secret)] in
  (Watch (inr events) example_rotation).2 = Ret AnotherSecret.
Proof.
  intros other events.
  assert (Hw : watches "graylog-secret" example_rotation) by (exists example_graylog; by split).
  pose proof (Watch_ends "graylog-secret" (inr events) example_rotation Hw) as Hwp.
  unfold wp in Hwp. destruct (Watch (inr events) example_rotation) as [s' [r|e|]]; [|done|done].
  destruct Hwp as [_ ->]. by vm_compute.
Defined.
