(* ===== verification/Watchers.v ===== *)
(** * The watchers at work: internal/controllers/graylog/utils/watch-secret.go, watchSecret of
      internal/controllers/graylog/reconciler.go

    Every reconcile of Graylog that succeeds starts a goroutine that watches the Secret,
    and nothing stops the ones before.  SecretWatcher has the code of one of them; here it is
    cut into the steps between which the others, and the API server, go on: a step is one
    call of the client.  Rotations runs any number of watchers in any order. *)

From S2P Require Import Prelude GoStrings Sha256 KubeTypes Api Client Operator Component.
From S2P Require Import Defaults.
From S2P Require Import ComponentRun.
From S2P Require Import Net System GraylogRest GraylogRequests GraylogController SecretWatcher.

(** ** The configuration that a watcher writes *)

(** What [updateUser] and [updatePassword] make of the ConfigMap they have read, if there is
    something to change. *)
Definition rewritten (field value : string) (cm : ConfigMap) : error + option ConfigMap :=
  if String.eqb (graylog_conf cm) "" then inr None
  else
    match Scan (graylog_conf cm) with
    | inl err => inl err
    | inr lines =>
        inr (if existsb (λ line, HasPrefix line field) lines
             then Some (cm <| ConfigMap_Data ::= λ d,
                    Some (<[GraylogConfigFileName := write_lines (set_line field value <$> lines)]> (contents d)) |>)
             else None)
    end.

(** ** Steps *)

(** Where a watcher is: before its next receive, before a call of the client with what it
    has read so far, or at its end. *)
Inductive point : Type :=
| Receive
| UserGet (secret : Secret) (usr : string)
| UserUpdate (secret : Secret) (cm : ConfigMap)
| PasswordCheck (secret : Secret)
| PasswordGet (pwd : string)
| PasswordUpdate (pwd : string) (cm : ConfigMap)
| SyncGet (pwd : string)
| SyncUpdate (secret : Secret)
| Ended (r : WatchEnd).

Section steps.
Context {W : Type} `{KubeClient W}.

Definition get_config : M (op W) ConfigMap :=
  cr ← the_cr;
  get_typed (mkObjectKey KConfigMap (GetNamespace cr) GraylogComponentName).

Definition get_credentials : M (op W) Secret :=
  '(cr, graylog) ← watched_graylog;
  get_typed (mkObjectKey KSecret (GetNamespace cr) (Graylog_GraylogSecretName graylog)).

(** Up to the first call of [updateUser], and of [updatePassword]. *)
Definition user_check (secret : Secret) : M (op W) point :=
  '(_, graylog) ← watched_graylog;
  match graylog_secret_value secret "user" with
  | None => mret (PasswordCheck secret)
  | Some usr =>
      if String.eqb (Graylog_User graylog) usr then mret (PasswordCheck secret)
      else update_graylog (λ g, g <| Graylog_User := usr |>);; mret (UserGet secret usr)
  end.

Definition password_check (secret : Secret) : M (op W) point :=
  '(_, graylog) ← watched_graylog;
  match graylog_secret_value secret "password" with
  | None => mret Receive
  | Some pwd =>
      if String.eqb (Graylog_Password graylog) pwd then mret (SyncGet pwd)
      else update_graylog (λ g, g <| Graylog_Password := pwd |>);; mret (PasswordGet pwd)
  end.

(** The step from a point, and the events that are left. *)
Definition watch_step (pt : point) (events : list WatchEvent) : M (op W) (point * list WatchEvent) :=
  match pt with
  | Receive =>
      match events with
      | [] => mret (Ended ChannelClosed, [])
      | event :: events =>
          match WatchEvent_Object event with
          | OSecret secret =>
              '(_, graylog) ← watched_graylog;
              if negb (String.eqb (ObjectMeta_Name (Secret_ObjectMeta secret)) (Graylog_GraylogSecretName graylog))
              then mret (Ended AnotherSecret, events)
              else match WatchEvent_Type event with
                   | Modified => pt ← user_check secret; mret (pt, events)
                   | _ => mret (Receive, events)
                   end
          | _ => mret (Ended NotASecret, events)
          end
      end
  | UserGet secret usr =>
      r ← attempt get_config;
      mret (match r with
            | inl _ => PasswordCheck secret
            | inr cm =>
                match rewritten GraylogUserField usr cm with
                | inr (Some cm) => UserUpdate secret cm
                | _ => PasswordCheck secret
                end
            end, events)
  | UserUpdate secret cm =>
      logged (UpdateResource cm);;
      mret (PasswordCheck secret, events)
  | PasswordCheck secret => pt ← password_check secret; mret (pt, events)
  | PasswordGet pwd =>
      r ← attempt get_config;
      mret (match r with
            | inl _ => Receive
            | inr cm =>
                match rewritten GraylogPasswordField (sha256_hex pwd) cm with
                | inl _ => Receive
                | inr None => SyncGet pwd
                | inr (Some cm) => PasswordUpdate pwd cm
                end
            end, events)
  | PasswordUpdate pwd cm =>
      r ← attempt (UpdateResource cm);
      mret (match r with inl _ => Receive | inr _ => SyncGet pwd end, events)
  | SyncGet pwd =>
      r ← attempt get_credentials;
      mret (match r with
            | inl _ => Receive
            | inr sec =>
                let '(changed, sec) := EnsureSecretRootPasswordSHA2 sec pwd in
                if changed : bool then SyncUpdate sec else Receive
            end, events)
  | SyncUpdate sec =>
      logged (UpdateResource sec);;
      mret (Receive, events)
  | Ended r => mret (Ended r, events)
  end.

(** How many steps are left at most. *)
Definition rank (pt : point) : nat :=
  match pt with
  | Ended _ => 0 | Receive => 1 | SyncUpdate _ => 2 | SyncGet _ => 3 | PasswordUpdate _ _ => 4
  | PasswordGet _ => 5 | PasswordCheck _ => 6 | UserUpdate _ _ => 7 | UserGet _ _ => 8
  end.

Definition steps_left (pt : point) (events : list WatchEvent) : nat := 8 * length events + rank pt.

Definition ended (pt : point) : bool := match pt with Ended _ => true | _ => false end.

(** A watcher that nobody disturbs. *)
Fixpoint run_alone (fuel : nat) (pt : point) (events : list WatchEvent) : M (op W) (option WatchEnd) :=
  match pt, fuel with
  | Ended r, _ => mret (Some r)
  | _, O => mret None
  | _, S fuel => '(pt, events) ← watch_step pt events; run_alone fuel pt events
  end.

(** ** The steps are those of the code *)

(** The rest of [watch_events] from a point. *)
Definition rest (pt : point) (events : list WatchEvent) : M (op W) WatchEnd :=
  match pt with
  | Receive => watch_events events
  | UserGet secret usr =>
      logged (cr ← the_cr; update_config (GetNamespace cr) GraylogUserField usr);;
      logged (updatePassword secret);; watch_events events
  | UserUpdate secret cm =>
      logged (UpdateResource cm);; logged (updatePassword secret);; watch_events events
  | PasswordCheck secret => logged (updatePassword secret);; watch_events events
  | PasswordGet pwd =>
      logged ((cr ← the_cr; update_config (GetNamespace cr) GraylogPasswordField (sha256_hex pwd));;
              syncRootPasswordSHA2SecretKey pwd);; watch_events events
  | PasswordUpdate pwd cm =>
      logged (UpdateResource cm;; syncRootPasswordSHA2SecretKey pwd);; watch_events events
  | SyncGet pwd => logged (syncRootPasswordSHA2SecretKey pwd);; watch_events events
  | SyncUpdate sec => logged (UpdateResource sec);; watch_events events
  | Ended r => mret r
  end.
End steps.

Section refinement.
Context {W : Type} `{KubeClient W}.
Implicit Types (s : op W).

Lemma update_config_rewritten ns field value s :
  update_config ns field value s =
  (cm ← (get_typed (mkObjectKey KConfigMap ns GraylogComponentName) : M (op W) ConfigMap);
   r ← of_sum (rewritten field value cm);
   match r with Some cm => UpdateResource cm | None => mret tt end) s.
Proof.
  unfold update_config, mbind, M_bind. destruct (get_typed _ s) as [s1 [cm|e|]]; [|done..].
  fold (graylog_conf cm). unfold rewritten. destruct (String.eqb (graylog_conf cm) ""); [done|].
  destruct (Scan (graylog_conf cm)) as [e|lines]; [done|]. cbn [of_sum]. unfold when, mret, M_ret.
  by destruct (existsb _ lines).
Qed.

(** The custom resource is there or the goroutine panics: it does not fail. *)
Lemma logged_watched {A} (k : LoggingService * Graylog → M (op W) A) :
  logged (watched_graylog ≫= k) ≡ watched_graylog ≫= λ x, logged (k x).
Proof.
  split. intros s. unfold watched_graylog, the_cr, gets, logged, attempt, mbind, M_bind.
  by destruct (LoggingServiceSpec_Graylog _).
Qed.

Lemma logged_update_graylog {A} f (k : unit → M (op W) A) :
  logged (update_graylog f ≫= k) ≡ update_graylog f ≫= λ x, logged (k x).
Proof. by split. Qed.

(** The part of an update after its read. *)
Lemma logged_update_config field value (k : unit → M (op W) unit) :
  logged ((cr ← the_cr; update_config (GetNamespace cr) field value) ≫= k) ≡
  r ← attempt get_config;
  match r with
  | inl _ => mret tt
  | inr cm => match rewritten field value cm with
              | inl _ => mret tt
              | inr None => logged (k tt)
              | inr (Some cm) => logged (UpdateResource cm ≫= k)
              end
  end.
Proof.
  transitivity (logged (get_config ≫= λ cm, (r ← of_sum (rewritten field value cm);
    match r with Some cm => UpdateResource cm | None => mret tt end) ≫= k)).
  - apply logged_proper. split. intros s. unfold get_config, the_cr, gets.
    change ((update_config (GetNamespace (op_cr s)) field value ≫= k) s =
      (get_typed (mkObjectKey KConfigMap (GetNamespace (op_cr s)) GraylogComponentName) ≫= λ cm : ConfigMap,
        (r ← of_sum (rewritten field value cm);
         match r with Some cm => UpdateResource cm | None => mret tt end) ≫= k) s).
    rewrite <- (run_equiv _ _ s (bind_assoc (get_typed _ : M (op W) ConfigMap) _ k)).
    unfold mbind at 1 3, M_bind at 1 3. by rewrite update_config_rewritten.
  - rewrite logged_bind. apply bind_ext. intros [e|cm]; [done|].
    destruct (rewritten field value cm) as [e|[cm'|]]; done.
Qed.

(** What [watched_graylog] returns is the custom resource of the state. *)
Lemma bind_watched {A} (k k' : LoggingService * Graylog → M (op W) A) :
  (∀ s g, LoggingServiceSpec_Graylog (LoggingService_Spec (op_cr s)) = Some g →
     k (op_cr s, g) s = k' (op_cr s, g) s) →
  watched_graylog ≫= k ≡ watched_graylog ≫= k'.
Proof.
  intros Hk. split. intros s. unfold watched_graylog, the_cr, gets, mbind, M_bind.
  destruct (LoggingServiceSpec_Graylog _) as [g|] eqn:Hg; [|done]. by apply Hk.
Qed.

(** The checks, and then the rest. *)
Lemma rest_user_check secret events :
  user_check secret ≫= (λ pt, rest pt events) ≡ (logged (updateUser secret);; rest (PasswordCheck secret) events).
Proof.
  unfold user_check, updateUser. rewrite logged_watched, !bind_assoc. apply bind_watched. intros s g _.
  destruct (graylog_secret_value secret "user") as [usr|]; [|done].
  by destruct (String.eqb (Graylog_User g) usr).
Qed.

Lemma rest_password_check secret events :
  password_check secret ≫= (λ pt, rest pt events) ≡ rest (PasswordCheck secret) events.
Proof.
  cbn [rest]. unfold password_check, updatePassword. rewrite logged_watched, !bind_assoc. apply bind_watched.
  intros s g _. destruct (graylog_secret_value secret "password") as [pwd|]; [|done].
  by destruct (String.eqb (Graylog_Password g) pwd).
Qed.

(** The synchronisation of the hash. *)
Lemma rest_sync pwd events :
  watch_step (SyncGet pwd) events ≫= (λ p, rest p.1 p.2) ≡ rest (SyncGet pwd) events.
Proof.
  cbn [watch_step rest]. transitivity (logged (get_credentials ≫= λ sec : Secret,
    let '(changed, sec) := EnsureSecretRootPasswordSHA2 sec pwd in when changed (UpdateResource sec));; watch_events events).
  - rewrite logged_bind, !bind_assoc. apply bind_ext. intros [e|sec]; [done|].
    destruct (EnsureSecretRootPasswordSHA2 sec pwd) as [[|] sec']; done.
  - apply bind_proper; [done|]. apply logged_proper. unfold get_credentials, syncRootPasswordSHA2SecretKey.
    rewrite bind_assoc. apply bind_ext. by intros [cr g].
Qed.

(** One step from a point and then the rest of the code, is the rest of the code from there. *)
Lemma rest_step pt events : watch_step pt events ≫= (λ p, rest p.1 p.2) ≡ rest pt events.
Proof.
  destruct pt as [|secret usr|secret cm|secret|pwd|pwd cm|pwd|sec|r]; cbn [watch_step rest]; try done.
  - destruct events as [|[type o] events]; [done|]. cbn [watch_events WatchEvent_Object WatchEvent_Type].
    destruct o; try done. rewrite bind_assoc. apply bind_ext. intros [cr g]. destruct (negb _); [done|].
    destruct type; try done. rewrite bind_assoc. cbn [handle_event]. rewrite bind_assoc.
    exact (rest_user_check o events).
  - rewrite bind_assoc.
    transitivity (logged ((cr ← the_cr; update_config (GetNamespace cr) GraylogUserField usr) ≫= λ _, mret tt);;
      rest (PasswordCheck secret) events).
    + rewrite logged_update_config, !bind_assoc. apply bind_ext. intros [e|cm]; [done|].
      destruct (rewritten GraylogUserField usr cm) as [e|[cm'|]]; [done| |done]. by rewrite logged_ret_r.
    + by rewrite logged_ret_r.
  - rewrite bind_assoc. by apply bind_ext.
  - rewrite bind_assoc. apply (rest_password_check secret events).
  - rewrite logged_update_config, !bind_assoc. apply bind_ext. intros [e|cm]; [done|].
    by destruct (rewritten _ _ cm) as [e|[cm'|]].
  - rewrite logged_bind, !bind_assoc. apply bind_ext. by intros [e|[]].
  - exact (rest_sync pwd events).
  - rewrite bind_assoc. by apply bind_ext.
Qed.

(** ** A watcher that nobody disturbs *)

(** What a computation returns has the property. *)
Definition yields {A} (P : A → Prop) (m : M (op W) A) : Prop := ∀ s s' a, m s = (s', Ret a) → P a.

Lemma yields_ret {A} (P : A → Prop) a : P a → yields P (mret a : M (op W) A).
Proof. intros Ha s s' b [= _ <-]. done. Qed.

Lemma yields_bind {A B} (P : B → Prop) (m : M (op W) A) (k : A → M (op W) B) :
  (∀ a, yields P (k a)) → yields P (m ≫= k).
Proof.
  intros Hk s s' b. unfold mbind, M_bind. destruct (m s) as [s1 [a|e|]]; [apply Hk|done..].
Qed.

Lemma bind_ext_yields {A B} (P : A → Prop) (m : M (op W) A) (k k' : A → M (op W) B) :
  yields P m → (∀ a, P a → k a ≡ k' a) → m ≫= k ≡ m ≫= k'.
Proof.
  intros Hm Hk. split. intros s. unfold mbind, M_bind. specialize (Hm s).
  destruct (m s) as [s1 [a|e|]]; [|done..]. apply run_equiv, Hk. by eapply Hm.
Qed.

Ltac yields :=
  repeat match goal with
  | |- yields _ (mret _) => apply yields_ret
  | |- yields _ (_ ≫= _) => apply yields_bind; intros ?
  | |- yields _ (match ?x with _ => _ end) => destruct x
  end.

Lemma user_check_rank secret : yields (λ pt, rank pt ≤ 8) (user_check secret).
Proof. unfold user_check. yields; cbn; lia. Qed.

Lemma password_check_rank secret : yields (λ pt, rank pt ≤ 5) (password_check secret).
Proof. unfold password_check. yields; cbn; lia. Qed.

Lemma yields_pair (m : M (op W) point) (P : point * list WatchEvent → Prop) n events :
  yields (λ pt, rank pt ≤ n) m → (∀ pt, rank pt ≤ n → P (pt, events)) →
  yields P (pt ← m; mret (pt, events)).
Proof.
  intros Hm HP s s' a. unfold mbind, M_bind. specialize (Hm s).
  destruct (m s) as [s1 [pt|e|]]; [|done..]. intros [= _ <-]. apply HP. by eapply Hm.
Qed.

(** Every step is progress. *)
Lemma watch_step_progress pt events :
  ended pt = false → yields (λ p, steps_left p.1 p.2 < steps_left pt events) (watch_step pt events).
Proof.
  unfold steps_left. intros He.
  destruct pt as [|secret usr|secret cm|secret|pwd|pwd cm|pwd|sec|r]; cbn [watch_step]; [| | | | | | | |done].
  - destruct events as [|[type o] events]; [yields; cbn; lia|]. cbn [WatchEvent_Object WatchEvent_Type].
    destruct o; try by (yields; cbn; lia). apply yields_bind. intros [cr g].
    destruct (negb _); [yields; cbn; lia|]. destruct type; try by (yields; cbn; lia).
    apply (yields_pair _ _ 8); [apply user_check_rank|]. intros pt Hpt. cbn. lia.
  - apply yields_bind. intros [e|cm]; apply yields_ret; [cbn; lia|].
    destruct (rewritten GraylogUserField usr cm) as [e|[cm'|]]; cbn; lia.
  - yields; cbn; lia.
  - apply (yields_pair _ _ 5); [apply password_check_rank|]. intros pt Hpt. cbn. lia.
  - apply yields_bind. intros [e|cm]; apply yields_ret; [cbn; lia|].
    destruct (rewritten GraylogPasswordField (sha256_hex pwd) cm) as [e|[cm'|]]; cbn; lia.
  - apply yields_bind. intros [e|[]]; apply yields_ret; cbn; lia.
  - apply yields_bind. intros [e|sec]; apply yields_ret; [cbn; lia|].
    destruct (EnsureSecretRootPasswordSHA2 sec pwd) as [[|] sec']; cbn; lia.
  - yields; cbn; lia.
Qed.

Lemma run_alone_rest n pt events :
  steps_left pt events ≤ n → run_alone n pt events ≡ (r ← rest pt events; mret (Some r)).
Proof.
  revert pt events. induction n as [|n IH]; intros pt events Hn.
  - by destruct pt; try (exfalso; unfold steps_left in Hn; cbn in Hn; lia).
  - destruct (ended pt) eqn:He; [by destruct pt|].
    transitivity (watch_step pt events ≫= λ p, run_alone n p.1 p.2); [destruct pt; try done; apply bind_ext; by intros []|].
    rewrite <- rest_step, bind_assoc. eapply bind_ext_yields; [by apply watch_step_progress|].
    intros [pt' events'] Hp. apply IH. cbn [fst snd] in *. lia.
Qed.
End refinement.

(** ** Opening the channel, and the goroutine that a reconcile starts *)

(** A goroutine: the custom resource of the cycle that started it, where it is, and the
    events that it has not received. *)
Record watcher : Type := mkWatcher {
  watcher_cr : LoggingService;
  watcher_point : point;
  watcher_events : list WatchEvent;
}.

Definition GraylogSecretSelector : string := "graylog=secret".

(** client-go: the clientset of the process, and the events of the Secrets of a namespace
    that a label selector selects. *)
Class WatchClient (Clientset : Type) := {
  ctrl_Clientset : error + Clientset;
  Secrets_Watch : Clientset → string → string → error + list WatchEvent;
}.

Section start.
Context {Clientset : Type} `{WatchClient Clientset}.

Definition prepareWatchChannel (w : Clientset) (namespace : string) : error + list WatchEvent :=
  Secrets_Watch w namespace GraylogSecretSelector.

(** The goroutine, which is in [Watch], or the error. *)
Definition watchSecret (cr : LoggingService) : error + watcher :=
  match ctrl_Clientset with
  | inl err => inl err
  | inr k8sClient =>
      inr match prepareWatchChannel k8sClient (GetNamespace cr) with
          | inl _ => mkWatcher cr (Ended Blocked) []
          | inr events => mkWatcher cr Receive events
          end
  end.

Context {W : Type} `{KubeClient W, System W, Encodings, Externals}.

(** The installation and the goroutine that it leaves, if it could start it. *)
Definition graylog_install_watching (cfg : Defaults) : M (op W) (option watcher) :=
  graylog_install cfg;;
  cr ← the_cr;
  mret (match watchSecret cr with inl _ => None | inr w => Some w end).
End start.

(** ** Properties *)

(** The steps are the code.  A watcher that takes its steps one after the other, each at
    most one call of the client with what was read before it, computes what the loop of
    [Watch] computes: the same custom resource, the same cluster and the same end, for all
    events, and it takes at most eight steps for an event and one for the end. *)
Theorem watch_steps_refine {W} `{KubeClient W} events :
  run_alone (W:=W) (steps_left Receive events) Receive events ≡
  (r ← Watch (inr events); mret (Some r)).
Proof. exact (run_alone_rest _ Receive events (le_n _)). Qed.

(** What [watchSecret] starts is the [Watch] of the code, on the channel of the namespace of
    the custom resource. *)
Lemma watchSecret_runs_Watch {W} `{KubeClient W} {Clientset} `{WatchClient Clientset} cr clientset w :
  ctrl_Clientset = inr clientset → watchSecret cr = inr w →
  run_alone (W:=W) (steps_left (watcher_point w) (watcher_events w)) (watcher_point w) (watcher_events w) ≡
  (r ← Watch (Secrets_Watch clientset (GetNamespace cr) GraylogSecretSelector); mret (Some r)).
Proof.
  intros Hc. unfold watchSecret, prepareWatchChannel. rewrite Hc.
  destruct (Secrets_Watch _ _ _) as [e|es]; intros [= <-]; [done|].
  exact (run_alone_rest _ Receive es (le_n _)).
Qed.
