(* ===== verification/Rotations.v ===== *)
(** * Rotations of Graylog's password with several watchers

    The watchers of all the reconciles so far, in the steps of Watchers, on one API server:
    [step_watcher] lets one of them go on.  When all of them see the same last password, it
    reaches Graylog's configuration and the Secret in every interleaving; when a rotation
    changes the user as well, it can be lost. *)

From S2P Require Import Prelude GoStrings Sha256 KubeTypes Api Client Operator Component.
From S2P Require Import ComponentRun Net System GraylogRest GraylogRequests GraylogController.
From S2P Require Import SecretWatcher.
From S2P Require Import Watchers.

(** ** The system *)

Record system (W : Type) : Type := mkSystem {
  system_world : W;
  system_watchers : list watcher;
}.
Arguments mkSystem {_} _ _.
Arguments system_world {_} _.
Arguments system_watchers {_} _.

(** The state of the operator's monad that a watcher runs in. *)
Definition watcher_op {W} (world : W) (w : watcher) : op W := mkOp world (watcher_cr w) [].

Section interleaving.
Context {W : Type} `{KubeClient W}.

(** The i-th watcher goes on: nothing, when it has ended, or when it panics, which ends the
    operator. *)
Definition step_watcher (i : nat) (sys : system W) : option (system W) :=
  match system_watchers sys !! i with
  | None => None
  | Some w =>
      if ended (watcher_point w) then None
      else
        match watch_step (watcher_point w) (watcher_events w) (watcher_op (system_world sys) w) with
        | (s, Ret (pt, events)) =>
            Some (mkSystem (op_world s) (<[i := mkWatcher (op_cr s) pt events]> (system_watchers sys)))
        | _ => None
        end
  end.

(** A step of any watcher. *)
Inductive interleave : relation (system W) :=
| interleave_step i sys sys' : step_watcher i sys = Some sys' → interleave sys sys'.

(** The steps of a schedule. *)
Fixpoint run_schedule (schedule : list nat) (sys : system W) : option (system W) :=
  match schedule with
  | [] => Some sys
  | i :: schedule =>
      match step_watcher i sys with Some sys => run_schedule schedule sys | None => None end
  end.

Lemma run_schedule_steps schedule sys sys' :
  run_schedule schedule sys = Some sys' → nsteps interleave (length schedule) sys sys'.
Proof.
  revert sys. induction schedule as [|i schedule IH]; intros sys; cbn [run_schedule length].
  - intros [= ->]. constructor.
  - destruct (step_watcher i sys) as [sys1|] eqn:Hi; [|done]. intros Hs.
    econstructor; [by econstructor|by apply IH].
Qed.

Lemma sum_list_with_insert {A} (f : A → nat) (xs : list A) i x y :
  xs !! i = Some x → sum_list_with f (<[i := y]> xs) + f x = sum_list_with f xs + f y.
Proof.
  revert i. induction xs as [|z xs IH]; intros [|i] Hi; simplify_eq/=; [lia|]. specialize (IH i Hi). lia.
Qed.

(** How many steps are left at most. *)
Definition total_steps (sys : system W) : nat :=
  sum_list_with (λ w, steps_left (watcher_point w) (watcher_events w)) (system_watchers sys).
End interleaving.

(** ** A server that answers

    While it is [serving] a call fails only for a reason: the object is not there, or the
    update was made from another version of it. *)

Definition resource_version (o : Object) : string := ObjectMeta_ResourceVersion (object_meta o).

Class ReachableServer (W : Type) `{KubeClientLaws W} := {
  serving : W → Prop;
  Get_reaches k w :
    serving w → is_Some (objects w !! k) → wp (client_Get k) (λ _, serving) (λ _ _, False) w;
  Update_reaches o old w :
    serving w → objects w !! object_key o = Some old →
    wp (client_Update o) (λ _, serving)
      (λ _ w', serving w' ∧ resource_version o ≠ resource_version old) w;
  Create_reaches o w : serving w → wp (client_Create o) (λ _, serving) (λ _, serving) w;
}.

#[export] Program Instance ReachableServer_Mem : ReachableServer Mem := {|
  serving w := Mem_broken w = [];
|}.
Next Obligation.
  intros k w Hb [o Ho]. cbn in Ho. pose proof (mem_view_keyed _ _ _ Ho) as (_ & Hns & _).
  unfold wp. cbn. unfold mem_Get, mem_guard. rewrite Hb, bool_decide_eq_false_2 by (intros [?%elem_of_nil|]; done).
  by rewrite Ho.
Qed.
Next Obligation.
  intros o old w Hb Ho. cbn in Ho. pose proof (mem_view_keyed _ _ _ Ho) as (_ & Hns & _).
  unfold wp. cbn. unfold mem_Update, mem_guard. rewrite Hb, bool_decide_eq_false_2 by (intros [?%elem_of_nil|]; done).
  rewrite Ho. case_bool_decide as Hv; [done|]. cbn. split; [done|]. intros Heq. by apply Hv; right.
Qed.
Next Obligation.
  intros o w Hb. unfold wp. cbn. unfold mem_Create, mem_guard. case_bool_decide; [done|]. by destruct (mem_view w !! object_key o).
Qed.

(** ** Configurations that can be edited *)

(** The scanner takes the lines, also with the end that the operator writes. *)
Definition short (line : string) : Prop := len line + 1 < MaxScanTokenSize.

Lemma drop_cr_length line : len line ≤ len (drop_cr line) + 1.
Proof.
  unfold drop_cr. destruct (HasSuffix line carriage_return) eqn:Hs; [|lia].
  enough (∀ n s, n ≤ len s → len (slice_to n s) = n) as Hlen by (rewrite Hlen; lia).
  clear. induction n as [|n IH]; intros [|c s] Hn; cbn in *; try done; [lia|].
  f_equal. apply IH. lia.
Qed.

Lemma Scan_short config : Forall short (scan_lines config) → Scan config = inr (scan_lines config).
Proof.
  intros Hshort. unfold Scan. destruct (existsb _ _) eqn:Hlong; [exfalso|done].
  apply existsb_exists in Hlong as (line & Hin & Hlen%Nat.leb_le). apply list_elem_of_In in Hin.
  unfold short, scan_lines in Hshort. rewrite Forall_fmap, Forall_forall in Hshort.
  destruct (decide (line = "")) as [->|Hne].
  { apply Nat.leb_le in Hlen. by vm_compute in Hlen. }
  specialize (Hshort line). pose proof (drop_cr_length line) as Hd. unfold compose in Hshort.
  enough (len (drop_cr line) + 1 < MaxScanTokenSize) by lia. apply Hshort.
  case_bool_decide as Hlast; [|done]. apply last_Some in Hlast as [l Hl]. rewrite Hl in *.
  rewrite removelast_last. by apply elem_of_app in Hin as [?|?%list_elem_of_singleton].
Qed.

(** Lines that the password can be written to. *)
Definition editable (lines : list string) : Prop :=
  Forall short lines ∧ existsb (λ line, HasPrefix line GraylogPasswordField) lines = true.

Definition password_lines (pwd : string) (lines : list string) : list string :=
  set_line GraylogPasswordField (sha256_hex pwd) <$> lines.

Lemma HasPrefix_set_line field value line :
  HasPrefix (set_line field value line) field = HasPrefix line field.
Proof. unfold set_line. destruct (HasPrefix line field) eqn:Hp; [apply HasPrefix_append|done]. Qed.

Lemma password_lines_again pwd pwd' lines :
  password_lines pwd (password_lines pwd' lines) = password_lines pwd lines.
Proof.
  unfold password_lines. rewrite <- list_fmap_compose. apply list_fmap_ext. intros _ line _. unfold compose.
  unfold set_line at 1. rewrite HasPrefix_set_line. unfold set_line. by case_match.
Qed.

Lemma editable_password_lines pwd lines : editable lines → editable (password_lines pwd lines).
Proof.
  intros [Hshort Hfield]. split.
  - apply Forall_fmap. eapply Forall_impl; [exact Hshort|]. intros line Hl. unfold compose, set_line.
    case_match; [|done]. unfold short. rewrite !length_append, sha256_hex_length. apply Nat.ltb_lt. by vm_compute.
  - apply existsb_exists in Hfield as (line & Hin & Hp). apply existsb_exists.
    exists (set_line GraylogPasswordField (sha256_hex pwd) line). split; [|by rewrite HasPrefix_set_line].
    apply list_elem_of_In in Hin. by apply list_elem_of_In, list_elem_of_fmap_2.
Qed.

Definition conf_lines (cm : ConfigMap) : list string := scan_lines (graylog_conf cm).

(** The update of an editable configuration. *)
Lemma rewritten_password pwd cm :
  editable (conf_lines cm) →
  ∃ cm', rewritten GraylogPasswordField (sha256_hex pwd) cm = inr (Some cm') ∧
    ConfigMap_ObjectMeta cm' = ConfigMap_ObjectMeta cm ∧ conf_lines cm' = password_lines pwd (conf_lines cm) ∧
    ∀ k, k ≠ GraylogConfigFileName → contents (ConfigMap_Data cm') !! k = contents (ConfigMap_Data cm) !! k.
Proof.
  unfold conf_lines. intros [Hshort Hfield]. unfold rewritten.
  destruct (String.eqb_spec (graylog_conf cm) "") as [He|_]; [by rewrite He in Hfield|].
  rewrite Scan_short, Hfield by done. eexists. split; [done|]. split; [done|]. split.
  - unfold graylog_conf at 1. cbn. rewrite lookup_insert_eq. apply scan_write_lines, Forall_fmap.
    eapply Forall_impl; [apply scan_lines_one_line|]. intros line Hl.
    apply set_line_one_line; [done|apply one_line_hex, sha256_hex_digits|done].
  - intros k Hk. cbn. by rewrite lookup_insert_ne.
Qed.

Lemma conf_lines_data cm cm' : ConfigMap_Data cm' = ConfigMap_Data cm → conf_lines cm' = conf_lines cm.
Proof. unfold conf_lines, graylog_conf. by intros ->. Qed.

(** A property of the data of configurations that can be edited, kept when a password is
    written to them. *)
Record steady (ok : ConfigMap → Prop) : Prop := mkSteady {
  steady_editable cm : ok cm → editable (conf_lines cm);
  steady_data cm cm' : ConfigMap_Data cm' = ConfigMap_Data cm → ok cm → ok cm';
  steady_rewritten pwd cm cm' :
    ok cm → rewritten GraylogPasswordField (sha256_hex pwd) cm = inr (Some cm') → ok cm';
}.

(** All the lines of the password have the hash of [pwd]. *)
Definition password_written (pwd : string) (cm : ConfigMap) : Prop :=
  password_lines pwd (conf_lines cm) = conf_lines cm.

(** ** One watcher among others

    All the watchers are of the Secret [name] in [ns]; the last password of every event
    stream is [final].  [ok] holds of the ConfigMap whenever one looks at it; [sec0] is the
    Secret at the start. *)

Definition event_password (pwd : string) (event : WatchEvent) : string :=
  match WatchEvent_Type event, WatchEvent_Object event with
  | Modified, OSecret secret => default pwd (graylog_secret_value secret "password")
  | _, _ => pwd
  end.

(** The password after the events, when it was [pwd] before. *)
Definition last_password (pwd : string) (events : list WatchEvent) : string :=
  foldl event_password pwd events.

(** A Secret was modified in one of the events. *)
Definition modification_left (events : list WatchEvent) : Prop :=
  Exists (λ event, WatchEvent_Type event = Modified) events.

(** An event of the Secret that leaves the user as it is. *)
Definition keeps_user (name usr : string) (event : WatchEvent) : Prop :=
  ∃ secret, WatchEvent_Object event = OSecret secret ∧
    ObjectMeta_Name (Secret_ObjectMeta secret) = name ∧
    (WatchEvent_Type event = Modified →
       is_Some (graylog_secret_value secret "password") ∧
       (∀ usr', graylog_secret_value secret "user" = Some usr' → usr' = usr)).

Section rotation.
Context {W : Type} `{ReachableServer W}.
Variables (ns name final : string) (ok : ConfigMap → Prop) (sec0 : Secret).
Hypothesis (Hok : steady ok).

Definition secret_key : ObjectKey := mkObjectKey KSecret ns name.

(** The data of the Secret, but for the hash. *)
Definition has_credentials (sec : Secret) : Prop :=
  ∀ k, k ≠ GraylogSecretKeyRootPasswordSHA2 → contents (Secret_Data sec) !! k = contents (Secret_Data sec0) !! k.

Definition in_rotation (world : W) : Prop :=
  serving world ∧
  (∃ cm, objects world !! config_key ns = Some (OConfigMap cm) ∧ ok cm) ∧
  (∃ sec, objects world !! secret_key = Some (OSecret sec) ∧ has_credentials sec).

Definition at_point (pwd : string) (events : list WatchEvent) (pt : point) : Prop :=
  match pt with
  | UserGet _ _ | UserUpdate _ _ => False
  | Receive => last_password pwd events = final
  | PasswordCheck secret =>
      ∃ pwd', graylog_secret_value secret "password" = Some pwd' ∧ last_password pwd' events = final
  | PasswordGet pwd' | SyncGet pwd' => pwd' = pwd ∧ last_password pwd events = final
  | PasswordUpdate pwd' cm =>
      pwd' = pwd ∧ last_password pwd events = final ∧
      ok cm ∧ password_written pwd cm ∧ object_key (OConfigMap cm) = config_key ns
  | SyncUpdate sec =>
      last_password pwd events = final ∧
      root_hash sec = sha256_hex pwd ∧ has_credentials sec ∧ object_key (OSecret sec) = secret_key
  | Ended _ => events = [] ∧ pwd = final
  end.

(** The custom resource, the point and the events of a watcher that has seen [pwd] last. *)
Definition attentive (cr : LoggingService) (pt : point) (events : list WatchEvent) (pwd : string) : Prop :=
  ∃ g, LoggingServiceSpec_Graylog (LoggingService_Spec cr) = Some g ∧
    GetNamespace cr = ns ∧ Graylog_GraylogSecretName g = name ∧ Graylog_Password g = pwd ∧
    Forall (keeps_user name (Graylog_User g)) events ∧ at_point pwd events pt.

(** *** Who guarantees the result

    Of all the watchers one at least is such that the configuration will hold its
    password: it is about to read it, or the version it has read is still the stored one,
    or the configuration holds the password already, or it is not the last one.  The same
    for the hash in the Secret. *)

Definition version_read (k : ObjectKey) (o : Object) (m : gmap ObjectKey Object) : Prop :=
  ∃ old, m !! k = Some old ∧ resource_version o = resource_version old.

Definition config_holds (pwd : string) (m : gmap ObjectKey Object) : Prop :=
  ∃ cm, m !! config_key ns = Some (OConfigMap cm) ∧ password_written pwd cm.

Definition hash_holds (pwd : string) (m : gmap ObjectKey Object) : Prop :=
  ∃ sec, m !! secret_key = Some (OSecret sec) ∧ root_hash sec = sha256_hex pwd.

Definition guards_config (pt : point) (pwd : string) (m : gmap ObjectKey Object) : Prop :=
  match pt with
  | PasswordGet _ => True
  | PasswordUpdate _ cm => version_read (config_key ns) (OConfigMap cm) m
  | _ => config_holds pwd m ∨ pwd ≠ final
  end.

Definition guards_hash (pt : point) (events : list WatchEvent) (pwd : string) (m : gmap ObjectKey Object) : Prop :=
  match pt with
  | PasswordCheck _ | PasswordGet _ | SyncGet _ => True
  | PasswordUpdate _ cm => modification_left events ∨ version_read (config_key ns) (OConfigMap cm) m
  | SyncUpdate sec => modification_left events ∨ version_read secret_key (OSecret sec) m
  | _ => modification_left events ∨ hash_holds pwd m
  end.

(** What a step of one watcher does to the others, and for the result. *)
Record advances (m m' : gmap ObjectKey Object) (pt : point) (events : list WatchEvent) (pwd : string)
    (pt' : point) (events' : list WatchEvent) (pwd' : string) : Prop := mkAdvances {
  advances_config : guards_config pt pwd m → guards_config pt' pwd' m';
  advances_hash : guards_hash pt events pwd m → guards_hash pt' events' pwd' m';
  advances_config_others : m' !! config_key ns = m !! config_key ns ∨ guards_config pt' pwd' m';
  advances_hash_others :
    m' !! config_key ns = m !! config_key ns ∧ m' !! secret_key = m !! secret_key ∨
    guards_hash pt' events' pwd' m';
  advances_elsewhere k : k ≠ config_key ns → k ≠ secret_key → m' !! k = m !! k;
}.

(** What holds after a step from [pt]. *)
Definition stepped (s : op W) (pt : point) (events : list WatchEvent) (pwd : string)
    (p : point * list WatchEvent) (s' : op W) : Prop :=
  in_rotation (op_world s') ∧
  ∃ pwd', attentive (op_cr s') p.1 p.2 pwd' ∧
    advances (objects (op_world s)) (objects (op_world s')) pt events pwd p.1 p.2 pwd'.

(** A step that only reads. *)
Lemma stepped_read s pt events pwd p s' pwd' :
  in_rotation (op_world s) →
  serving (op_world s') → objects (op_world s') = objects (op_world s) →
  attentive (op_cr s') p.1 p.2 pwd' →
  (guards_config pt pwd (objects (op_world s)) → guards_config p.1 pwd' (objects (op_world s))) →
  (guards_hash pt events pwd (objects (op_world s)) → guards_hash p.1 p.2 pwd' (objects (op_world s))) →
  stepped s pt events pwd p s'.
Proof.
  intros (_ & Hcm & Hsec) Hs Ho Ha Hc Hh. split; [by rewrite <- Ho in Hcm, Hsec|].
  exists pwd'. split; [done|]. rewrite Ho. split; auto.
Qed.

(** *** Calls of the client *)

Lemma get_typed_reaches {T} `{K8sObjectLaws T} k (x : T) s :
  serving (op_world s) → objects (op_world s) !! k = Some (to_object x) →
  wp (get_typed k)
    (λ y s', y = x ∧ op_cr s' = op_cr s ∧ serving (op_world s') ∧ objects (op_world s') = objects (op_world s))
    (λ _ _, False) s.
Proof.
  intros Hs Hk. unfold get_typed. rewrite wp_bind, wp_lift.
  eapply wp_mono; [eapply wp_conj; [by apply Get_reaches|apply client_Get_spec]| |by intros e w' []].
  intros o w' (Hs' & Ho & _ & Hk'). rewrite Hk in Hk'. injection Hk' as <-. by rewrite of_to_object, wp_deref.
Qed.

Lemma UpdateResource_reaches {T} `{K8sObject T} (o : T) old s :
  serving (op_world s) → objects (op_world s) !! object_key (to_object o) = Some old →
  wp (UpdateResource o)
    (λ _ s', op_cr s' = op_cr s ∧ serving (op_world s') ∧
       objects (op_world s') =
         <[object_key (to_object o) := stored (op_world s) (to_object o)]> (objects (op_world s)))
    (λ _ s', op_cr s' = op_cr s ∧ serving (op_world s') ∧ objects (op_world s') = objects (op_world s) ∧
       resource_version (to_object o) ≠ resource_version old) s.
Proof.
  intros Hs Hk. unfold UpdateResource. rewrite wp_lift.
  eapply wp_mono; [eapply wp_conj; [by apply Update_reaches|apply client_Update_spec]| |].
  - intros [] w' (Hs' & _ & Ho & _). done.
  - intros e w' ((Hs' & Hv) & Ho & _). done.
Qed.

(** *** The steps *)

Lemma Receive_stepped s events pwd :
  in_rotation (op_world s) → attentive (op_cr s) Receive events pwd →
  wp (watch_step Receive events) (stepped s Receive events pwd) (λ _ _, False) s.
Proof.
  intros Hw (g & Hg & Hns & Hname & Hpwd & Hev & Hlast). pose proof Hw as [Hs _].
  cbn [at_point] in Hlast. cbn [watch_step]. destruct events as [|[type o] events].
  { rewrite wp_ret. eapply (stepped_read _ _ _ _ _ _ pwd); [done..| |done|].
    - exists g. by split_and!.
    - by intros [?%Exists_nil|?]; [|right]. }
  apply Forall_cons in Hev as [(secret & Ho & Hn & Hmod) Hev]. cbn in Ho, Hmod. subst o.
  cbn [WatchEvent_Object WatchEvent_Type]. rewrite wp_bind, (watched_graylog_wp g) by done.
  rewrite Hn, Hname, String.eqb_refl. cbn [negb].
  assert (Hskip : type ≠ Modified → wp (mret (Receive, events)) (stepped s Receive
    (mkWatchEvent type (OSecret secret) :: events) pwd) (λ _ _, False) s).
  { intros Ht. rewrite wp_ret. eapply (stepped_read _ _ _ _ _ _ pwd); [done..| |done|].
    - exists g. split_and!; try done. cbn. by destruct type.
    - by intros [[?|?]%Exists_cons|?]; [done|left|right]. }
  destruct type; try by apply Hskip. specialize (Hmod eq_refl) as [[pwd' Hpwd'] Husr].
  rewrite wp_bind. unfold user_check. rewrite wp_bind, (watched_graylog_wp g) by done.
  assert (Hcheck : wp (mret (PasswordCheck secret)) (λ pt s', wp (mret (pt, events)) (stepped s Receive
    (mkWatchEvent Modified (OSecret secret) :: events) pwd) (λ _ _, False) s') (λ _ _, False) s).
  { rewrite !wp_ret. eapply (stepped_read _ _ _ _ _ _ pwd); [done..| |done|done].
    exists g. split_and!; try done. exists pwd'. split; [done|]. cbn in Hlast. unfold event_password in Hlast.
    cbn in Hlast. by rewrite Hpwd' in Hlast. }
  destruct (graylog_secret_value secret "user") as [usr|]; [|done].
  by rewrite (Husr _ eq_refl), String.eqb_refl.
Qed.

Lemma PasswordCheck_stepped s secret events pwd :
  in_rotation (op_world s) → attentive (op_cr s) (PasswordCheck secret) events pwd →
  wp (watch_step (PasswordCheck secret) events) (stepped s (PasswordCheck secret) events pwd) (λ _ _, False) s.
Proof.
  intros Hw (g & Hg & Hns & Hname & Hpwd & Hev & pwd' & Hpwd' & Hlast). pose proof Hw as [Hs _].
  cbn [watch_step]. rewrite wp_bind. unfold password_check. rewrite wp_bind, (watched_graylog_wp g), Hpwd' by done.
  destruct (String.eqb_spec (Graylog_Password g) pwd') as [Heq|Hne].
  - rewrite !wp_ret. eapply (stepped_read _ _ _ _ _ _ pwd); [done..| |done|done].
    exists g. split_and!; [done..|]. cbn. by subst.
  - rewrite wp_bind. eapply update_graylog_wp; [done|]. intros s1 Hw1 Hns1 Hg1. rewrite !wp_ret.
    eapply (stepped_read _ _ _ _ _ _ pwd'); [done|by rewrite Hw1..| |done|done].
    eexists. split_and!; [exact Hg1|by rewrite Hns1|done..].
Qed.

Lemma PasswordGet_stepped s pwd' events pwd :
  in_rotation (op_world s) → attentive (op_cr s) (PasswordGet pwd') events pwd →
  wp (watch_step (PasswordGet pwd') events) (stepped s (PasswordGet pwd') events pwd) (λ _ _, False) s.
Proof.
  intros Hw (g & Hg & Hns & Hname & Hpwd & Hev & -> & Hlast). pose proof Hw as (Hs & (cm & Hcm & Hcmok) & _).
  cbn [watch_step]. rewrite wp_bind, wp_attempt. unfold get_config, the_cr. rewrite wp_bind, wp_gets, Hns.
  eapply wp_mono; [by apply (get_typed_reaches (config_key ns) cm)| |done].
  intros cm' s1 (-> & Hcr & Hs1 & Ho). rewrite wp_ret.
  destruct (rewritten_password pwd cm (steady_editable _ Hok _ Hcmok)) as (cm' & Hrew & Hmeta & Hl & _). rewrite Hrew.
  assert (Hread : version_read (config_key ns) (OConfigMap cm') (objects (op_world s))).
  { exists (OConfigMap cm). split; [done|]. unfold resource_version. cbn. by rewrite Hmeta. }
  eapply (stepped_read _ _ _ _ _ _ pwd); [done..| | |]; [|by intros _|by right].
  rewrite Hcr. exists g. split_and!; try done. cbn. split_and!; [done..|by eapply steady_rewritten| |].
  { unfold password_written. rewrite Hl. apply password_lines_again. }
  apply objects_keyed in Hcm as [<- _]. unfold object_key. cbn. by rewrite Hmeta.
Qed.

Lemma SyncGet_stepped s pwd' events pwd :
  in_rotation (op_world s) → attentive (op_cr s) (SyncGet pwd') events pwd →
  wp (watch_step (SyncGet pwd') events) (stepped s (SyncGet pwd') events pwd) (λ _ _, False) s.
Proof.
  intros Hw (g & Hg & Hns & Hname & Hpwd & Hev & -> & Hlast). pose proof Hw as (Hs & _ & (sec & Hsec & Hcred)).
  cbn [watch_step]. rewrite wp_bind, wp_attempt. unfold get_credentials. rewrite wp_bind, (watched_graylog_wp g) by done.
  rewrite Hns, Hname. eapply wp_mono; [by apply (get_typed_reaches secret_key sec)| |done].
  intros sec' s1 (-> & Hcr & Hs1 & Ho). rewrite wp_ret.
  destruct (EnsureSecretRootPasswordSHA2 sec pwd) as [changed sec'] eqn:Hens.
  apply EnsureSecretRootPasswordSHA2_spec in Hens as (Hhash & _ & Hmeta & Hsame & Hdata).
  eapply (stepped_read _ _ _ _ _ _ pwd); [done..| | |]; cbn [fst snd].
  - rewrite Hcr. exists g. split_and!; try done. destruct changed; [|done]. cbn. split_and!; [done..| |].
    + intros k Hk. by rewrite Hdata, Hcred.
    + apply objects_keyed in Hsec as [<- _]. unfold object_key. cbn. by rewrite Hmeta.
  - by destruct changed.
  - intros _. destruct changed; right.
    + exists (OSecret sec). split; [done|]. unfold resource_version. cbn. by rewrite Hmeta.
    + exists sec. split; [done|]. by rewrite <- (Hsame eq_refl).
Qed.

Lemma config_not_secret : config_key ns ≠ secret_key.
Proof. done. Qed.

Lemma PasswordUpdate_stepped s pwd' cm events pwd :
  in_rotation (op_world s) → attentive (op_cr s) (PasswordUpdate pwd' cm) events pwd →
  wp (watch_step (PasswordUpdate pwd' cm) events) (stepped s (PasswordUpdate pwd' cm) events pwd) (λ _ _, False) s.
Proof.
  intros Hw (g & Hg & Hns & Hname & Hpwd & Hev & -> & Hlast & Hcmok & Hl & Hkey).
  pose proof Hw as (Hs & (old & Hold & _) & Hsec).
  cbn [watch_step]. rewrite wp_bind, wp_attempt.
  eapply wp_mono; [apply (UpdateResource_reaches cm (OConfigMap old)); [done|by rewrite <- Hkey in Hold]| |].
  - intros [] s1 (Hcr & Hs1 & Ho). rewrite wp_ret. cbn [to_object] in Ho. change (to_object cm) with (OConfigMap cm) in Ho.
    destruct (stored_configmap (op_world s) cm) as (cm' & Hst & Hd & _). rewrite Hkey, Hst in Ho.
    assert (Hk : objects (op_world s1) !! config_key ns = Some (OConfigMap cm')) by by rewrite Ho, lookup_insert_eq.
    assert (Hl' : password_written pwd cm') by (unfold password_written; by rewrite (conf_lines_data cm)).
    split.
    { split_and!; [done| |].
      - exists cm'. split; [done|]. by eapply steady_data.
      - by rewrite Ho, lookup_insert_ne by apply config_not_secret. }
    exists pwd. split; [rewrite Hcr; exists g; by split_and!|].
    assert (Hc : guards_config (SyncGet pwd) pwd (objects (op_world s1))) by (left; by exists cm').
    split; [done|done|by right|by right|]. intros k Hck _. rewrite Ho. by apply lookup_insert_ne.
  - intros e s1 (Hcr & Hs1 & Ho & Hv). rewrite wp_ret.
    assert (Hno : ¬ version_read (config_key ns) (OConfigMap cm) (objects (op_world s))).
    { intros (o & Hko & Hvo). rewrite Hold in Hko. by injection Hko as <-. }
    apply (stepped_read _ _ _ _ _ _ pwd); [done..| | |].
    + rewrite Hcr. exists g. by split_and!.
    + done.
    + by intros [?|?]; [left|].
Qed.

Lemma SyncUpdate_stepped s sec events pwd :
  in_rotation (op_world s) → attentive (op_cr s) (SyncUpdate sec) events pwd →
  wp (watch_step (SyncUpdate sec) events) (stepped s (SyncUpdate sec) events pwd) (λ _ _, False) s.
Proof.
  intros Hw (g & Hg & Hns & Hname & Hpwd & Hev & Hlast & Hhash & Hcred & Hkey).
  pose proof Hw as (Hs & Hcm & (old & Hold & _)).
  cbn [watch_step]. rewrite wp_bind, wp_logged.
  eapply wp_mono; [apply (UpdateResource_reaches sec (OSecret old)); [done|by rewrite <- Hkey in Hold]| |].
  - intros [] s1 (Hcr & Hs1 & Ho). rewrite wp_ret. change (to_object sec) with (OSecret sec) in Ho.
    destruct (stored_secret (op_world s) sec) as (sec' & Hst & Hd). rewrite Hkey, Hst in Ho.
    assert (Hk : objects (op_world s1) !! secret_key = Some (OSecret sec')) by by rewrite Ho, lookup_insert_eq.
    assert (Hck : objects (op_world s1) !! config_key ns = objects (op_world s) !! config_key ns)
      by by rewrite Ho, lookup_insert_ne by (apply not_eq_sym, config_not_secret).
    split.
    { split_and!; [done|by rewrite Hck|]. exists sec'. split; [done|]. unfold has_credentials. by rewrite Hd. }
    exists pwd. split; [rewrite Hcr; exists g; by split_and!|].
    assert (Hh : guards_hash Receive events pwd (objects (op_world s1))).
    { right. exists sec'. split; [done|]. unfold root_hash. by rewrite Hd. }
    split; [|done|by left|by right|].
    + cbn. unfold config_holds. by rewrite Hck.
    + intros k _ Hsk. rewrite Ho. by apply lookup_insert_ne.
  - intros e s1 (Hcr & Hs1 & Ho & Hv). rewrite wp_ret.
    assert (Hno : ¬ version_read secret_key (OSecret sec) (objects (op_world s))).
    { intros (o & Hko & Hvo). rewrite Hold in Hko. by injection Hko as <-. }
    apply (stepped_read _ _ _ _ _ _ pwd); [done..| | |].
    + rewrite Hcr. exists g. by split_and!.
    + done.
    + by intros [?|?]; [left|].
Qed.

(** No step fails or panics, and each keeps what the result depends on. *)
Lemma watch_step_stepped s pt events pwd :
  ended pt = false →
  in_rotation (op_world s) → attentive (op_cr s) pt events pwd →
  wp (watch_step pt events) (stepped s pt events pwd) (λ _ _, False) s.
Proof.
  intros He Hw Ha. destruct pt; try done.
  - by apply Receive_stepped.
  - by destruct Ha as (g & _ & _ & _ & _ & _ & []).
  - by destruct Ha as (g & _ & _ & _ & _ & _ & []).
  - by apply PasswordCheck_stepped.
  - by apply PasswordGet_stepped.
  - by apply PasswordUpdate_stepped.
  - by apply SyncGet_stepped.
  - by apply SyncUpdate_stepped.
Qed.

(** ** All the watchers *)

Definition seen (cr : LoggingService) : string :=
  match LoggingServiceSpec_Graylog (LoggingService_Spec cr) with Some g => Graylog_Password g | None => "" end.

Lemma attentive_seen cr pt events pwd : attentive cr pt events pwd → pwd = seen cr.
Proof. intros (g & Hg & _ & _ & <- & _). unfold seen. by rewrite Hg. Qed.

Lemma guards_config_frame pt pwd m m' :
  m' !! config_key ns = m !! config_key ns → guards_config pt pwd m → guards_config pt pwd m'.
Proof. intros Heq. destruct pt; cbn; unfold version_read, config_holds; by rewrite ?Heq. Qed.

Lemma guards_hash_frame pt events pwd m m' :
  m' !! config_key ns = m !! config_key ns → m' !! secret_key = m !! secret_key →
  guards_hash pt events pwd m → guards_hash pt events pwd m'.
Proof. intros Hc Hs. destruct pt; cbn; unfold version_read, hash_holds; by rewrite ?Hc, ?Hs. Qed.

Definition watcher_ok (w : watcher) : Prop :=
  attentive (watcher_cr w) (watcher_point w) (watcher_events w) (seen (watcher_cr w)).

(** The server and the watchers are as they should be. *)
Definition watching (sys : system W) : Prop :=
  in_rotation (system_world sys) ∧ ∀ i w, system_watchers sys !! i = Some w → watcher_ok w.

Definition config_guarded (sys : system W) : Prop :=
  ∃ i w, system_watchers sys !! i = Some w ∧
    guards_config (watcher_point w) (seen (watcher_cr w)) (objects (system_world sys)).

Definition hash_guarded (sys : system W) : Prop :=
  ∃ i w, system_watchers sys !! i = Some w ∧
    guards_hash (watcher_point w) (watcher_events w) (seen (watcher_cr w)) (objects (system_world sys)).

(** What a step of any watcher does. *)
Record watched (sys sys' : system W) : Prop := mkWatched {
  watched_watching : watching sys';
  watched_config : config_guarded sys → config_guarded sys';
  watched_hash : hash_guarded sys → hash_guarded sys';
  watched_write :
    objects (system_world sys') !! config_key ns = objects (system_world sys) !! config_key ns ∨ config_guarded sys';
  watched_elsewhere k : k ≠ config_key ns → k ≠ secret_key →
    objects (system_world sys') !! k = objects (system_world sys) !! k;
  watched_total : total_steps sys' < total_steps sys;
}.

(** A watcher that has not ended can go on. *)
Lemma step_watcher_goes sys i w :
  watching sys → system_watchers sys !! i = Some w → ended (watcher_point w) = false →
  ∃ s pt events, watch_step (watcher_point w) (watcher_events w) (watcher_op (system_world sys) w) = (s, Ret (pt, events)) ∧
    step_watcher i sys = Some (mkSystem (op_world s) (<[i := mkWatcher (op_cr s) pt events]> (system_watchers sys))) ∧
    stepped (watcher_op (system_world sys) w) (watcher_point w) (watcher_events w) (seen (watcher_cr w)) (pt, events) s.
Proof.
  intros [Hw Hws] Hi He.
  pose proof (watch_step_stepped (watcher_op (system_world sys) w) _ _ _ He Hw (Hws _ _ Hi)) as Hwp.
  unfold wp in Hwp. unfold step_watcher. rewrite Hi, He.
  destruct (watch_step _ _ _) as [s [[pt events]|e|]]; [|done..]. by exists s, pt, events.
Qed.

Lemma step_watcher_watched sys sys' i : watching sys → step_watcher i sys = Some sys' → watched sys sys'.
Proof.
  intros Hwatch Hstep. assert (Hstep' := Hstep). unfold step_watcher in Hstep'.
  destruct (system_watchers sys !! i) as [w|] eqn:Hi; [|done].
  destruct (ended (watcher_point w)) eqn:He; [done|]. clear Hstep'.
  destruct (step_watcher_goes sys i w) as (s & pt & events & Hrun & Hs & Hw' & pwd' & Ha & Hadv); [done..|].
  rewrite Hs in Hstep. injection Hstep as <-. pose proof (attentive_seen _ _ _ _ Ha) as ->.
  destruct Hadv as [Hc Hh Hco Hho Helse]. cbn [fst snd op_world watcher_op] in *.
  pose proof (lookup_lt_Some _ _ _ Hi) as Hlt. set (w' := mkWatcher (op_cr s) pt events) in *.
  assert (Hi' : <[i := w']> (system_watchers sys) !! i = Some w') by by apply list_lookup_insert_eq.
  split; unfold config_guarded, hash_guarded; cbn [system_world system_watchers]; [split|..]; [done|..|done|].
  - intros j v Hj. apply list_lookup_insert_Some in Hj as [(<- & <- & _)|[_ Hj]]; [done|]. by apply (proj2 Hwatch j).
  - destruct Hco as [Hco|Hco]; [|by exists i, w']. intros (j & v & Hj & Hg).
    destruct (decide (j = i)) as [->|Hne].
    + exists i, w'. split; [done|]. apply Hc. by simplify_eq.
    + exists j, v. rewrite list_lookup_insert_ne by done. split; [done|]. by apply (guards_config_frame _ _ _ _ Hco).
  - destruct Hho as [[Hho1 Hho2]|Hho]; [|by exists i, w']. intros (j & v & Hj & Hg).
    destruct (decide (j = i)) as [->|Hne].
    + exists i, w'. split; [done|]. apply Hh. by simplify_eq.
    + exists j, v. rewrite list_lookup_insert_ne by done. split; [done|].
      by apply (guards_hash_frame _ _ _ _ _ Hho1 Hho2).
  - destruct Hco as [Hco|Hco]; [by left|]. right. by exists i, w'.
  - pose proof (watch_step_progress _ (watcher_events w) He _ _ _ Hrun) as Hlt'. cbn [fst snd] in Hlt'.
    unfold total_steps. cbn [system_watchers].
    pose proof (sum_list_with_insert (λ w, steps_left (watcher_point w) (watcher_events w)) _ _ _ w' Hi) as Hsum.
    cbn [watcher_point watcher_events w'] in Hsum. lia.
Qed.

(** The invariant of the interleavings that start from the objects [m0]. *)
Record converging (m0 : gmap ObjectKey Object) (sys : system W) : Prop := mkConverging {
  converging_watching : watching sys;
  converging_config : config_guarded sys;
  converging_hash : hash_guarded sys;
  converging_elsewhere k : k ≠ config_key ns → k ≠ secret_key → objects (system_world sys) !! k = m0 !! k;
}.

Lemma step_watcher_converging m0 sys sys' i :
  converging m0 sys → step_watcher i sys = Some sys' →
  converging m0 sys' ∧ total_steps sys' < total_steps sys.
Proof.
  intros [Hwatch Hc Hh Helse] Hstep. destruct (step_watcher_watched _ _ _ Hwatch Hstep). split; [|done].
  split; [done|auto..|]. intros k Hk1 Hk2. rewrite <- Helse by done. auto.
Qed.

Lemma nsteps_converging m0 n sys sys' :
  converging m0 sys → nsteps interleave n sys sys' →
  converging m0 sys' ∧ n + total_steps sys' ≤ total_steps sys.
Proof.
  intros Hconv Hn. revert Hconv. induction Hn as [sys|n sys sys1 sys' Hi Hn IH]; intros Hconv; [by split|].
  destruct Hi as [i sys sys1 Hi].
  destruct (step_watcher_converging m0 sys sys1 i) as [Hconv1 Hlt]; [done..|].
  destruct (IH Hconv1) as [? ?]. split; [done|]. lia.
Qed.

(** Who has ended has seen the last password. *)
Lemma watcher_ok_ended w :
  watcher_ok w → ended (watcher_point w) = true →
  (∃ r, watcher_point w = Ended r) ∧ watcher_events w = [] ∧ seen (watcher_cr w) = final.
Proof. intros (g & _ & _ & _ & _ & _ & Hp) He. destruct (watcher_point w); try done. destruct Hp. eauto. Qed.

Definition all_ended (sys : system W) : Prop :=
  ∀ i w, system_watchers sys !! i = Some w → ended (watcher_point w) = true.

(** When all have ended, the result is there. *)
Lemma config_guarded_ended sys :
  watching sys → all_ended sys → config_guarded sys → config_holds final (objects (system_world sys)).
Proof.
  intros [_ Hws] Hall (i & w & Hi & Hg).
  destruct (watcher_ok_ended w (Hws _ _ Hi) (Hall _ _ Hi)) as ([r Hr] & _ & Hs).
  rewrite Hr, Hs in Hg. by destruct Hg.
Qed.

Lemma hash_guarded_ended sys :
  watching sys → all_ended sys → hash_guarded sys → hash_holds final (objects (system_world sys)).
Proof.
  intros [_ Hws] Hall (i & w & Hi & Hg).
  destruct (watcher_ok_ended w (Hws _ _ Hi) (Hall _ _ Hi)) as ([r Hr] & He & Hs).
  rewrite Hr, He, Hs in Hg. by destruct Hg as [?%Exists_nil|].
Qed.
End rotation.

(** ** Properties *)

(** At the start every watcher waits for its next event; the events of all of them leave
    the user as it is and end with the same password, which is new to one of them. *)
Record rotation_begins {W} `{ReachableServer W} (ns name final : string) (cm0 : ConfigMap) (sec0 : Secret)
    (sys : system W) : Prop := mkRotationBegins {
  begins_serving : serving (system_world sys);
  begins_config : objects (system_world sys) !! config_key ns = Some (OConfigMap cm0);
  begins_editable : editable (scan_lines (graylog_conf cm0));
  begins_secret : objects (system_world sys) !! mkObjectKey KSecret ns name = Some (OSecret sec0);
  begins_watchers i w : system_watchers sys !! i = Some w →
    watcher_point w = Receive ∧
    ∃ g, LoggingServiceSpec_Graylog (LoggingService_Spec (watcher_cr w)) = Some g ∧
      GetNamespace (watcher_cr w) = ns ∧ Graylog_GraylogSecretName g = name ∧
      Forall (keeps_user name (Graylog_User g)) (watcher_events w) ∧
      last_password (Graylog_Password g) (watcher_events w) = final;
  begins_new : ∃ i w, system_watchers sys !! i = Some w ∧ seen (watcher_cr w) ≠ final;
}.

Lemma last_password_unchanged pwd events : ¬ modification_left events → last_password pwd events = pwd.
Proof.
  unfold modification_left. intros Hno. induction events as [|event events IH]; [done|].
  rewrite Exists_cons in Hno. cbn. unfold event_password at 2.
  destruct (WatchEvent_Type event) eqn:Ht; try (apply IH; tauto). exfalso. tauto.
Qed.

(** [cm] is [cm0] but for the password. *)
Definition rotation_of (cm0 cm : ConfigMap) : Prop :=
  (conf_lines cm = conf_lines cm0 ∨ ∃ pwd, conf_lines cm = password_lines pwd (conf_lines cm0)) ∧
  ∀ k, k ≠ GraylogConfigFileName → contents (ConfigMap_Data cm) !! k = contents (ConfigMap_Data cm0) !! k.

Lemma rotation_of_password pwd cm0 cm :
  rotation_of cm0 cm → password_lines pwd (conf_lines cm) = password_lines pwd (conf_lines cm0).
Proof. intros [[->|[p ->]] _]; [done|]. apply password_lines_again. Qed.

Lemma rotation_of_steady cm0 : editable (conf_lines cm0) → steady (rotation_of cm0).
Proof.
  intros Hed.
  assert (Hed' : ∀ cm, rotation_of cm0 cm → editable (conf_lines cm))
    by (intros cm [[->|[p ->]] _]; [done|by apply editable_password_lines]).
  split; [done|..].
  - intros cm cm' Hd [Hl Ho]. split; [by rewrite (conf_lines_data cm cm')|by rewrite Hd].
  - intros pwd cm cm' Hcm Hrew.
    destruct (rewritten_password pwd cm (Hed' _ Hcm)) as (cm1 & Hrew1 & _ & Hl & Ho).
    rewrite Hrew in Hrew1. injection Hrew1 as <-. split.
    + right. exists pwd. by rewrite Hl, (rotation_of_password _ cm0).
    + intros k Hk. rewrite Ho by done. by apply Hcm.
Qed.

Lemma rotation_begins_converging {W} `{ReachableServer W} ns name final cm0 sec0 (sys : system W) :
  rotation_begins ns name final cm0 sec0 sys →
  converging ns name final (rotation_of cm0) sec0 (objects (system_world sys)) sys.
Proof.
  intros [Hs Hcm Hed Hsec Hws (i & w & Hi & Hnew)].
  split; [|..|done].
  - split.
    + split; [done|]. split; [|by exists sec0]. exists cm0. split; [done|]. split; [by left|done].
    + intros j v Hj. destruct (Hws _ _ Hj) as (Hp & g & Hg & Hns & Hn & Hev & Hlast).
      exists g. rewrite Hp. unfold seen. rewrite Hg. by split_and!.
  - exists i, w. split; [done|]. destruct (Hws _ _ Hi) as [-> _]. by right.
  - exists i, w. split; [done|]. destruct (Hws _ _ Hi) as (-> & g & Hg & _ & _ & _ & Hlast). left.
    unfold seen in Hnew. rewrite Hg in Hnew. unfold modification_left.
    destruct (decide (Exists (λ event, WatchEvent_Type event = Modified) (watcher_events w))); [done|].
    by rewrite last_password_unchanged in Hlast.
Qed.

(** C2: a rotation of the password arrives, whatever the interleaving.  Any number of
    watchers of the same Secret, one for each reconcile so far, each with its own custom
    resource and its own events, which end in the same password: however their calls
    interleave, and however often their updates conflict, no step fails or panics, a
    watcher that has not ended can always go on, and all have ended after a bounded number of
    steps.  Then all the lines of root_password_sha2 in the configuration have the hash of the
    last password and the Secret has that hash, while the other lines, the other files of the
    ConfigMap, the other data of the Secret and every other object are as before.  Assumed is
    that the server answers, that the configuration can be scanned and has such a line, that no
    event changes the user, and that one of the watchers did not have the password before. *)
Theorem watchers_converge {W} `{ReachableServer W} ns name final cm0 sec0 n (sys sys' : system W) :
  rotation_begins ns name final cm0 sec0 sys → nsteps interleave n sys sys' →
  n + total_steps sys' ≤ total_steps sys ∧
  (∀ i w, system_watchers sys' !! i = Some w → ended (watcher_point w) = false → is_Some (step_watcher i sys')) ∧
  (∀ k, k ≠ config_key ns → k ≠ mkObjectKey KSecret ns name →
     objects (system_world sys') !! k = objects (system_world sys) !! k) ∧
  ((∀ i w, system_watchers sys' !! i = Some w → ended (watcher_point w) = true) →
   (∃ cm, objects (system_world sys') !! config_key ns = Some (OConfigMap cm) ∧
      scan_lines (graylog_conf cm) =
        set_line GraylogPasswordField (sha256_hex final) <$> scan_lines (graylog_conf cm0) ∧
      ∀ k, k ≠ GraylogConfigFileName →
        contents (ConfigMap_Data cm) !! k = contents (ConfigMap_Data cm0) !! k) ∧
   (∃ sec, objects (system_world sys') !! mkObjectKey KSecret ns name = Some (OSecret sec) ∧
      root_hash sec = sha256_hex final ∧
      ∀ k, k ≠ GraylogSecretKeyRootPasswordSHA2 →
        contents (Secret_Data sec) !! k = contents (Secret_Data sec0) !! k)).
Proof.
  intros Hb Hn. pose proof (rotation_of_steady _ (begins_editable _ _ _ _ _ _ Hb)) as Hok.
  destruct (nsteps_converging ns name final _ sec0 Hok (objects (system_world sys)) n sys sys') as [Hconv Hle];
    [by apply rotation_begins_converging|done|].
  pose proof (converging_watching _ _ _ _ _ _ _ Hconv) as Hwatch.
  split_and!; [done| |apply (converging_elsewhere _ _ _ _ _ _ _ Hconv)|].
  - intros i w Hi He.
    destruct (step_watcher_goes _ _ _ _ _ Hok _ _ _ Hwatch Hi He) as (s & pt & events & _ & -> & _). done.
  - intros Hend.
    destruct (config_guarded_ended _ _ _ _ _ _ Hwatch Hend (converging_config _ _ _ _ _ _ _ Hconv)) as (cm & Hcm & Hl).
    destruct (hash_guarded_ended _ _ _ _ _ _ Hwatch Hend (converging_hash _ _ _ _ _ _ _ Hconv)) as (sec & Hsec & Hhash).
    destruct Hwatch as [(_ & (cm' & Hcm' & Hrot) & sec' & Hsec' & Hcred) _].
    unfold secret_key in Hsec, Hsec'. rewrite Hsec in Hsec'. injection Hsec' as <-.
    rewrite Hcm in Hcm'. injection Hcm' as <-. split; [|by exists sec].
    exists cm. split; [done|]. split; [|apply Hrot].
    unfold password_written in Hl. by rewrite (rotation_of_password _ cm0) in Hl by done.
Qed.

(** ** Witnesses and a counterexample *)

Definition credentials_event (usr pwd : string) : WatchEvent :=
  mkWatchEvent Modified (OSecret (mkSecret (named "graylog-secret" "ns") "Opaque"
    (Some {[ "user" := usr; "password" := pwd ]}))).

Definition example_watcher (usr pwd : string) (events : list WatchEvent) : watcher :=
  mkWatcher (example_graylog_cr <| LoggingService_Spec := zero
    <| LoggingServiceSpec_Graylog := Some (example_graylog <| Graylog_User := usr |> <| Graylog_Password := pwd |>) |> |>)
    Receive events.

(** The objects as the server stores them, with a version each. *)
Definition stored_conf : ConfigMap :=
  example_conf <| ConfigMap_ObjectMeta ::= SetResourceVersion "conf-1" |>.

Definition stored_credentials : Secret :=
  example_graylog_secret <| Secret_ObjectMeta ::= SetResourceVersion "secret-1" |>.

Definition rotation_world : Mem :=
  mem_store (OConfigMap stored_conf) (mem_store (OSecret stored_credentials) zero).

(** The second watcher was started between two rotations. *)
Definition example_system : system Mem :=
  mkSystem rotation_world
    [example_watcher "admin" "old" [credentials_event "admin" "p1"; credentials_event "admin" "abc"];
     example_watcher "admin" "p1" [credentials_event "admin" "abc"]].

(** Both read the configuration, and the update of the second one conflicts. *)
Definition example_schedule : list nat :=
  [0; 0; 0; 1; 1; 1; 0; 1; 0; 0; 1] ++ replicate 7 0.

Definition schedule_end (schedule : list nat) (sys : system Mem) : system Mem :=
  default sys (run_schedule schedule sys).

Lemma example_rotation_begins :
  rotation_begins "ns" "graylog-secret" "abc" stored_conf stored_credentials example_system.
Proof.
  split; [done|by vm_compute| |by vm_compute|..].
  - split; [|by vm_compute].
    assert (Hl : scan_lines (graylog_conf stored_conf) = ["root_username = admin"; "root_password_sha2 = old"])
      by by vm_compute.
    rewrite Hl, !Forall_cons. unfold short. split_and!; [apply Nat.ltb_lt; by vm_compute..|done].
  - intros [|[|i]] w Hi; [| |done]; injection Hi as <-; (split; [done|]).
    + exists (example_graylog <| Graylog_User := "admin" |> <| Graylog_Password := "old" |>).
      split_and!; [done..| |done]. repeat constructor; eexists; split_and!; try done; intros _;
        (split; [by eexists|by intros usr' [= <-]]).
    + exists (example_graylog <| Graylog_User := "admin" |> <| Graylog_Password := "p1" |>).
      split_and!; [done..| |done]. repeat constructor; eexists; split_and!; try done; intros _;
        (split; [by eexists|by intros usr' [= <-]]).
  - exists 0. eexists. split; [done|]. by vm_compute.
Qed.

Lemma watchers_converge_witness :
  let sys' := schedule_end example_schedule example_system in
  (ended ∘ watcher_point <$> system_watchers sys') = [true; true] ∧
  ∃ cm, objects (system_world sys') !! config_key "ns" = Some (OConfigMap cm) ∧
    scan_lines (graylog_conf cm) = ["root_username = admin"; "root_password_sha2 = " +:+ sha256_hex "abc"].
Proof.
  intros sys'. assert (Hended : (ended ∘ watcher_point <$> system_watchers sys') = [true; true]) by by vm_compute.
  split; [exact Hended|].
  assert (Hrun : run_schedule example_schedule example_system = Some sys').
  { unfold sys', schedule_end.
    assert (Hs : match run_schedule example_schedule example_system with Some _ => true | None => false end = true)
      by by vm_compute.
    destruct (run_schedule example_schedule example_system); [done|discriminate Hs]. }
  clearbody sys'. pose proof (run_schedule_steps _ _ _ Hrun) as Hsteps.
  pose proof (watchers_converge "ns" "graylog-secret" "abc" stored_conf stored_credentials
    (length example_schedule) example_system sys' example_rotation_begins Hsteps) as (_ & _ & _ & Hfinal).
  destruct Hfinal as [(cm & Hcm & Hlines & _) _].
  - intros i w Hi. apply (f_equal (fmap (ended ∘ watcher_point))) in Hi. rewrite <- list_lookup_fmap, Hended in Hi.
    by destruct i as [|[|i]]; [injection Hi..|].
  - exists cm. split; [exact Hcm|]. rewrite Hlines. by vm_compute.
Defined.

(** A rotation that changes the user too can be lost: two watchers, and two events that both
    have the new password, the first with another user than the second.  Each watcher's
    update of the password conflicts with the other's update of the user, the password is
    no news in the second event, and the old hash stays in the configuration. *)
Definition losing_system : system Mem :=
  let events := [credentials_event "bob" "abc"; credentials_event "eve" "abc"] in
  mkSystem rotation_world [example_watcher "admin" "old" events; example_watcher "admin" "old" events].

Definition losing_schedule : list nat :=
  replicate 5 0 ++ replicate 3 1 ++ replicate 3 0 ++ [1; 1; 0; 1] ++ replicate 4 0 ++ replicate 6 1.

Definition config_lines (m : gmap ObjectKey Object) : list string :=
  match m !! config_key "ns" with
  | Some (OConfigMap cm) => scan_lines (graylog_conf cm)
  | _ => []
  end.

Definition secret_hash (m : gmap ObjectKey Object) : string :=
  match m !! mkObjectKey KSecret "ns" "graylog-secret" with
  | Some (OSecret sec) => root_hash sec
  | _ => ""
  end.

(** All have ended, the Secret has the hash of the new password, and Graylog's configuration
    has the new user and the old hash. *)
Lemma rotation_lost :
  let sys' := schedule_end losing_schedule losing_system in
  run_schedule losing_schedule losing_system = Some sys' ∧
  (ended ∘ watcher_point <$> system_watchers sys') = [true; true] ∧
  config_lines (objects (system_world sys')) = ["root_username = eve"; "root_password_sha2 = old"] ∧
  secret_hash (objects (system_world sys')) = sha256_hex "abc".
Proof.
  intros sys'. split_and!; [|by vm_compute..].
  unfold sys', schedule_end.
  assert (Hs : match run_schedule losing_schedule losing_system with Some _ => true | None => false end = true)
    by by vm_compute.
  by destruct (run_schedule losing_schedule losing_system).
Qed.
