(* ===== verification/Overlap.v ===== *)
(** * Reconciles and watchers at the same time: internal/controllers/graylog/handler.go
      ([handleConfigMap]), utils.go ([setCredentials]), utils/watch-secret.go

    [handleConfigMap] reads the Secret and later writes the whole of Graylog's configuration,
    while the watchers of earlier reconciles edit it.  Here it is cut into the steps between
    which the watchers go on, as Watchers cuts these; [overlap] is any number of both on one
    API server.  When the Secret has its last password from the start, the configuration ends
    with it in every interleaving; a reconcile that has read the Secret before its last change
    can undo the work of the watchers. *)

From S2P Require Import Prelude GoStrings Sha256 KubeTypes Api Client Labels Operator Component.
From S2P Require Import Defaults Templates Files.
From S2P Require Import ComponentRun Net System GraylogRest GraylogRequests GraylogController SecretWatcher.
From S2P Require Import Watchers.
From S2P Require Import Rotations.

(** ** Steps of [handleConfigMap] *)

(** Where it is: before a call of the client, with what it writes, or at its end. *)
Inductive cycle_point : Type :=
| CredentialsGet
| CredentialsUpdate (secret : Secret)
| ConfigCreate (m : ConfigMap)
| ConfigUpdate (m : ConfigMap)
| CycleDone (r : option error).

Section steps.
Context {W : Type} `{KubeClient W, System W, Encodings, Externals}.

(** [setCredentials] before its update: the Secret to write, if there is something to change. *)
Definition credentials_read : M (op W) (option Secret) :=
  cr ← the_cr;
  graylog ← deref (LoggingServiceSpec_Graylog (LoggingService_Spec cr));
  let name := Graylog_GraylogSecretName graylog in
  let ns := GetNamespace cr in
  secret ← (get_typed (mkObjectKey KSecret ns name) : M (op W) Secret);
  match graylog_secret_value secret "user" with
  | None => fail (graylogSecretMissingValueError "user" name ns)
  | Some usr =>
      update_graylog (λ g, g <| Graylog_User := usr |>);;
      match graylog_secret_value secret "password" with
      | None => fail (graylogSecretMissingValueError "password" name ns)
      | Some pwd =>
          update_graylog (λ g, g <| Graylog_Password := pwd |>);;
          (match graylog_secret_value secret "elasticsearchHost" with
           | Some host => update_graylog (λ g, g <| Graylog_ElasticsearchHost := host |>)
           | None =>
               if opensearch_host graylog then mret tt
               else fail (graylogSecretMissingValueError "elasticsearchHost" name ns)
           end);;
          let '(changed, secret) := EnsureSecretRootPasswordSHA2 secret pwd in
          mret (if changed : bool then Some secret else None)
      end
  end.

(** The manifest, up to the call that creates it. *)
Definition rendered : M (op W) cycle_point :=
  cr ← the_cr;
  match LoggingServiceSpec_Graylog (LoggingService_Spec cr) with
  | None => fail (graylog_nil cr)
  | Some spec => m ← of_sum (graylog_ConfigMap cr spec); mret (ConfigCreate m)
  end.

(** An error is the end. *)
Definition or_done (m : M (op W) cycle_point) : M (op W) cycle_point :=
  r ← attempt m;
  mret (match r with inl e => CycleDone (Some e) | inr pt => pt end).

Definition cycle_step (pt : cycle_point) : M (op W) cycle_point :=
  or_done match pt with
  | CredentialsGet =>
      changed ← credentials_read;
      match changed with Some secret => mret (CredentialsUpdate secret) | None => rendered end
  | CredentialsUpdate secret => UpdateResource secret;; rendered
  | ConfigCreate m =>
      '(m, err) ← CreateResource m true;
      match err with
      | None => mret (CycleDone None)
      | Some err => if IsAlreadyExists err then mret (ConfigUpdate m) else fail err
      end
  | ConfigUpdate m => UpdateResource m;; mret (CycleDone None)
  | CycleDone r => mret (CycleDone r)
  end.

Definition cycle_rank (pt : cycle_point) : nat :=
  match pt with
  | CredentialsGet => 4 | CredentialsUpdate _ => 3 | ConfigCreate _ => 2 | ConfigUpdate _ => 1
  | CycleDone _ => 0
  end.

Definition done (pt : cycle_point) : bool := match pt with CycleDone _ => true | _ => false end.

(** A reconcile that nobody disturbs: its result. *)
Fixpoint cycle_alone (fuel : nat) (pt : cycle_point) : M (op W) (option (option error)) :=
  match pt, fuel with
  | CycleDone r, _ => mret (Some r)
  | _, O => mret None
  | _, S fuel => pt ← cycle_step pt; cycle_alone fuel pt
  end.

(** The rest of [handleConfigMap] from a point. *)
Definition cycle_rest (pt : cycle_point) : M (op W) unit :=
  match pt with
  | CredentialsGet => graylog_handleConfigMap
  | CredentialsUpdate secret =>
      UpdateResource secret;;
      handle_object LoggingServiceSpec_Graylog (λ cr, fail (graylog_nil cr)) graylog_ConfigMap
        create_or_update_ConfigMap
  | ConfigCreate m => create_or_update_ConfigMap m
  | ConfigUpdate m => UpdateResource m
  | CycleDone None => mret tt
  | CycleDone (Some e) => fail e
  end.
End steps.

Section refinement.
Context {W : Type} `{KubeClient W, System W, Encodings, Externals}.
Implicit Types (s : op W).

Lemma setCredentials_read :
  setCredentials ≡ o ← credentials_read; match o with Some secret => UpdateResource secret | None => mret tt end.
Proof.
  unfold setCredentials, credentials_read. rewrite bind_assoc. apply bind_ext. intros cr.
  rewrite bind_assoc. apply bind_ext. intros g. rewrite bind_assoc. apply bind_ext. intros secret.
  destruct (graylog_secret_value secret "user") as [usr|]; [|done].
  rewrite bind_assoc. apply bind_ext. intros [].
  destruct (graylog_secret_value secret "password") as [pwd|]; [|done].
  rewrite bind_assoc. apply bind_ext. intros []. rewrite bind_assoc. apply bind_ext. intros [].
  by destruct (EnsureSecretRootPasswordSHA2 secret pwd) as [[|] secret'].
Qed.

Lemma or_done_rest (m : M (op W) cycle_point) : or_done m ≫= cycle_rest ≡ m ≫= cycle_rest.
Proof. split. intros s. unfold or_done, attempt, mbind, M_bind. by destruct (m s) as [s' [pt|e|]]. Qed.

Lemma rendered_rest :
  rendered ≫= cycle_rest ≡
  handle_object LoggingServiceSpec_Graylog (λ cr, fail (graylog_nil cr)) graylog_ConfigMap
    (create_or_update_ConfigMap (W:=W)).
Proof.
  unfold rendered, handle_object. rewrite bind_assoc. apply bind_ext. intros cr.
  destruct (LoggingServiceSpec_Graylog _) as [g|]; [|done]. rewrite bind_assoc. by apply bind_ext.
Qed.

(** One step and then the rest of the code, is the rest of the code. *)
Lemma cycle_rest_step pt : cycle_step pt ≫= cycle_rest ≡ cycle_rest (W:=W) pt.
Proof.
  unfold cycle_step. rewrite or_done_rest. destruct pt as [|secret|m|m|r]; cbn [cycle_rest].
  - unfold graylog_handleConfigMap. rewrite setCredentials_read, !bind_assoc. apply bind_ext.
    intros [secret|]; [done|]. apply rendered_rest.
  - rewrite bind_assoc. apply bind_ext. intros []. apply rendered_rest.
  - unfold create_or_update_ConfigMap. rewrite bind_assoc. apply bind_ext. intros [m' [e|]]; [|done].
    by destruct (IsAlreadyExists e).
  - split. intros s. unfold mbind, M_bind. by destruct (UpdateResource m s) as [s' [[]|e|]].
  - done.
Qed.

(** Every step is progress, and there are at most four. *)
Lemma yields_or_done (P : cycle_point → Prop) (m : M (op W) cycle_point) :
  (∀ e, P (CycleDone (Some e))) → yields P m → yields P (or_done m).
Proof.
  intros He Hm s s' pt. unfold or_done, attempt, mbind, M_bind. specialize (Hm s).
  destruct (m s) as [s1 [pt'|e|]]; [| |done]; intros [= _ <-]; [by eapply Hm|done].
Qed.

Lemma yields_fail {A} (P : A → Prop) e : yields P (fail e : M (op W) A).
Proof. by intros s s' a. Qed.

Lemma rendered_rank : yields (λ pt, cycle_rank pt < 3) (rendered (W:=W)).
Proof.
  unfold rendered. apply yields_bind. intros cr. destruct (LoggingServiceSpec_Graylog _); [|apply yields_fail].
  apply yields_bind. intros m. apply yields_ret. cbn. lia.
Qed.

Lemma cycle_step_progress pt :
  done pt = false → yields (λ pt', cycle_rank pt' < cycle_rank pt) (cycle_step (W:=W) pt).
Proof.
  intros Hd. unfold cycle_step. apply yields_or_done; [by destruct pt; cbn; try lia|].
  destruct pt as [|secret|m|m|r]; [..|done]; apply yields_bind.
  - intros [secret|]; [apply yields_ret; cbn; lia|]. intros s s' pt Hr. pose proof (rendered_rank _ _ _ Hr). cbn in *. lia.
  - intros []. apply rendered_rank.
  - intros [m' [e|]]; [destruct (IsAlreadyExists e)|]; try apply yields_fail; apply yields_ret; cbn; lia.
  - intros []. apply yields_ret. cbn. lia.
Qed.

Lemma or_done_no_error (m : M (op W) cycle_point) s e : (or_done m s).2 ≠ Fail e.
Proof. unfold or_done, attempt, mbind, M_bind. by destruct (m s) as [s' [pt|e'|]]. Qed.

Lemma attempt_bind {A B C} (m : M (op W) A) (k : A → M (op W) B) (f : error + B → M (op W) C) :
  (∀ s e, (m s).2 ≠ Fail e) → attempt (m ≫= k) ≫= f ≡ m ≫= λ a, attempt (k a) ≫= f.
Proof.
  intros Hm. split. intros s. specialize (Hm s). unfold attempt, mbind, M_bind.
  destruct (m s) as [s' [a|e|]]; [done|by destruct (Hm e)|done].
Qed.

Definition result_of (r : error + unit) : option error := match r with inl e => Some e | inr _ => None end.

Lemma cycle_alone_rest n pt :
  cycle_rank pt ≤ n → cycle_alone n pt ≡ (r ← attempt (cycle_rest (W:=W) pt); mret (Some (result_of r))).
Proof.
  revert pt. induction n as [|n IH]; intros pt Hn.
  - destruct pt as [| | | |[e|]]; cbn in Hn; try lia; done.
  - destruct (done pt) eqn:Hd; [by destruct pt as [| | | |[e|]]|].
    transitivity (cycle_step pt ≫= cycle_alone n); [by destruct pt|].
    transitivity (cycle_step pt ≫= λ pt', (r ← attempt (cycle_rest (W:=W) pt'); mret (Some (result_of r)))).
    { eapply bind_ext_yields; [by apply cycle_step_progress|]. intros pt' Hp. cbn in Hp. apply IH. lia. }
    rewrite <- cycle_rest_step. symmetry. apply attempt_bind, or_done_no_error.
Qed.
End refinement.

(** ** Watchers and reconciles on one server *)

Record cycle : Type := mkCycle {
  cycle_cr : LoggingService;
  cycle_at : cycle_point;
}.

Record overlap (W : Type) : Type := mkOverlap {
  overlap_system : system W;
  overlap_cycles : list cycle;
}.
Arguments mkOverlap {_} _ _.
Arguments overlap_system {_} _.
Arguments overlap_cycles {_} _.

(** Who goes on. *)
Inductive turn : Type :=
| WatcherTurn (i : nat)
| CycleTurn (i : nat).

Section overlapping.
Context {W : Type} `{KubeClient W, System W, Encodings, Externals}.

Definition overlap_world (sys : overlap W) : W := system_world (overlap_system sys).

(** The i-th reconcile goes on: nothing, when it is done, or when it panics, which ends the
    operator. *)
Definition step_cycle (i : nat) (sys : overlap W) : option (overlap W) :=
  match overlap_cycles sys !! i with
  | None => None
  | Some c =>
      if done (cycle_at c) then None
      else
        match cycle_step (cycle_at c) (mkOp (overlap_world sys) (cycle_cr c) []) with
        | (s, Ret pt) =>
            Some (mkOverlap (mkSystem (op_world s) (system_watchers (overlap_system sys)))
                    (<[i := mkCycle (op_cr s) pt]> (overlap_cycles sys)))
        | _ => None
        end
  end.

Definition take_turn (t : turn) (sys : overlap W) : option (overlap W) :=
  match t with
  | WatcherTurn i => watchers ← step_watcher i (overlap_system sys); Some (mkOverlap watchers (overlap_cycles sys))
  | CycleTurn i => step_cycle i sys
  end.

Inductive overlapping : relation (overlap W) :=
| overlapping_turn t sys sys' : take_turn t sys = Some sys' → overlapping sys sys'.

Fixpoint take_turns (turns : list turn) (sys : overlap W) : option (overlap W) :=
  match turns with
  | [] => Some sys
  | t :: turns => match take_turn t sys with Some sys => take_turns turns sys | None => None end
  end.

Lemma take_turns_steps turns sys sys' :
  take_turns turns sys = Some sys' → nsteps overlapping (length turns) sys sys'.
Proof.
  revert sys. induction turns as [|t turns IH]; intros sys; cbn [take_turns length].
  - intros [= ->]. constructor.
  - destruct (take_turn t sys) as [sys1|] eqn:Ht; [|done]. intros Hs.
    econstructor; [by econstructor|by apply IH].
Qed.

(** How many steps are left at most. *)
Definition turns_left (sys : overlap W) : nat :=
  total_steps (overlap_system sys) + sum_list_with (cycle_rank ∘ cycle_at) (overlap_cycles sys).

(** Nobody has anything left to do. *)
Definition at_rest (sys : overlap W) : Prop :=
  all_ended (overlap_system sys) ∧
  ∀ i c, overlap_cycles sys !! i = Some c → done (cycle_at c) = true.

(** A reconcile has applied the configuration. *)
Definition applied (sys : overlap W) : Prop :=
  ∃ i c, overlap_cycles sys !! i = Some c ∧ cycle_at c = CycleDone None.
End overlapping.

(** ** One reconcile among others

    All are of the custom resources in [ns] whose Graylog Secret is [name]; [sec0] is that
    Secret at the start, and [final] its password. *)

(** [cr] after [setCredentials] with the data of [secret]. *)
Definition with_credentials_of (secret : Secret) (usr pwd : string) (cr : LoggingService) : LoggingService :=
  cr <| LoggingService_Spec ::= λ sp, sp <| LoggingServiceSpec_Graylog ::= fmap (with_credentials secret usr pwd) |> |>.

(** The lines of the configuration can be edited, and all those of the password have the
    hash of [pwd]. *)
Definition config_for (pwd : string) (m : ConfigMap) : Prop :=
  editable (conf_lines m) ∧ password_written pwd m.

(** What the configuration of [cr] is rendered to, with the data of [secret], has the
    password of the custom resource. *)
Definition renders_password `{Encodings, Externals} (secret : Secret) (cr : LoggingService) : Prop :=
  ∀ usr pwd g m,
    graylog_secret_value secret "user" = Some usr → graylog_secret_value secret "password" = Some pwd →
    LoggingServiceSpec_Graylog (LoggingService_Spec (with_credentials_of secret usr pwd cr)) = Some g →
    graylog_ConfigMap (with_credentials_of secret usr pwd cr) g = inr m → config_for pwd m.

(** A property of the lines alone. *)
Definition editable_config (cm : ConfigMap) : Prop := editable (conf_lines cm).

Lemma editable_config_steady : steady editable_config.
Proof.
  unfold editable_config. split; [done|..].
  - intros cm cm' Hd. by rewrite (conf_lines_data cm cm').
  - intros pwd cm cm' Hed Hrew. destruct (rewritten_password pwd cm Hed) as (cm1 & Hrew1 & _ & Hl & _).
    rewrite Hrew in Hrew1. injection Hrew1 as <-. rewrite Hl. by apply editable_password_lines.
Qed.

Section reconciling.
Context {W : Type} `{ReachableServer W, !System W, Encodings, Externals}.
Variables (ns name final : string) (sec0 : Secret).
Hypothesis Hfinal : graylog_secret_value sec0 "password" = Some final.
Implicit Types (s : op W).

(** The configuration that is rendered for [cr] is for the last password. *)
Definition renders_final (cr : LoggingService) : Prop :=
  ∀ g m, LoggingServiceSpec_Graylog (LoggingService_Spec cr) = Some g → graylog_ConfigMap cr g = inr m →
    config_for final m.

Definition cycling (cr : LoggingService) (pt : cycle_point) : Prop :=
  GetNamespace cr = ns ∧
  match pt with
  | CredentialsGet =>
      renders_password sec0 cr ∧
      ∃ g, LoggingServiceSpec_Graylog (LoggingService_Spec cr) = Some g ∧ Graylog_GraylogSecretName g = name
  | CredentialsUpdate secret =>
      renders_final cr ∧ has_credentials sec0 secret ∧ object_key (OSecret secret) = secret_key ns name
  | ConfigCreate m | ConfigUpdate m => config_for final m ∧ object_key (OConfigMap m) = config_key ns
  | CycleDone _ => True
  end.

(** What a step of a reconcile does. *)
Record cycled s (pt' : cycle_point) s' : Prop := mkCycled {
  cycled_world : in_rotation ns name editable_config sec0 (op_world s');
  cycled_cycling : cycling (op_cr s') pt';
  cycled_write :
    objects (op_world s') !! config_key ns = objects (op_world s) !! config_key ns ∨
    config_holds ns final (objects (op_world s'));
  cycled_applied : pt' = CycleDone None → config_holds ns final (objects (op_world s'));
  cycled_elsewhere k : k ≠ config_key ns → k ≠ secret_key ns name →
    objects (op_world s') !! k = objects (op_world s) !! k;
}.

(** A step that leaves the objects as they are. *)
Lemma cycled_read s pt' s' :
  in_rotation ns name editable_config sec0 (op_world s) →
  serving (op_world s') → objects (op_world s') = objects (op_world s) →
  cycling (op_cr s') pt' → pt' ≠ CycleDone None → cycled s pt' s'.
Proof.
  intros (_ & Hcm & Hsec) Hs Ho Hc Hne. split; try done; [|by left; rewrite Ho|by rewrite Ho].
  split; [done|]. by rewrite Ho.
Qed.

Lemma wp_or_done (m : M (op W) cycle_point) (Q : cycle_point → op W → Prop) s :
  wp m Q (λ e, Q (CycleDone (Some e))) s → wp (or_done m) Q (λ _ _, False) s.
Proof.
  unfold or_done. rewrite wp_bind, wp_attempt. intros Hm. eapply wp_mono; [exact Hm|..]; intros x s'; by rewrite wp_ret.
Qed.

Lemma has_credentials_value secret key :
  has_credentials sec0 secret → key ≠ GraylogSecretKeyRootPasswordSHA2 →
  graylog_secret_value secret key = graylog_secret_value sec0 key.
Proof. intros Hc Hk. unfold graylog_secret_value. by rewrite Hc. Qed.

Lemma graylog_ConfigMap_key cr g m :
  graylog_ConfigMap cr g = inr m → object_key (OConfigMap m) = config_key (GetNamespace cr).
Proof.
  unfold graylog_ConfigMap. destruct (DataFromDirectory _ _ _ _) as [e|data]; [done|]. by intros [= <-].
Qed.

(** Rendering changes nothing. *)
Lemma rendered_wp s :
  GetNamespace (op_cr s) = ns → renders_final (op_cr s) →
  wp rendered (λ pt s', s' = s ∧ pt ≠ CycleDone None ∧ cycling (op_cr s) pt) (λ _ s', s' = s) s.
Proof.
  intros Hns Hr. unfold rendered, the_cr. rewrite wp_bind, wp_gets.
  destruct (LoggingServiceSpec_Graylog _) as [g|] eqn:Hg; [|by rewrite wp_fail].
  rewrite wp_bind, wp_of_sum. destruct (graylog_ConfigMap (op_cr s) g) as [e|m] eqn:Hm; [done|].
  rewrite wp_ret. split_and!; [done..|]. split; [done|]. split; [by eapply Hr|].
  by rewrite (graylog_ConfigMap_key _ _ _ Hm), Hns.
Qed.

Lemma renders_password_final secret usr cr :
  has_credentials sec0 secret → graylog_secret_value secret "user" = Some usr → renders_password sec0 cr →
  renders_final (with_credentials_of secret usr final cr).
Proof.
  intros Hcred Husr Hr g m.
  assert (with_credentials_of secret usr final cr = with_credentials_of sec0 usr final cr) as ->.
  { unfold with_credentials_of, with_credentials. by rewrite (has_credentials_value _ "elasticsearchHost" Hcred). }
  apply Hr; [|done]. by rewrite <- (has_credentials_value _ "user" Hcred).
Qed.

(** The server and the objects are as before, the custom resource is still of the namespace. *)
Definition unwritten s s' : Prop :=
  serving (op_world s') ∧ objects (op_world s') = objects (op_world s) ∧ GetNamespace (op_cr s') = ns.

Definition credentials_taken s (changed : option Secret) s' : Prop :=
  unwritten s s' ∧ renders_final (op_cr s') ∧
  ∀ secret, changed = Some secret → cycling (op_cr s') (CredentialsUpdate secret).

(** The last part of [setCredentials], after [secret] was read in [s]. *)
Lemma hash_taken secret usr s s2 :
  objects (op_world s) !! secret_key ns name = Some (OSecret secret) → has_credentials sec0 secret →
  graylog_secret_value secret "user" = Some usr → cycling (op_cr s) CredentialsGet →
  serving (op_world s2) → objects (op_world s2) = objects (op_world s) →
  op_cr s2 = with_credentials_of secret usr final (op_cr s) →
  wp (let '(changed, secret) := EnsureSecretRootPasswordSHA2 secret final in
      mret (if changed : bool then Some secret else None) : M (op W) (option Secret))
    (credentials_taken s) (λ _ s', unwritten s s') s2.
Proof.
  intros Hsec Hcred Husr (Hns & Hr & _) Hs2 Ho2 Hcr2.
  destruct (EnsureSecretRootPasswordSHA2 secret final) as [changed secret'] eqn:Hens.
  apply EnsureSecretRootPasswordSHA2_spec in Hens as (_ & _ & Hmeta & _ & Hdata).
  assert (Hfin : renders_final (op_cr s2)) by (rewrite Hcr2; by apply renders_password_final).
  assert (Hns2 : GetNamespace (op_cr s2) = ns) by by rewrite Hcr2.
  rewrite wp_ret. split; [done|]. split; [done|]. intros sec Hch. destruct changed; [|done]. injection Hch as <-.
  split; [done|]. split_and!; [done| |].
  - intros k Hk. by rewrite Hdata, Hcred.
  - apply objects_keyed in Hsec as [<- _]. unfold object_key. cbn. by rewrite Hmeta.
Qed.

Lemma credentials_read_wp s :
  in_rotation ns name editable_config sec0 (op_world s) → cycling (op_cr s) CredentialsGet →
  wp credentials_read (credentials_taken s) (λ _ s', unwritten s s') s.
Proof.
  intros (Hs & _ & secret & Hsec & Hcred) Hcyc. pose proof Hcyc as (Hns & _ & g & Hg & Hname).
  unfold credentials_read, the_cr. rewrite wp_bind, wp_gets, wp_bind, Hg, wp_deref, wp_bind, Hns, Hname.
  eapply wp_mono; [by apply (get_typed_reaches (secret_key ns name) secret)| |by intros e s' []].
  intros ? s1 (-> & Hcr & Hs1 & Ho).
  destruct (graylog_secret_value secret "user") as [usr|] eqn:Husr; [|rewrite wp_fail; split; [done|by rewrite Hcr]].
  rewrite wp_bind. unfold update_graylog. rewrite wp_modify.
  rewrite (has_credentials_value _ "password" Hcred), Hfinal by done. rewrite wp_bind, wp_modify, wp_bind.
  destruct (graylog_secret_value secret "elasticsearchHost") as [host|] eqn:Hhost.
  - rewrite wp_modify. apply (hash_taken _ usr); try done. unfold update_spec. cbn. rewrite Hcr.
    unfold with_credentials_of, with_credentials. rewrite Hhost. destruct (op_cr s) as [? [] ?]. cbn in *. by subst.
  - destruct (opensearch_host g); [|rewrite wp_fail; split; [done|]; cbn; by rewrite Hcr].
    rewrite wp_ret. apply (hash_taken _ usr); try done. unfold update_spec. cbn. rewrite Hcr.
    unfold with_credentials_of, with_credentials. rewrite Hhost. destruct (op_cr s) as [? [] ?]. cbn in *. subst. by destruct g.
Qed.

(** *** The steps *)

Lemma CredentialsGet_cycled s :
  in_rotation ns name editable_config sec0 (op_world s) → cycling (op_cr s) CredentialsGet →
  wp (cycle_step CredentialsGet) (cycled s) (λ _ _, False) s.
Proof.
  intros Hw Hc. apply wp_or_done. rewrite wp_bind.
  assert (Hread : ∀ pt s', unwritten s s' → cycling (op_cr s') pt → pt ≠ CycleDone None → cycled s pt s').
  { intros pt s' (Hs' & Ho & _) Hc' Hne. by apply cycled_read. }
  eapply wp_mono; [by apply credentials_read_wp|..].
  - intros [secret|] s1 (Hu & Hr & Hch); [rewrite wp_ret; by apply Hread; [|apply Hch|]|].
    eapply wp_mono; [apply rendered_wp; [apply Hu|done]|..].
    + intros pt s' (-> & Hne & Hc'). by apply Hread.
    + intros e s' ->. apply Hread; [done| |done]. split; [apply Hu|done].
  - intros e s1 Hu. apply Hread; [done| |done]. split; [apply Hu|done].
Qed.

Lemma CredentialsUpdate_cycled secret s :
  in_rotation ns name editable_config sec0 (op_world s) → cycling (op_cr s) (CredentialsUpdate secret) →
  wp (cycle_step (CredentialsUpdate secret)) (cycled s) (λ _ _, False) s.
Proof.
  intros Hw (Hns & Hr & Hcred & Hkey). pose proof Hw as (Hs & Hcm & old & Hold & _).
  apply wp_or_done. rewrite wp_bind.
  eapply wp_mono; [apply (UpdateResource_reaches secret (OSecret old)); [done|by rewrite <- Hkey in Hold]|..].
  - intros [] s1 (Hcr & Hs1 & Ho). change (to_object secret) with (OSecret secret) in Ho.
    destruct (stored_secret (op_world s) secret) as (secret' & Hst & Hd). rewrite Hkey, Hst in Ho.
    assert (Hck : objects (op_world s1) !! config_key ns = objects (op_world s) !! config_key ns)
      by by rewrite Ho, lookup_insert_ne by (apply not_eq_sym, config_not_secret).
    assert (Hw1 : in_rotation ns name editable_config sec0 (op_world s1)).
    { split_and!; [done|by rewrite Hck|]. exists secret'. rewrite Ho, lookup_insert_eq. split; [done|].
      unfold has_credentials. by rewrite Hd. }
    assert (Hdone : ∀ pt, cycling (op_cr s1) pt → pt ≠ CycleDone None → cycled s pt s1).
    { intros pt Hc Hne. split; try done; [by left|]. intros k _ Hk. rewrite Ho. by apply lookup_insert_ne. }
    rewrite <- Hcr in Hns, Hr. eapply wp_mono; [by apply rendered_wp|..].
    + intros pt s' (-> & Hne & Hc). by apply Hdone.
    + intros e s' ->. by apply Hdone.
  - intros e s1 (Hcr & Hs1 & Ho & _). apply cycled_read; try done. by rewrite Hcr.
Qed.

(** What [CreateResource] gives the ConfigMap is not its data. *)
Lemma owned_config m m' cr :
  set_controller_reference cr m = inr m' →
  config_for final m ∧ object_key (OConfigMap m) = config_key ns →
  config_for final m' ∧ object_key (OConfigMap m') = config_key ns.
Proof.
  unfold set_controller_reference. destruct (SetControllerReference cr (to_object m)) as [e|refs].
  - by destruct (owner_not_allowed e); [intros [= <-]|].
  - by intros [= <-].
Qed.

(** The ConfigMap is there: [Create] fails. *)
Lemma ConfigCreate_cycled m s :
  in_rotation ns name editable_config sec0 (op_world s) → cycling (op_cr s) (ConfigCreate m) →
  wp (cycle_step (ConfigCreate m)) (cycled s) (λ _ _, False) s.
Proof.
  intros Hw (Hns & Hm). pose proof Hw as (Hs & (old & Hold & _) & _). apply wp_or_done.
  assert (Hfail : ∀ e, cycled s (CycleDone (Some e)) s) by (intros e; by apply cycled_read).
  unfold CreateResource, the_cr. rewrite wp_bind, wp_bind, wp_gets.
  destruct (set_controller_reference (op_cr s) m) as [e|m'] eqn:Href.
  { rewrite wp_ret. destruct (IsAlreadyExists e); [|by rewrite wp_fail].
    rewrite wp_ret. by apply cycled_read. }
  apply owned_config in Href; [|done]. rewrite wp_bind, wp_attempt, wp_lift.
  eapply wp_mono; [eapply wp_conj; [by apply Create_reaches|apply client_Create_spec]|..].
  - intros [] w' (_ & Hnone & _). change (to_object m') with (OConfigMap m') in Hnone.
    rewrite (proj2 Href), Hold in Hnone. done.
  - intros e w' (Hs' & Ho & _). rewrite wp_ret. destruct (IsAlreadyExists e).
    + rewrite wp_ret. by apply cycled_read.
    + rewrite wp_fail. by apply cycled_read.
Qed.

Lemma ConfigUpdate_cycled m s :
  in_rotation ns name editable_config sec0 (op_world s) → cycling (op_cr s) (ConfigUpdate m) →
  wp (cycle_step (ConfigUpdate m)) (cycled s) (λ _ _, False) s.
Proof.
  intros Hw (Hns & [Hed Hpwd] & Hkey). pose proof Hw as (Hs & (old & Hold & _) & Hsec).
  apply wp_or_done. rewrite wp_bind.
  eapply wp_mono; [apply (UpdateResource_reaches m (OConfigMap old)); [done|by rewrite <- Hkey in Hold]|..].
  - intros [] s1 (Hcr & Hs1 & Ho). rewrite wp_ret. change (to_object m) with (OConfigMap m) in Ho.
    destruct (stored_configmap (op_world s) m) as (m' & Hst & Hd & _). rewrite Hkey, Hst in Ho.
    assert (Hk : objects (op_world s1) !! config_key ns = Some (OConfigMap m')) by by rewrite Ho, lookup_insert_eq.
    assert (Hholds : config_holds ns final (objects (op_world s1))).
    { exists m'. split; [done|]. unfold password_written. by rewrite (conf_lines_data m). }
    split; [|by rewrite Hcr|by right|done|].
    + split_and!; [done| |by rewrite Ho, lookup_insert_ne by apply config_not_secret].
      exists m'. split; [done|]. unfold editable_config. by rewrite (conf_lines_data m).
    + intros k Hck _. rewrite Ho. by apply lookup_insert_ne.
  - intros e s1 (Hcr & Hs1 & Ho & _). apply cycled_read; try done. by rewrite Hcr.
Qed.

(** No step of a reconcile fails or panics. *)
Lemma cycle_step_cycled pt s :
  done pt = false → in_rotation ns name editable_config sec0 (op_world s) → cycling (op_cr s) pt →
  wp (cycle_step pt) (cycled s) (λ _ _, False) s.
Proof.
  intros Hd. destruct pt; [..|done]; [apply CredentialsGet_cycled|apply CredentialsUpdate_cycled|
    apply ConfigCreate_cycled|apply ConfigUpdate_cycled].
Qed.

(** ** All of them

    [due] says that a watcher did not have the password at the start. *)

Variable due : Prop.

(** One of the watchers guarantees that the password gets there, or it is there. *)
Definition assured (sys : overlap W) : Prop :=
  config_guarded ns final (overlap_system sys) ∨ config_holds ns final (objects (overlap_world sys)).

(** The invariant of the interleavings that start from the objects [m0]. *)
Record overlaps (m0 : gmap ObjectKey Object) (sys : overlap W) : Prop := mkOverlaps {
  overlaps_watching : watching ns name final editable_config sec0 (overlap_system sys);
  overlaps_cycling i c : overlap_cycles sys !! i = Some c → cycling (cycle_cr c) (cycle_at c);
  overlaps_assured : due ∨ applied sys → assured sys;
  overlaps_elsewhere k : k ≠ config_key ns → k ≠ secret_key ns name →
    objects (overlap_world sys) !! k = m0 !! k;
}.

Lemma watcher_turn m0 i sys sys' :
  overlaps m0 sys → take_turn (WatcherTurn i) sys = Some sys' → overlaps m0 sys' ∧ turns_left sys' < turns_left sys.
Proof.
  intros [Hwatch Hcyc Hass Helse] Ht. cbn [take_turn] in Ht.
  destruct (step_watcher i (overlap_system sys)) as [sys1|] eqn:Hi; [|done]. injection Ht as <-.
  destruct (step_watcher_watched ns name final _ sec0 editable_config_steady _ _ _ Hwatch Hi)
    as [Hwatch' Hg _ Hwr Helse' Hlt].
  split; [|unfold turns_left; cbn; lia]. split; [done|done| |].
  - intros Hdue. destruct (Hass Hdue) as [Hguard|Hholds]; [left; by apply Hg|].
    destruct Hwr as [Heq|]; [right|by left]. unfold config_holds, overlap_world in *.
    cbn [overlap_system]. by rewrite Heq.
  - intros k Hk1 Hk2. rewrite <- Helse by done. by apply Helse'.
Qed.

(** A reconcile that is not done can go on. *)
Lemma step_cycle_goes m0 i c sys :
  overlaps m0 sys → overlap_cycles sys !! i = Some c → done (cycle_at c) = false →
  ∃ s pt, cycle_step (cycle_at c) (mkOp (overlap_world sys) (cycle_cr c) []) = (s, Ret pt) ∧
    step_cycle i sys = Some (mkOverlap (mkSystem (op_world s) (system_watchers (overlap_system sys)))
      (<[i := mkCycle (op_cr s) pt]> (overlap_cycles sys))) ∧
    cycled (mkOp (overlap_world sys) (cycle_cr c) []) pt s.
Proof.
  intros Hov Hi Hd.
  pose proof (cycle_step_cycled (cycle_at c) (mkOp (overlap_world sys) (cycle_cr c) []) Hd
    (proj1 (overlaps_watching _ _ Hov)) (overlaps_cycling _ _ Hov _ _ Hi)) as Hwp.
  unfold wp in Hwp. unfold step_cycle. rewrite Hi, Hd.
  destruct (cycle_step _ _) as [s [pt|e|]]; [|done..]. by exists s, pt.
Qed.

Lemma cycle_turn m0 i sys sys' :
  overlaps m0 sys → take_turn (CycleTurn i) sys = Some sys' → overlaps m0 sys' ∧ turns_left sys' < turns_left sys.
Proof.
  intros Hov Ht. cbn [take_turn] in Ht. assert (Ht' := Ht). unfold step_cycle in Ht'.
  destruct (overlap_cycles sys !! i) as [c|] eqn:Hi; [|done].
  destruct (done (cycle_at c)) eqn:Hd; [done|]. clear Ht'.
  destruct (step_cycle_goes m0 i c sys) as (s & pt & Hrun & Hs & [Hw Hc Hwr Happ Helse]); [done..|].
  rewrite Hs in Ht. injection Ht as <-. cbn [op_world] in *. destruct Hov as [[_ Hws] Hcyc Hass Helse0].
  pose proof (lookup_lt_Some _ _ _ Hi) as Hlt. split.
  - split; [by split|..]; cbn [overlap_system overlap_cycles].
    + intros j d Hj. apply list_lookup_insert_Some in Hj as [(<- & <- & _)|[_ Hj]]; [done|by eapply Hcyc].
    + intros Hdue. unfold assured, overlap_world. cbn [overlap_system system_world].
      destruct Hwr as [Heq|]; [|by right].
      assert (pt = CycleDone None ∨ (due ∨ applied sys)) as [->|Hdue0]; [|right; by apply Happ|].
      { destruct Hdue as [|(j & d & Hj & Hat)]; [by right; left|].
        apply list_lookup_insert_Some in Hj as [(<- & <- & _)|[_ Hj]]; [by left|].
        right. right. by exists j, d. }
      destruct (Hass Hdue0) as [(j & w & Hj & Hg)|Hholds].
      * left. exists j, w. split; [done|]. by eapply guards_config_frame.
      * right. unfold config_holds. by rewrite Heq.
    + intros k Hk1 Hk2. rewrite <- Helse0 by done. by apply Helse.
  - pose proof (cycle_step_progress (cycle_at c) Hd _ _ _ Hrun) as Hlt'. cbn beta in Hlt'.
    unfold turns_left. cbn [overlap_system overlap_cycles].
    pose proof (sum_list_with_insert (cycle_rank ∘ cycle_at) _ _ _ (mkCycle (op_cr s) pt) Hi) as Hsum.
    unfold compose in *. cbn [cycle_at] in *. unfold total_steps. cbn. lia.
Qed.

Lemma nsteps_overlaps m0 n sys sys' :
  overlaps m0 sys → nsteps overlapping n sys sys' → overlaps m0 sys' ∧ n + turns_left sys' ≤ turns_left sys.
Proof.
  intros Hov Hn. revert Hov. induction Hn as [sys|n sys sys1 sys' Hi Hn IH]; intros Hov; [by split|].
  destruct Hi as [t sys sys1 Ht].
  assert (overlaps m0 sys1 ∧ turns_left sys1 < turns_left sys) as [Hov1 Hlt]
    by (destruct t; [by eapply watcher_turn|by eapply cycle_turn]).
  destruct (IH Hov1) as [? ?]. split; [done|]. lia.
Qed.

(** Nobody is stuck. *)
Lemma overlaps_goes m0 sys :
  overlaps m0 sys →
  (∀ i w, system_watchers (overlap_system sys) !! i = Some w → ended (watcher_point w) = false →
     is_Some (take_turn (WatcherTurn i) sys)) ∧
  (∀ i c, overlap_cycles sys !! i = Some c → done (cycle_at c) = false → is_Some (take_turn (CycleTurn i) sys)).
Proof.
  intros Hov. split.
  - intros i w Hi He.
    destruct (step_watcher_goes ns name final _ sec0 editable_config_steady (overlap_system sys) i w)
      as (s & pt & events & _ & Hs & _); [apply Hov|done..|]. cbn. by rewrite Hs.
  - intros i c Hi Hd. destruct (step_cycle_goes m0 i c sys) as (s & pt & _ & Hs & _); [done..|]. cbn. by rewrite Hs.
Qed.

Lemma overlaps_at_rest m0 sys :
  overlaps m0 sys → at_rest sys → due ∨ applied sys → config_holds ns final (objects (overlap_world sys)).
Proof.
  intros Hov [Hend _] Hdue. destruct (overlaps_assured _ _ Hov Hdue) as [Hg|]; [|done].
  by apply (config_guarded_ended ns name final editable_config sec0); [apply Hov| |].
Qed.
End reconciling.

(** ** Properties *)

(** The steps are the code: a reconcile that nobody disturbs computes what
    [handleConfigMap] computes, in at most four steps. *)
Lemma cycle_steps_refine {W} `{KubeClient W, System W, Encodings, Externals} :
  cycle_alone (W:=W) 4 CredentialsGet ≡ (r ← attempt graylog_handleConfigMap; mret (Some (result_of r))).
Proof. exact (cycle_alone_rest 4 CredentialsGet (le_n _)). Qed.

(** At the start the Secret has its last password, every watcher waits for its next event,
    its events leave the user as it is and end with that password, and every reconcile is
    about to read the Secret. *)
Record overlap_begins {W} `{ReachableServer W, !System W, Encodings, Externals} (ns name final : string) (sec0 : Secret)
    (sys : overlap W) : Prop := mkOverlapBegins {
  overlap_serving : serving (overlap_world sys);
  overlap_config : ∃ cm, objects (overlap_world sys) !! config_key ns = Some (OConfigMap cm) ∧ editable (conf_lines cm);
  overlap_secret : objects (overlap_world sys) !! mkObjectKey KSecret ns name = Some (OSecret sec0);
  overlap_password : graylog_secret_value sec0 "password" = Some final;
  overlap_watchers i w : system_watchers (overlap_system sys) !! i = Some w →
    watcher_point w = Receive ∧
    ∃ g, LoggingServiceSpec_Graylog (LoggingService_Spec (watcher_cr w)) = Some g ∧
      GetNamespace (watcher_cr w) = ns ∧ Graylog_GraylogSecretName g = name ∧
      Forall (keeps_user name (Graylog_User g)) (watcher_events w) ∧
      last_password (Graylog_Password g) (watcher_events w) = final;
  overlap_reading i c : overlap_cycles sys !! i = Some c →
    cycle_at c = CredentialsGet ∧ GetNamespace (cycle_cr c) = ns ∧ renders_password sec0 (cycle_cr c) ∧
    ∃ g, LoggingServiceSpec_Graylog (LoggingService_Spec (cycle_cr c)) = Some g ∧ Graylog_GraylogSecretName g = name;
}.

(** A watcher did not have the password. *)
Definition rotation_due {W} (final : string) (sys : overlap W) : Prop :=
  ∃ i w, system_watchers (overlap_system sys) !! i = Some w ∧ seen (watcher_cr w) ≠ final.

Lemma overlap_begins_overlaps {W} `{ReachableServer W, !System W, Encodings, Externals} ns name final sec0 (sys : overlap W) :
  overlap_begins ns name final sec0 sys →
  overlaps ns name final sec0 (rotation_due final sys) (objects (overlap_world sys)) sys.
Proof.
  intros [Hs Hcm Hsec Hpwd Hws Hcs]. split; [split|..|done].
  - split; [done|]. split; [done|by exists sec0].
  - intros i w Hi. destruct (Hws _ _ Hi) as (Hp & g & Hg & Hns & Hn & Hev & Hlast).
    exists g. rewrite Hp. unfold seen. rewrite Hg. by split_and!.
  - intros i c Hi. destruct (Hcs _ _ Hi) as (Hp & Hns & Hr & Hg). rewrite Hp. by split.
  - intros [(i & w & Hi & Hne)|(i & c & Hi & Hp)].
    + left. exists i, w. split; [done|]. destruct (Hws _ _ Hi) as [-> _]. by right.
    + destruct (Hcs _ _ Hi) as [Hp' _]. by rewrite Hp in Hp'.
Qed.

Lemma config_for_lines pwd cm :
  config_for pwd cm →
  Exists (λ line, HasPrefix line GraylogPasswordField = true) (conf_lines cm) ∧
  Forall (λ line, HasPrefix line GraylogPasswordField = true →
    line = GraylogPasswordField +:+ " = " +:+ sha256_hex pwd) (conf_lines cm).
Proof.
  intros [[_ Hin%existsb_exists] Hw]. split.
  - destruct Hin as (line & Hin & Hp). apply Exists_exists. exists line. by split; [apply list_elem_of_In|].
  - unfold password_written, password_lines in Hw. apply Forall_lookup. intros i line Hi Hp.
    apply (f_equal (.!! i)) in Hw. rewrite list_lookup_fmap, Hi in Hw. injection Hw as Hw.
    unfold set_line in Hw. by rewrite Hp in Hw.
Qed.

(** C3: reconciles and watchers do not undo each other.  Any number of reconciles, each about to
    read the Secret in [handleConfigMap], and any number of watchers of earlier ones, on a
    Secret that has its last password: however their calls interleave, and whichever of their
    updates conflict, none panics, each that is not at its end can go on, and all are at their
    end after a bounded number of steps.  If a watcher did not have the password before, or one
    of the reconciles has applied the configuration, then the configuration has a line for
    root_password_sha2 and every such line has the hash of the last password.  The data of the
    Secret but for the hash, and every other object, are as before.  Assumed is that the server
    answers, that the configuration of the start can be edited, that no event changes the user,
    and that what is rendered for a custom resource can be edited and has the hash of its
    password. *)
Theorem overlap_converges {W} `{ReachableServer W, !System W, Encodings, Externals} ns name final sec0 n
    (sys sys' : overlap W) :
  overlap_begins ns name final sec0 sys → nsteps overlapping n sys sys' →
  n + turns_left sys' ≤ turns_left sys ∧
  (∀ i w, system_watchers (overlap_system sys') !! i = Some w → ended (watcher_point w) = false →
     is_Some (take_turn (WatcherTurn i) sys')) ∧
  (∀ i c, overlap_cycles sys' !! i = Some c → done (cycle_at c) = false → is_Some (take_turn (CycleTurn i) sys')) ∧
  (∃ sec, objects (overlap_world sys') !! mkObjectKey KSecret ns name = Some (OSecret sec) ∧
     ∀ k, k ≠ GraylogSecretKeyRootPasswordSHA2 → contents (Secret_Data sec) !! k = contents (Secret_Data sec0) !! k) ∧
  (∀ k, k ≠ config_key ns → k ≠ mkObjectKey KSecret ns name →
     objects (overlap_world sys') !! k = objects (overlap_world sys) !! k) ∧
  (at_rest sys' → rotation_due final sys ∨ applied sys' →
   ∃ cm, objects (overlap_world sys') !! config_key ns = Some (OConfigMap cm) ∧
     Exists (λ line, HasPrefix line GraylogPasswordField = true) (conf_lines cm) ∧
     Forall (λ line, HasPrefix line GraylogPasswordField = true →
       line = GraylogPasswordField +:+ " = " +:+ sha256_hex final) (conf_lines cm)).
Proof.
  intros Hb Hn. pose proof (overlap_password _ _ _ _ _ Hb) as Hpwd.
  destruct (nsteps_overlaps ns name final sec0 Hpwd _ _ _ _ _ (overlap_begins_overlaps _ _ _ _ _ Hb) Hn) as [Hov Hle].
  destruct (overlaps_goes _ _ _ _ Hpwd _ _ _ Hov) as [Hgo1 Hgo2].
  destruct (overlaps_watching _ _ _ _ _ _ _ Hov) as [(_ & (cm & Hcm & Hed) & Hsec) _].
  split_and!; try done; [by apply (overlaps_elsewhere _ _ _ _ _ _ _ Hov)|].
  intros Hrest Hdue. destruct (overlaps_at_rest _ _ _ _ _ _ _ Hov Hrest Hdue) as (cm' & Hcm' & Hw).
  exists cm'. split; [done|]. apply config_for_lines. split; [|done].
  unfold overlap_world in Hcm'. rewrite Hcm in Hcm'. by injection Hcm' as <-.
Qed.

(** ** A witness and a counterexample *)

(** The files are templates without actions: the only one is graylog.conf, with the hash of
    [pwd]. *)
Definition conf_externals (pwd : string) : Externals := {|
  ParseQuantity s := inr (mkQuantity s);
  Quantity_String := Quantity_text;
  Template := string;
  template_Parse functions path content := inr content;
  template_Execute Params template parameters := inr template;
  GetTimeNow := "1970-01-01T00:00:00Z";
  fluentbit_configs := example_fs;
  fluentd_configs := example_fs;
  aggregatorConfigs := example_fs;
  forwarderConfigs := example_fs;
  graylog_configs := mkFS (λ dir, inr [(GraylogConfigFileName, false)])
    (λ path, Some ("root_username = admin" +:+ newline +:+ GraylogPasswordField +:+ " = " +:+ sha256_hex pwd +:+ newline));
|}.

Definition turns_end `{Encodings, Externals} (turns : list turn) (sys : overlap Mem) : overlap Mem :=
  default sys (take_turns turns sys).

Lemma fmap_all_true {A} (f : A → bool) (xs : list A) n :
  f <$> xs = replicate n true → ∀ i x, xs !! i = Some x → f x = true.
Proof.
  intros Hf i x Hi. apply (f_equal (.!! i)) in Hf. rewrite list_lookup_fmap, Hi in Hf.
  symmetry in Hf. by apply lookup_replicate in Hf as [-> _].
Qed.

Section example.
#[local] Existing Instances example_encodings.
#[local] Instance conf_abc : Externals := conf_externals "abc".

Definition example_cycle : cycle := mkCycle example_graylog_cr CredentialsGet.

(** A watcher that had the password "old", and two reconciles. *)
Definition example_overlap : overlap Mem :=
  mkOverlap (mkSystem rotation_world [example_watcher "admin" "old" [credentials_event "admin" "abc"]])
    [example_cycle; example_cycle].

(** Both reconciles read the Secret, and the second one's update of it conflicts; the watcher
    has read the configuration when the first one writes it. *)
Definition example_turns : list turn :=
  [CycleTurn 0; CycleTurn 1; CycleTurn 0; CycleTurn 1; WatcherTurn 0; WatcherTurn 0; WatcherTurn 0;
   CycleTurn 0; CycleTurn 0; WatcherTurn 0; WatcherTurn 0].

Definition conf_abc_data : smap :=
  {[ GraylogConfigFileName :=
    "root_username = admin" +:+ newline +:+ GraylogPasswordField +:+ " = " +:+ sha256_hex "abc" +:+ newline ]}.

Lemma conf_data {Params} (params : Params) :
  DataFromDirectory (ParseTemplate _) graylog_configs params GraylogConfigMapDirectory = inr conf_abc_data.
Proof. by vm_compute. Qed.

Lemma example_overlap_begins : overlap_begins "ns" "graylog-secret" "abc" stored_credentials example_overlap.
Proof.
  assert (Hed : editable (conf_lines stored_conf))
    by apply (begins_editable _ _ _ _ _ _ example_rotation_begins).
  split; [done| |by vm_compute|done|..].
  - exists stored_conf. split; [by vm_compute|done].
  - intros [|i] w Hi; [|done]. injection Hi as <-. split; [done|].
    exists (example_graylog <| Graylog_User := "admin" |> <| Graylog_Password := "old" |>).
    split_and!; [done..| |done]. repeat constructor; eexists; split_and!; try done; intros _;
      (split; [by eexists|by intros usr' [= <-]]).
  - intros i c Hi. assert (c = example_cycle) as -> by (destruct i as [|[|i]]; by inversion Hi).
    split_and!; [done..| |by exists example_graylog].
    intros usr pwd g m Husr Hpwd Hg Hm. injection Hpwd as <-.
    assert (Hl : conf_lines m = ["root_username = admin"; GraylogPasswordField +:+ " = " +:+ sha256_hex "abc"]).
    { unfold graylog_ConfigMap in Hm. rewrite conf_data in Hm. injection Hm as <-.
      rewrite (conf_lines_data (mkConfigMap zero (Some conf_abc_data) None)) by done. by vm_compute. }
    unfold config_for, password_written. rewrite Hl. split; [|by vm_compute].
    split; [|by vm_compute]. rewrite !Forall_cons. unfold short. split_and!; [apply Nat.ltb_lt; by vm_compute..|done].
Qed.

Lemma example_due : rotation_due "abc" example_overlap.
Proof.
  exists 0, (example_watcher "admin" "old" [credentials_event "admin" "abc"]). split; [done|]. by vm_compute.
Qed.

Lemma overlap_converges_witness :
  let sys' := turns_end example_turns example_overlap in
  at_rest sys' ∧
  ∃ cm, objects (overlap_world sys') !! config_key "ns" = Some (OConfigMap cm) ∧
    Forall (λ line, HasPrefix line GraylogPasswordField = true →
      line = GraylogPasswordField +:+ " = " +:+ sha256_hex "abc") (conf_lines cm).
Proof.
  intros sys'.
  assert (Hout : (ended ∘ watcher_point <$> system_watchers (overlap_system sys'), done ∘ cycle_at <$> overlap_cycles sys')
    = ([true], [true; true])) by by vm_compute.
  assert (Hrun : take_turns example_turns example_overlap = Some sys').
  { unfold sys', turns_end.
    assert (Hs : match take_turns example_turns example_overlap with Some _ => true | None => false end = true)
      by by vm_compute.
    destruct (take_turns example_turns example_overlap); [done|discriminate Hs]. }
  clearbody sys'. injection Hout as Hw Hc.
  assert (Hrest : at_rest sys').
  { split; [exact (fmap_all_true _ _ 1 Hw)|exact (fmap_all_true _ _ 2 Hc)]. }
  split; [exact Hrest|].
  pose proof (overlap_converges "ns" "graylog-secret" "abc" stored_credentials (length example_turns) example_overlap sys'
    example_overlap_begins (take_turns_steps _ _ _ Hrun)) as (_ & _ & _ & _ & _ & Hfinal).
  destruct (Hfinal Hrest (or_introl example_due)) as (cm & Hcm & _ & Hl).
  exists cm. split; [exact Hcm|exact Hl].
Defined.
End example.

(** A reconcile that has read the Secret before the password was changed in it. *)
Section late.
#[local] Existing Instances example_encodings.
#[local] Instance conf_old : Externals := conf_externals "old".

Definition old_credentials : Secret :=
  stored_credentials <| Secret_Data := Some {[ "user" := "admin"; "password" := "old"; "elasticsearchHost" := "http://os:9200" ]} |>.

Definition late_overlap : overlap Mem :=
  mkOverlap (mkSystem (mem_store (OSecret old_credentials) rotation_world)
      [example_watcher "admin" "old" [credentials_event "admin" "abc"]])
    [mkCycle example_graylog_cr CredentialsGet].

(** The user changes the password in the Secret. *)
Definition change_password (sys : overlap Mem) : overlap Mem :=
  mkOverlap (mkSystem (client_Update (OSecret example_graylog_secret) (overlap_world sys)).1
      (system_watchers (overlap_system sys))) (overlap_cycles sys).

(** The reconcile is about to create the ConfigMap. *)
Definition before_change : list turn := [CycleTurn 0; CycleTurn 0].

(** The watcher does all its work before the reconcile goes on. *)
Definition after_change : list turn := replicate 7 (WatcherTurn 0) ++ [CycleTurn 0; CycleTurn 0].

(** The hash of the old password comes back, and no event is left that could change it again:
    the watcher has seen the new password, and the reconcile has succeeded. *)
Lemma late_reconcile_undoes :
  let sys1 := turns_end before_change late_overlap in
  let sys2 := turns_end after_change (change_password sys1) in
  (ended ∘ watcher_point <$> system_watchers (overlap_system sys2), cycle_at <$> overlap_cycles sys2,
   seen ∘ watcher_cr <$> system_watchers (overlap_system sys2),
   config_lines (objects (overlap_world sys2)), secret_hash (objects (overlap_world sys2))) =
  ([true], [CycleDone None], ["abc"],
   ["root_username = admin"; GraylogPasswordField +:+ " = " +:+ sha256_hex "old"], sha256_hex "abc").
Proof. by vm_compute. Qed.
End late.
