(* ===== verification/Controller.v ===== *)
(** * The controller: internal/controllers/loggingservice_controller.go

    A cycle reconciles the components one after the other, whatever the others return,
    and then waits for those that have to start. *)

From S2P Require Import Prelude GoStrings KubeTypes Api Client Operator Status Component.
From S2P Require Import Credentials.
From S2P Require Import PodManager Waiter Defaults ComponentRun FluentbitController.
From S2P Require Import FluentdController EventsReaderController HAController GraylogController.
From S2P Require Import GraylogRun.
From S2P Require Import Net System GraylogRequests.

Definition InitialTimeoutOnFailedReconcile : Z := Second.
Definition DefaultContainerRuntimeType : string := "containerd".

(** The fields of the reconciler that a cycle changes. *)
Record LoggingServiceReconciler : Type := mkLoggingServiceReconciler {
  TimeoutOnFailedReconcile : Z;
  Reconciler_DynamicParameters : DynamicParameters;
}.

(** [ctrl.Result]. *)
Record Result : Type := mkResult { RequeueAfter : Z }.

(** ** The container runtime *)

(** [strings.Split(version, "://")[0]] of a node that reports a version. *)
Definition runtime_of (node : Node) : option string :=
  let containerRuntimeVersion := Node_ContainerRuntimeVersion node in
  if bool_decide (0 < len containerRuntimeVersion)
  then Some (default "" (Split containerRuntimeVersion "://" !! 0)) else None.

(** [nodeContainerRuntimes]. *)
Definition node_runtimes (nodes : list Node) : gmap string Z :=
  foldl (λ counts node,
    match runtime_of node with
    | Some r => <[r := (default 0 (counts !! r) + 1)%Z]> counts
    | None => counts
    end) ∅ nodes.

Section Controller.
Context {W : Type} `{KubeClient W, System W, Encodings, Externals}.

(** [cr.Spec.ContainerRuntimeType = runtime]. *)
Definition set_cr_runtime (runtime : string) : M (op W) unit := modify (update_spec (with_runtime runtime)).

(** The parameters after [updateDynamicParameters]. *)
Definition updateDynamicParameters (dp : DynamicParameters) : M (op W) DynamicParameters :=
  cr ← the_cr;
  let specified := LoggingServiceSpec_ContainerRuntimeType (LoggingService_Spec cr) in
  if nonempty specified then mret (mkDynamicParameters specified)
  else if nonempty (DynamicParameters_ContainerRuntimeType dp) then mret dp
  else
    r ← attempt (lift client_ListNodes);
    match r with
    | inl _ | inr [] => mret (mkDynamicParameters DefaultContainerRuntimeType)
    | inr nodes =>
        for_each nodes (λ node,
          match runtime_of node with Some runtime => set_cr_runtime runtime | None => mret tt end);;
        match map_to_list (node_runtimes nodes) with
        | [] => mret dp
        | [(crv, _)] => set_cr_runtime crv;; mret (mkDynamicParameters crv)
        | _ => mret (mkDynamicParameters DefaultContainerRuntimeType)
        end
    end.

(** ** A cycle *)

(** [if err := <component>.Run(...); err != nil { ... }]: whether it succeeded. *)
Definition run_component (statusName : string) (run : M (op W) unit) : M (op W) bool :=
  r ← attempt run;
  match r with
  | inl err => UpdateStatus statusName Failed false ("Reason: " +:+ err_msg err);; mret false
  | inr _ => mret true
  end.

Definition run_pending : M (op W) bool :=
  r ← attempt ComponentsPending_Run;
  match r with
  | inl err =>
      UpdateStatus ComponentPendingStatus Failed false ("Reason: " +:+ err_msg err);; mret false
  | inr status => mret status
  end.

(** The components in their order.  An error of the high-availability mode is reported
    as the status of FluentBit. *)
Definition run_components (dp : DynamicParameters) : M (op W) bool :=
  let cfg := defaults_Get in
  modify (λ s, s <| op_pending := [] |>);;
  graylog ← run_component GraylogStatus (graylog_Run cfg);
  fluentd ← run_component FluentdStatus (fluentd_Run dp cfg);
  fluentbit ← run_component FluentbitStatus (fluentbit_Run dp cfg);
  ha ← run_component FluentbitStatus (ha_Run dp cfg);
  eventsReader ← run_component EventsReaderStatus (eventsreader_Run cfg);
  mret (graylog && fluentd && fluentbit && ha && eventsReader).

(** Whether the cycle succeeded, and the parameters after it. *)
Definition ReconcileLoggingServiceCluster (dp : DynamicParameters) : M (op W) (bool * DynamicParameters) :=
  failed ← IsStatusFailed LoggingServiceStatusReason;
  when (negb failed)
    (UpdateStatus LoggingServiceStatusReason InProgress false "Logging Service reconcile cycle in progress");;
  RemoveTemporaryStatuses;;
  dp ← updateDynamicParameters dp;
  deployed ← run_components dp;
  started ← run_pending;
  mret (deployed && started, dp).

(** What [Reconcile] does with the custom resource it has read: the result, and the
    reconciler after it.  The timeout is doubled in 64 bits. *)
Definition reconcile_instance (r : LoggingServiceReconciler) : M (op W) (Result * LoggingServiceReconciler) :=
  '(ok, dp) ← ReconcileLoggingServiceCluster (Reconciler_DynamicParameters r);
  if negb ok then
    UpdateStatus LoggingServiceStatusReason Failed false "Reconcile of Logging service failed";;
    mret (mkResult (TimeoutOnFailedReconcile r),
          mkLoggingServiceReconciler (int64 (TimeoutOnFailedReconcile r * 2)) dp)
  else
    UpdateStatus LoggingServiceStatusReason Success true "Reconcile of Logging service succeeded";;
    mret (mkResult 0, mkLoggingServiceReconciler InitialTimeoutOnFailedReconcile dp).

(** A computation on a custom resource that was read from the cluster. *)
Definition with_instance {A} (cr : LoggingService) (m : M (op W) A) : M W A := λ w,
  let (s', r) := m (mkOp w cr []) in (op_world s', r).

Definition Reconcile (r : LoggingServiceReconciler) (namespace name : string) :
    M W (Result * LoggingServiceReconciler) :=
  cr ← attempt (client_GetLoggingService namespace name);
  match cr with
  | inl err => if IsNotFound err then mret (mkResult 0, r) else fail err
  | inr cr => with_instance cr (reconcile_instance r)
  end.
End Controller.

(** ** The watch on Secrets *)

Definition selector_names (selector : option SecretKeySelector) (secretName : string) : bool :=
  match selector with
  | Some s => String.eqb (SecretKeySelector_Name s) secretName
  | None => false
  end.

Definition authReferencesSecret (auth : option Auth) (secretName : string) : bool :=
  match auth with
  | None => false
  | Some auth =>
      selector_names (Auth_Token auth) secretName || selector_names (Auth_User auth) secretName
      || selector_names (Auth_Password auth) secretName
  end.

Definition outputReferencesSecret (output : option OutputFluentbit) (secretName : string) : bool :=
  match output with
  | None => false
  | Some output =>
      match OutputFluentbit_Loki output with
      | Some o => LokiFluentbit_Enabled o && authReferencesSecret (LokiFluentbit_Auth o) secretName
      | None => false
      end ||
      match OutputFluentbit_Http output with
      | Some o => HttpFluentbit_Enabled o && authReferencesSecret (HttpFluentbit_Auth o) secretName
      | None => false
      end ||
      match OutputFluentbit_Otel output with
      | Some o => OtelFluentbit_Enabled o && authReferencesSecret (OtelFluentbit_Auth o) secretName
      | None => false
      end
  end.

Definition fluentbitReferencesSecret (cr : LoggingService) (secretName : string) : bool :=
  match LoggingServiceSpec_Fluentbit (LoggingService_Spec cr) with
  | None => false
  | Some fluentbit =>
      if outputReferencesSecret (Fluentbit_Output fluentbit) secretName then true
      else match Fluentbit_Aggregator fluentbit with
           | Some aggregator => outputReferencesSecret (FluentbitAggregator_Output aggregator) secretName
           | None => false
           end
  end.

Definition fluentdReferencesSecret (cr : LoggingService) (secretName : string) : bool :=
  match LoggingServiceSpec_Fluentd (LoggingService_Spec cr) ≫= Fluentd_Output with
  | None => false
  | Some output =>
      match OutputFluentd_Loki output with
      | Some o => LokiFluentd_Enabled o && authReferencesSecret (LokiFluentd_Auth o) secretName
      | None => false
      end ||
      match OutputFluentd_Http output with
      | Some o => HttpFluentd_Enabled o && authReferencesSecret (HttpFluentd_Auth o) secretName
      | None => false
      end
  end.

(** The namespace and the name of each custom resource to reconcile. *)
Definition mapSecretToLoggingServices {W} `{KubeClient W} (namespace name : string) :
    M W (list (string * string)) :=
  r ← attempt (client_ListLoggingServices namespace);
  match r with
  | inl _ => mret []
  | inr items =>
      mret ((λ cr, (GetNamespace cr, GetName cr)) <$>
        filter (λ cr, fluentbitReferencesSecret cr name || fluentdReferencesSecret cr name) items)
  end.

(** [credentialSecretChangedPredicate]. *)
Definition is_secret (o : Object) : bool := match o with OSecret _ => true | _ => false end.

Definition secret_created (o : Object) : bool := is_secret o.

Definition secret_deleted (o : Object) : bool := is_secret o.

Definition secret_updated (old new : Object) : bool :=
  match old, new with
  | OSecret oldSecret, OSecret newSecret => negb (bool_decide (Secret_Data oldSecret = Secret_Data newSecret))
  | _, _ => false
  end.

(** [ignoreDeletionPredicate]: the generations of the two objects, and whether the
    final state of the deleted object is unknown. *)
Definition generation_updated (old new : Z) : bool := negb (Z.eqb old new).

Definition deletion_known (deleteStateUnknown : bool) : bool := negb deleteStateUnknown.

(** ** The runtime of the nodes *)

(** The runtimes that the nodes report. *)
Definition runtimes (nodes : list Node) : list string := omap runtime_of nodes.

Lemma node_runtimes_dom nodes k : is_Some (node_runtimes nodes !! k) ↔ k ∈ runtimes nodes.
Proof.
  unfold node_runtimes, runtimes.
  assert (Hfold : ∀ m : gmap string Z, is_Some (foldl (λ counts node,
    match runtime_of node with
    | Some r => <[r := (default 0 (counts !! r) + 1)%Z]> counts
    | None => counts
    end) m nodes !! k) ↔ is_Some (m !! k) ∨ k ∈ omap runtime_of nodes).
  { induction nodes as [|node nodes IH]; intros m; cbn [foldl omap list_omap].
    - rewrite elem_of_nil. tauto.
    - rewrite IH. destruct (runtime_of node) as [r|]; [|done].
      rewrite elem_of_cons, lookup_insert_is_Some'. naive_solver. }
  rewrite Hfold, lookup_empty. split; [|by right]. by intros [[? ?]|?].
Qed.

(** One runtime that all nodes share, or the default; nothing when no node reports one. *)
Definition detected_runtime (nodes : list Node) : string :=
  match nodes, runtimes nodes with
  | [], _ => DefaultContainerRuntimeType
  | _, [] => ""
  | _, r :: rs => if bool_decide (Forall (λ r', r' = r) rs) then r else DefaultContainerRuntimeType
  end.

(** What the code finds in the map. *)
Lemma detected_runtime_map nodes :
  nodes ≠ [] →
  match map_to_list (node_runtimes nodes) with
  | [] => detected_runtime nodes = ""
  | [(crv, _)] => detected_runtime nodes = crv
  | _ => detected_runtime nodes = DefaultContainerRuntimeType
  end.
Proof.
  intros Hne. assert (Hin : ∀ k, k ∈ runtimes nodes ↔ k ∈ (map_to_list (node_runtimes nodes)).*1).
  { intros k. rewrite <- node_runtimes_dom, <- (elem_of_dom (D:=gset string)), dom_alt. apply elem_of_list_to_set. }
  unfold detected_runtime. destruct nodes as [|node nodes]; [done|]. clear Hne.
  pose proof (NoDup_fst_map_to_list (node_runtimes (node :: nodes))) as Hnd.
  destruct (map_to_list _) as [|[k v] [|[k' v'] l]]; cbn [fmap list_fmap fst] in *;
    destruct (runtimes (node :: nodes)) as [|r rs].
  - done.
  - exfalso. apply (not_elem_of_nil r), Hin. left.
  - exfalso. apply (not_elem_of_nil k), Hin. left.
  - assert (Hall : ∀ r', r' ∈ r :: rs → r' = k).
    { intros r' Hr'%Hin. by apply list_elem_of_singleton in Hr'. }
    rewrite (Hall r) by left. rewrite bool_decide_eq_true_2; [done|]. apply Forall_forall.
    intros r' Hr'. apply Hall. by right.
  - exfalso. apply (not_elem_of_nil k), Hin. left.
  - rewrite bool_decide_eq_false_2; [done|]. intros Hall. rewrite Forall_forall in Hall.
    assert (Heq : ∀ x, x ∈ r :: rs → x = r) by (intros x [->|?]%elem_of_cons; auto).
    apply NoDup_cons in Hnd as [Hk _]. apply Hk.
    rewrite (Heq k) by (apply Hin; left). rewrite <- (Heq k') by (apply Hin; right; left). left.
Qed.

Section runtime.
Context {W : Type} `{KubeClientLaws W}.
Implicit Types (s : op W).

Lemma set_cr_runtime_wp runtime s :
  wp (set_cr_runtime runtime) (λ _ s', touches [] s s') (λ _ _, False) s.
Proof. unfold set_cr_runtime. rewrite wp_modify. by apply (runtime_set_touches [] (mkDynamicParameters runtime)). Qed.

(** The parameters that a cycle works with: the runtime of the custom resource, else
    the one found before, else what the nodes report. *)
Definition chosen_runtime (dp : DynamicParameters) s : string :=
  let specified := LoggingServiceSpec_ContainerRuntimeType (spec_of s) in
  if nonempty specified then specified
  else if nonempty (DynamicParameters_ContainerRuntimeType dp)
  then DynamicParameters_ContainerRuntimeType dp
  else match (client_ListNodes (op_world s)).2 with
       | Ret nodes => detected_runtime nodes
       | _ => DefaultContainerRuntimeType
       end.

Lemma updateDynamicParameters_wp dp s :
  wp (updateDynamicParameters dp)
    (λ dp' s', touches [] s s' ∧ DynamicParameters_ContainerRuntimeType dp' = chosen_runtime dp s)
    (λ _ _, False) s.
Proof.
  unfold updateDynamicParameters, chosen_runtime, the_cr. rewrite wp_bind, wp_gets. fold (spec_of s).
  destruct (nonempty (LoggingServiceSpec_ContainerRuntimeType (spec_of s))); [by rewrite wp_ret|].
  destruct (nonempty (DynamicParameters_ContainerRuntimeType dp)) eqn:Hdp; [by rewrite wp_ret|].
  assert (Hempty : DynamicParameters_ContainerRuntimeType dp = "").
  { unfold nonempty in Hdp. by apply negb_false_iff, String.eqb_eq in Hdp. }
  rewrite wp_bind, wp_attempt, wp_lift. pose proof (client_ListNodes_spec (op_world s)) as Hl.
  unfold wp in Hl |- * at 1. destruct (client_ListNodes (op_world s)) as [w' [nodes|e|]]; [| |done];
    cbn [snd]; destruct Hl as [Ho Hn]; set (s1 := s <| op_world := w' |>);
    assert (Ht1 : touches [] s s1) by (split; try done; cbn; by rewrite Ho).
  2: { by rewrite wp_ret. }
  destruct (decide (nodes = [])) as [->|Hne]; [by rewrite wp_ret|].
  pose proof (detected_runtime_map nodes Hne) as Hd.
  destruct nodes as [|node nodes]; [done|]. rewrite wp_bind.
  eapply wp_mono; [apply (wp_for_each (λ s', touches [] s s') (λ _ _, False)); [done|]| |done].
  - intros x s2 _ Ht2. destruct (runtime_of x) as [r|]; [|by rewrite wp_ret].
    eapply wp_mono; [apply set_cr_runtime_wp| |done]. intros [] s3 Ht3. by etrans.
  - intros [] s2 Ht2. destruct (map_to_list _) as [|[k v] [|? ?]].
    + rewrite wp_ret. by rewrite Hd.
    + rewrite wp_bind. eapply wp_mono; [apply set_cr_runtime_wp| |done]. intros [] s3 Ht3.
      rewrite wp_ret. split; [by etrans|by rewrite Hd].
    + by rewrite wp_ret, Hd.
Qed.
End runtime.

(** ** The outputs of a custom resource *)

(** The outputs whose credentials the reconcilers resolve, in one mode or another: those of
    FluentBit, of its aggregator and of FluentD, whether or not the part is to be installed
    (in the high-availability mode the outputs of FluentBit itself are not resolved, and the
    code counts them all the same). *)
Definition credential_outputs (cr : LoggingService) : list OutputAuth :=
  let of_fluentbit (output : option OutputFluentbit) :=
    match output with Some output => fluentbit_outputs output | None => [] end in
  of_fluentbit (LoggingServiceSpec_Fluentbit (LoggingService_Spec cr) ≫= Fluentbit_Output)
  ++ of_fluentbit (ha_aggregator_of (LoggingService_Spec cr) ≫= FluentbitAggregator_Output)
  ++ match LoggingServiceSpec_Fluentd (LoggingService_Spec cr) ≫= Fluentd_Output with
     | Some output => fluentd_outputs output
     | None => []
     end.

(** An output that is enabled and has a selector of the Secret. *)
Definition reads_secret (secretName : string) (o : OutputAuth) : Prop :=
  OutputAuth_Enabled o = true ∧
  ∃ auth sel, OutputAuth_Auth o = Some auth ∧ SecretKeySelector_Name sel = secretName ∧
    Some sel ∈ [Auth_Token auth; Auth_User auth; Auth_Password auth].

Lemma selector_names_spec selector secretName :
  selector_names selector secretName = true ↔ ∃ sel, selector = Some sel ∧ SecretKeySelector_Name sel = secretName.
Proof. unfold selector_names. destruct selector; [rewrite String.eqb_eq|]; naive_solver. Qed.

Lemma authReferencesSecret_spec auth secretName :
  authReferencesSecret auth secretName = true ↔
  ∃ a sel, auth = Some a ∧ SecretKeySelector_Name sel = secretName ∧
    Some sel ∈ [Auth_Token a; Auth_User a; Auth_Password a].
Proof.
  unfold authReferencesSecret. destruct auth as [a|]; [|naive_solver].
  rewrite !orb_true_iff, !selector_names_spec. setoid_rewrite elem_of_cons. setoid_rewrite elem_of_cons.
  setoid_rewrite list_elem_of_singleton. naive_solver.
Qed.

(** One output, as the code tests it and as the reconcilers list it. *)
Lemma output_auth_reads (x : option (bool * option Auth)) secretName :
  Exists (reads_secret secretName) (output_auth x) ↔
  match x with Some (enabled, auth) => enabled && authReferencesSecret auth secretName | None => false end = true.
Proof.
  unfold output_auth, reads_secret. destruct x as [[enabled auth]|].
  - rewrite Exists_cons, Exists_nil, andb_true_iff, authReferencesSecret_spec. cbn. naive_solver.
  - rewrite Exists_nil. done.
Qed.

Lemma outputReferencesSecret_spec output secretName :
  outputReferencesSecret output secretName = true ↔
  Exists (reads_secret secretName)
    (match output with Some output => fluentbit_outputs output | None => [] end).
Proof.
  unfold outputReferencesSecret, fluentbit_outputs. destruct output as [output|]; [|by rewrite Exists_nil].
  rewrite !Exists_app, !output_auth_reads, !orb_true_iff. unfold loki_auth, http_auth, otel_auth.
  destruct (OutputFluentbit_Loki output), (OutputFluentbit_Http output), (OutputFluentbit_Otel output); cbn; tauto.
Qed.

Lemma references_spec cr secretName :
  fluentbitReferencesSecret cr secretName || fluentdReferencesSecret cr secretName = true ↔
  Exists (reads_secret secretName) (credential_outputs cr).
Proof.
  unfold credential_outputs. rewrite orb_true_iff, !Exists_app, <- !outputReferencesSecret_spec.
  assert (Hb : fluentbitReferencesSecret cr secretName = true ↔
    outputReferencesSecret (LoggingServiceSpec_Fluentbit (LoggingService_Spec cr) ≫= Fluentbit_Output) secretName = true
    ∨ outputReferencesSecret (ha_aggregator_of (LoggingService_Spec cr) ≫= FluentbitAggregator_Output) secretName = true).
  { unfold fluentbitReferencesSecret, ha_aggregator_of.
    destruct (LoggingServiceSpec_Fluentbit _) as [fb|]; cbn; [|naive_solver].
    destruct (outputReferencesSecret (Fluentbit_Output fb) secretName); [naive_solver|].
    destruct (Fluentbit_Aggregator fb); cbn; naive_solver. }
  assert (Hd : fluentdReferencesSecret cr secretName = true ↔ Exists (reads_secret secretName)
    match LoggingServiceSpec_Fluentd (LoggingService_Spec cr) ≫= Fluentd_Output with
    | Some output => fluentd_outputs output | None => [] end).
  { unfold fluentdReferencesSecret, fluentd_outputs.
    destruct (_ ≫= Fluentd_Output) as [output|]; [|by rewrite Exists_nil].
    rewrite !Exists_app, !output_auth_reads, !orb_true_iff. unfold fluentd_loki_auth, fluentd_http_auth.
    destruct (OutputFluentd_Loki output), (OutputFluentd_Http output); cbn; tauto. }
  rewrite Hb, Hd. tauto.
Qed.

(** ** Properties *)

(** C31: the container runtime of a cycle: the one that the custom resource names, else
    the one that an earlier cycle found, else the one that all the nodes that report
    any agree on, and containerd when the nodes disagree or cannot be listed.  When
    there are nodes and none reports a runtime the result is empty.  No object and
    nothing of the spec but the runtime changes, and nothing fails. *)
Theorem updateDynamicParameters_runtime {W} `{KubeClientLaws W} dp (s : op W) :
  wp (updateDynamicParameters dp)
    (λ dp' s', touches [] s s' ∧ DynamicParameters_ContainerRuntimeType dp' = chosen_runtime dp s)
    (λ _ _, False) s.
Proof. apply updateDynamicParameters_wp. Qed.

(** C28: a change of a Secret reaches exactly the custom resources of its namespace
    that have an enabled output with a selector of that Secret, among the outputs of FluentBit,
    of its aggregator and of FluentD, whichever of them is installed: no rotation of credentials is missed and no
    other custom resource is reconciled (when the custom resources can be listed). *)
Theorem mapSecretToLoggingServices_exact {W} `{KubeClient W} namespace name w items w' request :
  client_ListLoggingServices namespace w = (w', Ret items) →
  ∃ requests, mapSecretToLoggingServices namespace name w = (w', Ret requests) ∧
    (request ∈ requests ↔ ∃ cr, cr ∈ items ∧ request = (GetNamespace cr, GetName cr) ∧
       Exists (reads_secret name) (credential_outputs cr)).
Proof.
  intros Hlist. unfold mapSecretToLoggingServices, mbind, M_bind, attempt. rewrite Hlist.
  eexists. split; [done|]. rewrite list_elem_of_fmap. setoid_rewrite list_elem_of_filter.
  split.
  - intros (cr & -> & Hr & Hin). exists cr. split_and!; [done|done|]. apply references_spec. by destruct (_ || _).
  - intros (cr & Hin & -> & Hr%references_spec). exists cr. split_and!; [done|by rewrite Hr|done].
Qed.

(** ** Witnesses *)

#[local] Existing Instances example_externals example_encodings.

(** A custom resource whose aggregator sends to Loki with a token. *)
Definition example_watched : LoggingService :=
  let auth := zero <| Auth_Token := Some (zero <| SecretKeySelector_Name := "loki-token" |>) |> in
  let output := zero <| OutputFluentbit_Loki := Some (zero <| LokiFluentbit_Enabled := true |>
    <| LokiFluentbit_Auth := Some auth |>) |> in
  zero <| LoggingService_ObjectMeta := named "cr" "ns" |>
       <| LoggingService_Spec := zero <| LoggingServiceSpec_Fluentbit := Some (zero
            <| Fluentbit_Aggregator := Some (zero <| FluentbitAggregator_Output := Some output |>) |>) |> |>.

Lemma mapSecretToLoggingServices_exact_witness :
  let w : Mem := zero <| Mem_services := [example_watched] |> in
  ∃ requests, mapSecretToLoggingServices "ns" "loki-token" w = (w, Ret requests) ∧ ("ns", "cr") ∈ requests.
Proof.
  intros w.
  destruct (mapSecretToLoggingServices_exact "ns" "loki-token" w [example_watched] w ("ns", "cr"))
    as (requests & Hreq & Hiff); [by vm_compute|].
  exists requests. split; [exact Hreq|]. apply Hiff. exists example_watched.
  split_and!; [left|done|]. apply references_spec. by vm_compute.
Defined.
