(* ===== verification/Cycle.v ===== *)
(** * A cycle: ReconcileLoggingServiceCluster of internal/controllers/loggingservice_controller.go

    What a cycle over all the components does: what it keeps, what its success means, and
    what is deployed together when it succeeds. *)

From S2P Require Import Prelude GoStrings KubeTypes Api Client Operator Status Component.
From S2P Require Import Credentials Reconcilers.
From S2P Require Import PodManager Waiter Defaults ComponentRun FluentbitController.
From S2P Require Import FluentdController EventsReaderController HAController GraylogController.
From S2P Require Import GraylogRun Controller.
From S2P Require Import Net System Quiet GraylogRequests.

(** ** What sends no request *)

Section silent.
Context {W : Type} `{SystemLaws W, !KubeClientLaws W, Encodings, Externals}.

Lemma silent_CreateOrUpdateConfigSecret secret : steps silent (CreateOrUpdateConfigSecret (W:=W) secret).
Proof. unfold CreateOrUpdateConfigSecret. steps. Qed.

Lemma silent_resolveOutputAuth ns validate outputs : steps silent (resolveOutputAuth (W:=W) ns validate outputs).
Proof.
  induction outputs as [|o outputs IH]; cbn [resolveOutputAuth]; [eauto with steps|].
  unfold resolveAuthValues, resolve_field, ResolveSecretKeyValue. steps.
Qed.
#[local] Hint Resolve silent_CreateOrUpdateConfigSecret silent_resolveOutputAuth : steps.

Lemma silent_handle_config_secret {C Spec} name (resolve : M (op W) C) (component : LoggingServiceSpec → option Spec)
    nil_error build dp :
  steps silent resolve →
  steps silent (handle_config_secret name resolve (config_secret component nil_error build dp)).
Proof. intros Hr. unfold handle_config_secret, config_secret, DeleteLegacyConfigMap, set_runtime, the_cr. steps. Qed.

Lemma silent_handle_workload {T Spec} (component : LoggingServiceSpec → option Spec) on_nil
    (build : LoggingService → Spec → error + T) (reconcile : T → M (op W) unit) dp :
  (∀ cr, steps silent (on_nil cr)) → (∀ d, steps silent (reconcile d)) →
  steps silent (handle_workload component on_nil build reconcile dp).
Proof. intros Hnil Hr. unfold handle_workload, set_runtime, the_cr. steps. Qed.

Lemma silent_component_run status msg name installed (install uninstall : M (op W) unit) :
  steps silent install → steps silent uninstall →
  steps silent (component_run status msg name installed install uninstall).
Proof. intros Hi Hu. unfold component_run, IsStatusFailed, the_cr. steps. Qed.
#[local] Hint Extern 2 (steps silent (handle_config_secret _ _ _)) =>
  apply silent_handle_config_secret; steps : steps.
#[local] Hint Extern 2 (steps silent (handle_workload _ _ _ _ _)) =>
  apply silent_handle_workload; intros ?; [steps|unfold reconcile_DaemonSet; steps] : steps.
#[local] Hint Extern 2 (steps silent (handle_object _ _ _ _)) =>
  apply silent_handle_object; intros ?; [steps|unfold reconcile_Service, reconcile_Deployment; steps] : steps.

Lemma silent_fluentd_Run dp cfg : steps silent (fluentd_Run (W:=W) dp cfg).
Proof.
  apply silent_component_run.
  - unfold fluentd_install, fluentd_handleConfigSecret, fluentdConfigSecret, fluentd_handleDaemonSet,
      fluentd_handleService, fluentd_resolveOutputCredentials, ResolveFluentdOutputAuth, the_cr. steps.
  - unfold fluentd_uninstall, fluentd_deleteDaemonSet, fluentd_deleteConfigSecret, fluentd_deleteService,
      DeleteLegacyConfigMap, the_cr. steps.
Qed.

Lemma silent_resolve_fluentbit_output output : steps silent (resolve_fluentbit_output (W:=W) output).
Proof. unfold resolve_fluentbit_output, ResolveFluentbitOutputAuth, the_cr. steps. Qed.
#[local] Hint Resolve silent_resolve_fluentbit_output : steps.

Lemma silent_fluentbit_Run dp cfg : steps silent (fluentbit_Run (W:=W) dp cfg).
Proof.
  apply silent_component_run.
  - unfold fluentbit_install, fluentbit_handleConfigSecret, fluentbitConfigSecret, fluentbit_handleDaemonSet,
      fluentbit_handleService, fluentbit_resolveOutputCredentials, the_cr. steps.
  - unfold fluentbit_uninstall, fluentbit_deleteDaemonSet, fluentbit_deleteConfigSecret,
      fluentbit_deleteService, DeleteLegacyConfigMap, the_cr. steps.
Qed.

Lemma silent_ha_Run dp cfg : steps silent (ha_Run (W:=W) dp cfg).
Proof.
  apply silent_component_run.
  - unfold ha_install, ha_handleAggregatorConfigSecret, ha_aggregatorConfigSecret,
      ha_resolveAggregatorOutputCredentials, ha_handleAggregatorStatefulSet, ha_applyAggregatorStatefulSet,
      ha_waitForAggregator, ha_handleAggregatorService, ha_handleForwarderConfigMap,
      ha_updateConfigMap, ha_CreateOrUpdate, ha_handleForwarderDaemonSet, ha_handleForwarderService, sleep, the_cr.
    steps. apply silent_sleep. intros s. apply time_Sleep_quiet.
  - unfold ha_uninstall, ha_deleteDaemonSet, ha_deleteStatefulSet, ha_deleteConfigMap, ha_deleteService,
      ha_deleteSecret, DeleteLegacyConfigMap, the_cr. steps.
Qed.

Lemma silent_eventsreader_Run cfg : steps silent (eventsreader_Run (W:=W) cfg).
Proof.
  apply silent_component_run.
  - unfold eventsreader_install, eventsreader_handleDeployment, eventsreader_handleService. steps.
  - unfold eventsreader_uninstall, the_cr. steps.
Qed.

(** The wait for the components. *)
Lemma silent_sleep_for d : steps silent (sleep (W:=W) d).
Proof. apply silent_sleep. intros s. apply time_Sleep_quiet. Qed.
#[local] Hint Resolve silent_sleep_for : steps.

Lemma silent_check_components ns n : steps silent (check_components (W:=W) ns n).
Proof.
  induction n as [|i IH]; cbn [check_components]; [eauto with steps|].
  unfold component_available, IsDaemonSetAvailable, IsDeploymentReplicasSynchronised, fetch. steps;
    apply silent_lift; steps.
Qed.

Lemma silent_pending_loop fuel ns start : steps silent (pending_loop (W:=W) fuel ns start).
Proof.
  induction fuel as [|fuel IH]; cbn [pending_loop]; [eauto with steps|].
  unfold time_now, fail_component. steps. apply silent_check_components.
Qed.
#[local] Hint Resolve silent_pending_loop : steps.

Lemma silent_run_pending : steps silent (run_pending (W:=W)).
Proof. unfold run_pending, ComponentsPending_Run, pending_wait, IsStatusFailed, the_cr. steps. Qed.
End silent.

(** ** A cycle *)

Section cycle.
Context {W : Type} `{SystemLaws W, !KubeClientLaws W, !SpecStable W, !BodiesRead W, Encodings, Externals}.
Implicit Types (s : op W).

(** What every part of a cycle keeps: the name of the custom resource, and its spec but
    for the runtime and, in its Graylog part, the credentials and the streams. *)
Record cycle_keeps s s' : Prop := mkCycleKeeps {
  cycle_namespace : GetNamespace (op_cr s') = GetNamespace (op_cr s);
  cycle_name : GetName (op_cr s') = GetName (op_cr s);
  cycle_spec : graylog_masked hide_both (spec_of s') = graylog_masked hide_both (spec_of s);
}.

#[export] Instance cycle_keeps_preorder : PreOrder cycle_keeps.
Proof. split; [done|]. intros s1 s2 s3 [???] [???]. split; congruence. Qed.

Lemma graylog_keeps_cycle s s' : graylog_keeps hide_both s s' → cycle_keeps s s'.
Proof. by intros [_ Hns Hn Hs]. Qed.

Lemma keeps_cycle s s' : keeps s s' → cycle_keeps s s'.
Proof. intros Hk. by apply graylog_keeps_cycle, keeps_graylog_keeps. Qed.

Lemma cr_frame_cycle s s' : cr_frame s s' → cycle_keeps s s'.
Proof. intros Hf. eapply keeps_cycle, (touches_keeps []), touches_cr_frame, Hf. Qed.

(** The components that a custom resource asks to wait for. *)
Definition expected_if (b : bool) (c : Component) : list Component := if b then [c] else [].

Definition expected_components (cr : LoggingService) : list Component :=
  expected_if (fluentd_installed cr) (mkComponent FluentdComponentName FluentdStatus)
  ++ expected_if (fluentbit_installed cr) (mkComponent FluentbitComponentName FluentbitStatus)
  ++ expected_if (ha_installed cr) (mkComponent ForwarderFluentbitComponentName HAFluentStatus)
  ++ expected_if (eventsreader_installed cr) (mkComponent EventsReaderComponentName EventsReaderStatus).

Lemma installed_keeps s s' :
  cycle_keeps s s' →
  fluentd_installed (op_cr s') = fluentd_installed (op_cr s) ∧
  fluentbit_installed (op_cr s') = fluentbit_installed (op_cr s) ∧
  ha_installed (op_cr s') = ha_installed (op_cr s) ∧
  eventsreader_installed (op_cr s') = eventsreader_installed (op_cr s).
Proof.
  intros [_ _ Hs]. unfold fluentd_installed, fluentbit_installed,
    ha_installed, ha_aggregator_of, eventsreader_installed. fold (spec_of s) (spec_of s').
  pose proof (f_equal LoggingServiceSpec_Fluentd Hs : LoggingServiceSpec_Fluentd (spec_of s') = _) as ->.
  pose proof (f_equal LoggingServiceSpec_Fluentbit Hs : LoggingServiceSpec_Fluentbit (spec_of s') = _) as ->.
  by pose proof (f_equal LoggingServiceSpec_CloudEventsReader Hs :
    LoggingServiceSpec_CloudEventsReader (spec_of s') = _) as ->.
Qed.

Lemma expected_components_keeps s s' :
  cycle_keeps s s' → expected_components (op_cr s') = expected_components (op_cr s).
Proof. intros (Hd & Hb & Hh & He)%installed_keeps. unfold expected_components. by rewrite Hd, Hb, Hh, He. Qed.

(** A state of the cycle that began in [s0]: while everything has succeeded the pending
    components are [ps] and [D] holds. *)
Definition cycle_at s0 (ok : bool) (ps : list Component) (D : op W → Prop) s : Prop :=
  cycle_keeps s0 s ∧ (ok = true → op_pending s = ps ∧ D s).

(** ** The code of a cycle, as steps *)

(** What comes before the components: the status, and the parameters. *)
Definition cycle_start (dp : DynamicParameters) : M (op W) DynamicParameters :=
  failed ← IsStatusFailed LoggingServiceStatusReason;
  when (negb failed)
    (UpdateStatus LoggingServiceStatusReason InProgress false "Logging Service reconcile cycle in progress");;
  RemoveTemporaryStatuses;;
  updateDynamicParameters dp.

(** The components in the order of their runs, each with the reason it reports under. *)
Definition cycle_components (dp : DynamicParameters) : list (string * M (op W) unit) :=
  [ (GraylogStatus, graylog_Run defaults_Get);
    (FluentdStatus, fluentd_Run dp defaults_Get);
    (FluentbitStatus, fluentbit_Run dp defaults_Get);
    (FluentbitStatus, ha_Run dp defaults_Get);
    (EventsReaderStatus, eventsreader_Run defaults_Get) ].

(** The condition that reports the error [e] under [reason]. *)
Definition failure_reported (reason : string) (e : error) s : Prop :=
  ∃ c, c ∈ conditions s ∧ LoggingServiceCondition_Reason c = reason ∧
    LoggingServiceCondition_Type c = Failed ∧ LoggingServiceCondition_Status c = false ∧
    LoggingServiceCondition_Message c = "Reason: " +:+ err_msg e.

(** One component runs from [s] and leaves [s'], its error, if it has one, reported. *)
Definition run_once (status : string) (run : M (op W) unit) s (o : option error) s' : Prop :=
  match o with
  | None => run s = (s', Ret tt)
  | Some e => ∃ s1, run s = (s1, Fail e) ∧
      UpdateStatus status Failed false ("Reason: " +:+ err_msg e) s1 = (s', Ret tt) ∧
      failure_reported status e s'
  end.

(** The components run one after the other, each from what the one before it left, whether
    that one failed or not. *)
Fixpoint runs_through (comps : list (string * M (op W) unit)) s (os : list (option error)) s' : Prop :=
  match comps, os with
  | [], [] => s' = s
  | (status, run) :: comps, o :: os => ∃ s1, run_once status run s o s1 ∧ runs_through comps s1 os s'
  | _, _ => False
  end.

Definition succeeded (o : option error) : bool := if o is None then true else false.

(** What one run of a component does: a success adds [c] and is a step of [ran]. *)
Definition component_step (run : M (op W) unit) (c : list Component) (ran : relation (op W)) s : Prop :=
  wp run (λ _ s', cycle_keeps s s' ∧ op_pending s' = op_pending s ++ c ∧ ran s s')
    (λ _ s', cycle_keeps s s') s.

Definition after (D : op W → Prop) (ran : relation (op W)) : op W → Prop := λ s', ∃ s, D s ∧ ran s s'.

(** The condition that an update of the status leaves. *)
Lemma report_wp reason type status msg s :
  reason ≠ "" →
  wp (UpdateStatus reason type status msg)
    (λ _ s', cr_frame s s' ∧ ∃ c, c ∈ conditions s' ∧ LoggingServiceCondition_Reason c = reason ∧
       LoggingServiceCondition_Type c = type ∧ LoggingServiceCondition_Status c = status ∧
       LoggingServiceCondition_Message c = msg) (λ _ _, False) s.
Proof.
  intros Hne. eapply wp_mono; [apply UpdateStatus_wp| |done]. intros [] s' [Hf Hc]. split; [done|].
  set (new := mkLoggingServiceCondition _ _ _ _ _) in Hc.
  destruct (updated_conditions_self (conditions s) new Hne) as (c & Hin & Heq & _).
  exists c. rewrite Hc. split_and!; [done| | | |].
  - exact (f_equal LoggingServiceCondition_Reason Heq).
  - exact (f_equal LoggingServiceCondition_Type Heq).
  - exact (f_equal LoggingServiceCondition_Status Heq).
  - exact (f_equal LoggingServiceCondition_Message Heq).
Qed.

Lemma run_component_wp status run s0 ok ps c D ran s :
  status ≠ "" → cycle_at s0 ok ps D s → component_step run c ran s →
  wp (run_component status run)
    (λ ok' s', cycle_at s0 (ok && ok') (ps ++ c) (after D (λ s s', run s = (s', Ret tt) ∧ ran s s')) s' ∧
       ∃ o, run_once status run s o s' ∧ ok' = succeeded o) (λ _ _, False) s.
Proof.
  intros Hne [Hk Hp] Hrun. unfold run_component. rewrite wp_bind, wp_attempt.
  unfold component_step, wp in Hrun. unfold wp at 1.
  destruct (run s) as [s1 [[]|e|]] eqn:Hr; [| |done].
  - destruct Hrun as (Hk1 & Hp1 & Hr1). rewrite wp_ret, andb_true_r. split; [|by exists None].
    split; [by etrans|]. intros Hok. destruct (Hp Hok) as [Hps HD]. split; [by rewrite Hp1, Hps|by exists s].
  - rewrite wp_bind. eapply wp_mono; [by apply wp_self, report_wp| |done].
    intros [] s2 (Hu & Hf & Hc). rewrite wp_ret, andb_false_r. split.
    + split; [|done]. etrans; [exact Hk|]. etrans; [exact Hrun|]. by apply cr_frame_cycle.
    + exists (Some e). split; [|done]. exists s1. by split_and!.
Qed.

(** The successful runs of the components. *)
Definition graylog_ran s s' : Prop :=
  if graylog_installed (op_cr s) then installed s s' else graylog_keeps hide_both s s' ∧ silent s s'.

Definition fluentd_ran dp s s' : Prop :=
  touches (fluentd_keys (GetNamespace (op_cr s))) (s <| op_pending := op_pending s' |>) s' ∧
  (fluentd_installed (op_cr s) = true →
   LoggingServiceSpec_ContainerRuntimeType (spec_of s') = DynamicParameters_ContainerRuntimeType dp ∧
   fluentd_deployed defaults_Get (op_cr s') (objects (op_world s)) (objects (op_world s'))) ∧
  silent s s'.

Definition fluentbit_ran dp s s' : Prop :=
  touches (fluentbit_keys (GetNamespace (op_cr s))) (s <| op_pending := op_pending s' |>) s' ∧
  (fluentbit_installed (op_cr s) = true →
   LoggingServiceSpec_ContainerRuntimeType (spec_of s') = DynamicParameters_ContainerRuntimeType dp ∧
   fluentbit_deployed defaults_Get (op_cr s') (objects (op_world s)) (objects (op_world s'))) ∧
  silent s s'.

(** The high-availability mode waits, and others change the cluster meanwhile. *)
Definition ha_ran dp s s' : Prop :=
  (if ha_installed (op_cr s) then
     LoggingServiceSpec_ContainerRuntimeType (spec_of s') = DynamicParameters_ContainerRuntimeType dp ∧
     ha_deployed defaults_Get (op_cr s') (objects (op_world s')) ∧ ha_applied dp defaults_Get s s'
   else touches (ha_keys (GetNamespace (op_cr s))) s s') ∧
  cycle_keeps s s' ∧ silent s s'.

Definition eventsreader_ran s s' : Prop :=
  touches (eventsreader_keys (GetNamespace (op_cr s))) (s <| op_pending := op_pending s' |>) s' ∧
  (eventsreader_installed (op_cr s) = true →
   eventsreader_deployed defaults_Get (op_cr s') (objects (op_world s'))) ∧
  silent s s'.

(** The graylog part of a custom resource can be installed. *)
Definition graylog_ready s : Prop := graylog_installed (op_cr s) = true → graylog_is_complete s.

Lemma graylog_run_step s :
  graylog_ready s → component_step (graylog_Run defaults_Get) [] graylog_ran s.
Proof.
  intros Hc. eapply wp_mono; [by apply graylog_Run_wp| |].
  - intros [] s' Hr. assert (Hk : graylog_keeps hide_both s s')
      by (destruct (graylog_installed (op_cr s)); by destruct Hr).
    rewrite app_nil_r. split_and!; [by apply graylog_keeps_cycle|by destruct Hk|exact Hr].
  - intros e s' [_ [Hk _]]. by apply graylog_keeps_cycle.
Qed.

(** A component that touches only its own objects. *)
Lemma touching_step run (inst : bool) c K (P : op W → Prop) s :
  steps silent run →
  wp run (λ _ s', if inst then touches K (s <| op_pending ::= λ ps, ps ++ [c] |>) s' ∧ P s' else touches K s s')
    (λ _ s', inst = true ∧ touches K s s') s →
  component_step run (expected_if inst c)
    (λ s s', touches K (s <| op_pending := op_pending s' |>) s' ∧ (inst = true → P s') ∧ silent s s') s.
Proof.
  intros Hq Hrun. eapply wp_mono; [exact (wp_steps _ _ _ _ _ Hq Hrun)| |].
  - intros [] s' [Hs Hr].
    assert (Hr' : op_pending s' = op_pending s ++ expected_if inst c ∧
      touches K (s <| op_pending := op_pending s' |>) s' ∧ (inst = true → P s')).
    { destruct inst; cbn [expected_if].
      - destruct Hr as [Ht HP]. destruct Ht as [Ho Hn Hp Hns Hnm Hsp].
        split_and!; [done|by split|by intros _].
      - destruct Hr as [Ho Hn Hp Hns Hnm Hsp]. rewrite app_nil_r. split_and!; [done|by split|done]. }
    destruct Hr' as (Hp & Ht & HP). split_and!; [|done|done|done|done].
    pose proof (touches_keeps _ _ _ Ht) as Hk%keeps_cycle. by destruct Hk.
  - intros e s' [_ [_ Ht]]. by eapply keeps_cycle, touches_keeps.
Qed.

Lemma fluentd_run_step dp s :
  component_step (fluentd_Run dp defaults_Get)
    (expected_if (fluentd_installed (op_cr s)) (mkComponent FluentdComponentName FluentdStatus)) (fluentd_ran dp) s.
Proof. eapply touching_step; [apply silent_fluentd_Run|apply fluentd_Run_wp]. Qed.

Lemma fluentbit_run_step dp s :
  component_step (fluentbit_Run dp defaults_Get)
    (expected_if (fluentbit_installed (op_cr s)) (mkComponent FluentbitComponentName FluentbitStatus))
    (fluentbit_ran dp) s.
Proof. eapply touching_step; [apply silent_fluentbit_Run|apply fluentbit_Run_wp]. Qed.

Lemma eventsreader_run_step s :
  component_step (eventsreader_Run defaults_Get)
    (expected_if (eventsreader_installed (op_cr s)) (mkComponent EventsReaderComponentName EventsReaderStatus))
    eventsreader_ran s.
Proof. eapply touching_step; [apply silent_eventsreader_Run|apply eventsreader_Run_wp]. Qed.

Lemma ha_run_step dp s :
  component_step (ha_Run dp defaults_Get)
    (expected_if (ha_installed (op_cr s)) (mkComponent ForwarderFluentbitComponentName HAFluentStatus)) (ha_ran dp) s.
Proof.
  eapply wp_mono; [apply wp_steps, ha_Run_wp; apply silent_ha_Run| |].
  - intros [] s' [Hs Hr]. unfold ha_ran. destruct (ha_installed (op_cr s)); cbn [expected_if].
    + destruct Hr as ([Hp Hns Hnm Hsp] & Hrun & Hdep & Happ). split_and!; try done.
      all: assert (Hk : keeps (s <| op_pending := op_pending s' |>) s') by by split.
      all: apply keeps_cycle in Hk; by destruct Hk.
    + rewrite app_nil_r. pose proof (touches_keeps _ _ _ Hr) as Hk.
      split_and!; [by apply keeps_cycle|by destruct Hk|done|by apply keeps_cycle|done].
  - intros e s' [_ [_ Hk]]. by apply keeps_cycle.
Qed.

Lemma graylog_ready_touches K s s' : touches K s s' → graylog_ready s → graylog_ready s'.
Proof.
  unfold graylog_ready, graylog_installed, graylog_is_complete. intros Ht.
  fold (spec_of s) (spec_of s').
  by rewrite (touches_spec_field LoggingServiceSpec_Graylog _ _ _ (λ _ _, eq_refl) Ht).
Qed.

(** The successful runs, each from the state that the one before it left: from [s] that of
    Graylog leaves [sg], that of FluentD [sd], that of FluentBit [sb], that of the
    high-availability mode [sh], and that of the events reader [s']. *)
Record components_executed dp s sg sd sb sh s' : Prop := {
  executed_graylog : graylog_Run defaults_Get (s <| op_pending := [] |>) = (sg, Ret tt);
  executed_fluentd : fluentd_Run dp defaults_Get sg = (sd, Ret tt);
  executed_fluentbit : fluentbit_Run dp defaults_Get sd = (sb, Ret tt);
  executed_ha : ha_Run dp defaults_Get sb = (sh, Ret tt);
  executed_eventsreader : eventsreader_Run defaults_Get sh = (s', Ret tt);
}.

(** And what each of them did. *)
Record components_ran dp s sg sd sb sh s' : Prop := {
  ran_executed : components_executed dp s sg sd sb sh s';
  ran_graylog : graylog_ran (s <| op_pending := [] |>) sg;
  ran_fluentd : fluentd_ran dp sg sd;
  ran_fluentbit : fluentbit_ran dp sd sb;
  ran_ha : ha_ran dp sb sh;
  ran_eventsreader : eventsreader_ran sh s';
}.

(** The components are run in order, and each that is installed and has succeeded is
    waited for. *)
Definition components_run dp s (ok : bool) s' : Prop :=
  cycle_keeps s s' ∧
  (∃ os, runs_through (cycle_components dp) (s <| op_pending := [] |>) os s' ∧ ok = forallb succeeded os) ∧
  (ok = true → op_pending s' = expected_components (op_cr s) ∧ ∃ sg sd sb sh, components_ran dp s sg sd sb sh s').

Lemma run_components_wp dp s :
  graylog_ready s → wp (run_components dp) (components_run dp s) (λ _ _, False) s.
Proof.
  intros Hready. unfold run_components. cbn zeta. rewrite wp_bind, wp_modify.
  set (s0 := s <| op_pending := [] |>).
  assert (H00 : cycle_at s true [] (eq s0) s0) by by split.
  rewrite wp_bind. eapply wp_mono; [eapply run_component_wp; [done|exact H00|by apply graylog_run_step]| |done].
  intros ok1 s1 (C1 & o1 & O1 & ->). rewrite wp_bind.
  eapply wp_mono; [eapply run_component_wp; [done|exact C1|apply fluentd_run_step]| |done].
  intros ok2 s2 (C2 & o2 & O2 & ->). rewrite wp_bind.
  eapply wp_mono; [eapply run_component_wp; [done|exact C2|apply fluentbit_run_step]| |done].
  intros ok3 s3 (C3 & o3 & O3 & ->). rewrite wp_bind.
  eapply wp_mono; [eapply run_component_wp; [done|exact C3|apply ha_run_step]| |done].
  intros ok4 s4 (C4 & o4 & O4 & ->). rewrite wp_bind.
  eapply wp_mono; [eapply run_component_wp; [done|exact C4|apply eventsreader_run_step]| |done].
  intros ok5 s5 ([Hk5 Hp5] & o5 & O5 & ->). rewrite wp_ret. split_and!; [done| |].
  - exists [o1; o2; o3; o4; o5]. split; [|cbn [forallb]; by rewrite andb_true_r, !andb_assoc].
    cbn [cycle_components runs_through]. exists s1. split; [done|]. exists s2. split; [done|].
    exists s3. split; [done|]. exists s4. split; [done|]. by exists s5.
  - intros Hok. destruct (Hp5 Hok) as [-> HD]. split.
    + unfold expected_components.
      destruct (installed_keeps s s1 (proj1 C1)) as (-> & _).
      destruct (installed_keeps s s2 (proj1 C2)) as (_ & -> & _).
      destruct (installed_keeps s s3 (proj1 C3)) as (_ & _ & -> & _).
      destruct (installed_keeps s s4 (proj1 C4)) as (_ & _ & _ & ->).
      by rewrite !app_nil_l, <- !app_assoc.
    + destruct HD as (x4 & (x3 & (x2 & (x1 & (x0 & <- & E1 & R1) & E2 & R2) & E3 & R3) & E4 & R4) & E5 & R5).
      by exists x1, x2, x3, x4.
Qed.

(** ** What is deployed together *)

(** The custom resource of the cycle, with whatever status and credentials it has by then. *)
Definition cycle_cr s (cr : LoggingService) : Prop :=
  GetNamespace cr = GetNamespace (op_cr s) ∧ GetName cr = GetName (op_cr s) ∧
  graylog_masked hide_both (LoggingService_Spec cr) = graylog_masked hide_both (spec_of s).

Definition runtime_is dp (cr : LoggingService) : Prop :=
  LoggingServiceSpec_ContainerRuntimeType (LoggingService_Spec cr) = DynamicParameters_ContainerRuntimeType dp.

(** The aggregator applied from [sb] as its templates and its builder give, before the run
    that leaves [sh] waits for it in [sa]. *)
Definition aggregator_applied dp s sb sh : Prop :=
  ∃ s0 sa s1, touches [] sb s0 ∧ ha_before_wait dp defaults_Get s0 = (sa, Ret tt) ∧
    ha_from_wait dp defaults_Get sa = (s1, Ret tt) ∧ op_world sh = op_world s1 ∧ op_cr sh = op_cr s1 ∧
    cycle_cr s (op_cr sa) ∧ runtime_is dp (op_cr sa) ∧
    ha_aggregator_applied defaults_Get (op_cr sa) (objects (op_world sb)) (objects (op_world sa)).

(** The components of the custom resource of [s] in the cluster of [s'], for the
    credentials that the Secrets had in [sg]; [sb] and [sh] are the states that FluentBit's
    run and that of the high-availability mode left.  While the aggregator of that mode
    starts, others may change what was deployed before. *)
Record deployed_together dp s sg sb sh s' : Prop := {
  together_fluentd :
    fluentd_installed (op_cr s) = true → ha_installed (op_cr s) = false →
    ∃ cr, cycle_cr s cr ∧ runtime_is dp cr ∧
      fluentd_deployed defaults_Get cr (objects (op_world sg)) (objects (op_world s'));
  together_fluentbit :
    fluentbit_installed (op_cr s) = true →
    ∃ cr m, cycle_cr s cr ∧ runtime_is dp cr ∧
      (∀ k, k ∉ fluentd_keys (GetNamespace (op_cr s)) → m !! k = objects (op_world sg) !! k) ∧
      fluentbit_deployed defaults_Get cr m (objects (op_world s'));
  together_ha :
    ha_installed (op_cr s) = true →
    ∃ cr, cycle_cr s cr ∧ runtime_is dp cr ∧ ha_deployed defaults_Get cr (objects (op_world s'));
  together_aggregator :
    ha_installed (op_cr s) = true → aggregator_applied dp s sb sh;
  together_before_ha k :
    k ∉ fluentd_keys (GetNamespace (op_cr s)) → k ∉ fluentbit_keys (GetNamespace (op_cr s)) →
    objects (op_world sb) !! k = objects (op_world sg) !! k;
  together_eventsreader :
    eventsreader_installed (op_cr s) = true →
    ∃ cr, cycle_cr s cr ∧ eventsreader_deployed defaults_Get cr (objects (op_world s'));
  together_silent : silent sg s';
}.

Lemma cycle_keeps_cr s s' : cycle_keeps s s' → cycle_cr s (op_cr s').
Proof. by intros []. Qed.

Lemma ran_keeps K s s' :
  touches K (s <| op_pending := op_pending s' |>) s' → cycle_keeps s s'.
Proof. intros Ht%touches_keeps%keeps_cycle. by destruct Ht. Qed.

(** The components have no object in common. *)
Ltac disjoint_keys :=
  intros k; unfold ha_keys, fluentd_keys, fluentbit_keys, daemonset_keys, config_keys, eventsreader_keys,
    ha_forwarder_keys;
  rewrite ?elem_of_app, ?elem_of_cons, ?elem_of_nil; intuition (subst; discriminate).

Lemma fluentd_fluentbit_disjoint ns : fluentbit_keys ns ## fluentd_keys ns.
Proof. disjoint_keys. Qed.
Lemma ha_fluentd_disjoint ns : ha_keys ns ## fluentd_keys ns.
Proof. disjoint_keys. Qed.
Lemma ha_fluentbit_disjoint ns : ha_keys ns ## fluentbit_keys ns.
Proof. disjoint_keys. Qed.
Lemma eventsreader_fluentd_disjoint ns : eventsreader_keys ns ## fluentd_keys ns.
Proof. disjoint_keys. Qed.
Lemma eventsreader_fluentbit_disjoint ns : eventsreader_keys ns ## fluentbit_keys ns.
Proof. disjoint_keys. Qed.
Lemma eventsreader_ha_disjoint ns : eventsreader_keys ns ## ha_keys ns.
Proof. disjoint_keys. Qed.

(** A later run that touches other objects leaves what is deployed. *)
Lemma ran_agree K K' s s' :
  K ## K' → touches K (s <| op_pending := op_pending s' |>) s' →
  agree K' (objects (op_world s)) (objects (op_world s')).
Proof. intros HK Ht. exact (touches_agree _ _ _ _ HK Ht). Qed.

Lemma graylog_ran_keeps s s1 : graylog_ran (s <| op_pending := [] |>) s1 → cycle_keeps s s1.
Proof.
  unfold graylog_ran. intros Hg. destruct (graylog_installed _); [destruct Hg as [Hk _ _ _]|destruct Hg as [Hk _]];
    apply graylog_keeps_cycle in Hk; by destruct Hk.
Qed.

(** What was applied for the custom resource of [s]. *)
Lemma ha_applied_cycle dp s sb sh :
  cycle_keeps s sb → ha_applied dp defaults_Get sb sh → aggregator_applied dp s sb sh.
Proof.
  intros Hk (s0 & sa & s1 & Ht & Hb & Hf & Hw & Hcr & Hsa & Happ). exists s0, sa, s1. split_and!; try done.
  - rewrite Hsa. apply cycle_keeps_cr. etrans; [exact Hk|]. etrans; [by eapply keeps_cycle, touches_keeps|].
    by apply keeps_cycle, (touches_keeps []), runtime_set_touches.
  - by rewrite Hsa.
Qed.

(** What each run deployed is there at the end. *)
Lemma components_ran_together dp s sg sd sb sh s' :
  components_ran dp s sg sd sb sh s' → deployed_together dp s sg sb sh s'.
Proof.
  intros [_ Hg (Ht2 & Hd2 & Hq2) (Ht3 & Hd3 & Hq3) (Hh4 & Hk4 & Hq4) (Ht5 & Hd5 & Hq5)].
  pose proof (graylog_ran_keeps _ _ Hg) as Hk1.
  assert (Hk2 : cycle_keeps s sd) by (etrans; [exact Hk1|exact (ran_keeps _ _ _ Ht2)]).
  assert (Hk3 : cycle_keeps s sb) by (etrans; [exact Hk2|exact (ran_keeps _ _ _ Ht3)]).
  assert (Hk34 : cycle_keeps s sh) by (etrans; [exact Hk3|exact Hk4]).
  assert (Hk5 : cycle_keeps s s') by (etrans; [exact Hk34|exact (ran_keeps _ _ _ Ht5)]).
  destruct (installed_keeps _ _ Hk1) as (Ei2 & _). destruct (installed_keeps _ _ Hk2) as (_ & Ei3 & _).
  destruct (installed_keeps _ _ Hk3) as (_ & _ & Ei4 & _). destruct (installed_keeps _ _ Hk34) as (_ & _ & _ & Ei5).
  rewrite Ei2 in Hd2. rewrite Ei3 in Hd3. rewrite Ei4 in Hh4. rewrite Ei5 in Hd5.
  rewrite (cycle_namespace _ _ Hk1) in Ht2. rewrite (cycle_namespace _ _ Hk2) in Ht3.
  rewrite (cycle_namespace _ _ Hk3) in Hh4. rewrite (cycle_namespace _ _ Hk34) in Ht5.
  set (ns := GetNamespace (op_cr s)) in *.
  assert (Hrest : ∀ K, ha_installed (op_cr s) = false → ha_keys ns ## K → eventsreader_keys ns ## K →
    agree K (objects (op_world sb)) (objects (op_world s'))).
  { intros K Hha HK HK'. rewrite Hha in Hh4. etrans; [exact (touches_agree _ _ _ _ HK Hh4)|exact (ran_agree _ _ _ _ HK' Ht5)]. }
  split.
  - intros Hi Hha. destruct (Hd2 Hi) as [Hr Hdep]. exists (op_cr sd). split_and!; [by apply cycle_keeps_cr|done|].
    eapply fluentd_deployed_agree; [|exact Hdep]. rewrite (cycle_namespace _ _ Hk2).
    etrans; [exact (ran_agree _ _ _ _ (fluentd_fluentbit_disjoint ns) Ht3)|].
    apply Hrest; [done|apply ha_fluentd_disjoint|apply eventsreader_fluentd_disjoint].
  - intros Hi. destruct (Hd3 Hi) as [Hr Hdep]. exists (op_cr sb), (objects (op_world sd)).
    split_and!; [by apply cycle_keeps_cr|done|intros k Hk; by apply (touches_objects _ _ _ Ht2)|].
    eapply fluentbit_deployed_agree; [|exact Hdep]. rewrite (cycle_namespace _ _ Hk3).
    apply Hrest; [|apply ha_fluentbit_disjoint|apply eventsreader_fluentbit_disjoint].
    destruct (fluentbit_modes_exclusive (op_cr s)) as [Hex _]. by rewrite Hi in Hex.
  - intros Hi. rewrite Hi in Hh4. destruct Hh4 as (Hr & Hdep & _). exists (op_cr sh).
    split_and!; [by apply cycle_keeps_cr|done|]. eapply ha_deployed_agree; [|exact Hdep].
    rewrite (cycle_namespace _ _ Hk34). exact (ran_agree _ _ _ _ (eventsreader_ha_disjoint ns) Ht5).
  - intros Hi. rewrite Hi in Hh4. destruct Hh4 as (_ & _ & Happ). by apply ha_applied_cycle.
  - intros k Hkd Hkb. rewrite (touches_objects _ _ _ Ht3) by done. by apply (touches_objects _ _ _ Ht2).
  - intros Hi. exists (op_cr s'). split; [by apply cycle_keeps_cr|exact (Hd5 Hi)].
  - exact (transitivity Hq2 (transitivity Hq3 (transitivity Hq4 Hq5))).
Qed.

(** Everything that was to be waited for came up. *)
Lemma run_pending_wp s :
  wp run_pending
    (λ ok s', ok = true → op_pending s' = [] ∧
       ∀ c, c ∈ op_pending s → seen_up (GetNamespace (op_cr s)) s s' c)
    (λ _ _, False) s.
Proof.
  unfold run_pending. rewrite wp_bind, wp_attempt. eapply wp_mono; [apply ComponentsPending_Run_wp| |].
  - intros ok s' [_ Hok]. rewrite wp_ret. by intros ->.
  - intros e s' _. rewrite wp_bind. eapply wp_mono; [apply UpdateStatus_wp| |done].
    intros [] s'' _. by rewrite wp_ret.
Qed.

(** A cycle from [s] to [s']: the status and the parameters, then every component from [s1]
    to [s2], whose errors are [os], then the wait. *)
Record cycle_ran dp dp' s s1 (os : list (option error)) s2 (started : bool) s' : Prop := {
  cycle_ran_start : cycle_start dp s = (s1, Ret dp');
  cycle_ran_before : touches [] s s1;
  cycle_ran_run : runs_through (cycle_components dp') (s1 <| op_pending := [] |>) os s2;
  cycle_ran_wait : run_pending s2 = (s', Ret started);
}.

(** What success of a cycle means. *)
Record cycle_succeeded dp s s1 s2 s' : Prop := {
  success_ran : ∃ sg sd sb sh, components_ran dp s1 sg sd sb sh s2;
  success_expected : op_pending s2 = expected_components (op_cr s);
  success_waited : op_pending s' = [];
  success_up c : c ∈ expected_components (op_cr s) → seen_up (GetNamespace (op_cr s)) s2 s' c;
  success_silent : silent s2 s';
}.

Lemma cycle_start_wp dp s : wp (cycle_start dp) (λ _ s', touches [] s s') (λ _ _, False) s.
Proof.
  unfold cycle_start. rewrite wp_bind, IsStatusFailed_wp, wp_bind.
  set (failed := match GetCondition _ _ with Some _ => _ | None => _ end).
  assert (Hstart : wp (when (negb failed) (UpdateStatus LoggingServiceStatusReason InProgress false
      "Logging Service reconcile cycle in progress")) (λ _ s', touches [] s s') (λ _ _, False) s).
  { rewrite wp_when. destruct failed; cbn [negb]; [done|].
    eapply wp_mono; [apply UpdateStatus_wp| |done]. intros _ s' [Hf _]. by apply touches_cr_frame. }
  eapply wp_mono; [exact Hstart| |done]. intros [] s1 Ht1. rewrite wp_bind.
  eapply wp_mono; [apply RemoveTemporaryStatuses_wp| |done]. intros [] s2 [Hf2 _].
  apply (touches_cr_frame []) in Hf2. eapply wp_mono; [apply updateDynamicParameters_wp| |done].
  intros dp' s3 [Ht3 _]. etrans; [exact Ht1|]. by etrans.
Qed.

(** A cycle is its start, its components and its wait. *)
Lemma cycle_parts dp s Q E :
  wp (cycle_start dp) (λ dp', wp (run_components dp') (λ deployed,
      wp run_pending (λ started, Q (deployed && started, dp')) E) E) E s →
  wp (ReconcileLoggingServiceCluster dp) Q E s.
Proof.
  unfold cycle_start, ReconcileLoggingServiceCluster. rewrite !wp_bind. intros Hw.
  eapply wp_mono; [exact Hw| |done]. intros failed s1. rewrite !wp_bind. intros Hw1.
  eapply wp_mono; [exact Hw1| |done]. intros [] s2. rewrite !wp_bind. intros Hw2.
  eapply wp_mono; [exact Hw2| |done]. intros [] s3 Hw3. rewrite wp_bind.
  eapply wp_mono; [exact Hw3| |done]. intros dp' s4 Hw4. rewrite wp_bind.
  eapply wp_mono; [exact Hw4| |done]. intros deployed s5 Hw5. rewrite wp_bind.
  eapply wp_mono; [exact Hw5| |done]. intros started s6 HQ. by rewrite wp_ret.
Qed.

Lemma ReconcileLoggingServiceCluster_wp dp s :
  graylog_ready s →
  wp (ReconcileLoggingServiceCluster dp)
    (λ r s', ∃ s1 os s2 started, cycle_ran dp r.2 s s1 os s2 started s' ∧
       r.1 = forallb succeeded os && started ∧
       (r.1 = true → cycle_succeeded r.2 s s1 s2 s')) (λ _ _, False) s.
Proof.
  intros Hready. apply cycle_parts.
  eapply wp_mono; [apply wp_self, cycle_start_wp| |done]. intros dp' s1 [Hstart Ht].
  eapply wp_mono; [apply run_components_wp; by eapply graylog_ready_touches| |done].
  intros deployed s2 (Hk2 & (os & Hos & ->) & Hp2).
  eapply wp_mono; [apply wp_self, (wp_steps _ _ _ _ _ silent_run_pending (run_pending_wp s2))| |by intros e s3 [_ []]].
  intros started s3 (Hwait & Hq3 & Hs3). exists s1, os, s2, started. split; [by split|]. split; [done|].
  cbn [fst snd]. intros [Hdep Hst]%andb_true_iff. destruct (Hs3 Hst) as [Hnil Hup].
  assert (Hk1 : cycle_keeps s s1) by by eapply keeps_cycle, touches_keeps.
  destruct (Hp2 Hdep) as [Hp Hran]. rewrite (expected_components_keeps _ _ Hk1) in Hp.
  split; try done. intros c Hc. rewrite Hp in Hup.
  pose proof (Hup c Hc) as Hc'. by rewrite (cycle_namespace _ _ Hk2), (cycle_namespace _ _ Hk1) in Hc'.
Qed.

(** What is deployed together for the custom resource of [s1] is so for that of [s]. *)
Lemma deployed_together_before dp s s1 sg sb sh s2 :
  cycle_keeps s s1 → deployed_together dp s1 sg sb sh s2 → deployed_together dp s sg sb sh s2.
Proof.
  intros Hk [Hd Hb Hh Ha Hm He Hq]. destruct (installed_keeps _ _ Hk) as (Ed & Eb & Eh & Ee).
  rewrite Ed, Eh in Hd. rewrite Eb, (cycle_namespace _ _ Hk) in Hb. rewrite Eh in Hh, Ha. rewrite Ee in He.
  rewrite (cycle_namespace _ _ Hk) in Hm.
  assert (Hcr : ∀ cr, cycle_cr s1 cr → cycle_cr s cr).
  { destruct Hk as [Hns Hn Hs]. intros cr (?&?&?). split_and!; congruence. }
  split; try done.
  - intros Hi Hha. destruct (Hd Hi Hha) as (cr & Hcr1 & Hrest). exists cr. auto.
  - intros Hi. destruct (Hb Hi) as (cr & m & Hcr1 & Hrest). exists cr, m. auto.
  - intros Hi. destruct (Hh Hi) as (cr & Hcr1 & Hrest). exists cr. auto.
  - intros Hi. destruct (Ha Hi) as (s0 & sa & s3 & ? & ? & ? & ? & ? & Hcr1 & ?). exists s0, sa, s3. auto 10.
  - intros Hi. destruct (He Hi) as (cr & Hcr1 & Hrest). exists cr. auto.
Qed.

(** The condition that reports the cycle. *)
Definition cycle_reported s (type : string) (status : bool) : Prop :=
  ∃ c, c ∈ conditions s ∧ LoggingServiceCondition_Reason c = LoggingServiceStatusReason ∧
    LoggingServiceCondition_Type c = type ∧ LoggingServiceCondition_Status c = status.

Lemma report_cycle_wp type status msg s :
  wp (UpdateStatus LoggingServiceStatusReason type status msg)
    (λ _ s', cr_frame s s' ∧ cycle_reported s' type status) (λ _ _, False) s.
Proof.
  eapply wp_mono; [by apply report_wp| |done]. intros [] s' [Hf (c & Hin & Hr & Ht & Hs & _)].
  split; [done|by exists c].
Qed.
End cycle.

(** ** Properties *)

(** C6: a cycle never fails or panics.  After the start of the cycle all five components
    run, in their order and each from the state that the one before it left, whether that
    one failed or not; the error of each that failed is reported at once, as a [Failed]
    condition with the error's text, under its reason (that of FluentBit for the
    high-availability mode); and then the components are waited for.
    The cycle returns true exactly when no component failed and the wait ended well.  Then
    the runs did what their components promise, the components waited for are exactly the
    installed ones, in the order of the runs, and each of them was up in a cluster that the
    wait went through.  This is under the following assumptions: the API server's answer to
    a status update leaves the spec as it is, the bodies of Graylog's answers can be read to
    their end, and a Graylog to be installed has in its custom resource what the code
    dereferences: the HTTP part of its TLS section, its authentication proxy, and no null in
    the list of its content packs. *)
Theorem ReconcileLoggingServiceCluster_success {W}
    `{SystemLaws W, !KubeClientLaws W, !SpecStable W, !BodiesRead W, Encodings, Externals} dp (s : op W) :
  graylog_ready s →
  wp (ReconcileLoggingServiceCluster dp)
    (λ r s', ∃ s1 os s2 started, cycle_ran dp r.2 s s1 os s2 started s' ∧
       r.1 = forallb succeeded os && started ∧
       (r.1 = true → cycle_succeeded r.2 s s1 s2 s')) (λ _ _, False) s.
Proof. apply ReconcileLoggingServiceCluster_wp. Qed.

(** C1: what a successful cycle leaves deployed.  The cycle is its start, which leaves the
    objects of the cluster alone, the runs of Graylog, FluentD, FluentBit, the
    high-availability mode and the events reader, each from the state that the one before
    it left and each successful, and the wait for the components, which ends well.
    Graylog's run, if Graylog is set, ends as [installed] says, and after it the cycle
    sends no request.  When the wait begins, FluentD, FluentBit and the events reader, as
    far as they are set, are deployed together: each one's objects are what its builder and
    its templates give for the custom resource of the cycle with the runtime of the cycle,
    with the credentials that the Secrets had after Graylog's run, and no later reconciler
    took anything of it away.  In the high-availability mode this holds of the forwarder,
    of the aggregator's Service and of the events reader, and the aggregator is ready.  The
    aggregator's StatefulSet and its configuration Secret are as their builder and
    templates give, for those credentials, when the run begins to wait for the aggregator's
    start; during that wait the model lets others change them, and what is deployed of
    FluentD.  Assumed is what a cycle assumes: the API server's answer to a status update
    leaves the spec as it is, the bodies of Graylog's answers can be read to their end, and a
    Graylog to be installed has the HTTP part of its TLS section, its authentication proxy and
    no null content pack. *)
Theorem ReconcileLoggingServiceCluster_deploys {W}
    `{SystemLaws W, !KubeClientLaws W, !SpecStable W, !BodiesRead W, Encodings, Externals} dp (s : op W) :
  graylog_ready s →
  wp (ReconcileLoggingServiceCluster dp)
    (λ r s', r.1 = true → ∃ s1 sg sd sb sh s2,
       cycle_start dp s = (s1, Ret r.2) ∧ objects (op_world s1) = objects (op_world s) ∧
       components_executed r.2 s1 sg sd sb sh s2 ∧ run_pending s2 = (s', Ret true) ∧
       graylog_ran (s1 <| op_pending := [] |>) sg ∧
       deployed_together r.2 s sg sb sh s2 ∧ silent sg s')
    (λ _ _, False) s.
Proof.
  intros Hready. eapply wp_mono; [by apply ReconcileLoggingServiceCluster_wp| |done].
  intros r s' (s1 & os & s2 & started & [Hstart Hb _ Hwait] & Hok & Hs) Hr.
  destruct (Hs Hr) as [(sg & sd & sb & sh & Hran) _ _ _ Hq].
  pose proof (components_ran_together _ _ _ _ _ _ _ Hran) as Htog.
  rewrite Hr in Hok. symmetry in Hok. apply andb_true_iff in Hok as [_ ->].
  exists s1, sg, sd, sb, sh, s2. split_and!; [done| | |done| | |].
  - exact (touches_nil _ _ Hb).
  - by destruct Hran.
  - by destruct Hran.
  - eapply deployed_together_before; [|exact Htog]. by eapply keeps_cycle, touches_keeps.
  - exact (transitivity (together_silent _ _ _ _ _ _ Htog) Hq).
Qed.

(** C29: the outcome of a cycle and its backoff.  The cycle runs once, and neither it nor
    its report fails.  When it returns true, the custom resource, as the operator has it
    and sends its status to the server, says [Success], nothing is requeued and the timeout is
    one second again; when it returns false, the custom resource says [Failed] and the next
    cycle comes after the timeout, which is doubled.
    The parameters of the cycle are kept for the next one.  Assumed is what a cycle assumes:
    the API server's answer to a status update leaves the spec as it is, the bodies of
    Graylog's answers can be read to their end, and a Graylog to be installed has the HTTP
    part of its TLS section, its authentication proxy and no null content pack; and the
    timeout is positive and fits 62 bits (it does for the first 33 failures in a row). *)
Theorem reconcile_instance_backoff {W}
    `{SystemLaws W, !KubeClientLaws W, !SpecStable W, !BodiesRead W, Encodings, Externals} r (s : op W) :
  graylog_ready s → (0 < TimeoutOnFailedReconcile r < 2 ^ 62)%Z →
  wp (reconcile_instance r)
    (λ res s', ∃ ok dp s1,
      ReconcileLoggingServiceCluster (Reconciler_DynamicParameters r) s = (s1, Ret (ok, dp)) ∧
      Reconciler_DynamicParameters res.2 = dp ∧ objects (op_world s') = objects (op_world s1) ∧
      if ok then
        cycle_reported s' Success true ∧ RequeueAfter res.1 = 0%Z ∧
        TimeoutOnFailedReconcile res.2 = InitialTimeoutOnFailedReconcile
      else
        cycle_reported s' Failed false ∧ RequeueAfter res.1 = TimeoutOnFailedReconcile r ∧
        TimeoutOnFailedReconcile res.2 = 2 * TimeoutOnFailedReconcile r)%Z
    (λ _ _, False) s.
Proof.
  intros Hready Ht. unfold reconcile_instance. rewrite wp_bind.
  eapply wp_mono; [by apply wp_self, ReconcileLoggingServiceCluster_wp| |done]. intros [ok dp] s1 [Hrun _].
  destruct ok; cbn [negb]; rewrite wp_bind; (eapply wp_mono; [apply report_cycle_wp| |done]);
    intros [] s2 [Hf Hc]; rewrite wp_ret; [exists true, dp, s1|exists false, dp, s1];
    (split_and!; [done|done|apply Hf|done|done|]); [done|].
  cbn [snd TimeoutOnFailedReconcile]. unfold int64. rewrite wrap_id; lia.
Qed.

(** ** Witnesses *)

#[local] Existing Instances example_externals example_encodings.

(** The events reader's Deployment, up. *)
Definition example_deployment : Object :=
  ODeployment ((zero : Deployment) <| Deployment_ObjectMeta := named EventsReaderComponentName "ns" |>
    <| Deployment_Replicas := Some 1%Z |> <| Deployment_AvailableReplicas := 1%Z |>
    <| Deployment_UpdatedReplicas := 1%Z |>).

Definition example_cycle : op Mem :=
  mkOp (zero <| Mem_arrivals := [(4 * Second, example_deployment)%Z] |>)
    (zero <| LoggingService_ObjectMeta := named "cr" "ns" |>
          <| LoggingService_Spec := zero <| LoggingServiceSpec_CloudEventsReader := Some zero |> |>) [].

Lemma ReconcileLoggingServiceCluster_success_witness :
  let s' := (ReconcileLoggingServiceCluster (mkDynamicParameters "docker") example_cycle).1 in
  ∃ s1, seen_up "ns" s1 s' (mkComponent EventsReaderComponentName EventsReaderStatus).
Proof.
  intros s'. assert (Hr : graylog_ready example_cycle) by (intros Hf; exfalso; discriminate Hf).
  run_theorem (ReconcileLoggingServiceCluster_success (mkDynamicParameters "docker") example_cycle Hr)
    (true, mkDynamicParameters "docker") Hw.
  destruct Hw as (s1 & os & s2 & started & _ & _ & Hs).
  destruct (Hs eq_refl) as [_ _ _ Hup _]. exists s2. apply Hup. left.
Defined.

(** Without the arrival the events reader never starts. *)
Lemma reconcile_instance_backoff_witness :
  let r := mkLoggingServiceReconciler (4 * Second) (mkDynamicParameters "docker") in
  let s := example_cycle <| op_world := zero |> in
  cycle_reported (reconcile_instance r s).1 Failed false.
Proof.
  intros r s. assert (Hr : graylog_ready s) by (intros Hf; exfalso; discriminate Hf).
  assert (Ht : (0 < TimeoutOnFailedReconcile r < 2 ^ 62)%Z) by (vm_compute; done).
  run_theorem (reconcile_instance_backoff r s Hr Ht)
    (mkResult (4 * Second), mkLoggingServiceReconciler (8 * Second) (mkDynamicParameters "docker")) Hw.
  destruct Hw as ([] & dp & s1 & _ & _ & _ & Hc & Hz & _); [discriminate Hz|exact Hc].
Defined.

(** FluentD, FluentBit and the events reader together, each up in time. *)
Definition example_three : op Mem :=
  example_cycle
    <| op_world := zero <| Mem_arrivals :=
         [(4 * Second, example_deployment)%Z; (4 * Second, example_daemonset FluentdComponentName 2)%Z;
          (4 * Second, example_daemonset FluentbitComponentName 2)%Z] |> |>
    <| op_cr ::= λ cr, cr <| LoggingService_Spec ::= λ sp,
         sp <| LoggingServiceSpec_Fluentd := Some zero |> <| LoggingServiceSpec_Fluentbit := Some zero |> |> |>.

Lemma ReconcileLoggingServiceCluster_deploys_witness :
  let s' := (ReconcileLoggingServiceCluster (mkDynamicParameters "docker") example_three).1 in
  ∃ sg s2 cr cr' m,
    fluentd_deployed defaults_Get cr (objects (op_world sg)) (objects (op_world s2)) ∧
    fluentbit_deployed defaults_Get cr' m (objects (op_world s2)) ∧ silent sg s'.
Proof.
  intros s'. assert (Hr : graylog_ready example_three) by (intros Hf; exfalso; discriminate Hf).
  run_theorem (ReconcileLoggingServiceCluster_deploys (mkDynamicParameters "docker") example_three Hr)
    (true, mkDynamicParameters "docker") Hw.
  destruct (Hw eq_refl) as (s1 & sg & sd & sb & sh & s2 & _ & _ & _ & _ & _ & [Hd Hb _ _ _ _ _] & Hq).
  exists sg, s2.
  destruct (Hd ltac:(by vm_compute) ltac:(by vm_compute)) as (cr & _ & _ & Hdep).
  destruct (Hb ltac:(by vm_compute)) as (cr' & m & _ & _ & _ & Hdep'). exists cr, cr', m. auto.
Defined.
