(* ===== verification/Startup.v ===== *)
(** * The start of the operator: cmd/operator/main.go and internal/manager/manager.go

    The command line is parsed as Go's flag package parses it, from which
    [RunManager] builds the options of the manager; [SetupWithManager] says which events
    reach the controller.  The manager of controller-runtime is a class. *)

From Stdlib Require Import Strings.Ascii.
From S2P Require Import Prelude GoStrings KubeTypes Api Client Labels Operator Monitoring.
From S2P Require Import ComponentRun Controller.

(** ** Flags *)

(** [managerFlags], after parsing. *)
Record ManagerFlags : Type := mkManagerFlags {
  metricsAddr : string;
  probeAddr : string;
  pprofEnabled : bool;
  pprofAddr : string;
  leaderElection : bool;
  leaderElectNamespace : string;
  leaderElectionID : string;
}.

#[export] Instance eta_ManagerFlags : Eta ManagerFlags := λ x, mkManagerFlags
  (metricsAddr x) (probeAddr x) (pprofEnabled x) (pprofAddr x) (leaderElection x)
  (leaderElectNamespace x) (leaderElectionID x).

(** The values of the flags that the command line leaves out. *)
Definition managerFlags : ManagerFlags := {|
  metricsAddr := ":8080";
  probeAddr := ":8081";
  pprofEnabled := true;
  pprofAddr := ":9180";
  leaderElection := false;
  leaderElectNamespace := "";
  leaderElectionID := "asd23ha2.logging.netcracker.com";
|}.

(** A flag is a text or a truth value, and says what it sets. *)
Inductive Flag : Type :=
| StringFlag (set : string → ManagerFlags → ManagerFlags)
| BoolFlag (set : bool → ManagerFlags → ManagerFlags).

Definition formal (name : string) : option Flag :=
  if String.eqb name "metrics-bind-address" then Some (StringFlag (λ v f, f <| metricsAddr := v |>))
  else if String.eqb name "health-probe-bind-address" then Some (StringFlag (λ v f, f <| probeAddr := v |>))
  else if String.eqb name "pprof-enable" then Some (BoolFlag (λ v f, f <| pprofEnabled := v |>))
  else if String.eqb name "pprof-address" then Some (StringFlag (λ v f, f <| pprofAddr := v |>))
  else if String.eqb name "leader-elect" then Some (BoolFlag (λ v f, f <| leaderElection := v |>))
  else if String.eqb name "leader-elect-namespace" then Some (StringFlag (λ v f, f <| leaderElectNamespace := v |>))
  else if String.eqb name "leader-election-id" then Some (StringFlag (λ v f, f <| leaderElectionID := v |>))
  else None.

(** [strconv.ParseBool]. *)
Definition ParseBool (s : string) : option bool :=
  if bool_decide (s ∈ ["1"; "t"; "T"; "true"; "TRUE"; "True"]) then Some true
  else if bool_decide (s ∈ ["0"; "f"; "F"; "false"; "FALSE"; "False"]) then Some false
  else None.

(** How the parsing ends: with the flags and the arguments behind them, or, as the set is
    [flag.ExitOnError], with the end of the process. *)
Inductive Parsed : Type :=
| Flags (flags : ManagerFlags) (rest : list string)
| Exit (code : Z).

(** What an argument is: no flag, the "--" that ends the flags, or a flag's name with its
    value, if it has one behind "=". *)
Inductive Argument : Type :=
| NotFlag
| Terminator
| BadSyntax
| Named (name : string) (value : option string).

Definition named_argument (s : string) : Argument :=
  if HasPrefix s "-" || HasPrefix s "=" || String.eqb s "" then BadSyntax
  else let '(name, value, hasValue) := Cut s "=" in Named name (if hasValue then Some value else None).

Definition argument (s : string) : Argument :=
  if negb (HasPrefix s "-") || String.eqb s "-" then NotFlag
  else if String.eqb s "--" then Terminator
  else if HasPrefix s "--" then named_argument (slice_from 2 s)
  else named_argument (slice_from 1 s).

(** [FlagSet.Parse]. *)
Fixpoint parse_flags (args : list string) (flags : ManagerFlags) : Parsed :=
  match args with
  | [] => Flags flags []
  | s :: args' =>
      match argument s with
      | NotFlag => Flags flags args
      | Terminator => Flags flags args'
      | BadSyntax => Exit 2
      | Named name value =>
          match formal name with
          | None => if String.eqb name "help" || String.eqb name "h" then Exit 0 else Exit 2
          | Some (BoolFlag set) =>
              match ParseBool (default "true" value) with
              | Some b => parse_flags args' (set b flags)
              | None => Exit 2
              end
          | Some (StringFlag set) =>
              match value, args' with
              | Some v, _ => parse_flags args' (set v flags)
              | None, v :: args'' => parse_flags args'' (set v flags)
              | None, [] => Exit 2
              end
          end
      end
  end.

(** ** The manager *)

(** [ctrl.Options], by the fields that the code sets. *)
Record Options : Type := mkOptions {
  Options_MetricsBindAddress : string;
  Options_HealthProbeBindAddress : string;
  Options_PprofBindAddress : string;
  Options_ReadinessEndpointName : string;
  Options_LivenessEndpointName : string;
  Options_LeaderElection : bool;
  Options_LeaderElectionNamespace : string;
  Options_LeaderElectionID : string;
  Options_DefaultNamespaces : list string;
}.

Definition manager_options (flags : ManagerFlags) (namespace : string) : Options := {|
  Options_MetricsBindAddress := metricsAddr flags;
  Options_HealthProbeBindAddress := probeAddr flags;
  Options_PprofBindAddress := if pprofEnabled flags then pprofAddr flags else "";
  Options_ReadinessEndpointName := "/ready";
  Options_LivenessEndpointName := "/health";
  Options_LeaderElection := leaderElection flags;
  Options_LeaderElectionNamespace := leaderElectNamespace flags;
  Options_LeaderElectionID := leaderElectionID flags;
  Options_DefaultNamespaces := [namespace];
|}.

(** What [SetupWithManager] registers: the events of custom resources and of Secrets that
    pass, and the custom resources that an event of a Secret is for. *)
Record Registration (W : Type) : Type := mkRegistration {
  For_updated : Z → Z → bool;
  For_deleted : bool → bool;
  Watches_map : string → string → M W (list (string * string));
  Watches_created : Object → bool;
  Watches_deleted : Object → bool;
  Watches_updated : Object → Object → bool;
  Watches_generic : bool;
}.
Arguments mkRegistration {_} _ _ _ _ _ _ _.
Arguments For_updated {_} _ _ _.
Arguments For_deleted {_} _ _.
Arguments Watches_map {_} _ _ _.
Arguments Watches_created {_} _ _.
Arguments Watches_deleted {_} _ _.
Arguments Watches_updated {_} _ _ _.
Arguments Watches_generic {_} _.

(** The manager of controller-runtime; [Complete] registers a reconciler. *)
Class ManagerRuntime (W : Type) := {
  Config : Type;
  Manager : Type;
  GetConfigOrDie : M W Config;
  NewManager : Config → Options → M W Manager;
  AddHealthzCheck : Manager → string → M W unit;
  AddReadyzCheck : Manager → string → M W unit;
  Complete : Manager → Registration W → LoggingServiceReconciler → M W unit;
  Manager_Start : Manager → M W unit;
}.

Section startup.
Context {W : Type} `{KubeClient W, ManagerRuntime W, MonitoringClient W}.

Definition registration : Registration W := {|
  For_updated := generation_updated;
  For_deleted := deletion_known;
  Watches_map := mapSecretToLoggingServices;
  Watches_created := secret_created;
  Watches_deleted := secret_deleted;
  Watches_updated := secret_updated;
  Watches_generic := false;
|}.

Definition SetupWithManager (mgr : Manager) (r : LoggingServiceReconciler) : M W unit :=
  Complete mgr registration r.

(** An error of [m], wrapped. *)
Definition wrapped {A} (msg : string) (m : M W A) : M W A :=
  r ← attempt m;
  match r with
  | inl err => fail (errorf_wrap msg err)
  | inr a => mret a
  end.

(** [os.LookupEnv("WATCH_NAMESPACE")]. *)
Definition watch_namespace (environment : string → option string) : string :=
  default "logging" (environment "WATCH_NAMESPACE").

(** [RunManager] with the flags of the command line. *)
Definition run_manager (environment : string → option string) (flags : ManagerFlags) : M W unit :=
  let namespace := watch_namespace environment in
  config ← GetConfigOrDie;
  mgr ← wrapped "unable to create manager" (NewManager config (manager_options flags namespace));
  wrapped "unable to set up health check" (AddHealthzCheck mgr "health");;
  wrapped "unable to set up ready check" (AddReadyzCheck mgr "ready");;
  wrapped "unable to create the LoggingService controller"
    (SetupWithManager mgr (mkLoggingServiceReconciler InitialTimeoutOnFailedReconcile (mkDynamicParameters "")));;
  createMetricsPodMonitor (λ name, default "" (environment name)) namespace;;
  wrapped "problem running manager" (Manager_Start mgr).

(** [RunManager]: the exit code of the process, if the parsing of the flags ends it. *)
Definition RunManager (environment : string → option string) (args : list string) : M W (option Z) :=
  match parse_flags args managerFlags with
  | Exit code => mret (Some code)
  | Flags flags _ => run_manager environment flags;; mret None
  end.

(** [main]: the exit code. *)
Definition main (environment : string → option string) (args : list string) : M W Z :=
  r ← attempt (RunManager environment args);
  match r with
  | inl _ => mret 1%Z
  | inr code => mret (default 0%Z code)
  end.
End startup.

(** ** The command line *)

Definition flag_argument (name value : string) : string := "--" +:+ name +:+ "=" +:+ value.

Definition flag_bool (b : bool) : string := if b then "true" else "false".

(** A command line that sets every flag. *)
Definition render_flags (f : ManagerFlags) : list string :=
  [ flag_argument "metrics-bind-address" (metricsAddr f);
    flag_argument "health-probe-bind-address" (probeAddr f);
    flag_argument "pprof-enable" (flag_bool (pprofEnabled f));
    flag_argument "pprof-address" (pprofAddr f);
    flag_argument "leader-elect" (flag_bool (leaderElection f));
    flag_argument "leader-elect-namespace" (leaderElectNamespace f);
    flag_argument "leader-election-id" (leaderElectionID f) ].

(** A name that can be a flag's. *)
Definition flag_name (name : string) : Prop :=
  char_free "=" name ∧ negb (HasPrefix name "-") && negb (HasPrefix name "=") && negb (String.eqb name "") = true.

Lemma argument_long name value :
  flag_name name → argument (flag_argument name value) = Named name (Some value).
Proof.
  intros [Hfree [[Hd Heq]%andb_true_iff Hne]%andb_true_iff]. unfold argument, flag_argument.
  destruct name as [|c name]; [done|]. cbn. unfold named_argument.
  change (String c (name +:+ String "=" value)) with (String c name +:+ String "=" value).
  rewrite (Cut_char_app "=" (String c name) value Hfree).
  replace (HasPrefix (String c name +:+ String "=" value) "-") with (HasPrefix (String c name) "-") by done.
  replace (HasPrefix (String c name +:+ String "=" value) "=") with (HasPrefix (String c name) "=") by done.
  rewrite negb_true_iff in Hd, Heq. rewrite Hd, Heq. done.
Qed.

Lemma parse_string_flag name set value args flags :
  flag_name name → formal name = Some (StringFlag set) →
  parse_flags (flag_argument name value :: args) flags = parse_flags args (set value flags).
Proof. intros Hn Hf. cbn [parse_flags]. by rewrite argument_long, Hf. Qed.

Lemma parse_bool_flag name set (b : bool) args flags :
  flag_name name → formal name = Some (BoolFlag set) →
  parse_flags (flag_argument name (flag_bool b) :: args) flags = parse_flags args (set b flags).
Proof. intros Hn Hf. cbn [parse_flags]. rewrite argument_long, Hf by done. by destruct b. Qed.

(** ** The order of the start *)

(** A call of the manager. *)
Inductive Call : Type :=
| CallNew (options : Options)
| CallHealthz (name : string)
| CallReadyz (name : string)
| CallComplete (r : LoggingServiceReconciler)
| CallStart.

(** What was called so far; the other clients call nothing of the manager. *)
Class ManagerObserved (W : Type) `{KubeClient W, ManagerRuntime W, MonitoringClient W} := {
  calls : W → list Call;
  GetConfig_calls w : calls (GetConfigOrDie w).1 = calls w;
  NewManager_calls c o w : calls (NewManager c o w).1 = calls w ++ [CallNew o];
  Healthz_calls mgr name w : calls (AddHealthzCheck mgr name w).1 = calls w ++ [CallHealthz name];
  Readyz_calls mgr name w : calls (AddReadyzCheck mgr name w).1 = calls w ++ [CallReadyz name];
  Complete_calls mgr reg r w : calls (Complete mgr reg r w).1 = calls w ++ [CallComplete r];
  Start_calls mgr w : calls (Manager_Start mgr w).1 = calls w ++ [CallStart];
  Discovery_calls w : calls (ServerGroupsAndResources w).1 = calls w;
  PodMonitors_calls ns pm w : calls (PodMonitors_Create ns pm w).1 = calls w;
}.

Section order.
Context {W : Type} `{ManagerObserved W}.

(** [m] makes the calls [l] in their order, and all of them if it returns. *)
Definition emits {A} (l : list Call) (m : M W A) : Prop :=
  ∀ w, ∃ n, calls (m w).1 = calls w ++ take n l ∧ (∀ a, (m w).2 = Ret a → n = length l).

Lemma emits_one {A} c (m : M W A) : (∀ w, calls (m w).1 = calls w ++ [c]) → emits [c] m.
Proof. intros Hm w. exists 1. by rewrite Hm. Qed.

Lemma emits_none {A} (m : M W A) : (∀ w, calls (m w).1 = calls w) → emits [] m.
Proof. intros Hm w. exists 0. by rewrite Hm, app_nil_r. Qed.

Lemma emits_bind {A B} l1 l2 (m : M W A) (k : A → M W B) :
  emits l1 m → (∀ a, emits l2 (k a)) → emits (l1 ++ l2) (m ≫= k).
Proof.
  intros Hm Hk w. destruct (Hm w) as (n1 & Hc1 & Hr1). unfold mbind, M_bind.
  destruct (m w) as [w1 [a|e|]]; cbn [fst snd] in *.
  - rewrite (Hr1 a eq_refl), take_ge in Hc1 by done. destruct (Hk a w1) as (n2 & Hc2 & Hr2).
    exists (length l1 + n2). rewrite Hc2, Hc1, take_app_add, <- app_assoc. split; [done|].
    intros b Hb. rewrite length_app. f_equal. by eapply Hr2.
  - exists (n1 `min` length l1). rewrite take_app_le, <- take_take by lia.
    split; [|done]. rewrite Hc1. by rewrite (take_ge l1 (length l1)) by lia.
  - exists (n1 `min` length l1). rewrite take_app_le, <- take_take by lia.
    split; [|done]. rewrite Hc1. by rewrite (take_ge l1 (length l1)) by lia.
Qed.

Lemma emits_wrapped {A} l msg (m : M W A) : emits l m → emits l (wrapped msg m).
Proof.
  intros Hm w. destruct (Hm w) as (n & Hc & Hr). exists n. unfold wrapped, attempt, mbind, M_bind.
  by destruct (m w) as [w1 [a|e|]].
Qed.

(** What makes no call at all. *)
Lemma steps_emits {A} (m : M W A) : steps (λ w w', calls w' = calls w) m → emits [] m.
Proof. intros Hm. apply emits_none, Hm. Qed.

#[local] Instance same_calls : PreOrder (λ w w' : W, calls w' = calls w).
Proof. split; [done|]. intros w1 w2 w3 H1' H2'. congruence. Qed.

Lemma create_monitors_calls ns services sInterval sTimeout :
  steps (λ w w' : W, calls w' = calls w) (create_monitors ns services sInterval sTimeout).
Proof.
  induction services as [|[s|] services IH]; cbn [create_monitors]; [apply steps_ret| |exact IH].
  apply steps_bind; [apply steps_attempt; intros w; apply PodMonitors_calls|]. steps.
Qed.

Lemma createMetricsPodMonitor_calls env ns :
  steps (λ w w' : W, calls w' = calls w) (createMetricsPodMonitor env ns).
Proof.
  unfold createMetricsPodMonitor. case_match; [apply steps_ret|]. apply steps_logged.
  unfold CreatePodMonitors, hasPodMonitor, ResourceExists. steps; [intros w; apply Discovery_calls|].
  apply create_monitors_calls.
Qed.

(** The calls of a start that goes through. *)
Definition startup_calls (environment : string → option string) (flags : ManagerFlags) : list Call :=
  [ CallNew (manager_options flags (watch_namespace environment)); CallHealthz "health"; CallReadyz "ready";
    CallComplete (mkLoggingServiceReconciler InitialTimeoutOnFailedReconcile (mkDynamicParameters "")); CallStart ].

Lemma run_manager_emits environment flags : emits (startup_calls environment flags) (run_manager environment flags).
Proof.
  unfold run_manager. apply (emits_bind []); [apply emits_none, GetConfig_calls|]. intros config.
  apply (emits_bind [_]); [apply emits_wrapped, emits_one, NewManager_calls|]. intros mgr.
  apply (emits_bind [_]); [apply emits_wrapped, emits_one, Healthz_calls|]. intros _.
  apply (emits_bind [_]); [apply emits_wrapped, emits_one, Readyz_calls|]. intros _.
  apply (emits_bind [_]); [apply emits_wrapped, emits_one, Complete_calls|]. intros _.
  apply (emits_bind []); [apply steps_emits, createMetricsPodMonitor_calls|]. intros _.
  apply emits_wrapped, emits_one, Start_calls.
Qed.
End order.

(** ** Properties *)

(** Whatever the values of the flags, a command line that sets them is parsed
    back to exactly them, with no argument left. *)
Theorem parse_render_flags f flags : parse_flags (render_flags f) flags = Flags f [].
Proof.
  unfold render_flags.
  erewrite (parse_string_flag "metrics-bind-address") by done.
  erewrite (parse_string_flag "health-probe-bind-address") by done.
  erewrite (parse_bool_flag "pprof-enable") by done.
  erewrite (parse_string_flag "pprof-address") by done.
  erewrite (parse_bool_flag "leader-elect") by done.
  erewrite (parse_string_flag "leader-elect-namespace") by done.
  erewrite (parse_string_flag "leader-election-id") by done.
  by destruct f.
Qed.

(** C30: the start of the operator.  With flags that parse, the manager is called in one order
    only: it is created for the one namespace of the environment, or "logging", with pprof
    only if that is enabled; its probes and then the controller, with the initial timeout and
    no runtime, are registered; and only then it is started.  Whatever fails, the calls made are
    a beginning of that order, and the process ends with 0 only when all of them were made; flags
    that do not parse end the process, with the code of the flag package, before any call.  (The
    calls are those of a manager that keeps them; the other clients call nothing of it.) *)
Theorem main_starts {W} `{ManagerObserved W} environment args (w : W) :
  ∃ n,
    calls (main environment args w).1 = calls w ++
      take n (match parse_flags args managerFlags with
              | Flags flags _ => startup_calls environment flags
              | Exit _ => []
              end) ∧
    match parse_flags args managerFlags with
    | Flags _ _ => (main environment args w).2 = Ret 0%Z → n = 5
    | Exit code => (main environment args w).2 = Ret code
    end.
Proof.
  unfold main, RunManager. destruct (parse_flags args managerFlags) as [flags rest|code].
  - destruct (run_manager_emits environment flags w) as (n & Hc & Hr). exists n.
    unfold attempt, mbind, M_bind. destruct (run_manager environment flags w) as [w' [[]|e|]]; cbn in *.
    + split; [done|]. intros _. by apply (Hr tt).
    + by split.
    + by split.
  - exists 0. by rewrite app_nil_r.
Qed.

(** ** A host in memory

    A cluster in memory with a manager that keeps its calls; those of [Host_refused] fail. *)

Record Host : Type := mkHost {
  Host_cluster : Mem;
  Host_calls : list Call;
  Host_refused : Call → bool;
}.

(** A call of the cluster's client. *)
Definition on_cluster {A} (m : M Mem A) : M Host A := λ w,
  let (c, r) := m (Host_cluster w) in (mkHost c (Host_calls w) (Host_refused w), r).

Definition host_Sleep (d : Z) (w : Host) : Host :=
  mkHost (mem_Sleep d (Host_cluster w)) (Host_calls w) (Host_refused w).

Fixpoint host_poll {B} (fuel : nat) (interval : Z) (cond : M (Host * B) bool) (s : Host * B) :
    (Host * B) * outcome unit :=
  match cond s with
  | (s', Ret true) => (s', Ret tt)
  | (s', Fail e) => (s', Fail e)
  | (s', Panic) => (s', Panic)
  | ((w, b), Ret false) =>
      match fuel with
      | O => ((w, b), Fail (mkError Interrupted "context deadline exceeded"))
      | S fuel => host_poll fuel interval cond (host_Sleep interval w, b)
      end
  end.

#[export] Instance KubeClient_Host : KubeClient Host := {|
  client_Get k := on_cluster (client_Get k);
  client_Create o := on_cluster (client_Create o);
  client_Update o := on_cluster (client_Update o);
  client_Delete k := on_cluster (client_Delete k);
  client_ListPods ns sel := on_cluster (client_ListPods ns sel);
  client_DeletePod p := on_cluster (client_DeletePod p);
  client_ListNodes := on_cluster client_ListNodes;
  client_GetLoggingService ns name := on_cluster (client_GetLoggingService ns name);
  client_ListLoggingServices ns := on_cluster (client_ListLoggingServices ns);
  client_PatchStatus cr := on_cluster (client_PatchStatus cr);
  SetControllerReference := SetControllerReference (W := Mem);
  time_Now w := time_Now (Host_cluster w);
  meta_Now_String w := meta_Now_String (Host_cluster w);
  time_Sleep := host_Sleep;
  PollUntilContextTimeout B interval timeout cond :=
    host_poll (Z.to_nat (timeout / interval)) interval cond;
|}.

(** A call of the manager. *)
Definition host_call (c : Call) : M Host unit := λ w,
  (mkHost (Host_cluster w) (Host_calls w ++ [c]) (Host_refused w),
   if Host_refused w c then Fail (errors_New "refused") else Ret tt).

#[export] Instance ManagerRuntime_Host : ManagerRuntime Host := {|
  Config := unit;
  Manager := unit;
  GetConfigOrDie := mret tt;
  NewManager _ options := host_call (CallNew options);
  AddHealthzCheck _ name := host_call (CallHealthz name);
  AddReadyzCheck _ name := host_call (CallReadyz name);
  Complete _ _ r := host_call (CallComplete r);
  Manager_Start _ := host_call CallStart;
|}.

(** A cluster that knows no PodMonitor. *)
#[export] Instance MonitoringClient_Host : MonitoringClient Host := {|
  ServerGroupsAndResources := mret [];
  PodMonitors_Create _ _ := fail (errors_New "the server could not find the requested resource");
|}.

#[export, refine] Instance ManagerObserved_Host : ManagerObserved Host := {| calls := Host_calls |}.
Proof. all: done. Defined.

(** A start that goes through, and one whose second probe is refused. *)
Lemma main_starts_witness :
  let environment name := if String.eqb name "WATCH_NAMESPACE" then Some "logs" else None in
  let args := ["--pprof-enable=false"; "--leader-elect"] in
  let flags := managerFlags <| pprofEnabled := false |> <| leaderElection := true |> in
  let host refused := mkHost zero [] refused in
  calls (main environment args (host (λ _, false))).1 = startup_calls environment flags ∧
  ∃ n, calls (main environment args (host (λ c, if c is CallReadyz _ then true else false))).1
       = take n (startup_calls environment flags) ∧ n ≠ 5.
Proof.
  intros environment args flags host.
  assert (Hp : parse_flags args managerFlags = Flags flags []) by (vm_compute; reflexivity). split.
  - destruct (main_starts environment args (host (λ _, false))) as (n & Hc & Hn). rewrite Hp in Hc, Hn.
    assert (Hr : (main environment args (host (λ _, false))).2 = Ret 0%Z) by (vm_compute; reflexivity).
    rewrite Hc, (Hn Hr). reflexivity.
  - destruct (main_starts environment args (host (λ c, if c is CallReadyz _ then true else false)))
      as (n & Hc & Hn). rewrite Hp in Hc, Hn. exists n. split; [exact Hc|]. intros ->.
    apply (f_equal length) in Hc. vm_compute in Hc. discriminate Hc.
Defined.
