(* ===== verification/Scheme.v ===== *)
(** * Scheme: api/v1/groupversion_info.go, and the init of internal/manager/manager.go

    The scheme says which Go type an object of the API server is decoded into.  The package
    of the custom resource collects its types and a builder that registers them; the manager
    fills its scheme before anything runs, and panics when that fails.  The scheme of
    apimachinery is a class. *)

From S2P Require Import Prelude.

Record GroupVersion_t : Type := mkGroupVersion { GroupVersion_Group : string; GroupVersion_Version : string }.

#[export] Instance GroupVersion_eq_dec : EqDecision GroupVersion_t.
Proof. solve_decision. Defined.

(** [runtime.Scheme], with the functions of other packages that fill it.  [Recognizes] tells
    whether a kind is registered. *)
Class SchemeRuntime (Sc : Type) := {
  NewScheme : Sc;
  Recognizes : Sc → GroupVersion_t → string → bool;
  AddKnownTypes : GroupVersion_t → list string → M Sc unit;
  AddToGroupVersion : GroupVersion_t → M Sc unit;
  clientgoscheme_AddToScheme : M Sc unit;
}.

Definition GroupVersion : GroupVersion_t := mkGroupVersion "logging.netcracker.com" "v1".

(** [AddKnownTypes] panics when a kind of the group is already another type's; the rest adds
    to what is there, client-go only for the groups of Kubernetes. *)
Class SchemeLaws (Sc : Type) `{SchemeRuntime Sc} : Prop := {
  NewScheme_empty gv k : Recognizes NewScheme gv k = false;
  AddKnownTypes_adds gv ks s : Forall (λ k, Recognizes s gv k = false) ks →
    wp (AddKnownTypes gv ks)
      (λ _ s', ∀ gv' k, Recognizes s' gv' k = Recognizes s gv' k || bool_decide (gv' = gv ∧ k ∈ ks))
      (λ _ _, False) s;
  AddToGroupVersion_keeps gv s :
    wp (AddToGroupVersion gv) (λ _ s', ∀ gv' k, Recognizes s gv' k → Recognizes s' gv' k) (λ _ _, False) s;
  clientgo_other_groups s :
    wp clientgoscheme_AddToScheme
      (λ _ s', ∀ k, Recognizes s' GroupVersion k = Recognizes s GroupVersion k) (λ _ _, False) s;
}.

(** [objectTypes], nil until the init of loggingservice_types.go appends to it. *)
Definition objectTypes_nil : list string := [].
Definition objectTypes : list string := objectTypes_nil ++ ["LoggingService"; "LoggingServiceList"].

Section scheme.
Context {Sc : Type} `{SchemeRuntime Sc}.

Definition addKnownTypes : M Sc unit :=
  AddKnownTypes GroupVersion objectTypes;;
  AddToGroupVersion GroupVersion.

(** [runtime.NewSchemeBuilder(addKnownTypes)]: the functions that fill a scheme. *)
Definition SchemeBuilder : list (M Sc unit) := [addKnownTypes].

Definition AddToScheme : M Sc unit := for_each SchemeBuilder id.

(** [utilruntime.Must(f(scheme))]. *)
Definition Must (m : M Sc unit) : M Sc unit :=
  r ← attempt m; match r with inl _ => panic | inr _ => mret tt end.

(** [init()] of the manager, on [apiruntime.NewScheme()]. *)
Definition manager_init : M Sc unit :=
  Must clientgoscheme_AddToScheme;;
  Must AddToScheme.
End scheme.

Lemma wp_Must {Sc} (m : M Sc unit) Q E s : wp m (λ _, Q tt) (λ _ _, False) s → wp (Must m) Q E s.
Proof.
  intros Hm. unfold Must. rewrite wp_bind, wp_attempt. eapply wp_mono; [exact Hm| |by intros ? ? []].
  by intros [] s' HQ.
Qed.

(** The scheme of the manager is complete: the init does not panic, and afterwards every
    object type of the package is registered in its group. *)
Lemma manager_init_registers {Sc} `{SchemeLaws Sc} :
  wp manager_init (λ _ s, ∀ k, k ∈ objectTypes → Recognizes s GroupVersion k) (λ _ _, False) NewScheme.
Proof.
  unfold manager_init. wp_simpl. apply wp_Must.
  eapply wp_mono; [apply clientgo_other_groups| |done]. intros [] s1 H1. apply wp_Must.
  unfold AddToScheme, SchemeBuilder, addKnownTypes. cbn [for_each]. unfold id. wp_simpl.
  eapply wp_mono; [apply AddKnownTypes_adds| |done].
  { apply Forall_forall. intros k _. by rewrite H1, NewScheme_empty. }
  intros [] s2 H2. eapply wp_mono; [apply AddToGroupVersion_keeps| |done].
  intros [] s3 H3. wp_simpl. intros k Hk. apply H3. rewrite H2, orb_True. right. by apply bool_decide_pack.
Qed.

(** A scheme as the set of its kinds. *)
#[export] Instance SchemeRuntime_set : SchemeRuntime (list (GroupVersion_t * string)) := {|
  NewScheme := [];
  Recognizes s gv k := bool_decide ((gv, k) ∈ s);
  AddKnownTypes gv ks := modify (λ s, (pair gv <$> ks) ++ s);
  AddToGroupVersion gv := modify (λ s, (pair gv <$> ["ListOptions"; "WatchEvent"]) ++ s);
  clientgoscheme_AddToScheme := modify (λ s, (mkGroupVersion "apps" "v1", "StatefulSet") :: s);
|}.

#[export] Instance SchemeLaws_set : SchemeLaws (list (GroupVersion_t * string)).
Proof.
  assert (∀ gv ks (s : list (GroupVersion_t * string)) gv' k,
    (gv', k) ∈ (pair gv <$> ks) ++ s ↔ (gv', k) ∈ s ∨ gv' = gv ∧ k ∈ ks) as Hin.
  { intros gv ks s gv' k. rewrite elem_of_app, list_elem_of_fmap. naive_solver. }
  split.
  - done.
  - intros gv ks s _ gv' k. cbn. apply eq_true_iff_eq.
    by rewrite orb_true_iff, !bool_decide_eq_true, Hin.
  - intros gv s gv' k. cbn. rewrite !bool_decide_spec, !elem_of_cons. tauto.
  - intros s k. cbn. apply bool_decide_ext. rewrite elem_of_cons. naive_solver.
Qed.
