(* ===== verification/PipelineTest.v ===== *)
(** * The comparison of the pipeline test: test/fluent-pipeline

    agent/agent.go, stage/testing/util.go and stage/testing/testing.go: the records that an
    agent wrote for the fixtures are compared with the expected ones.  A decoded record is
    the list of its members, sorted by name ([decode_any]), so that [reflect.DeepEqual] of two
    of them is equality.  The files are arguments; what is only printed is left out. *)

From S2P Require Import Prelude GoStrings KubeTypes Api Net Monitoring GraylogRest.
From S2P Require Import GraylogUploads.

(** ** agent.go *)

Inductive Agent : Type := AgentFluentbit | AgentFluentd | AgentForwarder | AgentAggregator.

Definition GetOutputFileName (agent : Agent) : string :=
  match agent with AgentFluentd => "fake-fluent.log" | _ => "output-log" end.

Definition Agent_String (agent : Agent) : string :=
  match agent with
  | AgentFluentbit => "Fluent Bit"
  | AgentFluentd => "Fluentd"
  | AgentForwarder => "Fluent Bit forwarder"
  | AgentAggregator => "Fluent Bit aggregator"
  end.

Definition inputCustomConf : string := "input-custom.conf".
Definition filterCustomConf : string := "filter-custom.conf".
Definition outputCustomConf : string := "output-custom.conf".

(** The data with the custom sections; none, when the part of the custom resource is nil. *)
Definition UpdateCustomConfiguration (agent : Agent) (data : smap) (cr : LoggingService) : option smap :=
  let spec := LoggingService_Spec cr in
  match agent with
  | AgentFluentbit =>
      fluentbit ← LoggingServiceSpec_Fluentbit spec;
      Some (<[outputCustomConf := Fluentbit_CustomOutputConf fluentbit]>
        (<[filterCustomConf := Fluentbit_CustomFilterConf fluentbit]>
        (<[inputCustomConf := Fluentbit_CustomInputConf fluentbit]> data)))
  | AgentFluentd =>
      fluentd ← LoggingServiceSpec_Fluentd spec;
      Some (<[outputCustomConf := Fluentd_CustomOutputConf fluentd]>
        (<[filterCustomConf := Fluentd_CustomFilterConf fluentd]>
        (<[inputCustomConf := Fluentd_CustomInputConf fluentd]> data)))
  | AgentForwarder =>
      fluentbit ← LoggingServiceSpec_Fluentbit spec;
      Some (<[filterCustomConf := Fluentbit_CustomFilterConf fluentbit]>
        (<[inputCustomConf := Fluentbit_CustomInputConf fluentbit]> data))
  | AgentAggregator =>
      fluentbit ← LoggingServiceSpec_Fluentbit spec;
      aggregator ← Fluentbit_Aggregator fluentbit;
      Some (<[outputCustomConf := FluentbitAggregator_CustomOutputConf aggregator]>
        (<[filterCustomConf := FluentbitAggregator_CustomFilterConf aggregator]> data))
  end.

(** [initAgent] of main.go; the regular expressions have an optional hyphen. *)
Definition initAgent (agentString : string) : option Agent :=
  let lower := ToLower agentString in
  if EqualFold agentString "fluentd" then Some AgentFluentd
  else if bool_decide (lower ∈ ["fluentbit"; "fluent-bit"]) then Some AgentFluentbit
  else if bool_decide (lower ∈ ["fluentbitforwarder"; "fluentbit-forwarder"; "fluent-bitforwarder";
                                "fluent-bit-forwarder"]) then Some AgentForwarder
  else if bool_decide (lower ∈ ["fluentbitaggregator"; "fluentbit-aggregator"; "fluent-bitaggregator";
                                "fluent-bit-aggregator"]) then Some AgentAggregator
  else None.

(** ** util.go *)

Abbreviation record := (list (string * JSON)).

(** [m[k]] of a map. *)
Fixpoint member (k : string) (ms : record) : option JSON :=
  match ms with
  | [] => None
  | (k', v) :: ms => if String.eqb k' k then Some v else member k ms
  end.

Definition DeepEqual (v1 v2 : JSON) : bool := bool_decide (v1 = v2).

Definition testMetadataKey : string := "_test".
Definition defaultMatchOn : list string := ["time"].

Record testMetadata : Type := mkTestMetadata {
  testMetadata_ID : string;
  testMetadata_MatchOn : list string;
  testMetadata_Partial : bool;
  testMetadata_Absent : list string;
  testMetadata_Dropped : bool;
}.

(** Fields of type bool and []string. *)
Fixpoint decode_bool (name : string) (ms : record) (value : bool) : error + bool :=
  match ms with
  | [] => inr value
  | (k, v) :: ms =>
      if EqualFold k name then
        match v with
        | JBool b => decode_bool name ms b
        | JNull => decode_bool name ms value
        | _ => inl json_type_error
        end
      else decode_bool name ms value
  end.

Definition decode_text (v : JSON) : error + string :=
  match v with JString s => inr s | JNull => inr "" | _ => inl json_type_error end.

Fixpoint decode_strings (name : string) (ms : record) (value : list string) : error + list string :=
  match ms with
  | [] => inr value
  | (k, v) :: ms =>
      if EqualFold k name then
        match decode_slice decode_text v with inl err => inl err | inr vs => decode_strings name ms vs end
      else decode_strings name ms value
  end.

(** The object that was marshalled and is unmarshalled into the struct. *)
Definition decode_testMetadata (raw : JSON) : error + testMetadata :=
  match decode_members raw with
  | inl err => inl err
  | inr ms =>
      match decode_string "id" ms "", decode_strings "matchOn" ms [], decode_bool "partial" ms false,
            decode_strings "absent" ms [], decode_bool "dropped" ms false with
      | inr i, inr m, inr p, inr a, inr d => inr (mkTestMetadata i m p a d)
      | inl err, _, _, _, _ | _, inl err, _, _, _ | _, _, inl err, _, _ | _, _, _, inl err, _
      | _, _, _, _, inl err => inl err
      end
  end.

Definition getTestMetadata (expected : record) : option testMetadata :=
  match member testMetadataKey expected with
  | None => None
  | Some raw => match decode_testMetadata raw with inl _ => None | inr metadata => Some metadata end
  end.

Definition matchFields (m : testMetadata) : list string :=
  match testMetadata_MatchOn m with [] => defaultMatchOn | fields => fields end.

Fixpoint lookup_path (current : JSON) (parts : list string) : option JSON :=
  match parts with
  | [] => Some current
  | part :: parts =>
      match current with
      | JObject object => match member part object with Some v => lookup_path v parts | None => None end
      | _ => None
      end
  end.

Definition lookupField (rec : record) (path : string) : option JSON := lookup_path (JObject rec) (Split path ".").

(** The values of the match fields, or the first of them that is not there. *)
Fixpoint selector_loop (expected : record) (fields : list string) (values : record) : record * string :=
  match fields with
  | [] => (values, "")
  | field :: fields =>
      match lookupField expected field with
      | None => ([], field)
      | Some value => selector_loop expected fields (values ++ [(field, value)])
      end
  end.

Definition selectorValues (expected : record) (metadata : testMetadata) : record * string :=
  selector_loop expected (matchFields metadata) [].

Definition carriesValues (actual values : record) : bool :=
  forallb (λ '(field, value),
    match lookupField actual field with
    | Some actualValue => DeepEqual actualValue value
    | None => false
    end) values.

Definition findActualRecords (actualRecords : list record) (values : record) : list nat :=
  (filter (λ p, carriesValues p.2 values = true) (imap pair actualRecords)).*1.

(** A value of the expected record and the one of the output. *)
Fixpoint subset_value (expectedValue actualValue : JSON) {struct expectedValue} : bool :=
  match expectedValue with
  | JObject ms =>
      match actualValue with
      | JObject actual =>
          (fix go ms := match ms with
                        | [] => true
                        | (key, v) :: ms =>
                            match member key actual with Some a => subset_value v a | None => false end && go ms
                        end) ms
      | _ => false
      end
  | _ => DeepEqual expectedValue actualValue
  end.

Definition isSubset (expected actual : record) : bool := subset_value (JObject expected) (JObject actual).

Definition stated_fields (expected : record) : record := filter (λ p, p.1 ≠ testMetadataKey) expected.

Definition compareRecord (expected actual : record) (metadata : testMetadata) : bool :=
  let expectedFields := stated_fields expected in
  if negb (testMetadata_Partial metadata) then DeepEqual (JObject expectedFields) (JObject actual)
  else
    isSubset expectedFields actual &&
    forallb (λ field, negb (bool_decide (is_Some (lookupField actual field)))) (testMetadata_Absent metadata).

(** A modification gives the expected record as it leaves it, and an error. *)
Definition RecordModifyFunc : Type := record → record → string → record * option error.

Definition contains (slc : list string) (el : string) : bool := existsb (String.eqb el) slc.

Definition ignoreFluentdTimeFunc (ignoreFluentdTimeFiles : string) : RecordModifyFunc := λ expected actual file,
  let ignoreFiles := Split ignoreFluentdTimeFiles "," in
  (if contains ignoreFiles file
   then insert_member "fluentd_time" (default JNull (member "fluentd_time" actual)) expected
   else expected, None).

Definition GetModificationFuncs (agent ignoreFluentdTimeFiles : string) : list RecordModifyFunc :=
  if EqualFold agent "fluentd" && (0 <? len ignoreFluentdTimeFiles)
  then [ignoreFluentdTimeFunc ignoreFluentdTimeFiles] else [].

(** The record after the functions, up to the first that fails. *)
Fixpoint applyModificationFuncs (rec actual : record) (file : string) (fs : list RecordModifyFunc) : record :=
  match fs with
  | [] => rec
  | f :: fs =>
      match f rec actual file with
      | (rec, None) => applyModificationFuncs rec actual file fs
      | (rec, Some _) => rec
      end
  end.

(** ** testing.go *)

Definition escape : string := String (Ascii.ascii_of_nat 27) "".
Definition succeeded : string := escape +:+ "[32mSucceeded" +:+ escape +:+ "[0m".
Definition failed : string := escape +:+ "[31mFailed" +:+ escape +:+ "[0m".
Definition differencesStatus : string :=
  escape +:+ "[33;20mLog is processed, but with differences" +:+ escape +:+ "[0m".
Definition logNotFoundStatus : string := escape +:+ "[31mLog is not found in output" +:+ escape +:+ "[0m".
Definition moreThanOneLogStatus : string :=
  escape +:+ "[31mMore than one matching log in output" +:+ escape +:+ "[0m".
Definition notDroppedStatus : string :=
  escape +:+ "[31mLog is in output but was expected to be dropped" +:+ escape +:+ "[0m".
Definition alreadyMatchedStatus : string :=
  escape +:+ "[31mAnother expected record already matches this output record" +:+ escape +:+ "[0m".

Record reportRow : Type := mkReportRow {
  reportRow_id : string;
  reportRow_status : string;
  reportRow_details : string;
}.

Record comparison : Type := mkComparison {
  actualRecords : list record;
  claimedBy : list string;
  modificationFuncs : list RecordModifyFunc;
  report : list reportRow;
  filesWithoutTestID : list string;
  unexpected : list record;
  success : bool;
}.

#[export] Instance eta_comparison : Eta comparison := λ c, mkComparison (actualRecords c) (claimedBy c)
  (modificationFuncs c) (report c) (filesWithoutTestID c) (unexpected c) (success c).

(** The first claim of each record holds. *)
Definition claim (indexes : list nat) (id : string) (c : comparison) : comparison :=
  c <| claimedBy ::= λ claims, foldl (λ claims index,
    if bool_decide (claims !! index = Some "") then <[index := id]> claims else claims) claims indexes |>.

Fixpoint claimant (c : comparison) (indexes : list nat) : string * nat :=
  match indexes with
  | [] => ("", 0)
  | index :: indexes =>
      let owner := default "" (claimedBy c !! index) in
      if negb (String.eqb owner "") then (owner, index) else claimant c indexes
  end.

Definition add_row (row : reportRow) (c : comparison) : comparison := c <| report ::= λ rows, rows ++ [row] |>.

Definition fail_record (id details : string) (c : comparison) : comparison :=
  add_row (mkReportRow id failed details) (c <| success := false |>).

Definition compareExpectedRecord (expectedFile : string) (rec : record) (c : comparison) : comparison :=
  match getTestMetadata rec with
  | Some metadata =>
      let id := testMetadata_ID metadata in
      if String.eqb id "" then c <| success := false |> <| filesWithoutTestID ::= λ fs, fs ++ [expectedFile] |>
      else
        let '(values, missing) := selectorValues rec metadata in
        if negb (String.eqb missing "")
        then fail_record id ("expected record has no " +:+ quoted missing +:+ " field to match on") c
        else
          let indexes := findActualRecords (actualRecords c) values in
          if negb (String.eqb (claimant c indexes).1 "") then fail_record id alreadyMatchedStatus c
          else
            let c := claim indexes id c in
            if testMetadata_Dropped metadata then
              if length indexes =? 0 then add_row (mkReportRow id succeeded "") c
              else fail_record id notDroppedStatus c
            else
              match indexes with
              | [] => fail_record id logNotFoundStatus c
              | [index] =>
                  let actualRecord := default [] (actualRecords c !! index) in
                  let rec := applyModificationFuncs rec actualRecord expectedFile (modificationFuncs c) in
                  if compareRecord rec actualRecord metadata then add_row (mkReportRow id succeeded "") c
                  else fail_record id differencesStatus c
              | _ => fail_record id moreThanOneLogStatus c
              end
  | None => c <| success := false |> <| filesWithoutTestID ::= λ fs, fs ++ [expectedFile] |>
  end.

Definition compareRecords (expectedFile : string) (expectedRecords : list record) (c : comparison) : comparison :=
  foldl (λ c rec, compareExpectedRecord expectedFile rec c) c expectedRecords.

(** The records of an ignored file. *)
Definition claimRecords (expectedRecords : list record) (c : comparison) : comparison :=
  foldl (λ c rec,
    match getTestMetadata rec with
    | None => c
    | Some metadata =>
        let '(values, missing) := selectorValues rec metadata in
        if String.eqb missing "" then claim (findActualRecords (actualRecords c) values) (testMetadata_ID metadata) c
        else c
    end) c expectedRecords.

Definition collectUnexpected (c : comparison) : comparison :=
  let unclaimed := (filter (λ p, p.2 = "") (zip (actualRecords c) (claimedBy c))).*1 in
  c <| unexpected ::= λ rs, rs ++ unclaimed |>
    <| success ::= λ ok, ok && (length unclaimed =? 0) |>.

(** ** Files *)

(** What [filepath.Walk] visits, in its order. *)
Record WalkEntry : Type := mkWalkEntry {
  Walk_path : string;
  Walk_IsDir : bool;
  Walk_err : option error;
}.

(** The directories that the runner mounts: the file of the agent by its name, the visits
    of the expected directory, and the files that are directly in it. *)
Record Mounts : Type := mkMounts {
  actual_ReadFile : string → error + string;
  expected_Walk : list WalkEntry;
  expected_ReadFile : string → error + string;
}.

Definition file_name (path : string) : string := default "" (last (Split path "/")).

Section files.
Context `{Encodings}.

(** A value decoded into a [map[string]interface{}]. *)
Definition decode_record (v : JSON) : error + record :=
  match decode_any v with
  | inl err => inl err
  | inr (JObject ms) => inr ms
  | inr JNull => inr []
  | inr _ => inl json_type_error
  end.

Definition Unmarshal_record (text : string) : error + record :=
  match json_Unmarshal text with inl err => inl err | inr v => decode_record v end.

Definition Unmarshal_records (text : string) : error + list record :=
  match json_Unmarshal text with inl err => inl err | inr v => decode_slice decode_record v end.

(** The buffer of the scanner. *)
Definition max_output_line : Z := 10 * 1024 * 1024.

Fixpoint read_lines (lines : list string) : error + list record :=
  match lines with
  | [] => inr []
  | raw :: lines =>
      if (max_output_line <=? Z.of_nat (len raw))%Z
      then inl (errorf_wrap "scan pipeline output" (errors_New "bufio.Scanner: token too long"))
      else
        let line := TrimSpace raw in
        if negb (HasPrefix line "{") then read_lines lines
        else
          match Unmarshal_record line with
          | inl err => inl (errorf_wrap "parse pipeline output as JSON" err)
          | inr rec =>
              match read_lines lines with inl err => inl err | inr records => inr (rec :: records) end
          end
  end.

Definition readActualRecords (mounts : Mounts) (name : string) : error + list record :=
  match actual_ReadFile mounts name with
  | inl err => inl err
  | inr actual => read_lines (Split actual newline)
  end.

(** The visits up to the first error, which leaves what was compared before. *)
Fixpoint compare_walk (read : string → error + string) (entries : list WalkEntry) (ignoreFiles : list string)
    (c : comparison) : comparison * option error :=
  match entries with
  | [] => (c, None)
  | entry :: entries =>
      match Walk_err entry with
      | Some err => (c, Some err)
      | None =>
          if Walk_IsDir entry || negb (HasSuffix (Walk_path entry) ".log.json")
          then compare_walk read entries ignoreFiles c
          else
            let expectedFile := file_name (Walk_path entry) in
            match read expectedFile with
            | inl err => (c <| success := false |>, Some err)
            | inr expected =>
                match Unmarshal_records expected with
                | inl err => (c <| success := false |>, Some err)
                | inr expectedRecords =>
                    compare_walk read entries ignoreFiles
                      (if contains ignoreFiles expectedFile then claimRecords expectedRecords c
                       else compareRecords expectedFile expectedRecords c)
                end
            end
      end
  end.

Definition compareExpectedFiles (mounts : Mounts) (ignoreFiles : list string) (c : comparison) :
    comparison * option error :=
  compare_walk (expected_ReadFile mounts) (expected_Walk mounts) ignoreFiles c.

Definition testJson (mounts : Mounts) (ignore : string) (agent : Agent) (fs : list RecordModifyFunc) :
    error + bool :=
  let outputLogFileName := GetOutputFileName agent in
  if len outputLogFileName =? 0 then inr false
  else
    match readActualRecords mounts outputLogFileName with
    | inl err => inl err
    | inr actual =>
        let run := mkComparison actual (replicate (length actual) "") fs [] [] [] true in
        match compareExpectedFiles mounts (Split ignore ",") run with
        | (_, Some err) => inl err
        | (run, None) => inr (success (collectUnexpected run))
        end
    end.

(** The exit code of the process. *)
Definition CompareLogs (mounts : Mounts) (ignoreFiles : string) (agent : Agent) (fs : list RecordModifyFunc) : Z :=
  match testJson mounts ignoreFiles agent fs with
  | inr true => 0
  | _ => 1
  end.
End files.

(** ** What a check that passes means

    The output of a run is one-to-one with the expected records that are not dropped. *)

Section specification.
Variables (actual : list record) (fs : list RecordModifyFunc).

(** An expected record with an id, and the values that select its output. *)
Definition identified (rec : record) (metadata : testMetadata) (values : record) : Prop :=
  getTestMetadata rec = Some metadata ∧ testMetadata_ID metadata ≠ "" ∧ selectorValues rec metadata = (values, "").

(** The values select the i-th record of the output, and no other, and it is as expected. *)
Definition corresponds (file : string) (rec : record) (i : nat) : Prop :=
  ∃ metadata values a, identified rec metadata values ∧ testMetadata_Dropped metadata = false ∧
    findActualRecords actual values = [i] ∧ actual !! i = Some a ∧
    compareRecord (applyModificationFuncs rec a file fs) a metadata = true.

(** The values of a record that the pipeline drops select nothing. *)
Definition dropped (rec : record) : Prop :=
  ∃ metadata values, identified rec metadata values ∧ testMetadata_Dropped metadata = true ∧
    findActualRecords actual values = [].

(** The expected records with their files, and the output records of those that are kept. *)
Inductive matched : list (string * record) → list nat → Prop :=
| matched_nil : matched [] []
| matched_kept file rec es i js : corresponds file rec i → matched es js → matched ((file, rec) :: es) (i :: js)
| matched_dropped file rec es js : dropped rec → matched es js → matched ((file, rec) :: es) js.
End specification.

Section reading.
Context `{Encodings}.

(** The expected records of all the files. *)
Fixpoint read_expected (read : string → error + string) (entries : list WalkEntry) :
    error + list (string * record) :=
  match entries with
  | [] => inr []
  | entry :: entries =>
      match Walk_err entry with
      | Some err => inl err
      | None =>
          if Walk_IsDir entry || negb (HasSuffix (Walk_path entry) ".log.json") then read_expected read entries
          else
            let expectedFile := file_name (Walk_path entry) in
            match read expectedFile with
            | inl err => inl err
            | inr expected =>
                match Unmarshal_records expected, read_expected read entries with
                | inl err, _ | _, inl err => inl err
                | inr records, inr es => inr ((pair expectedFile <$> records) ++ es)
                end
            end
      end
  end.
End reading.

(** ** The comparison of the records *)

Definition compare_all (es : list (string * record)) (c : comparison) : comparison :=
  foldl (λ c e, compareExpectedRecord e.1 e.2 c) c es.

Section comparing.
Variables (actual : list record) (fs : list RecordModifyFunc).

Definition of_run (c : comparison) : Prop :=
  actualRecords c = actual ∧ modificationFuncs c = fs ∧ length (claimedBy c) = length actual.

Lemma claim_one c i id :
  claimedBy c !! i = Some "" → claimedBy (claim [i] id c) = <[i := id]> (claimedBy c).
Proof. intros Hi. cbn. by rewrite bool_decide_eq_true_2. Qed.

Lemma claim_length c js id : length (claimedBy (claim js id c)) = length (claimedBy c).
Proof.
  cbn. generalize (claimedBy c). induction js as [|i js IH]; intros cl; [done|]. cbn. rewrite IH.
  case_bool_decide; [apply length_insert|done].
Qed.

Lemma claim_of_run c js id : of_run c → of_run (claim js id c).
Proof. intros (Ha & Hf & Hl). split_and!; [done..|]. by rewrite claim_length. Qed.

Lemma find_bound values i : i ∈ findActualRecords actual values → i < length actual.
Proof.
  unfold findActualRecords. intros [[j a] [-> Hin]]%list_elem_of_fmap.
  apply list_elem_of_filter in Hin as [_ Hin]. apply elem_of_lookup_imap in Hin as (k & b & [= -> ->] & Hk).
  by eapply lookup_lt_Some.
Qed.

Lemma corresponds_inv file rec i metadata values :
  corresponds actual fs file rec i → identified rec metadata values →
  testMetadata_Dropped metadata = false ∧ findActualRecords actual values = [i] ∧
  ∃ a, actual !! i = Some a ∧ compareRecord (applyModificationFuncs rec a file fs) a metadata = true.
Proof.
  intros (m & v & a & (Hm & _ & Hv) & Hd & Hf & Ha & Hc) (Hm' & _ & Hv').
  rewrite Hm in Hm'. injection Hm' as <-. rewrite Hv in Hv'. injection Hv' as <-. eauto.
Qed.

Lemma dropped_inv rec metadata values :
  dropped actual rec → identified rec metadata values →
  testMetadata_Dropped metadata = true ∧ findActualRecords actual values = [].
Proof.
  intros (m & v & (Hm & _ & Hv) & Hd & Hf) (Hm' & _ & Hv').
  rewrite Hm in Hm'. injection Hm' as <-. rewrite Hv in Hv'. by injection Hv' as <-.
Qed.

(** What the comparison of one record does. *)
Inductive compared (file : string) (rec : record) (c c' : comparison) : Prop :=
| compared_kept i id :
    corresponds actual fs file rec i → id ≠ "" → claimedBy c !! i = Some "" →
    claimedBy c' = <[i := id]> (claimedBy c) → success c' = success c → compared file rec c c'
| compared_dropped :
    dropped actual rec → claimedBy c' = claimedBy c → success c' = success c → compared file rec c c'
| compared_failed :
    success c' = false → ¬ dropped actual rec →
    (∀ i, corresponds actual fs file rec i → claimedBy c !! i ≠ Some "") → compared file rec c c'.

(** Without an identification nothing matches. *)
Lemma compared_unidentified file rec c c' :
  success c' = false → (∀ metadata values, ¬ identified rec metadata values) → compared file rec c c'.
Proof.
  intros Hs Hno. apply compared_failed; [done|..].
  - intros (m & v & Hi & _). by eapply Hno.
  - intros i (m & v & a & Hi & _). exfalso. by eapply Hno.
Qed.

Lemma identified_run rec metadata values :
  getTestMetadata rec = Some metadata → testMetadata_ID metadata ≠ "" → selectorValues rec metadata = (values, "") →
  identified rec metadata values.
Proof. done. Qed.

(** The record of a file that is read, once its values are known. *)
Lemma compared_identified file rec c metadata values :
  of_run c → identified rec metadata values →
  of_run (compareExpectedRecord file rec c) ∧ compared file rec c (compareExpectedRecord file rec c).
Proof.
  intros Hrun Hid. pose proof Hid as (Hm & Hne & Hv). pose proof Hrun as (Ha & Hf & Hl).
  unfold compareExpectedRecord. rewrite Hm, Hv. destruct (String.eqb_spec (testMetadata_ID metadata) "") as [|_]; [done|].
  cbn [String.eqb negb]. rewrite Ha.
  assert (Hfail : ∀ c' details, of_run c' →
    (∀ i, corresponds actual fs file rec i → claimedBy c !! i ≠ Some "") → ¬ dropped actual rec →
    of_run (fail_record (testMetadata_ID metadata) details c') ∧
    compared file rec c (fail_record (testMetadata_ID metadata) details c')).
  { intros c' details Hc' Hno Hd. split; [done|]. by apply compared_failed. }
  destruct (String.eqb_spec (claimant c (findActualRecords actual values)).1 "") as [Hfree|Howned]; cbn [negb].
  2: { apply Hfail; [done|..].
    - intros i Hc Hi. destruct (corresponds_inv _ _ _ _ _ Hc Hid) as (_ & Hfind & _).
      rewrite Hfind in Howned. cbn in Howned. by rewrite Hi in Howned.
    - intros Hd. destruct (dropped_inv _ _ _ Hd Hid) as (_ & Hfind). by rewrite Hfind in Howned. }
  destruct (testMetadata_Dropped metadata) eqn:Hdrop.
  - destruct (findActualRecords actual values) as [|i js] eqn:Hfind; cbn [length Nat.eqb].
    + split; [done|]. apply compared_dropped; [|done..]. by exists metadata, values.
    + apply Hfail; [by apply claim_of_run|..].
      * intros j Hc. destruct (corresponds_inv _ _ _ _ _ Hc Hid) as (Hd & _). by rewrite Hd in Hdrop.
      * intros Hd. destruct (dropped_inv _ _ _ Hd Hid) as (_ & Hfind'). by rewrite Hfind in Hfind'.
  - assert (Hnd : ¬ dropped actual rec).
    { intros Hd. destruct (dropped_inv _ _ _ Hd Hid) as (Hd' & _). by rewrite Hd' in Hdrop. }
    destruct (findActualRecords actual values) as [|i [|j js]] eqn:Hfind.
    + apply Hfail; [done| |done]. intros j Hc. destruct (corresponds_inv _ _ _ _ _ Hc Hid) as (_ & Hfind' & _).
      by rewrite Hfind in Hfind'.
    + assert (Hi : i < length actual) by (apply (find_bound values); rewrite Hfind; left).
      destruct (lookup_lt_is_Some_2 actual i Hi) as [a Hai].
      assert (Hci : claimedBy c !! i = Some "").
      { rewrite <- Hl in Hi. apply lookup_lt_is_Some_2 in Hi as [s Hs]. rewrite Hs. f_equal.
        cbn in Hfree. rewrite Hs in Hfree. cbn in Hfree.
        by destruct (String.eqb_spec s ""). }
      pose proof (claim_of_run c [i] (testMetadata_ID metadata) Hrun) as Hrun'.
      pose proof Hrun' as (Ha' & Hf' & _). rewrite Ha', Hai, Hf'. change (default [] (Some a)) with a.
      destruct (compareRecord (applyModificationFuncs rec a file fs) a metadata) eqn:Hcmp.
      * split; [exact Hrun'|]. apply (compared_kept _ _ _ _ i (testMetadata_ID metadata));
          [|done|done|by apply claim_one|done]. by exists metadata, values, a.
      * apply Hfail; [exact Hrun'| |done].
        intros j Hc. destruct (corresponds_inv _ _ _ _ _ Hc Hid) as (_ & Hfind' & b & Hb & Hcmp').
        rewrite Hfind in Hfind'. injection Hfind' as <-. rewrite Hai in Hb. injection Hb as <-.
        by rewrite Hcmp in Hcmp'.
    + apply Hfail; [by apply claim_of_run| |done]. intros k Hc.
      destruct (corresponds_inv _ _ _ _ _ Hc Hid) as (_ & Hfind' & _). by rewrite Hfind in Hfind'.
Qed.

Lemma compareExpectedRecord_compared file rec c :
  of_run c →
  of_run (compareExpectedRecord file rec c) ∧ compared file rec c (compareExpectedRecord file rec c).
Proof.
  intros Hrun. destruct (getTestMetadata rec) as [metadata|] eqn:Hm.
  - destruct (String.eqb_spec (testMetadata_ID metadata) "") as [He|Hne].
    + unfold compareExpectedRecord. rewrite Hm, He. split; [done|]. apply compared_unidentified; [done|].
      intros m v (Hm' & Hne & _). rewrite Hm in Hm'. by injection Hm' as <-.
    + destruct (selectorValues rec metadata) as [values missing] eqn:Hv.
      destruct (String.eqb_spec missing "") as [->|Hmiss].
      * by apply (compared_identified _ _ _ metadata values).
      * unfold compareExpectedRecord. rewrite Hm, Hv.
        destruct (String.eqb_spec (testMetadata_ID metadata) "") as [|_]; [done|].
        destruct (String.eqb_spec missing "") as [|_]; [done|]. split; [done|]. apply compared_unidentified; [done|].
        intros m v (Hm' & _ & Hv'). rewrite Hm in Hm'. injection Hm' as <-. rewrite Hv in Hv'. by injection Hv' as _ ?.
  - unfold compareExpectedRecord. rewrite Hm. split; [done|]. apply compared_unidentified; [done|].
    intros m v (Hm' & _). by rewrite Hm in Hm'.
Qed.

(** The records that are claimed. *)
Definition claims_are (js : list nat) (c : comparison) : Prop :=
  ∀ i s, claimedBy c !! i = Some s → (s ≠ "" ↔ i ∈ js).

Lemma corresponds_unique file rec i j : corresponds actual fs file rec i → corresponds actual fs file rec j → i = j.
Proof.
  intros (m & v & a & Hid & _ & Hf & _) Hj. destruct (corresponds_inv _ _ _ _ _ Hj Hid) as (_ & Hf' & _).
  rewrite Hf in Hf'. by injection Hf'.
Qed.

Lemma corresponds_kept file rec i : corresponds actual fs file rec i → ¬ dropped actual rec.
Proof.
  intros (m & v & a & Hid & Hd & _) Hdrop. destruct (dropped_inv _ _ _ Hdrop Hid) as [Hd' _]. by rewrite Hd in Hd'.
Qed.

Lemma corresponds_bound file rec i : corresponds actual fs file rec i → i < length actual.
Proof. intros (m & v & a & _ & _ & _ & Ha & _). by eapply lookup_lt_Some. Qed.

Lemma matched_bound es ks i : matched actual fs es ks → i ∈ ks → i < length actual.
Proof.
  induction 1 as [|file rec es j ks Hc _ IH|file rec es ks Hd _ IH]; [by intros ?%elem_of_nil| |done].
  intros [->|Hi]%elem_of_cons; [by eapply corresponds_bound|auto].
Qed.

Lemma claims_are_insert js i id c c' :
  id ≠ "" → claims_are js c → claimedBy c' = <[i := id]> (claimedBy c) → claims_are (js ++ [i]) c'.
Proof.
  intros Hid Hc Heq j s. rewrite Heq, elem_of_app, list_elem_of_singleton.
  intros [(<- & <- & _)|[Hne Hj]]%list_lookup_insert_Some; [by split; [right|]|].
  rewrite (Hc j s Hj). split; [by left|]. by intros [? | ->].
Qed.

Lemma compare_all_of_run es c : of_run c → of_run (compare_all es c).
Proof.
  revert c. induction es as [|[file rec] es IH]; intros c Hrun; [done|].
  apply IH. by apply compareExpectedRecord_compared.
Qed.

(** A failure stays. *)
Lemma compare_all_failed es c : of_run c → success c = false → success (compare_all es c) = false.
Proof.
  revert c. induction es as [|[file rec] es IH]; intros c Hrun Hs; [done|].
  destruct (compareExpectedRecord_compared file rec c Hrun) as [Hrun' Hcmp]. apply IH; [done|].
  cbn [fst snd]. destruct Hcmp; congruence.
Qed.

Lemma matched_kept_inv file rec es i ks :
  corresponds actual fs file rec i → matched actual fs ((file, rec) :: es) ks →
  ∃ ks', ks = i :: ks' ∧ matched actual fs es ks'.
Proof.
  intros Hc Hm. inversion Hm as [|? ? ? j ks' Hcj Hm'|? ? ? ? Hdj]; subst.
  - exists ks'. by rewrite (corresponds_unique _ _ _ _ Hcj Hc).
  - by apply corresponds_kept in Hc.
Qed.

Lemma matched_dropped_inv file rec es ks :
  dropped actual rec → matched actual fs ((file, rec) :: es) ks → matched actual fs es ks.
Proof.
  intros Hd Hm. inversion Hm as [|? ? ? j ks' Hcj Hm'|? ? ? ? Hdj]; subst; [|done].
  by apply corresponds_kept in Hcj.
Qed.

(** A run over the records succeeds when they match output records that are not claimed. *)
Lemma compare_all_success es c js :
  of_run c → claims_are js c →
  (success (compare_all es c) = true ↔
     success c = true ∧ ∃ ks, matched actual fs es ks ∧ NoDup ks ∧ ∀ i, i ∈ ks → i ∉ js) ∧
  (success (compare_all es c) = true → ∀ ks, matched actual fs es ks → claims_are (js ++ ks) (compare_all es c)).
Proof.
  revert c js. induction es as [|[file rec] es IH]; intros c js Hrun Hclaims.
  { split.
    - cbn. split; [|by intros [? _]]. intros Hs. split; [done|]. exists [].
      split; [constructor|]. split; [constructor|]. by intros i ?%elem_of_nil.
    - intros _ ks Hks. inversion Hks. by rewrite app_nil_r. }
  destruct (compareExpectedRecord_compared file rec c Hrun) as [Hrun1 Hcmp].
  change (compare_all ((file, rec) :: es) c) with (compare_all es (compareExpectedRecord file rec c)).
  set (c1 := compareExpectedRecord file rec c) in *.
  destruct Hcmp as [i id Hc Hid Hi Hcl Hs|Hd Hcl Hs|Hs Hnd Hno].
  - assert (Hijs : i ∉ js) by (intros Hin; by apply (Hclaims i "" Hi) in Hin).
    destruct (IH c1 (js ++ [i]) Hrun1) as [Hiff Hfin]; [by eapply claims_are_insert|]. split.
    + rewrite Hiff, Hs. split; intros [Hsc (ks & Hm & Hnd & Hks)]; (split; [done|]).
      * exists (i :: ks). split; [by constructor|]. split.
        -- constructor; [|done]. intros Hin. apply (Hks i Hin). set_solver.
        -- intros k [->|Hk]%elem_of_cons; [done|]. specialize (Hks k Hk). set_solver.
      * apply (matched_kept_inv _ _ _ _ _ Hc) in Hm as (ks' & -> & Hm). apply NoDup_cons in Hnd as [Hni Hnd].
        exists ks'. split_and!; [done..|]. intros k Hk. specialize (Hks k). set_solver.
    + intros Hsuc ks Hm. apply (matched_kept_inv _ _ _ _ _ Hc) in Hm as (ks' & -> & Hm).
      specialize (Hfin Hsuc ks' Hm). by rewrite <- app_assoc in Hfin.
  - destruct (IH c1 js Hrun1) as [Hiff Hfin]; [unfold claims_are in *; by rewrite Hcl|]. split.
    + rewrite Hiff, Hs. split; intros [Hsc (ks & Hm & Hnd & Hks)]; (split; [done|]); exists ks.
      * by split; [constructor|].
      * by apply matched_dropped_inv in Hm.
    + intros Hsuc ks Hm. apply matched_dropped_inv in Hm; [|done]. by apply Hfin.
  - rewrite (compare_all_failed es c1 Hrun1 Hs). split; [|done]. split; [done|].
    intros [_ (ks & Hm & _ & Hks)]. exfalso.
    inversion Hm as [|? ? ? j ks' Hcj Hm'|? ? ? ? Hdj]; subst; [|done].
    pose proof (corresponds_bound _ _ _ Hcj) as Hj. destruct Hrun as (_ & _ & Hl). rewrite <- Hl in Hj.
    apply lookup_lt_is_Some_2 in Hj as [s Hs']. specialize (Hno j Hcj). apply (Hks j); [left|].
    apply (Hclaims j s Hs'). by intros ->.
Qed.

(** The records that no expected record claims fail the run. *)
Lemma collectUnexpected_success c js :
  of_run c → claims_are js c →
  success (collectUnexpected c) = true ↔ success c = true ∧ ∀ i, i < length actual → i ∈ js.
Proof.
  intros (Ha & _ & Hl) Hclaims. cbn. rewrite andb_true_iff, Nat.eqb_eq, length_fmap, Ha.
  split; intros [Hs Hall]; (split; [done|]).
  - intros i Hi. apply nil_length_inv in Hall. destruct (lookup_lt_is_Some_2 actual i Hi) as [a Hai].
    rewrite <- Hl in Hi. apply lookup_lt_is_Some_2 in Hi as [s Hs']. apply (Hclaims i s Hs'). intros ->.
    apply (filter_nil_not_elem_of _ _ (a, "") Hall); [done|].
    apply list_elem_of_lookup. exists i. apply lookup_zip_with_Some. by exists a, "".
  - apply length_zero_iff_nil, filter_none, Forall_lookup_2. intros i [a s] Hi. cbn.
    apply lookup_zip_with_Some in Hi as (a' & s' & [= -> ->] & Hai & Hsi).
    apply (Hclaims i s' Hsi), Hall. by eapply lookup_lt_Some.
Qed.
End comparing.

Lemma compare_all_app es es' c : compare_all (es ++ es') c = compare_all es' (compare_all es c).
Proof. apply foldl_app. Qed.

Lemma compareRecords_all file records c :
  compareRecords file records c = compare_all (pair file <$> records) c.
Proof. revert c. induction records as [|rec records IH]; intros c; [done|]. apply IH. Qed.

(** The files that are not ignored are all compared. *)
Lemma compare_walk_all `{Encodings} read entries ignoreFiles c :
  Forall (λ entry, contains ignoreFiles (file_name (Walk_path entry)) = false) entries →
  match read_expected read entries with
  | inl err => (compare_walk read entries ignoreFiles c).2 = Some err
  | inr es => compare_walk read entries ignoreFiles c = (compare_all es c, None)
  end.
Proof.
  intros Hign. revert c. induction Hign as [|entry entries Hentry _ IH]; intros c; [done|].
  cbn [read_expected compare_walk]. destruct (Walk_err entry) as [err|]; [done|].
  destruct (Walk_IsDir entry || _); [apply IH|]. rewrite Hentry.
  destruct (read (file_name (Walk_path entry))) as [err|expected]; [done|].
  destruct (Unmarshal_records expected) as [err|records]; [done|].
  specialize (IH (compareRecords (file_name (Walk_path entry)) records c)).
  destruct (read_expected read entries) as [err|es]; [done|]. rewrite IH.
  by rewrite compareRecords_all, compare_all_app.
Qed.

(** ** Properties *)

(** C39: what it means that a check passes.  With no file ignored, [CompareLogs] ends with 0
    exactly when the output and all the expected files can be read, every expected record has an
    id and the fields that select its output, those of a dropped line select nothing, and the
    others are one-to-one with the records of the output: each selects exactly one record, which
    is as it expects after the modifications, none is selected twice, and none is left over. *)
Theorem CompareLogs_passes `{Encodings} mounts ignoreFiles agent fs :
  Forall (λ entry, contains (Split ignoreFiles ",") (file_name (Walk_path entry)) = false) (expected_Walk mounts) →
  CompareLogs mounts ignoreFiles agent fs = 0%Z ↔
  ∃ actual expected ks,
    readActualRecords mounts (GetOutputFileName agent) = inr actual ∧
    read_expected (expected_ReadFile mounts) (expected_Walk mounts) = inr expected ∧
    matched actual fs expected ks ∧ ks ≡ₚ seq 0 (length actual).
Proof.
  intros Hign. unfold CompareLogs, testJson.
  replace (len (GetOutputFileName agent) =? 0) with false by by destruct agent.
  destruct (readActualRecords mounts (GetOutputFileName agent)) as [err|actual]; [naive_solver|].
  set (c := mkComparison _ _ _ _ _ _ _). unfold compareExpectedFiles.
  pose proof (compare_walk_all (expected_ReadFile mounts) (expected_Walk mounts) (Split ignoreFiles ",") c Hign) as Hw.
  destruct (read_expected _ _) as [err|expected].
  { destruct (compare_walk _ _ _ c) as [c' r]. cbn in Hw. rewrite Hw. naive_solver. }
  rewrite Hw.
  assert (Hrun : of_run actual fs c) by (split_and!; [done..|apply length_replicate]).
  assert (Hclaims : claims_are [] c).
  { intros i s Hi. apply lookup_replicate in Hi as [-> _]. split; [congruence|by intros ?%elem_of_nil]. }
  destruct (compare_all_success actual fs expected c [] Hrun Hclaims) as [Hiff Hfin].
  pose proof (compare_all_of_run actual fs expected c Hrun) as Hrun'.
  trans (success (collectUnexpected (compare_all expected c)) = true);
    [by destruct (success (collectUnexpected (compare_all expected c)))|].
  split.
  - intros Hs. assert (Hsc : success (compare_all expected c) = true) by by apply andb_true_iff in Hs as [? _].
    apply Hiff in Hsc as Hex. destruct Hex as [_ (ks & Hm & Hnd & _)].
    specialize (Hfin Hsc ks Hm). exists actual, expected, ks. split_and!; [done..|].
    apply NoDup_Permutation; [done|apply NoDup_seq|]. intros i. rewrite elem_of_seq.
    split; [intros Hi; split; [lia|]|intros [_ Hi]].
    + by eapply matched_bound.
    + eapply collectUnexpected_success in Hs as [_ Hall]; [by apply Hall|done..].
  - intros (actual' & expected' & ks & [= <-] & [= <-] & Hm & Hperm).
    assert (Hsc : success (compare_all expected c) = true).
    { apply Hiff. split; [done|]. exists ks. split_and!; [done|rewrite Hperm; apply NoDup_seq|].
      by intros i _ ?%elem_of_nil. }
    apply (collectUnexpected_success actual fs _ ks Hrun' (Hfin Hsc ks Hm)).
    split; [done|]. intros i Hi. rewrite Hperm, elem_of_seq. lia.
Qed.

(** ** Witness *)

Definition example_output (time log : string) : JSON := JObject [("log", JString log); ("time", JString time)].

(** Two lines and a probe, which the pipeline drops. *)
Definition example_expected : JSON :=
  let test id rest := ("_test", JObject (("id", JString id) :: rest)) in
  JArray [JObject [test "one" []; ("log", JString "x"); ("time", JString "1")];
          JObject [test "probe" [("dropped", JBool true)]; ("time", JString "3")];
          JObject [test "two" [("partial", JBool true)]; ("time", JString "2")]].

Definition example_encodings : Encodings := {|
  url_Parse _ := inl (errors_New "no URL");
  URL_String _ := "";
  ResolveReference _ u := u;
  url_JoinPath a b := inr (a +:+ b);
  json_Unmarshal text :=
    if String.eqb text "{1}" then inr (example_output "1" "x")
    else if String.eqb text "{2}" then inr (example_output "2" "y") else inr example_expected;
  json_Marshal _ := "";
  json_float64 n := inr n;
  base64_EncodeToString s := s;
  AppendCertsFromPEM _ := false;
  X509KeyPair _ _ := None;
|}.

Definition example_mounts : Mounts := {|
  actual_ReadFile _ := inr ("{2}" +:+ newline +:+ "metrics" +:+ newline +:+ " {1}");
  expected_Walk := [mkWalkEntry "output-logs/expected" true None;
                    mkWalkEntry "output-logs/expected/app.log.json" false None];
  expected_ReadFile _ := inr "expected";
|}.

Lemma CompareLogs_passes_witness :
  ∃ actual expected ks,
    @readActualRecords example_encodings example_mounts "output-log" = inr actual ∧
    @read_expected example_encodings (expected_ReadFile example_mounts) (expected_Walk example_mounts) = inr expected ∧
    matched actual [] expected ks ∧ ks ≡ₚ seq 0 (length actual).
Proof.
  apply (@CompareLogs_passes example_encodings example_mounts "other.log.json" AgentFluentbit []);
    [|by vm_compute].
  repeat constructor.
Defined.
