(* ===== verification/ParserContracts.v ===== *)
(** * The contracts of the parsers: test/fluent-pipeline/stage/parsercontract/parsercontract.go

    From a manifest of cases the tool writes an input file for each case, a configuration of
    Fluent Bit that parses them, and the expected records that PipelineTest compares with
    the output.  Files are arguments and results; a write that fails is left out. *)

From Stdlib Require Import Strings.Ascii.
From stdpp Require Import sorting.
From S2P Require Import Prelude GoStrings Net GraylogRest GraylogUploads SecretWatcher.
From S2P Require Import PipelineTest.

(** ** The manifest *)

Record Case : Type := mkCase {
  Case_ID : string;
  Case_Parser : string;
  Case_Match : bool;
  Case_Input : string;
  Case_Expected : record;
  Case_Absent : option (list string);
}.

Definition Manifest : Type := list Case.

Section manifest.
Context `{Encodings}.

(** A field of type []string that is nil when the manifest leaves it out. *)
Fixpoint decode_nilable (name : string) (ms : list (string * JSON)) (value : option (list string)) :
    error + option (list string) :=
  match ms with
  | [] => inr value
  | (k, v) :: ms =>
      if EqualFold k name then
        match v with
        | JNull => decode_nilable name ms None
        | _ => match decode_slice decode_text v with inl err => inl err | inr vs => decode_nilable name ms (Some vs) end
        end
      else decode_nilable name ms value
  end.

(** A field of type [map[string]interface{}], whose members are added to the map. *)
Fixpoint decode_map (name : string) (ms : list (string * JSON)) (value : record) : error + record :=
  match ms with
  | [] => inr value
  | (k, v) :: ms =>
      if EqualFold k name then
        match decode_record v with
        | inl err => inl err
        | inr members => decode_map name ms (foldl (λ r m, insert_member m.1 m.2 r) value members)
        end
      else decode_map name ms value
  end.

Definition decode_Case (v : JSON) : error + Case :=
  match decode_members v with
  | inl err => inl err
  | inr ms =>
      match decode_string "id" ms "", decode_string "parser" ms "", decode_bool "match" ms false,
            decode_string "input" ms "", decode_map "expected" ms [], decode_nilable "absent" ms None with
      | inr i, inr p, inr m, inr t, inr e, inr a => inr (mkCase i p m t e a)
      | inl err, _, _, _, _, _ | _, inl err, _, _, _, _ | _, _, inl err, _, _, _
      | _, _, _, inl err, _, _ | _, _, _, _, inl err, _ | _, _, _, _, _, inl err => inl err
      end
  end.

(** The slice of the last member of the name. *)
Fixpoint decode_cases (name : string) (ms : list (string * JSON)) (value : Manifest) : error + Manifest :=
  match ms with
  | [] => inr value
  | (k, v) :: ms =>
      if EqualFold k name then
        match decode_slice decode_Case v with inl err => inl err | inr cs => decode_cases name ms cs end
      else decode_cases name ms value
  end.

Definition ReadManifest (content : error + string) : error + Manifest :=
  match content with
  | inl err => inl err
  | inr text =>
      match json_Unmarshal text with
      | inl err => inl (errorf_wrap "parse parser contract manifest" err)
      | inr v =>
          match decode_members v with
          | inl err => inl (errorf_wrap "parse parser contract manifest" err)
          | inr ms =>
              match decode_cases "cases" ms [] with
              | inl err => inl (errorf_wrap "parse parser contract manifest" err)
              | inr manifest => inr manifest
              end
          end
      end
  end.
End manifest.

(** ** Parsers and cases *)

(** [strings.Fields]. *)
Fixpoint fields_from (fuel : nat) (field s : string) : list string :=
  let flush := if String.eqb field "" then [] else [field] in
  match fuel, s with
  | O, _ | _, EmptyString => flush
  | S fuel, String c s' =>
      match filter (λ sp, HasPrefix s sp = true) spaces with
      | sp :: _ => flush ++ fields_from fuel "" (slice_from (len sp) s)
      | [] => fields_from fuel (field +:+ String c "") s'
      end
  end.

Definition Fields (s : string) : list string := fields_from (len s) "" s.

(** The names in the sections [PARSER], but for one; the flag says whether the line is in one. *)
Fixpoint parser_names (inParser : bool) (lines : list string) : list string :=
  match lines with
  | [] => []
  | text :: lines =>
      let line := TrimSpace text in
      if HasPrefix line "[" then parser_names (String.eqb line "[PARSER]") lines
      else
        match Fields line with
        | [key; name] =>
            if inParser && String.eqb key "Name" && negb (String.eqb name "logId-test")
            then name :: parser_names inParser lines else parser_names inParser lines
        | _ => parser_names inParser lines
        end
  end.

Definition ParserNames (content : error + string) : error + list string :=
  match content with
  | inl err => inl err
  | inr text => match Scan text with inl err => inl err | inr lines => inr (parser_names false lines) end
  end.

(** The regular expression [^[a-z0-9][a-z0-9_-]*$]. *)
Definition id_first (c : Ascii.ascii) : bool :=
  let n := Ascii.nat_of_ascii c in (97 <=? n) && (n <=? 122) || (48 <=? n) && (n <=? 57).

Definition id_rest (c : Ascii.ascii) : bool :=
  id_first c || bool_decide (c = "_"%char) || bool_decide (c = "-"%char).

Definition safeID (s : string) : bool :=
  match String.list_ascii_of_string s with
  | [] => false
  | c :: cs => id_first c && forallb id_rest cs
  end.

Definition validateCase (testCase : Case) : option error :=
  if negb (safeID (Case_ID testCase)) then
    Some (errors_New ("parser contract ID " +:+ quoted (Case_ID testCase) +:+ " must match ^[a-z0-9][a-z0-9_-]*$"))
  else if String.eqb (Case_Parser testCase) "" || ContainsAny (Case_Parser testCase)
            (" " +:+ String (Ascii.ascii_of_nat 9) (carriage_return +:+ newline)) then
    Some (errors_New ("parser contract " +:+ quoted (Case_ID testCase) +:+ " has invalid parser "
                      +:+ quoted (Case_Parser testCase)))
  else if String.eqb (Case_Input testCase) "" || ContainsAny (Case_Input testCase) (carriage_return +:+ newline) then
    Some (errors_New ("parser contract " +:+ quoted (Case_ID testCase)
                      +:+ " input must contain exactly one non-empty line"))
  else None.

(** ** Prepare *)

Definition lines_text (lines : list string) : string := foldr (λ line text, line +:+ newline +:+ text) "" lines.

Definition service_section : string :=
  lines_text ["[SERVICE]"; "    Flush 1"; "    Log_Level error"; "    Parsers_File /fluent-bit/etc/parsers.conf"; ""].

Definition case_sections (testCase : Case) : string :=
  let id := Case_ID testCase in
  lines_text
    ["[INPUT]"; "    Name tail"; "    Tag contract." +:+ id; "    Path /parser-input/" +:+ id +:+ ".log";
     "    Parser " +:+ Case_Parser testCase; "    Read_from_Head On"; "    Refresh_Interval 1"; "";
     "[FILTER]"; "    Name record_modifier"; "    Match contract." +:+ id; "    Record test_case " +:+ id; ""].

Definition output_section : string :=
  lines_text ["[OUTPUT]"; "    Name file"; "    Match contract.*"; "    Format plain"; "    Path /parser-output";
              "    File output-log"].

(** The expected record of a case. *)
Definition expectation (testCase : Case) : record :=
  insert_member testMetadataKey
    (JObject [("absent", match Case_Absent testCase with None => JNull | Some fs => JArray (JString <$> fs) end);
              ("id", JString (Case_ID testCase));
              ("matchOn", JArray [JString "test_case"]);
              ("partial", JBool true)])
    (insert_member "test_case" (JString (Case_ID testCase)) (Case_Expected testCase)).

(** What the loop over the cases leaves. *)
Record Prepared : Type := mkPrepared {
  Prepared_inputs : list (string * string);
  Prepared_config : string;
  Prepared_expectations : list record;
  Prepared_skipped : list string;
}.

Fixpoint prepare_cases (available : list string) (cases : list Case) (p : Prepared) : Prepared * option error :=
  match cases with
  | [] => (p, None)
  | testCase :: cases =>
      match validateCase testCase with
      | Some err => (p, Some err)
      | None =>
          if negb (existsb (String.eqb (Case_Parser testCase)) available)
          then prepare_cases available cases
                 (mkPrepared (Prepared_inputs p) (Prepared_config p) (Prepared_expectations p)
                    (Prepared_skipped p ++ [Case_ID testCase]))
          else prepare_cases available cases
                 (mkPrepared
                    (Prepared_inputs p ++ [(Case_ID testCase +:+ ".log", Case_Input testCase +:+ newline)])
                    (Prepared_config p +:+ case_sections testCase)
                    (Prepared_expectations p ++ [expectation testCase])
                    (Prepared_skipped p))
      end
  end.

Section prepare.
Context `{Encodings}.
Variable json_MarshalIndent : JSON → string.

(** The files that are written, by their paths below the target, and the error. *)
Definition Prepare (manifest : error + string) (parsers : error + string) : list (string * string) * option error :=
  match ReadManifest manifest with
  | inl err => ([], Some err)
  | inr cases =>
      match parsers with
      | inl err => ([], Some (errorf_wrap "read rendered parsers" err))
      | inr text =>
          let written := [("parsers.conf", text)] in
          match ParserNames parsers with
          | inl err => (written, Some err)
          | inr available =>
              let '(p, err) := prepare_cases available cases (mkPrepared [] service_section [] []) in
              let written := written ++ ((λ f, ("input/" +:+ f.1, f.2)) <$> Prepared_inputs p) in
              match err with
              | Some err => (written, Some err)
              | None =>
                  (written ++ [("fluent-bit.conf", Prepared_config p +:+ output_section);
                               ("expected/parser-contracts.log.json",
                                json_MarshalIndent (JArray (JObject <$> Prepared_expectations p)) +:+ newline)], None)
              end
          end
      end
  end.
End prepare.

(** ** Coverage *)

Definition CoveredParsers (manifest : Manifest) : gmap string (gmap bool bool) :=
  foldl (λ covered testCase,
    <[Case_Parser testCase := <[Case_Match testCase := true]> (default ∅ (covered !! Case_Parser testCase))]> covered)
    ∅ manifest.


Definition StaleCases (manifest : Manifest) (parsers : list string) : list string :=
  sort_Strings
    ((λ c, Case_ID c +:+ " (" +:+ Case_Parser c +:+ ")") <$>
       filter (λ c, existsb (String.eqb (Case_Parser c)) parsers = false) manifest).

(** [covered[parser][m]]. *)
Definition covers (covered : gmap string (gmap bool bool)) (parser : string) (m : bool) : bool :=
  default false (default ∅ (covered !! parser) !! m).

Definition MissingCases (manifest : Manifest) (parsers : list string) : list string :=
  let covered := CoveredParsers manifest in
  sort_Strings (parsers ≫= λ parser,
    (if covers covered parser true then [] else [parser +:+ ": matching"]) ++
    (if covers covered parser false then [] else [parser +:+ ": non-matching"])).

(** ** The expected records *)

Lemma compare_refl s : String.compare s s = Eq.
Proof. induction s as [|c s IH]; [done|]. cbn. unfold Ascii.compare. by rewrite N.compare_refl. Qed.

Lemma member_insert_eq k v (ms : record) : member k (insert_member k v ms) = Some v.
Proof.
  induction ms as [|[k' v'] ms IH]; cbn; [by rewrite String.eqb_refl|].
  destruct (String.compare k k') eqn:Hc; cbn; [by rewrite String.eqb_refl..|].
  destruct (String.eqb_spec k' k) as [->|_]; [|done].
  by rewrite compare_refl in Hc.
Qed.

Lemma member_insert_ne k k' v (ms : record) : k ≠ k' → member k (insert_member k' v ms) = member k ms.
Proof.
  intros Hne. apply String.eqb_neq in Hne as Hne'. rewrite String.eqb_sym in Hne'.
  induction ms as [|[k2 v2] ms IH]; cbn; [by rewrite Hne'|].
  destruct (String.compare k' k2) eqn:Hc; cbn; rewrite ?Hne'; [|done|by rewrite IH].
  apply String.compare_eq_iff in Hc as <-. by rewrite Hne'.
Qed.

Definition contract_metadata (testCase : Case) : testMetadata :=
  mkTestMetadata (Case_ID testCase) ["test_case"] true (default [] (Case_Absent testCase)) false.

Definition contract_values (testCase : Case) : record := [("test_case", JString (Case_ID testCase))].

Lemma decode_texts fs : decode_all decode_text (JString <$> fs) = inr fs.
Proof. induction fs as [|f fs IH]; [done|]. cbn. by rewrite IH. Qed.

Lemma validateCase_id testCase : validateCase testCase = None → Case_ID testCase ≠ "".
Proof.
  unfold validateCase. destruct (safeID (Case_ID testCase)) eqn:Hs; [|done]. cbn [negb].
  intros _ He. by rewrite He in Hs.
Qed.

(** The comparison reads back what was written for the case. *)
Lemma expectation_identified testCase :
  validateCase testCase = None →
  identified (expectation testCase) (contract_metadata testCase) (contract_values testCase).
Proof.
  intros Hv. split_and!; [|by apply validateCase_id|].
  - unfold getTestMetadata, expectation. rewrite member_insert_eq.
    unfold contract_metadata. destruct (Case_Absent testCase) as [fs|]; cbn; [by rewrite decode_texts|done].
  - unfold selectorValues, contract_metadata, contract_values. cbn [matchFields testMetadata_MatchOn selector_loop].
    unfold lookupField. change (Split "test_case" ".") with ["test_case"]. cbn [lookup_path].
    unfold expectation. by rewrite member_insert_ne, member_insert_eq.
Qed.

(** The records of a case in the output. *)
Definition of_case (testCase : Case) (a : record) : Prop := member "test_case" a = Some (JString (Case_ID testCase)).

Lemma carries_contract testCase a : carriesValues a (contract_values testCase) = true ↔ of_case testCase a.
Proof.
  unfold carriesValues, contract_values, of_case. cbn [forallb]. unfold lookupField.
  change (Split "test_case" ".") with ["test_case"]. cbn [lookup_path]. rewrite andb_true_r.
  destruct (member "test_case" a) as [v|]; [|done]. unfold DeepEqual. rewrite bool_decide_eq_true.
  by split; [intros ->|intros [= ->]].
Qed.

(** ** What a contract demands of the output *)

Lemma elem_of_find actual values i :
  i ∈ findActualRecords actual values ↔ ∃ a, actual !! i = Some a ∧ carriesValues a values = true.
Proof.
  unfold findActualRecords. rewrite list_elem_of_fmap. split.
  - intros ([j a] & -> & [Hc Hin]%list_elem_of_filter). apply elem_of_lookup_imap in Hin as (k & b & [= -> ->] & Hk).
    by exists b.
  - intros (a & Ha & Hc). exists (i, a). split; [done|]. apply list_elem_of_filter. split; [done|].
    apply elem_of_lookup_imap. by exists i, a.
Qed.

Lemma NoDup_find actual values : NoDup (findActualRecords actual values).
Proof.
  eapply sublist_NoDup; [|apply fmap_sublist, sublist_filter].
  rewrite fmap_imap. unfold compose. cbn. rewrite imap_seq_0, list_fmap_id. apply NoDup_seq.
Qed.

Lemma find_one actual values i :
  findActualRecords actual values = [i] ↔
  ∃ a, actual !! i = Some a ∧ carriesValues a values = true ∧
    ∀ j b, actual !! j = Some b → carriesValues b values = true → j = i.
Proof.
  split.
  - intros Hf. assert (Hi : i ∈ findActualRecords actual values) by (rewrite Hf; left).
    apply elem_of_find in Hi as (a & Ha & Hc). exists a. split_and!; [done..|]. intros j b Hb Hcb.
    apply list_elem_of_singleton. rewrite <- Hf. apply elem_of_find. by exists b.
  - intros (a & Ha & Hc & Hu). apply Permutation_singleton_r, NoDup_Permutation;
      [apply NoDup_find|apply NoDup_singleton|]. intros j. rewrite elem_of_find, list_elem_of_singleton. split.
    + intros (b & Hb & Hcb). by eapply Hu.
    + intros ->. by exists a.
Qed.

(** The i-th record of the output is the only one of the case, it has what the case expects,
    and the fields that the case wants absent are absent. *)
Definition contract_met (actual : list record) (testCase : Case) (i : nat) : Prop :=
  ∃ a, actual !! i = Some a ∧ of_case testCase a ∧
    (∀ j b, actual !! j = Some b → of_case testCase b → j = i) ∧
    isSubset (stated_fields (expectation testCase)) a = true ∧
    Forall (λ field, lookupField a field = None) (default [] (Case_Absent testCase)).

Lemma corresponds_contract actual file testCase i :
  validateCase testCase = None →
  corresponds actual [] file (expectation testCase) i ↔ contract_met actual testCase i.
Proof.
  intros Hv. pose proof (expectation_identified testCase Hv) as Hid.
  assert (Hcmp : ∀ a, compareRecord (expectation testCase) a (contract_metadata testCase) = true ↔
    isSubset (stated_fields (expectation testCase)) a = true ∧
    Forall (λ field, lookupField a field = None) (default [] (Case_Absent testCase))).
  { intros a. unfold compareRecord. cbn [contract_metadata testMetadata_Partial testMetadata_Absent negb].
    rewrite andb_true_iff, <- (Is_true_true (forallb _ _)), forallb_True. apply and_iff_compat_l. apply Forall_proper; [|done]. intros field.
    rewrite Is_true_true, negb_true_iff, bool_decide_eq_false, <- eq_None_not_Some. done. }
  split.
  - intros Hc. destruct (corresponds_inv _ _ _ _ _ _ _ Hc Hid) as (_ & Hf & a & Ha & Hcmp').
    apply find_one in Hf as (a' & Ha' & Hca & Hu). rewrite Ha in Ha'. injection Ha' as <-.
    apply Hcmp in Hcmp' as [Hs Hab]. exists a. split_and!; [done|by apply carries_contract| |done..].
    intros j b Hb Hcb. by apply (Hu j b), carries_contract.
  - intros (a & Ha & Hca & Hu & Hs & Hab). exists (contract_metadata testCase), (contract_values testCase), a.
    split_and!; [done..| |done|by apply Hcmp]. apply find_one. exists a.
    split_and!; [done|by apply carries_contract|]. intros j b Hb Hcb. by apply (Hu j b), carries_contract.
Qed.

(** The cases that the configuration has a parser for. *)
Definition runnable (available : list string) (cases : list Case) : list Case :=
  filter (λ c, existsb (String.eqb (Case_Parser c)) available = true) cases.

Lemma prepare_cases_expectations available cases p p' :
  prepare_cases available cases p = (p', None) →
  Forall (λ c, validateCase c = None) cases ∧
  Prepared_expectations p' = Prepared_expectations p ++ (expectation <$> runnable available cases).
Proof.
  revert p. induction cases as [|c cases IH]; intros p; cbn [prepare_cases].
  - intros [= <-]. split; [constructor|]. by rewrite app_nil_r.
  - destruct (validateCase c) eqn:Hv; [done|]. unfold runnable. rewrite filter_cons.
    destruct (existsb (String.eqb (Case_Parser c)) available) eqn:Ha; cbn [negb]; intros Hp;
      apply IH in Hp as [Hf He]; (split; [by constructor|]); cbn [Prepared_expectations] in He.
    + by rewrite decide_True, He, fmap_cons, <- app_assoc.
    + by rewrite decide_False, He.
Qed.

(** ** Coverage of the parsers *)

Lemma covers_insert covered c parser m :
  covers (<[Case_Parser c := <[Case_Match c := true]> (default ∅ (covered !! Case_Parser c))]> covered) parser m = true ↔
  covers covered parser m = true ∨ Case_Parser c = parser ∧ Case_Match c = m.
Proof.
  unfold covers. destruct (decide (Case_Parser c = parser)) as [->|Hp].
  - rewrite lookup_insert_eq. unfold default at 2, id. destruct (decide (Case_Match c = m)) as [->|Hm].
    + rewrite lookup_insert_eq. naive_solver.
    + rewrite lookup_insert_ne by done. naive_solver.
  - rewrite lookup_insert_ne by done. naive_solver.
Qed.

Lemma CoveredParsers_covers manifest parser m :
  covers (CoveredParsers manifest) parser m = true ↔
  ∃ c, c ∈ manifest ∧ Case_Parser c = parser ∧ Case_Match c = m.
Proof.
  unfold CoveredParsers.
  enough (∀ covered, covers (foldl (λ covered c,
      <[Case_Parser c := <[Case_Match c := true]> (default ∅ (covered !! Case_Parser c))]> covered) covered manifest)
      parser m = true ↔
    covers covered parser m = true ∨ ∃ c, c ∈ manifest ∧ Case_Parser c = parser ∧ Case_Match c = m) as Hall.
  { rewrite Hall. split; [intros [Hf|]; [|done]|by right]. unfold covers in Hf. by rewrite lookup_empty in Hf. }
  induction manifest as [|c cs IH]; intros covered; cbn [foldl].
  - split; [by left|]. intros [|(c & []%elem_of_nil & _)]; done.
  - rewrite IH, covers_insert. setoid_rewrite elem_of_cons. naive_solver.
Qed.

(** Nothing is missing exactly when every parser has a case that matches and one that does not. *)
Lemma MissingCases_nil manifest parsers :
  MissingCases manifest parsers = [] ↔
  ∀ parser m, parser ∈ parsers → ∃ c, c ∈ manifest ∧ Case_Parser c = parser ∧ Case_Match c = m.
Proof.
  setoid_rewrite <- CoveredParsers_covers. unfold MissingCases, sort_Strings.
  set (missing := parsers ≫= _).
  trans (missing = []).
  { pose proof (merge_sort_Permutation string_le missing) as Hp. split; intros He; rewrite He in Hp.
    - symmetry. by apply Permutation_nil_l.
    - rewrite He. done. }
  unfold missing. clear missing.
  induction parsers as [|parser parsers IH]; [split; [intros _ ? ? []%elem_of_nil|done]|].
  rewrite bind_cons. setoid_rewrite elem_of_cons.
  destruct (covers (CoveredParsers manifest) parser true) eqn:Ht, (covers (CoveredParsers manifest) parser false) eqn:Hf;
    cbn [app].
  - rewrite IH. split; [|naive_solver]. intros Hall p [] [->|Hin]; auto.
  - split; [done|]. intros Hall. specialize (Hall parser false (or_introl eq_refl)). congruence.
  - split; [done|]. intros Hall. specialize (Hall parser true (or_introl eq_refl)). congruence.
  - split; [done|]. intros Hall. specialize (Hall parser true (or_introl eq_refl)). congruence.
Qed.

(** ** Properties *)

(** A contract that passes.  When [Prepare] accepts the manifest, the expected records that it
    writes match an output, as [CompareLogs] demands, exactly when each case that has a parser has
    one record of its own there, with what it expects and without what it wants absent, and the
    output has no other record. *)
Theorem contracts_pass available cases p actual file :
  prepare_cases available cases (mkPrepared [] service_section [] []) = (p, None) →
  (∃ ks, matched actual [] (pair file <$> Prepared_expectations p) ks ∧ ks ≡ₚ seq 0 (length actual)) ↔
  ∃ ks, Forall2 (contract_met actual) (runnable available cases) ks ∧ ks ≡ₚ seq 0 (length actual).
Proof.
  intros [Hvalid He]%prepare_cases_expectations. rewrite He. cbn [Prepared_expectations app].
  assert (Hv : Forall (λ c, validateCase c = None) (runnable available cases)).
  { apply Forall_forall. intros c [_ Hc]%list_elem_of_filter. by eapply Forall_forall in Hvalid. }
  assert (Hiff : ∀ ks, matched actual [] (pair file <$> (expectation <$> runnable available cases)) ks ↔
    Forall2 (contract_met actual) (runnable available cases) ks); [|by setoid_rewrite Hiff].
  clear He. induction Hv as [|c cs Hc Hcs IH]; intros ks; rewrite ?fmap_cons.
  { split; [by inversion 1|inversion 1; constructor]. }
  split.
  - intros Hm. inversion Hm as [|? ? ? j ks' Hcj Hm'|? ? ? ? Hdj]; subst.
    + constructor; [by eapply corresponds_contract|by apply IH].
    + destruct (dropped_inv _ _ _ _ Hdj (expectation_identified c Hc)) as [Hd _]. done.
  - intros Hm. inversion Hm as [|? j ? ks' Hcj Hm']; subst. constructor; [by apply corresponds_contract|by apply IH].
Qed.
