(* ===== verification/PipelineTools.v ===== *)
(** * The tools of the pipeline test: stage/preparing/preparing.go, stage/kubeapi/kubeapi.go and
      main.go of test/fluent-pipeline

    The configuration that the test renders from the operator's templates, the tree of
    container logs that it makes of the fixtures, and the answers of the fake Kubernetes API.
    Files are arguments and results; a write that fails is left out. *)

From S2P Require Import Prelude GoStrings Filepath Api Files Credentials ComponentRun Net.
From S2P Require Import PipelineTest.

(** ** preparing.go *)

Definition sourceConfigPath : string := "/config-templates.d".
Definition targetConfigPath : string := "/configuration.d".
Definition containerLogsRoot : string := "logs/containers".

(** [filepath.Split]: the directory with its slash. *)
Definition dir_name (path : string) : string := slice_to (len path - len (file_name path)) path.

Definition TrimPrefix (s prefix : string) : string := if HasPrefix s prefix then slice_from (len prefix) s else s.

(** The directory below the target and the file that a fixture is written to; other files are
    ignored. *)
Definition fixture_target (path : string) : option (string * string) :=
  let dirs := dir_name path in
  if HasPrefix dirs containerLogsRoot then
    let deploymentName := ReplaceAll (TrimPrefix (slice_to (len dirs - 1) dirs) (containerLogsRoot +:+ "/")) "/" "-" in
    Some (Join ["/var/log/pods/";
                "test-namespace_" +:+ deploymentName +:+ "_" +:+ "100000000000000000000000000000000000";
                file_name path], "0.log")
  else None.

(** What [fs.WalkDir] visits: the path, and whether it is a directory, when it has an entry. *)
Definition Visit : Type := string * option bool.

(** The files that are written, up to the first that cannot be read; a missing root panics. *)
Fixpoint readInputLogs (read : string → error + string) (targetDir : string) (visits : list Visit) :
    list (string * string) * outcome unit :=
  match visits with
  | [] => ([], Ret tt)
  | (_, None) :: _ => ([], Panic)
  | (_, Some true) :: visits => readInputLogs read targetDir visits
  | (path, Some false) :: visits =>
      match read path with
      | inl err => ([], Fail err)
      | inr bytes =>
          let '(written, r) := readInputLogs read targetDir visits in
          match fixture_target path with
          | None => (written, r)
          | Some (dir, name) => ((Join [targetDir; dir; name], bytes) :: written, r)
          end
      end
  end.

Definition placeholderCredentials : outputCredentials :=
  let values := mkAuthValues "placeholder-token" "placeholder-user" "placeholder-password" in
  mkOutputCredentials values values values.

Section rendering.
Context {Params : Type}.
Variable ParseTemplate : string → string → Params → error + string.
Variable read : string → error + string.

Fixpoint fill_templates (directoryPath : string) (parameters : Params) (visits : list Visit) (data : smap) :
    error + smap :=
  match visits with
  | [] => inr data
  | (_, None) :: _ =>
      inl (errors_New ("directory " +:+ quoted directoryPath
             +:+ " is not found. Probably you forgot to mount configuration templates"))
  | (filePath, Some isDir) :: visits =>
      if isDir then fill_templates directoryPath parameters visits data
      else
        match read (Join [directoryPath; filePath]) with
        | inl err => inl err
        | inr configPart =>
            match ParseTemplate configPart filePath parameters with
            | inl err => inl err
            | inr text => fill_templates directoryPath parameters visits (<[file_name filePath := text]> data)
            end
        end
  end.

Definition fillConfigurationTemplates (directoryPath : string) (parameters : Params) (visits : list Visit) :
    error + smap := fill_templates directoryPath parameters visits ∅.
End rendering.

(** The configuration of an agent; none when the custom resource lacks the agent's part. *)
Definition getConfiguration `{Externals} (read : string → error + string) (visits : list Visit) (agent : Agent)
    (cr : LoggingService) : option (error + smap) :=
  let parameters := mkTemplateParameters (ToParams cr) placeholderCredentials in
  match fillConfigurationTemplates (ParseTemplate _) read sourceConfigPath parameters visits with
  | inl err => Some (inl err)
  | inr data => inr <$> UpdateCustomConfiguration agent data cr
  end.

(** The files that hold the data. *)
Definition saveDataToDirectory (dir : string) (data : smap) : gmap string string :=
  kmap (path_Join dir) data.

(** ** kubeapi.go *)

Record Answer : Type := mkAnswer {
  Answer_Status : Z;
  Answer_Body : string;
}.

(** The regular expression [^/api/v1/namespaces/([^/]+)/pods/([^/]+)$]. *)
Definition podRequest (path : string) : option (string * string) :=
  match Split path "/" with
  | [""; "api"; "v1"; "namespaces"; namespace; "pods"; pod] =>
      if String.eqb namespace "" || String.eqb pod "" then None else Some (namespace, pod)
  | _ => None
  end.

Section answers.
Context `{Encodings}.

(** Metadata without annotations and labels. *)
Definition plain_pod (namespace pod : string) : JSON :=
  JObject [("apiVersion", JString "v1"); ("kind", JString "Pod");
           ("metadata", JObject [("name", JString pod); ("namespace", JString namespace)]);
           ("status", JObject [("phase", JString "Running")])].

Definition answer (metadataDir path : string) (read : string → error + string) : Answer :=
  match podRequest path with
  | None => mkAnswer 404 ("404 page not found" +:+ newline)
  | Some (namespace, pod) =>
      match read (Join [metadataDir; namespace +:+ "_" +:+ pod +:+ ".json"]) with
      | inr body => mkAnswer 200 body
      | inl _ => mkAnswer 200 (json_Marshal (plain_pod namespace pod))
      end
  end.
End answers.

(** ** main.go *)

Inductive Stage : Type := StageTest | StageParserContracts | StagePrepare | StageRender | StageKubeApi.

(** The stage of the flag; without one the process ends with 1. *)
Definition stage_of (stage : string) : option Stage :=
  if EqualFold stage "test" then Some StageTest
  else if EqualFold stage "prepare-parser-contracts" then Some StageParserContracts
  else if EqualFold stage "prepare" then Some StagePrepare
  else if EqualFold stage "render" then Some StageRender
  else if EqualFold stage "kube-api" then Some StageKubeApi
  else None.

(** ** The test renders what the operator renders *)

Section same_rendering.
Context {Params : Type}.
Variable ParseTemplate : string → string → Params → error + string.
Variable parameters : Params.

(** The name of a template is only for its errors. *)
Hypothesis ParseTemplate_name : ∀ text path path' r,
  ParseTemplate text path parameters = inr r → ParseTemplate text path' parameters = inr r.

(** The files of a directory, rendered one after the other. *)
Fixpoint render_all (assets : FS) (files : list (string * string)) (data : smap) : error + smap :=
  match files with
  | [] => inr data
  | (name, path) :: files =>
      match rendered ParseTemplate assets parameters path with
      | inl err => inl err
      | inr text => render_all assets files (<[name := text]> data)
      end
  end.

Lemma render_all_app assets fs1 fs2 data :
  render_all assets (fs1 ++ fs2) data =
  match render_all assets fs1 data with inl err => inl err | inr data => render_all assets fs2 data end.
Proof.
  revert data. induction fs1 as [|[name path] fs1 IH]; intros data; [done|]. cbn.
  by destruct (rendered _ _ _ _).
Qed.

Lemma render_files_all assets dir names data :
  render_files ParseTemplate assets parameters dir names data =
  render_all assets ((λ n, (n, path_Join dir n)) <$> names) data.
Proof.
  revert data. induction names as [|n names IH]; intros data; [done|]. cbn.
  unfold render_file, rendered. by destruct (ParseTemplate _ _ _).
Qed.

Lemma render_entries_all assets dir entries data data' :
  render_entries ParseTemplate assets parameters dir entries data = inr data' →
  ∃ files, entry_files assets dir entries = inr files ∧ render_all assets files data = inr data'.
Proof.
  revert data. induction entries as [|[n isDir] entries IH]; intros data; cbn; [intros [= <-]; by exists []|].
  destruct isDir.
  - destruct (FS_ReadDir assets (path_Join dir n)) as [|configs]; [done|]. rewrite render_files_all.
    destruct (render_all assets _ data) as [|d1] eqn:Hf; [done|]. intros (files & -> & Hr)%IH.
    eexists. split; [done|]. rewrite render_all_app. rewrite <- list_fmap_compose in Hf. unfold compose in Hf.
    by rewrite Hf.
  - unfold render_file. destruct (ParseTemplate _ _ _) as [|text] eqn:Hf; [done|]. intros (files & -> & Hr)%IH.
    eexists. split; [done|]. cbn. unfold rendered. by rewrite Hf.
Qed.

(** The walk visits the files of the directory, in the order of its listing. *)
Inductive visited (assets : FS) (read : string → error + string) (mount : string) :
    list Visit → list (string * string) → Prop :=
| visited_nil : visited assets read mount [] []
| visited_dir path visits files :
    visited assets read mount visits files → visited assets read mount ((path, Some true) :: visits) files
| visited_file path visits name path' files :
    file_name path = name → read (Join [mount; path]) = inr (MustAssetReader assets path') →
    visited assets read mount visits files →
    visited assets read mount ((path, Some false) :: visits) ((name, path') :: files).

Lemma fill_templates_all assets read mount visits files data data' :
  visited assets read mount visits files → render_all assets files data = inr data' →
  fill_templates ParseTemplate read mount parameters visits data = inr data'.
Proof.
  intros Hv. revert data. induction Hv as [|path visits files Hv IH|path visits name path' files Hn Hr Hv IH];
    intros data; cbn [render_all fill_templates]; [done|apply IH|].
  unfold rendered. destruct (ParseTemplate _ path' _) as [|text] eqn:Hp; [done|].
  rewrite Hr, (ParseTemplate_name _ _ path _ Hp), Hn. apply IH.
Qed.

(** The configuration that is tested is the operator's: when the templates are mounted as they
    are embedded and the operator renders them, the test renders the same data. *)
Theorem fillConfigurationTemplates_renders assets read mount visits files dir data :
  directory_files assets dir = inr files → visited assets read mount visits files →
  DataFromDirectory ParseTemplate assets parameters dir = inr data →
  fillConfigurationTemplates ParseTemplate read mount parameters visits = inr data.
Proof.
  unfold directory_files, DataFromDirectory. destruct (FS_ReadDir assets dir) as [|entries]; [done|].
  intros Hf Hv (files' & Hf' & Hr)%render_entries_all. rewrite Hf in Hf'. injection Hf' as <-.
  by eapply fill_templates_all.
Qed.
End same_rendering.
