(* ===== verification/Golden.v ===== *)
(** * Golden: internal/builder/buildertest/golden.go

    The test of the builders: every custom resource of testdata is a subtest, in which the
    objects that a builder makes of it are compared, as YAML, with the files of the builder's
    own testdata, or replace them when the test runs with -update.  The YAML package, cmp
    and the files are classes. *)

From S2P Require Import Prelude GoStrings Filepath Api.

(** ** What the test calls *)

Class GoldenRuntime (W Obj : Type) := {
  Glob : string → W → error + list string;
  ReadFile : string → M W string;
  MkdirAll : string → M W unit;
  WriteFile : string → string → M W unit;
  (** What a file holds. *)
  content : W → string → option string;
  UnmarshalStrict : string → error + LoggingService;
  Marshal : Obj → error + string;
  Diff : string → string → string;
}.

Class GoldenLaws (W Obj : Type) `{GoldenRuntime W Obj} : Prop := {
  ReadFile_spec p w :
    wp (ReadFile p) (λ c w', w' = w ∧ content w p = Some c) (λ _ w', w' = w) w;
  ReadFile_reads p c w : content w p = Some c → ReadFile p w = (w, Ret c);
  MkdirAll_spec p w : wp (MkdirAll p) (λ _ w', content w' = content w) (λ _ w', content w' = content w) w;
  WriteFile_spec p c w :
    wp (WriteFile p c)
      (λ _ w', content w' p = Some c ∧ ∀ q, q ≠ p → content w' q = content w q)
      (λ _ w', ∀ q, q ≠ p → content w' q = content w q) w;
  Diff_equal a b : Diff a b = "" ↔ a = b;
}.

(** The running test: the world, the errors of the current subtest, and the outcomes of the
    ones before: passed, or not. *)
Record test (W : Type) : Type := mkTest {
  test_world : W;
  test_errors : list string;
  test_outcomes : list (string * bool);
}.
Arguments mkTest {_} _ _ _.
Arguments test_world {_} _.
Arguments test_errors {_} _.
Arguments test_outcomes {_} _.

Section golden.
Context {W Obj : Type} `{GoldenRuntime W Obj}.

(** [*update], the flag of the test. *)
Variable update : bool.

Definition casesDir : string := "../testdata".

(** [Build]: the objects by the name of their file, none when there is nothing to build. *)
Definition Build : Type := LoggingService → gmap string Obj.

Definition on_world {A} (m : M W A) : M (test W) A := λ s,
  let '(w, r) := m (test_world s) in (mkTest w (test_errors s) (test_outcomes s), r).

(** [t.Errorf]; [t.Fatalf], which also ends the subtest; [t.Skip], which ends it only. *)
Definition Errorf (msg : string) : M (test W) unit :=
  modify (λ s, mkTest (test_world s) (test_errors s ++ [msg]) (test_outcomes s)).

Definition Fatalf {A} (msg : string) : M (test W) A := Errorf msg;; fail (errors_New msg).

Definition Skip {A} : M (test W) A := fail (errors_New "skip").

(** [if err != nil { t.Fatalf(...) }] *)
Definition or_fatal {A} (msg : string) (m : M (test W) A) : M (test W) A :=
  r ← attempt m;
  match r with inl err => Fatalf (msg +:+ ": " +:+ err_msg err) | inr a => mret a end.

Definition readCR (file : string) : M (test W) LoggingService :=
  raw ← or_fatal ("read " +:+ file) (on_world (ReadFile file));
  or_fatal ("parse " +:+ file) (of_sum (UnmarshalStrict raw)).

Definition compare (path : string) (object : Obj) : M (test W) unit :=
  got ← or_fatal ("marshal " +:+ path) (of_sum (Marshal object));
  if update then
    or_fatal ("create " +:+ Dir path) (on_world (MkdirAll (Dir path)));;
    or_fatal ("write " +:+ path) (on_world (WriteFile path got))
  else
    want ← or_fatal ("read " +:+ path) (on_world (ReadFile path));
    let diff := Diff want got in
    if negb (String.eqb diff "") then Errorf (path +:+ " differs from the builder output: " +:+ diff)
    else mret tt.

(** [t.Run(name, f)]: [f] starts without errors; a failure of it fails the test, which goes on. *)
Definition subtest (name : string) (f : M (test W) unit) : M (test W) unit := λ s,
  match f (mkTest (test_world s) [] (test_outcomes s)) with
  | (s', Panic) => (s', Panic)
  | (s', _) =>
      (mkTest (test_world s') (test_errors s)
         (test_outcomes s' ++ [(name, bool_decide (test_errors s' = []))]), Ret tt)
  end.

Definition golden_path (name key : string) : string :=
  Filepath.Join ["testdata"; name; key +:+ ".yaml"].

(** The body of a subtest. *)
Definition golden_case (build : Build) (file name : string) : M (test W) unit :=
  cr ← readCR file;
  let objects := build cr in
  if bool_decide (objects = ∅) then Skip
  else for_each (sort_Strings (map_to_list objects).*1) (λ key,
    object ← deref (objects !! key);
    compare (golden_path name key) object).

Definition Run (build : Build) : M (test W) unit :=
  files ← gets (λ s, Glob (Filepath.Join [casesDir; "*.yaml"]) (test_world s));
  match files with
  | inl _ | inr [] => Fatalf ("no test cases in " +:+ casesDir)
  | inr files =>
      for_each files (λ file,
        let name := TrimSuffix (Base file) ".yaml" in
        subtest name (golden_case build file name))
  end.

(** ** Comparing and updating *)

Context `{!GoldenLaws W Obj}.

Lemma wp_on_world {A} (m : M W A) Q E s :
  wp (on_world m) Q E s ↔
  wp m (λ a w, Q a (mkTest w (test_errors s) (test_outcomes s)))
    (λ e w, E e (mkTest w (test_errors s) (test_outcomes s))) (test_world s).
Proof. unfold wp, on_world. by destruct (m (test_world s)) as [w [a|e|]]. Qed.

Lemma wp_Fatalf {A} msg (Q : A → test W → Prop) E s :
  E (errors_New msg) (mkTest (test_world s) (test_errors s ++ [msg]) (test_outcomes s)) →
  wp (Fatalf msg) Q E s.
Proof. intros HE. unfold Fatalf, Errorf. by wp_simpl. Qed.

(** An error becomes one of the test, which ends the subtest. *)
Lemma wp_or_fatal {A} msg (m : M (test W) A) Q E s :
  wp m Q (λ _ s', ∀ msg', E (errors_New msg') (mkTest (test_world s') (test_errors s' ++ [msg']) (test_outcomes s'))) s →
  wp (or_fatal msg m) Q E s.
Proof.
  intros Hm. unfold or_fatal. rewrite wp_bind, wp_attempt. eapply wp_mono; [exact Hm|done|].
  intros e s' HE. by apply wp_Fatalf.
Qed.
End golden.

(** A comparison that does not panic leaves the files alone, and reports nothing exactly when
    the file is there with the YAML of the object. *)
Lemma compare_reports {W Obj} `{GoldenLaws W Obj} path object s got :
  Marshal object = inr got →
  wp (compare false path object)
    (λ _ s', test_world s' = test_world s ∧
       (test_errors s' = test_errors s ↔ content (Obj:=Obj) (test_world s) path = Some got))
    (λ _ s', test_errors s' ≠ test_errors s) s.
Proof.
  intros Hgot. unfold compare. rewrite Hgot. wp_simpl. apply wp_or_fatal. wp_simpl. apply wp_or_fatal.
  rewrite wp_on_world. eapply wp_mono; [apply ReadFile_spec| |].
  - intros want w (-> & Hc). cbn. destruct (String.eqb_spec (Diff (W:=W) (Obj:=Obj) want got) "") as [Hd|Hd]; cbn [negb].
    + wp_simpl. cbn. apply Diff_equal in Hd as ->. done.
    + unfold Errorf. wp_simpl. cbn. split; [done|]. rewrite Hc. split.
      * intros Hn. apply (f_equal length) in Hn. rewrite length_app in Hn. cbn in Hn. lia.
      * intros [= ->]. by destruct Hd; apply Diff_equal.
  - intros e w -> msg'. cbn. intros Hn. apply (f_equal length) in Hn. rewrite length_app in Hn. cbn in Hn. lia.
Qed.

(** An update that reports nothing leaves the file as a comparison wants it, and no other
    file is touched. *)
Lemma compare_updates {W Obj} `{GoldenLaws W Obj} path object s got :
  Marshal object = inr got →
  wp (compare true path object)
    (λ _ s', test_errors s' = test_errors s ∧ content (Obj:=Obj) (test_world s') path = Some got ∧
       ∀ q, q ≠ path → content (Obj:=Obj) (test_world s') q = content (Obj:=Obj) (test_world s) q)
    (λ _ s', test_errors s' ≠ test_errors s ∧
       ∀ q, q ≠ path → content (Obj:=Obj) (test_world s') q = content (Obj:=Obj) (test_world s) q) s.
Proof.
  assert (∀ (es : list string) e, es ++ [e] ≠ es) as Hlen
    by (intros es e Hn; apply (f_equal length) in Hn; rewrite length_app in Hn; cbn in Hn; lia).
  intros Hgot. unfold compare. rewrite Hgot. wp_simpl. apply wp_or_fatal. wp_simpl. apply wp_or_fatal.
  rewrite wp_on_world. eapply wp_mono; [apply MkdirAll_spec| |].
  - intros [] w Hw. apply wp_or_fatal. rewrite wp_on_world. eapply wp_mono; [apply WriteFile_spec| |]; cbn.
    + intros [] w' [Hc Ho]. split_and!; [done..|]. intros q Hq. by rewrite Ho, Hw.
    + intros e w' Ho msg'. split; [apply Hlen|]. intros q Hq. by rewrite Ho, Hw.
  - intros e w Hw msg'. cbn. split; [apply Hlen|]. intros q _. by rewrite Hw.
Qed.
